(* ===== verification/_CoqProject ===== *)
-Q . S2P
Prelude.v
Numbers.v
Kube.v
Api.v
Resources.v
Password.v
Users.v
Olm.v
Quota.v
Pods.v
Keycloak.v
RateLimit.v
Cro.v
Envoy.v
Config.v
Cluster.v
QuotaData.v
Addon.v
Alerts.v
CloudAlerts.v
UsageAlerts.v
OboAlerts.v
Backup.v
Marketplace.v
Reconciler.v
Marin3rReconciler.v
RhssoCommon.v
Metrics.v
Custom.v
ProductAlerts.v
AlertManager.v
Products.v
Session.v
Tenants.v
PodDistribution.v
Rhsso.v
RhssoUser.v
ThreeScaleClient.v
ThreeScaleUsers.v
ThreeScaleTenants.v
ThreeScaleLimits.v
ThreeScaleApim.v
ThreeScaleResources.v
ThreeScalePortals.v
Subscriptions.v
Stages.v
Preflight.v
Uninstall.v
CloudResourcesReconciler.v
Bootstrap.v
Installation.v
Controllers.v
FakeCluster.v
Examples.v
ProductExamples.v
TenantExamples.v
SubscriptionExamples.v
ControllerExamples.v
CroExamples.v
BootstrapExamples.v
RhssoExamples.v
