(* ===== verification/Prelude.v ===== *)
(** * A verification development of the RHOAM (integreatly) operator

    The operator installs, upgrades and removes Red Hat OpenShift API
    Management on a cluster.  Its installation controller reconciles one
    custom resource, RHMI: after preflight checks it goes through install
    stages, each a set of products with a reconciler of their own, and when
    every stage is complete it records the version it has installed; when the
    resource is deleted it goes through uninstall stages and then removes
    itself.  The development models this controller and what it is built on,
    as executable functions of the world the controller runs in, and proves
    what each part promises.

    ** Modelling

    Go functions that reach the cluster, the environment, the clock or the
    metrics are functions of a world [W] into an [outcome] and the world
    after ([M W A] below): a panic is an outcome, and the calls made before it
    have happened.  Errors are values; only what errors.As can still see of
    an error is kept apart from its text.  Pointers shared by calls are
    modelled as state that calls read and write: the installation, the config
    manager, the quota and the stage tables of one reconcile are the fields
    of the record Session of Session.v.  The order of a Go range over a map is
    asked of the world, so nothing proved depends on it.  Code outside of
    this repository is reached through type classes on [W] (the API client,
    the environment, the event recorder, Prometheus, informers, YAML,
    quantities); their laws are hypotheses of the theorems that need them, and
    FakeCluster.v implements them all.

    ** Files

    - Prelude.v, this file: outcomes, the monad, errors, the strings, numbers
      and maps of Go, tactics and the lemmas shared by all components.
    - Kube.v: object metadata, the API client, CreateOrUpdate, a fake client.
    - Api.v: api/v1alpha1, the custom resource, its status and conditions.
    - Numbers.v: float64, 64-bit integers and durations of the Go library.
    - Olm.v: objects of the operator lifecycle manager and of OpenShift.
    - Resources.v: pkg/resources: slices, finalizers, object queries,
      ReconcileFinalizer, events, the steps of a product's reconcile.
    - Quota.v: pkg/resources/quota: reading a quota and applying it to
      workloads.  QuotaData.v: the quotas pkg/addon/quota.go ships.
    - Pods.v: what the operator does to the pods of a deployment
      (podAntiAffinity.go, topologyConstraints.go, podTemplate.go,
      podPriority.go), limit ranges (limitRange.go), Configure on deployments.
    - Marketplace.v: pkg/resources/marketplace: installing an operator through
      a catalog source and a subscription.
    - Reconciler.v: pkg/resources/reconciler.go with pullSecret.go and
      installPlan.go: what all product reconcilers share.  It reaches the
      marketplace through the class MarketplaceInterface, which Marketplace.v
      implements.
    - Users.v: pkg/resources/user: users of the cluster, their identities and
      the names of tenants.  Custom.v: pkg/resources/custom-smtp and
      custom-domain.
    - Backup.v: pkg/resources/backup, run before an operator is upgraded.
    - Cro.v, Envoy.v: cloud resources and Envoy sidecars.
    - Alerts.v, CloudAlerts.v: prometheusRules.go and metrics.go.
    - RateLimit.v, UsageAlerts.v, Marin3rReconciler.v: pkg/products/marin3r,
      the rate limit service, its alerts and the product's Reconcile.
    - OboAlerts.v, ProductAlerts.v: the alerts of the operator itself
      (pkg/products/obo/prometheusRules.go) and of every other product, with
      the facts that hold of all of them.  AlertManager.v: the configuration of
      Alertmanager and its templates (pkg/products/obo).
    - Config.v: pkg/config: the config of each product and the config map it
      is kept in.
    - Cluster.v: cluster and operator versions, STS, cluster package.
    - Addon.v: pkg/addon: add-on parameters, how the operator was installed,
      its own uninstall.
    - Metrics.v: the gauges of pkg/metrics that Reconcile sets.
    - Products.v: pkg/products/reconciler.go and the constructors of the
      product reconcilers.
    - Session.v: internal/controller/rhmi/types.go and the shared state.
    - Stages.v, Preflight.v, Uninstall.v, Installation.v: the controller,
      internal/controller/rhmi/rhmi_controller.go.
    - Bootstrap.v: the stage before all others, bootstrapReconciler.go; its
      definition implements the interface BootstrapInterface of Stages.v.
    - Tenants.v: internal/controller/tenant, the controller of a customer's
      tenants of a multitenant installation.
    - CloudResourcesReconciler.v: pkg/products/cloudresources, the product
      that makes databases and storage.
    - Keycloak.v: the kinds of keycloak.org and the API of a Keycloak.
      RhssoCommon.v: pkg/products/rhssocommon and pkg/resources/rhsso.go, what
      the two single sign-ons share.  Rhsso.v, RhssoUser.v: their Reconciles,
      pkg/products/rhsso and pkg/products/rhssouser.
    - Subscriptions.v: internal/controller/subscription, which approves the
      upgrades of the operator itself.  PodDistribution.v: the spreading of
      pods over zones (pkg/resources/poddistribution).  Controllers.v: the
      small controllers (namespacelabel, status, user), the watches, and the
      definitions that implement the interface ReconcileHelpers.
    - FakeCluster.v, Examples.v, ProductExamples.v, TenantExamples.v,
      SubscriptionExamples.v, ControllerExamples.v, CroExamples.v,
      BootstrapExamples.v and RhssoExamples.v: a concrete cluster, and the
      theorems at concrete inputs.

    ** What is shown

    - Installing (Stages.v, Installation.v): the stage loop refines a step
      relation that takes a stage only after a completed one; when it stops,
      every stage before is complete; the installed version changes only
      when all stages are complete without a version mismatch.
    - Preflight (Preflight.v): success is recorded only when every check
      passed, and what each check then has established.
    - Uninstalling (Uninstall.v): what has happened when the uninstall is
      reported finished, and when a product counts as uninstalled.
    - Bootstrapping (Bootstrap.v): the stage is complete only after each of its
      steps; secrets of OAuth clients and tenants are kept once they are made
      and redundant ones are dropped; the subdomain is never changed.
    - Tenants (Tenants.v): at every moment at most one tenant of a name is
      accepted, as an invariant of all interleavings of the controller and its
      users; when a tenant is ready, and that it becomes ready.
    - Finalizers (Resources.v): what ReconcileFinalizer adds and removes, and
      where duplicates come from and break it.
    - Quotas (Quota.v, QuotaData.v): Configure meets the quota, is idempotent
      and total; the shipped quotas can be selected and are sane.
    - Configs (Config.v): a written config is read back.
    - Operators (Marketplace.v, Reconciler.v): what a subscription is written
      with; it is completed only with a finished install plan and valid CSVs;
      an upgrade is approved only after a backup, and backups end (Backup.v).
    - Namespaces and labels (Reconciler.v), pods (Pods.v).
    - Rate limiting (RateLimit.v, UsageAlerts.v, Marin3rReconciler.v): the
      limits written are the ones of the quota and can be read back, the
      deployment mounts what it reads, the alerts are built from checked
      numbers, and the product is completed only when all its steps are.
    - Cloud resources (CloudResourcesReconciler.v): the product is completed
      only when all its steps are; databases are left behind by no finished
      clean-up; a network range is set once.
    - Single sign-ons (RhssoCommon.v, Rhsso.v, RhssoUser.v): an install is
      completed only when all steps are; the clean-up removes realms last; who
      is a user and who an administrator after the synchronisation; the roles
      a group has; when a pod is restarted; which alerts are exported.
    - Upgrades (Subscriptions.v): which install plans are approved, and why
      some subscriptions never get to be approved by the operator.
    - Removal and users (Controllers.v): who may ask for the removal of the
      installation, what the add-on status reports, who is a developer.  Pods
      (PodDistribution.v): which pods are moved, and that nothing limits it.
    - Alerts (Alerts.v, CloudAlerts.v, ProductAlerts.v): which rules are
      written, and which are never deleted; names are distinct and every rule
      is well formed.
    - Versions, parameters, metrics, stage tables: see their files.

    Recursion follows the lists of the source (stages, products, finalizers,
    namespaces) and needs no fuel, but for two loops: parsing a duration,
    whose fuel is the length of the text (Numbers.duration_parts_fuel), and
    the polling loops of Backup.v, whose fuel is an argument; a turn for every
    nanosecond of the timeout is enough (Backup.poll_fuel).

    ** Not modelled

    The Reconcile of 3scale and Grafana is an interface of the stage
    processing (ProductInterface): one drives the API of 3scale, the other
    installs Grafana.  Of the single sign-ons ReconcileCSVEnvVars is left out,
    which nothing calls; the API of Keycloak, the OAuth clientset and the pod
    metrics are parameters.  The messages Envoy is
    configured with are protobuf values, a parameter of Envoy.v; reading
    manifests from disk, title casing, hashing, JSON and YAML are parameters
    too.  Logging, the half-hour timer of Reconcile and the event handlers of
    the informers are left out: nothing the model keeps depends on them.  The
    registration of webhooks and watches, the entry point, mocks and tests are
    outside of the development. *)

From stdpp Require Import base list strings gmap pretty.
From Stdlib Require Import ZArith Lia Ascii String DecimalString DecimalZ.

(** ** Go programs as functions

    A Go function that talks to the cluster, the environment or the clock is
    a function of the world it runs in.  It ends normally or panics; in both
    cases the world it leaves behind is kept, because the calls made before a
    panic have happened. *)

Inductive outcome (A : Type) : Type :=
  | Done (a : A)
  | Panic (why : string).
Arguments Done {A} _.
Arguments Panic {A} _.

#[global] Instance outcome_ret : MRet outcome := λ A a, Done a.
#[global] Instance outcome_bind : MBind outcome := λ A B f m,
  match m with Done a => f a | Panic s => Panic s end.

Lemma outcome_bind_inv {A B} (m : outcome A) (f : A → outcome B) b :
  mbind f m = Done b → ∃ a, m = Done a ∧ f a = Done b.
Proof. destruct m; simpl; [eauto|discriminate]. Qed.

Definition M (W A : Type) : Type := W → outcome A * W.

(** A pure Go function inside one that uses the world. *)
Definition lift {W A : Type} (o : outcome A) : M W A := λ w, (o, w).

#[global] Instance M_ret (W : Type) : MRet (M W) := λ A a w, (Done a, w).

#[global] Instance M_bind (W : Type) : MBind (M W) := λ A B f m w,
  match m w with
  | (Done a, w') => f a w'
  | (Panic s, w') => (Panic s, w')
  end.

Definition panic {W A : Type} (why : string) : M W A := λ w, (Panic why, w).
(** Read something off the world without changing it. *)
Definition reads {W A : Type} (f : W → A) : M W A := λ w, (Done (f w), w).
(** Change the world and return nothing. *)
Definition modifies {W : Type} (f : W → W) : M W unit := λ w, (Done tt, f w).

Declare Scope go_scope.
Delimit Scope go_scope with go.

#[global] Open Scope go_scope.

Create HintDb go discriminated.
Create Rewrite HintDb go.

Section monad_laws.
Context {W A B : Type}.

Lemma run_ret (a : A) (w : W) : (mret a : M W A) w = (Done a, w).
Proof. reflexivity. Qed.

Lemma run_bind (m : M W A) (f : A → M W B) w :
  (mbind f m) w = match m w with
                  | (Done a, w') => f a w'
                  | (Panic s, w') => (Panic s, w')
                  end.
Proof. reflexivity. Qed.

Lemma bind_done_inv (m : M W A) (f : A → M W B) w b w2 :
  (mbind f m) w = (Done b, w2) →
  ∃ a w1, m w = (Done a, w1) ∧ f a w1 = (Done b, w2).
Proof. rewrite run_bind. destruct (m w) as [[a|s] w1]; naive_solver. Qed.

Lemma bind_done (m : M W A) (f : A → M W B) w a w1 :
  m w = (Done a, w1) → (mbind f m) w = f a w1.
Proof. rewrite run_bind. intros ->. reflexivity. Qed.

Lemma bind_reads (g : W → A) (f : A → M W B) w : (mbind f (reads g)) w = f (g w) w.
Proof. reflexivity. Qed.
Lemma bind_ret (a : A) (f : A → M W B) w : (mbind f (mret a)) w = f a w.
Proof. reflexivity. Qed.
Lemma bind_lift (o : outcome A) (f : A → M W B) w :
  (mbind f (lift o)) w = match o with Done a => f a w | Panic s => (Panic s, w) end.
Proof. by destruct o. Qed.
Lemma bind_modifies (g : W → W) (f : unit → M W B) w : (mbind f (modifies g)) w = f tt (g w).
Proof. reflexivity. Qed.
End monad_laws.

#[export] Hint Rewrite @run_ret @bind_reads @bind_ret @bind_lift @bind_modifies : go.

(** *** Frames

    [preserves R m]: however [m] ends, the world it leaves is related by [R]
    to the one it started in. *)
Definition preserves {W A} (R : W → W → Prop) (m : M W A) : Prop :=
  ∀ w r w', m w = (r, w') → R w w'.

Section frames.
Context {W : Type} (R : W → W → Prop) `{!PreOrder R}.

Lemma preserves_ret {A} (a : A) : preserves R (mret a : M W A).
Proof. intros w r w' [= <- <-]. reflexivity. Qed.
Lemma preserves_lift {A} (o : outcome A) : preserves R (lift o : M W A).
Proof. intros w r w' [= <- <-]. reflexivity. Qed.
Lemma preserves_panic {A} s : preserves R (panic s : M W A).
Proof. intros w r w' [= <- <-]. reflexivity. Qed.
Lemma preserves_reads {A} (f : W → A) : preserves R (reads f).
Proof. intros w r w' [= <- <-]. reflexivity. Qed.
Lemma preserves_modifies (f : W → W) : (∀ w, R w (f w)) → preserves R (modifies f).
Proof. intros Hf w r w' [= <- <-]. apply Hf. Qed.
Lemma preserves_bind {A B} (m : M W A) (f : A → M W B) :
  preserves R m → (∀ a, preserves R (f a)) → preserves R (mbind f m).
Proof.
  intros Hm Hf w r w'. rewrite run_bind. destruct (m w) as [[a|why] w1] eqn:E.
  - intros Hb. etransitivity; [by eapply Hm|by eapply Hf].
  - intros [= <- <-]. by eapply Hm.
Qed.
End frames.

#[export] Hint Resolve preserves_ret preserves_lift preserves_panic preserves_reads
  preserves_modifies preserves_bind : go.

(** Equality of a part of the world is such a relation. *)
Definition same {W B} (f : W → B) : W → W → Prop := λ w w', f w' = f w.
#[global] Instance same_preorder {W B} (f : W → B) : PreOrder (same f).
Proof. split; [done|]. intros a b c. unfold same. congruence. Qed.

#[export] Hint Resolve same_preorder : go.

Lemma same_intro {W B} (f : W → B) w w' : f w' = f w → same f w w'.
Proof. done. Qed.

(** [frame] proves [preserves] of a function whose body is built from calls
    that are known to preserve the relation. *)
Ltac frame_step :=
  match goal with
  | |- preserves _ (mret _) => apply preserves_ret; try apply _
  | |- preserves _ (lift _) => apply preserves_lift; try apply _
  | |- preserves _ (panic _) => apply preserves_panic; try apply _
  | |- preserves _ (reads _) => apply preserves_reads; try apply _
  | |- preserves _ (modifies _) =>
      apply preserves_modifies; intros; try (apply same_intro; reflexivity)
  | |- preserves _ (mbind _ _) => apply preserves_bind; [try apply _|..|intros]
  | |- preserves _ (match ?x with _ => _ end) => destruct x
  | H : context [preserves _ _] |- preserves _ _ => apply H
  | |- preserves _ _ => solve [eauto with go]
  end.
Ltac frame := repeat frame_step.

(** [go_inv] takes a hypothesis that a Go function returned normally apart,
    call by call, and branches on every test it meets. *)
Ltac go_inv_step :=
  match goal with
  | H : mret _ _ = (Done _, _) |- _ => rewrite run_ret in H; simplify_eq/=
  | H : panic _ _ = (Done _, _) |- _ => discriminate H
  | H : reads _ _ = (Done _, _) |- _ => unfold reads in H; simplify_eq/=
  | H : modifies _ _ = (Done _, _) |- _ => unfold modifies in H; simplify_eq/=
  | H : mbind _ _ _ = (Done _, _) |- _ =>
      apply bind_done_inv in H as (? & ? & ? & H); simplify_eq/=
  | H : (match ?x with _ => _ end) _ = (Done _, _) |- _ =>
      let E := fresh "E" in destruct x eqn:E; simplify_eq/=
  | H : (Done _, _) = (Done _, _) |- _ => simplify_eq/=
  end.
Ltac go_inv := repeat go_inv_step.

(** [go_run] evaluates a Go function on a concrete or partly known world. *)
Ltac go_run := repeat (rewrite ?run_ret, ?run_bind; simpl).

(** ** Errors

    A Go error value is [option error]: [None] is nil.  [ErrKube] is an API
    status error with its reason; [ErrWrap] is what fmt.Errorf with the wrap
    verb and errors.Wrap build, which keep the wrapped error reachable for
    errors.As; [ErrStr] is any other error, also one built with a value verb,
    which only keeps the text. *)

Inductive kreason := NotFound | AlreadyExists | Forbidden | Conflict | OtherReason.
#[global] Instance kreason_eq_dec : EqDecision kreason.
Proof. solve_decision. Defined.

Inductive error :=
  | ErrStr (msg : string)
  | ErrKube (reason : kreason) (msg : string)
  | ErrWrap (prefix : string) (cause : error).
#[global] Instance error_eq_dec : EqDecision error.
Proof. solve_decision. Defined.

Fixpoint error_msg (e : error) : string :=
  match e with
  | ErrStr m => m
  | ErrKube _ m => m
  | ErrWrap p c => p +:+ error_msg c
  end.

Fixpoint error_reason (e : error) : option kreason :=
  match e with
  | ErrStr _ => None
  | ErrKube r _ => Some r
  | ErrWrap _ c => error_reason c
  end.

Definition has_reason (r : kreason) (e : option error) : bool :=
  match e with
  | Some e => bool_decide (error_reason e = Some r)
  | None => false
  end.
Abbreviation IsNotFound := (has_reason NotFound).
Abbreviation IsForbidden := (has_reason Forbidden).
Abbreviation IsAlreadyExists := (has_reason AlreadyExists).

(** fmt.Errorf with the wrap verb at the end: on a nil error the verb prints
    its own notice. *)
Definition errorf_w (prefix : string) (e : option error) : error :=
  match e with
  | Some e => ErrWrap prefix e
  | None => ErrStr (prefix +:+ "%!w(<nil>)")
  end.
(** fmt.Errorf with the value verb at the end. *)
Definition errorf_v (prefix : string) (e : option error) : error :=
  match e with
  | Some e => ErrStr (prefix +:+ error_msg e)
  | None => ErrStr (prefix +:+ "<nil>")
  end.
(** errors.Wrap of github.com/pkg/errors: nil stays nil. *)
Definition errors_Wrap (e : option error) (msg : string) : option error :=
  (λ e, ErrWrap (msg +:+ ": ") e) <$> e.

Lemma has_reason_wrap r p e : has_reason r (Some (ErrWrap p e)) = has_reason r (Some e).
Proof. reflexivity. Qed.
Lemma has_reason_errors_Wrap r e m : has_reason r (errors_Wrap e m) = has_reason r e.
Proof. by destruct e. Qed.
#[export] Hint Rewrite has_reason_wrap has_reason_errors_Wrap : go.

Definition is_some {A} (o : option A) : bool :=
  match o with Some _ => true | None => false end.
Definition is_none {A} (o : option A) : bool := negb (is_some o).

(** ** Strings of the Go standard library *)

Definition str_eqb (a b : string) : bool := bool_decide (a = b).
Infix "=?s" := str_eqb (at level 70) : go_scope.

Lemma str_eqb_true a b : (a =?s b) = true ↔ a = b.
Proof. apply bool_decide_eq_true. Qed.
Lemma str_eqb_false a b : (a =?s b) = false ↔ a ≠ b.
Proof. apply bool_decide_eq_false. Qed.
Lemma str_eqb_refl a : (a =?s a) = true.
Proof. by apply str_eqb_true. Qed.
#[export] Hint Rewrite str_eqb_refl : go.

(** strings.HasPrefix(s, p) *)
Definition has_prefix (p s : string) : bool := String.prefix p s.

Fixpoint has_char (c : ascii) (s : string) : bool :=
  match s with
  | EmptyString => false
  | String a s' => Ascii.eqb a c || has_char c s'
  end.

(** A separator the prefix does not have is where the search for it ends. *)
Lemma has_prefix_app_sep c p n x :
  has_char c p = false → has_prefix p (n +:+ String c x) = has_prefix p n.
Proof.
  unfold has_prefix. revert n. induction p as [|a p IH]; intros n Hp; [by destruct n|].
  cbn [has_char] in Hp. apply orb_false_iff in Hp as [Ha Hp].
  destruct n as [|b n].
  - change (EmptyString +:+ String c x) with (String c x). cbn [String.prefix].
    destruct (ascii_dec a c) as [->|]; [|done]. by rewrite Ascii.eqb_refl in Ha.
  - change (String b n +:+ ?s) with (String b (n +:+ s)). cbn [String.prefix].
    destruct (ascii_dec a b); [auto|done].
Qed.

(** strings.Contains(s, sub) *)
Fixpoint str_contains (sub s : string) : bool :=
  String.prefix sub s ||
  match s with
  | EmptyString => false
  | String _ s' => str_contains sub s'
  end.

(** strings.ToLower, byte-wise: on ASCII input. *)
Definition ascii_lower (c : ascii) : ascii :=
  let n := nat_of_ascii c in
  if (65 <=? n) && (n <=? 90) then ascii_of_nat (n + 32) else c.
Fixpoint to_lower (s : string) : string :=
  match s with
  | EmptyString => EmptyString
  | String c s' => String (ascii_lower c) (to_lower s')
  end.

(** strings.ToUpper, on ASCII input *)
Definition ascii_upper (c : ascii) : ascii :=
  let n := nat_of_ascii c in
  if (97 <=? n) && (n <=? 122) then ascii_of_nat (n - 32) else c.
Fixpoint to_upper (s : string) : string :=
  match s with
  | EmptyString => EmptyString
  | String c s' => String (ascii_upper c) (to_upper s')
  end.

(** strings.Join *)
Definition join (sep : string) (l : list string) : string := String.concat sep l.

(** strings.TrimPrefix and strings.TrimSuffix *)
Fixpoint drop_str (n : nat) (s : string) : string :=
  match n, s with
  | S n', String _ s' => drop_str n' s'
  | _, _ => s
  end.
Definition trim_prefix (p s : string) : string :=
  if has_prefix p s then drop_str (String.length p) s else s.
Fixpoint str_rev_app (s acc : string) : string :=
  match s with
  | EmptyString => acc
  | String c s' => str_rev_app s' (String c acc)
  end.
Definition str_rev (s : string) : string := str_rev_app s "".
Definition trim_suffix (p s : string) : string :=
  str_rev (trim_prefix (str_rev p) (str_rev s)).

(** strings.HasSuffix *)
Definition has_suffix (p s : string) : bool := has_prefix (str_rev p) (str_rev s).

Lemma str_app_nil_r s : s +:+ EmptyString = s.
Proof. induction s as [|c s IH]; [done|]. change (String c (s +:+ EmptyString) = String c s). by rewrite IH. Qed.
Lemma str_app_assoc (a b c : string) : (a +:+ b) +:+ c = a +:+ (b +:+ c).
Proof. induction a as [|x a IH]; [done|]. change (String x ((a +:+ b) +:+ c) = String x (a +:+ (b +:+ c))). by rewrite IH. Qed.
Lemma str_rev_app_spec s acc : str_rev_app s acc = str_rev s +:+ acc.
Proof.
  revert acc. induction s as [|c s IH]; intros acc; [done|]. unfold str_rev. cbn [str_rev_app].
  rewrite (IH (String c acc)), (IH (String c "")), str_app_assoc. done.
Qed.
Lemma str_rev_cons c s : str_rev (String c s) = str_rev s +:+ String c EmptyString.
Proof. unfold str_rev. cbn [str_rev_app]. by rewrite str_rev_app_spec. Qed.
Lemma str_rev_concat a b : str_rev (a +:+ b) = str_rev b +:+ str_rev a.
Proof.
  induction a as [|c a IH]; [by rewrite str_app_nil_r|].
  change (String c a +:+ b) with (String c (a +:+ b)).
  by rewrite !str_rev_cons, IH, str_app_assoc.
Qed.
Lemma str_rev_involutive s : str_rev (str_rev s) = s.
Proof.
  induction s as [|c s IH]; [done|]. rewrite str_rev_cons, str_rev_concat, IH. done.
Qed.
Lemma has_prefix_app p s : has_prefix p (p +:+ s) = true.
Proof.
  unfold has_prefix. induction p as [|c p IH]; [by destruct s|].
  change (String c p +:+ s) with (String c (p +:+ s)). cbn [String.prefix].
  by destruct (ascii_dec c c).
Qed.
Lemma trim_prefix_app p s : trim_prefix p (p +:+ s) = s.
Proof.
  unfold trim_prefix. rewrite has_prefix_app. induction p as [|c p IH]; [by destruct s|].
  change (String c p +:+ s) with (String c (p +:+ s)). exact IH.
Qed.
Lemma trim_suffix_app p s : trim_suffix p (s +:+ p) = s.
Proof.
  unfold trim_suffix. rewrite str_rev_concat, trim_prefix_app. apply str_rev_involutive.
Qed.

(** strings.Split on a one-character separator *)
Fixpoint split_on (sep : ascii) (s : string) : list string :=
  match s with
  | EmptyString => [EmptyString]
  | String c s' =>
      if Ascii.eqb c sep then EmptyString :: split_on sep s'
      else match split_on sep s' with
           | h :: t => String c h :: t
           | [] => [String c EmptyString]
           end
  end.

Lemma split_on_no_sep c s : has_char c s = false → split_on c s = [s].
Proof.
  induction s as [|a s IH]; [done|]. cbn [has_char split_on].
  intros [Ha Hs]%orb_false_iff. by rewrite Ha, IH.
Qed.
Lemma split_on_app_sep c a s :
  has_char c a = false → split_on c (a +:+ String c s) = a :: split_on c s.
Proof.
  induction a as [|x a IH].
  - intros _. change (EmptyString +:+ ?z) with z. cbn [split_on]. by rewrite Ascii.eqb_refl.
  - cbn [has_char]. intros [Hx Ha]%orb_false_iff. change (String x a +:+ ?z) with (String x (a +:+ z)).
    cbn [split_on]. by rewrite Hx, IH.
Qed.

(** A double quote, which a string literal here cannot hold. *)
Definition dquote : string := String (ascii_of_nat 34) EmptyString.

(** ** Numbers *)

Definition max_int64 : Z := 9223372036854775807.
Definition min_int64 : Z := -9223372036854775808.
Definition max_uint32 : Z := 4294967295.
Definition wrap_u32 (z : Z) : Z := z `mod` 4294967296.
Definition wrap_i32 (z : Z) : Z := (z + 2147483648) `mod` 4294967296 - 2147483648.

(** Decimal text of an integer (strconv.Itoa, fmt's d and Sprint verbs). *)
Definition itoa (z : Z) : string := NilZero.string_of_int (Z.to_int z).

(** The digits of strconv.ParseInt in base 10: an optional sign, then at
    least one digit; [None] is a syntax error. *)
Definition parse_digits (s : string) : option Z :=
  match s with
  | String "+" s' => Z.of_uint <$> NilZero.uint_of_string s'
  | _ => Z.of_int <$> NilZero.int_of_string s
  end.
(** strconv.ParseInt(s, 10, 64) and, on 64-bit platforms, strconv.Atoi. *)
Definition parse_int64 (s : string) : option Z :=
  match parse_digits s with
  | Some z => if (min_int64 <=? z)%Z && (z <=? max_int64)%Z then Some z else None
  | None => None
  end.

Definition starts_plus (s : string) : bool :=
  match s with String "+" _ => true | _ => false end.

Lemma itoa_not_plus z : starts_plus (itoa z) = false.
Proof.
  unfold itoa. destruct (Z.to_int z) as [u|u]; [|reflexivity].
  destruct u; reflexivity.
Qed.

Lemma parse_digits_noplus s :
  starts_plus s = false → parse_digits s = Z.of_int <$> NilZero.int_of_string s.
Proof.
  destruct s as [|a s]; [done|].
  destruct a as [[] [] [] [] [] [] [] []]; done.
Qed.

Lemma parse_digits_itoa z : parse_digits (itoa z) = Some z.
Proof.
  rewrite parse_digits_noplus by apply itoa_not_plus.
  unfold itoa. rewrite NilZero.isi.
  - simpl. by rewrite DecimalZ.of_to.
  - destruct z; simpl; [discriminate| |discriminate].
    intros [= H]. by apply (DecimalPos.Unsigned.to_uint_nonnil p).
  - destruct z; simpl; [discriminate|discriminate|].
    intros [= H]. by apply (DecimalPos.Unsigned.to_uint_nonnil p).
Qed.

(** Printing and parsing an int64 is the identity. *)
Lemma parse_int64_itoa z :
  (min_int64 ≤ z ≤ max_int64)%Z → parse_int64 (itoa z) = Some z.
Proof.
  intros [Hl Hu]. unfold parse_int64. rewrite parse_digits_itoa.
  apply Z.leb_le in Hl, Hu. by rewrite Hl, Hu.
Qed.

Lemma parse_int64_range s z :
  parse_int64 s = Some z → (min_int64 ≤ z ≤ max_int64)%Z.
Proof.
  unfold parse_int64. destruct (parse_digits s) as [y|]; [|done].
  destruct (_ && _) eqn:E; [|done]. intros [= ->].
  apply andb_prop in E as [?%Z.leb_le ?%Z.leb_le]. lia.
Qed.

(** strconv.FormatBool and strconv.ParseBool *)
Definition format_bool (b : bool) : string := if b then "true" else "false".
Definition parse_bool (s : string) : option bool :=
  if bool_decide (s ∈ ["1"; "t"; "T"; "TRUE"; "true"; "True"]) then Some true
  else if bool_decide (s ∈ ["0"; "f"; "F"; "FALSE"; "false"; "False"]) then Some false
  else None.

Lemma parse_bool_format b : parse_bool (format_bool b) = Some b.
Proof. by destruct b. Qed.
#[export] Hint Rewrite parse_bool_format : go.

(** ** Go maps

    A Go map that may be nil is [option (gmap K V)].  Reading a nil map gives
    the zero value, as reading an absent key does; writing to one panics. *)

Definition map_get {V} (zero : V) (m : gmap string V) (k : string) : V :=
  default zero (m !! k).
Definition omap_get {V} (zero : V) (m : option (gmap string V)) (k : string) : V :=
  match m with Some m => map_get zero m k | None => zero end.
Definition omap_lookup {V} (m : option (gmap string V)) (k : string) : option V :=
  match m with Some m => m !! k | None => None end.
(** if m == nil then m = map[string]V{} *)
Definition make_if_nil {V} (m : option (gmap string V)) : gmap string V := default ∅ m.

Lemma map_get_insert {V} zero (m : gmap string V) k v :
  map_get zero (<[k := v]> m) k = v.
Proof. unfold map_get. by rewrite lookup_insert_eq. Qed.
Lemma map_get_insert_ne {V} zero (m : gmap string V) k k' v :
  k ≠ k' → map_get zero (<[k := v]> m) k' = map_get zero m k'.
Proof. intros. unfold map_get. by rewrite lookup_insert_ne. Qed.
#[export] Hint Rewrite @map_get_insert : go.
#[export] Hint Rewrite @map_get_insert_ne using done : go.

(** ** Lists *)

Lemma filter_id {A} (P : A → Prop) `{∀ x, Decision (P x)} (l : list A) :
  (∀ x, x ∈ l → P x) → filter P l = l.
Proof.
  induction l as [|x l IH]; intros HP; [done|].
  rewrite filter_cons_True by (apply HP; set_solver). f_equal. apply IH. set_solver.
Qed.

Lemma elem_of_range_elements (X : gset string) (l : list string) :
  l ≡ₚ elements X → ∀ k, k ∈ l ↔ k ∈ X.
Proof. intros Hp k. rewrite Hp. apply elem_of_elements. Qed.
