(* ===== verification/Numbers.v ===== *)
(** * Numbers of the Go standard library

    float64 arithmetic and its text, machine integers at 64 bits, and
    time.ParseDuration.  A float64 is a [spec_float] with 53 bits of precision:
    every operation is the correctly rounded one, computed on integers. *)

From stdpp Require Import base list strings.
From Stdlib Require Import ZArith Lia Ascii DecimalString SpecFloat.
From S2P Require Import Prelude.

(** ** Integers *)

Definition wrap_i64 (z : Z) : Z :=
  ((z + 9223372036854775808) mod 18446744073709551616 - 9223372036854775808)%Z.

Lemma wrap_i64_id z : (min_int64 ≤ z ≤ max_int64)%Z → wrap_i64 z = z.
Proof. unfold wrap_i64, min_int64, max_int64. intros. rewrite Z.mod_small; lia. Qed.

(** A run of decimal digits at the start of a text, and the rest. *)
Definition digit_of (c : ascii) : option Z :=
  let n := nat_of_ascii c in
  if (48 <=? n) && (n <=? 57) then Some (Z.of_nat n - 48)%Z else None.
Definition is_letter (c : ascii) : bool :=
  let n := nat_of_ascii c in
  ((65 <=? n) && (n <=? 90)) || ((97 <=? n) && (n <=? 122)).
Definition is_digit (c : ascii) : bool :=
  let n := nat_of_ascii c in (48 <=? n)%nat && (n <=? 57)%nat.
Fixpoint span_digits (s : string) : string * string :=
  match s with
  | String c s' =>
      if is_digit c then let '(d, r) := span_digits s' in (String c d, r) else (EmptyString, s)
  | EmptyString => (EmptyString, EmptyString)
  end.
Definition all_digits (s : string) : Prop := span_digits s = (s, EmptyString).

Lemma span_digits_app d s :
  all_digits d → span_digits s = ("", s) → span_digits (d +:+ s) = (d, s).
Proof.
  unfold all_digits. induction d as [|c d IH]; simpl; [done|].
  destruct (is_digit c); [|discriminate].
  destruct (span_digits d) as [d' r'] eqn:E. intros [= -> ->] Hs. by rewrite IH.
Qed.

Lemma of_uint_digits u : all_digits (NilEmpty.string_of_uint u).
Proof. unfold all_digits. induction u; simpl; [done|..]; by rewrite IHu. Qed.

Lemma itoa_digits z : (0 ≤ z)%Z → all_digits (itoa z).
Proof.
  intros Hz. unfold itoa. destruct z as [|p|p]; [reflexivity| |lia].
  simpl. unfold NilZero.string_of_uint. destruct (Pos.to_uint p) eqn:E; try done;
    rewrite <- E; apply of_uint_digits.
Qed.

Lemma itoa_nonempty z : itoa z ≠ "".
Proof.
  unfold itoa. destruct (Z.to_int z) as [u|u]; [|discriminate].
  destruct u; discriminate.
Qed.

Lemma itoa_head_digit z c s : (0 ≤ z)%Z → itoa z = String c s → is_digit c = true.
Proof.
  intros Hz E. pose proof (itoa_digits z Hz) as Hd. rewrite E in Hd.
  unfold all_digits in Hd. simpl in Hd. by destruct (is_digit c).
Qed.

(** [$] in a multi-line regular expression: the end of the text or of a line. *)
Definition at_line_end (s : string) : bool :=
  match s with
  | EmptyString => true
  | String c _ => Ascii.eqb c (ascii_of_nat 10)
  end.

(** strconv.Atoi on a run of digits: [None] when it is out of range. *)
Definition atoi_digits (s : string) : option Z := parse_int64 s.

(** ** float64 *)

Abbreviation float64 := spec_float (only parsing).
Definition f64_of_int (z : Z) : float64 := binary_normalize 53 1024 z 0 false.
Definition f64_mul : float64 → float64 → float64 := SFmul 53 1024.
Definition f64_div : float64 → float64 → float64 := SFdiv 53 1024.

(** m * 2^e / d, rounded half to even. *)
Definition round_half_even (n d : Z) : Z :=
  let q := (n / d)%Z in
  let r := (n mod d)%Z in
  match (2 * r ?= d)%Z with
  | Lt => q
  | Gt => (q + 1)%Z
  | Eq => if Z.even q then q else (q + 1)%Z
  end.

Fixpoint pad_zeros (n : nat) (s : string) : string :=
  if String.length s <? n then
    match n with O => s | S n' => String "0" (pad_zeros n' s) end
  else s.

(** The f verb with its default precision: the exact value rounded to six
    decimals. *)
Definition format_f (x : float64) : string :=
  match x with
  | S754_zero s => (if s then "-" else "") +:+ "0.000000"
  | S754_infinity s => if s then "-Inf" else "+Inf"
  | S754_nan => "NaN"
  | S754_finite s m e =>
      let n := (Z.pos m * 1000000)%Z in
      let millionths := if (0 <=? e)%Z then Z.shiftl n e else round_half_even n (2 ^ (- e)) in
      (if s then "-" else "") +:+ itoa (millionths / 1000000) +:+ "."
        +:+ pad_zeros 6 (itoa (millionths mod 1000000))
  end.

(** uint64(x) of a value that is not negative *)
Definition f64_trunc (x : float64) : Z :=
  match x with
  | S754_finite false m e => if (0 <=? e)%Z then Z.shiftl (Z.pos m) e else (Z.pos m / 2 ^ (- e))%Z
  | _ => 0%Z
  end.

(** ** time.ParseDuration *)

Definition two63 : Z := 9223372036854775808.

(** leadingInt: the value of the digits, or an overflow. *)
Fixpoint leading_int (x : Z) (s : string) : option (Z * string) :=
  match s with
  | EmptyString => Some (x, s)
  | String c s' =>
      match digit_of c with
      | None => Some (x, s)
      | Some d =>
          if (two63 / 10 <? x)%Z then None
          else let x := (x * 10 + d)%Z in
               if (two63 <? x)%Z then None else leading_int x s'
      end
  end.

(** leadingFraction: digits beyond the range are dropped. *)
Fixpoint leading_fraction (x : Z) (scale : float64) (overflow : bool) (s : string)
    : Z * float64 * string :=
  match s with
  | EmptyString => (x, scale, s)
  | String c s' =>
      match digit_of c with
      | None => (x, scale, s)
      | Some d =>
          if overflow then leading_fraction x scale true s'
          else if ((two63 - 1) / 10 <? x)%Z then leading_fraction x scale true s'
          else
            let y := (x * 10 + d)%Z in
            if (two63 <? y)%Z then leading_fraction x scale true s'
            else leading_fraction y (f64_mul scale (f64_of_int 10)) false s'
      end
  end.

(** The unit: everything up to a dot or a digit. *)
Fixpoint span_unit (s : string) : string * string :=
  match s with
  | EmptyString => ("", "")
  | String c s' =>
      if Ascii.eqb c "."%char || is_some (digit_of c) then ("", s)
      else let '(a, b) := span_unit s' in (String c a, b)
  end.
Definition unit_ns (u : string) : option Z :=
  if u =?s "ns" then Some 1%Z
  else if (u =?s "us") || (u =?s "µs") || (u =?s "μs") then Some 1000%Z
  else if u =?s "ms" then Some 1000000%Z
  else if u =?s "s" then Some 1000000000%Z
  else if u =?s "m" then Some 60000000000%Z
  else if u =?s "h" then Some 3600000000000%Z
  else None.

(** The fraction after a dot, and whether it has a digit. *)
Definition duration_fraction (s : string) : Z * float64 * string * bool :=
  match s with
  | String "." s' =>
      let '(f, scale, s2) := leading_fraction 0 (f64_of_int 1) false s' in
      (f, scale, s2, negb (String.length s2 =? String.length s'))
  | _ => (0%Z, f64_of_int 1, s, false)
  end.
(** One turn of the loop: a number with its unit, in nanoseconds. *)
Definition duration_part (s : string) : option (Z * string) :=
  '(v, s1) ← leading_int 0 s;
  let pre := negb (String.length s1 =? String.length s) in
  let '(f, scale, s2, post) := duration_fraction s1 in
  if negb (pre || post) then None
  else
    let '(u, s3) := span_unit s2 in
    unit ← unit_ns u;
    if (two63 / unit <? v)%Z then None
    else
      let v := (v * unit)%Z in
      let v := if (0 <? f)%Z
               then (v + f64_trunc (f64_mul (f64_of_int f) (f64_div (f64_of_int unit) scale)))%Z
               else v in
      if (two63 <? v)%Z then None else Some (v, s3).

(** Every turn consumes at least the unit. *)
Fixpoint duration_parts (fuel : nat) (d : Z) (s : string) : option Z :=
  match s with
  | EmptyString => Some d
  | _ =>
      match fuel with
      | O => None
      | S fuel =>
          '(v, s') ← duration_part s;
          let d := (d + v)%Z in
          if (two63 <? d)%Z then None else duration_parts fuel d s'
      end
  end.

(** [None] is an error. *)
Definition ParseDuration (s : string) : option Z :=
  let '(neg, s) := match s with
                   | String "-" s' => (true, s')
                   | String "+" s' => (false, s')
                   | _ => (false, s)
                   end in
  if s =?s "0" then Some 0%Z
  else if s =?s "" then None
  else
    d ← duration_parts (String.length s) 0 s;
    if (neg : bool) then Some (- d)%Z
    else if (two63 - 1 <? d)%Z then None else Some d.

(** The loop never runs out of fuel: more of it changes nothing. *)
Lemma leading_int_length x s y s' : leading_int x s = Some (y, s') → String.length s' ≤ String.length s.
Proof.
  revert x. induction s as [|c s IH]; intros x; cbn [leading_int]; [by intros [= _ <-]|].
  destruct (digit_of c); [|intros [= _ <-]; done].
  destruct (_ <? _)%Z; [done|]. destruct (_ <? _)%Z; [done|].
  intros Hl. apply IH in Hl. cbn. lia.
Qed.
Lemma leading_fraction_length x sc o s y sc' s' :
  leading_fraction x sc o s = (y, sc', s') → String.length s' ≤ String.length s.
Proof.
  revert x sc o. induction s as [|c s IH]; intros x sc o; cbn [leading_fraction]; [by intros [= _ _ <-]|].
  destruct (digit_of c); [|intros [= _ _ <-]; done].
  destruct o; [|destruct (_ <? _)%Z; [|destruct (_ <? _)%Z]];
    intros Hl; apply IH in Hl; cbn; lia.
Qed.
Lemma span_unit_length s u s' :
  span_unit s = (u, s') → String.length s = String.length u + String.length s'.
Proof.
  revert u. induction s as [|c s IH]; intros u; cbn [span_unit]; [by intros [= <- <-]|].
  destruct (Ascii.eqb c "." || is_some (digit_of c)); [by intros [= <- <-]|].
  destruct (span_unit s) as [a b]. intros [= <- <-]. cbn. f_equal. by apply IH.
Qed.
Lemma duration_fraction_length s f sc s' b :
  duration_fraction s = (f, sc, s', b) → String.length s' ≤ String.length s.
Proof.
  unfold duration_fraction. destruct s as [|c s]; [by intros [= _ _ <- _]|].
  destruct c as [[] [] [] [] [] [] [] []]; try by intros [= _ _ <- _].
  destruct (leading_fraction _ _ _ _) as [[x y] z] eqn:Hl. intros [= _ _ <- _].
  apply leading_fraction_length in Hl. cbn. lia.
Qed.
Lemma duration_part_length s v s' :
  duration_part s = Some (v, s') → String.length s' < String.length s.
Proof.
  unfold duration_part. destruct (leading_int 0 s) as [[x s1]|] eqn:Hi; [|done]. cbn.
  apply leading_int_length in Hi.
  destruct (duration_fraction s1) as [[[f sc] s2] post] eqn:Hf. apply duration_fraction_length in Hf.
  destruct (negb (_ || post)); [done|].
  destruct (span_unit s2) as [u s3] eqn:Hu. apply span_unit_length in Hu.
  destruct (unit_ns u) eqn:Hn; [|done]. cbn.
  assert (String.length u ≠ 0) by (destruct u; [discriminate Hn|done]).
  destruct (_ <? _)%Z; [done|]. destruct (_ <? _)%Z; [done|]. intros [= _ <-]. lia.
Qed.
Lemma duration_parts_fuel n m d s :
  String.length s ≤ n → String.length s ≤ m → duration_parts n d s = duration_parts m d s.
Proof.
  revert m d s. induction n as [|n IH]; intros m d s Hn Hm; (destruct s as [|c s]; [by destruct m|]).
  { cbn in Hn. lia. }
  destruct m as [|m]; [cbn in Hm; lia|]. cbn [duration_parts].
  destruct (duration_part (String c s)) as [[v s']|] eqn:Hp; [|done]. cbn.
  apply duration_part_length in Hp. destruct (_ <? _)%Z; [done|]. apply IH; lia.
Qed.

(** ** strconv.ParseInt(s, 0, 64)

    The base is read off the text: 0b, 0o and 0x are 2, 8 and 16, a leading 0
    is 8; digits may be set apart by underscores where Go's syntax allows. *)

Definition digit_in (base : Z) (c : ascii) : option Z :=
  let l := ascii_lower c in
  let n := Z.of_nat (nat_of_ascii l) in
  match digit_of c with
  | Some d => if (d <? base)%Z then Some d else None
  | None => if (97 <=? n)%Z && (n <=? 122)%Z && (n - 87 <? base)%Z then Some (n - 87)%Z else None
  end.

(** The digits, underscores skipped. *)
Fixpoint accumulate (base : Z) (s : string) (n : Z) : option Z :=
  match s with
  | EmptyString => Some n
  | String c s =>
      if Ascii.eqb c "_"%char then accumulate base s n
      else d ← digit_in base c; accumulate base s (n * base + d)%Z
  end.

(** underscoreOK: what came before is a digit or the prefix, an underscore,
    or something else. *)
Inductive seen := SeenDigit | SeenUnderscore | SeenOther.
#[global] Instance seen_eq_dec : EqDecision seen.
Proof. solve_decision. Defined.
Fixpoint underscores_ok (hex : bool) (before : seen) (s : string) : bool :=
  match s with
  | EmptyString => bool_decide (before ≠ SeenUnderscore)
  | String c s =>
      if is_digit c || hex && is_some (digit_in 16 c) then underscores_ok hex SeenDigit s
      else if Ascii.eqb c "_"%char then bool_decide (before = SeenDigit) && underscores_ok hex SeenUnderscore s
      else bool_decide (before ≠ SeenUnderscore) && underscores_ok hex SeenOther s
  end.

(** The base, the digits after the prefix, whether the prefix is hexadecimal
    and whether there is one. *)
Definition base_prefix (s : string) : Z * string * bool * bool :=
  match s with
  | String "0" s1 =>
      match s1 with
      | String p (String _ _ as s2) =>
          let p := ascii_lower p in
          let rest := drop_str 1 s1 in
          if Ascii.eqb p "b"%char then (2, rest, false, true)%Z
          else if Ascii.eqb p "o"%char then (8, rest, false, true)%Z
          else if Ascii.eqb p "x"%char then (16, rest, true, true)%Z
          else (8, s1, false, false)%Z
      | _ => (8, s1, false, false)%Z
      end
  | _ => (10, s, false, false)%Z
  end.

Definition parse_uint_base0 (s : string) : option Z :=
  if (s =?s "") then None
  else
    let '(base, digits, hex, prefixed) := base_prefix s in
    n ← accumulate base digits 0;
    if has_char "_"%char digits
       && negb (underscores_ok hex (if prefixed then SeenDigit else SeenOther)
                  (if prefixed then digits else s))
    then None else Some n.

Definition parse_int_base0 (s : string) : option Z :=
  let '(neg, digits) := match s with
                        | String "+" s' => (false, s')
                        | String "-" s' => (true, s')
                        | _ => (false, s)
                        end in
  n ← parse_uint_base0 digits;
  let z := if neg : bool then (- n)%Z else n in
  if (min_int64 <=? z)%Z && (z <=? max_int64)%Z then Some z else None.

Example parse_int_base0_examples :
  map parse_int_base0 ["2"; "010"; "0x1F"; "-0b11"; "1_000"; "1__0"; "_1"; "0x_1"; "08"; ""; "0"; "9223372036854775808"]
  = [Some 2; Some 8; Some 31; Some (-3); Some 1000; None; None; Some 1; None; None; Some 0; None]%Z.
Proof. vm_compute. reflexivity. Qed.

Lemma parse_int_base0_range s z : parse_int_base0 s = Some z → (min_int64 ≤ z ≤ max_int64)%Z.
Proof.
  unfold parse_int_base0. destruct (match s with String "+" _ | String "-" _ => _ | _ => _ end) as [neg digits].
  destruct (parse_uint_base0 digits) as [n|]; [|done]. cbn. destruct (_ && _) eqn:E; [|done].
  intros [= <-]. apply andb_true_iff in E as [?%Z.leb_le ?%Z.leb_le]. lia.
Qed.
