(* ===== verification/Kube.v ===== *)
(** * The world the operator runs in

    The Kubernetes API, the process environment, the clock, the event
    recorder and the iteration order of Go maps are not code of this
    repository: they are interfaces here, type classes over an abstract world
    [W], and every definition of the development that reaches them takes the
    interface as an argument.  Theorems hold for every implementation; the
    laws some of them need are stated where they are used.

    [CreateOrUpdate] and its [mutate] are the vendored controller-runtime
    helpers, translated because nearly every reconcile step is a closure
    passed to them. *)

From stdpp Require Import base list strings gmap.
From Stdlib Require Import ZArith.
From S2P Require Import Prelude.

(** ** Object metadata *)

(** metav1.ObjectMeta, the fields the operator reads or writes.  Times are
    nanoseconds; Go slices are lists, so a nil and an empty slice coincide. *)
Record ObjectMeta := mkMeta {
  Name : string;
  Namespace : string;
  UID : string;
  ResourceVersion : string;
  Generation : Z;
  CreationTimestamp : Z;
  DeletionTimestamp : option Z;
  Labels : option (gmap string string);
  Annotations : option (gmap string string);
  Finalizers : list string;
}.
#[global] Instance ObjectMeta_eq_dec : EqDecision ObjectMeta.
Proof. solve_decision. Defined.

Definition SetLabels (l : option (gmap string string)) (m : ObjectMeta) : ObjectMeta :=
  mkMeta (Name m) (Namespace m) (UID m) (ResourceVersion m) (Generation m)
    (CreationTimestamp m) (DeletionTimestamp m) l (Annotations m) (Finalizers m).
Definition SetAnnotations (a : option (gmap string string)) (m : ObjectMeta) : ObjectMeta :=
  mkMeta (Name m) (Namespace m) (UID m) (ResourceVersion m) (Generation m)
    (CreationTimestamp m) (DeletionTimestamp m) (Labels m) a (Finalizers m).
Definition SetFinalizers (f : list string) (m : ObjectMeta) : ObjectMeta :=
  mkMeta (Name m) (Namespace m) (UID m) (ResourceVersion m) (Generation m)
    (CreationTimestamp m) (DeletionTimestamp m) (Labels m) (Annotations m) f.
Definition SetResourceVersion (v : string) (m : ObjectMeta) : ObjectMeta :=
  mkMeta (Name m) (Namespace m) (UID m) v (Generation m)
    (CreationTimestamp m) (DeletionTimestamp m) (Labels m) (Annotations m) (Finalizers m).

(** The metadata of an object literal that sets a name and a namespace. *)
Definition named (ns name : string) : ObjectMeta :=
  mkMeta name ns "" "" 0 0 None None None [].

(** What a Kubernetes object type provides: its metadata, and
    equality.Semantic.DeepEqual on it. *)
Class K8sObject (O : Type) := {
  meta : O → ObjectMeta;
  set_meta : ObjectMeta → O → O;
  semantic_deep_equal : O → O → bool;
}.

(** ** The API client *)

(** The manager's client, which reads through a cache, one made by
    k8sclient.New, which does not, or the nil interface a failed
    k8sclient.New returns, for callers that go on with it. *)
Inductive KClient := ManagerClient | ServerClient | NilClient.

Record ListOptions := mkListOptions {
  lo_namespace : option string;
  lo_labels : list (string * string);
}.
Definition list_all : ListOptions := mkListOptions None [].
Definition InNamespace (ns : string) : ListOptions := mkListOptions (Some ns) [].

(** One instance per object kind.  A successful write returns the object the
    server answered with, which the Go client decodes over its argument; on
    an error the argument is left as it was. *)
Class Client (W O : Type) := {
  client_get : KClient → string → string → M W (error + O);
  client_list : KClient → ListOptions → M W (error + list O);
  client_create : KClient → O → M W (error + O);
  client_update : KClient → O → M W (error + O);
  client_status_update : KClient → O → M W (error + O);
  client_delete : KClient → O → M W (option error);
  (** Patch with the merge strategy *)
  client_patch : KClient → O → M W (error + O);
}.

(** k8sclient.New *)
Class NewClient (W : Type) := k8sclient_New : M W (error + KClient).

(** os.LookupEnv *)
Class OsEnv (W : Type) := LookupEnv : string → W → option string.
(** os.Getenv: the empty string for an unset variable. *)
Definition Getenv {W} `{OsEnv W} (k : string) (w : W) : string := default "" (LookupEnv k w).

(** time.Now, in nanoseconds *)
Class Clock (W : Type) := now : W → Z.

(** record.EventRecorder: type, reason and message of an event. *)
Class EventRecorder (W : Type) := record_event : string → string → string → W → W.
Definition event {W} `{EventRecorder W} (ty reason msg : string) : M W unit :=
  modifies (record_event ty reason msg).

(** The order in which a range loop meets the keys of a map, which Go leaves
    open and changes from loop to loop. *)
Class MapRange (W : Type) := range_keys : W → gset string → list string.
Class MapRangeLaws (W : Type) `{MapRange W} :=
  range_keys_perm : ∀ w X, range_keys w X ≡ₚ elements X.

Definition second_ns : Z := 1000000000.
Definition minute_ns : Z := 60 * second_ns.
Definition hour_ns : Z := 60 * minute_ns.

(** ** wait

    PollUntilContextTimeout, not immediate: a turn is made at every tick of a
    timer until one returns something or the deadline has passed. *)

Class Ticker (W : Type) := wait_tick : Z → W → W.

Definition DeadlineExceeded : error := ErrStr "context deadline exceeded".

Section wait.
Context {W A : Type} `{Clock W} `{Ticker W}.

Fixpoint poll_ticks (ticks : nat) (interval deadline : Z) (turn : M W (option A)) : M W (error + A) :=
  match ticks with
  | O => mret (inl DeadlineExceeded)
  | S ticks =>
      modifies (wait_tick interval) ;;
      t ← reads now;
      if (deadline <=? t)%Z then mret (inl DeadlineExceeded)
      else
        r ← turn;
        match r with
        | Some a => mret (inr a)
        | None => poll_ticks ticks interval deadline turn
        end
  end.

(** The k-th tick comes no earlier than after k intervals, so that no tick
    after these is within the timeout. *)
Definition PollUntilContextTimeout (interval timeout : Z) (turn : M W (option A)) : M W (error + A) :=
  started ← reads now;
  poll_ticks (Z.to_nat (timeout / interval)) interval (started + timeout)%Z turn.

(** What the loop returns is what a turn returned. *)
Lemma poll_ticks_inr n interval deadline turn a (w w' : W) :
  poll_ticks n interval deadline turn w = (Done (inr a), w') → ∃ w1, turn w1 = (Done (Some a), w').
Proof.
  revert w. induction n as [|n IH]; intros w; cbn [poll_ticks]; [done|].
  rewrite bind_modifies, bind_reads. destruct (_ <=? _)%Z; [done|]. rewrite run_bind.
  destruct (turn _) as [[[b|]|] w1] eqn:E; [|by apply IH|done].
  intros [= <- <-]. by eexists.
Qed.
Lemma poll_inr interval timeout turn a (w w' : W) :
  PollUntilContextTimeout interval timeout turn w = (Done (inr a), w') →
  ∃ w1, turn w1 = (Done (Some a), w').
Proof. unfold PollUntilContextTimeout. rewrite bind_reads. apply poll_ticks_inr. Qed.

(** A turn that never finds anything lets the time pass. *)
Lemma poll_never interval timeout turn (w : W) :
  (∀ w, ∃ w', turn w = (Done None, w')) →
  ∃ w', PollUntilContextTimeout interval timeout turn w = (Done (inl DeadlineExceeded), w').
Proof.
  intros Ht. unfold PollUntilContextTimeout. rewrite bind_reads.
  generalize (now w + timeout)%Z as d. revert w.
  induction (Z.to_nat (timeout / interval)) as [|n IH]; intros w d; cbn [poll_ticks]; [by eexists|].
  rewrite bind_modifies, bind_reads. destruct (_ <=? _)%Z; [by eexists|].
  rewrite run_bind. destruct (Ht (wait_tick interval w)) as [w1 ->]. apply IH.
Qed.

Lemma preserves_poll (R : W → W → Prop) `{!PreOrder R} interval timeout turn :
  (∀ w, R w (wait_tick interval w)) → preserves R turn →
  preserves R (PollUntilContextTimeout interval timeout turn).
Proof.
  intros Hw Ht. unfold PollUntilContextTimeout. apply preserves_bind; [done|apply preserves_reads; done|].
  intros started. induction (Z.to_nat (timeout / interval)) as [|n IH]; cbn [poll_ticks]; frame.
  apply Hw.
Qed.
End wait.

(** ** controllerutil *)

Inductive OperationResult := OperationResultNone | OperationResultCreated | OperationResultUpdated.

Section controllerutil.
  Context {W O : Type} `{Client W O} `{K8sObject O}.

(** A MutateFn closes over the object: it maps the object to its new state
    and an error, and may use the world. *)
Definition MutateFn := O → M W (O * option error).

Definition mutate (f : MutateFn) (ns name : string) (obj : O) : M W (O * option error) :=
  '(obj, err) ← f obj;
  match err with
  | Some e => mret (obj, Some e)
  | None =>
      if (Name (meta obj) =?s name) && (Namespace (meta obj) =?s ns) then mret (obj, None)
      else mret (obj, Some (ErrStr "MutateFn cannot mutate object name and/or object namespace"))
  end.

Definition CreateOrUpdate (c : KClient) (obj : O) (f : MutateFn)
    : M W (O * (OperationResult * option error)) :=
  let ns := Namespace (meta obj) in
  let name := Name (meta obj) in
  got ← client_get c ns name;
  match got with
  | inl err =>
      if negb (IsNotFound (Some err)) then mret (obj, (OperationResultNone, Some err))
      else
        '(obj, merr) ← mutate f ns name obj;
        match merr with
        | Some e => mret (obj, (OperationResultNone, Some e))
        | None =>
            r ← client_create c obj;
            match r with
            | inl e => mret (obj, (OperationResultNone, Some e))
            | inr obj => mret (obj, (OperationResultCreated, None))
            end
        end
  | inr existing =>
      '(obj, merr) ← mutate f ns name existing;
      match merr with
      | Some e => mret (obj, (OperationResultNone, Some e))
      | None =>
          if semantic_deep_equal existing obj then mret (obj, (OperationResultNone, None))
          else
            r ← client_update c obj;
            match r with
            | inl e => mret (obj, (OperationResultNone, Some e))
            | inr obj => mret (obj, (OperationResultUpdated, None))
            end
      end
  end.
End controllerutil.
Arguments MutateFn : clear implicits.

(** A mutate function that also assigns to a variable of its caller: it runs
    in the world with the variable beside it. *)
Section captured.
Context {W V : Type}.

Definition beside {A} (m : M W A) : M (V * W) A := λ '(v, w),
  match m w with (r, w') => (r, (v, w')) end.
Definition captured_client {O} `{Client W O} : Client (V * W) O := {|
  client_get c ns n := beside (client_get c ns n); client_list c o := beside (client_list c o);
  client_create c o := beside (client_create c o); client_update c o := beside (client_update c o);
  client_status_update c o := beside (client_status_update c o);
  client_delete c o := beside (client_delete c o); client_patch c o := beside (client_patch c o);
|}.
Definition captured_mutate {O} (f : V → O → M W (V * (O * option error))) : MutateFn (V * W) O :=
  λ o '(v, w), match f v o w with
               | (Done (v', r), w') => (Done r, (v', w'))
               | (Panic why, w') => (Panic why, (v, w'))
               end.
Definition CreateOrUpdateCapturing {O} `{Client W O} `{K8sObject O} (v : V) (c : KClient) (obj : O)
    (f : V → O → M W (V * (O * option error))) : M W (V * (O * (OperationResult * option error))) := λ w,
  match CreateOrUpdate (H := captured_client) c obj (captured_mutate f) (v, w) with
  | (Done r, (v', w')) => (Done (v', r), w')
  | (Panic why, (_, w')) => (Panic why, w')
  end.
End captured.

Lemma CreateOrUpdate_ok {W O} `{Client W O} `{K8sObject O} c (o : O) f (w w' : W) o' r :
  CreateOrUpdate c o f w = (Done (o', (r, None)), w') →
  ∃ from w1 sent w2, f from w1 = (Done (sent, None), w2)
    ∧ ((from = o ∧ client_create c sent w2 = (Done (inr o'), w'))
       ∨ (client_get c (Namespace (meta o)) (Name (meta o)) w = (Done (inr from), w1)
          ∧ ((semantic_deep_equal from sent = true ∧ o' = sent ∧ w' = w2)
             ∨ client_update c sent w2 = (Done (inr o'), w')))).
Proof.
  unfold CreateOrUpdate, mutate. intros Hc. go_inv; eauto 12.
Qed.

(** ** Objects of the core API *)

(** nil and empty maps are equal to equality.Semantic.DeepEqual. *)
Definition nil_eq {V} `{EqDecision V} (a b : option (gmap string V)) : bool :=
  bool_decide (make_if_nil a = make_if_nil b).
Definition meta_semantic_eq (a b : ObjectMeta) : bool :=
  bool_decide (SetLabels None (SetAnnotations None a) = SetLabels None (SetAnnotations None b))
  && nil_eq (Labels a) (Labels b) && nil_eq (Annotations a) (Annotations b).

(** The binary data of a config map are byte slices, here strings. *)
Record ConfigMap := mkBinConfigMap {
  cm_meta : ObjectMeta;
  cm_Data : option (gmap string string);
  cm_BinaryData : option (gmap string string);
}.
Definition mkConfigMap (m : ObjectMeta) (d : option (gmap string string)) : ConfigMap :=
  mkBinConfigMap m d None.
(** An assignment to the data. *)
Definition with_cm_Data (cm : ConfigMap) (d : option (gmap string string)) : ConfigMap :=
  mkBinConfigMap (cm_meta cm) d (cm_BinaryData cm).
#[global] Instance ConfigMap_eq_dec : EqDecision ConfigMap.
Proof. solve_decision. Defined.
#[global] Instance ConfigMap_object : K8sObject ConfigMap := {|
  meta := cm_meta; set_meta m o := mkBinConfigMap m (cm_Data o) (cm_BinaryData o);
  semantic_deep_equal a b :=
    meta_semantic_eq (cm_meta a) (cm_meta b) && nil_eq (cm_Data a) (cm_Data b)
    && nil_eq (cm_BinaryData a) (cm_BinaryData b);
|}.

(** metav1.OwnerReference *)
Record OwnerReference := mkOwnerReference {
  or_APIVersion : string; or_Kind : string; or_Name : string; or_UID : string;
  or_Controller : option bool; or_BlockOwnerDeletion : option bool }.
#[global] Instance OwnerReference_eq_dec : EqDecision OwnerReference.
Proof. solve_decision. Defined.

(** The values of a secret are byte slices, here strings; of its metadata the
    owners are kept apart. *)
Record Secret := mkOwnedSecret {
  sec_meta : ObjectMeta; sec_Data : option (gmap string string); sec_Type : string;
  sec_OwnerReferences : list OwnerReference }.
Definition mkTypedSecret (m : ObjectMeta) (d : option (gmap string string)) (t : string) : Secret :=
  mkOwnedSecret m d t [].
(** An assignment to the data. *)
Definition with_sec_Data (s : Secret) (d : option (gmap string string)) : Secret :=
  mkOwnedSecret (sec_meta s) d (sec_Type s) (sec_OwnerReferences s).
Definition mkSecret (m : ObjectMeta) (d : option (gmap string string)) : Secret :=
  mkTypedSecret m d "".
#[global] Instance Secret_eq_dec : EqDecision Secret.
Proof. solve_decision. Defined.
#[global] Instance Secret_object : K8sObject Secret := {|
  meta := sec_meta;
  set_meta m o := mkOwnedSecret m (sec_Data o) (sec_Type o) (sec_OwnerReferences o);
  semantic_deep_equal a b :=
    meta_semantic_eq (sec_meta a) (sec_meta b) && nil_eq (sec_Data a) (sec_Data b)
    && (sec_Type a =?s sec_Type b) && bool_decide (sec_OwnerReferences a = sec_OwnerReferences b);
|}.

Record NamespaceObj := mkNamespace { ns_meta : ObjectMeta; ns_Phase : string }.
#[global] Instance NamespaceObj_eq_dec : EqDecision NamespaceObj.
Proof. solve_decision. Defined.
#[global] Instance NamespaceObj_object : K8sObject NamespaceObj := {|
  meta := ns_meta; set_meta m o := mkNamespace m (ns_Phase o);
  semantic_deep_equal a b :=
    meta_semantic_eq (ns_meta a) (ns_meta b) && bool_decide (ns_Phase a = ns_Phase b);
|}.

(** A group, version and kind (schema.GroupVersionKind). *)
Record GVK := mkGVK { gvk_Group : string; gvk_Version : string; gvk_Kind : string }.
#[global] Instance GVK_eq_dec : EqDecision GVK.
Proof. solve_decision. Defined.
Definition GVK_String (g : GVK) : string :=
  gvk_Group g +:+ "/" +:+ gvk_Version g +:+ ", Kind=" +:+ gvk_Kind g.

(** ** A fake client

    An in-memory API server, as the project's tests use: one store of objects
    per kind, keyed by namespace and name.  Theorems are not about it; their
    instances at concrete inputs run on it. *)

Abbreviation Store O := (gmap (string * string) O) (only parsing).
Class HasStore (W O : Type) := {
  store : W → Store O;
  set_store : Store O → W → W;
}.

Section fake.
Context {W O : Type} `{HasStore W O} `{K8sObject O}.

Definition obj_key (o : O) : string * string := (Namespace (meta o), Name (meta o)).
Definition not_found (n : string) : error := ErrKube NotFound (n +:+ " not found").

Definition matches (opts : ListOptions) (o : O) : bool :=
  match lo_namespace opts with
  | None => true
  | Some ns => (ns =?s "") || (Namespace (meta o) =?s ns)
  end
  && forallb (λ kv, bool_decide (omap_lookup (Labels (meta o)) kv.1 = Some kv.2)) (lo_labels opts).

Definition fake_put (o : O) : M W (error + O) :=
  λ w, (Done (inr o), set_store (<[obj_key o := o]> (store w)) w).

Definition fake_get (_ : KClient) (ns n : string) : M W (error + O) :=
  λ w, (Done (match store w !! (ns, n) with Some o => inr o | None => inl (not_found n) end), w).
Definition fake_list (_ : KClient) (opts : ListOptions) : M W (error + list O) :=
  λ w, (Done (inr (List.filter (matches opts) (map_to_list (store w)).*2)), w).
Definition fake_create (_ : KClient) (o : O) : M W (error + O) := λ w,
  match store w !! obj_key o with
  | Some _ => (Done (inl (ErrKube AlreadyExists "already exists")), w)
  | None => fake_put o w
  end.
Definition fake_update (_ : KClient) (o : O) : M W (error + O) := λ w,
  match store w !! obj_key o with
  | Some _ => fake_put o w
  | None => (Done (inl (not_found (Name (meta o)))), w)
  end.
Definition fake_delete (_ : KClient) (o : O) : M W (option error) := λ w,
  match store w !! obj_key o with
  | Some _ => (Done None, set_store (delete (obj_key o) (store w)) w)
  | None => (Done (Some (not_found (Name (meta o)))), w)
  end.

Definition fake_client : Client W O := {|
  client_get := fake_get; client_list := fake_list; client_create := fake_create;
  client_update := fake_update; client_status_update := fake_update;
  client_delete := fake_delete; client_patch := fake_update;
|}.

(** What a call to it leaves alone. *)
Section fake_frames.
Context {B : Type} (f : W → B) (f_store : ∀ x w, f (set_store (O := O) x w) = f w).

Lemma fake_get_same c ns n : preserves (same f) (fake_get c ns n).
Proof. by intros w r w' [= <- <-]. Qed.
Lemma fake_list_same c o : preserves (same f) (fake_list c o).
Proof. by intros w r w' [= <- <-]. Qed.
Lemma fake_create_same c o : preserves (same f) (fake_create c o).
Proof. intros w r w'. unfold fake_create. case_match; intros [= <- <-]; [done|apply f_store]. Qed.
Lemma fake_update_same c o : preserves (same f) (fake_update c o).
Proof. intros w r w'. unfold fake_update. case_match; intros [= <- <-]; [apply f_store|done]. Qed.
Lemma fake_delete_same c o : preserves (same f) (fake_delete c o).
Proof. intros w r w'. unfold fake_delete. case_match; intros [= <- <-]; [apply f_store|done]. Qed.
End fake_frames.
End fake.

(** [fake_keeps] proves that a call to the fake client of one kind leaves
    something else as it was. *)
Ltac fake_keeps :=
  intros;
  first [ apply fake_get_same | apply fake_list_same
        | apply fake_update_same; intros; reflexivity
        | apply fake_create_same; intros; reflexivity
        | apply fake_delete_same; intros; reflexivity ].

(** A world that is one store. *)
Definition single_store {O} : HasStore (Store O) O := {| store := id; set_store s _ := s |}.
