(* ===== verification/Api.v ===== *)
(** * The RHMI custom resource (api/v1alpha1)

    The data of the installation custom resource and the helpers that read
    it: rhmi_types.go, rhmi_conditions.go and installationTypesHelper.go. *)

From stdpp Require Import base list strings gmap.
From Stdlib Require Import ZArith Lia.
From S2P Require Import Prelude Kube.

(** Named string types of the source. *)
Abbreviation StatusPhase := string (only parsing).
Abbreviation StageName := string (only parsing).
Abbreviation ProductName := string (only parsing).
Abbreviation InstallationType := string (only parsing).

(** ** Constants *)

Definition PhaseNone : StatusPhase := "".
Definition PhaseAwaitingOperator : StatusPhase := "awaiting operator".
Definition PhaseAwaitingCloudResources : StatusPhase := "awaiting cloud resources".
Definition PhaseCreatingComponents : StatusPhase := "creating components".
Definition PhaseAwaitingComponents : StatusPhase := "awaiting components".
Definition PhaseInProgress : StatusPhase := "in progress".
Definition PhaseCompleted : StatusPhase := "completed".
Definition PhaseFailed : StatusPhase := "failed".

Definition InstallationTypeManagedApi : InstallationType := "managed-api".
Definition InstallationTypeMultitenantManagedApi : InstallationType := "multitenant-managed-api".

Definition BootstrapStage : StageName := "bootstrap".
Definition InstallStage : StageName := "installation".
Definition CloudResourcesStage : StageName := "cloud-resources".
Definition ProductsStage : StageName := "products".
Definition CompleteStage : StageName := "complete".
Definition UninstallProductsStage : StageName := "uninstall - products".
Definition UninstallCloudResourcesStage : StageName := "uninstall - cloud-resources".
Definition UninstallBootstrap : StageName := "uninstall - bootstrap".

Definition ProductRHSSO : ProductName := "rhsso".
Definition ProductRHSSOUser : ProductName := "rhssouser".
Definition Product3Scale : ProductName := "3scale".
Definition ProductCloudResources : ProductName := "cloud-resources".
Definition ProductMarin3r : ProductName := "marin3r".
Definition ProductGrafana : ProductName := "grafana".

Definition Version3Scale : string := "2.16.3".
Definition VersionCloudResources : string := "1.1.8".
Definition VersionRHSSO : string := "7.6".
Definition VersionRHSSOUser : string := "7.6".
Definition VersionMarin3r : string := "0.13.4".
Definition VersionGrafana : string := "9.6.0".

Definition PreflightInProgress : string := "".
Definition PreflightSuccess : string := "successful".
Definition PreflightFail : string := "failed".

Definition OperatorVersionRHSSO : string := "7.6.12-9".
Definition OperatorVersionRHSSOUser : string := "7.6.12-9".
Definition OperatorVersionCloudResources : string := "1.1.8".
Definition OperatorVersion3Scale : string := "0.13.3".
Definition OperatorVersionMarin3r : string := "0.13.4".

Definition EventProcessingError : string := "ProcessingError".
Definition EventInstallationCompleted : string := "InstallationCompleted".
Definition EventPreflightCheckPassed : string := "PreflightCheckPassed".
Definition EventUpgradeApproved : string := "UpgradeApproved".

Definition DefaultOriginPullSecretName : string := "pull-secret".
Definition DefaultOriginPullSecretNamespace : string := "openshift-config".

Definition EnvKeyAlertSMTPFrom : string := "ALERT_SMTP_FROM".
Definition EnvKeyQuota : string := "QUOTA".

(** ** Data *)

Record PullSecretSpec := mkPullSecretSpec { ps_Name : string; ps_Namespace : string }.
#[global] Instance PullSecretSpec_eq_dec : EqDecision PullSecretSpec.
Proof. solve_decision. Defined.

Record AlertingEmailAddresses := mkAlertingEmailAddresses { BusinessUnit : string; CSSRE : string }.
#[global] Instance AlertingEmailAddresses_eq_dec : EqDecision AlertingEmailAddresses.
Proof. solve_decision. Defined.

Record CustomSmtpStatus := mkCustomSmtpStatus { smtp_Enabled : bool; smtp_Error : string }.
#[global] Instance CustomSmtpStatus_eq_dec : EqDecision CustomSmtpStatus.
Proof. solve_decision. Defined.

Record CustomDomainStatus := mkCustomDomainStatus { domain_Enabled : bool; domain_Error : string }.
#[global] Instance CustomDomainStatus_eq_dec : EqDecision CustomDomainStatus.
Proof. solve_decision. Defined.

Record RHMISpec := mkRHMISpec {
  Type_ : string;
  RoutingSubdomain : string;
  MasterURL : string;
  NamespacePrefix : string;
  RebalancePods : bool;
  SelfSignedCerts : bool;
  PullSecret : PullSecretSpec;
  UseClusterStorage : string;
  AlertingEmailAddress : string;
  PriorityClassName : string;
  AlertingEmailAddresses_ : AlertingEmailAddresses;
  AlertFromAddress : string;
  APIServer : string;
  OperatorsInProductNamespace : bool;
  SMTPSecret : string;
  PagerDutySecret : string;
  DeadMansSnitchSecret : string;
}.
#[global] Instance RHMISpec_eq_dec : EqDecision RHMISpec.
Proof. solve_decision. Defined.

Record RHMIProductStatus := mkProductStatus {
  p_Name : ProductName;
  p_OperatorVersion : string;
  p_Version : string;
  p_Host : string;
  p_Type : string;
  p_Mobile : bool;
  p_Phase : StatusPhase;
  p_Uninstall : bool;
}.
#[global] Instance RHMIProductStatus_eq_dec : EqDecision RHMIProductStatus.
Proof. solve_decision. Defined.
(** The zero value of the struct. *)
Definition zero_product : RHMIProductStatus := mkProductStatus "" "" "" "" "" false "" false.

Record RHMIStageStatus := mkStageStatus {
  s_Name : StageName;
  s_Phase : StatusPhase;
  s_Products : option (gmap string RHMIProductStatus);
}.
#[global] Instance RHMIStageStatus_eq_dec : EqDecision RHMIStageStatus.
Proof. solve_decision. Defined.
Definition zero_stage : RHMIStageStatus := mkStageStatus "" "" None.

Record RHMIStatus := mkRHMIStatus {
  Stages : option (gmap string RHMIStageStatus);
  Stage_ : StageName;
  PreflightStatus : string;
  PreflightMessage : string;
  LastError : string;
  GitHubOAuthEnabled : bool;
  SMTPEnabled : bool;
  Version : string;
  ToVersion : string;
  Quota_ : string;
  ToQuota : string;
  CustomSmtp : option CustomSmtpStatus;
  CustomDomain : option CustomDomainStatus;
}.
#[global] Instance RHMIStatus_eq_dec : EqDecision RHMIStatus.
Proof. solve_decision. Defined.

Record RHMI := mkRHMI { rhmi_meta : ObjectMeta; Spec : RHMISpec; Status : RHMIStatus }.
#[global] Instance RHMI_eq_dec : EqDecision RHMI.
Proof. solve_decision. Defined.
#[global] Instance RHMI_object : K8sObject RHMI := {|
  meta := rhmi_meta;
  set_meta m o := mkRHMI m (Spec o) (Status o);
  semantic_deep_equal a b := bool_decide (a = b);
|}.

(** The zero values of the structs. *)
Definition zero_meta : ObjectMeta := named "" "".
Definition zero_spec : RHMISpec := mkRHMISpec "" "" "" "" false false (mkPullSecretSpec "" "") "" ""
  "" (mkAlertingEmailAddresses "" "") "" "" false "" "" "".
Definition zero_status : RHMIStatus := mkRHMIStatus None "" "" "" "" false false "" "" "" "" None None.
Definition zero_RHMI : RHMI := mkRHMI zero_meta zero_spec zero_status.

(** Field updates, as assignments in the source make them. *)
Definition on_status (f : RHMIStatus → RHMIStatus) (i : RHMI) : RHMI :=
  mkRHMI (rhmi_meta i) (Spec i) (f (Status i)).
Definition on_spec (f : RHMISpec → RHMISpec) (i : RHMI) : RHMI :=
  mkRHMI (rhmi_meta i) (f (Spec i)) (Status i).
Definition on_meta (f : ObjectMeta → ObjectMeta) (i : RHMI) : RHMI :=
  mkRHMI (f (rhmi_meta i)) (Spec i) (Status i).

Section setters.
Variable s : RHMIStatus.
Definition set_Stages v := mkRHMIStatus v (Stage_ s) (PreflightStatus s) (PreflightMessage s)
  (LastError s) (GitHubOAuthEnabled s) (SMTPEnabled s) (Version s) (ToVersion s) (Quota_ s)
  (ToQuota s) (CustomSmtp s) (CustomDomain s).
Definition set_Stage v := mkRHMIStatus (Stages s) v (PreflightStatus s) (PreflightMessage s)
  (LastError s) (GitHubOAuthEnabled s) (SMTPEnabled s) (Version s) (ToVersion s) (Quota_ s)
  (ToQuota s) (CustomSmtp s) (CustomDomain s).
Definition set_Preflight st msg := mkRHMIStatus (Stages s) (Stage_ s) st msg
  (LastError s) (GitHubOAuthEnabled s) (SMTPEnabled s) (Version s) (ToVersion s) (Quota_ s)
  (ToQuota s) (CustomSmtp s) (CustomDomain s).
Definition set_LastError v := mkRHMIStatus (Stages s) (Stage_ s) (PreflightStatus s)
  (PreflightMessage s) v (GitHubOAuthEnabled s) (SMTPEnabled s) (Version s) (ToVersion s)
  (Quota_ s) (ToQuota s) (CustomSmtp s) (CustomDomain s).
Definition set_GitHubOAuthEnabled v := mkRHMIStatus (Stages s) (Stage_ s) (PreflightStatus s)
  (PreflightMessage s) (LastError s) v (SMTPEnabled s) (Version s) (ToVersion s)
  (Quota_ s) (ToQuota s) (CustomSmtp s) (CustomDomain s).
Definition set_Version v := mkRHMIStatus (Stages s) (Stage_ s) (PreflightStatus s)
  (PreflightMessage s) (LastError s) (GitHubOAuthEnabled s) (SMTPEnabled s) v (ToVersion s)
  (Quota_ s) (ToQuota s) (CustomSmtp s) (CustomDomain s).
Definition set_ToVersion v := mkRHMIStatus (Stages s) (Stage_ s) (PreflightStatus s)
  (PreflightMessage s) (LastError s) (GitHubOAuthEnabled s) (SMTPEnabled s) (Version s) v
  (Quota_ s) (ToQuota s) (CustomSmtp s) (CustomDomain s).
Definition set_Quota v := mkRHMIStatus (Stages s) (Stage_ s) (PreflightStatus s)
  (PreflightMessage s) (LastError s) (GitHubOAuthEnabled s) (SMTPEnabled s) (Version s)
  (ToVersion s) v (ToQuota s) (CustomSmtp s) (CustomDomain s).
Definition set_ToQuota v := mkRHMIStatus (Stages s) (Stage_ s) (PreflightStatus s)
  (PreflightMessage s) (LastError s) (GitHubOAuthEnabled s) (SMTPEnabled s) (Version s)
  (ToVersion s) (Quota_ s) v (CustomSmtp s) (CustomDomain s).
Definition set_CustomSmtp v := mkRHMIStatus (Stages s) (Stage_ s) (PreflightStatus s)
  (PreflightMessage s) (LastError s) (GitHubOAuthEnabled s) (SMTPEnabled s) (Version s)
  (ToVersion s) (Quota_ s) (ToQuota s) v (CustomDomain s).
Definition set_CustomDomain v := mkRHMIStatus (Stages s) (Stage_ s) (PreflightStatus s)
  (PreflightMessage s) (LastError s) (GitHubOAuthEnabled s) (SMTPEnabled s) (Version s)
  (ToVersion s) (Quota_ s) (ToQuota s) (CustomSmtp s) v.
End setters.

Section spec_setters.
Variable s : RHMISpec.
Definition set_RoutingSubdomain v := mkRHMISpec (Type_ s) v (MasterURL s) (NamespacePrefix s)
  (RebalancePods s) (SelfSignedCerts s) (PullSecret s) (UseClusterStorage s)
  (AlertingEmailAddress s) (PriorityClassName s) (AlertingEmailAddresses_ s)
  (AlertFromAddress s) (APIServer s) (OperatorsInProductNamespace s) (SMTPSecret s)
  (PagerDutySecret s) (DeadMansSnitchSecret s).
Definition set_MasterURL v := mkRHMISpec (Type_ s) (RoutingSubdomain s) v (NamespacePrefix s)
  (RebalancePods s) (SelfSignedCerts s) (PullSecret s) (UseClusterStorage s)
  (AlertingEmailAddress s) (PriorityClassName s) (AlertingEmailAddresses_ s)
  (AlertFromAddress s) (APIServer s) (OperatorsInProductNamespace s) (SMTPSecret s)
  (PagerDutySecret s) (DeadMansSnitchSecret s).
Definition set_AlertingEmailAddress v := mkRHMISpec (Type_ s) (RoutingSubdomain s) (MasterURL s)
  (NamespacePrefix s) (RebalancePods s) (SelfSignedCerts s) (PullSecret s)
  (UseClusterStorage s) v (PriorityClassName s) (AlertingEmailAddresses_ s)
  (AlertFromAddress s) (APIServer s) (OperatorsInProductNamespace s) (SMTPSecret s)
  (PagerDutySecret s) (DeadMansSnitchSecret s).
Definition set_AlertingEmailAddresses v := mkRHMISpec (Type_ s) (RoutingSubdomain s)
  (MasterURL s) (NamespacePrefix s) (RebalancePods s) (SelfSignedCerts s) (PullSecret s)
  (UseClusterStorage s) (AlertingEmailAddress s) (PriorityClassName s) v
  (AlertFromAddress s) (APIServer s) (OperatorsInProductNamespace s) (SMTPSecret s)
  (PagerDutySecret s) (DeadMansSnitchSecret s).
Definition set_APIServer v := mkRHMISpec (Type_ s) (RoutingSubdomain s) (MasterURL s)
  (NamespacePrefix s) (RebalancePods s) (SelfSignedCerts s) (PullSecret s)
  (UseClusterStorage s) (AlertingEmailAddress s) (PriorityClassName s)
  (AlertingEmailAddresses_ s) (AlertFromAddress s) v (OperatorsInProductNamespace s)
  (SMTPSecret s) (PagerDutySecret s) (DeadMansSnitchSecret s).
End spec_setters.

Definition set_CSSRE (v : string) (a : AlertingEmailAddresses) : AlertingEmailAddresses :=
  mkAlertingEmailAddresses (BusinessUnit a) v.
Definition set_BusinessUnit (v : string) (a : AlertingEmailAddresses) : AlertingEmailAddresses :=
  mkAlertingEmailAddresses v (CSSRE a).
Definition set_p_Phase (v : StatusPhase) (p : RHMIProductStatus) : RHMIProductStatus :=
  mkProductStatus (p_Name p) (p_OperatorVersion p) (p_Version p) (p_Host p) (p_Type p)
    (p_Mobile p) v (p_Uninstall p).

(** ** installationTypesHelper.go *)

Definition isMultitenant (t : InstallationType) : bool :=
  t =?s InstallationTypeMultitenantManagedApi.
Definition IsRHOAM (t : InstallationType) : bool :=
  (t =?s InstallationTypeManagedApi) || (t =?s InstallationTypeMultitenantManagedApi).
Definition IsRHOAMMultitenant (t : InstallationType) : bool := IsRHOAM t && isMultitenant t.
Definition IsRHOAMSingletenant (t : InstallationType) : bool := IsRHOAM t && negb (isMultitenant t).

(** ** Methods of RHMI *)

(** The range over Status.Stages stops at the first stage that has the
    product; [order] is the order in which it meets the stage names. *)
Fixpoint GetProductStatusObject (order : list StageName) (i : RHMI) (product : ProductName)
    : RHMIProductStatus :=
  match order with
  | [] => mkProductStatus product "" "" "" "" false "" false
  | st :: order' =>
      match omap_lookup (s_Products (omap_get zero_stage (Stages (Status i)) st)) product with
      | Some p => p
      | None => GetProductStatusObject order' i product
      end
  end.

Definition GetPullSecretSpec (i : RHMI) : PullSecretSpec :=
  let ps := PullSecret (Spec i) in
  if negb (ps_Name ps =?s "") && negb (ps_Namespace ps =?s "") then ps
  else mkPullSecretSpec DefaultOriginPullSecretName DefaultOriginPullSecretNamespace.

Definition GetStage (i : RHMI) (n : StageName) : RHMIStageStatus :=
  omap_get zero_stage (Stages (Status i)) n.
Definition GetInstallStage (i : RHMI) : RHMIStageStatus := GetStage i InstallStage.

Definition IsProductInInstallStagePhaseComplete (i : RHMI) (p : ProductName) : bool :=
  p_Phase (omap_get zero_product (s_Products (GetInstallStage i)) p) =?s PhaseCompleted.

(** [order] is the order of the range over the stage's products. *)
Definition GetDegradedComponents (order : list ProductName) (i : RHMI) : list ProductName :=
  filter (λ k, IsProductInInstallStagePhaseComplete i k = false) order.

Definition IsInstalled (i : RHMI) : bool := negb (Version (Status i) =?s "").
Definition IsUninstalling (i : RHMI) : bool := is_some (DeletionTimestamp (rhmi_meta i)).
(** [t] is the value of time.Now. *)
Definition IsInstallBlocked (t : Z) (i : RHMI) : bool :=
  (CreationTimestamp (rhmi_meta i) + 2 * hour_ns <? t)%Z
    && negb (IsInstalled i) && negb (IsUninstalling i).
Definition IsDegraded (i : RHMI) : bool :=
  negb (IsUninstalling i) && negb (Stage_ (Status i) =?s CompleteStage).
Definition IsUninstallBlocked (t : Z) (i : RHMI) : bool :=
  match DeletionTimestamp (rhmi_meta i) with
  | Some d => (d + 2 * hour_ns <? t)%Z
  | None => false
  end.
Definition IsCoreComponentsHealthy (i : RHMI) : bool :=
  IsProductInInstallStagePhaseComplete i ProductCloudResources
    && IsProductInInstallStagePhaseComplete i ProductRHSSOUser
    && IsProductInInstallStagePhaseComplete i Product3Scale.

(** ** rhmi_conditions.go *)

(** metav1.Condition, the fields the operator sets or copies. *)
Record Condition := mkCondition {
  c_Type : string;
  c_Status : string;
  c_ObservedGeneration : Z;
  c_LastTransitionTime : Z;
  c_Reason : string;
  c_Message : string;
}.
#[global] Instance Condition_eq_dec : EqDecision Condition.
Proof. solve_decision. Defined.

Definition ConditionTrue : string := "True".
Definition ConditionFalse : string := "False".
Definition group : string := "integreatly.org".
Definition HealthyConditionType : string := "Healthy".
(** path.Join of two clean, non-empty elements. *)
Definition path_join (a b : string) : string := a +:+ "/" +:+ b.
Definition RHMIConditionType_String (c : string) : string := path_join group c.

(** The vendored addon client's condition constructor. *)
Definition newAddonInstanceCondition (cond status reason msg : string) : Condition :=
  mkCondition (path_join "addons.managed.openshift.io" cond) status 0 0 reason msg.
Definition NewAddonInstanceConditionInstalled := newAddonInstanceCondition "Installed".
Definition NewAddonInstanceConditionDegraded := newAddonInstanceCondition "Degraded".

Definition newRHMICondition (ty status reason msg : string) : Condition :=
  mkCondition (RHMIConditionType_String ty) status 0 0 reason msg.

Definition InstalledCondition : Condition :=
  NewAddonInstanceConditionInstalled ConditionTrue "SetupComplete" "Installation complete".
Definition InstallBlockedCondition : Condition :=
  NewAddonInstanceConditionInstalled ConditionFalse "Blocked" "Installation blocked".
Definition UninstalledCondition : Condition :=
  NewAddonInstanceConditionInstalled ConditionFalse "TeardownComplete" "Teardown complete".
Definition UninstallBlockedCondition : Condition :=
  NewAddonInstanceConditionInstalled ConditionTrue "Blocked" "Teardown blocked".
Definition HealthyCondition : Condition :=
  newRHMICondition HealthyConditionType ConditionTrue "Healthy" "Core components healthy".
Definition UnHealthyCondition : Condition :=
  newRHMICondition HealthyConditionType ConditionFalse "Healthy"
    "One or more core components unhealthy".
Definition DegradedCondition (order : list ProductName) (i : RHMI) : Condition :=
  NewAddonInstanceConditionDegraded ConditionTrue "Degraded"
    ("Components degraded: [" +:+ join " " (GetDegradedComponents order i) +:+ "]").
Definition NonDegradedCondition : Condition :=
  NewAddonInstanceConditionDegraded ConditionFalse "Degraded" "All components healthy".
Definition ReadyToBeDeletedCondition : Condition :=
  mkCondition (path_join "addons.managed.openshift.io" "ReadyToBeDeleted") ConditionTrue 0 0
    "AddonReadyToBeDeleted" "Teardown complete".

(** ** Facts about the helpers *)

Lemma IsRHOAM_split t :
  IsRHOAM t = true ↔ xorb (IsRHOAMMultitenant t) (IsRHOAMSingletenant t) = true.
Proof.
  unfold IsRHOAMMultitenant, IsRHOAMSingletenant.
  destruct (IsRHOAM t), (isMultitenant t); simpl; tauto.
Qed.

Lemma IsRHOAMMultitenant_true t :
  IsRHOAMMultitenant t = true ↔ t = InstallationTypeMultitenantManagedApi.
Proof.
  unfold IsRHOAMMultitenant, IsRHOAM, isMultitenant.
  rewrite andb_true_iff, orb_true_iff, !str_eqb_true. tauto.
Qed.

Lemma IsInstallBlocked_not_installed t i :
  IsInstallBlocked t i = true → IsInstalled i = false ∧ IsUninstalling i = false.
Proof.
  unfold IsInstallBlocked. rewrite !andb_true_iff, !negb_true_iff. tauto.
Qed.

Lemma IsUninstallBlocked_uninstalling t i :
  IsUninstallBlocked t i = true → IsUninstalling i = true.
Proof. unfold IsUninstallBlocked, IsUninstalling. by destruct (DeletionTimestamp _). Qed.

Lemma elem_of_GetDegradedComponents order i k :
  k ∈ GetDegradedComponents order i ↔
  k ∈ order ∧ IsProductInInstallStagePhaseComplete i k = false.
Proof. unfold GetDegradedComponents. rewrite list_elem_of_filter. tauto. Qed.

Lemma GetStage_set i m n st :
  Stages (Status i) = Some m →
  GetStage (on_status (λ s, set_Stages s (Some (<[n := st]> m))) i) n = st.
Proof. intros _. unfold GetStage. simpl. apply map_get_insert. Qed.

(** ** apimanagementtenant_types.go *)

Definition UserAnnotated : string := "user annotated".
Definition WontProvisionTenant : string := "won't provision".
Definition ThreeScaleAccountReady : string := "3scale account ready".
Definition ThreeScaleAccountRequested : string := "3scale account requested".

Record APIManagementTenantStatus := mkTenantStatus {
  t_LastError : string;
  ProvisioningStatus : string;
  TenantUrl : string;
}.
#[global] Instance APIManagementTenantStatus_eq_dec : EqDecision APIManagementTenantStatus.
Proof. solve_decision. Defined.
Record APIManagementTenant := mkTenant { tenant_meta : ObjectMeta; tenant_Status : APIManagementTenantStatus }.
#[global] Instance APIManagementTenant_eq_dec : EqDecision APIManagementTenant.
Proof. solve_decision. Defined.
#[global] Instance APIManagementTenant_object : K8sObject APIManagementTenant := {|
  meta := tenant_meta; set_meta m t := mkTenant m (tenant_Status t);
  semantic_deep_equal a b := bool_decide (a = b);
|}.
