(* ===== verification/Resources.v ===== *)
(** * Shared helpers of pkg/resources

    finalizers.go, multiErr.go, utils.go, k8s/objectQueries.go and the parts
    of reconciler.go every product reconciler goes through. *)

From stdpp Require Import base list strings gmap.
From Stdlib Require Import ZArith Lia.
From S2P Require Import Prelude Kube Api.

(** ** Slices

    [Remove] and [Replace] of finalizers.go write to the array behind their
    argument while a range loop reads it.  The loop bounds are those of the
    slice the function was called with; the array is shared. *)
Module Slices.

(** Contains checks an array of strings for a specific string *)
Fixpoint Contains (l : list string) (s : string) : bool :=
  match l with
  | [] => false
  | v :: l' => if v =?s s then true else Contains l' s
  end.

(** append(list[:i], list[i+1:]...) on a slice of length [m] at the start of
    the array [a], with room for it: the elements after [i] move down by one
    and the array keeps its last element. *)
Definition shift_down {A} (a : list A) (i m : nat) : list A :=
  take i a ++ take (m - S i) (drop (S i) a) ++ drop (m - 1) a.

(** The loop of Remove: [k] iterations are left, the next one reads index [i]
    of the array [a]; the variable list is the first [m] elements of [a].
    list[i+1:] is out of range, and panics, when i+1 exceeds its length. *)
Fixpoint Remove_loop (s : string) (i k : nat) (a : list string) (m : nat)
    : outcome (list string) :=
  match k with
  | O => Done (take m a)
  | S k' =>
      match a !! i with
      | Some v =>
          if v =?s s then
            if m <? S i then Panic "slice bounds out of range"
            else Remove_loop s (S i) k' (shift_down a i m) (m - 1)
          else Remove_loop s (S i) k' a m
      | None => Panic "index out of range"
      end
  end.

(** Remove removes a string from an array of strings *)
Definition Remove (l : list string) (s : string) : outcome (list string) :=
  Remove_loop s 0 (length l) l (length l).

(** Replaces a string from array of strings with another string.  Each write
    goes to the index the loop has just read, so the loop is a map. *)
Definition Replace (l : list string) (oldString newString : string) : list string :=
  map (λ v, if v =?s oldString then newString else v) l.

Lemma Contains_true l s : Contains l s = true ↔ s ∈ l.
Proof.
  induction l as [|v l IH]; simpl; [set_solver|].
  destruct (v =?s s) eqn:E.
  - apply str_eqb_true in E. set_solver.
  - apply str_eqb_false in E. rewrite IH. set_solver.
Qed.

Lemma Contains_false l s : Contains l s = false ↔ s ∉ l.
Proof. rewrite <- Contains_true. destruct (Contains l s); intuition congruence. Qed.

(** While the loop meets no [s] it does nothing. *)
Lemma Remove_loop_skip s pre mid post i m :
  length pre = i → s ∉ mid →
  Remove_loop s i (length mid) (pre ++ mid ++ post) m = Done (take m (pre ++ mid ++ post)).
Proof.
  revert pre i. induction mid as [|v mid IH]; intros pre i Hi Hs; simpl; [done|].
  rewrite lookup_app_r, Hi, Nat.sub_diag by lia. simpl.
  destruct (v =?s s) eqn:E; [apply str_eqb_true in E; set_solver|].
  specialize (IH (pre ++ [v]) (S i)). rewrite <- app_assoc in IH. apply IH.
  - rewrite length_app. simpl. lia.
  - set_solver.
Qed.

Lemma Remove_loop_app s pre mid post i m k :
  length pre = i → s ∉ mid →
  Remove_loop s i (length mid + k) (pre ++ mid ++ post) m =
  Remove_loop s (i + length mid) k (pre ++ mid ++ post) m.
Proof.
  revert pre i. induction mid as [|v mid IH]; intros pre i Hi Hs; simpl.
  { by rewrite Nat.add_0_r. }
  rewrite lookup_app_r, Hi, Nat.sub_diag by lia. simpl.
  destruct (v =?s s) eqn:E; [apply str_eqb_true in E; set_solver|].
  specialize (IH (pre ++ [v]) (S i)). rewrite <- app_assoc in IH. simpl in IH.
  rewrite IH; [f_equal; lia| |set_solver]. rewrite length_app. simpl. lia.
Qed.

Lemma shift_down_mid {A} (l1 : list A) s l2 post :
  shift_down (l1 ++ (s :: l2) ++ post) (length l1) (length l1 + S (length l2)) =
  l1 ++ l2 ++ drop (length l2) (s :: l2) ++ post.
Proof.
  unfold shift_down. rewrite take_app_length. f_equal.
  replace (length l1 + S (length l2) - S (length l1)) with (length l2) by lia.
  replace (length l1 + S (length l2) - 1) with (length l1 + length l2) by lia.
  rewrite <- drop_drop, drop_app_length.
  replace (S (length l1)) with (length l1 + 1) by lia.
  rewrite <- drop_drop, drop_app_length. simpl.
  rewrite skipn_O, take_app_length. f_equal.
  rewrite <- (drop_app_le (s :: l2) post) by (simpl; lia). done.
Qed.

Lemma Remove_loop_hit s l1 l2 post k :
  Remove_loop s (length l1) (S k) (l1 ++ (s :: l2) ++ post) (length l1 + S (length l2)) =
  Remove_loop s (S (length l1)) k (l1 ++ l2 ++ drop (length l2) (s :: l2) ++ post)
    (length l1 + length l2).
Proof.
  cbn [Remove_loop]. rewrite lookup_app_r, Nat.sub_diag by lia. cbn [lookup list_lookup app].
  rewrite str_eqb_refl.
  destruct (Nat.ltb_spec (length l1 + S (length l2)) (S (length l1))); [lia|].
  change (s :: l2 ++ post) with ((s :: l2) ++ post). rewrite shift_down_mid.
  f_equal. lia.
Qed.

(** The first occurrence, met after a prefix without one. *)
Lemma Remove_at_first l1 l2 s :
  s ∉ l1 →
  Remove (l1 ++ s :: l2) s =
  Remove_loop s (S (length l1)) (length l2) (l1 ++ l2 ++ drop (length l2) (s :: l2))
    (length l1 + length l2).
Proof.
  intros Hs. unfold Remove. rewrite length_app. cbn [length].
  pose proof (Remove_loop_app s [] l1 (s :: l2) 0 (length l1 + S (length l2))
    (S (length l2)) eq_refl Hs) as Hskip.
  rewrite app_nil_l in Hskip. cbn [length app Nat.add] in Hskip |- *. rewrite Hskip.
  pose proof (Remove_loop_hit s l1 l2 [] (length l2)) as H. by rewrite !app_nil_r in H.
Qed.

Lemma Remove_absent l s : s ∉ l → Remove l s = Done l.
Proof.
  intros Hs. unfold Remove.
  pose proof (Remove_loop_skip s [] l [] 0 (length l) eq_refl Hs) as H.
  rewrite app_nil_r in H. simpl in H. by rewrite H, firstn_all.
Qed.

Lemma last_not_elem (s x : string) (l : list string) :
  s ∉ x :: l → s ∉ drop (length l) (x :: l).
Proof. intros Hs Hin. apply Hs. rewrite <- (take_drop (length l) (x :: l)). set_solver. Qed.

Lemma Remove_once l1 l2 s :
  s ∉ l1 → s ∉ l2 → Remove (l1 ++ s :: l2) s = Done (l1 ++ l2).
Proof.
  intros H1 H2. rewrite Remove_at_first by done.
  destruct l2 as [|x l2]; cbn [length].
  { simpl. by rewrite Nat.add_0_r, take_app_length, app_nil_r. }
  set (t := drop (S (length l2)) (s :: x :: l2)).
  assert (Ht : t = drop (length l2) (x :: l2)) by reflexivity.
  assert (Hlen : length t = 1) by (rewrite Ht, length_drop; simpl; lia).
  pose proof (Remove_loop_skip s (l1 ++ [x]) (l2 ++ t) [] (S (length l1))
    (length l1 + S (length l2))) as H.
  rewrite app_nil_r, (length_app l2 t), Hlen, <- (app_assoc l1) in H. cbn [app] in H.
  replace (length l2 + 1) with (S (length l2)) in H by lia.
  cbn [app]. rewrite H.
  - f_equal. rewrite app_comm_cons, app_assoc.
    replace (length l1 + S (length l2)) with (length (l1 ++ x :: l2))
      by (rewrite length_app; simpl; lia).
    by rewrite take_app_length.
  - rewrite length_app. simpl. lia.
  - pose proof (last_not_elem s x l2 H2) as Hl. rewrite <- Ht in Hl. set_solver.
Qed.

(** On a list that holds the string at most once, Remove is the filter its
    comment promises. *)
Lemma Remove_filter l s :
  NoDup (filter (λ v, v = s) l) → Remove l s = Done (filter (λ v, v ≠ s) l).
Proof.
  intros Hnd. destruct (decide (s ∈ l)) as [Hin|Hnin].
  - apply list_elem_of_split in Hin as (l1 & l2 & ->).
    assert (s ∉ l1 ∧ s ∉ l2) as [H1 H2].
    { rewrite filter_app, filter_cons_True in Hnd by done.
      apply NoDup_app in Hnd as (_ & Hd & Hc). apply NoDup_cons in Hc as [Hc _].
      split; intros Hin.
      - apply (Hd s); [apply list_elem_of_filter|]; set_solver.
      - apply Hc, list_elem_of_filter. done. }
    rewrite Remove_once by done. f_equal.
    rewrite filter_app, filter_cons_False by naive_solver.
    rewrite !filter_id; [done|..]; intros v Hv; naive_solver.
  - rewrite Remove_absent by done. f_equal. symmetry. apply filter_id. naive_solver.
Qed.

Lemma Remove_NoDup l s : NoDup l → Remove l s = Done (filter (λ v, v ≠ s) l).
Proof. intros. apply Remove_filter. by apply NoDup_filter. Qed.

(** Two copies at the end: the loop meets the second where the shift left it,
    past the end of the shortened slice. *)
Lemma Remove_two_at_end l s :
  s ∉ l → Remove (l ++ [s; s]) s = Panic "slice bounds out of range".
Proof.
  intros Hs. rewrite Remove_at_first by done. cbn [length drop app].
  cbn [Remove_loop].
  rewrite lookup_app_r by lia. replace (S (length l) - length l) with 1 by lia.
  cbn [lookup list_lookup]. rewrite str_eqb_refl.
  destruct (Nat.ltb_spec (length l + 1) (S (S (length l)))); [done|lia].
Qed.

(** Two adjacent copies elsewhere: the second slides under the index the
    loop has already passed, and survives. *)
Lemma Remove_adjacent_survives l1 x l2 s :
  s ∉ l1 → s ∉ x :: l2 → Remove (l1 ++ s :: s :: x :: l2) s = Done (l1 ++ s :: x :: l2).
Proof.
  intros H1 H2. rewrite Remove_at_first by done.
  set (t := drop _ _). assert (Ht : t = drop (length l2) (x :: l2)) by reflexivity.
  assert (Hlen : length t = 1) by (rewrite Ht, length_drop; simpl; lia).
  pose proof (Remove_loop_skip s (l1 ++ [s]) ((x :: l2) ++ t) [] (S (length l1))
    (length l1 + length (s :: x :: l2))) as H.
  rewrite app_nil_r, (length_app (x :: l2) t), Hlen, <- (app_assoc l1) in H. cbn [length app] in H.
  replace (S (length l2) + 1) with (S (S (length l2))) in H by lia.
  cbn [length app]. rewrite H.
  - f_equal. rewrite !app_comm_cons, app_assoc.
    replace (length l1 + S (S (length l2))) with (length (l1 ++ s :: x :: l2))
      by (rewrite length_app; simpl; lia).
    by rewrite take_app_length.
  - rewrite length_app. simpl. lia.
  - pose proof (last_not_elem s x l2 H2) as Hl. rewrite <- Ht in Hl. set_solver.
Qed.

Lemma elem_of_Replace l o n v :
  v ∈ Replace l o n ↔ (v = n ∧ o ∈ l) ∨ (v ≠ o ∧ v ∈ l).
Proof.
  unfold Replace. rewrite list_elem_of_fmap. split.
  - intros (y & -> & Hy). destruct (y =?s o) eqn:E.
    + apply str_eqb_true in E as ->. by left.
    + apply str_eqb_false in E. by right.
  - intros [[-> Ho]|[Hne Hv]].
    + exists o. by rewrite str_eqb_refl.
    + exists v. split; [|done]. destruct (v =?s o) eqn:E; [|done]. by apply str_eqb_true in E.
Qed.

Lemma Replace_length l o n : length (Replace l o n) = length l.
Proof. apply length_map. Qed.

(** Remove deletes the string from a list that holds it at most once;
    with two copies at the end of the list it panics, and of two adjacent
    copies elsewhere one survives. *)
Theorem Remove_spec :
  (∀ l s, NoDup (filter (λ v, v = s) l) → Remove l s = Done (filter (λ v, v ≠ s) l))
  ∧ (∀ l s, s ∉ l → Remove (l ++ [s; s]) s = Panic "slice bounds out of range")
  ∧ (∀ l1 x l2 s, s ∉ l1 → s ∉ x :: l2 →
       Remove (l1 ++ s :: s :: x :: l2) s = Done (l1 ++ s :: x :: l2)).
Proof.
  split_and!; [apply Remove_filter|apply Remove_two_at_end|apply Remove_adjacent_survives].
Qed.

Lemma Replace_NoDup l o n : NoDup l → ¬ (o ∈ l ∧ n ∈ l) → NoDup (Replace l o n).
Proof.
  unfold Replace. induction l as [|v l IH]; intros Hnd Hon; [constructor|].
  apply NoDup_cons in Hnd as [Hv Hnd]. cbn [map].
  assert (NoDup (map (λ v, if v =?s o then n else v) l)) as Hl.
  { apply IH; [done|]. intros [? ?]. apply Hon. set_solver. }
  destruct (v =?s o) eqn:E.
  - apply str_eqb_true in E as ->. constructor; [|done].
    change (n ∉ Replace l o n). rewrite elem_of_Replace. set_solver.
  - apply str_eqb_false in E. constructor; [|done].
    change (v ∉ Replace l o n). rewrite elem_of_Replace. set_solver.
Qed.

End Slices.

(** ** multiErr.go *)

Record MultiErr := mkMultiErr { Errors : list string }.
Definition newMultiErr : MultiErr := mkMultiErr [].
Definition MultiErr_Error (m : MultiErr) : string :=
  "product reconcilation errors : " +:+ join ":  " (Errors m).
(** Add calls err.Error() and so panics on a nil error. *)
Definition MultiErr_Add (m : MultiErr) (e : error) : MultiErr :=
  mkMultiErr (Errors m ++ [error_msg e]).
(** A *MultiErr returned as an error: only its text is visible to callers. *)
Definition MultiErr_error (m : MultiErr) : error := ErrStr (MultiErr_Error m).

(** ** utils.go, and utils/prow.go *)

Definition annotation_is_true (k : string) (i : RHMI) : bool :=
  match omap_lookup (Annotations (rhmi_meta i)) k with
  | Some v => v =?s "true"
  | None => false
  end.
Definition IsInProw (i : RHMI) : bool := annotation_is_true "in_prow" i.
Definition IsSkipFinalDBSnapshots (i : RHMI) : bool :=
  annotation_is_true "skip_final_db_snapshots" i.

Definition RunningInProw (i : RHMI) : bool :=
  match omap_lookup (Annotations (rhmi_meta i)) "in_prow" with
  | None => false
  | Some v => negb (v =?s "false")
  end.

(** The two tests agree on "true" and "false" annotations and on none. *)
Lemma IsInProw_RunningInProw i : IsInProw i = true → RunningInProw i = true.
Proof.
  unfold IsInProw, annotation_is_true, RunningInProw.
  destruct (omap_lookup _ _) as [v|]; [|done]. intros ->%str_eqb_true. done.
Qed.

(** ** k8s/objectQueries.go *)

Section queries.
  Context {W O : Type} `{Client W O} `{K8sObject O}.

Definition Exists (c : KClient) (obj : O) : M W (bool * option error) :=
  got ← client_get c (Namespace (meta obj)) (Name (meta obj));
  match got with
  | inl err => if IsNotFound (Some err) then mret (false, None) else mret (false, Some err)
  | inr _ => mret (true, None)
  end.

Definition UpdateIfExists (c : KClient) (fn : MutateFn W O) (obj : O)
    : M W (O * (StatusPhase * option error)) :=
  got ← client_get c (Namespace (meta obj)) (Name (meta obj));
  match got with
  | inl err =>
      if IsNotFound (Some err) then mret (obj, (PhaseInProgress, None))
      else mret (obj, (PhaseFailed, Some err))
  | inr obj =>
      '(obj, ferr) ← fn obj;
      match ferr with
      | Some err => mret (obj, (PhaseFailed, Some err))
      | None =>
          r ← client_update c obj;
          match r with
          | inl err => mret (obj, (PhaseFailed, Some err))
          | inr obj => mret (obj, (PhaseCompleted, None))
          end
      end
  end.

Definition PatchIfExists (c : KClient) (fn : MutateFn W O) (obj : O)
    : M W (O * (StatusPhase * option error)) :=
  got ← client_get c (Namespace (meta obj)) (Name (meta obj));
  match got with
  | inl err =>
      if IsNotFound (Some err) then mret (obj, (PhaseInProgress, None))
      else mret (obj, (PhaseFailed, Some err))
  | inr obj =>
      '(obj, ferr) ← fn obj;
      match ferr with
      | Some err => mret (obj, (PhaseFailed, Some err))
      | None =>
          r ← client_patch c obj;
          match r with
          | inl err => mret (obj, (PhaseFailed, Some err))
          | inr obj => mret (obj, (PhaseCompleted, None))
          end
      end
  end.

Definition EnsureObjectDeleted (c : KClient) (obj : O) : M W (StatusPhase * option error) :=
  derr ← client_delete c obj;
  match derr with
  | Some err =>
      if IsNotFound (Some err) then mret (PhaseCompleted, None)
      else mret (PhaseFailed, Some err)
  | None => mret (PhaseInProgress, None)
  end.
End queries.

(** ** Finalizers of the installation (finalizers.go) *)

Section finalizers.
  Context {W : Type} `{Client W RHMI}.

(** client.Update(ctx, inst): the object the server answers with replaces
    the one in memory. *)
Definition update_rhmi (c : KClient) (inst : RHMI) : M W (RHMI * option error) :=
  r ← client_update c inst;
  match r with
  | inl err => mret (inst, Some err)
  | inr inst => mret (inst, None)
  end.

Definition product_finalizer (productName : string) : string :=
  productName +:+ ".integreatly.org" +:+ "/finalizer".

Definition AddFinalizer (inst : RHMI) (c : KClient) (finalizer : string)
    : M W (RHMI * option error) :=
  if negb (Slices.Contains (Finalizers (rhmi_meta inst)) finalizer)
     && negb (is_some (DeletionTimestamp (rhmi_meta inst)))
  then update_rhmi c (on_meta (SetFinalizers (Finalizers (rhmi_meta inst) ++ [finalizer])) inst)
  else mret (inst, None).

Definition UpdateFinalizer (inst : RHMI) (c : KClient) (productName finalizer : string)
    : M W (RHMI * option error) :=
  let previousFinalizer := "finalizer." +:+ productName +:+ ".integreatly.org" in
  if Slices.Contains (Finalizers (rhmi_meta inst)) previousFinalizer
     && negb (is_some (DeletionTimestamp (rhmi_meta inst)))
  then update_rhmi c
         (on_meta (SetFinalizers
            (Slices.Replace (Finalizers (rhmi_meta inst)) previousFinalizer finalizer)) inst)
  else mret (inst, None).

(** inst.SetFinalizers(Remove(inst.GetFinalizers(), finalizer)) *)
Definition remove_finalizer (inst : RHMI) (finalizer : string) : M W RHMI := λ w,
  match Slices.Remove (Finalizers (rhmi_meta inst)) finalizer with
  | Done l => (Done (on_meta (SetFinalizers l) inst), w)
  | Panic s => (Panic s, w)
  end.

Definition RemoveFinalizerAndUpdate (inst : RHMI) (c : KClient) (finalizer : string)
    : M W (RHMI * option error) :=
  inst ← remove_finalizer inst finalizer;
  update_rhmi c inst.

Definition RemoveProductFinalizer (inst : RHMI) (c : KClient) (product : string)
    : M W (RHMI * option error) :=
  RemoveFinalizerAndUpdate inst c (product_finalizer product).

(** ReconcileFinalizer of reconciler.go; [finalFunc] is the product's
    clean-up, which works on the same installation object. *)
Definition ReconcileFinalizer (c : KClient) (inst : RHMI) (productName : string)
    (uninstall : bool) (finalFunc : RHMI → M W (RHMI * (StatusPhase * option error)))
    : M W (RHMI * (StatusPhase * option error)) :=
  let finalizer := product_finalizer productName in
  if uninstall then
    if Slices.Contains (Finalizers (rhmi_meta inst)) finalizer then
      '(inst, (phase, err)) ← finalFunc inst;
      if is_some err || negb (phase =?s PhaseCompleted) then mret (inst, (phase, err))
      else
        inst ← remove_finalizer inst finalizer;
        mret (inst, (PhaseCompleted, None))
    else mret (inst, (PhaseCompleted, None))
  else
    '(inst, err) ← UpdateFinalizer inst c productName finalizer;
    match err with
    | Some e => mret (inst, (PhaseFailed, Some e))
    | None =>
        '(inst, err) ← AddFinalizer inst c finalizer;
        match err with
        | Some e => mret (inst, (PhaseFailed, Some e))
        | None => mret (inst, (PhaseCompleted, None))
        end
    end.
End finalizers.

(** ** events.go *)

Section events.
Context {W : Type} `{EventRecorder W}.

Definition newline : string := String (Ascii.ascii_of_nat 10) EmptyString.

Definition stage_of_status (i : RHMI) (stageName : StageName) : RHMIStageStatus :=
  omap_get zero_stage (Stages (Status i)) stageName.

Definition HandleStageComplete (installation : RHMI) (stageName : StageName) : M W unit :=
  if negb (s_Phase (stage_of_status installation stageName) =?s PhaseCompleted) then
    event "Normal" EventInstallationCompleted (stageName +:+ " stage has reconciled successfully")
  else mret tt.

Definition HandleProductComplete (installation : RHMI) (stageName : StageName) (productName : ProductName)
    : M W unit :=
  let products := s_Products (stage_of_status installation stageName) in
  if negb (p_Phase (omap_get zero_product products productName) =?s PhaseCompleted) then
    event "Normal" EventInstallationCompleted (productName +:+ " was installed successfully")
  else mret tt.

Definition HandleError (installation : RHMI) (phase : StatusPhase) (errorMessage : string)
    (err : option error) : M W unit :=
  match err with
  | Some e =>
      if phase =?s PhaseFailed
      then event "Warning" EventProcessingError (errorMessage +:+ ":" +:+ newline +:+ error_msg e)
      else mret tt
  | None => mret tt
  end.

(** What a product's Reconcile gives back, and one of its steps: anything but
    completed ends the reconcile, after an event for a failure. *)
Definition ProductResult : Type := RHMI * RHMIProductStatus * (StatusPhase * option error).
Definition product_step (installation : RHMI) (productStatus : RHMIProductStatus) (what : string)
    (body : M W (StatusPhase * option error)) (next : M W ProductResult) : M W ProductResult :=
  '(phase, err) ← body;
  if is_some err || negb (phase =?s PhaseCompleted) then
    HandleError installation phase what err;;
    mret (installation, productStatus, (phase, err))
  else next.

(** The same for a reconcile with another result, which [stop_with] makes of
    the phase and the error; and a step of which only an error ends the
    reconcile, with a phase of its own. *)
Definition step_with {R} (installation : RHMI) (stop_with : StatusPhase * option error → R) (what : string)
    (body : M W (StatusPhase * option error)) (next : M W R) : M W R :=
  '(phase, err) ← body;
  if is_some err || negb (phase =?s PhaseCompleted) then
    HandleError installation phase what err;;
    mret (stop_with (phase, err))
  else next.
Definition checked {R} (installation : RHMI) (stop_with : StatusPhase * option error → R) (phase : StatusPhase)
    (what : string) (body : M W (option error)) (next : M W R) : M W R :=
  err ← body;
  match err with
  | Some e => HandleError installation phase what (Some e);; mret (stop_with (phase, Some e))
  | None => next
  end.
End events.

(** ** What ReconcileFinalizer does to the finalizers *)

Section finalizer_properties.
Context {W : Type} `{Client W RHMI}.

(** An update the API server accepts answers with the finalizers it was given. *)
Hypothesis update_echo : ∀ c (i i' : RHMI) (w w' : W),
  client_update c i w = (Done (inr i'), w') →
  Finalizers (rhmi_meta i') = Finalizers (rhmi_meta i)
  ∧ DeletionTimestamp (rhmi_meta i') = DeletionTimestamp (rhmi_meta i).

Definition finalizers_of (i : RHMI) : list string := Finalizers (rhmi_meta i).
Definition not_deleted (i : RHMI) : Prop := DeletionTimestamp (rhmi_meta i) = None.
Definition previous_finalizer (productName : string) : string :=
  "finalizer." +:+ productName +:+ ".integreatly.org".

Lemma update_rhmi_ok c i w i' w' :
  update_rhmi c i w = (Done (i', None), w') →
  finalizers_of i' = finalizers_of i ∧ (not_deleted i → not_deleted i').
Proof.
  unfold update_rhmi. intros Hu. apply bind_done_inv in Hu as ([e|j] & w1 & Hc & Hu); go_inv.
  apply update_echo in Hc as [Hf Hd]. unfold not_deleted. by rewrite Hd.
Qed.

Lemma UpdateFinalizer_ok i c p f w i' w' :
  not_deleted i → UpdateFinalizer i c p f w = (Done (i', None), w') →
  finalizers_of i' = (if Slices.Contains (finalizers_of i) (previous_finalizer p)
                      then Slices.Replace (finalizers_of i) (previous_finalizer p) f
                      else finalizers_of i)
  ∧ not_deleted i'.
Proof.
  unfold UpdateFinalizer. fold (previous_finalizer p) (finalizers_of i). intros Hd Hu.
  unfold not_deleted in Hd. rewrite Hd in Hu. cbn [is_some negb] in Hu. rewrite andb_true_r in Hu.
  destruct (Slices.Contains _ _) eqn:E.
  - apply update_rhmi_ok in Hu as [Hf Hn]. split; [exact Hf|]. by apply Hn.
  - by go_inv.
Qed.

Lemma AddFinalizer_ok i c f w i' w' :
  not_deleted i → AddFinalizer i c f w = (Done (i', None), w') →
  finalizers_of i' = (if Slices.Contains (finalizers_of i) f then finalizers_of i
                      else finalizers_of i ++ [f]).
Proof.
  unfold AddFinalizer. fold (finalizers_of i). intros Hd Hu.
  unfold not_deleted in Hd. rewrite Hd in Hu. cbn [is_some negb] in Hu. rewrite andb_true_r in Hu.
  destruct (Slices.Contains _ _) eqn:E; cbn [negb] in Hu.
  - by go_inv.
  - by apply update_rhmi_ok in Hu as [Hf _].
Qed.

(** C33: Outside of an uninstall ReconcileFinalizer leaves a resource that is
    not being deleted with the product's finalizer, without the product's
    finalizer in the old format, and with every other finalizer it had and no
    more; none of them is there twice, unless the old and the new format were
    both there before. *)
Theorem ReconcileFinalizer_installs c inst p fin w inst' w' :
  not_deleted inst → previous_finalizer p ≠ product_finalizer p →
  ReconcileFinalizer c inst p false fin w = (Done (inst', (PhaseCompleted, None)), w') →
  let fs := finalizers_of inst in
  let fs' := finalizers_of inst' in
  product_finalizer p ∈ fs' ∧ previous_finalizer p ∉ fs'
  ∧ (∀ v, v ≠ product_finalizer p → v ≠ previous_finalizer p → v ∈ fs' ↔ v ∈ fs)
  ∧ (NoDup fs → ¬ (previous_finalizer p ∈ fs ∧ product_finalizer p ∈ fs) → NoDup fs').
Proof.
  intros Hd Hne Hr. unfold ReconcileFinalizer in Hr.
  apply bind_done_inv in Hr as ([i1 [e|]] & w1 & Hu & Hr); [go_inv|].
  apply bind_done_inv in Hr as ([i2 [e|]] & w2 & Ha & Hr); [go_inv|].
  rewrite run_ret in Hr. injection Hr as <- <-.
  apply UpdateFinalizer_ok in Hu as [Hf1 Hd1]; [|done]. apply AddFinalizer_ok in Ha; [|done].
  cbn zeta. rewrite Ha, Hf1. clear -Hne.
  set (fs := finalizers_of inst). set (old := previous_finalizer p) in *.
  set (new := product_finalizer p) in *.
  set (fs1 := if Slices.Contains fs old then Slices.Replace fs old new else fs).
  assert (old ∉ fs1 ∧ (∀ v, v ≠ new → v ≠ old → v ∈ fs1 ↔ v ∈ fs)
    ∧ (NoDup fs → ¬ (old ∈ fs ∧ new ∈ fs) → NoDup fs1)) as (H1 & H2 & H3).
  { unfold fs1. destruct (Slices.Contains fs old) eqn:E.
    - apply Slices.Contains_true in E. rewrite Slices.elem_of_Replace. split_and!; [naive_solver| |].
      + intros v Hn Ho. rewrite Slices.elem_of_Replace. naive_solver.
      + apply Slices.Replace_NoDup.
    - apply Slices.Contains_false in E. done. }
  destruct (Slices.Contains fs1 new) eqn:E.
  - apply Slices.Contains_true in E. done.
  - apply Slices.Contains_false in E. split_and!; [set_solver|set_solver| |].
    + intros v Hn Ho. rewrite elem_of_app, list_elem_of_singleton. rewrite H2 by done. naive_solver.
    + intros Hnd Hb. apply NoDup_app. split_and!; [auto|set_solver|apply NoDup_singleton].
Qed.

(** C34: On uninstall the product's finalizer goes only after the product's
    clean-up has reported that it is completed without an error, and once it
    has, it goes and nothing else does. *)
Theorem ReconcileFinalizer_uninstalls c inst p fin w inst' ph err w' :
  (∀ i i' r w w', fin i w = (Done (i', r), w') → finalizers_of i' = finalizers_of i) →
  NoDup (finalizers_of inst) → product_finalizer p ∈ finalizers_of inst →
  ReconcileFinalizer c inst p true fin w = (Done (inst', (ph, err)), w') →
  ∃ i1 ph1 err1 w1, fin inst w = (Done (i1, (ph1, err1)), w1)
  ∧ ((ph1 = PhaseCompleted ∧ err1 = None ∧ ph = PhaseCompleted ∧ err = None
      ∧ finalizers_of inst' = filter (λ v, v ≠ product_finalizer p) (finalizers_of inst))
     ∨ ((ph1 ≠ PhaseCompleted ∨ is_Some err1) ∧ ph = ph1 ∧ err = err1
        ∧ finalizers_of inst' = finalizers_of inst)).
Proof.
  intros Hfin Hnd Hin Hr. unfold ReconcileFinalizer in Hr. fold (finalizers_of inst) in Hr.
  rewrite (proj2 (Slices.Contains_true _ _) Hin) in Hr.
  apply bind_done_inv in Hr as ([i1 [ph1 err1]] & w1 & Hf & Hr).
  pose proof (Hfin _ _ _ _ _ Hf) as Hk.
  exists i1, ph1, err1, w1. split; [done|]. destruct (_ || _) eqn:E.
  - right. rewrite orb_true_iff, negb_true_iff, str_eqb_false in E.
    rewrite run_ret in Hr. injection Hr as <- <- <- <-. split_and!; [|done..].
    destruct err1; [right; eauto|]. destruct E; [done|by left].
  - left. rewrite orb_false_iff, negb_false_iff, str_eqb_true in E. destruct E as [He ->].
    destruct err1; [done|].
    apply bind_done_inv in Hr as (i2 & w2 & Hrm & Hr). rewrite run_ret in Hr. injection Hr as <- <- <- <-.
    unfold remove_finalizer in Hrm. fold (finalizers_of i1) in Hrm. rewrite Hk in Hrm.
    rewrite Slices.Remove_NoDup in Hrm by done. injection Hrm as <- <-. done.
Qed.
End finalizer_properties.

(** ** Steps of a product's reconcile *)

(** Closes [steps_done] from the runs of the steps. *)
Ltac steps_tac := simpl; repeat (eexists; split; [eassumption|]); done.

Section product_steps.
Context {W : Type} `{EventRecorder W}.

(** The steps ran one after the other and each of them completed. *)
Fixpoint steps_done (steps : list (M W (StatusPhase * option error))) (w w' : W) : Prop :=
  match steps with
  | [] => w' = w
  | s :: steps => ∃ w1, s w = (Done (PhaseCompleted, None), w1) ∧ steps_done steps w1 w'
  end.

Lemma steps_done_app l k (w w' : W) :
  steps_done (l ++ k) w w' ↔ ∃ w1, steps_done l w w1 ∧ steps_done k w1 w'.
Proof.
  revert w. induction l as [|s l IH]; intros w; simpl; [naive_solver|].
  setoid_rewrite IH. naive_solver.
Qed.

Lemma stop_not_completed {B} (what : string) i0 (b : B) phase err (w w' : W) x :
  is_some err || negb (phase =?s PhaseCompleted) = true →
  (HandleError i0 phase what err;; mret (b, (phase, err))) w = (Done (x, (PhaseCompleted, None)), w') → False.
Proof. intros Hs Hr. go_inv. Qed.

Lemma product_step_done i ps what body next (w w' : W) x :
  product_step i ps what body next w = (Done (x, (PhaseCompleted, None)), w') ↔
  ∃ w1, body w = (Done (PhaseCompleted, None), w1) ∧ next w1 = (Done (x, (PhaseCompleted, None)), w').
Proof.
  unfold product_step. split.
  - intros Hr. apply bind_done_inv in Hr as ([ph err] & w1 & Hb & Hr).
    destruct (is_some err || _) eqn:Hs; [by apply stop_not_completed in Hr|].
    apply orb_false_iff in Hs as [He Hs%negb_false_iff%str_eqb_true].
    destruct err; [done|]. subst ph. eauto.
  - intros (w1 & Hb & Hn). rewrite (bind_done _ _ _ _ _ Hb). exact Hn.
Qed.

(** A result other than the ones a step gives up with comes of what follows. *)
Definition not_given_up {R} (stop_with : StatusPhase * option error → R) (x : R) : Prop :=
  ∀ phase err, stop_with (phase, err) = x → phase = PhaseCompleted ∧ err = None.

Lemma step_with_done {R} i (stop_with : _ → R) what body next (w w' : W) x :
  not_given_up stop_with x → step_with i stop_with what body next w = (Done x, w') →
  ∃ w1, body w = (Done (PhaseCompleted, None), w1) ∧ next w1 = (Done x, w').
Proof.
  intros Hx Hr. unfold step_with in Hr. apply bind_done_inv in Hr as ([ph err] & w1 & Hb & Hr).
  destruct (is_some err || _) eqn:Hs.
  - apply bind_done_inv in Hr as ([] & w2 & _ & Hr). rewrite run_ret in Hr. injection Hr as Hr _.
    apply Hx in Hr as [-> ->]. done.
  - apply orb_false_iff in Hs as [He Hs%negb_false_iff%str_eqb_true]. destruct err; [done|].
    subst ph. eauto.
Qed.
Lemma checked_done {R} i (stop_with : _ → R) phase what body next (w w' : W) x :
  not_given_up stop_with x → checked i stop_with phase what body next w = (Done x, w') →
  ∃ w1, body w = (Done None, w1) ∧ next w1 = (Done x, w').
Proof.
  intros Hx Hr. unfold checked in Hr. apply bind_done_inv in Hr as ([e|] & w1 & Hb & Hr); [|eauto].
  apply bind_done_inv in Hr as ([] & w2 & _ & Hr). rewrite run_ret in Hr. injection Hr as Hr _.
  by apply Hx in Hr as [_ ?].
Qed.

(** The event of a completed product, when its stage has no status yet. *)
Lemma HandleProductComplete_event i stage p (w : W) :
  omap_lookup (Stages (Status i)) stage = None →
  HandleProductComplete i stage p w
  = (Done tt, record_event "Normal" EventInstallationCompleted (p +:+ " was installed successfully") w).
Proof.
  intros Hn. unfold HandleProductComplete, stage_of_status, omap_get, omap_lookup, map_get in *.
  destruct (Stages (Status i)); [by rewrite Hn|done].
Qed.

Lemma ReconcileFinalizer_phase `{Client W RHMI} c i p u f (w w' : W) i' ph :
  ReconcileFinalizer c i p u f w = (Done (i', (ph, None)), w') → u = false → ph = PhaseCompleted.
Proof. intros Hr ->. unfold ReconcileFinalizer in Hr. by go_inv. Qed.
End product_steps.

(** ** Steps over a state

    A reconcile whose steps change what it holds (its config, the config
    manager, the installation): each step maps the state to the next one with
    a phase and an error, goes on for some phases, and may report why it
    stopped. *)

Record Step (W S : Type) := mkStep {
  step_reports : option string;
  step_goes_on : StatusPhase → bool;
  step_run : S → M W (S * (StatusPhase * option error));
}.
Arguments mkStep {W S}.
Arguments step_reports {W S}.
Arguments step_goes_on {W S}.
Arguments step_run {W S}.

Section state_steps.
Context {W S : Type} `{EventRecorder W} (installation_of : S → RHMI).

Fixpoint run_steps (l : list (Step W S)) (s : S) : M W (S * (StatusPhase * option error)) :=
  match l with
  | [] => mret (s, (PhaseCompleted, None))
  | st :: l =>
      '(s, (phase, err)) ← step_run st s;
      if is_some err || negb (step_goes_on st phase) then
        match step_reports st with
        | Some what => HandleError (installation_of s) phase what err
        | None => mret tt
        end ;;
        mret (s, (phase, err))
      else run_steps l s
  end.

(** The steps ran one after the other, none with an error and each with a
    phase for which it goes on. *)
Fixpoint steps_ran (l : list (Step W S)) (s : S) (w : W) (s' : S) (w' : W) : Prop :=
  match l with
  | [] => s' = s ∧ w' = w
  | st :: l => ∃ s1 w1 phase, step_run st s w = (Done (s1, (phase, None)), w1)
                 ∧ step_goes_on st phase = true ∧ steps_ran l s1 w1 s' w'
  end.

Lemma run_steps_completed l s (w w' : W) s' :
  Forall (λ st : Step W S, step_goes_on st PhaseCompleted = true) l →
  run_steps l s w = (Done (s', (PhaseCompleted, None)), w') ↔ steps_ran l s w s' w'.
Proof.
  intros Hl. revert s w. induction Hl as [|st l Hst Hl IH]; intros s w; cbn [run_steps steps_ran].
  { split; [by intros [= <- <-]|by intros [-> ->]]. }
  split.
  - intros Hr. apply bind_done_inv in Hr as ([s1 [ph err]] & w1 & Hb & Hr).
    destruct (is_some err || negb (step_goes_on st ph)) eqn:E.
    + apply bind_done_inv in Hr as ([] & w2 & _ & Hr). rewrite run_ret in Hr. simplify_eq.
      by rewrite Hst in E.
    + apply orb_false_iff in E as [He Hg%negb_false_iff]. destruct err; [done|].
      exists s1, w1, ph. by rewrite <- IH.
  - intros (s1 & w1 & ph & Hb & Hg & Hr). rewrite (bind_done _ _ _ _ _ Hb), Hg. by apply IH.
Qed.

Lemma steps_ran_app l k s (w w' : W) s' :
  steps_ran (l ++ k) s w s' w' ↔ ∃ s1 w1, steps_ran l s w s1 w1 ∧ steps_ran k s1 w1 s' w'.
Proof.
  revert s w. induction l as [|st l IH]; intros s w; cbn [app steps_ran]; [naive_solver|].
  setoid_rewrite IH. naive_solver.
Qed.

(** A step completes, or goes on, or has no phase of its own. *)
Definition completes_only (phase : StatusPhase) : bool := phase =?s PhaseCompleted.
Definition goes_on_unless_failed (phase : StatusPhase) : bool := negb (phase =?s PhaseFailed).
End state_steps.
