(* ===== verification/Password.v ===== *)
(** * Random passwords (pkg/resources/password.go) *)

From stdpp Require Import base list strings.
From Stdlib Require Import ZArith Lia Ascii.
From S2P Require Import Prelude.

(** crypto/rand.Int below a bound, and the Shuffle of math/rand over a source
    of crypto/rand. *)
Class Rand (W : Type) := rand_Int : Z → M W (error + Z).
Class Shuffle (W : Type) := rand_Shuffle : list ascii → M W (list ascii).
Class ShuffleLaws (W : Type) `{Shuffle W} :=
  rand_Shuffle_perm : ∀ l (w w' : W) l', rand_Shuffle l w = (Done l', w') → l' ≡ₚ l.

Definition lowerCharSet : string := "abcdedfghijklmnopqrst".
Definition upperCharSet : string := "ABCDEFGHIJKLMNOPQRSTUVWXYZ".
Definition specialCharSet : string := "!@#$%&*".
Definition numberSet : string := "0123456789".
Definition allCharSet : string := lowerCharSet +:+ upperCharSet +:+ specialCharSet +:+ numberSet.

Section password.
Context {W : Type} `{Rand W} `{Shuffle W}.

(** One of the loops: so many characters of a set. *)
Fixpoint random_chars (set : string) (n : nat) : M W (error + list ascii) :=
  match n with
  | O => mret (inr [])
  | S n =>
      random ← rand_Int (Z.of_nat (String.length set));
      match random with
      | inl e => mret (inl e)
      | inr random =>
          match String.get (Z.to_nat random) set with
          | None => panic "index out of range"
          | Some c =>
              rest ← random_chars set n;
              mret (match rest with inl e => inl e | inr rest => inr (c :: rest) end)
          end
      end
  end.

(** The loops one after the other; an error of any gives the empty text. *)
Fixpoint random_parts (parts : list (string * nat)) : M W (error + list ascii) :=
  match parts with
  | [] => mret (inr [])
  | (set, n) :: parts =>
      chars ← random_chars set n;
      match chars with
      | inl e => mret (inl e)
      | inr chars =>
          rest ← random_parts parts;
          mret (match rest with inl e => inl e | inr rest => inr (chars ++ rest) end)
      end
  end.

Definition GenerateRandomPassword (passwordLength minSpecialChar minNum minUpperCase : Z) : M W string :=
  let remainingLength := (passwordLength - minSpecialChar - minNum - minUpperCase)%Z in
  password ← random_parts [(specialCharSet, Z.to_nat minSpecialChar); (numberSet, Z.to_nat minNum);
                           (upperCharSet, Z.to_nat minUpperCase); (allCharSet, Z.to_nat remainingLength)];
  match password with
  | inl _ => mret ""
  | inr password => inRune ← rand_Shuffle password; mret (String.string_of_list_ascii inRune)
  end.
End password.

(** ** Facts *)

Definition in_set (set : string) (c : ascii) : bool := has_char c set.
(** How many characters of a text are in a set. *)
Definition count (set s : string) : nat :=
  length (filter (λ c, in_set set c = true) (String.list_ascii_of_string s)).

Lemma has_char_get set i c : String.get i set = Some c → has_char c set = true.
Proof.
  revert i. induction set as [|d set IH]; intros [|i] Hg; cbn in *; simplify_eq.
  - by rewrite Ascii.eqb_refl.
  - apply IH in Hg. rewrite Hg. by destruct (Ascii.eqb _ _).
Qed.
Section password_facts.
Context {W : Type} `{Rand W} `{ShuffleLaws W}.

Lemma random_chars_ok set n (w w' : W) l :
  random_chars set n w = (Done (inr l), w') → length l = n ∧ Forall (λ c, in_set set c = true) l.
Proof.
  revert w l. induction n as [|n IH]; intros w l Hr; cbn [random_chars] in Hr; [by go_inv|].
  apply bind_done_inv in Hr as ([e|r] & w1 & _ & Hr); [by rewrite run_ret in Hr|].
  destruct (String.get _ _) as [c|] eqn:Hg; [|done]. apply has_char_get in Hg.
  apply bind_done_inv in Hr as ([e|rest] & w2 & Hn & Hr); rewrite run_ret in Hr; [done|]. simplify_eq.
  apply IH in Hn as [<- Hf]. split; [done|by constructor].
Qed.

(** The parts of a password, each of its set. *)
Lemma random_parts_ok parts (w w' : W) l :
  random_parts parts w = (Done (inr l), w') →
  ∃ ls, l = concat ls
        ∧ Forall2 (λ p l, length l = p.2 ∧ Forall (λ c, in_set p.1 c = true) l) parts ls.
Proof.
  revert w l. induction parts as [|[set n] parts IH]; intros w l Hr; cbn [random_parts] in Hr.
  { go_inv. by exists []. }
  apply bind_done_inv in Hr as ([e|chars] & w1 & Hc & Hr); [by rewrite run_ret in Hr|].
  apply bind_done_inv in Hr as ([e|rest] & w2 & Hp & Hr); rewrite run_ret in Hr; [done|]. simplify_eq.
  apply random_chars_ok in Hc. apply IH in Hp as (ls & -> & Hls). exists (chars :: ls).
  split; [done|]. by constructor.
Qed.

Lemma count_perm set s l l' :
  String.list_ascii_of_string s = l' → l' ≡ₚ l → count set s = length (filter (λ c, in_set set c = true) l).
Proof. intros <- Hp. unfold count. by rewrite Hp. Qed.
Lemma length_filter_all set l :
  Forall (λ c, in_set set c = true) l → length (filter (λ c, in_set set c = true) l) = length l.
Proof. induction 1; [done|]. rewrite filter_cons_True by done. cbn. by f_equal. Qed.
Lemma length_list_ascii s : length (String.list_ascii_of_string s) = String.length s.
Proof. induction s; cbn; congruence. Qed.

(** C0: A generated password is empty, when the source of randomness fails, or
    has the length asked for, with at least as many special characters, digits
    and upper-case letters as asked for. *)
Theorem GenerateRandomPassword_spec n special digits upper (w w' : W) s :
  (0 ≤ special)%Z → (0 ≤ digits)%Z → (0 ≤ upper)%Z → (special + digits + upper ≤ n)%Z →
  GenerateRandomPassword n special digits upper w = (Done s, w') →
  s = "" ∨ Z.of_nat (String.length s) = n
           ∧ (special ≤ Z.of_nat (count specialCharSet s))%Z
           ∧ (digits ≤ Z.of_nat (count numberSet s))%Z
           ∧ (upper ≤ Z.of_nat (count upperCharSet s))%Z.
Proof.
  intros Hs Hd Hu Hn Hr. unfold GenerateRandomPassword in Hr.
  apply bind_done_inv in Hr as ([e|l] & w1 & Hp & Hr); [go_inv; auto|].
  apply bind_done_inv in Hr as (l' & w2 & Hsh & Hr). rewrite run_ret in Hr. injection Hr as <- <-.
  apply rand_Shuffle_perm in Hsh. right. apply random_parts_ok in Hp as (ls & -> & Hls).
  repeat match goal with H : Forall2 _ (_ :: _) _ |- _ => inversion H; subst; clear H
                    | H : Forall2 _ [] _ |- _ => inversion H; subst; clear H end.
  destruct_and!. cbn [fst snd] in *. pose proof (String.list_ascii_of_string_of_list_ascii l') as El.
  split_and!.
  { rewrite <- length_list_ascii, El, Hsh. cbn [concat]. rewrite !length_app. cbn [length]. lia. }
  all: erewrite count_perm by done; cbn [concat]; rewrite !filter_app, !length_app.
  all: match goal with
       | |- context [filter (λ c, in_set ?s c = true) ?x] =>
           match goal with Hf : Forall (λ c, in_set s c = true) x |- _ => rewrite (length_filter_all s x Hf) end
       end; lia.
Qed.
End password_facts.
