(* ===== verification/Users.v ===== *)
(** * Users of the cluster (pkg/resources/user/userHelper.go)

    Who counts as an active user, and the tenants of a multitenant
    installation.  Names are texts of bytes; strings.ToLower is applied to
    ASCII letters only, and a run of any other bytes is one run of invalid
    characters, as in the source. *)

From stdpp Require Import base list strings gmap.
From Stdlib Require Import ZArith Lia Ascii.
From S2P Require Import Prelude Numbers Kube Api Resources.

(** ** Objects *)

(** usersv1.User *)
Record User := mkUser { user_meta : ObjectMeta; user_Identities : list string }.
#[global] Instance User_eq_dec : EqDecision User.
Proof. solve_decision. Defined.
#[global] Instance User_object : K8sObject User := {|
  meta := user_meta; set_meta m u := mkUser m (user_Identities u);
  semantic_deep_equal a b := bool_decide (a = b);
|}.

(** usersv1.Identity; of its user, the name. *)
Record Identity := mkIdentity {
  id_meta : ObjectMeta;
  id_ProviderName : string;
  id_UserName : string;
  id_Extra : option (gmap string string);
}.
#[global] Instance Identity_eq_dec : EqDecision Identity.
Proof. solve_decision. Defined.
#[global] Instance Identity_object : K8sObject Identity := {|
  meta := id_meta; set_meta m i := mkIdentity m (id_ProviderName i) (id_UserName i) (id_Extra i);
  semantic_deep_equal a b := bool_decide (a = b);
|}.

(** usersv1.Group *)
Record Group := mkGroup { grp_meta : ObjectMeta; grp_Users : list string }.

(** configv1.OAuth, the names of its identity providers. *)
Record OAuth := mkOAuth { oa_meta : ObjectMeta; oa_IdentityProviders : list string }.

(** keycloak.FederatedIdentity, and the fields of keycloak.KeycloakAPIUser
    that are used; a nil and an empty map of client roles coincide.  The
    operator makes users without attributes. *)
Record FederatedIdentity := mkFederated {
  fi_IdentityProvider : string; fi_UserID : string; fi_UserName : string }.
#[global] Instance FederatedIdentity_eq_dec : EqDecision FederatedIdentity.
Proof. solve_decision. Defined.
Record KeycloakAPIUser := mkFullKeycloakUser {
  kc_ID : string;
  kc_UserName : string;
  kc_Email : string;
  kc_EmailVerified : bool;
  kc_Enabled : bool;
  kc_FederatedIdentities : list FederatedIdentity;
  kc_RequiredActions : list string;
  kc_RealmRoles : list string;
  kc_ClientRoles : gmap string (list string);
  kc_Groups : list string;
  kc_Attributes : option (gmap string (list string));
}.
Definition mkKeycloakUser (id name email : string) (verified enabled : bool) (ids : list FederatedIdentity)
    (actions realmRoles : list string) (clientRoles : gmap string (list string)) (groups : list string)
    : KeycloakAPIUser :=
  mkFullKeycloakUser id name email verified enabled ids actions realmRoles clientRoles groups None.
#[global] Instance KeycloakAPIUser_eq_dec : EqDecision KeycloakAPIUser.
Proof. solve_decision. Defined.
Definition zero_KeycloakAPIUser : KeycloakAPIUser := mkKeycloakUser "" "" "" false false [] [] [] ∅ [].
Definition kc_FederatedUserIDs (u : KeycloakAPIUser) : list string := fi_UserID <$> kc_FederatedIdentities u.

Record MultiTenantUser := mkTenantUser {
  Username : string; TenantName : string; mt_Email : string; mt_UID : string }.

(** Whether net/mail.ParseAddress accepts a text. *)
Class MailParser := mail_ParseAddress_ok : string → bool.

Definition updateProfileAction : string := "UPDATE_PROFILE".
Definition GeneratedNamePrefix : string := "generated-".
Definition defaultEmailDomain : string := "@rhmi.io".
Definition exclusionGroups : list string := ["layered-cs-sre-admins"; "osd-sre-admins"].

(** ** Names *)

Definition is_alnum (c : ascii) : bool := is_digit c || is_letter c.

(** ReplaceAllString of [^a-zA-Z0-9]+ by a dash: [run] tells that the
    character before was replaced too. *)
Fixpoint replace_invalid (run : bool) (s : string) : string :=
  match s with
  | EmptyString => EmptyString
  | String c s' =>
      if is_alnum c then String c (replace_invalid false s')
      else if run then replace_invalid true s'
      else String "-" (replace_invalid true s')
  end.
Definition SanitiseTenantUserName (username : string) : string :=
  trim_suffix "-" (replace_invalid false (to_lower username)).

Definition first_nonempty (l : list string) : option string :=
  List.find (λ x, negb (x =?s "")) l.
Definition GetValidGeneratedUserName (u : KeycloakAPIUser) : string :=
  let processedString := SanitiseTenantUserName (kc_UserName u) in
  let processedString := match first_nonempty (kc_FederatedUserIDs u) with
                         | Some userId => processedString +:+ "-" +:+ userId
                         | None => processedString
                         end in
  GeneratedNamePrefix +:+ processedString.

Definition SetUserNameAsEmail `{MailParser} (userName : string) : string :=
  if mail_ParseAddress_ok userName then userName
  else SanitiseTenantUserName userName +:+ defaultEmailDomain.

(** ** Emails *)

Definition identity_email (i : Identity) : string := omap_get "" (id_Extra i) "email".

(** The identities of a user in the order the user names them, each looked
    for in the whole list, which may hold several of a name. *)
Fixpoint first_email (l : list Identity) (n : string) : option string :=
  match l with
  | [] => None
  | i :: l => if (n =?s Name (id_meta i)) && negb (identity_email i =?s "")
              then Some (identity_email i) else first_email l n
  end.
Fixpoint GetEmailFromIdentity (names : list string) (l : list Identity) : string :=
  match names with
  | [] => ""
  | n :: names => match first_email l n with Some e => e | None => GetEmailFromIdentity names l end
  end.

Definition AppendUpdateProfileActionForUserWithoutEmail (u : KeycloakAPIUser) : KeycloakAPIUser :=
  if kc_Email u =?s "" then
    mkFullKeycloakUser (kc_ID u) (kc_UserName u) (kc_Email u) (kc_EmailVerified u) (kc_Enabled u)
      (kc_FederatedIdentities u) [updateProfileAction] (kc_RealmRoles u) (kc_ClientRoles u) (kc_Groups u)
      (kc_Attributes u)
  else u.

Definition getUserEmail `{MailParser} (user : User) (identities : list Identity) : string :=
  match List.find (λ i, id_UserName i =?s Name (user_meta user)) identities with
  | Some identity =>
      if negb (identity_email identity =?s "") then identity_email identity
      else SetUserNameAsEmail (id_UserName identity)
  | None => SetUserNameAsEmail (Name (user_meta user))
  end.

(** ** Users *)

Definition IsInExclusionGroup (user : User) (groups : list Group) : bool :=
  existsb (λ g, existsb (λ x, (Name (grp_meta g) =?s x)
                              && existsb (λ u, u =?s Name (user_meta user)) (grp_Users g))
                  exclusionGroups) groups.

Definition getIdentity (n : string) (identities : list Identity) : option Identity :=
  List.find (λ i, Name (id_meta i) =?s n) identities.
Definition GetIdentities (user : User) (clusterIdentities : list Identity) : list Identity :=
  omap (λ n, getIdentity n clusterIdentities) (user_Identities user).

Definition in_active_idp (idps : list string) (identities : list Identity) (user : User) : bool :=
  existsb (λ i, Slices.Contains idps (id_ProviderName i)) (GetIdentities user identities).

Definition hasTenantAnnotation (user : User) : bool :=
  is_some (omap_lookup (Annotations (user_meta user)) "tenant").

Section users.
Context {W : Type} `{Client W User} `{Client W Identity} `{Client W OAuth}.

Definition GetUsersInActiveIDPs (c : KClient) : M W (error + list User) :=
  users ← client_list (O := User) c list_all;
  match users with
  | inl e => mret (inl (ErrWrap "could not list users: " e))
  | inr users =>
      oAuths ← client_list (O := OAuth) c list_all;
      match oAuths with
      | inl e => mret (inl (ErrWrap "could not list oAuths: " e))
      | inr oAuths =>
          let idps := oAuths ≫= oa_IdentityProviders in
          identities ← client_list (O := Identity) c list_all;
          match identities with
          | inl e => mret (inl (ErrWrap "could not list cluster identities: " e))
          | inr identities => mret (inr (List.filter (in_active_idp idps identities) users))
          end
      end
  end.

Definition GetIdentitiesByProviderName (c : KClient) (providerName : string)
    : M W (error + list Identity) :=
  identities ← client_list (O := Identity) c list_all;
  mret (match identities with
        | inl e => inl (ErrWrap ("could not get identities by provider " +:+ providerName +:+ ": ") e)
        | inr identities => inr (List.filter (λ i, id_ProviderName i =?s providerName) identities)
        end).

(** A user is appended once for each of its identities of the provider. *)
Definition provider_of (identity : string) : string :=
  match split_on ":" identity with p :: _ => p | [] => "" end.
Definition GetUsersByProviderName (c : KClient) (providerName : string) : M W (error + list User) :=
  users ← client_list (O := User) c list_all;
  mret (match users with
        | inl e => inl (ErrWrap ("could not get users by provider " +:+ providerName +:+ ": ") e)
        | inr users =>
            inr (users ≫= λ u, map (λ _, u)
                   (List.filter (λ i, provider_of i =?s providerName) (user_Identities u)))
        end).

(** The loop ends with no users and no error at the first without an email. *)
Fixpoint tenant_users `{MailParser} (identities : list Identity) (l : list User)
    (users : list MultiTenantUser) : option (list MultiTenantUser) :=
  match l with
  | [] => Some users
  | user :: l =>
      if hasTenantAnnotation user then
        let email := getUserEmail user identities in
        if email =?s "" then None
        else tenant_users identities l
               (users ++ [mkTenantUser (Name (user_meta user))
                            (SanitiseTenantUserName (Name (user_meta user))) email
                            (UID (user_meta user))])
      else tenant_users identities l users
  end.
Definition GetMultiTenantUsers `{MailParser} (c : KClient) : M W (error + list MultiTenantUser) :=
  identities ← client_list (O := Identity) c list_all;
  match identities with
  | inl _ => mret (inl (ErrStr "error getting identity list"))
  | inr identities =>
      users ← client_list (O := User) c list_all;
      match users with
      | inl _ => mret (inl (ErrStr "error getting users list"))
      | inr users => mret (inr (default [] (tenant_users identities users [])))
      end
  end.
End users.

(** ** Facts *)

Fixpoint str_forall (P : ascii → bool) (s : string) : bool :=
  match s with
  | EmptyString => true
  | String c s' => P c && str_forall P s'
  end.

Lemma str_app_cons c a b : String c a +:+ b = String c (a +:+ b).
Proof. reflexivity. Qed.
Lemma str_forall_app P a b : str_forall P (a +:+ b) = str_forall P a && str_forall P b.
Proof.
  induction a as [|c a IH]; [done|]. rewrite str_app_cons. cbn [str_forall].
  by rewrite IH, andb_assoc.
Qed.

(** Letters, digits and single dashes; [run] tells that a dash comes before. *)
Fixpoint dashed (run : bool) (s : string) : bool :=
  match s with
  | EmptyString => true
  | String c s' =>
      if is_alnum c then dashed false s' else negb run && Ascii.eqb c "-" && dashed true s'
  end.

Lemma replace_invalid_dashed run s : dashed run (replace_invalid run s) = true.
Proof.
  revert run. induction s as [|c s IH]; intros run; [done|]. cbn.
  destruct (is_alnum c) eqn:E; [cbn; by rewrite E|]. destruct run; [apply IH|]. cbn. apply IH.
Qed.
Lemma replace_invalid_id run s : dashed run s = true → replace_invalid run s = s.
Proof.
  revert run. induction s as [|c s IH]; intros run; [done|]. cbn.
  destruct (is_alnum c); intros Hd; [by rewrite IH|].
  apply andb_prop in Hd as [[Hr Hc]%andb_prop Hd]. destruct run; [done|].
  apply Ascii.eqb_eq in Hc as ->. by rewrite IH.
Qed.
Lemma dashed_prefix run a b : dashed run (a +:+ b) = true → dashed run a = true.
Proof.
  revert run. induction a as [|c a IH]; intros run; [done|]. rewrite str_app_cons. cbn [dashed].
  destruct (is_alnum c); [apply IH|]. intros [? Hd]%andb_prop. apply andb_true_intro. eauto.
Qed.
Lemma dashed_no_double run s : dashed run s = true → str_contains "--" s = false.
Proof.
  revert run. induction s as [|c s IH]; intros run; [done|]. intros Hd. cbn [str_contains].
  apply orb_false_iff. split.
  - unfold has_prefix. cbn [String.prefix]. destruct (ascii_dec "-" c) as [<-|]; [|done].
    cbn in Hd. destruct run; [done|]. destruct s as [|a s]; [done|]. cbn [String.prefix].
    destruct (ascii_dec "-" a) as [<-|]; [discriminate Hd|done].
  - cbn in Hd. destruct (is_alnum c); [by eapply IH|].
    apply andb_prop in Hd as [_ Hd]. by eapply IH.
Qed.

(** What trim_suffix takes off is the suffix, and once. *)
Lemma trim_suffix_char c s :
  (∃ u, s = u +:+ String c EmptyString ∧ trim_suffix (String c EmptyString) s = u)
  ∨ ((∀ u, s ≠ u +:+ String c EmptyString) ∧ trim_suffix (String c EmptyString) s = s).
Proof.
  unfold trim_suffix, trim_prefix, has_prefix. change (str_rev (String c "")) with (String c "").
  destruct (str_rev s) as [|a r] eqn:E.
  - right. cbn. split.
    + intros u ->. rewrite str_rev_concat in E. discriminate E.
    + rewrite <- (str_rev_involutive s), E. done.
  - cbn [String.prefix]. destruct (ascii_dec c a) as [->|Hne].
    + left. exists (str_rev r). rewrite <- (str_rev_involutive s), E, str_rev_cons. split; [done|].
      by destruct r.
    + right. split; [|by rewrite <- E, str_rev_involutive].
      intros u ->. rewrite str_rev_concat in E. by injection E as ?.
Qed.

Definition is_lower_or_digit (c : ascii) : bool :=
  is_digit c || ((97 <=? nat_of_ascii c) && (nat_of_ascii c <=? 122)).

Lemma ascii_lower_alnum c :
  is_alnum (ascii_lower c) = true → is_lower_or_digit (ascii_lower c) = true.
Proof. destruct c as [[] [] [] [] [] [] [] []]; by vm_compute. Qed.
Lemma lower_or_digit_fixed c :
  is_lower_or_digit c || Ascii.eqb c "-" = true → ascii_lower c = c.
Proof. destruct c as [[] [] [] [] [] [] [] []]; by vm_compute. Qed.

Lemma replace_invalid_chars run s :
  str_forall (λ c, is_lower_or_digit c || Ascii.eqb c "-") (replace_invalid run (to_lower s)) = true.
Proof.
  revert run. induction s as [|c s IH]; intros run; [done|]. cbn [to_lower replace_invalid].
  destruct (is_alnum _) eqn:E.
  - cbn [str_forall]. by rewrite (ascii_lower_alnum _ E), IH.
  - destruct run; [apply IH|]. cbn [str_forall]. by rewrite IH.
Qed.
Lemma to_lower_fixed s :
  str_forall (λ c, is_lower_or_digit c || Ascii.eqb c "-") s = true → to_lower s = s.
Proof.
  induction s as [|c s IH]; [done|]. cbn [str_forall to_lower]. intros [Hc Hs]%andb_prop.
  by rewrite lower_or_digit_fixed, IH.
Qed.

(** A tenant name is made of lower case letters, digits and single
    dashes and does not end with a dash, whatever the user name was, and
    making a tenant name of it again changes nothing.  Two users may get the
    same one. *)
Theorem SanitiseTenantUserName_spec s :
  let t := SanitiseTenantUserName s in
  str_forall (λ c, is_lower_or_digit c || Ascii.eqb c "-") t = true
  ∧ str_contains "--" t = false
  ∧ (∀ u, t ≠ u +:+ "-")
  ∧ SanitiseTenantUserName t = t
  ∧ SanitiseTenantUserName "test.user" = SanitiseTenantUserName "test_user".
Proof.
  intros t. set (r := replace_invalid false (to_lower s)).
  assert (Hr : dashed false r = true) by apply replace_invalid_dashed.
  assert (Hc := replace_invalid_chars false s). fold r in Hc.
  assert (∃ v, r = t +:+ v ∧ ∀ u, t ≠ u +:+ "-") as (v & Hv & Ht).
  { unfold t, SanitiseTenantUserName. fold r.
    destruct (trim_suffix_char "-" r) as [(u & Hu & Htr)|[Hno Htr]]; rewrite Htr.
    - exists "-". split; [done|]. intros u' ->. rewrite Hu in Hr.
      rewrite str_app_assoc in Hr. change ("-" +:+ "-") with "--" in Hr.
      apply dashed_no_double in Hr as Hd. clear -Hd. induction u' as [|c u IH]; [done|].
      apply IH. rewrite str_app_cons in Hd. cbn [str_contains] in Hd. by apply orb_false_iff in Hd as [_ Hd].
    - exists "". by rewrite str_app_nil_r. }
  rewrite Hv in Hr, Hc. apply dashed_prefix in Hr. rewrite str_forall_app in Hc.
  apply andb_prop in Hc as [Hc _]. split_and!; [done|by eapply dashed_no_double|done| |done].
  unfold SanitiseTenantUserName at 1. rewrite to_lower_fixed by done. rewrite replace_invalid_id by done.
  destruct (trim_suffix_char "-" t) as [(u & Hu & _)|[_ Htr]]; [by destruct (Ht u)|done].
Qed.

Section facts.
Context {W : Type} `{Client W User} `{Client W Identity} `{Client W OAuth} `{MailParser}.

Lemma getUserEmail_nonempty u ids :
  mail_ParseAddress_ok "" = false → getUserEmail u ids ≠ "".
Proof.
  intros Hm. assert (∀ n, SetUserNameAsEmail n ≠ "") as Hs.
  { intros n. unfold SetUserNameAsEmail. destruct (mail_ParseAddress_ok n) eqn:E; [by intros ->; rewrite Hm in E|].
    destruct (SanitiseTenantUserName n); discriminate. }
  unfold getUserEmail. destruct (List.find _ ids); [|apply Hs].
  destruct (identity_email _ =?s "") eqn:E; cbn [negb]; [apply Hs|].
  by apply str_eqb_false in E.
Qed.

Definition tenant_of (ids : list Identity) (u : User) : MultiTenantUser :=
  mkTenantUser (Name (user_meta u)) (SanitiseTenantUserName (Name (user_meta u)))
    (getUserEmail u ids) (UID (user_meta u)).

(** When the identities and the users could be listed, the tenants are
    the users with the tenant annotation, all of them, in order, each with a
    sanitised name and an email that is not empty: the loop never gives up,
    as it would at a user without an email. *)
Theorem GetMultiTenantUsers_spec c (w w1 w2 : W) ids users :
  mail_ParseAddress_ok "" = false →
  client_list (O := Identity) c list_all w = (Done (inr ids), w1) →
  client_list (O := User) c list_all w1 = (Done (inr users), w2) →
  let l := map (tenant_of ids) (List.filter hasTenantAnnotation users) in
  GetMultiTenantUsers c w = (Done (inr l), w2) ∧ Forall (λ t, mt_Email t ≠ "") l.
Proof.
  intros Hm Hi Hu l. split.
  - unfold GetMultiTenantUsers. rewrite (bind_done _ _ _ _ _ Hi), (bind_done _ _ _ _ _ Hu).
    assert (∀ us acc, tenant_users ids us acc
              = Some (acc ++ map (tenant_of ids) (List.filter hasTenantAnnotation us))) as Ht.
    { induction us as [|u us IH]; intros acc; cbn [tenant_users List.filter map]; [by rewrite app_nil_r|].
      destruct (hasTenantAnnotation u); [|done]. rewrite (proj2 (str_eqb_false _ _)).
      - rewrite IH, <- app_assoc. done.
      - by apply getUserEmail_nonempty. }
    rewrite Ht. done.
  - apply Forall_map, Forall_forall. intros u _. by apply getUserEmail_nonempty.
Qed.

(** When everything could be listed, the active users are exactly the
    users that name an identity whose object (the first of that name) is
    from a provider some OAuth configuration lists, in order and with no user
    more often than the cluster has it. *)
Theorem GetUsersInActiveIDPs_spec c (w w1 w2 w3 : W) users oauths ids :
  client_list (O := User) c list_all w = (Done (inr users), w1) →
  client_list (O := OAuth) c list_all w1 = (Done (inr oauths), w2) →
  client_list (O := Identity) c list_all w2 = (Done (inr ids), w3) →
  ∃ active, GetUsersInActiveIDPs c w = (Done (inr active), w3)
    ∧ active `sublist_of` users
    ∧ ∀ u, u ∈ active ↔ u ∈ users ∧ ∃ n i o, n ∈ user_Identities u ∧ getIdentity n ids = Some i
                          ∧ o ∈ oauths ∧ id_ProviderName i ∈ oa_IdentityProviders o.
Proof.
  intros Hu Ho Hi. eexists. split; [|split].
  - unfold GetUsersInActiveIDPs.
    rewrite (bind_done _ _ _ _ _ Hu), (bind_done _ _ _ _ _ Ho), (bind_done _ _ _ _ _ Hi). reflexivity.
  - clear. induction users as [|u us IH]; [constructor|]. cbn [List.filter].
    destruct (in_active_idp _ _ _); constructor; auto.
  - intros u. rewrite !list_elem_of_In, List.filter_In. f_equiv. unfold in_active_idp.
    rewrite existsb_exists. unfold GetIdentities. split.
    + intros (i & Hin & Hp). apply list_elem_of_In, list_elem_of_omap in Hin as (n & Hn & Hg).
      apply Slices.Contains_true, list_elem_of_bind in Hp as (o & ? & ?). eauto 10.
    + intros (n & i & o & Hn & Hg & Hin & Hp). exists i. split.
      * apply list_elem_of_In, list_elem_of_omap. eauto.
      * apply Slices.Contains_true, list_elem_of_bind. eauto.
Qed.
End facts.
