(* ===== verification/Olm.v ===== *)
(** * Objects of the operator lifecycle manager

    The kinds of operators.coreos.com the operator works with, with the fields
    it reads or writes, and the OpenShift kinds for projects and oauth
    clients. *)

From stdpp Require Import base list strings gmap.
From Stdlib Require Import ZArith.
From S2P Require Import Prelude Kube.

(** corev1.EnvVar *)
Record EnvVar := mkEnvVar { ev_Name : string; ev_Value : string }.
#[global] Instance EnvVar_eq_dec : EqDecision EnvVar.
Proof. solve_decision. Defined.

(** corev1.ResourceRequirements of a container of a CSV, which are only
    copied: each quantity is its canonical text. *)
Record CsvResources := mkCsvResources {
  csvr_Limits : option (gmap string string); csvr_Requests : option (gmap string string) }.
#[global] Instance CsvResources_eq_dec : EqDecision CsvResources.
Proof. solve_decision. Defined.
Definition zero_CsvResources : CsvResources := mkCsvResources None None.

(** operatorsv1alpha1.SubscriptionConfig *)
Record SubscriptionConfig := mkSubConfig {
  sc_Resources : option CsvResources; sc_Env : list EnvVar }.
#[global] Instance SubscriptionConfig_eq_dec : EqDecision SubscriptionConfig.
Proof. solve_decision. Defined.

Record SubscriptionSpec := mkSubSpec {
  ss_CatalogSource : string;
  ss_CatalogSourceNamespace : string;
  ss_Package : string;
  ss_Channel : string;
  ss_InstallPlanApproval : string;
  ss_Config : option SubscriptionConfig;
}.
#[global] Instance SubscriptionSpec_eq_dec : EqDecision SubscriptionSpec.
Proof. solve_decision. Defined.

(** operatorsv1alpha1.Subscription: the spec is a pointer; of the status, the
    installed CSV, whether Install is set, the name and the namespace of
    InstallPlanRef, and the current CSV. *)
Record Subscription := mkSubscription {
  sub_meta : ObjectMeta;
  sub_Spec : option SubscriptionSpec;
  sub_InstalledCSV : string;
  sub_Install : bool;
  sub_InstallPlanRef : option (string * string);
  sub_CurrentCSV : string;
}.
#[global] Instance Subscription_eq_dec : EqDecision Subscription.
Proof. solve_decision. Defined.
#[global] Instance Subscription_object : K8sObject Subscription := {|
  meta := sub_meta;
  set_meta m s := mkSubscription m (sub_Spec s) (sub_InstalledCSV s) (sub_Install s)
                    (sub_InstallPlanRef s) (sub_CurrentCSV s);
  semantic_deep_equal a b := bool_decide (a = b);
|}.
Definition set_sub_Spec (sp : SubscriptionSpec) (s : Subscription) : Subscription :=
  mkSubscription (sub_meta s) (Some sp) (sub_InstalledCSV s) (sub_Install s) (sub_InstallPlanRef s)
    (sub_CurrentCSV s).

(** A deployment of a CSV's install strategy: of its containers, the
    resources. *)
Record StrategyDeployment := mkStrategyDeployment {
  sd_Name : string; sd_PriorityClassName : string; sd_Containers : list CsvResources }.
#[global] Instance StrategyDeployment_eq_dec : EqDecision StrategyDeployment.
Proof. solve_decision. Defined.

(** operatorsv1alpha1.ClusterServiceVersion: its install strategy. *)
Record ClusterServiceVersion := mkCSV {
  csv_meta : ObjectMeta; StrategyName : string; DeploymentSpecs : list StrategyDeployment }.
#[global] Instance CSV_eq_dec : EqDecision ClusterServiceVersion.
Proof. solve_decision. Defined.
#[global] Instance CSV_object : K8sObject ClusterServiceVersion := {|
  meta := csv_meta; set_meta m s := mkCSV m (StrategyName s) (DeploymentSpecs s);
  semantic_deep_equal a b := bool_decide (a = b);
|}.

Record CatalogSourceSpec := mkCSSpec {
  css_SourceType : string;
  css_ConfigMap : string;
  css_Image : string;
  css_DisplayName : string;
  css_Publisher : string;
  css_Restricted : bool;
}.
#[global] Instance CatalogSourceSpec_eq_dec : EqDecision CatalogSourceSpec.
Proof. solve_decision. Defined.
Definition zero_CSSpec : CatalogSourceSpec := mkCSSpec "" "" "" "" "" false.
Record CatalogSource := mkCatalogSource { cs_meta : ObjectMeta; cs_Spec : CatalogSourceSpec }.
#[global] Instance CatalogSource_eq_dec : EqDecision CatalogSource.
Proof. solve_decision. Defined.
#[global] Instance CatalogSource_object : K8sObject CatalogSource := {|
  meta := cs_meta; set_meta m s := mkCatalogSource m (cs_Spec s);
  semantic_deep_equal a b := bool_decide (a = b);
|}.

(** operatorsv1alpha1.InstallPlan: of each step of the plan in its status, the
    kind of the resource and its manifest. *)
Record InstallPlan := mkInstallPlan {
  ip_meta : ObjectMeta;
  ip_Approved : bool;
  ip_CSVNames : list string;
  ip_Phase : string;
  ip_Plan : list (string * string);
}.
#[global] Instance InstallPlan_eq_dec : EqDecision InstallPlan.
Proof. solve_decision. Defined.
#[global] Instance InstallPlan_object : K8sObject InstallPlan := {|
  meta := ip_meta; set_meta m s := mkInstallPlan m (ip_Approved s) (ip_CSVNames s) (ip_Phase s)
                    (ip_Plan s);
  semantic_deep_equal a b := bool_decide (a = b);
|}.
Definition approve (ip : InstallPlan) : InstallPlan :=
  mkInstallPlan (ip_meta ip) true (ip_CSVNames ip) (ip_Phase ip) (ip_Plan ip).

Record OperatorGroup := mkOperatorGroup { og_meta : ObjectMeta; og_TargetNamespaces : list string }.
#[global] Instance OperatorGroup_eq_dec : EqDecision OperatorGroup.
Proof. solve_decision. Defined.
#[global] Instance OperatorGroup_object : K8sObject OperatorGroup := {|
  meta := og_meta; set_meta m s := mkOperatorGroup m (og_TargetNamespaces s);
  semantic_deep_equal a b := bool_decide (a = b);
|}.

(** projectv1.ProjectRequest and projectv1.Project *)
Record ProjectRequest := mkProjectRequest { pr_meta : ObjectMeta }.
#[global] Instance ProjectRequest_eq_dec : EqDecision ProjectRequest.
Proof. solve_decision. Defined.
#[global] Instance ProjectRequest_object : K8sObject ProjectRequest := {|
  meta := pr_meta; set_meta m _ := mkProjectRequest m;
  semantic_deep_equal a b := bool_decide (a = b);
|}.
Record Project := mkProject { prj_meta : ObjectMeta }.
#[global] Instance Project_eq_dec : EqDecision Project.
Proof. solve_decision. Defined.
#[global] Instance Project_object : K8sObject Project := {|
  meta := prj_meta; set_meta m _ := mkProject m;
  semantic_deep_equal a b := bool_decide (a = b);
|}.

(** oauthv1.OAuthClient *)
Record OAuthClient := mkOAuthClient {
  oc_meta : ObjectMeta;
  oc_Secret : string;
  oc_GrantMethod : string;
  oc_RedirectURIs : list string;
}.
#[global] Instance OAuthClient_eq_dec : EqDecision OAuthClient.
Proof. solve_decision. Defined.
#[global] Instance OAuthClient_object : K8sObject OAuthClient := {|
  meta := oc_meta; set_meta m c := mkOAuthClient m (oc_Secret c) (oc_GrantMethod c) (oc_RedirectURIs c);
  semantic_deep_equal a b := bool_decide (a = b);
|}.

(** routev1.Route: the host asked for, and host and canonical hostname of
    each router that admitted it. *)
Record RouteIngress := mkRouteIngress { ri_Host : string; ri_RouterCanonicalHostname : string }.
#[global] Instance RouteIngress_eq_dec : EqDecision RouteIngress.
Proof. solve_decision. Defined.
(** What a route leads to: kind and name, the port, the TLS termination and
    the wildcard policy. *)
Record RouteTarget := mkRouteTarget {
  to_Kind : string; to_Name : string; to_Port : string; to_Termination : string;
  to_WildcardPolicy : string }.
#[global] Instance RouteTarget_eq_dec : EqDecision RouteTarget.
Proof. solve_decision. Defined.
Record Route := mkRouteTo {
  rt_meta : ObjectMeta; rt_Host : string; rt_Target : option RouteTarget; rt_Ingress : list RouteIngress }.
Definition mkRoute (m : ObjectMeta) (host : string) (l : list RouteIngress) : Route :=
  mkRouteTo m host None l.
#[global] Instance Route_eq_dec : EqDecision Route.
Proof. solve_decision. Defined.
#[global] Instance Route_object : K8sObject Route := {|
  meta := rt_meta; set_meta m r := mkRouteTo m (rt_Host r) (rt_Target r) (rt_Ingress r);
  semantic_deep_equal a b := bool_decide (a = b);
|}.

(** apiextensionsv1.CustomResourceDefinition, its metadata *)
Record CRD := mkCRD { crd_meta : ObjectMeta }.
#[global] Instance CRD_eq_dec : EqDecision CRD.
Proof. solve_decision. Defined.
#[global] Instance CRD_object : K8sObject CRD := {|
  meta := crd_meta; set_meta m _ := mkCRD m; semantic_deep_equal a b := bool_decide (a = b);
|}.

(** monitoringv1.PodMonitor, its metadata *)
Record PodMonitor := mkPodMonitor { pm_meta : ObjectMeta }.
#[global] Instance PodMonitor_eq_dec : EqDecision PodMonitor.
Proof. solve_decision. Defined.
#[global] Instance PodMonitor_object : K8sObject PodMonitor := {|
  meta := pm_meta; set_meta m _ := mkPodMonitor m; semantic_deep_equal a b := bool_decide (a = b);
|}.

(** policyv1.PodDisruptionBudget *)
Record PodDisruptionBudget := mkPDB {
  pdb_meta : ObjectMeta; pdb_Selector : option (gmap string string); pdb_MaxUnavailable : option Z }.
#[global] Instance PodDisruptionBudget_eq_dec : EqDecision PodDisruptionBudget.
Proof. solve_decision. Defined.
#[global] Instance PodDisruptionBudget_object : K8sObject PodDisruptionBudget := {|
  meta := pdb_meta; set_meta m p := mkPDB m (pdb_Selector p) (pdb_MaxUnavailable p);
  semantic_deep_equal a b := bool_decide (a = b);
|}.

(** consolev1.ConsoleLink: image and section of its application menu,
    location, address and text, and the namespaces of its dashboard. *)
Record ConsoleLink := mkConsoleLink {
  cl_meta : ObjectMeta; cl_ApplicationMenu : option (string * string); cl_Location : string;
  cl_Href : string; cl_Text : string; cl_NamespaceDashboard : option (list string) }.
#[global] Instance ConsoleLink_eq_dec : EqDecision ConsoleLink.
Proof. solve_decision. Defined.
#[global] Instance ConsoleLink_object : K8sObject ConsoleLink := {|
  meta := cl_meta;
  set_meta m l := mkConsoleLink m (cl_ApplicationMenu l) (cl_Location l) (cl_Href l) (cl_Text l)
                    (cl_NamespaceDashboard l);
  semantic_deep_equal a b := bool_decide (a = b);
|}.

(** rbacv1.Role and rbacv1.RoleBinding *)
Record PolicyRule := mkPolicyRule {
  pr_APIGroups : list string; pr_Resources : list string; pr_Verbs : list string; pr_ResourceNames : list string }.
#[global] Instance PolicyRule_eq_dec : EqDecision PolicyRule.
Proof. solve_decision. Defined.
Record Role := mkRole { role_meta : ObjectMeta; role_Rules : list PolicyRule }.
#[global] Instance Role_eq_dec : EqDecision Role.
Proof. solve_decision. Defined.
#[global] Instance Role_object : K8sObject Role := {|
  meta := role_meta; set_meta m r := mkRole m (role_Rules r);
  semantic_deep_equal a b := bool_decide (a = b);
|}.
(** Role reference and subjects as pairs of name and kind. *)
Record RoleBinding := mkRoleBinding {
  rb_meta : ObjectMeta; rb_RoleRef : string * string; rb_Subjects : list (string * string) }.
#[global] Instance RoleBinding_eq_dec : EqDecision RoleBinding.
Proof. solve_decision. Defined.
#[global] Instance RoleBinding_object : K8sObject RoleBinding := {|
  meta := rb_meta; set_meta m r := mkRoleBinding m (rb_RoleRef r) (rb_Subjects r);
  semantic_deep_equal a b := bool_decide (a = b);
|}.

(** monitoringv1.ServiceMonitor: path and port of each endpoint, and the
    labels selected. *)
Record ServiceMonitor := mkServiceMonitor {
  sm_meta : ObjectMeta; sm_Endpoints : list (string * string); sm_Selector : gmap string string }.
#[global] Instance ServiceMonitor_eq_dec : EqDecision ServiceMonitor.
Proof. solve_decision. Defined.
#[global] Instance ServiceMonitor_object : K8sObject ServiceMonitor := {|
  meta := sm_meta; set_meta m s := mkServiceMonitor m (sm_Endpoints s) (sm_Selector s);
  semantic_deep_equal a b := bool_decide (a = b);
|}.
