(* ===== verification/Quota.v ===== *)
(** * Quotas (pkg/resources/quota/quota.go)

    A quota parameter selects a named quota of the quota config map; the
    quota gives each product's components their replicas and resources, and
    [Configure] applies them to the objects the products deploy. *)

From stdpp Require Import base list strings gmap.
From Stdlib Require Import ZArith Lia.
From S2P Require Import Prelude Kube Api.

(** pkg/products/marin3r/config: the rate limit part of a quota. *)
Record RateLimitConfig := mkRateLimitConfig { Unit_ : string; RequestsPerUnit : Z }.
#[global] Instance RateLimitConfig_eq_dec : EqDecision RateLimitConfig.
Proof. solve_decision. Defined.

Definition ConfigMapData : string := "quota-configs".
Definition ConfigMapName : string := "quota-config-managed-api-service".
Definition RateLimitName : string := "ratelimit".
Definition BackendListenerName : string := "backend_listener".
Definition BackendWorkerName : string := "backend_worker".
Definition ApicastProductionName : string := "apicast_production".
Definition ApicastStagingName : string := "apicast_staging".
Definition KeycloakName : string := "rhssouser".
Definition GrafanaName : string := "grafana".
Definition OneHundredThousandQuotaName : string := "100K".
Definition OneMillionQuotaName : string := "1 Million".
Definition FiveMillionQuotaName : string := "5 Million".
Definition TenMillionQuotaName : string := "10 Million".
Definition TwentyMillionQuotaName : string := "20 Million".
Definition FiftyMillionQuotaName : string := "50 Million".
Definition OneHundredMillionQuotaName : string := "100 Million".

(** map of products iterate over that to build the return map *)
Definition products : gmap string (list string) := list_to_map [
  (Product3Scale,
    [BackendListenerName; BackendWorkerName; ApicastProductionName; ApicastStagingName]);
  (ProductRHSSOUser, [KeycloakName]);
  (ProductMarin3r, [RateLimitName]);
  (ProductGrafana, [GrafanaName])
].

(** resource.Quantity of apimachinery *)
Class Quantity (Q : Type) := {
  q_zero : Q;
  q_Cmp : Q → Q → comparison;
  q_IsZero : Q → bool;
  q_String : Q → string;
  (** resource.MustParse; [None] is its panic *)
  q_MustParse : string → option Q;
}.
(** Quantities are totally ordered, and printing one and parsing it back
    gives a quantity of the same value. *)
Class QuantityLaws (Q : Type) `{Quantity Q} := {
  q_Cmp_refl : ∀ a, q_Cmp a a = Eq;
  q_Cmp_eq_l : ∀ a b c, q_Cmp a b = Eq → q_Cmp a c = q_Cmp b c;
  q_reparse : ∀ a, ∃ b, q_MustParse (q_String a) = Some b ∧ q_Cmp b a = Eq
                        ∧ q_IsZero b = q_IsZero a;
}.

Definition ResourceCPU : string := "cpu".
Definition ResourceMemory : string := "memory".

Section quota.
Context {Q : Type} `{Quantity Q}.

(** corev1.ResourceList, which may be a nil map. *)
Definition ResourceList : Type := option (gmap string Q).
Record ResourceRequirements := mkRR { Limits : ResourceList; Requests : ResourceList }.
Definition zero_RR : ResourceRequirements := mkRR None None.

Record ResourceConfig := mkResourceConfig { Replicas : Z; Resources : ResourceRequirements }.
Definition zero_RC : ResourceConfig := mkResourceConfig 0 zero_RR.

(** Quota.  Each product's config holds a pointer back to the quota that
    holds it: the configs are stored here without it, and [GetProduct]
    attaches the quota as it is when it is read through the pointer. *)
Record Quota := mkQuota {
  name : string;
  productConfigs : option (gmap string (option (gmap string ResourceConfig)));
  isUpdated : bool;
  rateLimitConfig : RateLimitConfig;
}.
(** The zero value, as in [&quota.Quota{}]. *)
Definition zero_Quota : Quota := mkQuota "" None false (mkRateLimitConfig "" 0).

Record QuotaProductConfig := mkQPC {
  productName : ProductName;
  resourceConfigs : option (gmap string ResourceConfig);
  quota : option Quota;
}.
Definition zero_QPC : QuotaProductConfig := mkQPC "" None None.

(** One entry of the quota config map's JSON array. *)
Record quotaConfigReceiver := mkReceiver {
  r_Name : string;
  r_Param : string;
  r_RateLimit : RateLimitConfig;
  r_Resources : option (gmap string ResourceConfig);
}.
Definition zero_Receiver : quotaConfigReceiver :=
  mkReceiver "" "" (mkRateLimitConfig "" 0) None.

(** The first entry whose param matches, as the loop with its break finds it. *)
Fixpoint find_receiver (l : list quotaConfigReceiver) (quotaParam : string)
    : quotaConfigReceiver :=
  match l with
  | [] => zero_Receiver
  | r :: l' => if r_Param r =?s quotaParam then r else find_receiver l' quotaParam
  end.

(** json.Unmarshal of the config map's data is the argument [unmarshal];
    [data] is QuotaConfig.Data, which may be nil. *)
Definition GetQuota (unmarshal : string → error + list quotaConfigReceiver)
    (quotaParam : string) (data : option (gmap string string)) (retQuota : Quota)
    : Quota * option error :=
  match unmarshal (omap_get "" data ConfigMapData) with
  | inl err => (retQuota, Some err)
  | inr allQuotas =>
      let quotaReceiver := find_receiver allQuotas quotaParam in
      if r_Name quotaReceiver =?s "" then
        (retQuota, Some (ErrStr ("wasn't able to find a quota in the quota config which matches the '"
           +:+ quotaParam +:+ "' quota parameter")))
      else
        let configs := (λ ddcssNames,
            Some (list_to_map (M := gmap string ResourceConfig)
              ((λ n, (n, omap_get zero_RC (r_Resources quotaReceiver) n)) <$> ddcssNames)))
          <$> products in
        (mkQuota (r_Name quotaReceiver) (Some configs) (isUpdated retQuota)
           (r_RateLimit quotaReceiver), None)
  end.

Definition GetProduct (s : Quota) (p : ProductName) : QuotaProductConfig :=
  match omap_lookup (productConfigs s) p with
  | Some rc => mkQPC p rc (Some s)
  | None => zero_QPC
  end.
Definition GetName (s : Quota) : string := name s.
Definition IsUpdated (s : Quota) : bool := isUpdated s.
Definition SetIsUpdated (s : Quota) (b : bool) : Quota :=
  mkQuota (name s) (productConfigs s) b (rateLimitConfig s).

Definition resource_config (p : QuotaProductConfig) (n : string) : ResourceConfig :=
  omap_get zero_RC (resourceConfigs p) n.

Definition GetResourceConfig (p : QuotaProductConfig) (ddcssName : string)
    : ResourceRequirements * bool :=
  match omap_lookup (resourceConfigs p) ddcssName with
  | None => (zero_RR, false)
  | Some rc => (Resources rc, true)
  end.
(** p.quota.rateLimitConfig: a nil pointer panics. *)
Definition GetRateLimitConfig (p : QuotaProductConfig) : outcome RateLimitConfig :=
  match quota p with
  | Some q => Done (rateLimitConfig q)
  | None => Panic "nil pointer dereference"
  end.
Definition Quota_GetRateLimitConfig (s : Quota) : RateLimitConfig := rateLimitConfig s.
Definition GetActiveQuota (p : QuotaProductConfig) : outcome string :=
  match quota p with
  | Some q => Done (name q)
  | None => Panic "nil pointer dereference"
  end.
Definition GetReplicas (p : QuotaProductConfig) (ddcssName : string) : Z :=
  Replicas (resource_config p ddcssName).

(** p.quota.isUpdated *)
Definition quota_isUpdated (p : QuotaProductConfig) : outcome bool :=
  match quota p with
  | Some q => Done (isUpdated q)
  | None => Panic "nil pointer dereference"
  end.

(** *** Applying a quota *)

Definition mutateReplicas (p : QuotaProductConfig) (replicas : Z) (n : string) : outcome Z :=
  let configReplicas := Replicas (resource_config p n) in
  upd ← quota_isUpdated p;
  mret (if upd || (replicas <? configReplicas)%Z || (replicas =? 0)%Z
        then configReplicas else replicas).

(** mutateAPIManagerReplicas differs in the width of its argument only. *)
Definition mutateAPIManagerReplicas (p : QuotaProductConfig) (replicas : Z) (n : string)
    : outcome Z :=
  let configReplicas := Replicas (resource_config p n) in
  let value := configReplicas in
  upd ← quota_isUpdated p;
  mret (if upd || (replicas <? value)%Z || (replicas =? 0)%Z then value else replicas).

(** One of the two halves of mutateResources: the pod's [key] quantity is
    replaced by the configured one, through its text. *)
Definition mutateResource (upd : bool) (key : string) (pod : gmap string Q) (cfg : ResourceList)
    : outcome (gmap string Q) :=
  let podq := map_get q_zero pod key in
  let quantity := omap_get q_zero cfg key in
  if upd || bool_decide (q_Cmp podq quantity = Lt) || q_IsZero podq then
    match q_MustParse (q_String quantity) with
    | Some q => Done (<[key := q]> pod)
    | None => Panic "cannot parse quantity"
    end
  else Done pod.

Definition mutateResources (p : QuotaProductConfig) (pod : gmap string Q) (cfg : ResourceList)
    : outcome (gmap string Q) :=
  upd ← quota_isUpdated p;
  pod ← mutateResource upd ResourceCPU pod cfg;
  mutateResource upd ResourceMemory pod cfg.

(** After checkResourceBlock both maps exist. *)
Definition checkResourceBlock (r : ResourceRequirements) : ResourceRequirements :=
  mkRR (Some (make_if_nil (Limits r))) (Some (make_if_nil (Requests r))).

(** The Go function takes a pointer; on a nil one it works on a fresh value
    that is then dropped, so only the non-nil case has an effect. *)
Definition mutateResourcesRequirement (p : QuotaProductConfig) (r : ResourceRequirements)
    (n : string) : outcome ResourceRequirements :=
  let resources := Resources (resource_config p n) in
  let r := checkResourceBlock r in
  limits ← mutateResources p (make_if_nil (Limits r)) (Limits resources);
  requests ← mutateResources p (make_if_nil (Requests r)) (Requests resources);
  mret (mkRR (Some limits) (Some requests)).

(** corev1.PodTemplateSpec: the resources of its containers, in order. *)
Record PodTemplateSpec := mkPodTemplate { Containers : list ResourceRequirements }.

Fixpoint mutate_containers (p : QuotaProductConfig) (l : list ResourceRequirements) (n : string)
    : outcome (list ResourceRequirements) :=
  match l with
  | [] => mret []
  | c :: l' =>
      c ← mutateResourcesRequirement p c n;
      l' ← mutate_containers p l' n;
      mret (c :: l')
  end.
Definition mutatePodTemplate (p : QuotaProductConfig) (t : PodTemplateSpec) (n : string)
    : outcome PodTemplateSpec :=
  l ← mutate_containers p (Containers t) n; mret (mkPodTemplate l).

(** The objects Configure knows, with the fields it touches. *)
Record Component := mkComponent {
  comp_Replicas : option Z;
  comp_Resources : option ResourceRequirements;
}.
Definition zero_Component : Component := mkComponent None None.
Record ApicastSpec := mkApicast { ProductionSpec : option Component; StagingSpec : option Component }.
Record BackendSpec := mkBackend { ListenerSpec : option Component; WorkerSpec : option Component }.

Inductive configurable :=
  | ADeploymentConfig (obj_name : string) (replicas : Z) (template : option PodTemplateSpec)
  | ADeployment (obj_name : string) (replicas : option Z) (template : PodTemplateSpec)
  | AStatefulSet (obj_name : string) (replicas : option Z) (template : PodTemplateSpec)
  | AKeycloak (obj_name : string) (instances : Z) (resources : ResourceRequirements)
  | AnAPIManager (obj_name : string) (apicast : option ApicastSpec) (backend : option BackendSpec)
  | AnyOther (obj_name : string) (go_type : string).

(** checkDeploymentReplicas and checkStatefulSetReplicas *)
Definition checkReplicas (r : option Z) : Z := default 0%Z r.

(** What checkApiManager makes of one component: no field is left nil. *)
Definition check_component (c : option Component) : Component :=
  let c := default zero_Component c in
  mkComponent (Some (default 0%Z (comp_Replicas c)))
    (Some (checkResourceBlock (default zero_RR (comp_Resources c)))).
Definition checkApiManager (a : option ApicastSpec) (b : option BackendSpec)
    : (Component * Component) * (Component * Component) :=
  let a := default (mkApicast None None) a in
  let b := default (mkBackend None None) b in
  ((check_component (ProductionSpec a), check_component (StagingSpec a)),
   (check_component (ListenerSpec b), check_component (WorkerSpec b))).

Definition configure_component (p : QuotaProductConfig) (c : Component) (n : string)
    : outcome Component :=
  r ← mutateAPIManagerReplicas p (default 0%Z (comp_Replicas c)) n;
  rr ← mutateResourcesRequirement p (default zero_RR (comp_Resources c)) n;
  mret (mkComponent (Some r) (Some rr)).

Definition Configure (p : QuotaProductConfig) (obj : configurable)
    : outcome (configurable * option error) :=
  match obj with
  | ADeploymentConfig n r t =>
      r ← mutateReplicas p r n;
      match t with
      | Some t => t ← mutatePodTemplate p t n; mret (ADeploymentConfig n r (Some t), None)
      | None => Panic "nil pointer dereference"
      end
  | ADeployment n r t =>
      r ← mutateReplicas p (checkReplicas r) n;
      t ← mutatePodTemplate p t n;
      mret (ADeployment n (Some r) t, None)
  | AStatefulSet n r t =>
      r ← mutateReplicas p (checkReplicas r) n;
      t ← mutatePodTemplate p t n;
      mret (AStatefulSet n (Some r) t, None)
  | AKeycloak n i rr =>
      let configReplicas := Replicas (resource_config p n) in
      upd ← quota_isUpdated p;
      let i := if upd || (i <? configReplicas)%Z then configReplicas else i in
      let resources := Resources (resource_config p KeycloakName) in
      let rr := checkResourceBlock rr in
      requests ← mutateResources p (make_if_nil (Requests rr)) (Requests resources);
      limits ← mutateResources p (make_if_nil (Limits rr)) (Limits resources);
      mret (AKeycloak n i (mkRR (Some limits) (Some requests)), None)
  | AnAPIManager n a b =>
      let '((prod, staging), (listener, worker)) := checkApiManager a b in
      prod ← configure_component p prod ApicastProductionName;
      listener ← configure_component p listener BackendListenerName;
      worker ← configure_component p worker BackendWorkerName;
      mret (AnAPIManager n (Some (mkApicast (Some prod) (Some staging)))
              (Some (mkBackend (Some listener) (Some worker))), None)
  | AnyOther n ty =>
      mret (obj, Some (ErrStr ("quota configuration can only be applied to Deployments, StatefulSets, Deployment Configs, ApiManager, Keycloak found " +:+ ty)))
  end.
End quota.
Arguments ResourceList : clear implicits.
Arguments ResourceRequirements : clear implicits.
Arguments ResourceConfig : clear implicits.
Arguments Quota : clear implicits.
Arguments QuotaProductConfig : clear implicits.
Arguments quotaConfigReceiver : clear implicits.
Arguments PodTemplateSpec : clear implicits.
Arguments Component : clear implicits.
Arguments configurable : clear implicits.

(** ** Selecting a quota *)

Section selection.
Context {Q : Type}.

Lemma find_receiver_first (l1 l2 : list (quotaConfigReceiver Q)) r q :
  Forall (λ x, r_Param x ≠ q) l1 → r_Param r = q → find_receiver (l1 ++ r :: l2) q = r.
Proof.
  induction l1 as [|x l1 IH]; simpl; intros Hl Hr.
  - by rewrite Hr, str_eqb_refl.
  - inversion_clear Hl as [|?? Hx Hl']. apply str_eqb_false in Hx. rewrite Hx. auto.
Qed.

Lemma find_receiver_none (l : list (quotaConfigReceiver Q)) q :
  Forall (λ x, r_Param x ≠ q) l → find_receiver l q = zero_Receiver.
Proof.
  induction 1 as [|x l Hx _ IH]; [done|]. simpl. apply str_eqb_false in Hx. by rewrite Hx.
Qed.

Lemma lookup_configs (res : option (gmap string (ResourceConfig Q))) ddcss n :
  n ∈ ddcss →
  (list_to_map (M := gmap string (ResourceConfig Q))
     ((λ n, (n, omap_get zero_RC res n)) <$> ddcss)) !! n = Some (omap_get zero_RC res n).
Proof.
  induction ddcss as [|x l IH]; simpl; intros Hn; [set_solver|].
  destruct (decide (x = n)) as [->|Hne]; [by rewrite lookup_insert_eq|].
  rewrite lookup_insert_ne by done. apply IH. set_solver.
Qed.

(** What a successful GetQuota stores for a product's component. *)
Lemma GetQuota_component um q data (s0 s : Quota Q) pr ddcss n rs :
  um (omap_get "" data ConfigMapData) = inr rs →
  GetQuota um q data s0 = (s, None) →
  products !! pr = Some ddcss → n ∈ ddcss →
  resource_config (GetProduct s pr) n =
    omap_get zero_RC (r_Resources (find_receiver rs q)) n
  ∧ quota (GetProduct s pr) = Some s.
Proof.
  unfold GetQuota. intros -> HG Hp Hn.
  destruct (r_Name _ =?s ""); simplify_eq/=.
  unfold GetProduct, resource_config, omap_lookup. cbn [productConfigs].
  rewrite lookup_fmap, Hp. cbn [fmap option_fmap option_map quota resourceConfigs].
  split; [|done]. unfold omap_get at 1, map_get. by rewrite lookup_configs.
Qed.
End selection.

(** ** Applying a quota never goes below it, and settles at once *)

Section configure.
Context {Q : Type} `{QuantityLaws Q}.
Implicit Types (p : QuotaProductConfig Q) (pod : gmap string Q) (cfg : ResourceList Q).

(** The quantity under [key] is at least the configured one. *)
Definition at_least (pod : gmap string Q) (cfg : ResourceList Q) (key : string) : Prop :=
  q_Cmp (map_get q_zero pod key) (omap_get q_zero cfg key) ≠ Lt.
Definition rr_at_least (r cfg : ResourceRequirements Q) : Prop :=
  ∀ key, key ∈ [ResourceCPU; ResourceMemory] →
    at_least (make_if_nil (Limits r)) (Limits cfg) key
    ∧ at_least (make_if_nil (Requests r)) (Requests cfg) key.

Lemma mutateResource_other upd key key' pod cfg pod' :
  key ≠ key' → mutateResource upd key pod cfg = Done pod' → pod' !! key' = pod !! key'.
Proof.
  unfold mutateResource. intros Hne Hm. repeat case_match; simplify_eq; try done.
  by rewrite lookup_insert_ne.
Qed.

Lemma mutateResource_at_least upd key pod cfg pod' :
  mutateResource upd key pod cfg = Done pod' → at_least pod' cfg key.
Proof.
  unfold mutateResource, at_least. intros Hm.
  destruct (q_reparse (omap_get q_zero cfg key)) as (b & Hb & Heq & Hz). rewrite Hb in Hm.
  destruct (_ || _) eqn:E; simplify_eq.
  - rewrite map_get_insert. congruence.
  - apply orb_false_iff in E as [E _]. apply orb_false_iff in E as [_ E].
    by apply bool_decide_eq_false in E.
Qed.

Lemma mutateResource_total upd key pod cfg : ∃ pod', mutateResource upd key pod cfg = Done pod'.
Proof.
  unfold mutateResource. destruct (q_reparse (omap_get q_zero cfg key)) as (b & -> & _).
  destruct (_ || _); eauto.
Qed.

(** Running it again on anything that kept the key changes nothing. *)
Lemma mutateResource_settled upd key pod cfg pod' pod2 :
  mutateResource upd key pod cfg = Done pod' → pod2 !! key = pod' !! key →
  mutateResource upd key pod2 cfg = Done pod2.
Proof.
  unfold mutateResource. intros Hm Hk.
  destruct (q_reparse (omap_get q_zero cfg key)) as (b & Hb & Heq & Hz). rewrite Hb in *.
  assert (map_get q_zero pod2 key = map_get q_zero pod' key) as Hg
    by (unfold map_get; by rewrite Hk).
  rewrite Hg. destruct (_ || bool_decide (q_Cmp (map_get q_zero pod key) _ = Lt) || _) eqn:E;
    simplify_eq.
  - rewrite lookup_insert_eq in Hk. case_match; [|done]. by rewrite insert_id.
  - by rewrite E.
Qed.

Lemma mutateResources_spec p pod cfg pod' :
  mutateResources p pod cfg = Done pod' →
  at_least pod' cfg ResourceCPU ∧ at_least pod' cfg ResourceMemory
  ∧ mutateResources p pod' cfg = Done pod'.
Proof.
  unfold mutateResources. destruct (quota_isUpdated p) as [upd|]; [|done]. cbn.
  intros (pod1 & H1 & H2)%outcome_bind_inv.
  assert (Hcpu : pod' !! ResourceCPU = pod1 !! ResourceCPU)
    by (eapply mutateResource_other; [|exact H2]; done).
  split_and!.
  - apply mutateResource_at_least in H1. unfold at_least, map_get in *. by rewrite Hcpu.
  - by eapply mutateResource_at_least.
  - rewrite (mutateResource_settled _ _ _ _ _ _ H1 Hcpu). cbn.
    by eapply mutateResource_settled.
Qed.

Lemma mutateResources_total p q pod cfg :
  quota p = Some q → ∃ pod', mutateResources p pod cfg = Done pod'.
Proof.
  intros Hq. unfold mutateResources, quota_isUpdated. rewrite Hq. cbn.
  destruct (mutateResource_total (isUpdated q) ResourceCPU pod cfg) as [pod1 ->].
  apply mutateResource_total.
Qed.

Lemma mutateResourcesRequirement_spec p r n r' :
  mutateResourcesRequirement p r n = Done r' →
  rr_at_least r' (Resources (resource_config p n))
  ∧ mutateResourcesRequirement p r' n = Done r'.
Proof.
  unfold mutateResourcesRequirement.
  intros (l & Hl & Hr)%outcome_bind_inv. apply outcome_bind_inv in Hr as (q & Hq & [= <-]).
  apply mutateResources_spec in Hl as (Hl1 & Hl2 & Hl3).
  apply mutateResources_spec in Hq as (Hq1 & Hq2 & Hq3). split.
  - intros key Hk. apply list_elem_of_In in Hk. simpl in Hk.
    destruct Hk as [<-|[<-|[]]]; done.
  - simpl. unfold mbind in Hl3, Hq3. rewrite Hl3. cbn. by rewrite Hq3.
Qed.

Lemma mutate_containers_spec p l n l' :
  mutate_containers p l n = Done l' →
  length l' = length l
  ∧ Forall (λ r, rr_at_least r (Resources (resource_config p n))) l'
  ∧ mutate_containers p l' n = Done l'.
Proof.
  revert l'. induction l as [|c l IH]; simpl; intros l' Hl; [by injection Hl as <-|].
  apply outcome_bind_inv in Hl as (c' & Hc & Hl).
  apply outcome_bind_inv in Hl as (l2 & Hl & [= <-]).
  apply mutateResourcesRequirement_spec in Hc as [Hc1 Hc2].
  apply IH in Hl as (Hlen & Hl1 & Hl2). split_and!; [simpl; lia|by constructor|].
  simpl. rewrite Hc2. cbn. by rewrite Hl2.
Qed.

Lemma mutateReplicas_spec p r n r' :
  mutateReplicas p r n = Done r' →
  (Replicas (resource_config p n) ≤ r')%Z
  ∧ (quota_isUpdated p = Done true → r' = Replicas (resource_config p n))
  ∧ (r' = r ∨ r' = Replicas (resource_config p n))
  ∧ mutateReplicas p r' n = Done r'.
Proof.
  unfold mutateReplicas. destruct (quota_isUpdated p) as [upd|]; [|done].
  cbn. set (k := Replicas _). intros [= <-].
  destruct upd; [split_and!; auto; simpl; lia|]. cbn [orb].
  assert (Hk : (if (k <? k)%Z || (k =? 0)%Z then k else k) = k) by by destruct (_ || _).
  destruct ((r <? k)%Z || (r =? 0)%Z) eqn:E.
  { rewrite Hk. split_and!; auto; lia. }
  rewrite E. apply orb_false_iff in E as [E _]. apply Z.ltb_ge in E.
  split_and!; auto. discriminate.
Qed.

Lemma mutateReplicas_total p q r n :
  quota p = Some q → ∃ r', mutateReplicas p r n = Done r'.
Proof. intros Hq. unfold mutateReplicas, quota_isUpdated. rewrite Hq. cbn. eauto. Qed.

Lemma mutateResourcesRequirement_total p q r n :
  quota p = Some q → ∃ r', mutateResourcesRequirement p r n = Done r'.
Proof.
  intros Hq. unfold mutateResourcesRequirement.
  edestruct (mutateResources_total p q) as [l ->]; [done|]. cbn.
  edestruct (mutateResources_total p q) as [l2 ->]; [done|]. cbn. eauto.
Qed.

Lemma mutate_containers_total p q l n :
  quota p = Some q → ∃ l', mutate_containers p l n = Done l'.
Proof.
  intros Hq. induction l as [|c l [l' IH]]; simpl; [by eexists|].
  edestruct (mutateResourcesRequirement_total p q) as [c' ->]; [done|]. cbn. rewrite IH. cbn. eauto.
Qed.

Lemma mutatePodTemplate_spec p t n t' :
  mutatePodTemplate p t n = Done t' →
  length (Containers t') = length (Containers t)
  ∧ Forall (λ r, rr_at_least r (Resources (resource_config p n))) (Containers t')
  ∧ mutatePodTemplate p t' n = Done t'.
Proof.
  unfold mutatePodTemplate. intros (l & Hl & [= <-])%outcome_bind_inv.
  apply mutate_containers_spec in Hl as (? & ? & Hl). simpl. rewrite Hl. done.
Qed.

Lemma configure_component_spec p c n c' :
  configure_component p c n = Done c' →
  ∃ r rr, c' = mkComponent (Some r) (Some rr)
    ∧ (Replicas (resource_config p n) ≤ r)%Z
    ∧ rr_at_least rr (Resources (resource_config p n))
    ∧ configure_component p (check_component (Some c')) n = Done c'.
Proof.
  unfold configure_component. intros (r & Hr & Hc)%outcome_bind_inv.
  apply outcome_bind_inv in Hc as (rr & Hrr & [= <-]).
  apply mutateReplicas_spec in Hr as (Hr1 & _ & _ & Hr2).
  pose proof (mutateResourcesRequirement_spec _ _ _ _ Hrr) as [Hrr1 Hrr2].
  exists r, rr. split_and!; [done|done|done|]. simpl.
  change (mutateAPIManagerReplicas p r n) with (mutateReplicas p r n). rewrite Hr2. cbn.
  assert (checkResourceBlock rr = rr) as ->; [|by rewrite Hrr2].
  unfold mutateResourcesRequirement in Hrr.
  apply outcome_bind_inv in Hrr as (? & _ & Hrr).
  by apply outcome_bind_inv in Hrr as (? & _ & [= <-]).
Qed.
End configure.

(** ** The properties of this component *)

Section properties.
Context {Q : Type} `{QuantityLaws Q}.
Implicit Types (p : QuotaProductConfig Q).

Definition component_meets (p : QuotaProductConfig Q) (n : string) (c : Component Q) : Prop :=
  ∃ r rr, c = mkComponent (Some r) (Some rr)
    ∧ (Replicas (resource_config p n) ≤ r)%Z
    ∧ rr_at_least rr (Resources (resource_config p n)).
Definition template_meets (p : QuotaProductConfig Q) (n : string) (t : PodTemplateSpec Q) : Prop :=
  Forall (λ r, rr_at_least r (Resources (resource_config p n))) (Containers t).

(** What the quota [p] promises of an object it has been applied to: at
    least the configured replicas, and at least the configured cpu and
    memory, as limits and as requests, in every container. *)
Definition meets (p : QuotaProductConfig Q) (obj : configurable Q) : Prop :=
  match obj with
  | ADeploymentConfig n r (Some t) => (Replicas (resource_config p n) ≤ r)%Z ∧ template_meets p n t
  | ADeployment n (Some r) t | AStatefulSet n (Some r) t =>
      (Replicas (resource_config p n) ≤ r)%Z ∧ template_meets p n t
  | AKeycloak n i rr =>
      (Replicas (resource_config p n) ≤ i)%Z
      ∧ rr_at_least rr (Resources (resource_config p KeycloakName))
  | AnAPIManager _ (Some a) (Some b) =>
      (∃ c, ProductionSpec a = Some c ∧ component_meets p ApicastProductionName c)
      ∧ (∃ c, ListenerSpec b = Some c ∧ component_meets p BackendListenerName c)
      ∧ (∃ c, WorkerSpec b = Some c ∧ component_meets p BackendWorkerName c)
  | _ => False
  end.

(** The objects Configure accepts: anything but an unknown kind, and a
    DeploymentConfig only with a pod template. *)
Definition supported (obj : configurable Q) : Prop :=
  match obj with
  | ADeploymentConfig _ _ None | AnyOther _ _ => False
  | _ => True
  end.

Lemma checkResourceBlock_idem (r : ResourceRequirements Q) :
  checkResourceBlock (checkResourceBlock r) = checkResourceBlock r.
Proof. reflexivity. Qed.

Lemma check_component_idem (c : option (Component Q)) :
  check_component (Some (check_component c)) = check_component c.
Proof. reflexivity. Qed.

Lemma configure_keycloak p n i rr obj' e :
  Configure p (AKeycloak n i rr) = Done (obj', e) →
  e = None ∧ meets p obj' ∧ Configure p obj' = Done (obj', None).
Proof.
  unfold Configure at 1. destruct (quota_isUpdated p) as [upd|] eqn:Hupd; [|done].
  cbn [mbind outcome_bind]. set (k := Replicas _). cbn zeta.
  intros (req & Hreq & Hl)%outcome_bind_inv.
  apply outcome_bind_inv in Hl as (lim & Hlim & [= <- <-]).
  apply mutateResources_spec in Hreq as (? & ? & Hreq).
  apply mutateResources_spec in Hlim as (? & ? & Hlim).
  set (i' := if upd || (i <? k)%Z then k else i).
  assert ((k ≤ i')%Z ∧ (if upd || (i' <? k)%Z then k else i') = i') as [Hi1 Hi2].
  { subst i'. destruct upd; simpl; [lia|].
    destruct (Z.ltb_spec i k); simpl; [by destruct (k <? k)%Z|].
    destruct (Z.ltb_spec i k); lia. }
  split_and!; [done| |].
  - split; [exact Hi1|]. intros key Hk%list_elem_of_In. simpl in Hk.
    destruct Hk as [<-|[<-|[]]]; done.
  - unfold Configure. rewrite Hupd. cbn [mbind outcome_bind]. fold k. rewrite Hi2.
    unfold checkResourceBlock, make_if_nil. cbn [Limits Requests default from_option].
    cbn. rewrite Hreq. cbn. rewrite Hlim. done.
Qed.

Lemma configure_apimanager p n a b obj' e :
  Configure p (AnAPIManager n a b) = Done (obj', e) →
  e = None ∧ meets p obj' ∧ Configure p obj' = Done (obj', None).
Proof.
  unfold Configure at 1, checkApiManager.
  intros (c1 & H1 & Hc)%outcome_bind_inv. apply outcome_bind_inv in Hc as (c2 & H2 & Hc).
  apply outcome_bind_inv in Hc as (c3 & H3 & [= <- <-]).
  apply configure_component_spec in H1 as (r1 & rr1 & Hc1 & ? & ? & H1).
  apply configure_component_spec in H2 as (r2 & rr2 & Hc2 & ? & ? & H2).
  apply configure_component_spec in H3 as (r3 & rr3 & Hc3 & ? & ? & H3).
  split_and!; [done| |].
  - simpl. split_and!; eexists; (split; [done|]); unfold component_meets; eauto 10.
  - unfold Configure, checkApiManager. cbn -[configure_component check_component mbind].
    rewrite H1. cbn -[configure_component check_component].
    rewrite H2. cbn -[configure_component check_component]. rewrite H3. done.
Qed.

(** C23: Applying a quota to any object it supports leaves the object with at
    least the configured replicas, cpu and memory (never an error), and a
    second application changes nothing: reconciling is idempotent. *)
Theorem Configure_meets_and_settles p obj obj' e :
  supported obj → Configure p obj = Done (obj', e) →
  e = None ∧ meets p obj' ∧ Configure p obj' = Done (obj', None).
Proof.
  intros Hs Hc. destruct obj as [n r [t|]|n r t|n r t|n i rr|n a b|n ty]; try done;
    [..|by eapply configure_keycloak|by eapply configure_apimanager];
    simpl in Hc; apply outcome_bind_inv in Hc as (r' & Hr & Hc);
    apply outcome_bind_inv in Hc as (t' & Ht & [= <- <-]);
    apply mutateReplicas_spec in Hr as (? & _ & _ & Hr);
    apply mutatePodTemplate_spec in Ht as (_ & ? & Ht);
    (split_and!; [done|done|]); simpl; unfold checkReplicas; cbn [default from_option];
    cbn; rewrite Hr; cbn; rewrite Ht; done.
Qed.

(** Configure cannot panic on a supported object when the product's
    config came from a quota (its quota pointer is set). *)
Theorem Configure_total p q obj :
  quota p = Some q → supported obj → ∃ obj', Configure p obj = Done (obj', None).
Proof.
  intros Hq Hs.
  assert (∀ r n, ∃ r', mutateReplicas p r n = Done r') as Hr
    by (intros; by eapply mutateReplicas_total).
  assert (∀ pod cfg, ∃ pod', mutateResources p pod cfg = Done pod') as Hm
    by (intros; by eapply mutateResources_total).
  assert (∀ t n, ∃ t', mutatePodTemplate p t n = Done t') as Ht.
  { intros t n. unfold mutatePodTemplate.
    edestruct (mutate_containers_total p q) as [l ->]; [done|]. cbn. eauto. }
  assert (∀ c n, ∃ c', configure_component p c n = Done c') as Hcomp.
  { intros c n. unfold configure_component.
    change (mutateAPIManagerReplicas p) with (mutateReplicas p).
    destruct (Hr (default 0%Z (comp_Replicas c)) n) as [r ->]. cbn.
    edestruct (mutateResourcesRequirement_total p q) as [rr ->]; [done|]. cbn. eauto. }
  destruct obj as [n r [t|]|n r t|n r t|n i rr|n a b|n ty]; try done; simpl.
  - destruct (Hr r n) as [r' ->]. cbn. destruct (Ht t n) as [t' ->]. cbn. eauto.
  - destruct (Hr (checkReplicas r) n) as [r' ->]. cbn. destruct (Ht t n) as [t' ->]. cbn. eauto.
  - destruct (Hr (checkReplicas r) n) as [r' ->]. cbn. destruct (Ht t n) as [t' ->]. cbn. eauto.
  - unfold quota_isUpdated. rewrite Hq. cbn.
    match goal with |- context [mutateResources p ?x ?y] => destruct (Hm x y) as [m1 ->] end. cbn.
    match goal with |- context [mutateResources p ?x ?y] => destruct (Hm x y) as [m2 ->] end.
    cbn. eauto.
  - do 3 (match goal with |- context [configure_component p ?c ?m] =>
      destruct (Hcomp c m) as [? ->] end; cbn -[configure_component]). eauto.
Qed.
End properties.

(** GetQuota takes the first entry of the config map whose param matches:
    it fails, leaving the quota as it was, when there is none (or the first
    one has no name), and otherwise gives every component of every quota
    product exactly the replicas of that entry. *)
Theorem GetQuota_selects {Q} um q data (s0 : Quota Q) l1 (r : quotaConfigReceiver Q) l2 :
  um (omap_get "" data ConfigMapData) = inr (l1 ++ r :: l2) →
  Forall (λ x, r_Param x ≠ q) l1 → r_Param r = q →
  (r_Name r = "" → ∃ e, GetQuota um q data s0 = (s0, Some e))
  ∧ (r_Name r ≠ "" → ∃ s, GetQuota um q data s0 = (s, None)
      ∧ GetName s = r_Name r ∧ IsUpdated s = IsUpdated s0
      ∧ Quota_GetRateLimitConfig s = r_RateLimit r
      ∧ ∀ pr ddcss n, products !! pr = Some ddcss → n ∈ ddcss →
          GetReplicas (GetProduct s pr) n = Replicas (omap_get zero_RC (r_Resources r) n)
          ∧ GetActiveQuota (GetProduct s pr) = Done (r_Name r)).
Proof.
  intros Hum Hl Hr. pose proof (find_receiver_first l1 l2 r q Hl Hr) as Hf.
  destruct (GetQuota um q data s0) as [s e] eqn:HG.
  pose proof HG as HG'. unfold GetQuota in HG'. rewrite Hum, Hf in HG'.
  split; intros Hn.
  - rewrite Hn in HG'. cbn in HG'. injection HG' as <- <-. eauto.
  - apply str_eqb_false in Hn. rewrite Hn in HG'. injection HG' as <- <-.
    eexists. split_and!; try done. intros pr ddcss n Hp Hin.
    destruct (GetQuota_component um q data s0 _ pr ddcss n _ Hum HG Hp Hin) as [Hc Hq].
    unfold GetReplicas, GetActiveQuota. by rewrite Hc, Hq, Hf.
Qed.

(** Quantities in thousandths, for the witnesses. *)
#[export] Instance milli_quantity : Quantity Z := {|
  q_zero := 0%Z; q_Cmp := Z.compare; q_IsZero := Z.eqb 0; q_String := itoa;
  q_MustParse := parse_digits;
|}.
#[export] Instance milli_quantity_laws : QuantityLaws Z.
Proof.
  split; cbn.
  - apply Z.compare_refl.
  - intros a b c ->%Z.compare_eq. done.
  - intros a. exists a. rewrite parse_digits_itoa, Z.compare_refl. done.
Qed.

Definition example_rc : ResourceConfig Z :=
  mkResourceConfig 3 (mkRR (Some {[ResourceCPU := 500%Z; ResourceMemory := 250000%Z]})
                           (Some {[ResourceCPU := 350%Z; ResourceMemory := 200000%Z]})).
Definition example_100K : quotaConfigReceiver Z :=
  mkReceiver "100K" "1" (mkRateLimitConfig "minute" 69) (Some {[BackendWorkerName := example_rc]}).
Definition example_1M : quotaConfigReceiver Z :=
  mkReceiver "1 Million" "10" (mkRateLimitConfig "minute" 694) (Some {[RateLimitName := example_rc]}).
Definition example_quota : Quota Z :=
  (GetQuota (λ _, inr [example_100K; example_1M]) "10" None zero_Quota).1.

Lemma GetQuota_selects_witness :
  GetReplicas (GetProduct example_quota ProductMarin3r) RateLimitName = 3%Z.
Proof.
  destruct (GetQuota_selects (λ _, inr [example_100K; example_1M]) "10" None zero_Quota
    [example_100K] example_1M [] eq_refl
    ltac:(constructor; [vm_compute; discriminate|constructor]) eq_refl) as [_ Hs].
  destruct (Hs ltac:(vm_compute; discriminate)) as (s & Hs1 & _ & _ & _ & Hs2).
  unfold example_quota. rewrite Hs1. cbn [fst].
  destruct (Hs2 ProductMarin3r [RateLimitName] RateLimitName ltac:(reflexivity)
    ltac:(set_solver)) as [-> _]. reflexivity.
Defined.

Definition example_deployment : configurable Z :=
  ADeployment RateLimitName None (mkPodTemplate [mkRR None (Some {[ResourceCPU := 900%Z]})]).

Lemma Configure_meets_and_settles_witness :
  ∃ obj', Configure (GetProduct example_quota ProductMarin3r) example_deployment = Done (obj', None)
    ∧ meets (GetProduct example_quota ProductMarin3r) obj'.
Proof.
  eexists. split; [vm_compute; reflexivity|].
  eapply (Configure_meets_and_settles (GetProduct example_quota ProductMarin3r)
    example_deployment); [exact I|vm_compute; reflexivity].
Defined.

Lemma Configure_total_witness :
  ∃ obj', Configure (GetProduct example_quota ProductMarin3r) example_deployment = Done (obj', None).
Proof.
  apply (Configure_total _ example_quota); [vm_compute; reflexivity|exact I].
Defined.
