(* ===== verification/Pods.v ===== *)
(** * Pod templates (pkg/resources)

    podAntiAffinity.go, topologyConstraints.go, podTemplate.go,
    podPriority.go and limitRange.go, with the deployments they change. *)

From stdpp Require Import base list strings gmap.
From Stdlib Require Import ZArith Lia.
From S2P Require Import Prelude Kube Api Resources Olm Quota.

(** ** Kinds *)

Record PodAffinityTerm := mkAffinityTerm { MatchLabels : gmap string string; TopologyKey : string }.
#[global] Instance PodAffinityTerm_eq_dec : EqDecision PodAffinityTerm.
Proof. solve_decision. Defined.
(** The pod anti-affinity of corev1.Affinity: preferred terms have a weight. *)
Record Affinity := mkAffinity {
  RequiredTerms : list PodAffinityTerm;
  PreferredTerms : list (Z * PodAffinityTerm);
}.
#[global] Instance Affinity_eq_dec : EqDecision Affinity.
Proof. solve_decision. Defined.

Record TopologySpreadConstraint := mkSpread {
  MaxSkew : Z;
  spread_TopologyKey : string;
  WhenUnsatisfiable : string;
  spread_MatchLabels : gmap string string;
}.
#[global] Instance TopologySpreadConstraint_eq_dec : EqDecision TopologySpreadConstraint.
Proof. solve_decision. Defined.

(** corev1.Probe with an HTTPGet handler on a named port. *)
Record Probe := mkProbe {
  probe_Path : string; probe_Port : string; probe_Scheme : string;
  InitialDelaySeconds : Z; TimeoutSeconds : Z; PeriodSeconds : Z;
  SuccessThreshold : Z; FailureThreshold : Z;
}.
#[global] Instance Probe_eq_dec : EqDecision Probe.
Proof. solve_decision. Defined.

Section kinds.
Context {Q : Type}.

Record Container := mkContainer {
  ct_Name : string;
  ct_Image : string;
  ct_VolumeMounts : list (string * string);
  ct_Ports : list (string * Z);
  ct_Env : list EnvVar;
  ct_LivenessProbe : option Probe;
  ct_ReadinessProbe : option Probe;
  ct_Resources : ResourceRequirements Q;
}.
Definition zero_Container : Container := mkContainer "" "" [] [] [] None None zero_RR.

(** A volume: its name, and the config map, key and path it shows. *)
Record Volume := mkVolume { vol_Name : string; vol_ConfigMap : string; vol_Items : list (string * string) }.

Record PodTemplate := mkPodTemplateFull {
  pt_Labels : option (gmap string string);
  pt_Annotations : option (gmap string string);
  pt_PriorityClassName : string;
  pt_Volumes : list Volume;
  pt_Containers : list Container;
  pt_Affinity : option Affinity;
  pt_TopologySpreadConstraints : list TopologySpreadConstraint;
}.

(** appsv1.DeploymentStatus: the statuses of the conditions, and the counts
    of replicas. *)
Record DeploymentStatus := mkDeploymentStatus {
  ds_Conditions : list string; ds_Replicas : Z; ds_AvailableReplicas : Z; ds_ReadyReplicas : Z;
  ds_UpdatedReplicas : Z }.
Definition zero_DeploymentStatus : DeploymentStatus := mkDeploymentStatus [] 0 0 0 0.
Record Deployment := mkDeployment {
  dp_meta : ObjectMeta;
  dp_Replicas : option Z;
  dp_Selector : gmap string string;
  dp_Strategy : string;
  dp_Template : PodTemplate;
  dp_Status : DeploymentStatus;
}.
(** appsv1.StatefulSet; of the status, the ready replicas. *)
Record StatefulSet := mkStatefulSet {
  ss_meta : ObjectMeta; ss_Replicas : option Z; ss_Template : PodTemplate; ss_ReadyReplicas : Z }.
Definition zero_PodTemplate : PodTemplate := mkPodTemplateFull None None "" [] [] None [].
Definition zero_Deployment (m : ObjectMeta) : Deployment :=
  mkDeployment m None ∅ "" zero_PodTemplate zero_DeploymentStatus.

Definition set_pt_Affinity (a : option Affinity) (t : PodTemplate) : PodTemplate :=
  mkPodTemplateFull (pt_Labels t) (pt_Annotations t) (pt_PriorityClassName t) (pt_Volumes t)
    (pt_Containers t) a (pt_TopologySpreadConstraints t).
Definition set_pt_Spread (s : list TopologySpreadConstraint) (t : PodTemplate) : PodTemplate :=
  mkPodTemplateFull (pt_Labels t) (pt_Annotations t) (pt_PriorityClassName t) (pt_Volumes t)
    (pt_Containers t) (pt_Affinity t) s.
Definition set_pt_PriorityClassName (p : string) (t : PodTemplate) : PodTemplate :=
  mkPodTemplateFull (pt_Labels t) (pt_Annotations t) p (pt_Volumes t)
    (pt_Containers t) (pt_Affinity t) (pt_TopologySpreadConstraints t).
Definition set_pt_Containers (l : list Container) (t : PodTemplate) : PodTemplate :=
  mkPodTemplateFull (pt_Labels t) (pt_Annotations t) (pt_PriorityClassName t) (pt_Volumes t)
    l (pt_Affinity t) (pt_TopologySpreadConstraints t).
Definition set_ct_Resources (r : ResourceRequirements Q) (c : Container) : Container :=
  mkContainer (ct_Name c) (ct_Image c) (ct_VolumeMounts c) (ct_Ports c) (ct_Env c)
    (ct_LivenessProbe c) (ct_ReadinessProbe c) r.
Definition set_dp_Template (t : PodTemplate) (d : Deployment) : Deployment :=
  mkDeployment (dp_meta d) (dp_Replicas d) (dp_Selector d) (dp_Strategy d) t (dp_Status d).
End kinds.
Arguments Container : clear implicits.
Arguments PodTemplate : clear implicits.
Arguments Deployment : clear implicits.
Arguments StatefulSet : clear implicits.

(** equality.Semantic.DeepEqual, where an object holds quantities. *)
Class SemanticDeepEqual (O : Type) := equality_DeepEqual : O → O → bool.

#[global] Instance Deployment_object {Q} `{SemanticDeepEqual (Deployment Q)} : K8sObject (Deployment Q) := {|
  meta := dp_meta;
  set_meta m d := mkDeployment m (dp_Replicas d) (dp_Selector d) (dp_Strategy d) (dp_Template d) (dp_Status d);
  semantic_deep_equal := equality_DeepEqual;
|}.

#[global] Instance StatefulSet_object {Q} `{SemanticDeepEqual (StatefulSet Q)} : K8sObject (StatefulSet Q) := {|
  meta := ss_meta;
  set_meta m s := mkStatefulSet m (ss_Replicas s) (ss_Template s) (ss_ReadyReplicas s);
  semantic_deep_equal := equality_DeepEqual;
|}.

(** ** podAntiAffinity.go *)

Definition ZoneLabel : string := "topology.kubernetes.io/zone".
Definition NodeLabel : string := "kubernetes.io/hostname".
Definition AntiAffinityRequiredEnvVar : string := "FORCED_DISTRIBUTION".

Definition MultiAZAntiAffinityPreferred (matchLabels : gmap string string) : Affinity :=
  mkAffinity [] [(100%Z, mkAffinityTerm matchLabels ZoneLabel); (100%Z, mkAffinityTerm matchLabels NodeLabel)].
Definition MultiAZAntiAffinityRequired (matchLabels : gmap string string) : Affinity :=
  mkAffinity [mkAffinityTerm matchLabels ZoneLabel; mkAffinityTerm matchLabels NodeLabel] [].
Definition SelectAntiAffinityForCluster (required : bool) (matchLabels : gmap string string) : Affinity :=
  if required then MultiAZAntiAffinityRequired matchLabels else MultiAZAntiAffinityPreferred matchLabels.

(** The value with its error: strconv.ParseBool gives false with one. *)
Definition IsAntiAffinityRequired {W} `{OsEnv W} (w : W) : bool * option error :=
  match LookupEnv AntiAffinityRequiredEnvVar w with
  | None => (false, None)
  | Some envValue =>
      match parse_bool envValue with
      | Some b => (b, None)
      | None => (false, Some (ErrStr ("strconv.ParseBool: parsing " +:+ dquote +:+ envValue +:+ dquote
                                      +:+ ": invalid syntax")))
      end
  end.

(** corev1.Node: its metadata, and type and address of its addresses *)
Record Node := mkNode { node_meta : ObjectMeta; node_Addresses : list (string * string) }.
#[global] Instance Node_eq_dec : EqDecision Node.
Proof. solve_decision. Defined.
#[global] Instance Node_object : K8sObject Node := {|
  meta := node_meta; set_meta m n := mkNode m (node_Addresses n); semantic_deep_equal a b := bool_decide (a = b);
|}.
Definition node_zone (n : Node) : string := omap_get "" (Labels (node_meta n)) ZoneLabel.

Definition IsMultiAZCluster {W} `{Client W Node} (c : KClient) : M W (error + bool) :=
  ls ← client_list (O := Node) c list_all;
  match ls with
  | inl e => mret (inl e)
  | inr [] => mret (inl (ErrStr "no nodes found"))
  | inr [_] => mret (inr false)
  | inr (first :: rest) =>
      mret (inr (existsb (λ n, negb (node_zone n =?s node_zone first)) rest))
  end.

(** ** podTemplate.go *)

Section mutations.
Context {Q : Type}.

(** A mutation sees the object's metadata and changes the template. *)
Definition PodTemplateMutation : Type := ObjectMeta → PodTemplate Q → PodTemplate Q * option error.

(** The template a failed mutation leaves has the changes of the ones before. *)
Fixpoint AllMutationsOf (mutations : list PodTemplateMutation) : PodTemplateMutation := λ obj t,
  match mutations with
  | [] => (t, None)
  | mutation :: mutations =>
      match mutation obj t with
      | (t, Some err) => (t, Some err)
      | (t, None) => AllMutationsOf mutations obj t
      end
  end.
Definition NoopMutate : PodTemplateMutation := λ _ t, (t, None).

Definition MutatePodPriority (priorityClassName : string) : PodTemplateMutation := λ _ t,
  (set_pt_PriorityClassName priorityClassName t, None).

Definition MutateZoneTopologySpreadConstraints (labelMatch : string) : PodTemplateMutation := λ obj t,
  match Labels obj with
  | None => (t, Some (ErrStr "object has no labels"))
  | Some labels =>
      match labels !! labelMatch with
      | None => (t, Some (ErrStr ("label " +:+ labelMatch +:+ " not found in object")))
      | Some labelValue =>
          (set_pt_Spread [mkSpread 1 ZoneLabel "ScheduleAnyway" {[labelMatch := labelValue]}] t, None)
      end
  end.

(** The requirement is read when the mutation is made. *)
Definition MutateMultiAZAntiAffinity {W} `{OsEnv W} (labelMatch : string) (w : W)
    : PodTemplateMutation :=
  let '(isRequired, err) := IsAntiAffinityRequired w in
  let isRequired := if is_some err then false else isRequired in
  λ obj t,
    match omap_lookup (Labels obj) labelMatch with
    | None => (t, Some (ErrStr ("label " +:+ labelMatch +:+ " not found in object")))
    | Some labelValue =>
        (set_pt_Affinity (Some (SelectAntiAffinityForCluster isRequired {[labelMatch := labelValue]})) t,
         None)
    end.

(** A selector gives the template of an object, with the object's metadata,
    and puts one in its place. *)
Class PodTemplateSelector (O : Type) := {
  select_meta : O → ObjectMeta; select_template : O → PodTemplate Q;
  put_template : PodTemplate Q → O → O }.
#[global] Instance SelectFromDeployment : PodTemplateSelector (Deployment Q) := {|
  select_meta := dp_meta; select_template := dp_Template; put_template := set_dp_Template |}.
#[global] Instance SelectFromStatefulSet : PodTemplateSelector (StatefulSet Q) := {|
  select_meta := ss_meta; select_template := ss_Template;
  put_template t s := mkStatefulSet (ss_meta s) (ss_Replicas s) t (ss_ReadyReplicas s) |}.

Definition SetPodTemplate {O} `{PodTemplateSelector O} (mutation : PodTemplateMutation)
    (o : O) : O * option error :=
  let '(t, err) := mutation (select_meta o) (select_template o) in (put_template t o, err).
End mutations.
#[global] Arguments PodTemplateSelector : clear implicits.

Definition UpdatePodTemplateIfExists {Q W O} `{K8sObject O} `{PodTemplateSelector Q O} `{Client W O}
    (c : KClient) (mutation : PodTemplateMutation (Q := Q)) (o : O)
    : M W (O * (StatusPhase * option error)) :=
  UpdateIfExists c (λ o, mret (SetPodTemplate mutation o)) o.

(** Configure of the quota on a deployment. *)
Definition Configure_deployment {Q} `{Quantity Q} (p : QuotaProductConfig Q) (d : Deployment Q)
    : outcome (Deployment Q * option error) :=
  '(o, err) ← Configure p (ADeployment (Name (dp_meta d)) (dp_Replicas d)
    (mkPodTemplate (ct_Resources <$> pt_Containers (dp_Template d))));
  match o with
  | ADeployment _ r t =>
      mret (mkDeployment (dp_meta d) r (dp_Selector d) (dp_Strategy d)
        (set_pt_Containers (zip_with set_ct_Resources (Containers t) (pt_Containers (dp_Template d)))
           (dp_Template d)) (dp_Status d), err)
  | _ => mret (d, err)
  end.

(** ** limitRange.go *)

Section limit_range.
Context {Q : Type}.
Record LimitRangeItem := mkLimitRangeItem {
  lr_Type : string; lr_Default : option (gmap string Q); lr_DefaultRequest : option (gmap string Q) }.
Record LimitRange := mkLimitRange { lr_meta : ObjectMeta; lr_Limits : list LimitRangeItem }.
End limit_range.
Arguments LimitRangeItem : clear implicits.
Arguments LimitRange : clear implicits.
#[global] Instance LimitRange_object {Q} `{SemanticDeepEqual (LimitRange Q)} : K8sObject (LimitRange Q) := {|
  meta := lr_meta; set_meta m r := mkLimitRange m (lr_Limits r);
  semantic_deep_equal := equality_DeepEqual;
|}.

Record LimitRangeParams := mkLimitRangeParams {
  CpuRequest : string; CpuLimit : string; MemoryRequest : string; MemoryLimit : string;
  ResourceType : string;
}.
Definition DefaultLimitRangeParams : LimitRangeParams := mkLimitRangeParams "5m" "" "10Mi" "" "Container".
Definition defaultLimitRangeName : string := "limit-range".

Section reconcile_limit_range.
Context {W Q : Type} `{Quantity Q} `{SemanticDeepEqual (LimitRange Q)} `{Client W (LimitRange Q)}.

(** m[key] = resource.MustParse(text) when there is a text; writing to a nil
    map panics. *)
Definition set_quantity (text key : string) (m : option (gmap string Q)) : outcome (option (gmap string Q)) :=
  if negb (text =?s "") then
    match q_MustParse text, m with
    | None, _ => Panic "cannot parse quantity"
    | Some _, None => Panic "assignment to entry in nil map"
    | Some q, Some m => Done (Some (<[key := q]> m))
    end
  else Done m.

Definition set_limits (params : LimitRangeParams) (l : list (LimitRangeItem Q))
    : outcome (list (LimitRangeItem Q)) :=
  let given := negb ((CpuLimit params =?s "") && (CpuRequest params =?s "")
                     && (MemoryLimit params =?s "") && (MemoryRequest params =?s "")) in
  match l with
  | [] => if given then Panic "index out of range" else Done []
  | item :: l =>
      d ← set_quantity (CpuLimit params) ResourceCPU (lr_Default item);
      r ← set_quantity (CpuRequest params) ResourceCPU (lr_DefaultRequest item);
      d ← set_quantity (MemoryLimit params) ResourceMemory d;
      r ← set_quantity (MemoryRequest params) ResourceMemory r;
      mret (mkLimitRangeItem (lr_Type item) d r :: l)
  end.

Definition ReconcileLimitRange (c : KClient) (namespace : string) (params : LimitRangeParams)
    : M W (StatusPhase * option error) :=
  '(_, (_, err)) ← CreateOrUpdate c
    (mkLimitRange (named namespace defaultLimitRangeName)
       [mkLimitRangeItem (ResourceType params) (Some ∅) (Some ∅)])
    (λ lr, l ← lift (set_limits params (lr_Limits lr)); mret (mkLimitRange (lr_meta lr) l, None));
  match err with
  | Some e => mret (PhaseFailed, Some e)
  | None => mret (PhaseCompleted, None)
  end.
End reconcile_limit_range.

(** ** Facts *)

Section facts.
Context {Q : Type} `{QuantityLaws Q}.
Implicit Types (p : QuotaProductConfig Q) (d : Deployment Q).

Lemma zip_resources (l : list (ResourceRequirements Q)) (cts : list (Container Q)) :
  length l = length cts →
  ct_Resources <$> zip_with set_ct_Resources l cts = l
  ∧ set_ct_Resources zero_RR <$> zip_with set_ct_Resources l cts = set_ct_Resources zero_RR <$> cts.
Proof.
  revert cts. induction l as [|r l IH]; intros [|ct cts] Hl; simplify_eq/=; [done|].
  destruct (IH cts Hl) as [-> ->]. done.
Qed.

(** The quota changes the replicas and the resources of a deployment, and
    nothing else. *)
Lemma Configure_deployment_spec p d d' err :
  Configure_deployment p d = Done (d', err) →
  err = None
  ∧ (∃ r, dp_Replicas d' = Some r ∧ (Replicas (resource_config p (Name (dp_meta d))) ≤ r)%Z)
  ∧ Forall (λ ct, rr_at_least (ct_Resources ct) (Resources (resource_config p (Name (dp_meta d)))))
      (pt_Containers (dp_Template d'))
  ∧ set_ct_Resources zero_RR <$> pt_Containers (dp_Template d')
    = set_ct_Resources zero_RR <$> pt_Containers (dp_Template d)
  ∧ dp_meta d' = dp_meta d ∧ dp_Selector d' = dp_Selector d ∧ dp_Strategy d' = dp_Strategy d
  ∧ set_pt_Containers [] (dp_Template d') = set_pt_Containers [] (dp_Template d).
Proof.
  unfold Configure_deployment. intros Hc. apply outcome_bind_inv in Hc as ([o e] & Hc & Hd).
  unfold Configure in Hc. apply outcome_bind_inv in Hc as (r & Hr & Hc).
  apply outcome_bind_inv in Hc as (t & Ht & [= <- <-]). injection Hd as <- <-.
  apply mutateReplicas_spec in Hr as (Hr & _). apply mutatePodTemplate_spec in Ht as (Hlen & Hf & _).
  cbn in Hlen. rewrite length_fmap in Hlen.
  destruct (zip_resources _ _ Hlen) as [Hz1 Hz2]. cbn. split_and!; try done; [eauto|].
  rewrite <- Hz1 in Hf. by apply Forall_fmap in Hf.
Qed.
End facts.

(** The last node decides nothing the others do not: a cluster spans several
    zones exactly when two of its nodes are in different ones. *)
Lemma zones_differ (n : Node) (l : list Node) :
  existsb (λ x, negb (node_zone x =?s node_zone n)) l = true ↔
  ∃ x y, x ∈ n :: l ∧ y ∈ n :: l ∧ node_zone x ≠ node_zone y.
Proof.
  rewrite existsb_exists. split.
  - intros (x & Hx & Hz). exists x, n. rewrite negb_true_iff, str_eqb_false in Hz.
    apply list_elem_of_In in Hx. set_solver.
  - intros (x & y & Hx & Hy & Hz).
    destruct (decide (node_zone x = node_zone n)) as [Hxn|Hxn].
    + exists y. rewrite negb_true_iff, str_eqb_false. split; [|congruence].
      apply list_elem_of_In. apply elem_of_cons in Hy as [->|]; [congruence|done].
    + exists x. rewrite negb_true_iff, str_eqb_false. split; [|done].
      apply list_elem_of_In. apply elem_of_cons in Hx as [->|]; [congruence|done].
Qed.

(** A cluster is multi-AZ exactly when two of its nodes are in different
    zones, nodes without a zone being in a zone of their own; listing no
    nodes is an error. *)
Theorem IsMultiAZCluster_spec {W} `{Client W Node} c (w w' : W) nodes :
  client_list (O := Node) c list_all w = (Done (inr nodes), w') →
  match nodes with
  | [] => ∃ e, IsMultiAZCluster c w = (Done (inl e), w')
  | _ => ∃ b, IsMultiAZCluster c w = (Done (inr b), w')
      ∧ (b = true ↔ ∃ x y, x ∈ nodes ∧ y ∈ nodes ∧ node_zone x ≠ node_zone y)
  end.
Proof.
  intros Hl. unfold IsMultiAZCluster. rewrite (bind_done _ _ _ _ _ Hl).
  destruct nodes as [|n [|m nodes]]; [by eexists| |].
  - exists false. split; [done|]. split; [done|]. set_solver.
  - eexists. split; [reflexivity|]. apply zones_differ.
Qed.
