(* ===== verification/Keycloak.v ===== *)
(** * Keycloak

    The kinds of keycloak.org, with the fields the operator reads or writes,
    and the interface of the vendored client of the Keycloak API. *)

From stdpp Require Import base list strings gmap.
From Stdlib Require Import ZArith.
From S2P Require Import Prelude Kube Api Resources Olm Users Quota Pods.

(** ** Kinds *)

(** keycloak.KeycloakIdentityProvider *)
Record KeycloakIdentityProvider := mkIdp {
  idp_Alias : string;
  idp_ProviderID : string;
  idp_Enabled : bool;
  idp_TrustEmail : bool;
  idp_StoreToken : bool;
  idp_AddReadTokenRoleOnCreate : bool;
  idp_FirstBrokerLoginFlowAlias : string;
  idp_LinkOnly : bool;
  idp_Config : option (gmap string string);
}.
#[global] Instance KeycloakIdentityProvider_eq_dec : EqDecision KeycloakIdentityProvider.
Proof. solve_decision. Defined.
Definition with_idp_Config (p : KeycloakIdentityProvider) (c : option (gmap string string)) :=
  mkIdp (idp_Alias p) (idp_ProviderID p) (idp_Enabled p) (idp_TrustEmail p) (idp_StoreToken p)
    (idp_AddReadTokenRoleOnCreate p) (idp_FirstBrokerLoginFlowAlias p) (idp_LinkOnly p) c.
Definition with_idp_Flow (p : KeycloakIdentityProvider) (flow : string) :=
  mkIdp (idp_Alias p) (idp_ProviderID p) (idp_Enabled p) (idp_TrustEmail p) (idp_StoreToken p)
    (idp_AddReadTokenRoleOnCreate p) flow (idp_LinkOnly p) (idp_Config p).

(** keycloak.KeycloakAPIRealm *)
Record KeycloakAPIRealm := mkAPIRealm {
  realm_ID : string;
  realm_Realm : string;
  realm_Enabled : bool;
  realm_DisplayName : string;
  realm_EventsListeners : list string;
  realm_IdentityProviders : list KeycloakIdentityProvider;
}.
#[global] Instance KeycloakAPIRealm_eq_dec : EqDecision KeycloakAPIRealm.
Proof. solve_decision. Defined.
Definition with_providers (r : KeycloakAPIRealm) (l : list KeycloakIdentityProvider) : KeycloakAPIRealm :=
  mkAPIRealm (realm_ID r) (realm_Realm r) (realm_Enabled r) (realm_DisplayName r)
    (realm_EventsListeners r) l.

(** keycloak.KeycloakRealm: its overrides are pairs of an identity provider
    and the flow it is for; of the status, the phase. *)
Record KeycloakRealm := mkRealm {
  kcr_meta : ObjectMeta;
  kcr_RealmOverrides : list (string * string);
  kcr_InstanceSelector : option (gmap string string);
  kcr_Realm : option KeycloakAPIRealm;
  kcr_Phase : string;
}.
#[global] Instance KeycloakRealm_eq_dec : EqDecision KeycloakRealm.
Proof. solve_decision. Defined.
#[global] Instance KeycloakRealm_object : K8sObject KeycloakRealm := {|
  meta := kcr_meta;
  set_meta m r := mkRealm m (kcr_RealmOverrides r) (kcr_InstanceSelector r) (kcr_Realm r) (kcr_Phase r);
  semantic_deep_equal a b := bool_decide (a = b);
|}.

(** keycloak.KeycloakUser; of the status, message and phase. *)
Record KeycloakUser := mkKeycloakUserCR {
  ku_meta : ObjectMeta;
  ku_RealmSelector : option (gmap string string);
  ku_User : KeycloakAPIUser;
  ku_Message : string;
  ku_Phase : string;
}.
#[global] Instance KeycloakUser_eq_dec : EqDecision KeycloakUser.
Proof. solve_decision. Defined.
#[global] Instance KeycloakUser_object : K8sObject KeycloakUser := {|
  meta := ku_meta;
  set_meta m u := mkKeycloakUserCR m (ku_RealmSelector u) (ku_User u) (ku_Message u) (ku_Phase u);
  semantic_deep_equal a b := bool_decide (a = b);
|}.
Definition named_user (m : ObjectMeta) : KeycloakUser := mkKeycloakUserCR m None zero_KeycloakAPIUser "" "".

(** keycloak.KeycloakProtocolMapper, keycloak.KeycloakAPIClient and
    keycloak.KeycloakClient; of the spec, the realm selector and the client, of
    the status, whether it is ready. *)
Record KeycloakProtocolMapper := mkProtocolMapper {
  pmap_Name : string; pmap_Protocol : string; pmap_ProtocolMapper : string; pmap_ConsentRequired : bool;
  pmap_ConsentText : string; pmap_Config : gmap string string }.
#[global] Instance KeycloakProtocolMapper_eq_dec : EqDecision KeycloakProtocolMapper.
Proof. solve_decision. Defined.
Record KeycloakAPIClient := mkAPIClient {
  kac_ID : string;
  kac_ClientID : string;
  kac_Enabled : bool;
  kac_Secret : string;
  kac_ClientAuthenticatorType : string;
  kac_RedirectUris : list string;
  kac_StandardFlowEnabled : bool;
  kac_RootURL : string;
  kac_FullScopeAllowed : option bool;
  kac_Access : gmap string bool;
  kac_ProtocolMappers : list KeycloakProtocolMapper;
}.
#[global] Instance KeycloakAPIClient_eq_dec : EqDecision KeycloakAPIClient.
Proof. solve_decision. Defined.
Record KeycloakClient := mkKeycloakClient {
  kcl_meta : ObjectMeta; kcl_RealmSelector : option (gmap string string);
  kcl_Client : option KeycloakAPIClient; kcl_Ready : bool }.
Definition named_client (m : ObjectMeta) : KeycloakClient := mkKeycloakClient m None None false.
#[global] Instance KeycloakClient_eq_dec : EqDecision KeycloakClient.
Proof. solve_decision. Defined.
#[global] Instance KeycloakClient_object : K8sObject KeycloakClient := {|
  meta := kcl_meta; set_meta m c := mkKeycloakClient m (kcl_RealmSelector c) (kcl_Client c) (kcl_Ready c);
  semantic_deep_equal a b := bool_decide (a = b);
|}.

(** keycloak.Keycloak *)
Record Keycloak (Q : Type) := mkKeycloak {
  kc_meta : ObjectMeta;
  kc_Env : list EnvVar;
  kc_Extensions : list string;
  kc_ExternalDatabase : bool;
  kc_ExternalAccess : bool;
  kc_Profile : string;
  kc_PodDisruptionBudget : bool;
  kc_Resources : ResourceRequirements Q;
  kc_MigrationStrategy : string;
  kc_Instances : Z;
}.
Arguments mkKeycloak {Q}.
Arguments kc_meta {Q}.
Arguments kc_Env {Q}.
Arguments kc_Extensions {Q}.
Arguments kc_ExternalDatabase {Q}.
Arguments kc_ExternalAccess {Q}.
Arguments kc_Profile {Q}.
Arguments kc_PodDisruptionBudget {Q}.
Arguments kc_Resources {Q}.
Arguments kc_MigrationStrategy {Q}.
Arguments kc_Instances {Q}.
#[global] Instance Keycloak_object {Q} `{SemanticDeepEqual (Keycloak Q)} : K8sObject (Keycloak Q) := {|
  meta := kc_meta;
  set_meta m k := mkKeycloak m (kc_Env k) (kc_Extensions k) (kc_ExternalDatabase k) (kc_ExternalAccess k)
    (kc_Profile k) (kc_PodDisruptionBudget k) (kc_Resources k) (kc_MigrationStrategy k) (kc_Instances k);
  semantic_deep_equal := equality_DeepEqual;
|}.
Definition named_Keycloak {Q} (m : ObjectMeta) (env : list EnvVar) : Keycloak Q :=
  mkKeycloak m env [] false false "" false zero_RR "" 0.

(** Configure of the quota on a Keycloak *)
Definition Configure_keycloak {Q} `{Quantity Q} (p : QuotaProductConfig Q) (k : Keycloak Q)
    : outcome (Keycloak Q * option error) :=
  '(o, err) ← Configure p (AKeycloak (Name (kc_meta k)) (kc_Instances k) (kc_Resources k));
  match o with
  | AKeycloak _ i rr =>
      mret (mkKeycloak (kc_meta k) (kc_Env k) (kc_Extensions k) (kc_ExternalDatabase k)
              (kc_ExternalAccess k) (kc_Profile k) (kc_PodDisruptionBudget k) rr
              (kc_MigrationStrategy k) i, err)
  | _ => mret (k, err)
  end.

(** ** The API *)

(** keycloak.AuthenticationExecutionInfo *)
Record AuthenticationExecution := mkExecution {
  ex_ID : string;
  ex_Alias : string;
  ex_ProviderID : string;
  ex_AuthenticationConfig : string;
  ex_Requirement : string;
}.

(** keycloakCommon.Group and keycloak.KeycloakUserRole *)
Record KeycloakGroup := mkKeycloakGroup { kg_ID : string; kg_Name : string }.
Record KeycloakRole := mkKeycloakRole { role_ID : string; role_Name : string }.

(** keycloakCommon.KeycloakInterface, an authenticated client of one
    Keycloak, with the calls of the reconcilers in the order of its source: a
    provider, user or group that is not there is a nil pointer without an
    error. *)
Class KeycloakInterface (W K : Type) := {
  api_FindUserByUsername : K → string → string → M W (error + option KeycloakAPIUser);
  api_DeleteUser : K → string → string → M W (option error);
  api_GetIdentityProvider : K → string → string → M W (error + option KeycloakIdentityProvider);
  api_CreateIdentityProvider : K → KeycloakIdentityProvider → string → M W (option error);
  api_UpdateIdentityProvider : K → KeycloakIdentityProvider → string → M W (option error);
  (** the configuration with an alias *)
  api_CreateAuthenticatorConfig : K → gmap string string → string → string → string → M W (option error);
  api_ListRealms : K → M W (error + list string);
  (** name and id of each *)
  api_ListClients : K → string → M W (error + list (string * string));
  api_AddUserToGroup : K → string → string → string → M W (option error);
  (** whether there is one *)
  api_FindAuthenticationFlowByAlias : K → string → string → M W (error + bool);
  (** alias, provider, top level, built in *)
  api_CreateAuthenticationFlow : K → string → string → bool → bool → string → M W (option error);
  api_AddExecutionToAuthenticatonFlow : K → string → string → string → string → M W (option error);
  api_ListAuthenticationExecutionsForFlow : K → string → string → M W (error + list AuthenticationExecution);
  api_FindAuthenticationExecutionForFlow :
    K → string → string → (AuthenticationExecution → bool) → M W (error + option AuthenticationExecution);
  api_UpdateAuthenticationExecutionForFlow : K → string → string → AuthenticationExecution → M W (option error);
  api_FindGroupByName : K → string → string → M W (error + option KeycloakGroup);
  api_FindGroupByPath : K → string → string → M W (error + option KeycloakGroup);
  api_CreateGroup : K → string → string → M W (error + string);
  api_MakeGroupDefault : K → string → string → M W (option error);
  api_SetGroupChild : K → string → string → KeycloakGroup → M W (option error);
  api_CreateGroupClientRole : K → KeycloakRole → string → string → string → M W (option error);
  api_ListAvailableGroupClientRoles : K → string → string → string → M W (error + list KeycloakRole);
  api_ListGroupClientRoles : K → string → string → string → M W (error + list KeycloakRole);
  api_CreateGroupRealmRole : K → KeycloakRole → string → string → M W (option error);
  api_ListGroupRealmRoles : K → string → string → M W (error + list KeycloakRole);
  api_ListAvailableGroupRealmRoles : K → string → string → M W (error + list KeycloakRole);
}.

(** keycloakCommon.KeycloakClientFactory: the one of a reconciler, and the
    LocalConfigKeycloakFactory. *)
Class KeycloakClientFactory (W Q K : Type) := {
  AuthenticatedClient : Keycloak Q → M W (error + K);
  LocalAuthenticatedClient : Keycloak Q → M W (error + K);
}.
