(* ===== verification/RateLimit.v ===== *)
(** * The rate limit service (pkg/products/marin3r)

    config/config.go, config/unit_conversion.go and rateLimitService.go: the
    limits the quota gives are written to a config map in the format of
    limitador, which a deployment behind a service reads. *)

From stdpp Require Import base list strings gmap.
From Stdlib Require Import ZArith Lia Ascii.
From S2P Require Import Prelude Numbers Kube Api Resources Olm Quota Pods.

(** ** Units *)

Definition Second : string := "second".
Definition Minute : string := "minute".
Definition Hour : string := "hour".
Definition Day : string := "day".

Definition divideBy (factor n : Z) : float64 := f64_div (f64_of_int n) (f64_of_int factor).
(** The product is an int. *)
Definition multiplyBy (factor n : Z) : float64 := f64_of_int (wrap_i64 (n * factor)).
Definition identity_ (n : Z) : float64 := f64_of_int n.

Definition conversionFactors : gmap string (gmap string (Z → float64)) := list_to_map [
  (Second, list_to_map [(Second, identity_); (Minute, multiplyBy 60);
                        (Hour, multiplyBy 3600); (Day, multiplyBy (3600 * 24))]);
  (Minute, list_to_map [(Second, divideBy 60); (Minute, identity_);
                        (Hour, multiplyBy 60); (Day, multiplyBy (60 * 24))]);
  (Hour, list_to_map [(Second, divideBy 3600); (Minute, divideBy 60);
                      (Hour, identity_); (Day, multiplyBy 24)]);
  (Day, list_to_map [(Second, divideBy (3600 * 24)); (Minute, divideBy (60 * 24));
                     (Hour, divideBy 24); (Day, identity_)])].

Definition ConvertRate (from to : string) (value : Z) : error + float64 :=
  match conversionFactors !! from with
  | None => inl (ErrStr ("rate to convert from " +:+ dquote +:+ from +:+ dquote +:+ " not supported"))
  | Some toFuncs =>
      match toFuncs !! to with
      | None => inl (ErrStr ("rate to convert to " +:+ dquote +:+ to +:+ dquote +:+ " not supported"))
      | Some convert => inr (convert value)
      end
  end.

Definition getUnitInSeconds (rateLimitUnit : string) : error + Z :=
  if rateLimitUnit =?s "second" then inr 1%Z
  else if rateLimitUnit =?s "minute" then inr 60%Z
  else if rateLimitUnit =?s "hour" then inr (60 * 60)%Z
  else if rateLimitUnit =?s "day" then inr (60 * 60 * 24)%Z
  else inl (ErrStr ("unexpected Rate Limit Unit " +:+ rateLimitUnit +:+ ", while getting unit in seconds")).

Definition GetSecondsInUnit (seconds : Z) : error + string :=
  if (seconds =? 1)%Z then inr "second"
  else if (seconds =? 60)%Z then inr "minute"
  else if (seconds =? 60 * 60)%Z then inr "hour"
  else if (seconds =? 60 * 60 * 24)%Z then inr "day"
  else inl (ErrStr ("unexpected seconds value: " +:+ itoa seconds
                    +:+ ", while getting seconds in Rate Limit Unit")).

(** ** config.go *)

Definition RateLimitConfigMapName : string := "sku-limits-managed-api-service".
Definition AlertConfigMapName : string := "rate-limit-alerts".
Definition ManagedApiServiceQuota : string := "RHOAM SERVICE SKU".
Definition AlertTypeThreshold : string := "Threshold".
Definition AlertTypeSpike : string := "Spike".
Definition DefaultRateLimitUnit : string := "minute".
Definition DefaultRateLimitRequests : Z := 13860.

Record AlertThresholdConfig := mkThreshold { MinRate : string; MaxRate : option string }.
Record AlertConfig := mkAlertConfig {
  ac_Type : string;
  ac_Level : string;
  ac_RuleName : string;
  ac_Period : string;
  ac_Threshold : option AlertThresholdConfig;
}.

(** json.Unmarshal of the alerts; a null value is a nil pointer. *)
Class AlertsJson := alerts_Unmarshal : string → error + gmap string (option AlertConfig).

Section config.
Context {W : Type} `{Client W ConfigMap}.

Definition getFromJSONConfigMap {V} (unmarshal : string → error + V)
    (c : KClient) (cmName namespace configkey : string) : M W (error + V) :=
  got ← client_get (O := ConfigMap) c namespace cmName;
  match got with
  | inl e => mret (inl e)
  | inr configMap =>
      match omap_lookup (cm_Data configMap) configkey with
      | None => mret (inl (ErrStr (configkey +:+ " not found in " +:+ cmName +:+ " ConfigMap data")))
      | Some configJSON => mret (unmarshal configJSON)
      end
  end.

Definition GetAlertConfig `{AlertsJson} (c : KClient) (namespace : string)
    : M W (error + gmap string (option AlertConfig)) :=
  getFromJSONConfigMap alerts_Unmarshal c AlertConfigMapName namespace "alerts".
Definition GetQuotaName : error + string := inr ManagedApiServiceQuota.
End config.

(** ** rateLimitService.go *)

Definition genericKey : string := "generic_key".
Definition headerMatch : string := "header_match".
Definition headerKey : string := "tenant".
Definition possibleTenants : Z := 200.
Definition multitenantLimitConfigMap : string := "multitenant-config".
Definition multitenantRateLimit : string := "mulitenantLimit".
Definition multitenantDescriptorValue : string := "per-mt-limit".
Definition RateLimitingConfigMapName : string := "ratelimit-config".
Definition RateLimitingConfigMapDataName : string := "apicast-ratelimiting.yaml".
Definition rateLimitImage : string := "registry.redhat.io/rhcl-1/limitador-rhel9@sha256:aff28d76f9cfeefafd6b652e055bb25e1a2bf250e062e3e9b5e54db873f9eeb7".
(** Of pkg/resources/ratelimit *)
Definition RateLimitDomain : string := "apicast-ratelimit".
Definition RateLimitDescriptorValue : string := "slowpath".

(** MaxValue is a uint32 and Seconds a uint64. *)
Record limitadorLimit := mkLimit {
  l_Namespace : string;
  l_MaxValue : Z;
  l_Seconds : Z;
  l_Conditions : list string;
  l_Variables : list string;
}.
#[global] Instance limitadorLimit_eq_dec : EqDecision limitadorLimit.
Proof. solve_decision. Defined.

(** yaml.Marshal and yaml.Unmarshal of a list of limits *)
Class LimitsYaml := {
  limits_Marshal : list limitadorLimit → error + string;
  limits_Unmarshal : string → error + list limitadorLimit;
}.
Class LimitsYamlLaws `{LimitsYaml} :=
  limits_roundtrip : ∀ l s, limits_Marshal l = inr s → limits_Unmarshal s = inr l.

(** The hexadecimal text of sha256.Sum256 *)
Class Sha256 := sha256_hex : string → string.

(** RateLimitServiceReconciler; the pod executor and the config manager are
    kept and not used. *)
Record RateLimitServiceReconciler := mkRLS {
  rls_Namespace : string;
  rls_RedisSecretName : string;
  rls_Installation : RHMI;
  rls_Config : RateLimitConfig;
}.
Definition NewRateLimitServiceReconciler (config : RateLimitConfig) (installation : RHMI)
    (namespace redisSecretName : string) : RateLimitServiceReconciler :=
  mkRLS namespace redisSecretName installation config.

Definition is_multitenant (r : RateLimitServiceReconciler) : bool :=
  IsRHOAMMultitenant (Type_ (Spec (rls_Installation r))).

(** Division of uint32 values *)
Definition getLimitPerTenant (r : RateLimitServiceReconciler) : Z :=
  let limitPerTenant := (RequestsPerUnit (rls_Config r) / possibleTenants)%Z in
  if (limitPerTenant <? 200)%Z then 200%Z else limitPerTenant.

Definition slowpath_condition : string :=
  "descriptors[0]['" +:+ genericKey +:+ "'] == " +:+ dquote +:+ RateLimitDescriptorValue +:+ dquote.
Definition tenant_condition : string := headerMatch +:+ " == " +:+ multitenantDescriptorValue.

Definition getRHOAMLimitadorSetting (r : RateLimitServiceReconciler) : error + list limitadorLimit :=
  match getUnitInSeconds (Unit_ (rls_Config r)) with
  | inl e => inl e
  | inr unitInSeconds =>
      inr [mkLimit RateLimitDomain (RequestsPerUnit (rls_Config r)) unitInSeconds [slowpath_condition] []]
  end.

Definition uniqueKey `{Sha256} (r : RateLimitServiceReconciler) (cfg : RateLimitConfig)
    (currentRateLimit : string) : string :=
  sha256_hex (if negb (is_multitenant r)
              then Unit_ cfg +:+ "/" +:+ itoa (RequestsPerUnit cfg)
              else Unit_ cfg +:+ "/" +:+ itoa (RequestsPerUnit cfg) +:+ "/" +:+ currentRateLimit).

Section limits.
Context {W : Type} `{Client W ConfigMap}.

Definition getLimitPerTenantFromConfigMap (r : RateLimitServiceReconciler) (c : KClient)
    : M W (error + Z) :=
  let m := named (rls_Namespace r) multitenantLimitConfigMap in
  got ← client_get (O := ConfigMap) c (rls_Namespace r) multitenantLimitConfigMap;
  created ← match got with
    | inr cm => mret (inr cm)
    | inl err =>
        if negb (IsNotFound (Some err)) then
          mret (inl (ErrWrap "error when getting the config map " err))
        else
          '(cm, (_, err)) ← CreateOrUpdate c (mkConfigMap m (Some ∅)) (λ cm,
            match cm_Data cm with
            | None => panic "assignment to entry in nil map"
            | Some d => mret (with_cm_Data cm
                (Some (<[multitenantRateLimit := itoa (getLimitPerTenant r)]> d)), None)
            end);
          match err with
          | Some e => mret (inl (ErrWrap "error when creating config map " e))
          | None => mret (inr cm)
          end
    end;
  match created with
  | inl e => mret (inl e)
  | inr cm =>
      let text := omap_get "" (cm_Data cm) multitenantRateLimit in
      match parse_int64 text with
      | None => mret (inl (ErrWrap "error converting limit per tenant value "
                  (ErrStr ("strconv.ParseInt: parsing " +:+ dquote +:+ text +:+ dquote))))
      | Some limitPerTenant =>
          if (limitPerTenant <? 0)%Z || (max_uint32 <? limitPerTenant)%Z then
            mret (inl (ErrStr ("rate limit value " +:+ itoa limitPerTenant
                               +:+ " is out of the valid range for uint32")))
          else mret (inr limitPerTenant)
      end
  end.

Definition getCurrentLimitPerTenant (r : RateLimitServiceReconciler) (c : KClient)
    : M W (error + string) :=
  got ← client_get (O := ConfigMap) c (rls_Namespace r) multitenantLimitConfigMap;
  match got with
  | inl e => mret (inl (ErrWrap "error when getting the config map " e))
  | inr cm => mret (inr (omap_get "" (cm_Data cm) multitenantRateLimit))
  end.

Definition getMultitenantRHOAMLimitadorSetting (r : RateLimitServiceReconciler) (c : KClient)
    : M W (error + list limitadorLimit) :=
  got ← getLimitPerTenantFromConfigMap r c;
  match got with
  | inl e => mret (inl e)
  | inr limitPerTenant =>
      match getUnitInSeconds (Unit_ (rls_Config r)) with
      | inl e => mret (inl e)
      | inr unitInSeconds => mret (inr
          [mkLimit RateLimitDomain (RequestsPerUnit (rls_Config r)) unitInSeconds [slowpath_condition] [];
           mkLimit RateLimitDomain limitPerTenant unitInSeconds [tenant_condition] [headerKey]])
      end
  end.

Definition getLimitadorSetting (r : RateLimitServiceReconciler) (c : KClient)
    : M W (error + list limitadorLimit) :=
  got ← (if negb (is_multitenant r) then mret (getRHOAMLimitadorSetting r)
         else getMultitenantRHOAMLimitadorSetting r c);
  match got with
  | inl e => mret (inl (errorf_v "failed to marshall rate limit config: " (Some e)))
  | inr l => mret (inr l)
  end.

(** The config map the mutate function makes. *)
Definition limits_config_map (text : string) (cm : ConfigMap) : ConfigMap :=
  mkConfigMap
    (SetLabels (Some (<["part-of" := "3scale-saas"]>
       (<["app" := RateLimitName]> (make_if_nil (Labels (cm_meta cm)))))) (cm_meta cm))
    (Some (<[RateLimitingConfigMapDataName := text]> (make_if_nil (cm_Data cm)))).

Definition reconcileConfigMap `{LimitsYaml} (r : RateLimitServiceReconciler) (c : KClient)
    : M W (StatusPhase * option error) :=
  '(_, (_, err)) ← CreateOrUpdate c
    (mkConfigMap (named (rls_Namespace r) RateLimitingConfigMapName) None) (λ cm,
      got ← getLimitadorSetting r c;
      match got with
      | inl e => mret (cm, Some e)
      | inr limits =>
          match limits_Marshal limits with
          | inl e => mret (cm, Some (errorf_v "failed to marshall rate limit config: " (Some e)))
          | inr text => mret (limits_config_map text cm, None)
          end
      end);
  match err with
  | Some e => mret (PhaseFailed, Some e)
  | None => mret (PhaseCompleted, None)
  end.
End limits.

(** The first limit of the config map; an empty list panics.  The error is an
    extra argument of the format, printed with its type, here without. *)
Definition GetRateLimitFromConfig `{LimitsYaml} (c : ConfigMap) : outcome (error + limitadorLimit) :=
  match limits_Unmarshal (omap_get "" (cm_Data c) RateLimitingConfigMapDataName) with
  | inl e => Done (inl (ErrStr ("error unmarshalling ratelimiting config from configmap '"
      +:+ Name (cm_meta c) +:+ "'%!(EXTRA " +:+ error_msg e +:+ ")")))
  | inr [] => Panic "index out of range"
  | inr (l :: _) => Done (inr l)
  end.

(** ** The deployment and the service *)

(** corev1.Service, its ports (name, protocol, port, target port), its
    selector, its address in the cluster and its load balancer *)
Record ServicePort := mkServicePort {
  sp_Name : string; sp_Protocol : string; sp_Port : Z; sp_TargetPort : Z }.
#[global] Instance ServicePort_eq_dec : EqDecision ServicePort.
Proof. solve_decision. Defined.
Record LoadBalancerIngress := mkLoadBalancerIngress { lb_IP : string; lb_Hostname : string }.
#[global] Instance LoadBalancerIngress_eq_dec : EqDecision LoadBalancerIngress.
Proof. solve_decision. Defined.
Record Service := mkFullService {
  svc_meta : ObjectMeta; svc_Ports : list ServicePort; svc_Selector : option (gmap string string);
  svc_Type : string; svc_ClusterIP : string; svc_LoadBalancer : list LoadBalancerIngress }.
(** What a mutate function sets. *)
Definition set_service (m : ObjectMeta) (p : list ServicePort) (sel : option (gmap string string)) (ty : string)
    (s : Service) : Service := mkFullService m p sel ty (svc_ClusterIP s) (svc_LoadBalancer s).
Definition mkService (m : ObjectMeta) (p : list ServicePort) (s : option (gmap string string)) : Service :=
  mkFullService m p s "" "" [].
#[global] Instance Service_eq_dec : EqDecision Service.
Proof. solve_decision. Defined.
#[global] Instance Service_object : K8sObject Service := {|
  meta := svc_meta; set_meta m s := set_service m (svc_Ports s) (svc_Selector s) (svc_Type s) s;
  semantic_deep_equal a b :=
    meta_semantic_eq (svc_meta a) (svc_meta b) && bool_decide (svc_Ports a = svc_Ports b)
    && nil_eq (svc_Selector a) (svc_Selector b) && (svc_Type a =?s svc_Type b)
    && (svc_ClusterIP a =?s svc_ClusterIP b) && bool_decide (svc_LoadBalancer a = svc_LoadBalancer b);
|}.

Definition set_label (k v : string) (m : ObjectMeta) : ObjectMeta :=
  SetLabels (Some (<[k := v]> (make_if_nil (Labels m)))) m.

Section service.
Context {W Q : Type} `{Client W ConfigMap} `{Client W Secret} `{Client W Service} `{OsEnv W}
  `{Quantity Q} `{SemanticDeepEqual (Deployment Q)} `{Client W (Deployment Q)}
  `{LimitsYaml} `{Sha256}.
Context (r : RateLimitServiceReconciler).

Definition status_probe (timeout : Z) : Probe := mkProbe "/status" "http" "HTTP" 5 timeout 10 1 3.

Definition limits_file (currentRateLimit : string) : string :=
  "apicast-ratelimiting-" +:+ uniqueKey r (rls_Config r) currentRateLimit +:+ ".yaml".

Definition ratelimit_env (redis_url limitsFile : string) : list EnvVar :=
  [mkEnvVar "RUST_LOG" "info"; mkEnvVar "REDIS_URL" ("redis://" +:+ redis_url);
   mkEnvVar "LIMITS_FILE" ("/srv/runtime_data/current/config/" +:+ limitsFile)].

(** The first container as the mutate function leaves it. *)
Definition ratelimit_container (envs : list EnvVar) (ct : Container Q) : Container Q :=
  mkContainer RateLimitName rateLimitImage [("/srv/runtime_data/current/config", "runtime-config")]
    [("http", 8080%Z); ("grpc", 8081%Z)] envs (Some (status_probe 2)) (Some (status_probe 5))
    (ct_Resources ct).

(** The assignments of the mutate function, up to the pod template
    mutations.  The template's metadata is replaced as a whole. *)
Definition ratelimit_deployment (redisSecret : Secret) (currentRateLimit : string)
    (d : Deployment Q) : Deployment Q :=
  let limitsFile := limits_file currentRateLimit in
  let envs := ratelimit_env (omap_get "" (sec_Data redisSecret) "URL") limitsFile in
  let t := dp_Template d in
  let containers := match pt_Containers t with
                    | [] => [ratelimit_container envs zero_Container]
                    | ct :: cts => ratelimit_container envs ct :: cts
                    end in
  mkDeployment (set_label "app" RateLimitName (dp_meta d)) (dp_Replicas d)
    {["app" := RateLimitName]} "Recreate"
    (mkPodTemplateFull (Some {["app" := RateLimitName]}) None
       (PriorityClassName (Spec (rls_Installation r)))
       [mkVolume "runtime-config" RateLimitingConfigMapName [(RateLimitingConfigMapDataName, limitsFile)]]
       containers (pt_Affinity t) (pt_TopologySpreadConstraints t)) (dp_Status d).

Definition getRedisSecret (c : KClient) : M W (error + Secret) :=
  client_get c (rls_Namespace r) (rls_RedisSecretName r).

Definition mutate_deployment (redisSecret : Secret) (currentRateLimit : string)
    (productConfig : QuotaProductConfig Q) (d : Deployment Q) : M W (Deployment Q * option error) :=
  let d := ratelimit_deployment redisSecret currentRateLimit d in
  affinity ← reads (MutateMultiAZAntiAffinity "app");
  let '(d, err) := SetPodTemplate
    (AllMutationsOf [MutateZoneTopologySpreadConstraints "app"; affinity]) d in
  match err with
  | Some e => mret (d, Some (ErrWrap "failed to set zone topology spread constraints: " e))
  | None => lift (Configure_deployment productConfig d)
  end.

Definition reconcileDeployment (c : KClient) (productConfig : QuotaProductConfig Q)
    : M W (StatusPhase * option error) :=
  got ← getRedisSecret c;
  match got with
  | inl err =>
      if IsNotFound (Some err) then mret (PhaseAwaitingComponents, None)
      else mret (PhaseFailed, Some err)
  | inr redisSecret =>
      let ns := rls_Namespace r in
      got ← client_get (O := Deployment Q) c ns RateLimitName;
      let '(deployment, err) := match got with
                                | inr d => (d, None)
                                | inl e => (zero_Deployment (named ns RateLimitName), Some e)
                                end in
      if is_some err && negb (IsNotFound err) then mret (PhaseFailed, err)
      else
        current ← (if is_multitenant r then getCurrentLimitPerTenant r c else mret (inr ""));
        let '(currentRateLimit, err) := match current with
                                        | inr limit => (limit, None)
                                        | inl e => ("", Some e)
                                        end in
        if is_some err && negb (IsNotFound err) then mret (PhaseFailed, err)
        else
          '(_, (_, err)) ← CreateOrUpdate c deployment
            (mutate_deployment redisSecret currentRateLimit productConfig);
          match err with
          | Some e => mret (PhaseFailed, Some e)
          | None => mret (PhaseCompleted, None)
          end
  end.

Definition ratelimit_ports : list ServicePort :=
  [mkServicePort "http" "TCP" 8080 8080; mkServicePort "grpc" "TCP" 8081 8081].

Definition reconcileService (c : KClient) : M W (StatusPhase * option error) :=
  '(_, (_, err)) ← CreateOrUpdate c
    (mkService (named (rls_Namespace r) RateLimitName) [] None)
    (λ s, mret (set_service (set_label "app" RateLimitName (svc_meta s)) ratelimit_ports
                  (Some {["app" := RateLimitName]}) (svc_Type s) s, None));
  match err with
  | Some e => mret (PhaseFailed, Some e)
  | None => mret (PhaseCompleted, None)
  end.

Definition ReconcileRateLimitService (c : KClient) (productConfig : QuotaProductConfig Q)
    : M W (StatusPhase * option error) :=
  '(phase, err) ← reconcileConfigMap r c;
  match err with
  | Some _ => mret (phase, err)
  | None =>
      '(phase, err) ← reconcileDeployment c productConfig;
      if negb (phase =?s PhaseCompleted) then mret (phase, err)
      else
        '(phase, err) ← reconcileService c;
        if negb (phase =?s PhaseCompleted) then mret (phase, err)
        else mret (PhaseCompleted, None)
  end.
End service.

(** ** Facts *)

Lemma getUnitInSeconds_inverse u s : getUnitInSeconds u = inr s ↔ GetSecondsInUnit s = inr u.
Proof.
  unfold getUnitInSeconds, GetSecondsInUnit. split.
  - repeat (destruct (_ =?s _) eqn:?; [intros [= <-]; apply str_eqb_true in Heqb; by subst|]).
    all: try (clear Heqb); intros; repeat case_match; simplify_eq; try done;
      repeat match goal with H : (_ =?s _) = true |- _ => apply str_eqb_true in H end; by subst.
  - intros Hs. repeat case_match; simplify_eq;
      repeat match goal with H : (_ =? _)%Z = true |- _ => apply Z.eqb_eq in H end; by subst.
Qed.

(** The tenants together may use at most the quota, or 40000 requests when
    the quota is smaller than that. *)
Lemma getLimitPerTenant_bounds r :
  (0 ≤ RequestsPerUnit (rls_Config r) ≤ max_uint32)%Z →
  (200 ≤ getLimitPerTenant r ≤ max_uint32)%Z
  ∧ (possibleTenants * getLimitPerTenant r ≤ Z.max 40000 (RequestsPerUnit (rls_Config r)))%Z.
Proof.
  unfold getLimitPerTenant, possibleTenants, max_uint32. intros Hr.
  pose proof (Z.mul_div_le (RequestsPerUnit (rls_Config r)) 200 ltac:(lia)).
  pose proof (Z.div_le_upper_bound (RequestsPerUnit (rls_Config r)) 200 4294967295).
  destruct (Z.ltb_spec (RequestsPerUnit (rls_Config r) / 200) 200); lia.
Qed.

Section limit_facts.
Context {W : Type} `{Client W ConfigMap}.

Lemma getLimitPerTenantFromConfigMap_range r c (w w' : W) n :
  getLimitPerTenantFromConfigMap r c w = (Done (inr n), w') → (0 ≤ n ≤ max_uint32)%Z.
Proof.
  unfold getLimitPerTenantFromConfigMap. intros Hg.
  apply bind_done_inv in Hg as (got & w1 & _ & Hg).
  apply bind_done_inv in Hg as ([e|cm] & w2 & _ & Hg); [go_inv|].
  destruct (parse_int64 _); [|go_inv]. destruct (_ || _) eqn:E; go_inv. lia.
Qed.

(** What the limits of a type look like. *)
Lemma getLimitadorSetting_ok r c (w w' : W) l :
  getLimitadorSetting r c w = (Done (inr l), w') →
  ∃ secs rest, getUnitInSeconds (Unit_ (rls_Config r)) = inr secs
    ∧ l = mkLimit RateLimitDomain (RequestsPerUnit (rls_Config r)) secs [slowpath_condition] [] :: rest
    ∧ if is_multitenant r
      then ∃ n, (0 ≤ n ≤ max_uint32)%Z
           ∧ rest = [mkLimit RateLimitDomain n secs [tenant_condition] [headerKey]]
      else rest = [] ∧ w' = w.
Proof.
  unfold getLimitadorSetting, getMultitenantRHOAMLimitadorSetting, getRHOAMLimitadorSetting.
  destruct (is_multitenant r); cbn [negb]; intros Hg.
  - apply bind_done_inv in Hg as ([e|l'] & w1 & Hg & Hm); rewrite run_ret in Hm; simplify_eq.
    apply bind_done_inv in Hg as ([e|n] & w1 & Hn & Hm); [go_inv|].
    apply getLimitPerTenantFromConfigMap_range in Hn.
    destruct (getUnitInSeconds _) as [e|secs]; go_inv. eauto 10.
  - destruct (getUnitInSeconds _) as [e|secs]; go_inv. eauto 10.
Qed.
End limit_facts.


(** The deployment of the rate limit service, as it is sent to the
    server: its container is told to read the file under which the pod
    mounts exactly the key of the config map that reconcileConfigMap writes,
    its pods repel each other by zone and node (as a requirement only when the
    environment asks for it), and it has at least the replicas, cpu and
    memory the quota gives.  The world is only read. *)
Theorem mutate_deployment_spec {W Q} `{OsEnv W} `{QuantityLaws Q} `{Sha256}
    (r : RateLimitServiceReconciler) secret current (p : QuotaProductConfig Q) d d' (w w' : W) :
  Name (dp_meta d) = RateLimitName →
  mutate_deployment r secret current p d w = (Done (d', None), w') →
  let t := dp_Template d' in
  w' = w
  ∧ (∃ ct cts dir volume path,
       pt_Containers t = ct :: cts
       ∧ mkEnvVar "LIMITS_FILE" (dir +:+ "/" +:+ path) ∈ ct_Env ct
       ∧ (dir, volume) ∈ ct_VolumeMounts ct
       ∧ mkVolume volume RateLimitingConfigMapName [(RateLimitingConfigMapDataName, path)] ∈ pt_Volumes t)
  ∧ pt_Affinity t = Some (SelectAntiAffinityForCluster (IsAntiAffinityRequired w).1
                            {["app" := RateLimitName]})
  ∧ pt_Labels t = Some (dp_Selector d')
  ∧ (∃ n, dp_Replicas d' = Some n ∧ (Replicas (resource_config p RateLimitName) ≤ n)%Z)
  ∧ Forall (λ ct, rr_at_least (ct_Resources ct) (Resources (resource_config p RateLimitName)))
      (pt_Containers t).
Proof.
  intros Hname. unfold mutate_deployment. rewrite bind_reads.
  unfold SetPodTemplate, AllMutationsOf, MutateZoneTopologySpreadConstraints, MutateMultiAZAntiAffinity.
  cbn -[Configure_deployment ratelimit_container limits_file ratelimit_env].
  destruct (IsAntiAffinityRequired w) as [req err] eqn:Hreq.
  rewrite lookup_insert_eq. cbn -[Configure_deployment ratelimit_container limits_file ratelimit_env].
  rewrite lookup_insert_eq. cbn -[Configure_deployment ratelimit_container limits_file ratelimit_env].
  unfold lift. intros [= Hc <-].
  apply Configure_deployment_spec in Hc as (_ & Hrep & Hres & Hcts & Hm & Hsel & _ & Ht).
  pose proof (f_equal pt_Volumes Ht) as Hvol. pose proof (f_equal pt_Affinity Ht) as Haff.
  pose proof (f_equal pt_Labels Ht) as Hlab. clear Ht.
  cbn in Hrep, Hres, Hsel, Hvol, Haff, Hlab. rewrite Hname in *.
  split; [done|]. split_and!; [| | |done|done].
  - cbn [dp_Template pt_Containers] in Hcts.
    destruct (pt_Containers (dp_Template d)); cbn in Hcts;
      destruct (pt_Containers (dp_Template d')) as [|ct cts]; try discriminate Hcts;
      injection Hcts as Hct _;
      (exists ct, cts, "/srv/runtime_data/current/config", "runtime-config", (limits_file r current));
      destruct ct; unfold set_ct_Resources in Hct; simplify_eq/=;
      (split_and!; [done|set_solver|set_solver|]); rewrite Hvol; set_solver.
  - rewrite Haff.
    unfold IsAntiAffinityRequired in Hreq. destruct (LookupEnv _ _); [|by simplify_eq].
    destruct (parse_bool _); by simplify_eq.
  - by rewrite Hlab, Hsel.
Qed.
