(* ===== verification/Cro.v ===== *)
(** * Cloud resources

    The resource kinds of the cloud resource operator, its client helper for
    Redis (vendored), and what pkg/resources reads of them:
    waitForResources.go, redis.go, integreatlyOwner.go. *)

From stdpp Require Import base list strings gmap.
From Stdlib Require Import ZArith.
From S2P Require Import Prelude Kube Api Resources.

(** ** Kinds *)

(** The specs of crov1.Postgres and crov1.Redis: what the operator and the
    helpers below set. *)
Record CroSpec := mkCroSpec {
  cro_Type : string;
  cro_Tier : string;
  cro_SpecSecretRef : option (string * string);
  cro_Size : string;
  cro_Engine : string;
  cro_EngineVersion : string;
  cro_ApplyImmediately : bool;
  cro_MaintenanceWindow : bool;
}.
#[global] Instance CroSpec_eq_dec : EqDecision CroSpec.
Proof. solve_decision. Defined.
Definition zero_CroSpec : CroSpec := mkCroSpec "" "" None "" "" "" false false.

(** Of the status, the phase, the strategy, and name and namespace of the
    secret. *)
Record Postgres := mkPostgres {
  pg_meta : ObjectMeta;
  pg_Spec : CroSpec;
  pg_Phase : string;
  pg_Strategy : string;
  pg_SecretRef : option (string * string);
}.
#[global] Instance Postgres_eq_dec : EqDecision Postgres.
Proof. solve_decision. Defined.
#[global] Instance Postgres_object : K8sObject Postgres := {|
  meta := pg_meta;
  set_meta m p := mkPostgres m (pg_Spec p) (pg_Phase p) (pg_Strategy p) (pg_SecretRef p);
  semantic_deep_equal a b := bool_decide (a = b);
|}.

Record Redis := mkRedis {
  rd_meta : ObjectMeta;
  rd_Spec : CroSpec;
  rd_Phase : string;
  rd_Strategy : string;
  rd_SecretRef : option (string * string);
}.
#[global] Instance Redis_eq_dec : EqDecision Redis.
Proof. solve_decision. Defined.
#[global] Instance Redis_object : K8sObject Redis := {|
  meta := rd_meta;
  set_meta m r := mkRedis m (rd_Spec r) (rd_Phase r) (rd_Strategy r) (rd_SecretRef r);
  semantic_deep_equal a b := bool_decide (a = b);
|}.

Record BlobStorage := mkBlobStorage {
  bs_meta : ObjectMeta;
  bs_Spec : CroSpec;
  bs_Phase : string;
  bs_SecretRef : option (string * string);
}.
#[global] Instance BlobStorage_eq_dec : EqDecision BlobStorage.
Proof. solve_decision. Defined.
#[global] Instance BlobStorage_object : K8sObject BlobStorage := {|
  meta := bs_meta;
  set_meta m b := mkBlobStorage m (bs_Spec b) (bs_Phase b) (bs_SecretRef b);
  semantic_deep_equal a b := bool_decide (a = b);
|}.

(** croTypes.PhaseComplete and croTypes.EngineValkey *)
Definition CroPhaseComplete : string := "complete".
Definition EngineValkey : string := "valkey".
Definition TierProduction : string := "production".

Definition RateLimitRedisPrefix : string := "ratelimit-service-redis-".
Definition RHSSOPostgresPrefix : string := "rhsso-postgres-".
Definition RHSSOUserProstgresPrefix : string := "rhssouser-postgres-".
Definition ThreeScaleBackendRedisPrefix : string := "threescale-backend-redis-".
Definition ThreeScaleSystemRedisPrefix : string := "threescale-redis-".
Definition ThreeScalePostgresPrefix : string := "threescale-postgres-".
Definition ThreeScaleBlobStoragePrefix : string := "threescale-blobstorage-".
Definition PostgresApplyImmediately : bool := true.

(** ** Network strategies

    encoding/json on a map from tiers to TierCreateStrategy, of each the CIDR
    block; a null tier is a nil pointer.  A failed Unmarshal leaves what it
    had read. *)
Class NetworkJson := {
  network_Unmarshal : string → option (gmap string (option string)) * option error;
  network_Marshal : gmap string (option string) → error + string;
  (** the JSON patch of one operation *)
  patch_Marshal : string → string → string → error + string;
}.
Class NetworkJsonLaws `{NetworkJson} :=
  network_roundtrip : ∀ m s, network_Marshal m = inr s → network_Unmarshal s = (Some m, None).

(** croAWS.DefaultConfigMapName *)
Definition DefaultConfigMapName : string := "cloud-resources-aws-strategies".

(** ** integreatlyOwner.go *)

Definition IntegreatlyOwnerNamespace : string := "integreatly-namespace".
Definition IntegreatlyOwnerName : string := "integreatly-name".

Definition AddIntegreatlyOwnerAnnotations {O} `{K8sObject O} (obj : O) (owner : RHMI) : O :=
  let ant := make_if_nil (Annotations (meta obj)) in
  set_meta (SetAnnotations (Some (<[IntegreatlyOwnerNamespace := Namespace (rhmi_meta owner)]>
    (<[IntegreatlyOwnerName := Name (rhmi_meta owner)]> ant))) (meta obj)) obj.

(** ** Reading and requesting cloud resources *)

Section cro.
Context {W : Type} `{Client W Postgres} `{Client W Redis}.

Definition WaitForRHSSOPostgresToBeComplete (c : KClient) (installName installNamespace : string)
    : M W (StatusPhase * option error) :=
  got ← client_get (O := Postgres) c installNamespace (RHSSOPostgresPrefix +:+ installName);
  match got with
  | inl _ => mret (PhaseAwaitingComponents, None)
  | inr postgres =>
      if pg_Phase postgres =?s CroPhaseComplete then mret (PhaseCompleted, None)
      else mret (PhaseAwaitingComponents, None)
  end.

(** The engine and its version. *)
Definition RedisEngineForReconcile (c : KClient) (name namespace : string)
    : M W (error + string * string) :=
  got ← client_get (O := Redis) c namespace name;
  match got with
  | inl err => if IsNotFound (Some err) then mret (inr (EngineValkey, "")) else mret (inl err)
  | inr existing => mret (inr (cro_Engine (rd_Spec existing), cro_EngineVersion (rd_Spec existing)))
  end.

(** ReconcileRedis of the cloud resource operator's client.  The modify
    function is applied to the literal, not to what the server has. *)
Definition croUtil_ReconcileRedis (c : KClient)
    (productName deploymentType tier name ns secretName secretNs size engine engineVersion : string)
    (applyImmediately maintenanceWindow : bool) (modify : Redis → Redis) : M W (error + Redis) :=
  let r := modify (mkRedis (SetLabels (Some {["productName" := productName]}) (named ns name))
                     zero_CroSpec "" "" None) in
  '(r, (_, err)) ← CreateOrUpdate c r (λ r,
    mret (mkRedis (rd_meta r)
            (mkCroSpec deploymentType tier (Some (secretName, secretNs)) size engine engineVersion
               applyImmediately maintenanceWindow)
            (rd_Phase r) (rd_Strategy r) (rd_SecretRef r), None));
  match err with
  | Some e => mret (inl (ErrWrap ("failed to reconcile redis request for " +:+ name +:+ ": ") e))
  | None => mret (inr r)
  end.

(** ReconcilePostgres of the client; the snapshot durations are left empty by
    the callers. *)
Definition croUtil_ReconcilePostgres (c : KClient)
    (productName deploymentType tier name ns secretName secretNs : string) (applyImmediately : bool)
    (modify : Postgres → Postgres) : M W (error + Postgres) :=
  '(p, (_, err)) ← CreateOrUpdate c (modify (mkPostgres (named ns name) zero_CroSpec "" "" None)) (λ p,
    let sp := pg_Spec p in
    mret (mkPostgres (SetLabels (Some {["productName" := productName]}) (pg_meta p))
            (mkCroSpec deploymentType tier (Some (secretName, secretNs)) (cro_Size sp) (cro_Engine sp)
               (cro_EngineVersion sp) applyImmediately (cro_MaintenanceWindow sp))
            (pg_Phase p) (pg_Strategy p) (pg_SecretRef p), None));
  match err with
  | Some e => mret (inl (ErrWrap ("failed to reconcile postgres request for " +:+ name +:+ ": ") e))
  | None => mret (inr p)
  end.

(** ReconcileBlobStorage of the client. *)
Definition croUtil_ReconcileBlobStorage `{Client W BlobStorage} (c : KClient)
    (productName deploymentType tier name ns secretName secretNs : string)
    (modify : BlobStorage → BlobStorage) : M W (error + BlobStorage) :=
  let b := modify (mkBlobStorage (SetLabels (Some {["productName" := productName]}) (named ns name))
                     zero_CroSpec "" None) in
  '(b, (_, err)) ← CreateOrUpdate c b (λ b,
    let sp := bs_Spec b in
    mret (mkBlobStorage (bs_meta b)
            (mkCroSpec deploymentType tier (Some (secretName, secretNs)) (cro_Size sp) (cro_Engine sp)
               (cro_EngineVersion sp) (cro_ApplyImmediately sp) (cro_MaintenanceWindow sp))
            (bs_Phase b) (bs_SecretRef b), None));
  match err with
  | Some e => mret (inl (ErrWrap ("failed to reconcile blob storage request for " +:+ name +:+ ": ") e))
  | None => mret (inr b)
  end.
End cro.
