(* ===== verification/Envoy.v ===== *)
(** * Envoy sidecars and their configuration (pkg/resources/ratelimit)

    envoy.go and envoyconfig.go.  Messages are trees; their serialisation is a
    parameter. *)

From stdpp Require Import base list strings gmap.
From Stdlib Require Import ZArith Lia.
From S2P Require Import Prelude Kube Api Resources Olm Quota Pods RateLimit Cro.

(** ** Messages

    A protobuf message: its type, and the fields that are set, by the names
    their Go structures have. *)
Inductive proto :=
  | PText (s : string)
  | PNumber (z : Z)
  | PFlag (b : bool)
  | PEnum (name : string)
  | PDuration (seconds : Z)
  | PRepeated (l : list proto)
  | PMap (l : list (string * proto))
  | PMessage (type : string) (fields : list (string * proto)).

Definition set_fields (p : proto) : list (string * proto) :=
  match p with PMessage _ fields => fields | _ => [] end.
Definition field (name : string) (p : proto) : option proto :=
  snd <$> List.find (λ f, f.1 =?s name) (set_fields p).
Definition with_field (name : string) (v p : proto) : proto :=
  match p with PMessage type fields => PMessage type (fields ++ [(name, v)]) | p => p end.
Definition text (p : proto) : string := match p with PText s => s | _ => "" end.
Definition message_Name (p : proto) : string := match field "Name" p with Some n => text n | None => "" end.

(** protojson.Marshal, yaml.JSONToYAML, and anypb.New with what unpacks its
    result. *)
Class Protobuf := {
  protojson_Marshal : proto → error + string;
  JSONToYAML : string → error + string;
  anypb_New : proto → error + proto;
  anypb_Unmarshal : proto → option proto;
}.
Class ProtobufLaws `{Protobuf} :=
  anypb_roundtrip : ∀ m a, anypb_New m = inr a → anypb_Unmarshal a = Some m.
Definition ResourcesToJSON `{Protobuf} (pb : proto) : error + string := protojson_Marshal pb.

(** A Go int turned into a uint32. *)
Definition socket_address (address : string) (port : Z) : proto :=
  PMessage "core.Address" [("SocketAddress", PMessage "core.SocketAddress"
    [("Address", PText address); ("Protocol", PEnum "TCP"); ("PortValue", PNumber (wrap_u32 port))])].

Definition CreateClusterResource (containerAddress clusterName : string) (containerPort : Z) : proto :=
  PMessage "cluster.Cluster"
    [("Name", PText clusterName); ("ConnectTimeout", PDuration 2); ("Type", PEnum "STRICT_DNS");
     ("LbPolicy", PEnum "ROUND_ROBIN");
     ("LoadAssignment", PMessage "endpoint.ClusterLoadAssignment"
        [("ClusterName", PText clusterName);
         ("Endpoints", PRepeated [PMessage "endpoint.LocalityLbEndpoints"
            [("LbEndpoints", PRepeated [PMessage "endpoint.LbEndpoint"
               [("Endpoint", PMessage "endpoint.Endpoint"
                   [("Address", socket_address containerAddress containerPort)])]])]])])].
Definition CreateListenerResource (listenerName listenerAddress : string) (listenerPort : Z)
    (filters : list proto) : proto :=
  PMessage "listener.Listener"
    [("Name", PText listenerName); ("Address", socket_address listenerAddress listenerPort);
     ("FilterChains", PRepeated [PMessage "listener.FilterChain" [("Filters", PRepeated filters)]])].
(** A structure of one flag can always be made. *)
Definition CreateRuntimesResource : proto :=
  PMessage "runtime.Runtime"
    [("Name", PText "runtime");
     ("Layer", PMap [("envoy.reloadable_features.sanitize_http_header_referer", PFlag false)])].
Definition CreateTypedExtensionProtocol `{Protobuf} : error + proto :=
  anypb_New (PMessage "http.HttpProtocolOptions"
    [("ExplicitHttpConfig", PMessage "http.ExplicitHttpConfig" [("Http2ProtocolOptions", PMessage "" [])])]).
Definition CreateApicastTransportSocketConfig `{Protobuf} : error + proto :=
  anypb_New (PMessage "tls.UpstreamTlsContext"
    [("CommonTlsContext", PMessage "tls.CommonTlsContext"
        [("ValidationContext", PMessage "tls.CertificateValidationContext"
            [("TrustChainVerification", PEnum "ACCEPT_UNTRUSTED")])])]).

(** marin3rv1alpha1.EnvoyResource and EnvoyConfig *)
Record EnvoyResource := mkEnvoyResource { er_Name : string; er_Value : string }.
#[global] Instance EnvoyResource_eq_dec : EqDecision EnvoyResource.
Proof. solve_decision. Defined.
Record EnvoyConfigCR := mkEnvoyConfigCR {
  ec_meta : ObjectMeta;
  ec_NodeID : string;
  ec_EnvoyAPI : option string;
  ec_Serialization : option string;
  ec_Clusters : list EnvoyResource;
  ec_Listeners : list EnvoyResource;
  ec_Runtimes : list EnvoyResource;
}.
#[global] Instance EnvoyConfigCR_eq_dec : EqDecision EnvoyConfigCR.
Proof. solve_decision. Defined.
#[global] Instance EnvoyConfigCR_object : K8sObject EnvoyConfigCR := {|
  meta := ec_meta;
  set_meta m e := mkEnvoyConfigCR m (ec_NodeID e) (ec_EnvoyAPI e) (ec_Serialization e)
                    (ec_Clusters e) (ec_Listeners e) (ec_Runtimes e);
  semantic_deep_equal a b := bool_decide (a = b);
|}.

Section envoyconfig.
Context {W : Type} `{Client W EnvoyConfigCR}.

(** The loop of deletions; a missing config is ignored. *)
Fixpoint delete_envoy_configs (c : KClient) (namespace : string) (items : list EnvoyConfigCR)
    : M W (option error) :=
  match items with
  | [] => mret None
  | envoyConfig :: items =>
      err ← client_delete c envoyConfig;
      match err with
      | Some e =>
          if IsNotFound (Some e) then delete_envoy_configs c namespace items
          else mret (Some (errorf_v ("failed to delete envoyconfig for namespace " +:+ namespace +:+ ": ")
                             (Some e)))
      | None => delete_envoy_configs c namespace items
      end
  end.

Definition DeleteEnvoyConfigsInNamespace (c : KClient) (namespace : string)
    : M W (StatusPhase * option error) :=
  ls ← client_list (O := EnvoyConfigCR) c (InNamespace namespace);
  match ls with
  | inl e => mret (PhaseFailed, Some e)
  | inr [] => mret (PhaseCompleted, None)
  | inr items =>
      err ← delete_envoy_configs c namespace items;
      match err with
      | Some e => mret (PhaseFailed, Some e)
      | None => mret (PhaseInProgress, None)
      end
  end.

Fixpoint delete_in_namespaces (c : KClient) (phase : StatusPhase) (namespaces : list string)
    : M W (StatusPhase * option error) :=
  match namespaces with
  | [] => mret (phase, None)
  | namespace :: namespaces =>
      '(nsPhase, err) ← DeleteEnvoyConfigsInNamespace c namespace;
      match err with
      | Some e => mret (PhaseFailed, Some e)
      | None => delete_in_namespaces c (if phase =?s PhaseCompleted then nsPhase else phase) namespaces
      end
  end.
Definition DeleteEnvoyConfigsInNamespaces (c : KClient) (namespaces : list string)
    : M W (StatusPhase * option error) := delete_in_namespaces c PhaseCompleted namespaces.

(** NewEnvoyConfig *)
Record EnvoyConfig := mkEnvoyConfig { ecf_name : string; ecf_namespace : string; ecf_nodeID : string }.
Context `{Protobuf}.

Definition convert_resource (what how : string) (r : proto) : error + EnvoyResource :=
  match ResourcesToJSON r with
  | inl e => inl (errorf_v ("failed to convert envoy rate limiting " +:+ what
                            +:+ " configuration to JSON ") (Some e))
  | inr json =>
      match JSONToYAML json with
      | inl e => inl (errorf_v ("failed to convert envoy rate limiting " +:+ how
                                +:+ " JSON configuration to YAML ") (Some e))
      | inr yaml => inr (mkEnvoyResource (message_Name r) yaml)
      end
  end.
Fixpoint convert_resources (what how : string) (l : list proto) : error + list EnvoyResource :=
  match l with
  | [] => inr []
  | r :: l =>
      match convert_resource what how r with
      | inl e => inl e
      | inr x => match convert_resources what how l with inl e => inl e | inr xs => inr (x :: xs) end
      end
  end.

Definition CreateEnvoyConfig (ec : EnvoyConfig) (c : KClient) (clusterResources listenerResources : list proto)
    (runtimes : proto) (installation : RHMI) : M W (option error) :=
  match convert_resources "cluster" "cluster" clusterResources with
  | inl e => mret (Some e)
  | inr clusters =>
      match convert_resources "listeners" "listener" listenerResources with
      | inl e => mret (Some e)
      | inr listeners =>
          match convert_resource "runtimes" "runtimes" runtimes with
          | inl e => mret (Some e)
          | inr runtime =>
              '(_, (_, err)) ← CreateOrUpdate c
                (mkEnvoyConfigCR (named (ecf_namespace ec) (ecf_name ec)) "" None None [] [] [])
                (λ e, let e := AddIntegreatlyOwnerAnnotations e installation in
                      mret (mkEnvoyConfigCR (ec_meta e) (ecf_nodeID ec) (Some "v3") (Some "yaml")
                              clusters listeners [runtime], None));
              mret (match err with
                    | Some _ => Some (errorf_v "failed to create envoy config CR " err)
                    | None => None
                    end)
          end
      end
  end.
End envoyconfig.

(** ** envoy.go *)

Definition EnvoyImage : string := "registry.redhat.io/openshift-service-mesh/proxyv2-rhel9:2.6.12-1767872298".

Section envoy.
Context {W Q : Type} `{SemanticDeepEqual (Deployment Q)} `{Client W (Deployment Q)} `{Client W Service}.

(** getDeployment and getService *)
Definition get_component {O} `{Client W O} (c : KClient) (name namespace : string)
    : M W (option O * (StatusPhase * option error)) :=
  got ← client_get (O := O) c namespace name;
  match got with
  | inl err => if IsNotFound (Some err) then mret (None, (PhaseAwaitingComponents, None))
               else mret (None, (PhaseFailed, Some err))
  | inr o => mret (Some o, (PhaseInProgress, None))
  end.

Definition marin3r_annotations (envoyNodeID : string) (svcProxyPort : Z) (a : gmap string string)
    : gmap string string :=
  <["marin3r.3scale.net/resources.requests.memory" := "90Mi"]>
  (<["marin3r.3scale.net/resources.requests.cpu" := "190m"]>
  (<["marin3r.3scale.net/envoy-image" := EnvoyImage]>
  (<["marin3r.3scale.net/envoy-api-version" := "v3"]>
  (<["marin3r.3scale.net/ports" := "envoy-https:" +:+ itoa svcProxyPort]>
  (<["marin3r.3scale.net/node-id" := envoyNodeID]> a))))).

Definition with_sidecar (envoyNodeID : string) (svcProxyPort : Z) (t : PodTemplate Q) : PodTemplate Q :=
  mkPodTemplateFull
    (Some (<["marin3r.3scale.net/status" := "enabled"]> (make_if_nil (pt_Labels t))))
    (Some (marin3r_annotations envoyNodeID svcProxyPort (make_if_nil (pt_Annotations t))))
    (pt_PriorityClassName t) (pt_Volumes t) (pt_Containers t) (pt_Affinity t)
    (pt_TopologySpreadConstraints t).

(** The error of a failed update prints the whole deployment, left out here. *)
Definition patchDeployment (c : KClient) (deploymentName namespace envoyNodeID : string)
    (svcProxyPort : Z) : M W (StatusPhase * option error) :=
  '(deployment, (phase, err)) ← get_component (O := Deployment Q) c deploymentName namespace;
  match err with
  | Some e => mret (PhaseFailed, Some (ErrWrap ("failed to get " +:+ deploymentName
                +:+ " deployment on namespace " +:+ namespace +:+ " : ") e))
  | None =>
      match deployment with
      | None => mret (phase, None)
      | Some d =>
          r ← client_update c (set_dp_Template (with_sidecar envoyNodeID svcProxyPort (dp_Template d)) d);
          match r with
          | inl e => mret (PhaseFailed,
              Some (errorf_v "failed to apply MARIN3R labels to deployment: " (Some e)))
          | inr _ => mret (PhaseCompleted, None)
          end
      end
  end.

(** The first port of that name is changed; the port is an int32. *)
Fixpoint set_port (portName : string) (svcPort : Z) (ports : list ServicePort) : list ServicePort :=
  match ports with
  | [] => []
  | p :: ports =>
      if sp_Name p =?s portName
      then mkServicePort (sp_Name p) (sp_Protocol p) (wrap_i32 svcPort) (wrap_i32 svcPort) :: ports
      else p :: set_port portName svcPort ports
  end.

Definition patchService (c : KClient) (svcName namespace portName : string) (svcPort : Z)
    : M W (StatusPhase * option error) :=
  '(service, (phase, err)) ← get_component (O := Service) c svcName namespace;
  match err with
  | Some e => mret (PhaseFailed, Some e)
  | None =>
      match service with
      | None => mret (phase, None)
      | Some s =>
          r ← client_update c (set_service (svc_meta s) (set_port portName svcPort (svc_Ports s)) (svc_Selector s) (svc_Type s) s);
          match r with
          | inl e => mret (PhaseFailed, Some (errorf_v ("failed to update " +:+ svcName
                       +:+ " service to forward requests to proxy server: ") (Some e)))
          | inr _ => mret (PhaseCompleted, None)
          end
      end
  end.

Definition CreateEnvoyProxyContainer (c : KClient)
    (deploymentName namespace envoyNodeID svcProxyName svcProxyPortName : string) (svcProxyPort : Z)
    : M W (StatusPhase * option error) :=
  '(phase, err) ← patchDeployment c deploymentName namespace envoyNodeID svcProxyPort;
  match err with
  | Some _ => mret (phase, err)
  | None =>
      '(phase, err) ← patchService c svcProxyName namespace svcProxyPortName svcProxyPort;
      mret (phase, err)
  end.
End envoy.

(** ** Facts *)

Section envoy_facts.
Context {W : Type} `{Client W EnvoyConfigCR}.

(** The clean-up of several namespaces is complete only when it found no
    config in any of them. *)
Lemma delete_in_namespaces_completed c phase namespaces (w w' : W) err :
  delete_in_namespaces c phase namespaces w = (Done (PhaseCompleted, err), w') →
  err = None ∧ phase = PhaseCompleted
  ∧ Forall (λ ns, ∃ w1 w2, client_list (O := EnvoyConfigCR) c (InNamespace ns) w1
                           = (Done (inr []), w2)) namespaces.
Proof.
  revert phase w. induction namespaces as [|ns namespaces IH]; intros phase w Hd;
    cbn [delete_in_namespaces] in Hd; [by go_inv|].
  apply bind_done_inv in Hd as ([nsPhase [e|]] & w1 & Hn & Hd); [go_inv|].
  apply IH in Hd as (-> & Hp & Hf).
  destruct (phase =?s PhaseCompleted) eqn:E.
  - apply str_eqb_true in E as ->. split; [done|]. split; [done|]. constructor; [|done].
    subst nsPhase. unfold DeleteEnvoyConfigsInNamespace in Hn.
    apply bind_done_inv in Hn as ([e|[|x items]] & w2 & Hl & Hn); [go_inv|eauto|].
    apply bind_done_inv in Hn as ([e|] & w3 & _ & Hn); go_inv.
  - by subst phase.
Qed.
End envoy_facts.
