(* ===== verification/Config.v ===== *)
(** * Product configuration (pkg/config)

    Each product keeps its settings as a string map, stored as YAML under the
    product's name in the installation config map.  The manager reads and
    writes that map; the product types give its keys names. *)

From stdpp Require Import base list strings gmap.
From Stdlib Require Import ZArith Lia.
From S2P Require Import Prelude Kube Api Resources Quota.

(** A Go map made by readConfigForProduct, so never nil. *)
Abbreviation ProductConfig := (gmap string string) (only parsing).

Definition cfg_get (c : ProductConfig) (k : string) : string := map_get "" c k.

(** ConfigReadable, the interface the manager stores configs through. *)
Class ConfigReadable (C : Type) := {
  Read : C → ProductConfig;
  GetProductName : C → ProductName;
  GetProductVersion : C → string;
  GetOperatorVersion : C → string;
  GetHost : C → string;
  GetWatchableCRDs : C → list GVK;
  GetNamespace : C → string;
}.

(** ** threescale.go *)
Module ThreeScale.
Record t := New { config : ProductConfig }.
Definition GetWatchableCRDs (_ : t) : list GVK :=
  [mkGVK "apps.3scale.net" "v1alpha1" "APIManager"].
Definition GetHost (c : t) : string := cfg_get (config c) "HOST".
Definition SetHost (c : t) (v : string) : t := New (<["HOST" := v]> (config c)).
Definition GetBlackboxTargetPathForAdminUI (c : t) : string :=
  cfg_get (config c) "BLACKBOX_TARGET_PATH_ADMIN_UI".
Definition SetBlackboxTargetPathForAdminUI (c : t) (v : string) : t :=
  New (<["BLACKBOX_TARGET_PATH_ADMIN_UI" := v]> (config c)).
Definition GetNamespace (c : t) : string := cfg_get (config c) "NAMESPACE".
Definition SetNamespace (c : t) (v : string) : t := New (<["NAMESPACE" := v]> (config c)).
Definition GetOperatorNamespace (c : t) : string := cfg_get (config c) "OPERATOR_NAMESPACE".
Definition SetOperatorNamespace (c : t) (v : string) : t :=
  New (<["OPERATOR_NAMESPACE" := v]> (config c)).
Definition GetLabelSelector (_ : t) : string := "middleware".
Definition Read (c : t) : ProductConfig := config c.
Definition GetProductName (_ : t) : ProductName := Product3Scale.
Definition GetProductVersion (c : t) : string := cfg_get (config c) "VERSION".
Definition GetOperatorVersion (c : t) : string := cfg_get (config c) "OPERATOR".
Definition SetOperatorVersion (c : t) (v : string) : t := New (<["OPERATOR" := v]> (config c)).
Definition SetProductVersion (c : t) (v : string) : t := New (<["VERSION" := v]> (config c)).

Definition Validate (c : t) : option error :=
  if GetNamespace c =?s "" then Some (ErrStr "config namespace is not defined")
  else if GetProductName c =?s "" then Some (ErrStr "config product name is not defined")
  else if GetHost c =?s "" then Some (ErrStr "config host is not defined")
  else None.

(** setDefaultNumberOfReplicas: every key gets the default. *)
Definition setDefaultNumberOfReplicas (n : Z) (m : gmap string Z) : gmap string Z :=
  (λ _, n) <$> m.

Definition base_replicas : gmap string Z := list_to_map [
  ("systemApp", 3%Z); ("systemSidekiq", 3%Z); ("apicastProd", 3%Z); ("apicastStage", 3%Z);
  ("backendListener", 3%Z); ("backendWorker", 3%Z); ("backendCron", 1%Z);
  ("zyncApp", 3%Z); ("zyncQue", 3%Z)].

Definition GetReplicasConfig (inst : RHMI) : gmap string Z :=
  let threeScaleComponents := base_replicas in
  let threeScaleComponents :=
    if RunningInProw inst then setDefaultNumberOfReplicas 1 threeScaleComponents
    else threeScaleComponents in
  let q := Quota_ (Status inst) in
  let put prod listener worker m :=
    <["apicastProd" := prod]> (<["backendListener" := listener]> (<["backendWorker" := worker]> m)) in
  if q =?s OneHundredThousandQuotaName then put 2%Z 2%Z 2%Z threeScaleComponents
  else if q =?s OneMillionQuotaName then put 2%Z 2%Z 2%Z threeScaleComponents
  else if q =?s FiveMillionQuotaName then put 3%Z 3%Z 3%Z threeScaleComponents
  else if q =?s TenMillionQuotaName then put 3%Z 3%Z 3%Z threeScaleComponents
  else if q =?s TwentyMillionQuotaName then put 3%Z 3%Z 3%Z threeScaleComponents
  else if q =?s FiftyMillionQuotaName then put 3%Z 5%Z 4%Z threeScaleComponents
  else if q =?s OneHundredMillionQuotaName then put 8%Z 7%Z 5%Z threeScaleComponents
  else threeScaleComponents.

Definition GetBackendRedisNodeSize (activeQuota platformType : string) : string :=
  if (activeQuota =?s OneHundredMillionQuotaName) && (platformType =?s "AWS")
  then "cache.m5.xlarge" else "".
End ThreeScale.

(** ** rhssoCommon.go *)
Module RHSSOCommon.
Record t := New { Config : ProductConfig }.
Definition GetWatchableCRDs (_ : t) : list GVK :=
  mkGVK "keycloak.org" "v1alpha1" <$>
    ["Keycloak"; "KeycloakRealm"; "KeycloakUser"; "KeycloakClient"; "KeycloakBackup"].
Definition GetNamespace (c : t) : string := cfg_get (Config c) "NAMESPACE".
Definition SetNamespace (c : t) (v : string) : t := New (<["NAMESPACE" := v]> (Config c)).
Definition GetOperatorNamespace (c : t) : string := cfg_get (Config c) "OPERATOR_NAMESPACE".
Definition SetOperatorNamespace (c : t) (v : string) : t :=
  New (<["OPERATOR_NAMESPACE" := v]> (Config c)).
Definition GetRealm (c : t) : string := cfg_get (Config c) "REALM".
Definition SetRealm (c : t) (v : string) : t := New (<["REALM" := v]> (Config c)).
Definition GetHost (c : t) : string := cfg_get (Config c) "HOST".
Definition SetHost (c : t) (v : string) : t := New (<["HOST" := v]> (Config c)).
Definition Read (c : t) : ProductConfig := Config c.
Definition GetLabelSelector (_ : t) : string := "middleware".
Definition GetProductVersion (c : t) : string := cfg_get (Config c) "VERSION".
Definition SetProductVersion (c : t) (v : string) : t := New (<["VERSION" := v]> (Config c)).
Definition SetOperatorVersion (c : t) (v : string) : t := New (<["OPERATOR" := v]> (Config c)).
Definition ValidateCommon (c : t) : option error :=
  if GetRealm c =?s "" then Some (ErrStr "config realm is not defined")
  else if GetNamespace c =?s "" then Some (ErrStr "config namespace is not defined")
  else if GetHost c =?s "" then Some (ErrStr "config url is not defined")
  else None.
End RHSSOCommon.

(** ** rhsso.go: the embedded RHSSOCommon gives the methods not listed. *)
Module RHSSO.
Record t := mk { common : RHSSOCommon.t }.
Definition New (config : ProductConfig) : t := mk (RHSSOCommon.New config).
Definition GetLabelSelector (_ : t) : string := "middleware".
Definition GetProductName (_ : t) : ProductName := ProductRHSSO.
Definition GetOperatorVersion (_ : t) : string := OperatorVersionRHSSO.
Definition Validate (c : t) : option error :=
  if GetProductName c =?s "" then Some (ErrStr "config product name is not defined")
  else RHSSOCommon.ValidateCommon (common c).
Definition GetReplicasConfig (inst : RHMI) : Z := if RunningInProw inst then 1 else 2.
End RHSSO.

(** ** rhssoUser.go *)
Module RHSSOUser.
Record t := mk { common : RHSSOCommon.t }.
Definition New (config : ProductConfig) : t := mk (RHSSOCommon.New config).
Definition config (c : t) : ProductConfig := RHSSOCommon.Config (common c).
Definition put (c : t) (k v : string) : t := New (<[k := v]> (config c)).
Definition SetDevelopersGroupConfigured (c : t) (configured : bool) : t :=
  put c "DEVELOPERS_GROUP_CONFIGURED" (format_bool configured).
(** strconv.ParseBool gives false with its error. *)
Definition GetDevelopersGroupConfigured (c : t) : bool * option error :=
  let v := cfg_get (config c) "DEVELOPERS_GROUP_CONFIGURED" in
  if v =?s "" then (false, None)
  else match parse_bool v with
       | Some b => (b, None)
       | None => (false, Some (ErrStr "strconv.ParseBool: invalid syntax"))
       end.
Definition GetBlackboxTargetPath (c : t) : string := cfg_get (config c) "BLACKBOX_TARGET_PATH".
Definition SetBlackboxTargetPath (c : t) (v : string) : t := put c "BLACKBOX_TARGET_PATH" v.
Definition GetProductName (_ : t) : ProductName := ProductRHSSOUser.
Definition GetOperatorVersion (_ : t) : string := OperatorVersionRHSSOUser.
Definition Validate (c : t) : option error :=
  if GetProductName c =?s "" then Some (ErrStr "config product name is not defined")
  else RHSSOCommon.ValidateCommon (common c).
Definition GetReplicasConfig (inst : RHMI) : Z := if RunningInProw inst then 1 else 3.
End RHSSOUser.

(** ** cloudresources.go *)
Module CloudResources.
Record t := New { Config : ProductConfig }.
Definition GetWatchableCRDs (_ : t) : list GVK :=
  mkGVK "integreatly.org" "v1alpha1" <$> ["Postgres"; "Redis"; "BlobStorage"].
Definition GetHost (c : t) : string := cfg_get (Config c) "HOST".
Definition SetHost (c : t) (v : string) : t := New (<["HOST" := v]> (Config c)).
Definition GetNamespace (c : t) : string := cfg_get (Config c) "NAMESPACE".
Definition SetNamespace (c : t) (v : string) : t := New (<["NAMESPACE" := v]> (Config c)).
Definition GetOperatorNamespace (c : t) : string := cfg_get (Config c) "OPERATOR_NAMESPACE".
Definition SetOperatorNamespace (c : t) (v : string) : t :=
  New (<["OPERATOR_NAMESPACE" := v]> (Config c)).
Definition SetStrategiesConfigMapName (c : t) (v : string) : t :=
  New (<["STRATEGIES_CONFIG_MAP_NAME" := v]> (Config c)).
Definition GetStrategiesConfigMapName (c : t) : string :=
  cfg_get (Config c) "STRATEGIES_CONFIG_MAP_NAME".
Definition Read (c : t) : ProductConfig := Config c.
Definition GetProductName (_ : t) : ProductName := ProductCloudResources.
Definition GetProductVersion (_ : t) : string := VersionCloudResources.
Definition GetOperatorVersion (_ : t) : string := OperatorVersionCloudResources.
End CloudResources.

(** ** marin3r.go *)
Module Marin3r.
Record t := New { Config : ProductConfig }.
Definition GetProductName (_ : t) : ProductName := ProductMarin3r.
Definition GetOperatorNamespace (c : t) : string := cfg_get (Config c) "OPERATOR_NAMESPACE".
Definition SetOperatorNamespace (c : t) (v : string) : t :=
  New (<["OPERATOR_NAMESPACE" := v]> (Config c)).
Definition GetNamespace (c : t) : string := cfg_get (Config c) "NAMESPACE".
Definition Read (c : t) : ProductConfig := Config c.
Definition GetProductVersion (_ : t) : string := VersionMarin3r.
Definition GetOperatorVersion (_ : t) : string := OperatorVersionMarin3r.
Definition GetHost (c : t) : string := cfg_get (Config c) "HOST".
Definition GetWatchableCRDs (_ : t) : list GVK :=
  [mkGVK "marin3r.3scale.net" "v1alpha1" "EnvoyConfig"].
Definition SetNamespace (c : t) (v : string) : t := New (<["NAMESPACE" := v]> (Config c)).
End Marin3r.

(** ** grafana.go *)
Module Grafana.
Record t := New { config : ProductConfig }.
Definition GetWatchableCRDs (_ : t) : list GVK := [].
Definition GetNamespace (c : t) : string := cfg_get (config c) "NAMESPACE".
Definition SetNamespace (c : t) (v : string) : t := New (<["NAMESPACE" := v]> (config c)).
Definition Read (c : t) : ProductConfig := config c.
Definition GetHost (c : t) : string := cfg_get (config c) "HOST".
Definition GetLabelSelector (_ : t) : string := "middleware".
Definition SetHost (c : t) (v : string) : t := New (<["HOST" := v]> (config c)).
Definition GetProductName (_ : t) : ProductName := ProductGrafana.
Definition GetProductVersion (c : t) : string := cfg_get (config c) "VERSION".
Definition SetProductVersion (c : t) (v : string) : t := New (<["VERSION" := v]> (config c)).
Definition GetOperatorVersion (_ : t) : string := "123stub".
End Grafana.

#[export] Instance ThreeScale_readable : ConfigReadable ThreeScale.t := {|
  Read := ThreeScale.Read; GetProductName := ThreeScale.GetProductName;
  GetProductVersion := ThreeScale.GetProductVersion;
  GetOperatorVersion := ThreeScale.GetOperatorVersion; GetHost := ThreeScale.GetHost;
  GetWatchableCRDs := ThreeScale.GetWatchableCRDs; GetNamespace := ThreeScale.GetNamespace |}.
#[export] Instance RHSSO_readable : ConfigReadable RHSSO.t := {|
  Read c := RHSSOCommon.Read (RHSSO.common c); GetProductName := RHSSO.GetProductName;
  GetProductVersion c := RHSSOCommon.GetProductVersion (RHSSO.common c);
  GetOperatorVersion := RHSSO.GetOperatorVersion;
  GetHost c := RHSSOCommon.GetHost (RHSSO.common c);
  GetWatchableCRDs c := RHSSOCommon.GetWatchableCRDs (RHSSO.common c);
  GetNamespace c := RHSSOCommon.GetNamespace (RHSSO.common c) |}.
#[export] Instance RHSSOUser_readable : ConfigReadable RHSSOUser.t := {|
  Read c := RHSSOCommon.Read (RHSSOUser.common c); GetProductName := RHSSOUser.GetProductName;
  GetProductVersion c := RHSSOCommon.GetProductVersion (RHSSOUser.common c);
  GetOperatorVersion := RHSSOUser.GetOperatorVersion;
  GetHost c := RHSSOCommon.GetHost (RHSSOUser.common c);
  GetWatchableCRDs c := RHSSOCommon.GetWatchableCRDs (RHSSOUser.common c);
  GetNamespace c := RHSSOCommon.GetNamespace (RHSSOUser.common c) |}.
#[export] Instance CloudResources_readable : ConfigReadable CloudResources.t := {|
  Read := CloudResources.Read; GetProductName := CloudResources.GetProductName;
  GetProductVersion := CloudResources.GetProductVersion;
  GetOperatorVersion := CloudResources.GetOperatorVersion; GetHost := CloudResources.GetHost;
  GetWatchableCRDs := CloudResources.GetWatchableCRDs;
  GetNamespace := CloudResources.GetNamespace |}.
#[export] Instance Marin3r_readable : ConfigReadable Marin3r.t := {|
  Read := Marin3r.Read; GetProductName := Marin3r.GetProductName;
  GetProductVersion := Marin3r.GetProductVersion;
  GetOperatorVersion := Marin3r.GetOperatorVersion; GetHost := Marin3r.GetHost;
  GetWatchableCRDs := Marin3r.GetWatchableCRDs; GetNamespace := Marin3r.GetNamespace |}.
#[export] Instance Grafana_readable : ConfigReadable Grafana.t := {|
  Read := Grafana.Read; GetProductName := Grafana.GetProductName;
  GetProductVersion := Grafana.GetProductVersion;
  GetOperatorVersion := Grafana.GetOperatorVersion; GetHost := Grafana.GetHost;
  GetWatchableCRDs := Grafana.GetWatchableCRDs; GetNamespace := Grafana.GetNamespace |}.

(** A value of the ConfigReadable interface, as ReadProduct returns it. *)
Inductive AnyConfig :=
  | AThreeScale (c : ThreeScale.t) | ARHSSO (c : RHSSO.t) | ARHSSOUser (c : RHSSOUser.t)
  | ACloudResources (c : CloudResources.t) | AMarin3r (c : Marin3r.t) | AGrafana (c : Grafana.t).
Definition with_config {R} (f : ∀ C, ConfigReadable C → C → R) (a : AnyConfig) : R :=
  match a with
  | AThreeScale c => f _ _ c | ARHSSO c => f _ _ c | ARHSSOUser c => f _ _ c
  | ACloudResources c => f _ _ c | AMarin3r c => f _ _ c | AGrafana c => f _ _ c
  end.
#[export] Instance AnyConfig_readable : ConfigReadable AnyConfig := {|
  Read := with_config (@Read); GetProductName := with_config (@GetProductName);
  GetProductVersion := with_config (@GetProductVersion);
  GetOperatorVersion := with_config (@GetOperatorVersion);
  GetHost := with_config (@GetHost); GetWatchableCRDs := with_config (@GetWatchableCRDs);
  GetNamespace := with_config (@GetNamespace) |}.

(** ** obo.go *)
Definition OboNamespaceSuffix : string := "-observability".
Definition GetOboNamespace (installationNamespace : string) : string :=
  installationNamespace +:+ OboNamespaceSuffix.
Definition GetOboLabelSelector : string := "middleware".
Definition GetOboLabelSelectorKey : string := "monitoring-key".

(** ** manager.go *)

(** gopkg.in/yaml.v2 on string maps: Marshal, and Decode into an empty map. *)
Class Yaml := {
  yaml_Marshal : ProductConfig → error + string;
  yaml_Decode : string → error + ProductConfig;
}.
(** A string map marshals to a non-empty document that decodes to it. *)
Class YamlLaws `{Yaml} := {
  yaml_roundtrip : ∀ m, ∃ s, yaml_Marshal m = inr s ∧ s ≠ "" ∧ yaml_Decode s = inr m;
}.

Section manager.
Context {W : Type} `{Client W ConfigMap} `{Yaml}.

Record Manager := mkManager { mgr_client : KClient; mgr_Namespace : string; cfgmap : ConfigMap }.

Definition NewManager (c : KClient) (namespace configMapName : string)
    : M W (error + Manager) :=
  got ← client_get c namespace configMapName;
  match got with
  | inr cm => mret (inr (mkManager c namespace cm))
  | inl err =>
      if IsNotFound (Some err)
      then mret (inr (mkManager c namespace (mkConfigMap (named namespace configMapName) None)))
      else mret (inl err)
  end.

Definition GetOperatorNamespace (m : Manager) : string := mgr_Namespace m.
Definition GetOauthClientsSecretName (_ : Manager) : string := "oauth-client-secrets".
Definition GetBackupsSecretName (_ : Manager) : string := "backups-s3-credentials".
Definition GetGHOauthClientsSecretName (_ : Manager) : string := "github-oauth-secret".

Definition readConfigForProduct (m : Manager) (product : ProductName) : error + ProductConfig :=
  let config := omap_get "" (cm_Data (cfgmap m)) product in
  if config =?s "" then inr ∅
  else match yaml_Decode config with
       | inl err => inl (ErrWrap ("failed to decode product config for " +:+ product +:+ ": ") err)
       | inr c => inr c
       end.

Definition read_as {C} (new : ProductConfig → C) (m : Manager) (p : ProductName) : error + C :=
  match readConfigForProduct m p with
  | inl e => inl e
  | inr config => inr (new config)
  end.
Definition ReadThreeScale (m : Manager) := read_as ThreeScale.New m Product3Scale.
Definition ReadRHSSO (m : Manager) := read_as RHSSO.New m ProductRHSSO.
Definition ReadRHSSOUser (m : Manager) := read_as RHSSOUser.New m ProductRHSSOUser.
Definition ReadGrafana (m : Manager) := read_as Grafana.New m ProductGrafana.
Definition ReadCloudResources (m : Manager) := read_as CloudResources.New m ProductCloudResources.
Definition ReadMarin3r (m : Manager) := read_as Marin3r.New m ProductMarin3r.

Definition some_config {C} (wrap : C → AnyConfig) (r : error + C) : error + AnyConfig :=
  match r with inl e => inl e | inr c => inr (wrap c) end.
Definition ReadProduct (m : Manager) (product : ProductName) : error + AnyConfig :=
  if product =?s Product3Scale then some_config AThreeScale (ReadThreeScale m)
  else if product =?s ProductRHSSO then some_config ARHSSO (ReadRHSSO m)
  else if product =?s ProductRHSSOUser then some_config ARHSSOUser (ReadRHSSOUser m)
  else if product =?s ProductCloudResources then some_config ACloudResources (ReadCloudResources m)
  else if product =?s ProductMarin3r then some_config AMarin3r (ReadMarin3r m)
  else if product =?s ProductGrafana then some_config AGrafana (ReadGrafana m)
  else inl (ErrStr ("no config found for product " +:+ product)).

Definition set_cfgmap (m : Manager) (cm : ConfigMap) : Manager :=
  mkManager (mgr_client m) (mgr_Namespace m) cm.

(** A Get error other than not-found is not looked at: the write goes ahead
    with the config map the manager already holds. *)
Definition WriteConfig {C} `{ConfigReadable C} (m : Manager) (config : C)
    : M W (Manager * option error) :=
  match yaml_Marshal (Read config) with
  | inl err => mret (m, Some err)
  | inr stringConfig =>
      got ← client_get (mgr_client m) (mgr_Namespace m) (Name (cm_meta (cfgmap m)));
      match got with
      | inl err =>
          if IsNotFound (Some err) then
            let cm := with_cm_Data (cfgmap m)
                        (Some {[GetProductName config := stringConfig]}) in
            r ← client_create (mgr_client m) cm;
            match r with
            | inl e => mret (set_cfgmap m cm, Some e)
            | inr cm => mret (set_cfgmap m cm, None)
            end
          else
            let cm := with_cm_Data (cfgmap m)
                        (Some (<[GetProductName config := stringConfig]>
                                 (make_if_nil (cm_Data (cfgmap m))))) in
            r ← client_update (mgr_client m) cm;
            match r with
            | inl e => mret (set_cfgmap m cm, Some e)
            | inr cm => mret (set_cfgmap m cm, None)
            end
      | inr cm =>
          let cm := with_cm_Data cm
                      (Some (<[GetProductName config := stringConfig]>
                               (make_if_nil (cm_Data cm)))) in
          r ← client_update (mgr_client m) cm;
          match r with
          | inl e => mret (set_cfgmap m cm, Some e)
          | inr cm => mret (set_cfgmap m cm, None)
          end
      end
  end.
End manager.

(** ** Reading back what was written *)

Section round_trip.
Context {W : Type} `{Client W ConfigMap} `{YamlLaws}.

(** A write the API server accepts answers with the data it was given. *)
Hypothesis create_echo : ∀ c (o o' : ConfigMap) (w w' : W),
  client_create c o w = (Done (inr o'), w') → cm_Data o' = cm_Data o.
Hypothesis update_echo : ∀ c (o o' : ConfigMap) (w w' : W),
  client_update c o w = (Done (inr o'), w') → cm_Data o' = cm_Data o.

(** The configs the written one is put among: the server's, none when there
    is no config map, and the manager's own copy when the read failed. *)
Definition written_over (m : Manager) (r : outcome (error + ConfigMap)) : option (gmap string string) :=
  match r with
  | Done (inr cm) => cm_Data cm
  | Done (inl err) => if IsNotFound (Some err) then None else cm_Data (cfgmap m)
  | Panic _ => None
  end.

Lemma WriteConfig_data {C} `{ConfigReadable C} (m m' : Manager) (c : C) (w w' : W) :
  WriteConfig m c w = (Done (m', None), w') →
  ∃ s, yaml_Marshal (Read c) = inr s ∧ cm_Data (cfgmap m') =
    Some (<[GetProductName c := s]> (make_if_nil (written_over m
      (client_get (O := ConfigMap) (mgr_client m) (mgr_Namespace m) (Name (cm_meta (cfgmap m))) w).1))).
Proof.
  unfold WriteConfig. intros Hw. destruct (yaml_Marshal (Read c)) as [e|s]; [go_inv|].
  exists s. split; [done|]. apply bind_done_inv in Hw as (got & w1 & Hg & Hw). rewrite Hg. cbn [fst written_over].
  destruct got as [e|cm].
  - destruct (IsNotFound (Some e)); apply bind_done_inv in Hw as ([e2|cm2] & w2 & Hc & Hw); go_inv.
    + apply create_echo in Hc. rewrite Hc. done.
    + apply update_echo in Hc. by rewrite Hc.
  - apply bind_done_inv in Hw as ([e2|cm2] & w2 & Hc & Hw); go_inv.
    apply update_echo in Hc. by rewrite Hc.
Qed.

Lemma readConfig_data m1 m2 p :
  omap_get "" (cm_Data (cfgmap m1)) p = omap_get "" (cm_Data (cfgmap m2)) p →
  readConfigForProduct m1 p = readConfigForProduct m2 p.
Proof. unfold readConfigForProduct. by intros ->. Qed.

(** C24: After WriteConfig succeeds, reading the product's config gives what
    was written, and the config of any other product is the one on the
    server, none when there was no config map, and, when the config map could
    not be read, the one the manager held before, which is so written back
    over what the server has. *)
Theorem WriteConfig_roundtrip {C} `{ConfigReadable C} (m m' : Manager) (c : C) (w w' : W) :
  WriteConfig m c w = (Done (m', None), w') →
  readConfigForProduct m' (GetProductName c) = inr (Read c)
  ∧ ∀ p, p ≠ GetProductName c →
      readConfigForProduct m' p =
      readConfigForProduct (set_cfgmap m (with_cm_Data (cfgmap m) (written_over m
        (client_get (O := ConfigMap) (mgr_client m) (mgr_Namespace m) (Name (cm_meta (cfgmap m))) w).1))) p.
Proof.
  intros Hw. apply WriteConfig_data in Hw as (s & Hs & Hd). split.
  - destruct (yaml_roundtrip (Read c)) as (s' & Hs' & Hne & Hdec).
    assert (s' = s) as -> by congruence.
    unfold readConfigForProduct. rewrite Hd. cbn [omap_get]. rewrite map_get_insert.
    apply str_eqb_false in Hne. by rewrite Hne, Hdec.
  - intros p Hp. apply readConfig_data. rewrite Hd. cbn [omap_get set_cfgmap cfgmap cm_Data].
    rewrite map_get_insert_ne by done.
    by destruct (written_over _ _).
Qed.

(** Each reader hands the config it read to its product's type. *)
Lemma ReadProduct_Read m p a :
  ReadProduct m p = inr a → readConfigForProduct m p = inr (with_config (λ C _ c, Read c) a).
Proof.
  unfold ReadProduct. intros Hr.
  repeat (destruct (p =?s _) eqn:E; [apply str_eqb_true in E; subst p;
    unfold ReadThreeScale, ReadRHSSO, ReadRHSSOUser, ReadCloudResources, ReadMarin3r, ReadGrafana,
      read_as, some_config in Hr;
    destruct (readConfigForProduct m _) as [e|pc]; [discriminate|]; injection Hr as <-; done|clear E]).
  done.
Qed.
End round_trip.
