(* ===== verification/Cluster.v ===== *)
(** * The cluster and the operator's own installation

    pkg/resources/cluster/cluster.go, pkg/resources/sts/sts.go,
    pkg/products/obo/clusterPackage.go, pkg/resources/k8s/k8sutil.go,
    version/version.go and pkg/resources/version.go: what the operator asks
    the cluster about itself. *)

From stdpp Require Import base list strings gmap.
From Stdlib Require Import ZArith QArith Lia Ascii DecimalString.
From S2P Require Import Prelude Numbers Kube Api Resources.

(** ** Objects *)

Record UpdateHistory := mkHistory { uh_Version : string }.
#[global] Instance UpdateHistory_eq_dec : EqDecision UpdateHistory.
Proof. solve_decision. Defined.
(** configv1.ClusterVersion: spec.clusterID, status.desired.version and
    status.history. *)
Record ClusterVersion := mkClusterVersion {
  cv_meta : ObjectMeta; ClusterID : string; DesiredVersion : string; History : list UpdateHistory;
}.

#[global] Instance ClusterVersion_eq_dec : EqDecision ClusterVersion.
Proof. solve_decision. Defined.
#[global] Instance ClusterVersion_object : K8sObject ClusterVersion := {|
  meta := cv_meta; set_meta m o := mkClusterVersion m (ClusterID o) (DesiredVersion o) (History o);
  semantic_deep_equal a b := bool_decide (a = b);
|}.

Record ResourceTag := mkTag { tag_Key : string; tag_Value : string }.
(** status.platformStatus is a pointer, and so is its aws field. *)
Record PlatformStatus := mkPlatform { pf_Type : string; pf_AWS : option (list ResourceTag) }.
Record Infrastructure := mkInfrastructure {
  inf_meta : ObjectMeta; inf_PlatformStatus : option PlatformStatus;
  inf_InfrastructureName : string; inf_APIServerURL : string }.
#[global] Instance ResourceTag_eq_dec : EqDecision ResourceTag.
Proof. solve_decision. Defined.
#[global] Instance PlatformStatus_eq_dec : EqDecision PlatformStatus.
Proof. solve_decision. Defined.
#[global] Instance Infrastructure_eq_dec : EqDecision Infrastructure.
Proof. solve_decision. Defined.
#[global] Instance Infrastructure_object : K8sObject Infrastructure := {|
  meta := inf_meta; set_meta m o := mkInfrastructure m (inf_PlatformStatus o)
    (inf_InfrastructureName o) (inf_APIServerURL o);
  semantic_deep_equal a b := bool_decide (a = b);
|}.

Record CloudCredential := mkCloudCredential { cc_meta : ObjectMeta; CredentialsMode : string }.
#[global] Instance CloudCredential_eq_dec : EqDecision CloudCredential.
Proof. solve_decision. Defined.
#[global] Instance CloudCredential_object : K8sObject CloudCredential := {|
  meta := cc_meta; set_meta m o := mkCloudCredential m (CredentialsMode o);
  semantic_deep_equal a b := bool_decide (a = b);
|}.

Record ClusterPackage := mkClusterPackage { pkg_meta : ObjectMeta; pkg_Conditions : list Condition }.
#[global] Instance ClusterPackage_eq_dec : EqDecision ClusterPackage.
Proof. solve_decision. Defined.
#[global] Instance ClusterPackage_object : K8sObject ClusterPackage := {|
  meta := pkg_meta; set_meta m o := mkClusterPackage m (pkg_Conditions o);
  semantic_deep_equal a b := bool_decide (a = b);
|}.

(** ** version/version.go *)

Definition installTypeEnvName : string := "INSTALLATION_TYPE".
Definition managedAPIVersion : string := "1.45.0".

Definition VerifyProductAndOperatorVersion (product : RHMIProductStatus)
    (expectedProductVersion expectedOpVersion : string) : bool :=
  if negb (expectedOpVersion =?s p_OperatorVersion product) then false
  else if negb (expectedProductVersion =?s p_Version product) then false
  else true.

(** Both branches of the source give the same version. *)
Definition GetVersionByType (installType : string) : string :=
  if IsRHOAM installType then managedAPIVersion else managedAPIVersion.

Definition GetVersion {W} `{OsEnv W} (w : W) : string :=
  GetVersionByType (default "" (LookupEnv installTypeEnvName w)).

(** ** cluster.go *)

Definition clusterVersionName : string := "version".

(** strconv.ParseFloat(s, 64), the value of the float64 it gives. *)
Class FloatParse := ParseFloat : string → option Q.

(** The constant 4.9 as a float64: 2758454771764429 / 2^49. *)
Definition float_4_9 : Q := 2758454771764429 # 562949953421312.

Definition getCurrentVersion `{FloatParse} (versionHistory : list UpdateHistory) : error + Q :=
  match versionHistory with
  | [] => inl (ErrStr "Error getting cluster version, no version history")
  | h :: _ =>
      match split_on "." (uh_Version h) with
      | s0 :: s1 :: _ =>
          let currentVersion := s0 +:+ "." +:+ s1 in
          match ParseFloat currentVersion with
          | None => inl (ErrStr ("Error parsing cluster version " +:+ currentVersion))
          | Some version => inr version
          end
      | _ => inl (ErrStr ("Error splitting cluster version history " +:+ uh_Version h))
      end
  end.

Section cluster.
Context {W : Type} `{Client W ClusterVersion} `{Client W Infrastructure}
  `{Client W CloudCredential} `{Client W ClusterPackage} `{OsEnv W}.

Definition GetClusterVersionCR (c : KClient) : M W (error + ClusterVersion) :=
  got ← client_get c "" clusterVersionName;
  match got with
  | inl err => mret (inl (ErrWrap "failed to fetch version: " err))
  | inr cr => mret (inr cr)
  end.

Definition ClusterVersionBefore49 `{FloatParse} (c : KClient) : M W (bool * option error) :=
  got ← GetClusterVersionCR c;
  match got with
  | inl err => mret (false, Some err)
  | inr clusterVersion =>
      match getCurrentVersion (History clusterVersion) with
      | inl err => mret (false, Some err)
      | inr currentVersion =>
          if Qle_bool float_4_9 currentVersion then mret (false, None) else mret (true, None)
      end
  end.

Definition GetClusterInfrastructure (c : KClient) : M W (error + Infrastructure) :=
  got ← client_get c "" "cluster";
  match got with
  | inl err => mret (inl (ErrWrap "failed to retrieve cluster infrastructure: " err))
  | inr infra => mret (inr infra)
  end.

Definition find_clustertype (tags : list ResourceTag) : option string :=
  tag_Value <$> head (filter (λ t, tag_Key t = "red-hat-clustertype") tags).

(** A nil platformStatus, or a nil aws on an AWS cluster, is dereferenced. *)
Definition GetClusterType (infra : Infrastructure) : outcome (string * option error) :=
  match inf_PlatformStatus infra with
  | None => Panic "nil pointer dereference"
  | Some p =>
      if pf_Type p =?s "AWS" then
        match pf_AWS p with
        | None => Panic "nil pointer dereference"
        | Some tags =>
            match find_clustertype tags with
            | Some v => Done (v, None)
            | None => Done ("", Some (ErrStr ("key " +:+ dquote +:+ "red-hat-clustertype" +:+ dquote
                                                +:+ " not in AWS resource tags")))
            end
        end
      else Done ("", Some (ErrStr ("no platform information found for type " +:+ pf_Type p)))
  end.

Definition GetPlatformType (c : KClient) : M W (string * option error) :=
  got ← GetClusterInfrastructure c;
  match got with
  | inl err => mret ("", Some err)
  | inr infra =>
      match inf_PlatformStatus infra with
      | None => panic "nil pointer dereference"
      | Some p => mret (pf_Type p, None)
      end
  end.

Definition GetExternalClusterId (cr : ClusterVersion) : string * option error :=
  if negb (ClusterID cr =?s "") then (ClusterID cr, None)
  else ("", Some (ErrStr "external cluster ID not found")).

Definition GetClusterVersion (cr : ClusterVersion) : string * option error :=
  if negb (DesiredVersion cr =?s "") then (DesiredVersion cr, None)
  else ("", Some (ErrStr "desired.version not set in status block")).

(** ** sts.go *)

Definition ClusterCloudCredentialName : string := "cluster".
Definition CloudCredentialsModeManual : string := "Manual".

Definition IsClusterSTS (c : KClient) : M W (bool * option error) :=
  got ← client_get c "" ClusterCloudCredentialName;
  match got with
  | inl err => mret (false, Some err)
  | inr cloudCredential =>
      mret (CredentialsMode cloudCredential =?s CloudCredentialsModeManual, None)
  end.

(** ** k8sutil.go and clusterPackage.go *)

Definition WatchNamespaceEnvVar : string := "WATCH_NAMESPACE".
Definition GetWatchNamespace (w : W) : error + string :=
  match LookupEnv WatchNamespaceEnvVar w with
  | None => inl (ErrStr "WATCH_NAMESPACE must be set")
  | Some ns => inr ns
  end.

Definition RHOAMOboClusterPackageName : string := "managed-api-service".
Definition RHOAMInternalOboClusterPackageName : string := "managed-api-service-internal".

Definition getClusterPackageName (w : W) : error + string :=
  match GetWatchNamespace w with
  | inl err => inl err
  | inr watchNS =>
      inr (if watchNS =?s "redhat-rhoami-operator" then RHOAMInternalOboClusterPackageName
           else RHOAMOboClusterPackageName)
  end.

Definition GetOboClusterPackage (c : KClient) : M W (error + ClusterPackage) :=
  clusterPackageName ← reads getClusterPackageName;
  match clusterPackageName with
  | inl err => mret (inl err)
  | inr n => client_get c "" n
  end.

Definition GetOboClusterPackageLabel (w : W) : error + string :=
  match getClusterPackageName w with
  | inl err => inl err
  | inr n => inr ("package-operator.run/instance=" +:+ n)
  end.
End cluster.

(** ** resources/version.go *)

Module Versions.

Record Version := mkVersion { Major : Z; Minor : Z; Patch : Z }.

(** [Vv]? at the start of the pattern. *)
Definition strip_v (s : string) : string :=
  match s with
  | String c s' => if Ascii.eqb c "V" || Ascii.eqb c "v" then s' else s
  | EmptyString => s
  end.

(** The three groups of digits the pattern captures. *)
Definition match_version (s : string) : option (string * string * string) :=
  let '(d1, r1) := span_digits (strip_v s) in
  match r1 with
  | String "." r1' =>
      let '(d2, r2) := span_digits r1' in
      match r2 with
      | String c r2' =>
          if Ascii.eqb c "." || Ascii.eqb c "-" then
            let '(d3, r3) := span_digits r2' in
            if negb (d1 =?s "") && negb (d2 =?s "") && negb (d3 =?s "") && (r3 =?s "")
            then Some (d1, d2, d3) else None
          else None
      | EmptyString => None
      end
  | _ => None
  end.

(** strconv.Atoi *)
Definition Atoi (s : string) : error + Z :=
  match parse_int64 s with
  | Some z => inr z
  | None => inl (ErrStr ("strconv.Atoi: parsing " +:+ dquote +:+ s +:+ dquote))
  end.

Definition NewVersion (version : string) : error + Version :=
  match match_version version with
  | None => inl (ErrStr "invalid version")
  | Some (d1, d2, d3) =>
      match Atoi d1, Atoi d2, Atoi d3 with
      | inr major, inr minor, inr patch => inr (mkVersion major minor patch)
      | inl e, _, _ => inl e
      | _, inl e, _ => inl e
      | _, _, inl e => inl e
      end
  end.

Definition Equals (v other : Version) : bool :=
  ((Major v =? Major other) && (Minor v =? Minor other) && (Patch v =? Patch other))%Z.

Definition IsNewerThan (v other : Version) : bool :=
  ((Major other <? Major v)
   || ((Major v =? Major other) && (Minor other <? Minor v))
   || ((Major v =? Major other) && (Minor v =? Minor other) && (Patch other <? Patch v)))%Z.

Definition AsString (v : Version) : string :=
  itoa (Major v) +:+ "." +:+ itoa (Minor v) +:+ "." +:+ itoa (Patch v).

Lemma Equals_true v w : Equals v w = true ↔ v = w.
Proof.
  unfold Equals. destruct v, w; simpl. rewrite !andb_true_iff, !Z.eqb_eq.
  split; [intros [[-> ->] ->]; done|intros [= -> -> ->]; done].
Qed.

Lemma Equals_true_Z v w :
  Equals v w = true ↔ (Major v = Major w ∧ Minor v = Minor w ∧ Patch v = Patch w)%Z.
Proof. unfold Equals. rewrite !andb_true_iff, !Z.eqb_eq. tauto. Qed.

Lemma IsNewerThan_true v w :
  IsNewerThan v w = true ↔
  (Major w < Major v ∨ (Major v = Major w ∧ Minor w < Minor v)
   ∨ (Major v = Major w ∧ Minor v = Minor w ∧ Patch w < Patch v))%Z.
Proof.
  unfold IsNewerThan. rewrite !orb_true_iff, !andb_true_iff, !Z.ltb_lt, !Z.eqb_eq. tauto.
Qed.


Lemma strip_v_itoa z s : (0 ≤ z)%Z → strip_v (itoa z +:+ s) = itoa z +:+ s.
Proof.
  intros Hz. destruct (itoa z) as [|x a] eqn:E; [by destruct (itoa_nonempty z)|].
  assert (is_digit x = true) as Hx by (by eapply itoa_head_digit).
  change (String x a +:+ s) with (String x (a +:+ s)). unfold strip_v.
  assert (Ascii.eqb x "V" || Ascii.eqb x "v" = false) as ->; [|done].
  destruct x as [[] [] [] [] [] [] [] []]; by vm_compute in Hx |- *.
Qed.

(** Printing a version and parsing it back gives the version, whenever
    its numbers are those a Go int can hold and not negative. *)
Theorem NewVersion_AsString v :
  (0 ≤ Major v ≤ max_int64)%Z → (0 ≤ Minor v ≤ max_int64)%Z → (0 ≤ Patch v ≤ max_int64)%Z →
  NewVersion (AsString v) = inr v.
Proof.
  destruct v as [a b c]. cbn [Major Minor Patch]. intros Ha Hb Hc.
  unfold NewVersion, AsString, match_version. cbn [Major Minor Patch].
  rewrite strip_v_itoa by lia.
  rewrite (span_digits_app (itoa a)); [|apply itoa_digits; lia|done]. simpl.
  change (EmptyString +:+ ?s) with s.
  rewrite (span_digits_app (itoa b)); [|apply itoa_digits; lia|done]. simpl.
  change (EmptyString +:+ ?s) with s.
  pose proof (itoa_digits c ltac:(lia)) as Hd. unfold all_digits in Hd. rewrite Hd. simpl.
  pose proof (itoa_nonempty a) as Na. pose proof (itoa_nonempty b) as Nb.
  pose proof (itoa_nonempty c) as Nc. apply str_eqb_false in Na, Nb, Nc.
  rewrite Na, Nb, Nc. simpl. unfold Atoi.
  assert (min_int64 = -9223372036854775808)%Z as Hmin by reflexivity.
  rewrite !parse_int64_itoa by lia. done.
Qed.

Lemma NewVersion_AsString_witness : NewVersion (AsString (mkVersion 1 45 0)) = inr (mkVersion 1 45 0).
Proof. apply NewVersion_AsString; vm_compute; split; discriminate. Defined.
End Versions.

Lemma split_on_digits d s :
  all_digits d → split_on "." (d +:+ "." +:+ s) = d :: split_on "." s.
Proof.
  unfold all_digits. induction d as [|c d IH]; [done|].
  change (String c d +:+ ?s) with (String c (d +:+ s)). cbn [span_digits split_on].
  destruct (is_digit c) eqn:Hc; [|discriminate].
  destruct (span_digits d) as [d' r'] eqn:E. intros [= -> ->].
  rewrite IH by done. destruct (Ascii.eqb_spec c ".") as [->|_]; done.
Qed.

(** ** The 4.9 test

    A version is compared as a decimal fraction, so 4.10, the release after
    4.9, counts as 4.1. *)

Section before49.
Context {W : Type} `{Client W ClusterVersion} `{FloatParse}.

(** On a cluster whose newest history entry is release 4.minor.patch, the
    answer depends only on the value strconv.ParseFloat gives the text
    4.minor: the cluster is reported to be before 4.9 exactly when that value
    is below the float constant.  For 4.10 to 4.19 that value is 4.1 to 4.19,
    so these later releases are reported to be before 4.9. *)
Theorem ClusterVersionBefore49_compares_fractions (c : KClient) w w' cr minor patch rest q :
  GetClusterVersionCR c w = (Done (inr cr), w') →
  History cr = mkHistory ("4." +:+ itoa minor +:+ "." +:+ patch) :: rest →
  (0 ≤ minor)%Z → ParseFloat ("4." +:+ itoa minor) = Some q →
  ClusterVersionBefore49 c w = (Done (negb (Qle_bool float_4_9 q), None), w').
Proof.
  intros Hcr Hh Hm Hq. unfold ClusterVersionBefore49. rewrite (bind_done _ _ _ _ _ Hcr), Hh.
  unfold getCurrentVersion. cbn [uh_Version].
  assert (split_on "." ("4." +:+ itoa minor +:+ "." +:+ patch)
          = "4" :: itoa minor :: split_on "." patch) as ->.
  { change ("4." +:+ ?s) with (String "4" (String "." s)). cbn [split_on Ascii.eqb Bool.eqb].
    by rewrite split_on_digits by (apply itoa_digits; lia). }
  change ("4" +:+ "." +:+ itoa minor) with ("4." +:+ itoa minor). rewrite Hq.
  by destruct (Qle_bool float_4_9 q).
Qed.
End before49.

Lemma ClusterVersionBefore49_compares_fractions_witness :
  let cr := mkClusterVersion (named "" "version") "id" "4.10.3" [mkHistory "4.10.3"] in
  let w : Store ClusterVersion := {[("", "version") := cr]} in
  let C : Client (Store ClusterVersion) ClusterVersion := @fake_client _ _ single_store _ in
  let P : FloatParse := λ s, if s =?s "4.10" then Some (41 # 10) else None in
  @ClusterVersionBefore49 _ C P ManagerClient w = (Done (true, None), w).
Proof.
  intros cr w C P.
  apply (@ClusterVersionBefore49_compares_fractions _ C P ManagerClient w w cr 10 "3" [] (41 # 10));
    [reflexivity|reflexivity|discriminate|reflexivity].
Defined.
