(* ===== verification/QuotaData.v ===== *)
(** * The quotas the operator ships (pkg/addon/quota.go)

    The two JSON arrays of the add-on's quota config, entry by entry, as the
    values they hold: quantities are kept as their text.  The config map that
    pkg/resources/quota reads is written from the array [GetQuotaConfig]
    chooses. *)

From stdpp Require Import base list strings gmap.
From Stdlib Require Import ZArith Lia Ascii.
From S2P Require Import Prelude Kube Api Quota Cluster.

(** requests.cpu, requests.memory, limits.cpu and limits.memory *)
Record RawResource := mkRawResource {
  rr_Replicas : Z; req_cpu : string; req_memory : string; lim_cpu : string; lim_memory : string }.
Record RawQuota := mkRawQuota {
  rq_name : string; rq_param : string; rq_rate : RateLimitConfig;
  rq_resources : list (string * RawResource) }.

Definition quota_100Million : RawQuota :=
  mkRawQuota "100 Million" "1000" (mkRateLimitConfig "minute" 69445) [
    ("backend_listener", mkRawResource 7 "0.5" "600Mi" "1" "700Mi");
    ("backend_worker", mkRawResource 5 "0.4" "100Mi" "0.6" "100Mi");
    ("apicast_production", mkRawResource 8 "0.6" "275Mi" "1" "300Mi");
    ("rhssouser", mkRawResource 3 "1" "2000Mi" "2" "2000Mi");
    ("ratelimit", mkRawResource 3 "0.15" "50Mi" "0.3" "100Mi")].
Definition quota_50Million : RawQuota :=
  mkRawQuota "50 Million" "500" (mkRateLimitConfig "minute" 34723) [
    ("backend_listener", mkRawResource 5 "0.5" "600Mi" "1" "700Mi");
    ("backend_worker", mkRawResource 4 "0.4" "100Mi" "0.6" "100Mi");
    ("apicast_production", mkRawResource 3 "0.6" "275Mi" "1" "300Mi");
    ("rhssouser", mkRawResource 3 "1" "2000Mi" "2" "2000Mi");
    ("ratelimit", mkRawResource 3 "0.15" "50Mi" "0.3" "100Mi")].
Definition quota_20Million : RawQuota :=
  mkRawQuota "20 Million" "200" (mkRateLimitConfig "minute" 13889) [
    ("backend_listener", mkRawResource 3 "0.25" "450Mi" "0.6" "500Mi");
    ("backend_worker", mkRawResource 3 "0.15" "100Mi" "0.3" "100Mi");
    ("apicast_production", mkRawResource 3 "0.3" "250Mi" "0.6" "300Mi");
    ("rhssouser", mkRawResource 3 "0.75" "1500Mi" "1.5" "1500Mi");
    ("ratelimit", mkRawResource 3 "0.10" "50Mi" "0.20" "100Mi")].
Definition quota_10Million : RawQuota :=
  mkRawQuota "10 Million" "100" (mkRateLimitConfig "minute" 6945) [
    ("backend_listener", mkRawResource 3 "0.15" "450Mi" "0.5" "500Mi");
    ("backend_worker", mkRawResource 3 "0.1" "100Mi" "0.25" "100Mi");
    ("apicast_production", mkRawResource 3 "0.2" "250Mi" "0.5" "300Mi");
    ("rhssouser", mkRawResource 3 "0.75" "1500Mi" "1.5" "1500Mi");
    ("ratelimit", mkRawResource 3 "0.05" "50Mi" "0.15" "100Mi")].
Definition quota_5Million : RawQuota :=
  mkRawQuota "5 Million" "50" (mkRateLimitConfig "minute" 3473) [
    ("backend_listener", mkRawResource 3 "0.1" "450Mi" "0.3" "500Mi");
    ("backend_worker", mkRawResource 3 "0.05" "100Mi" "0.15" "100Mi");
    ("apicast_production", mkRawResource 3 "0.1" "250Mi" "0.3" "300Mi");
    ("rhssouser", mkRawResource 3 "0.75" "1500Mi" "1.5" "1500Mi");
    ("ratelimit", mkRawResource 3 "0.05" "50Mi" "0.15" "100Mi")].
Definition quota_1Million : RawQuota :=
  mkRawQuota "1 Million" "10" (mkRateLimitConfig "minute" 695) [
    ("backend_listener", mkRawResource 2 "0.06" "450Mi" "0.18" "500Mi");
    ("backend_worker", mkRawResource 2 "0.03" "60Mi" "0.09" "100Mi");
    ("apicast_production", mkRawResource 2 "0.06" "250Mi" "0.18" "300Mi");
    ("rhssouser", mkRawResource 2 "0.75" "1500Mi" "1.5" "1500Mi");
    ("ratelimit", mkRawResource 2 "0.02" "40Mi" "0.06" "80Mi")].
Definition quota_100K_Evaluation : RawQuota :=
  mkRawQuota "100K - Evaluation" "0" (mkRateLimitConfig "minute" 70) [
    ("backend_listener", mkRawResource 2 "0.06" "450Mi" "0.18" "500Mi");
    ("backend_worker", mkRawResource 2 "0.03" "60Mi" "0.09" "100Mi");
    ("apicast_production", mkRawResource 2 "0.06" "250Mi" "0.18" "300Mi");
    ("rhssouser", mkRawResource 2 "0.75" "1500Mi" "1.5" "1500Mi");
    ("ratelimit", mkRawResource 2 "0.02" "40Mi" "0.06" "80Mi")].
Definition quota_100K : RawQuota :=
  mkRawQuota "100K" "1" (mkRateLimitConfig "minute" 70) [
    ("backend_listener", mkRawResource 2 "0.06" "450Mi" "0.18" "500Mi");
    ("backend_worker", mkRawResource 2 "0.03" "60Mi" "0.09" "100Mi");
    ("apicast_production", mkRawResource 2 "0.06" "250Mi" "0.18" "300Mi");
    ("rhssouser", mkRawResource 2 "0.75" "1500Mi" "1.5" "1500Mi");
    ("ratelimit", mkRawResource 2 "0.02" "40Mi" "0.06" "80Mi")].
Definition mtQuota_1Million : RawQuota :=
  mkRawQuota "1 Million" "10" (mkRateLimitConfig "minute" 695) [
    ("backend_listener", mkRawResource 5 "0.5" "700Mi" "1" "1400Mi");
    ("backend_worker", mkRawResource 4 "0.4" "100Mi" "0.6" "100Mi");
    ("apicast_production", mkRawResource 2 "0.6" "275Mi" "1" "300Mi");
    ("ratelimit", mkRawResource 2 "0.15" "50Mi" "0.3" "100Mi")].
Definition mtQuota_100K : RawQuota :=
  mkRawQuota "100K" "1" (mkRateLimitConfig "minute" 70) [
    ("backend_listener", mkRawResource 2 "0.06" "455Mi" "0.18" "505Mi");
    ("backend_worker", mkRawResource 2 "0.03" "60Mi" "0.09" "100Mi");
    ("apicast_production", mkRawResource 2 "0.06" "250Mi" "0.18" "300Mi");
    ("ratelimit", mkRawResource 2 "0.02" "40Mi" "0.06" "80Mi")].

Definition quotaConfig : list RawQuota :=
  [quota_100Million; quota_50Million; quota_20Million; quota_10Million; quota_5Million;
   quota_1Million; quota_100K_Evaluation; quota_100K].
Definition mtQuotaConfig : list RawQuota := [mtQuota_1Million; mtQuota_100K].

Definition GetQuotaConfig (installType : string) : list RawQuota :=
  if IsRHOAMMultitenant installType then mtQuotaConfig else quotaConfig.

(** ** The entries as pkg/resources/quota reads them *)

Section receivers.
Context {Q : Type} `{Quantity Q}.

Definition parse_q (s : string) : Q := default q_zero (q_MustParse s).
Definition resource_list (cpu memory : string) : ResourceList Q :=
  Some {[ResourceCPU := parse_q cpu; ResourceMemory := parse_q memory]}.
Definition to_resource_config (r : RawResource) : ResourceConfig Q :=
  mkResourceConfig (rr_Replicas r)
    (mkRR (resource_list (lim_cpu r) (lim_memory r)) (resource_list (req_cpu r) (req_memory r))).
Definition to_receiver (r : RawQuota) : quotaConfigReceiver Q :=
  mkReceiver (rq_name r) (rq_param r) (rq_rate r)
    (Some (list_to_map (prod_map id to_resource_config <$> rq_resources r))).

Lemma find_receiver_nodup l e :
  NoDup (rq_param <$> l) → e ∈ l → find_receiver (to_receiver <$> l) (rq_param e) = to_receiver e.
Proof.
  induction l as [|x l IH]; cbn [fmap list_fmap]; [set_solver|].
  intros [Hx Hl]%NoDup_cons [->|He]%elem_of_cons; cbn [find_receiver to_receiver r_Param].
  - by rewrite str_eqb_refl.
  - destruct (rq_param x =?s rq_param e) eqn:E; [|auto].
    apply str_eqb_true in E. destruct Hx. rewrite E. by apply list_elem_of_fmap_2.
Qed.
End receivers.

(** ** What the shipped tables promise *)

(** A quantity in thousandths (cpu) or in units of its suffix. *)
Definition milli (s : string) : option Z :=
  match split_on "." s with
  | [i] => (λ x, 1000 * x)%Z <$> parse_digits i
  | [i; f] =>
      match parse_digits i, parse_digits (f +:+ String.substring 0 (3 - String.length f) "000") with
      | Some a, Some b => Some (1000 * a + b)%Z
      | _, _ => None
      end
  | _ => None
  end.
Definition mebi (s : string) : option Z :=
  if has_prefix "iM" (str_rev s) then parse_digits (trim_suffix "Mi" s) else None.
Definition opt_le (a b : option Z) : bool :=
  match a, b with Some a, Some b => (a <=? b)%Z | _, _ => false end.

(** Requests a day the name of a quota advertises: 100K, 1 Million and so on *)
Definition advertised (n : string) : option Z :=
  let n := trim_suffix " - Evaluation" n in
  if has_prefix "K" (str_rev n) then (λ x, 1000 * x)%Z <$> parse_digits (trim_suffix "K" n)
  else (λ x, 1000000 * x)%Z <$> parse_digits (trim_suffix " Million" n).

(** requests_per_unit, a number per minute, is the least that allows the
    advertised requests of a day. *)
Definition rate_is_least (e : RawQuota) : bool :=
  (Unit_ (rq_rate e) =?s "minute")
  && match advertised (rq_name e) with
     | Some d => ((d <=? RequestsPerUnit (rq_rate e) * 1440)
                  && ((RequestsPerUnit (rq_rate e) - 1) * 1440 <? d))%Z
     | None => false
     end.

Definition resources_sane (r : RawResource) : bool :=
  (1 <=? rr_Replicas r)%Z && opt_le (milli (req_cpu r)) (milli (lim_cpu r))
  && opt_le (mebi (req_memory r)) (mebi (lim_memory r)).

Definition components_of (t : InstallationType) : list string :=
  [BackendListenerName; BackendWorkerName; ApicastProductionName]
  ++ (if IsRHOAMMultitenant t then [] else [KeycloakName]) ++ [RateLimitName].

Definition entry_ok (t : InstallationType) (e : RawQuota) : bool :=
  rate_is_least e && forallb (λ c, resources_sane c.2) (rq_resources e)
  && bool_decide ((rq_resources e).*1 = components_of t).

Lemma entry_ok_table t e : e ∈ GetQuotaConfig t → entry_ok t e = true.
Proof.
  intros He. unfold GetQuotaConfig in He. unfold entry_ok, components_of.
  destruct (IsRHOAMMultitenant t);
    repeat (apply elem_of_cons in He as [->|He]; [vm_compute; reflexivity|]);
    by apply elem_of_nil in He.
Qed.

Lemma params_NoDup t : NoDup (rq_param <$> GetQuotaConfig t).
Proof.
  unfold GetQuotaConfig.
  destruct (IsRHOAMMultitenant t); apply (bool_decide_unpack _); vm_compute; exact I.
Qed.

(** Selecting any shipped quota by its param gives that quota: its name,
    and a rate limit that is the least number of requests a minute with which
    the advertised requests of a day fit.  Every product component the
    installation type deploys has its own replicas in it, at least one. *)
Theorem shipped_quota_selected {Q} `{Quantity Q} t e um data (s0 : Quota Q) :
  e ∈ GetQuotaConfig t →
  um (omap_get "" data ConfigMapData) = inr (to_receiver <$> GetQuotaConfig t) →
  ∃ s d, GetQuota um (rq_param e) data s0 = (s, None) ∧ GetName s = rq_name e
    ∧ Quota_GetRateLimitConfig s = rq_rate e
    ∧ advertised (rq_name e) = Some d
    ∧ (d ≤ RequestsPerUnit (rq_rate e) * 1440)%Z
    ∧ ((RequestsPerUnit (rq_rate e) - 1) * 1440 < d)%Z
    ∧ ∀ pr ddcss n, products !! pr = Some ddcss → n ∈ ddcss → n ∈ components_of t →
        (1 ≤ GetReplicas (GetProduct s pr) n)%Z.
Proof.
  intros He Hum. pose proof (entry_ok_table t e He) as Hok. unfold entry_ok, rate_is_least in Hok.
  rewrite !andb_true_iff in Hok. destruct Hok as [[[_ Hrate] Hres] Hnames].
  apply bool_decide_eq_true in Hnames.
  destruct (advertised (rq_name e)) as [d|] eqn:Hadv; [|done].
  rewrite andb_true_iff, Z.leb_le, Z.ltb_lt in Hrate.
  assert (find_receiver (to_receiver (Q := Q) <$> GetQuotaConfig t) (rq_param e) = to_receiver e)
    as Hf by (apply find_receiver_nodup; [apply params_NoDup|done]).
  destruct (GetQuota um (rq_param e) data s0) as [s er] eqn:HG.
  pose proof HG as HG'. unfold GetQuota in HG'. rewrite Hum, Hf in HG'. cbn [r_Name to_receiver] in HG'.
  assert (rq_name e =?s "" = false) as Hn.
  { apply str_eqb_false. intros E. rewrite E in Hadv. by vm_compute in Hadv. }
  rewrite Hn in HG'. injection HG' as <- <-.
  eexists _, d. split_and!; try done; [tauto|tauto|].
  intros pr ddcss n Hp Hin Hc.
  destruct (GetQuota_component um (rq_param e) data s0 _ pr ddcss n _ Hum HG Hp Hin) as [Hcfg _].
  unfold GetReplicas. rewrite Hcfg, Hf. cbn [r_Resources to_receiver omap_get]. unfold map_get.
  rewrite <- Hnames in Hc. apply list_elem_of_fmap in Hc as ([n' r] & Hn' & Hr). simpl in Hn'. subst n'.
  rewrite forallb_forall in Hres. pose proof (Hres _ (proj1 (list_elem_of_In _ _) Hr)) as Hsane.
  unfold resources_sane in Hsane. rewrite !andb_true_iff, Z.leb_le in Hsane.
  rewrite (elem_of_list_to_map_1 _ n (to_resource_config r)); [cbn; exact (proj1 (proj1 Hsane))| |].
  - rewrite <- list_fmap_compose. change (fst ∘ prod_map id to_resource_config) with (fst (A := string) (B := RawResource)).
    rewrite Hnames. unfold components_of. destruct (IsRHOAMMultitenant t);
      apply (bool_decide_unpack _); vm_compute; exact I.
  - apply list_elem_of_fmap. by exists (n, r).
Qed.

Lemma shipped_quota_selected_witness :
  ∃ s d, GetQuota (Q := Z) (λ _, inr (to_receiver <$> GetQuotaConfig InstallationTypeManagedApi))
           "1000" None zero_Quota = (s, None) ∧ GetName s = "100 Million"
         ∧ (69444 * 1440 < d)%Z.
Proof.
  destruct (shipped_quota_selected (Q := Z) InstallationTypeManagedApi quota_100Million
    (λ _, inr (to_receiver <$> GetQuotaConfig InstallationTypeManagedApi)) None zero_Quota)
    as (s & d & H1 & H2 & _ & _ & _ & H3 & _).
  - apply list_elem_of_In. left. reflexivity.
  - reflexivity.
  - exists s, d. split; [exact H1|]. split; [exact H2|exact H3].
Defined.
