(* ===== verification/Addon.v ===== *)
(** * The add-on (pkg/addon)

    parameters.go, operator_run.go and uninstall.go: where the parameters of
    the add-on installation are read from, how the operator is being run, and
    how it removes itself. *)

From stdpp Require Import base list strings gmap.
From Stdlib Require Import ZArith Lia.
From S2P Require Import Prelude Kube Api Resources Olm.

(** ** Objects *)

(** appsv1.Deployment, where only its existence matters. *)
Record DeploymentRef := mkDeploymentRef { dep_meta : ObjectMeta }.
#[global] Instance DeploymentRef_eq_dec : EqDecision DeploymentRef.
Proof. solve_decision. Defined.
#[global] Instance DeploymentRef_object : K8sObject DeploymentRef := {|
  meta := dep_meta; set_meta m _ := mkDeploymentRef m;
  semantic_deep_equal a b := bool_decide (a = b);
|}.

(** ** parameters.go *)

Definition QuotaParamName : string := "addon-managed-api-service".
Definition TrialQuotaParamName : string := "trial-quota".
Definition ManagedAPIService : string := "managed-api-service".
Definition DefaultSecretName : string := "addon-managed-api-service-parameters".

(** The pattern ^addon-* is the prefix addon and any number of dashes. *)
Definition hasAddonPrefix (s : string) : bool := has_prefix "addon" s.

Section parameters.
Context {W : Type} `{Client W Subscription} `{Client W Secret}.

Definition parametersSecretName (subs : list Subscription) : string :=
  match subs with
  | [s] =>
      let n := Name (sub_meta s) +:+ "-parameters" in
      if hasAddonPrefix n then n else "addon-" +:+ n
  | _ => DefaultSecretName
  end.

Definition GetAddonParametersSecret (c : KClient) (namespace : string) : M W (error + Secret) :=
  ls ← client_list c (mkListOptions (Some namespace) []);
  match ls with
  | inl err => mret (inl err)
  | inr subs =>
      if (1 <? length subs)%nat
      then mret (inl (ErrStr ("received " +:+ itoa (Z.of_nat (length subs)) +:+ " subscriptions in "
                              +:+ namespace +:+ " namespace. Expected one")))
      else client_get c namespace (parametersSecretName subs)
  end.

Definition GetParameter (c : KClient) (namespace parameter : string)
    : M W (option string * bool * option error) :=
  s ← GetAddonParametersSecret c namespace;
  match s with
  | inl err => mret (None, false, Some err)
  | inr secret =>
      let v := omap_lookup (sec_Data secret) parameter in mret (v, is_some v, None)
  end.

Definition GetStringParameter (c : KClient) (namespace parameter : string)
    : M W (string * bool * option error) :=
  '(value, ok, err) ← GetParameter c namespace parameter;
  if is_some err || negb ok then mret ("", ok, err) else mret (default "" value, ok, None).

(** strconv.Atoi gives 0 with a syntax error and the nearest int with a range
    error; both come back with [ok] set. *)
Definition Atoi_value (s : string) : Z * option error :=
  match parse_digits s with
  | None => (0%Z, Some (ErrStr "strconv.Atoi: invalid syntax"))
  | Some z =>
      if (max_int64 <? z)%Z then (max_int64, Some (ErrStr "strconv.Atoi: value out of range"))
      else if (z <? min_int64)%Z then (min_int64, Some (ErrStr "strconv.Atoi: value out of range"))
      else (z, None)
  end.

Definition GetIntParameter (c : KClient) (namespace parameter : string)
    : M W (Z * bool * option error) :=
  '(value, ok, err) ← GetStringParameter c namespace parameter;
  if is_some err || negb ok then mret (0%Z, ok, err)
  else let '(z, e) := Atoi_value value in mret (z, ok, e).

Definition GetBoolParameter (c : KClient) (namespace parameter : string)
    : M W (bool * bool * option error) :=
  '(value, ok, err) ← GetStringParameter c namespace parameter;
  if is_some err || negb ok then mret (false, ok, err)
  else match parse_bool value with
       | Some b => mret (b, ok, None)
       | None => mret (false, ok, Some (ErrStr "strconv.ParseBool: invalid syntax"))
       end.

Definition ExistsParameterByInstallation (c : KClient) (install : RHMI) (parameter : string)
    : M W (bool * option error) :=
  '(_, found, err) ← GetParameter c (Namespace (rhmi_meta install)) parameter;
  mret (found, err).
End parameters.

(** ** operator_run.go *)

Definition RhoamAddonInstallManagedLabel : string := "rhoam.addon.install/managed".
Definition AddonRunType : string := "Addon".
Definition OLMRunType : string := "OLM".
Definition ClusterRunType : string := "Cluster".
Definition LocalRunType : string := "Local".
Definition addonPrefixed (n : string) : string := "addon-" +:+ n.

Definition runTypesBySubscription : gmap string string := list_to_map [
  (addonPrefixed ManagedAPIService, AddonRunType);
  (ManagedAPIService, OLMRunType);
  ("integreatly", OLMRunType)].

Definition rhoam_olm_label : string :=
  "operators.coreos.com/managed-api-service.redhat-rhoam-operator".

Section operator_run.
Context {W : Type} `{Client W Subscription} `{Client W DeploymentRef} `{Client W NamespaceObj}
  `{Client W CatalogSource} `{MapRange W}.

(** The first subscription that carries the label, if any. *)
Fixpoint find_labelled (subs : list Subscription) : option Subscription :=
  match subs with
  | [] => None
  | s :: subs' =>
      if is_some (omap_lookup (Labels (sub_meta s)) rhoam_olm_label) then Some s
      else find_labelled subs'
  end.

Definition GetRhoamOperatorSubscription (c : KClient) (ns : string)
    : M W (option Subscription * option error) :=
  ls ← client_list c (InNamespace ns);
  match ls with
  | inl err => mret (None, Some err)
  | inr subs => mret (find_labelled subs, None)
  end.

(** The range over the known subscription names, in the order [names]. *)
Fixpoint get_known_subscription (c : KClient) (ns : string) (names : list string)
    : M W (option Subscription * option error) :=
  match names with
  | [] => mret (None, None)
  | n :: names' =>
      got ← client_get c ns n;
      match got with
      | inl err =>
          if IsNotFound (Some err) then get_known_subscription c ns names'
          else mret (None, Some err)
      | inr s => mret (Some s, None)
      end
  end.

Definition GetSubscription (c : KClient) (installation : RHMI)
    : M W (option Subscription * option error) :=
  let ns := Namespace (rhmi_meta installation) in
  names ← reads (λ w, range_keys w (dom runTypesBySubscription));
  '(s, err) ← get_known_subscription c ns names;
  match s, err with
  | None, None => GetRhoamOperatorSubscription c ns
  | _, _ => mret (s, err)
  end.

Definition IsClusterRunType (c : KClient) (installation : RHMI) : M W (bool * option error) :=
  Exists c (mkDeploymentRef (named (Namespace (rhmi_meta installation)) "rhoam-operator")).

Definition InferOperatorRunType (c : KClient) (installation : RHMI) : M W (string * option error) :=
  '(s, err) ← GetSubscription c installation;
  match err with
  | Some e => mret ("", Some e)
  | None =>
      match s with
      | Some s => mret (map_get "" runTypesBySubscription (Name (sub_meta s)), None)
      | None =>
          '(isCluster, err) ← IsClusterRunType c installation;
          match err with
          | Some e => mret ("", Some e)
          | None => mret (match isCluster with true => ClusterRunType | false => LocalRunType end, None)
          end
      end
  end.

Definition OperatorInstalledViaOLM (c : KClient) (installation : RHMI)
    : M W (bool * option error) :=
  '(runType, err) ← InferOperatorRunType c installation;
  match err with
  | Some e => mret (false, Some e)
  | None => mret (runType =?s OLMRunType, None)
  end.

Definition OperatorIsHiveManaged (c : KClient) (installation : RHMI) : M W (bool * option error) :=
  let n := Namespace (rhmi_meta installation) in
  got ← client_get c "" n;
  match got with
  | inl err => mret (false, Some (ErrWrap ("could not retrieve " +:+ n +:+ " namespace: ") err))
  | inr ns =>
      match omap_lookup (Labels (ns_meta ns)) RhoamAddonInstallManagedLabel with
      | Some v => mret (v =?s "true", None)
      | None => mret (false, None)
      end
  end.

Definition GetCatalogSource (c : KClient) (installation : RHMI)
    : M W (option CatalogSource * option error) :=
  '(s, err) ← GetSubscription c installation;
  match err, s with
  | Some e, _ => mret (None, Some e)
  | None, None => mret (None, None)
  | None, Some s =>
      match sub_Spec s with
      | None => panic "nil pointer dereference"
      | Some sp =>
          got ← client_get c (ss_CatalogSourceNamespace sp) (ss_CatalogSource sp);
          match got with
          | inl e => mret (None, Some e)
          | inr cs => mret (Some cs, None)
          end
      end
  end.
End operator_run.

(** ** uninstall.go *)

Section uninstall.
Context {W : Type} `{Client W Subscription} `{Client W ClusterServiceVersion} `{MapRange W}
  `{NewClient W}.

Definition UninstallOperator (c : KClient) (installation : RHMI) : M W (option error) :=
  '(subscription, err) ← GetSubscription c installation;
  match err with
  | Some e => mret (Some e)
  | None =>
      match subscription with
      | None => mret None
      | Some s =>
          got ← client_get c (Namespace (rhmi_meta installation)) (sub_InstalledCSV s);
          match got with
          | inl e => if IsNotFound (Some e) then mret None else mret (Some e)
          | inr csv => client_delete c csv
          end
      end
  end.

(** admission.Response: an HTTP error code, or the reason it is allowed. *)
Inductive admission := Errored (code : Z) (e : error) | Allowed (reason : string).

(** The handler keeps the client it once made; [decoded] is what the decoder
    gives for the request. *)
Definition getClient (h : option KClient) : M W (option KClient * (error + KClient)) :=
  match h with
  | Some c => mret (h, inr c)
  | None =>
      r ← k8sclient_New;
      match r with
      | inl e => mret (None, inl e)
      | inr c => mret (Some c, inr c)
      end
  end.

Definition Handle (h : option KClient) (decoded : error + RHMI) : M W (option KClient * admission) :=
  match decoded with
  | inl err => mret (h, Errored 400 err)
  | inr rhmi =>
      if negb (length (Finalizers (rhmi_meta rhmi)) =? 0)%nat
      then mret (h, Allowed "RHMI CR has finalizers")
      else
        '(h, c) ← getClient h;
        match c with
        | inl err => mret (h, Errored 500 err)
        | inr c =>
            e ← UninstallOperator c rhmi;
            match e with
            | Some err => mret (h, Errored 500 err)
            | None => mret (h, Allowed "Operator Uninstalled")
            end
        end
  end.
End uninstall.

(** ** Properties *)

Section parameter_properties.
Context {W : Type} `{Client W Subscription} `{Client W Secret}.

(** The add-on parameters are read from exactly one secret: with no
    subscription in the namespace the default one, with one subscription the
    one named after it (prefixed with addon- unless the name already starts
    with addon), and with more than one none at all, an error. *)
Theorem GetAddonParametersSecret_which (c : KClient) ns w w' subs :
  client_list (O := Subscription) c (mkListOptions (Some ns) []) w = (Done (inr subs), w') →
  GetAddonParametersSecret c ns w =
  match subs with
  | [] => client_get c ns DefaultSecretName w'
  | [s] =>
      client_get c ns
        ((if has_prefix "addon" (Name (sub_meta s)) then "" else "addon-")
           +:+ Name (sub_meta s) +:+ "-parameters") w'
  | _ => (Done (inl (ErrStr ("received " +:+ itoa (Z.of_nat (length subs)) +:+ " subscriptions in "
                             +:+ ns +:+ " namespace. Expected one"))), w')
  end.
Proof.
  intros Hl. unfold GetAddonParametersSecret. rewrite (bind_done _ _ _ _ _ Hl).
  destruct subs as [|s [|s' subs]]; [done| |done]. cbn [length Nat.ltb Nat.leb parametersSecretName].
  unfold hasAddonPrefix, has_prefix.
  pose proof (has_prefix_app_sep (Ascii.ascii_of_nat 45) "addon" (Name (sub_meta s)) "parameters" eq_refl) as Hp.
  unfold has_prefix in Hp. change (String _ "parameters") with "-parameters" in Hp. rewrite Hp.
  by destruct (String.prefix "addon" (Name (sub_meta s))).
Qed.
End parameter_properties.

(** A store of subscriptions and one of secrets. *)
Record AddonWorld := mkAddonWorld { w_subs : Store Subscription; w_secrets : Store Secret }.
#[export] Instance AddonWorld_subs : HasStore AddonWorld Subscription := {|
  store := w_subs; set_store s w := mkAddonWorld s (w_secrets w) |}.
#[export] Instance AddonWorld_secrets : HasStore AddonWorld Secret := {|
  store := w_secrets; set_store s w := mkAddonWorld (w_subs w) s |}.

Definition example_sub (n : string) : Subscription := mkSubscription (named "ns" n) None "csv" false None "".
Definition example_secret : Secret :=
  mkSecret (named "ns" "addon-rhoam-parameters") (Some {[QuotaParamName := "10"]}).
Definition example_addon : AddonWorld :=
  mkAddonWorld {[("ns", "rhoam") := example_sub "rhoam"]}
    {[("ns", "addon-rhoam-parameters") := example_secret]}.

Lemma GetAddonParametersSecret_which_witness :
  @GetAddonParametersSecret _ fake_client fake_client ManagerClient "ns" example_addon
  = (Done (inr example_secret), example_addon).
Proof.
  rewrite (@GetAddonParametersSecret_which _ fake_client fake_client ManagerClient "ns" example_addon
    example_addon [example_sub "rhoam"]); vm_compute; reflexivity.
Defined.
