(* ===== verification/Alerts.v ===== *)
(** * Alerts (pkg/resources/prometheusRules.go and metrics.go)

    The reconciler of a product's alerts, and the alert rules that watch the
    product's Postgres and Redis. *)

From stdpp Require Import base list strings gmap.
From Stdlib Require Import ZArith Lia Ascii.
From S2P Require Import Prelude Numbers Kube Api Resources Config Addon Cro.

(** ** Prometheus rules *)

(** monv1.Rule (and monitoringv1.Rule, which has the same fields). *)
Record Rule := mkRule {
  Alert : string;
  Expr : string;
  For : option string;
  RuleLabels : gmap string string;
  RuleAnnotations : gmap string string;
}.
#[global] Instance Rule_eq_dec : EqDecision Rule.
Proof. solve_decision. Defined.
Record RuleGroup := mkRuleGroup { group_Name : string; Rules : list Rule; Interval : option string }.
#[global] Instance RuleGroup_eq_dec : EqDecision RuleGroup.
Proof. solve_decision. Defined.

(** PrometheusRule of monitoring.rhobs (monv1) *)
Record PrometheusRule := mkPrometheusRule { rule_meta : ObjectMeta; rule_Groups : list RuleGroup }.
#[global] Instance PrometheusRule_eq_dec : EqDecision PrometheusRule.
Proof. solve_decision. Defined.
#[global] Instance PrometheusRule_object : K8sObject PrometheusRule := {|
  meta := rule_meta; set_meta m r := mkPrometheusRule m (rule_Groups r);
  semantic_deep_equal a b := bool_decide (a = b);
|}.
(** PrometheusRule of monitoring.coreos.com (monitoringv1), another kind. *)
Record UpstreamPrometheusRule := mkUpstreamRule { up_meta : ObjectMeta; up_Groups : list RuleGroup }.
#[global] Instance UpstreamPrometheusRule_eq_dec : EqDecision UpstreamPrometheusRule.
Proof. solve_decision. Defined.
#[global] Instance UpstreamPrometheusRule_object : K8sObject UpstreamPrometheusRule := {|
  meta := up_meta; set_meta m r := mkUpstreamRule m (up_Groups r);
  semantic_deep_equal a b := bool_decide (a = b);
|}.

(** DurationPtr and UpDurationPtr of utils.go *)
Definition DurationPtr (durationStr : string) : outcome (option string) :=
  match ParseDuration durationStr with
  | None => Panic ("Invalid duration string provided to DurationPtr: " +:+ durationStr)
  | Some _ => Done (Some durationStr)
  end.
Definition UpDurationPtr (durationStr : string) : outcome (option string) :=
  match ParseDuration durationStr with
  | None => Panic ("Invalid duration string provided to UpDurationPtr: " +:+ durationStr)
  | Some _ => Done (Some durationStr)
  end.

Definition InstallationNames : gmap string string := list_to_map [
  (InstallationTypeManagedApi, "rhoam"); (InstallationTypeMultitenantManagedApi, "rhoam")].

(** ** prometheusRules.go *)

(** The dynamic type of AlertConfiguration.Rules. *)
Inductive AlertRules :=
  | OboRules (rules : list Rule)
  | UpstreamRules (rules : list Rule)
  | OtherRules.

Record AlertConfiguration := mkAlertConfiguration {
  AlertName : string;
  GroupName : string;
  alert_Namespace : string;
  alert_Interval : string;
  alert_Rules : AlertRules;
}.

(** AlertReconcilerImpl without its logger. *)
Record AlertReconcilerImpl := mkAlertReconciler {
  ar_ProductName : string;
  ar_Installation : RHMI;
  ar_Alerts : list AlertConfiguration;
  ar_RemovedAlerts : list AlertConfiguration;
}.

Definition rule_labels : option (gmap string string) :=
  Some {["integreatly" := "yes"; GetOboLabelSelectorKey := GetOboLabelSelector]}.

Section alert_reconciler.
Context {W : Type} `{Client W PrometheusRule} `{Client W UpstreamPrometheusRule}.

Definition reconcileRule (c : KClient) (alert : AlertConfiguration)
    : M W (OperationResult * option error) :=
  let m := named (alert_Namespace alert) (AlertName alert) in
  match alert_Rules alert with
  | OboRules rules =>
      '(_, r) ← CreateOrUpdate c (mkPrometheusRule m []) (λ rule,
        interval ← lift (if negb (alert_Interval alert =?s "") then DurationPtr (alert_Interval alert)
                         else Done None);
        mret (mkPrometheusRule (SetLabels rule_labels (rule_meta rule))
                [mkRuleGroup (GroupName alert) rules interval], None));
      mret r
  | UpstreamRules rules =>
      '(_, r) ← CreateOrUpdate c (mkUpstreamRule m []) (λ rule,
        interval ← lift (if negb (alert_Interval alert =?s "") then UpDurationPtr (alert_Interval alert)
                         else Done None);
        mret (mkUpstreamRule (SetLabels rule_labels (up_meta rule))
                [mkRuleGroup (GroupName alert) rules interval], None));
      mret r
  | OtherRules => mret (OperationResultNone, Some (ErrStr "failed to find alert type"))
  end.

(** The rules are looked up as monitoring.coreos.com rules, whatever kind
    they were created as. *)
Fixpoint deleteAlerts (c : KClient) (alerts : list AlertConfiguration) : M W (option error) :=
  match alerts with
  | [] => mret None
  | alert :: alerts =>
      got ← client_get (O := UpstreamPrometheusRule) c (alert_Namespace alert) (AlertName alert);
      match got with
      | inl err =>
          if IsNotFound (Some err) then deleteAlerts c alerts
          else mret (Some (errorf_v ("failed to retrieve alert " +:+ AlertName alert +:+ ": ") (Some err)))
      | inr rule =>
          derr ← client_delete c rule;
          match derr with
          | Some e => mret (Some (errorf_v ("failed to delete alert " +:+ AlertName alert +:+ ": ") (Some e)))
          | None => deleteAlerts c alerts
          end
      end
  end.

Fixpoint reconcile_rules (c : KClient) (alerts : list AlertConfiguration) : M W (option error) :=
  match alerts with
  | [] => mret None
  | alert :: alerts =>
      '(_, err) ← reconcileRule c alert;
      match err with Some e => mret (Some e) | None => reconcile_rules c alerts end
  end.

Definition ReconcileAlerts (r : AlertReconcilerImpl) (c : KClient) : M W (StatusPhase * option error) :=
  if is_some (DeletionTimestamp (rhmi_meta (ar_Installation r))) then
    err ← deleteAlerts c (ar_Alerts r ++ ar_RemovedAlerts r);
    match err with Some e => mret (PhaseFailed, Some e) | None => mret (PhaseCompleted, None) end
  else
    err ← reconcile_rules c (ar_Alerts r);
    match err with
    | Some e => mret (PhaseFailed, Some e)
    | None =>
        err ← deleteAlerts c (ar_RemovedAlerts r);
        match err with Some e => mret (PhaseFailed, Some e) | None => mret (PhaseCompleted, None) end
    end.
End alert_reconciler.

(** ** Facts *)

Section alert_facts.
Context {W : Type} `{Client W PrometheusRule} `{Client W UpstreamPrometheusRule}.

Lemma deleteAlerts_preserves (R : W → W → Prop) `{!PreOrder R} c alerts :
  (∀ ns n, preserves R (client_get (O := UpstreamPrometheusRule) c ns n)) →
  (∀ r : UpstreamPrometheusRule, preserves R (client_delete c r)) →
  preserves R (deleteAlerts c alerts).
Proof. intros Hg Hd. induction alerts; cbn [deleteAlerts]; frame. Qed.

(** C30: When the installation is being deleted, ReconcileAlerts reads and
    deletes rules of the upstream kind only: on a server that keeps the two
    kinds of rules apart, no rule that was created from monitoring.rhobs
    rules goes, also when ReconcileAlerts reports it completed. *)
Theorem ReconcileAlerts_never_deletes_obo_rules (rules : W → gmap (string * string) PrometheusRule)
    (r : AlertReconcilerImpl) c (w : W) res w' :
  (∀ ns n, preserves (same rules) (client_get (O := UpstreamPrometheusRule) c ns n)) →
  (∀ o : UpstreamPrometheusRule, preserves (same rules) (client_delete c o)) →
  DeletionTimestamp (rhmi_meta (ar_Installation r)) ≠ None →
  ReconcileAlerts r c w = (res, w') → rules w' = rules w.
Proof.
  intros Hg Hd Hdel. unfold ReconcileAlerts.
  destruct (DeletionTimestamp _); [cbn [is_some]; intros Hr|done].
  assert (preserves (same rules)
    (err ← deleteAlerts c (ar_Alerts r ++ ar_RemovedAlerts r);
     match err with Some e => mret (PhaseFailed, Some e) | None => mret (PhaseCompleted, None) end
     : M W (StatusPhase * option error))) as Hp; [|by apply (Hp _ _ _ Hr)].
  apply preserves_bind; [apply _|by apply deleteAlerts_preserves; [apply _|..]|intros []; frame].
Qed.
End alert_facts.
