(* ===== verification/CloudAlerts.v ===== *)
(** * Alerts on cloud resources (pkg/resources/metrics.go)

    The Prometheus rules that watch a product's Postgres and Redis, and the
    ones that watch the secrets of an installation. *)

From stdpp Require Import base list strings gmap.
From Stdlib Require Import ZArith Ascii.
From S2P Require Import Prelude Numbers Kube Api Resources Config Olm Cluster Addon Cro Alerts.

Definition alertFor5Mins : string := "5m".
Definition alertFor10Mins : string := "10m".
Definition alertFor15Mins : string := "15m".
Definition alertFor20Mins : string := "20m".
Definition alertFor30Mins : string := "30m".
Definition alertFor60Mins : string := "60m".
Definition alertPercentage : string := "80".

(** sop_url.go, the addresses used here *)
Definition sop_help : string := "https://gitlab.cee.redhat.com/rhcloudservices/integreatly-help/".
Definition sopUrlRhoamBase : string := sop_help +:+ "blob/master/sops/rhoam/alerts/".
Definition sopUrlAddonManagedApiServiceParametersExists : string :=
  sopUrlRhoamBase +:+ "AddonManagedApiServiceParameters.asciidoc".
Definition sopUrlPostgresInstanceUnavailable : string :=
  sopUrlRhoamBase +:+ "postgres_instance_unavailable.asciidoc".
Definition sopUrlPostgresConnectionFailed : string :=
  sopUrlRhoamBase +:+ "postgres_connection_failed.asciidoc".
Definition sopUrlRedisCacheUnavailable : string := sopUrlRhoamBase +:+ "redis_cache_unavailable.asciidoc".
Definition sopUrlRedisConnectionFailed : string := sopUrlRhoamBase +:+ "redis_connection_failed.asciidoc".
Definition sopUrlPostgresResourceStatusPhasePending : string :=
  sopUrlRhoamBase +:+ "postgres_resource_status_phase_pending.asciidoc".
Definition sopUrlPostgresResourceStatusPhaseFailed : string :=
  sopUrlRhoamBase +:+ "postgres_resource_status_phase_failed.asciidoc".
Definition sopUrlRedisResourceStatusPhasePending : string :=
  sopUrlRhoamBase +:+ "redis_resource_status_phase_pending.asciidoc".
Definition sopUrlRedisResourceStatusPhaseFailed : string :=
  sopUrlRhoamBase +:+ "redis_resource_status_phase_failed.asciidoc".
Definition sopUrlPostgresWillFill : string := sopUrlRhoamBase +:+ "postgres_storage_alerts.asciidoc".
Definition sopUrlPostgresFreeableMemoryLow : string :=
  sopUrlRhoamBase +:+ "postgres_freeable_memory_low.asciidoc".
Definition sopUrlRedisMemoryUsageHigh : string := sopUrlRhoamBase +:+ "redis_memory_usage_high.asciidoc".
Definition sopUrlPostgresCpuUsageHigh : string := sopUrlRhoamBase +:+ "postgres_cpu_usage_high.asciidoc".
Definition sopUrlRedisCpuUsageHigh : string := sopUrlRhoamBase +:+ "redis_cpu_usage_high.asciidoc".
Definition sopUrlRedisServiceMaintenanceCritical : string :=
  sopUrlRhoamBase +:+ "RedisServiceMaintenanceCritical.asciidoc".
Definition sopUrlCloudResourceDeletionStatusFailed : string :=
  sop_help +:+ "tree/master/sops/rhoam/alerts/clean_up_cloud_resources_failed_teardown.asciidoc".
Definition sopUrlSendGridSmtpSecretExists : string :=
  sopUrlRhoamBase +:+ "sendgrid_smtp_secret_not_present.asciidoc".
Definition SopUrlDeadMansSnitchSecretExists : string :=
  sopUrlRhoamBase +:+ "DeadMansSnitchSecretNotPresent.asciidoc".

(** cases.Title(language.English) of golang.org/x/text *)
Class TitleCase := caser_String : string → string.

(** strings.Replace(s, sub, "", -1) for a text that is not empty. *)
Fixpoint remove_all (sub : string) (skip : nat) (s : string) : string :=
  match s with
  | EmptyString => EmptyString
  | String c s' =>
      match skip with
      | S k => remove_all sub k s'
      | O => if has_prefix sub s then remove_all sub (String.length sub - 1) s'
             else String c (remove_all sub 0 s')
      end
  end.

(** What one call of reconcilePrometheusRule is given. *)
Record AlertRule := mkAlertRule {
  ruleName : string;
  alertName : string;
  alertDescription : string;
  sopURL : string;
  alertFor : string;
  alertExp : string;
  alertLabels : gmap string string;
}.

Section rules.
Context `{TitleCase}.

(** *** Rules about a Postgres *)

Section postgres.
Context (cr : Postgres) (installType : string).
Let name := Name (pg_meta cr).
Let productName := omap_get "" (Labels (pg_meta cr)) "productName".
Let postgresCRName := caser_String (remove_all "postgres-example-rhmi" 0 name).
Let selector metric := metric +:+ "{exported_namespace='" +:+ Namespace (pg_meta cr)
  +:+ "',resourceID='" +:+ name +:+ "',productName='" +:+ productName.
Let where_ := "Postgres Custom Resource: " +:+ name +:+ " in namespace " +:+ Namespace (pg_meta cr)
  +:+ " (strategy: " +:+ pg_Strategy cr +:+ ") for product: " +:+ productName.
Let labels severity : gmap string string := list_to_map [("severity", severity);
  ("productName", productName); ("product", map_get "" InstallationNames installType)].
Let plain_labels : gmap string string := list_to_map [("severity", "critical");
  ("product", map_get "" InstallationNames installType)].

Definition postgres_availability : AlertRule :=
  let alertName := postgresCRName +:+ "PostgresInstanceUnavailable" in
  mkAlertRule ("availability-rule-" +:+ name) alertName
    ("Postgres instance: '" +:+ name +:+ "' (strategy: " +:+ pg_Strategy cr +:+ ") for product: "
       +:+ productName +:+ " is unavailable")
    (if str_contains "sso" productName then sopUrlPostgresInstanceUnavailable
     else sopUrlRhoamBase +:+ alertName +:+ ".asciidoc")
    alertFor5Mins (selector "cro_postgres_available" +:+ "'} == 0") (labels "critical").

Definition postgres_connectivity : AlertRule :=
  let alertName := postgresCRName +:+ "PostgresConnectionFailed" in
  mkAlertRule ("connectivity-rule-" +:+ name) alertName
    ("Unable to connect to Postgres instance. " +:+ where_)
    (if str_contains "sso" productName then sopUrlPostgresConnectionFailed
     else sopUrlRhoamBase +:+ alertName +:+ ".asciidoc")
    alertFor5Mins (selector "cro_postgres_connection" +:+ "'} == 0") (labels "critical").

Definition postgres_pending : AlertRule :=
  mkAlertRule ("resource-status-phase-pending-rule-" +:+ name)
    (postgresCRName +:+ "PostgresResourceStatusPhasePending")
    ("The creation of the Postgres instance has take longer that " +:+ alertFor20Mins +:+ ". " +:+ where_)
    sopUrlPostgresResourceStatusPhasePending alertFor20Mins
    (selector "cro_postgres_status_phase" +:+ "',statusPhase='complete'} == 0") (labels "warning").

Definition postgres_failed : AlertRule :=
  mkAlertRule ("resource-status-phase-failed-rule-" +:+ name)
    (postgresCRName +:+ "PostgresResourceStatusPhaseFailed")
    ("The creation of the Postgres instance has been failing longer that " +:+ alertFor5Mins +:+ ". " +:+ where_)
    sopUrlPostgresResourceStatusPhaseFailed alertFor5Mins
    ("(" +:+ selector "cro_postgres_status_phase" +:+ "',statusPhase='failed'}) == 1 ") (labels "warning").

Definition postgres_deletion_failed : AlertRule :=
  mkAlertRule ("resource-deletion-status-phase-failed-rule-" +:+ name)
    (postgresCRName +:+ "PostgresResourceDeletionStatusPhaseFailed")
    ("The deletion of the Postgres instance has been failing longer than " +:+ alertFor5Mins +:+ ". " +:+ where_)
    sopUrlCloudResourceDeletionStatusFailed alertFor5Mins
    (selector "cro_postgres_deletion_timestamp" +:+ "',statusPhase='failed'}") (labels "warning").

Definition postgres_free_storage : list AlertRule :=
  let job := "operator-metrics-service" in
  [mkAlertRule "postgres-storage-will-fill-in-4-hours" "PostgresStorageWillFillIn4Hours"
     "The postgres instance {{ $labels.instanceID }} for product {{  $labels.productName  }} will run of disk space in the next 4 hours"
     (sopUrlRhoamBase +:+ "PostgresStorageWillFillIn4Hours" +:+ ".asciidoc") alertFor30Mins
     ("(predict_linear(sum by (instanceID) (cro_postgres_free_storage_average{job='" +:+ job
      +:+ "'})[1h:1m], 5 * 3600) <= 0 and on (instanceID) (cro_postgres_free_storage_average < ((cro_postgres_current_allocated_storage / 100) * 25)))")
     plain_labels;
   mkAlertRule "postgres-storage-will-fill-in-4-days" "PostgresStorageWillFillIn4Days"
     "The postgres instance {{ $labels.instanceID }} for product {{  $labels.productName  }} will run of disk space in the next 4 days"
     sopUrlPostgresWillFill alertFor30Mins
     ("(predict_linear(sum by (instanceID) (cro_postgres_free_storage_average{job='" +:+ job
      +:+ "'})[6h:1m], 4 * 24 * 3600) <= 0) and on (instanceID) (cro_postgres_free_storage_average < ((cro_postgres_current_allocated_storage / 100) * 25))")
     plain_labels;
   mkAlertRule "postgres-storage-low" "PostgresStorageLow"
     "The postgres instance {{ $labels.instanceID }} for product {{  $labels.productName  }}, storage is currently under 20 percent of its capacity"
     sopUrlPostgresWillFill alertFor30Mins
     "cro_postgres_free_storage_average < ((cro_postgres_current_allocated_storage / 100 ) * 20)"
     plain_labels].

Definition postgres_freeable_memory : AlertRule :=
  mkAlertRule "postgres-freeable-memory-low" "PostgresFreeableMemoryLow"
    "The postgres instance {{ $labels.instanceID }} for product {{  $labels.productName  }}, freeable memory is currently under 5 percent of its capacity"
    sopUrlPostgresFreeableMemoryLow alertFor5Mins
    "(cro_postgres_freeable_memory_average) < ((cro_postgres_max_memory / 100 ) * 5)" plain_labels.

Definition postgres_cpu : AlertRule :=
  mkAlertRule "postgres-cpu-high" "PostgresCPUHigh"
    "the postgres instance {{ $labels.instanceID }} for product {{ $labels.productName }} has been using {{ $value }}% of available CPU for 60 minutes or more"
    sopUrlPostgresCpuUsageHigh alertFor30Mins "cro_postgres_cpu_utilization_average > 80" plain_labels.
End postgres.

(** *** Rules about a Redis *)

Section redis.
Context (cr : Redis).
Let name := Name (rd_meta cr).
Let productName := omap_get "" (Labels (rd_meta cr)) "productName".
Let redisCRName := caser_String (remove_all "redis-example-rhmi" 0 name).
Let selector metric := metric +:+ "{exported_namespace='" +:+ Namespace (rd_meta cr)
  +:+ "',resourceID='" +:+ name +:+ "',productName='" +:+ productName.
Let where_ := "Redis Custom Resource: " +:+ name +:+ " in namespace " +:+ Namespace (rd_meta cr)
  +:+ " (strategy: " +:+ rd_Strategy cr +:+ ") for ".
Let labels severity : gmap string string :=
  list_to_map [("severity", severity); ("productName", productName)].
Let instance_where := ". Redis Custom Resource: {{ $labels.resourceID }} in namespace {{ $labels.namespace }} for the product: {{ $labels.productName }}".

Definition redis_pending : AlertRule :=
  mkAlertRule ("resource-status-phase-pending-rule-" +:+ name)
    (redisCRName +:+ "RedisResourceStatusPhasePending")
    ("The creation of the Redis cache has take longer that " +:+ alertFor20Mins +:+ ". " +:+ where_
       +:+ "product: " +:+ productName)
    sopUrlRedisResourceStatusPhasePending alertFor20Mins
    (selector "cro_redis_status_phase" +:+ "',statusPhase='complete'} == 0") (labels "warning").

Definition redis_memory_usage : list AlertRule :=
  let job := "operator-metrics-service" in
  [mkAlertRule "redis-memory-usage-high" "RedisMemoryUsageHigh"
     ("Redis Memory for instance {{ $labels.instanceID }} is 80 percent or higher for the last hour" +:+ instance_where)
     sopUrlRedisMemoryUsageHigh alertFor30Mins
     ("cro_redis_memory_usage_percentage_average > " +:+ alertPercentage) (labels "critical");
   mkAlertRule "redis-memory-usage-will-max-in-4-hours" "RedisMemoryUsageMaxIn4Hours"
     ("Redis Memory Usage is predicted to max with in four hours for instance {{ $labels.instanceID }}" +:+ instance_where)
     sopUrlRedisMemoryUsageHigh alertFor30Mins
     ("(predict_linear(sum by (instanceID) (cro_redis_memory_usage_percentage_average{job='" +:+ job
      +:+ "'})[1h:1m], 5 * 3600) >= 100) and on (instanceID) (cro_redis_memory_usage_percentage_average{job='"
      +:+ job +:+ "'} > 75)") (labels "critical");
   mkAlertRule "redis-memory-usage-max-fill-in-4-days" "RedisMemoryUsageMaxIn4Days"
     ("Redis Memory Usage is predicted to max in four days for instance {{ $labels.instanceID }}" +:+ instance_where)
     sopUrlRedisMemoryUsageHigh alertFor30Mins
     ("(predict_linear(sum by (instanceID) (cro_redis_memory_usage_percentage_average{job='" +:+ job
      +:+ "'})[6h:1m], 4 * 24 * 3600) >= 100) and on (instanceID) (cro_redis_memory_usage_percentage_average{job='"
      +:+ job +:+ "'} > 75)") (labels "critical")].

Definition redis_failed : AlertRule :=
  mkAlertRule ("resource-status-phase-failed-rule-" +:+ name)
    (redisCRName +:+ "RedisResourceStatusPhaseFailed")
    ("The creation of the Redis cache is Failing longer that " +:+ alertFor5Mins +:+ ". " +:+ where_
       +:+ "product: " +:+ productName)
    sopUrlRedisResourceStatusPhaseFailed alertFor5Mins
    ("(" +:+ selector "cro_redis_status_phase" +:+ "',statusPhase='failed'}) == 1 ") (labels "warning").

Definition redis_deletion_failed : AlertRule :=
  mkAlertRule ("resource-deletion-status-phase-failed-rule-" +:+ name)
    (redisCRName +:+ "RedisResourceDeletionStatusPhaseFailed")
    ("The deletion of the Redis instance has been failing longer than " +:+ alertFor5Mins +:+ ". " +:+ where_
       +:+ "product: " +:+ productName)
    sopUrlCloudResourceDeletionStatusFailed alertFor5Mins
    (selector "cro_redis_deletion_timestamp" +:+ "',statusPhase='failed'}") (labels "warning").

Definition redis_availability : AlertRule :=
  let alertName := redisCRName +:+ "RedisCacheUnavailable" in
  let marin3r := productName =?s "marin3r" in
  mkAlertRule ("availability-rule-" +:+ name) alertName
    ("Redis instance: '" +:+ name +:+ "' (strategy: " +:+ rd_Strategy cr +:+ ") for the product: "
       +:+ productName +:+ " is unavailable")
    (if marin3r then sopUrlRedisCacheUnavailable else sopUrlRhoamBase +:+ alertName +:+ ".asciidoc")
    alertFor5Mins (selector "cro_redis_available" +:+ "'} == 0")
    (labels (if marin3r then "warning" else "critical")).

Definition redis_connectivity : AlertRule :=
  let alertName := redisCRName +:+ "RedisCacheConnectionFailed" in
  let marin3r := productName =?s "marin3r" in
  mkAlertRule ("connectivity-rule-" +:+ name) alertName
    ("Unable to connect to Redis instance. " +:+ where_ +:+ "the product: " +:+ productName)
    (if marin3r then sopUrlRedisConnectionFailed else sopUrlRhoamBase +:+ alertName +:+ ".asciidoc")
    alertFor30Mins (selector "cro_redis_connection" +:+ "'} == 0")
    (labels (if marin3r then "warning" else "critical")).

Definition redis_cpu_usage : AlertRule :=
  mkAlertRule "redis-cpu-usage-high" "RedisCpuUsageHigh"
    ("Redis Cpu for instance {{ $labels.instanceID }} is 80 percent or higher for the last hour" +:+ instance_where)
    sopUrlRedisCpuUsageHigh alertFor30Mins
    ("cro_redis_engine_cpu_utilization_average > " +:+ alertPercentage) (labels "critical").

Definition redis_service_maintenance : AlertRule :=
  mkAlertRule "redis-service-maintenance-critical" "RedisServiceMaintenanceCritical"
    ("Redis service maintenance update is available, this is a critical security update for instance {{ $labels.instanceID }}" +:+ instance_where)
    sopUrlRedisServiceMaintenanceCritical alertFor15Mins
    "cro_redis_service_maintenance{ServiceUpdateType='security-update',UpdateActionStatus!~'complete|waiting-to-start|in-progress|scheduled|stopping',ServiceUpdateSeverity='critical'}"
    (labels "warning").
End redis.
End rules.

(** ** Writing the rules *)

Definition alert_rule (r : AlertRule) (for_ : option string) : Rule :=
  mkRule (alertName r) (alertExp r) for_ (alertLabels r)
    (list_to_map [("description", alertDescription r); ("sop_url", sopURL r)]).
Definition alert_groups (r : AlertRule) (for_ : option string) : list RuleGroup :=
  [mkRuleGroup (alertName r +:+ "Group") [alert_rule r for_] None].
Definition SetName (ns n : string) (m : ObjectMeta) : ObjectMeta :=
  mkMeta n ns (UID m) (ResourceVersion m) (Generation m) (CreationTimestamp m) (DeletionTimestamp m)
    (Labels m) (Annotations m) (Finalizers m).

(** strings.ToLower(inst.Spec.UseClusterStorage) == "true" *)
Definition uses_cluster_storage (inst : RHMI) : bool :=
  to_lower (UseClusterStorage (Spec inst)) =?s "true".

Section writing.
Context {W : Type} `{Client W PrometheusRule} `{TitleCase}.

Definition reconcilePrometheusRule (c : KClient) (ns : string) (r : AlertRule)
    : M W (error + PrometheusRule) :=
  for_ ← lift (DurationPtr (alertFor r));
  let rule := mkPrometheusRule
    (SetLabels (Some {[GetOboLabelSelectorKey := GetOboLabelSelector]}) (named ns (ruleName r)))
    (alert_groups r for_) in
  '(rule, (_, err)) ← CreateOrUpdate c rule (λ rule,
    for_ ← lift (DurationPtr (alertFor r));
    mret (mkPrometheusRule (SetName ns (ruleName r) (rule_meta rule)) (alert_groups r for_), None));
  match err with
  | Some e => mret (inl (ErrWrap ("failed to reconcile prometheus rule request for "
                                  +:+ ruleName r +:+ ": ") e))
  | None => mret (inr rule)
  end.

(** The body of every create function: nothing is created for storage in the
    cluster, and a function that writes several rules stops at an error. *)
Fixpoint reconcile_rules_in (c : KClient) (ns : string) (rules : list AlertRule) : M W (option error) :=
  match rules with
  | [] => mret None
  | r :: rules =>
      w ← reconcilePrometheusRule c ns r;
      match w with inl e => mret (Some e) | inr _ => reconcile_rules_in c ns rules end
  end.
Definition create_rules (c : KClient) (inst : RHMI) (rules : list AlertRule) : M W (option error) :=
  if uses_cluster_storage inst then mret None
  else reconcile_rules_in c (GetOboNamespace (Namespace (rhmi_meta inst))) rules.

(** One create function after the other, an error under its step's text. *)
Fixpoint alert_steps (c : KClient) (inst : RHMI) (steps : list (string * list AlertRule))
    : M W (option error) :=
  match steps with
  | [] => mret None
  | (what, rules) :: steps =>
      err ← create_rules c inst rules;
      match err with
      | Some e => mret (Some (ErrWrap ("failed to create " +:+ what +:+ ": ") e))
      | None => alert_steps c inst steps
      end
  end.

(** The steps before the test of the phase, and the ones after it. *)
Definition postgres_steps (cr : Postgres) (ty : string)
    : list (string * list AlertRule) * list (string * list AlertRule) :=
  let n := Name (pg_meta cr) in
  ([("postgres failure alert for " +:+ n, [postgres_failed cr ty]);
    ("postgres deletion prometheus alert for " +:+ n, [postgres_deletion_failed cr ty])],
   [("postgres pending alert for " +:+ n, [postgres_pending cr ty]);
    ("postgres prometheus alert for " +:+ n, [postgres_availability cr ty]);
    ("postgres connectivity prometheus alert for " +:+ n, [postgres_connectivity cr ty]);
    ("postgres deletion prometheus alert for " +:+ n, [postgres_deletion_failed cr ty]);
    ("postgres free storage prometheus alerts for " +:+ n, postgres_free_storage ty);
    ("postgres freeable memory alert for " +:+ n, [postgres_freeable_memory ty]);
    ("postgres cpu utilization prometheus alerts for " +:+ n, [postgres_cpu ty])]).

Definition redis_steps (cr : Redis)
    : list (string * list AlertRule) * list (string * list AlertRule) :=
  let n := Name (rd_meta cr) in
  ([("redis failure alert " +:+ n, [redis_failed cr]);
    ("redis deletion failure alert for " +:+ n, [redis_deletion_failed cr])],
   [("redis pending alert " +:+ n, [redis_pending cr]);
    ("redis prometheus alert for " +:+ n, [redis_availability cr]);
    ("redis prometheus connectivity alert for " +:+ n, [redis_connectivity cr]);
    ("redis prometheus memory usage high alerts for " +:+ n, redis_memory_usage cr);
    ("redis prometheus cpu usage high alerts for " +:+ n, [redis_cpu_usage cr]);
    ("redis prometheus service maintenance critical alerts for " +:+ n,
      [redis_service_maintenance cr])]).

Definition reconcile_cro_alerts (c : KClient) (inst : RHMI) (phase : string)
    (steps : list (string * list AlertRule) * list (string * list AlertRule))
    : M W (StatusPhase * option error) :=
  err ← alert_steps c inst steps.1;
  match err with
  | Some e => mret (PhaseFailed, Some e)
  | None =>
      if negb (phase =?s CroPhaseComplete) then mret (PhaseAwaitingComponents, None)
      else
        err ← alert_steps c inst steps.2;
        match err with Some e => mret (PhaseFailed, Some e) | None => mret (PhaseCompleted, None) end
  end.

Definition ReconcilePostgresAlerts (c : KClient) (inst : RHMI) (cr : Postgres)
    : M W (StatusPhase * option error) :=
  reconcile_cro_alerts c inst (pg_Phase cr) (postgres_steps cr (Type_ (Spec inst))).
Definition ReconcileRedisAlerts (c : KClient) (inst : RHMI) (cr : Redis)
    : M W (StatusPhase * option error) :=
  reconcile_cro_alerts c inst (rd_Phase cr) (redis_steps cr).
Definition CreateRedisCpuUsageAlerts (c : KClient) (inst : RHMI) (cr : Redis) : M W (option error) :=
  create_rules c inst [redis_cpu_usage cr].

(** *** Rules about an installation's secrets.  The name prefix is spliced
    into a format string: it has no percent sign. *)

Definition installation_labels (cr : RHMI) (severity : string) : gmap string string :=
  list_to_map [("severity", severity); ("product", map_get "" InstallationNames (Type_ (Spec cr)))].
Definition secret_absent (namespace secret : string) : string :=
  "absent(kube_secret_info{namespace='" +:+ namespace +:+ "',secret='" +:+ secret +:+ "'} == 1)".

Definition create_secret_rule (c : KClient) (cr : RHMI) (what : string) (r : AlertRule)
    : M W (StatusPhase * option error) :=
  w ← reconcilePrometheusRule c (GetOboNamespace (Namespace (rhmi_meta cr))) r;
  match w with
  | inl e => mret (PhaseFailed,
      Some (errorf_v ("failed to create " +:+ what +:+ " exists rule err: ") (Some e)))
  | inr _ => mret (PhaseCompleted, None)
  end.

Definition smtp_secret_rule (cr : RHMI) : AlertRule :=
  let ns := Namespace (rhmi_meta cr) in
  mkAlertRule "sendgrid-smtp-secret-exists-rule" "SendgridSmtpSecretExists"
    ("The Sendgrid SMTP secret has not been created in the " +:+ ns
     +:+ " namespace and may need to be created manualy")
    sopUrlSendGridSmtpSecretExists alertFor10Mins
    (secret_absent ns (NamespacePrefix (Spec cr) +:+ "smtp")) (installation_labels cr "critical").
Definition CreateSmtpSecretExists (c : KClient) (cr : RHMI) : M W (StatusPhase * option error) :=
  create_secret_rule c cr "sendgrid smtp" (smtp_secret_rule cr).

Definition deadmanssnitch_rule (cr : RHMI) : AlertRule :=
  let ns := Namespace (rhmi_meta cr) in
  mkAlertRule "deadmanssnitch-secret-exists-rule" "DeadMansSnitchSecretExists"
    ("The DeadMansSnitch secret has not been created in the " +:+ ns
     +:+ " namespace and may need to be created manualy")
    SopUrlDeadMansSnitchSecretExists
    (if (Version (Status cr) =?s "") && negb (ToVersion (Status cr) =?s "")
     then alertFor60Mins else alertFor10Mins)
    (secret_absent ns (NamespacePrefix (Spec cr) +:+ "deadmanssnitch")) (installation_labels cr "warning").
Definition CreateDeadMansSnitchSecretExists (c : KClient) (cr : RHMI)
    : M W (StatusPhase * option error) :=
  create_secret_rule c cr "deadmanssnitch" (deadmanssnitch_rule cr).

Definition addon_parameters_rule (cr : RHMI) (secret : string) : AlertRule :=
  let ns := Namespace (rhmi_meta cr) in
  mkAlertRule "addon-managed-api-service-parameters-secret-exists-rule"
    "AddonManagedApiServiceParametersExists"
    ("The " +:+ secret +:+ " secret has been removed from the " +:+ ns
     +:+ " namespace, this secret should be generated and managed by Hive")
    sopUrlAddonManagedApiServiceParametersExists alertFor5Mins (secret_absent ns secret)
    (installation_labels cr "critical").
Definition CreateAddonManagedApiServiceParametersExists `{Client W Secret} `{Client W Subscription}
    (c : KClient) (cr : RHMI) : M W (StatusPhase * option error) :=
  got ← GetAddonParametersSecret c (Namespace (rhmi_meta cr));
  match got with
  | inl e => mret (PhaseFailed, Some (errorf_v
      "failed to create addon-managed-api-service-parameters secret exists rule err: " (Some e)))
  | inr secret =>
      create_secret_rule c cr "addon-managed-api-service-parameters secret"
        (addon_parameters_rule cr (Name (sec_meta secret)))
  end.
End writing.

(** ** Facts *)

(** The rules were all written to the namespace, in this order. *)
Inductive rules_written {W} `{Client W PrometheusRule} (c : KClient) (ns : string)
    : list AlertRule → W → W → Prop :=
  | rules_written_nil w : rules_written c ns [] w w
  | rules_written_cons r rules w rule w1 w2 :
      reconcilePrometheusRule c ns r w = (Done (inr rule), w1) →
      rules_written c ns rules w1 w2 → rules_written c ns (r :: rules) w w2.

Section facts.
Context {W : Type} `{Client W PrometheusRule} `{TitleCase}.

Lemma rules_written_app c ns l1 l2 (w w1 w2 : W) :
  rules_written c ns l1 w w1 → rules_written c ns l2 w1 w2 → rules_written c ns (l1 ++ l2) w w2.
Proof. induction 1; intros; simpl; [done|]. econstructor; eauto. Qed.

Lemma reconcile_rules_in_ok c ns rules (w w' : W) :
  reconcile_rules_in c ns rules w = (Done None, w') → rules_written c ns rules w w'.
Proof.
  revert w. induction rules as [|r rules IH]; intros w Hr; cbn [reconcile_rules_in] in Hr.
  - go_inv. constructor.
  - apply bind_done_inv in Hr as ([e|rule] & w1 & Hc & Hr); [go_inv|]. econstructor; eauto.
Qed.

Lemma create_rules_ok c inst rules (w w' : W) :
  create_rules c inst rules w = (Done None, w') →
  if uses_cluster_storage inst then w' = w
  else rules_written c (GetOboNamespace (Namespace (rhmi_meta inst))) rules w w'.
Proof.
  unfold create_rules. destruct (uses_cluster_storage inst); [intros; by go_inv|].
  apply reconcile_rules_in_ok.
Qed.

Lemma alert_steps_ok c inst steps (w w' : W) :
  alert_steps c inst steps w = (Done None, w') →
  if uses_cluster_storage inst then w' = w
  else rules_written c (GetOboNamespace (Namespace (rhmi_meta inst))) (steps ≫= snd) w w'.
Proof.
  revert w. induction steps as [|[what rules] steps IH]; intros w Hs; cbn [alert_steps] in Hs.
  - go_inv. destruct (uses_cluster_storage inst); [done|constructor].
  - apply bind_done_inv in Hs as ([e|] & w1 & Hc & Hs); [go_inv|].
    apply create_rules_ok in Hc. apply IH in Hs.
    destruct (uses_cluster_storage inst); [congruence|]. simpl. by eapply rules_written_app.
Qed.

Lemma reconcile_cro_alerts_ok c inst phase steps (w w' : W) ph :
  reconcile_cro_alerts c inst phase steps w = (Done (ph, None), w') →
  ph = (if phase =?s CroPhaseComplete then PhaseCompleted else PhaseAwaitingComponents)
  ∧ (if uses_cluster_storage inst then w' = w
     else rules_written c (GetOboNamespace (Namespace (rhmi_meta inst)))
            ((steps.1 ++ if phase =?s CroPhaseComplete then steps.2 else []) ≫= snd) w w').
Proof.
  unfold reconcile_cro_alerts. intros Hr.
  apply bind_done_inv in Hr as ([e|] & w1 & H1 & Hr); [go_inv|].
  apply alert_steps_ok in H1. destruct (phase =?s CroPhaseComplete); simpl negb in Hr; cbn match in Hr.
  - apply bind_done_inv in Hr as ([e|] & w2 & H2 & Hr); go_inv. apply alert_steps_ok in H2.
    split; [done|].
    destruct (uses_cluster_storage inst); [congruence|]. rewrite bind_app. by eapply rules_written_app.
  - go_inv. split; [done|]. by rewrite app_nil_r.
Qed.
End facts.

(** When the alerts of a Redis or a Postgres were reconciled without an
    error, the result is completed exactly when the resource is complete,
    and every rule was written, in order, to the observability namespace of
    the installation: the failure and deletion rules always, all the others
    once the resource is complete.  An installation that keeps its storage in
    the cluster gets no rule at all. *)
Theorem cro_alerts_complete {W} `{Client W PrometheusRule} `{TitleCase} c inst
    (cr : Redis + Postgres) (w w' : W) ph :
  (match cr with
   | inl r => ReconcileRedisAlerts c inst r
   | inr p => ReconcilePostgresAlerts c inst p
   end) w = (Done (ph, None), w') →
  let complete := match cr with inl r => rd_Phase r | inr p => pg_Phase p end =?s CroPhaseComplete in
  let ty := Type_ (Spec inst) in
  ph = (if complete then PhaseCompleted else PhaseAwaitingComponents)
  ∧ if uses_cluster_storage inst then w' = w
    else rules_written c (Namespace (rhmi_meta inst) +:+ "-observability")
      (match cr with
       | inl r => [redis_failed r; redis_deletion_failed r]
           ++ if complete then [redis_pending r; redis_availability r; redis_connectivity r]
                ++ redis_memory_usage r ++ [redis_cpu_usage r; redis_service_maintenance r] else []
       | inr p => [postgres_failed p ty; postgres_deletion_failed p ty]
           ++ if complete then [postgres_pending p ty; postgres_availability p ty;
                postgres_connectivity p ty; postgres_deletion_failed p ty] ++ postgres_free_storage ty
                ++ [postgres_freeable_memory ty; postgres_cpu ty] else []
       end) w w'.
Proof.
  intros Hr complete ty. destruct cr as [r|p]; apply reconcile_cro_alerts_ok in Hr as [-> Hr];
    (split; [done|]); destruct (uses_cluster_storage inst); try done;
    unfold complete; destruct (_ =?s CroPhaseComplete); exact Hr.
Qed.
