(* ===== verification/UsageAlerts.v ===== *)
(** * Alerts of the rate limit product (pkg/products/marin3r)

    apiUsagePrometheusRules.go, rejectedRequestsPrometheusRules.go and
    prometheusRules.go: the alerts on how much of the quota is used. *)

From stdpp Require Import base list strings gmap.
From Stdlib Require Import ZArith Lia Ascii DecimalString DecimalPos.
From S2P Require Import Prelude Numbers Kube Api Resources Olm Quota Pods RateLimit Cro Config Cluster Addon.
From S2P Require Import Alerts CloudAlerts.

(** ** Reading intervals and percentages *)

(** The first match of ([0-9]+)%$ in multi-line mode: the digits. *)
Fixpoint match_percentage (s : string) : option string :=
  match s with
  | EmptyString => None
  | String _ s' =>
      let '(digits, rest) := span_digits s in
      match rest with
      | String "%" rest' =>
          if negb (digits =?s "") && at_line_end rest' then Some digits else match_percentage s'
      | _ => match_percentage s'
      end
  end.

(** The first match of ([0-9]+)([a-zA-Z])$: the digits and the letter. *)
Fixpoint match_interval (s : string) : option (string * ascii) :=
  match s with
  | EmptyString => None
  | String _ s' =>
      let '(digits, rest) := span_digits s in
      match rest with
      | String c rest' =>
          if negb (digits =?s "") && is_letter c && at_line_end rest' then Some (digits, c)
          else match_interval s'
      | _ => match_interval s'
      end
  end.

(** The value is an int64 multiplied by an int64. *)
Definition intervalToMinutes (interval : string) : error + Z :=
  match match_interval interval with
  | None => inl (ErrStr ("invalid value for interval " +:+ interval))
  | Some (intervalValueStr, intervalUnit) =>
      let u := String intervalUnit EmptyString in
      let multiplier := if to_lower u =?s "m" then Some 1%Z
                        else if to_lower u =?s "h" then Some 60%Z else None in
      match multiplier with
      | None => inl (ErrStr ("invalid value for interval unit " +:+ u +:+ ", must be m or h"))
      | Some multiplier =>
          match atoi_digits intervalValueStr with
          | None => inl (ErrStr ("strconv.Atoi: parsing " +:+ dquote +:+ intervalValueStr +:+ dquote
                                 +:+ ": value out of range"))
          | Some intervalValue =>
              let result := wrap_i64 (intervalValue * multiplier) in
              if (result <? 0)%Z || (max_uint32 <? result)%Z then
                inl (ErrStr ("calculated interval value " +:+ itoa result
                             +:+ " is out of the valid range for uint32"))
              else inr result
          end
      end
  end.

(** A nil pointer is [None]: of the argument, and of a result whose digits are
    out of range for an int. *)
Definition parsePercentage (percentage : option string) : error + option Z :=
  match percentage with
  | None => inr None
  | Some percentage =>
      match match_percentage percentage with
      | None => inl (ErrStr ("invalid value for percentage " +:+ percentage))
      | Some digits =>
          match atoi_digits digits with
          | None => inr None
          | Some result =>
              if (result <? 0)%Z || (100 <? result)%Z then
                inl (ErrStr (itoa result +:+ " is an invalid percentage"))
              else inr (Some result)
          end
      end
  end.

(** The message of the last error prints two addresses, left out here. *)
Definition parsePercentageRange (min : string) (max : option string)
    : outcome (error + Z * option Z) :=
  match parsePercentage (Some min) with
  | inl e => Done (inl e)
  | inr minValue =>
      match parsePercentage max with
      | inl e => Done (inl e)
      | inr maxValue =>
          match maxValue, minValue with
          | Some hi, None => Panic "nil pointer dereference"
          | Some hi, Some lo =>
              if (hi <? lo)%Z
              then Done (inl (ErrStr "min value must be less than or equal to max value"))
              else Done (inr (lo, Some hi))
          | None, None => Panic "nil pointer dereference"
          | None, Some lo => Done (inr (lo, None))
          end
      end
  end.

(** ** The alerts *)

Definition totalRequestsMetric : string := "authorized_calls".

Definition getRateLimitInSeconds (rateLimitUnit : string) (rateLimitRequestsPerUnit : Z)
    : error + float64 :=
  let n := f64_of_int rateLimitRequestsPerUnit in
  if rateLimitUnit =?s "second" then inr n
  else if rateLimitUnit =?s "minute" then inr (f64_div n (f64_of_int 60))
  else if rateLimitUnit =?s "hour" then inr (f64_div n (f64_of_int (60 * 60)))
  else if rateLimitUnit =?s "day" then inr (f64_div n (f64_of_int (60 * 60 * 24)))
  else inl (ErrStr ("unexpected Rate Limit Unit " +:+ rateLimitUnit
                    +:+ ", while creating 3scale api usage alerts")).

Definition increaseExpr (metric period comparisonOperator : string) (requestsAllowedOverTimePeriod : float64)
    (percenteageLimit : option Z) : option string :=
  (λ limit, "(sum(increase(" +:+ metric +:+ "[" +:+ period +:+ "])) " +:+ comparisonOperator +:+ " ("
     +:+ format_f requestsAllowedOverTimePeriod +:+ " / 100 * " +:+ itoa limit +:+ "))") <$> percenteageLimit.

Definition usage_rule (a : AlertConfig) (expr : string) (annotations : gmap string string)
    (installationName : string) : Rule :=
  mkRule (ac_RuleName a) expr None
    (list_to_map [("severity", ac_Level a); ("product", installationName)]) annotations.

Definition mapSpikeAlert (a : AlertConfig) (alertName namespace expr : string)
    (annotations : gmap string string) (installationName : string) : AlertConfiguration :=
  mkAlertConfiguration alertName "ratelimit-spike.rules" namespace (ac_Period a)
    (OboRules [usage_rule a expr annotations installationName]).
Definition mapThresholdAlert (a : AlertConfig) (alertName namespace expr : string)
    (annotations : gmap string string) (installationName : string) : AlertConfiguration :=
  mkAlertConfiguration alertName "api-usage.rules" namespace ""
    (OboRules [usage_rule a expr annotations installationName]).

Definition spike_expr (a : AlertConfig) (n : Z) : string :=
  "max_over_time((sum(increase(authorized_calls[1m])) + sum(increase(limited_calls[1m])))["
    +:+ ac_Period a +:+ ":]) > " +:+ itoa n.

(** usageFrequencyMins*60 is a uint32 product. *)
Definition requests_over (requestsAllowedPerSecond : float64) (mins : Z) : float64 :=
  f64_mul requestsAllowedPerSecond (f64_of_int (wrap_u32 (mins * 60))).

(** One entry of the map: no alert for an unknown type.  A nil entry or a
    nil threshold panics. *)
Definition map_alert (namespace rateLimitUnit : string) (n : Z) (requestsAllowedPerSecond : float64)
    (dashboard installationName alertName : string) (a : option AlertConfig)
    : outcome (error + option AlertConfiguration) :=
  let alertName := if installationName =?s InstallationTypeManagedApi
                   then "marin3r-" +:+ alertName else alertName in
  match a with
  | None => Panic "nil pointer dereference"
  | Some a =>
      if ac_Type a =?s AlertTypeSpike then
        let annotations := list_to_map [("message", "hard limit of " +:+ itoa n
            +:+ " breached at least once in the last " +:+ ac_Period a); ("grafanaConsole", dashboard)] in
        Done (inr (Some (mapSpikeAlert a alertName namespace (spike_expr a n) annotations installationName)))
      else if ac_Type a =?s AlertTypeThreshold then
        match intervalToMinutes (ac_Period a) with
        | inl e => Done (inl e)
        | inr usageFrequencyMins =>
            let allowed := requests_over requestsAllowedPerSecond usageFrequencyMins in
            match ac_Threshold a with
            | None => Panic "nil pointer dereference"
            | Some th =>
                range ← parsePercentageRange (MinRate th) (MaxRate th);
                match range with
                | inl e => Done (inl e)
                | inr (lo, hi) =>
                    let lowerExpr := default "" (increaseExpr totalRequestsMetric (ac_Period a) ">=" allowed (Some lo)) in
                    let '(expr, upperMessage) :=
                      match increaseExpr totalRequestsMetric (ac_Period a) "<=" allowed hi with
                      | Some upperExpr => (lowerExpr +:+ " and " +:+ upperExpr, default "" (MaxRate th))
                      | None => (lowerExpr, "100%")
                      end in
                    let annotations := list_to_map [("message",
                        "Total API usage in your API Management service is between " +:+ MinRate th +:+ " and "
                        +:+ upperMessage +:+ " of the allowable threshold, " +:+ itoa n +:+ " requests per "
                        +:+ rateLimitUnit +:+ ", during the last " +:+ ac_Period a);
                      ("grafanaConsole", dashboard)] in
                    Done (inr (Some (mapThresholdAlert a alertName namespace expr annotations installationName)))
                end
            end
        end
      else Done (inr None)
  end.

(** The loop over the map, in the order [keys] the range takes. *)
Fixpoint map_alerts (one : string → option AlertConfig → outcome (error + option AlertConfiguration))
    (alertsConfig : gmap string (option AlertConfig)) (keys : list string)
    : outcome (error + list AlertConfiguration) :=
  match keys with
  | [] => Done (inr [])
  | k :: keys =>
      match alertsConfig !! k with
      | None => map_alerts one alertsConfig keys
      | Some a =>
          r ← one k a;
          match r with
          | inl e => Done (inl e)
          | inr alert =>
              rest ← map_alerts one alertsConfig keys;
              match rest with
              | inl e => Done (inl e)
              | inr l => Done (inr (match alert with Some x => x :: l | None => l end))
              end
          end
      end
  end.

Definition mapAlertsConfiguration {W} `{MapRange W} (namespace rateLimitUnit : string) (n : Z)
    (requestsAllowedPerSecond : float64) (alertsConfig : gmap string (option AlertConfig))
    (dashboard installationName : string) : M W (error + list AlertConfiguration) :=
  keys ← reads (λ w, range_keys w (dom alertsConfig));
  lift (map_alerts (map_alert namespace rateLimitUnit n requestsAllowedPerSecond dashboard installationName)
          alertsConfig keys).

Definition newAlertsReconciler {W} `{MapRange W} (installation : RHMI) (cfg : RateLimitConfig)
    (alertsConfig : gmap string (option AlertConfig)) (dashboard namespace : string)
    : M W (error + AlertReconcilerImpl) :=
  match getRateLimitInSeconds (Unit_ cfg) (RequestsPerUnit cfg) with
  | inl e => mret (inl e)
  | inr requestsAllowedPerSecond =>
      alerts ← mapAlertsConfiguration namespace (Unit_ cfg) (RequestsPerUnit cfg)
                 requestsAllowedPerSecond alertsConfig dashboard (Type_ (Spec installation));
      match alerts with
      | inl e => mret (inl (ErrWrap "failed to create alerts from configuration: " e))
      | inr alerts => mret (inr (mkAlertReconciler "3Scale" installation alerts []))
      end
  end.

(** *** rejectedRequestsPrometheusRules.go *)

Definition rejected_expr (limit : float64) : string :=
  "abs(clamp_min(increase(limited_calls[1m]) - " +:+ format_f limit
  +:+ ", 0) / (sum(increase(authorized_calls[1m])) + sum(increase(limited_calls[1m]))) - (increase(limited_calls[1m]) / (sum(increase(authorized_calls[1m])) + sum(increase(limited_calls[1m]))))) > 0.3".

Definition newRejectedRequestsAlertsReconciler (installation : RHMI) (cfg : RateLimitConfig)
    (installType ns : string) : outcome (error + AlertReconcilerImpl) :=
  let installationName := map_get "" InstallationNames installType in
  match ConvertRate (Unit_ cfg) Minute (RequestsPerUnit cfg) with
  | inl e => Done (inl e)
  | inr limitPerMinute =>
      for_ ← DurationPtr "30s";
      Done (inr (mkAlertReconciler "3Scale" installation
        [mkAlertConfiguration "marin3r-rejected-requests" "rejected-requests.rules" ns ""
           (OboRules [mkRule "RHOAMApiUsageRejectedRequestsMismatch" (rejected_expr limitPerMinute) for_
              (list_to_map [("severity", "info"); ("product", installationName)])
              (list_to_map [("message", "The volume of rejected requests doesn't match the expected volume given the incoming requests and the configuration")])])] []))
  end.

(** *** prometheusRules.go *)

Definition SopUrlEndpointAvailableAlert : string :=
  sop_help +:+ "tree/master/sops/rhoam/alerts/service_endpoint_down.asciidoc".
Definition SopUrlAlertsAndTroubleshooting : string :=
  sop_help +:+ "blob/master/sops/alerts_and_troubleshooting.md".

Definition warning_labels (installType : string) : gmap string string :=
  list_to_map [("severity", "warning"); ("product", map_get "" InstallationNames installType)].
Definition endpoint_rule (installType alert endpoint namespace for_ : string) : Rule :=
  mkRule alert
    ("absent(kube_endpoint_address{endpoint='" +:+ endpoint +:+ "', namespace='" +:+ namespace +:+ "'})")
    (Some for_) (warning_labels installType)
    (list_to_map [("sop_url", SopUrlEndpointAvailableAlert);
       ("message", "No {{  $labels.endpoint  }} endpoints in namespace " +:+ namespace +:+ ". Expected at least 1.")]).
Definition pods_rule (installType alert pods namespace message : string) : Rule :=
  mkRule alert
    ("sum(kube_pod_status_ready{condition='true',namespace='" +:+ namespace +:+ "', pod=~'" +:+ pods
     +:+ ".*'}  * on(pod, namespace) group_left() kube_pod_status_phase{phase='Running'}) < 1")
    (Some "5m") (warning_labels installType)
    (list_to_map [("sop_url", SopUrlAlertsAndTroubleshooting); ("message", message)]).

(** The durations are constants that time.ParseDuration accepts. *)
Definition newAlertReconciler `{Yaml} (installation : RHMI) (m : Manager) (cfg : Marin3r.t)
    (installType namespace : string) : AlertReconcilerImpl :=
  let productNs := Marin3r.GetNamespace cfg in
  let operatorNs := Marin3r.GetOperatorNamespace cfg in
  let threescaleNamespace := match ReadThreeScale m with
                             | inr c => ThreeScale.GetNamespace c
                             | inl _ => productNs
                             end in
  let conf name group rules := mkAlertConfiguration name group namespace "" (OboRules rules) in
  mkAlertReconciler "Marin3r" installation
    [conf "marin3r-ksm-endpoint-alerts" "marin3r-endpoint.rules"
       [endpoint_rule installType "Marin3rDiscoveryServiceEndpointDown" "marin3r-instance" threescaleNamespace "5m";
        endpoint_rule installType "Marin3rRateLimitServiceEndpointDown" "ratelimit" productNs "5m"];
     conf "marin3r-operator-ksm-endpoint-alerts" "marin3r-operator-endpoint.rules"
       [endpoint_rule installType "Marin3rOperatorRhmiRegistryCsServiceEndpointDown" "rhmi-registry-cs" operatorNs "8m"];
     conf "marin3r-operator-ksm-marin3r-alerts" "general.rules"
       [pods_rule installType "Marin3rOperatorPod" "marin3r-controller-manager" operatorNs
          "Marin3r operator has no pods in ready state."];
     conf "marin3r-ksm-marin3r-alerts" "general.rules"
       [pods_rule installType "Marin3rWebhookPod" "marin3r-controller-webhook" operatorNs
          "Marin3r has no webhook pods in ready state.";
        pods_rule installType "Marin3rRateLimitPod" "ratelimit" productNs
          "Marin3r Rate Limit has no pods in a ready state."]] [].

(** ** Facts *)

Lemma match_interval_digits d c :
  all_digits d → d ≠ "" → is_letter c = true → is_digit c = false →
  match_interval (d +:+ String c EmptyString) = Some (d, c).
Proof.
  intros Hd Hne Hl Hc.
  assert (span_digits (String c EmptyString) = ("", String c EmptyString)) as Hs
    by (cbn [span_digits]; by rewrite Hc).
  destruct d as [|a d]; [done|].
  change (String a d +:+ ?x) with (String a (d +:+ x)). cbn [match_interval].
  change (String a (d +:+ ?x)) with (String a d +:+ x). rewrite span_digits_app by done.
  apply str_eqb_false in Hne. by rewrite Hne, Hl.
Qed.
Lemma match_percentage_digits d :
  all_digits d → d ≠ "" → match_percentage (d +:+ "%") = Some d.
Proof.
  intros Hd Hne. destruct d as [|a d]; [done|].
  change (String a d +:+ ?x) with (String a (d +:+ x)). cbn [match_percentage].
  change (String a (d +:+ ?x)) with (String a d +:+ x). rewrite span_digits_app by done.
  apply str_eqb_false in Hne. by rewrite Hne.
Qed.

(** C32: An interval of n minutes or n hours is read as its number of
    minutes as long as that fits a uint32, and whatever is read fits one; but
    the product with 60 is checked only after it has wrapped around 64 bits,
    so some intervals far out of range are accepted as short ones. *)
Theorem intervalToMinutes_spec :
  (∀ n, (0 ≤ n ≤ max_uint32)%Z → intervalToMinutes (itoa n +:+ "m") = inr n)
  ∧ (∀ n, (0 ≤ n)%Z → (60 * n ≤ max_uint32)%Z → intervalToMinutes (itoa n +:+ "h") = inr (60 * n)%Z)
  ∧ (∀ n, (max_uint32 < n ≤ max_int64)%Z → ∃ e, intervalToMinutes (itoa n +:+ "m") = inl e)
  ∧ (∀ s m, intervalToMinutes s = inr m → (0 ≤ m ≤ max_uint32)%Z)
  ∧ intervalToMinutes "307445734561825861h" = inr 44%Z.
Proof.
  assert (∀ n c, (0 ≤ n ≤ max_int64)%Z → c = "m"%char ∨ c = "h"%char →
    intervalToMinutes (itoa n +:+ String c EmptyString) =
      (let result := wrap_i64 (n * if Ascii.eqb c "m" then 1 else 60) in
       if (result <? 0)%Z || (max_uint32 <? result)%Z then
         inl (ErrStr ("calculated interval value " +:+ itoa result
                      +:+ " is out of the valid range for uint32"))
       else inr result)) as Hread.
  { intros n c Hn Hc. pose proof (itoa_digits n ltac:(lia)) as Hd. pose proof (itoa_nonempty n) as Hne.
    unfold intervalToMinutes. rewrite match_interval_digits by (destruct Hc as [-> | ->]; done).
    unfold atoi_digits. rewrite parse_int64_itoa by (unfold min_int64; lia).
    by destruct Hc as [-> | ->]. }
  unfold max_uint32, max_int64 in *. split_and!.
  - intros n Hn. rewrite (Hread n "m"%char) by auto with lia. cbn zeta. cbn [Ascii.eqb Bool.eqb].
    rewrite Z.mul_1_r, wrap_i64_id by (unfold min_int64, max_int64; lia).
    destruct (Z.ltb_spec n 0), (Z.ltb_spec 4294967295 n); simpl; lia || done.
  - intros n H0 Hn. rewrite (Hread n "h"%char) by auto with lia. cbn zeta. cbn [Ascii.eqb Bool.eqb].
    rewrite wrap_i64_id by (unfold min_int64, max_int64; lia). rewrite Z.mul_comm.
    destruct (Z.ltb_spec (60 * n) 0), (Z.ltb_spec 4294967295 (60 * n)); simpl; lia || done.
  - intros n Hn. rewrite (Hread n "m"%char) by auto with lia. cbn zeta. cbn [Ascii.eqb Bool.eqb].
    rewrite Z.mul_1_r, wrap_i64_id by (unfold min_int64, max_int64; lia).
    destruct (Z.ltb_spec n 0), (Z.ltb_spec 4294967295 n); simpl; try lia. eauto.
  - intros s m. unfold intervalToMinutes, max_uint32. repeat case_match; try done; intros [= <-].
    all: match goal with H : _ || _ = false |- _ =>
      apply orb_false_iff in H as [?%Z.ltb_ge ?%Z.ltb_ge] end; lia.
  - vm_compute. reflexivity.
Qed.

Lemma parsePercentage_range p n : parsePercentage p = inr (Some n) → (0 ≤ n ≤ 100)%Z.
Proof.
  unfold parsePercentage. repeat case_match; try done. intros [= <-].
  match goal with H : _ || _ = false |- _ => apply orb_false_iff in H as [?%Z.ltb_ge ?%Z.ltb_ge] end. lia.
Qed.
Lemma parsePercentage_itoa n : (0 ≤ n ≤ 100)%Z → parsePercentage (Some (itoa n +:+ "%")) = inr (Some n).
Proof.
  intros Hn. pose proof (itoa_digits n ltac:(lia)) as Hd. pose proof (itoa_nonempty n) as Hne. unfold parsePercentage.
  rewrite match_percentage_digits by done. unfold atoi_digits.
  rewrite parse_int64_itoa by (unfold min_int64, max_int64; lia).
  destruct (Z.ltb_spec n 0), (Z.ltb_spec 100 n); simpl; lia || done.
Qed.

(** A range of percentages that is accepted has its bounds in 0..100 in
    the right order, every such range is accepted and read as written, and the
    only way to panic is a lower bound with more digits than an int holds. *)
Theorem parsePercentageRange_spec min max :
  match parsePercentageRange min max with
  | Done (inr (lo, hi)) => (0 ≤ lo ≤ 100)%Z ∧ (∀ h, hi = Some h → (lo ≤ h ≤ 100)%Z)
  | Done (inl _) => True
  | Panic _ => ∃ digits, match_percentage min = Some digits ∧ atoi_digits digits = None
  end
  ∧ (∀ lo hi, (0 ≤ lo ≤ hi)%Z → (hi ≤ 100)%Z →
      parsePercentageRange (itoa lo +:+ "%") (Some (itoa hi +:+ "%")) = Done (inr (lo, Some hi))
      ∧ parsePercentageRange (itoa lo +:+ "%") None = Done (inr (lo, None)))
  ∧ parsePercentageRange "99999999999999999999%" max =
      match parsePercentage max with
      | inl e => Done (inl e)
      | inr _ => Panic "nil pointer dereference"
      end.
Proof.
  split_and!.
  - assert (parsePercentage (Some min) = inr None →
      ∃ digits, match_percentage min = Some digits ∧ atoi_digits digits = None) as Hnil.
    { unfold parsePercentage. repeat case_match; try done. eauto. }
    unfold parsePercentageRange. destruct (parsePercentage (Some min)) as [e|[lo|]] eqn:Hlo; [done| |].
    + apply parsePercentage_range in Hlo.
      destruct (parsePercentage max) as [e|[hi|]] eqn:Hhi; [done| |].
      * apply parsePercentage_range in Hhi. destruct (Z.ltb_spec hi lo); [done|].
        split; [lia|]. intros h [= <-]. lia.
      * split; [lia|done].
    + destruct (parsePercentage max) as [e|[hi|]]; [done|auto..].
  - intros lo hi Hlo Hhi. unfold parsePercentageRange. rewrite !parsePercentage_itoa by lia.
    destruct (Z.ltb_spec hi lo); [lia|done].
  - unfold parsePercentageRange.
    assert (parsePercentage (Some "99999999999999999999%") = inr None) as -> by (vm_compute; reflexivity).
    by destruct (parsePercentage max) as [e|[hi|]].
Qed.
