(* ===== verification/OboAlerts.v ===== *)
(** * Alerts of the observability stack (pkg/products/obo)

    The alerts the bootstrap stage installs for the cluster, the operator and
    each of its components: one definition for each AlertConfiguration of
    prometheusRules.go.  The durations are constants that time.ParseDuration
    accepts. *)

From stdpp Require Import base list strings gmap.
From Stdlib Require Import ZArith Ascii.
From S2P Require Import Prelude Kube Api Resources Numbers Config Addon Cro Alerts CloudAlerts UsageAlerts.

(** ** sop_url.go, the addresses the products use *)

Definition SopUrlApicastProductionPodsDown : string :=
  sopUrlRhoamBase +:+ "ThreeScaleApicastProductionPod.md".
Definition SopUrlSystemAppPodsDown : string := sopUrlRhoamBase +:+ "ThreeScaleSystemAppPod.md".
Definition SopUrlMarin3rEnvoyApicastProductionContainerDown : string :=
  sopUrlRhoamBase +:+ "Marin3rEnvoyApicastProductionContainerDown.asciidoc".
Definition SopUrlMarin3rEnvoyApicastStagingContainerDown : string :=
  sopUrlRhoamBase +:+ "Marin3rEnvoyApicastStagingContainerDown.asciidoc".
Definition SopUrlOperatorInstallDelayed : string :=
  sopUrlRhoamBase +:+ "OperatorInstallDelayed.asciidoc".
Definition SopUrlUpgradeExpectedDurationExceeded : string :=
  sopUrlRhoamBase +:+ "UpgradeExpectedDurationExceeded.asciidoc".
Definition SopUrlRHOAMIsInReconcilingErrorState : string :=
  sopUrlRhoamBase +:+ "RHOAMIsInReconcilingErrorState.asciidoc".
Definition SopUrlRHOAMCloudResourceOperatorMetricsServiceEndpointDown : string :=
  sopUrlRhoamBase +:+ "RHOAMCloudResourceOperatorMetricsServiceEndpointDown.asciidoc".
Definition SopUrlRHOAMCloudResourceOperatorVPCActionFailed : string :=
  sopUrlRhoamBase +:+ "RHOAMCloudResourceOperatorVPCActionFailed.asciidoc".
Definition SopUrlRHOAMThreeScaleApicastProductionServiceEndpointDown : string :=
  sopUrlRhoamBase +:+ "RHOAMThreeScaleApicastProductionServiceEndpointDown.asciidoc".
Definition SopUrlRHOAMThreeScaleApicastStagingServiceEndpointDown : string :=
  sopUrlRhoamBase +:+ "RHOAMThreeScaleApicastStagingServiceEndpointDown.asciidoc".
Definition SopUrlRHOAMThreeScaleBackendListenerServiceEndpointDown : string :=
  sopUrlRhoamBase +:+ "RHOAMThreeScaleBackendListenerServiceEndpointDown.asciidoc".
Definition SopUrlRHOAMThreeScaleZyncServiceEndpointDown : string :=
  sopUrlRhoamBase +:+ "RHOAMThreeScaleZyncServiceEndpointDown.asciidoc".
Definition SopUrlRHOAMThreeScaleZyncDatabaseServiceEndpointDown : string :=
  sopUrlRhoamBase +:+ "RHOAMThreeScaleZyncDatabaseServiceEndpointDown.asciidoc".
Definition SopUrlThreeScaleBackendWorkerPod : string :=
  sopUrlRhoamBase +:+ "ThreeScaleBackendWorkerPod.asciidoc".
Definition SopUrlThreeScaleAdminUIBBT : string :=
  sopUrlRhoamBase +:+ "ThreeScaleAdminUIBBT.asciidoc".
Definition SopUrlThreeScaleDeveloperUIBBT : string :=
  sopUrlRhoamBase +:+ "ThreeScaleDeveloperUIBBT.asciidoc".
Definition SopUrlThreeScaleSystemAdminUIBBT : string :=
  sopUrlRhoamBase +:+ "ThreeScaleSystemAdminUIBBT.asciidoc".
Definition SopUrlPodDistributionIncorrect : string :=
  sop_help +:+ "blob/master/sops/multi-az/pod_distribution.md".
Definition SopUrlSloRhssoAvailabilityAlert : string :=
  sopUrlRhoamBase +:+ "SloRhssoAvailabilityAlert.asciidoc".
Definition SopUrlSloUserSsoAvailabilityAlert : string :=
  sopUrlRhoamBase +:+ "SloUserSsoAvailabilityAlert.asciidoc".
Definition SopUrlTestFireAlerts : string :=
  sop_help +:+ "blob/master/sops/rhoam/cssre_info/info_test_fire_alerts.md#resolve-test-alerts".
Definition SopUrlRHOAMServiceDefinition : string := "https://access.redhat.com/articles/5534341".
Definition SopUrlDnsBypassThreeScaleAdminUI : string :=
  sopUrlRhoamBase +:+ "DnsBypassThreeScaleAdminUI.asciidoc".
Definition SopUrlDnsBypassThreeScaleDeveloperUI : string :=
  sopUrlRhoamBase +:+ "DnsBypassThreeScaleDeveloperUI.asciidoc".
Definition SopUrlDnsBypassThreeScaleSystemAdminUI : string :=
  sopUrlRhoamBase +:+ "DnsBypassThreeScaleSystemAdminUI.asciidoc".
Definition SopUrlKeycloakInstanceNotAvailable : string :=
  sopUrlRhoamBase +:+ "KeycloakInstanceNotAvailable.asciidoc".
Definition SopUrlCriticalMetricsMissing : string :=
  sopUrlRhoamBase +:+ "CriticalMetricsMissing.asciidoc".
Definition SopUrlClusterSchedulableResourcesLow : string :=
  sop_help +:+ "blob/master/sops/alerts/Cluster_Schedulable_Resources_Low.asciidoc".
Definition SopUrlKubePersistentVolumeFillingUp4h : string :=
  sopUrlRhoamBase +:+ "pvc_storage.asciidoc#pvcstoragewillfillin4hours".
Definition SopUrlKubePersistentVolumeFillingUp : string :=
  sopUrlRhoamBase +:+ "pvc_storage.asciidoc#kubepersistentvolumefillingup".
Definition SopUrlPersistentVolumeErrors : string :=
  sopUrlRhoamBase +:+ "pvc_storage.asciidoc#persistentvolumeerrors".
Definition SopApiManagementTenantCRFailed : string :=
  sopUrlRhoamBase +:+ "ApiManagementTenantCRFailed.asciidoc".
Definition SopUrlRHOAMCloudResourceOperatorMetricsMissing : string :=
  sopUrlRhoamBase +:+ "RHOAMCloudResourceOperatorMetricsMissing.asciidoc".

(** ** prometheusRules.go *)

Definition quoted (s : string) : string := dquote +:+ s +:+ dquote.

(** A monv1.Rule literal: name, annotations, expression, duration, labels. *)
Definition rule (alert : string) (annotations : list (string * string)) (expr : string)
    (for_ : option string) (labels : list (string * string)) : Rule :=
  mkRule alert expr for_ (list_to_map labels) (list_to_map annotations).

Definition obo_backup_monitoring (installationName namespace : string) : AlertConfiguration :=
  mkAlertConfiguration "backup-monitoring-alerts" "general.rules" namespace "" (OboRules [
   rule "JobRunningTimeExceeded"
      [("sop_url", SopUrlAlertsAndTroubleshooting); ("message", " Job {{ $labels.namespace }} / {{ $labels.job  }} has been running for longer than 300 seconds")]
      "time() - (max(kube_job_status_active * ON(job_name) GROUP_RIGHT() kube_job_labels{label_monitoring_key='middleware'}) BY (job_name) * ON(job_name) GROUP_RIGHT() max(kube_job_status_start_time * ON(job_name) GROUP_RIGHT() kube_job_labels{label_monitoring_key='middleware'}) BY (job_name, namespace, label_cronjob_name) > 0) > 300 "
      None [("severity", "warning"); ("product", installationName)];
   rule "JobRunningTimeExceeded"
      [("sop_url", SopUrlAlertsAndTroubleshooting); ("message", " Job {{ $labels.namespace }} / {{ $labels.job  }} has been running for longer than 600 seconds")]
      "time() - (max(kube_job_status_active * ON(job_name) GROUP_RIGHT() kube_job_labels{label_monitoring_key='middleware'}) BY (job_name) * ON(job_name) GROUP_RIGHT() max(kube_job_status_start_time * ON(job_name) GROUP_RIGHT() kube_job_labels{label_monitoring_key='middleware'}) BY (job_name, namespace, label_cronjob_name) > 0) > 600 "
      None [("severity", "warning"); ("product", installationName)];
   rule "CronJobNotRunInThreshold"
      [("sop_url", SopUrlAlertsAndTroubleshooting); ("message", " CronJob {{ $labels.namespace }} / {{ $labels.label_cronjob_name }} has not started a Job in 25 hours")]
      "(time() - (max( kube_job_status_start_time * ON(job_name) GROUP_RIGHT() kube_job_labels{label_monitoring_key='middleware'} ) BY (job_name, label_cronjob_name) == ON(label_cronjob_name) GROUP_LEFT() max( kube_job_status_start_time * ON(job_name) GROUP_RIGHT() kube_job_labels{label_monitoring_key='middleware'} ) BY (label_cronjob_name))) > 60*60*25"
      None []]).

Definition obo_ksm (installationName nsPrefix namespace : string) : AlertConfiguration :=
  mkAlertConfiguration "ksm-alerts" "general.rules" namespace "" (OboRules [
   rule "KubePodCrashLooping"
      [("sop_url", SopUrlAlertsAndTroubleshooting); ("message", "Pod {{  $labels.namespace  }} / {{  $labels.pod  }} ({{  $labels.container  }}) is restarting {{  $value  }} times every 10 minutes; for the last 15 minutes")]
      ("rate(kube_pod_container_status_restarts_total{job='kube-state-metrics',namespace=~'" +:+ nsPrefix +:+ ".*'}[10m]) * 60 * 5 > 0")
      (Some "15m") [("severity", "warning"); ("product", installationName)];
   rule "KubePodNotReady"
      [("sop_url", SopUrlAlertsAndTroubleshooting); ("message", "Pod {{ $labels.namespace }} / {{ $labels.pod }}  has been in a non-ready state for longer than 15 minutes.")]
      ("sum by(pod, namespace) (kube_pod_status_phase{phase=~'Pending|Unknown', namespace=~'" +:+ nsPrefix +:+ ".*'}) > 0")
      (Some "15m") [("severity", "warning"); ("product", installationName)];
   rule "KubePodImagePullBackOff"
      [("sop_url", SopUrlAlertsAndTroubleshooting); ("message", "Pod {{ $labels.namespace }} / {{  $labels.pod  }} has been unable to pull its image for longer than 5 minutes.")]
      ("kube_pod_container_status_waiting_reason{reason='ImagePullBackOff',namespace=~'" +:+ nsPrefix +:+ ".*'} > 0")
      (Some "5m") [("severity", "warning"); ("product", installationName)];
   rule "KubePodBadConfig"
      [("sop_url", SopUrlAlertsAndTroubleshooting); ("message", " Pod {{ $labels.namespace  }} / {{  $labels.pod  }} has been unable to start due to a bad configuration for longer than 5 minutes")]
      ("kube_pod_container_status_waiting_reason{reason='CreateContainerConfigError',namespace=~'" +:+ nsPrefix +:+ ".*'} > 0")
      (Some "5m") [("severity", "warning"); ("product", installationName)];
   rule "KubePodStuckCreating"
      [("sop_url", SopUrlAlertsAndTroubleshooting); ("message", "Pod {{  $labels.namespace }} / {{  $labels.pod  }} has been trying to start for longer than 15 minutes - this could indicate a configuration error.")]
      ("kube_pod_container_status_waiting_reason{reason='ContainerCreating',namespace=~'" +:+ nsPrefix +:+ ".*'} > 0")
      (Some "15m") [("severity", "warning"); ("product", installationName)];
   rule "ClusterSchedulableMemoryLow"
      [("sop_url", SopUrlClusterSchedulableResourcesLow); ("message", "The cluster has {{  $value }} percent of memory requested and unavailable for scheduling for longer than 15 minutes.")]
      "((sum(sum by(node) (sum by(pod, node) (kube_pod_container_resource_requests{resource='memory'} * on(node) group_left() (sum by(node) (kube_node_role{role='worker'}  == 1))) * on(pod) group_left() (sum by(pod) (kube_pod_status_phase{phase='Running'}) == 1)))) / ((sum((kube_node_role{role='worker'}  == 1) * on(node) group_left() (sum by(node) (kube_node_status_allocatable{resource='memory'})))))) * 100 > 85"
      (Some "15m") [("severity", "warning"); ("product", installationName)];
   rule "ClusterSchedulableCPULow"
      [("sop_url", SopUrlClusterSchedulableResourcesLow); ("message", "The cluster has {{ $value }} percent of CPU cores requested and unavailable for scheduling for longer than 15 minutes.")]
      "((sum(sum by(node) (sum by(pod, node) (kube_pod_container_resource_requests{resource='cpu'} * on(node) group_left() (sum by(node) (kube_node_role{role='worker'} == 1))) * on(pod) group_left() (sum by(pod) (kube_pod_status_phase{phase='Running'}) == 1)))) / ((sum((kube_node_role{role='worker'} == 1) * on(node) group_left() (sum by(node) (kube_node_status_allocatable{resource='cpu'})))))) * 100 > 85"
      (Some "15m") [("severity", "warning"); ("product", installationName)];
   rule "PVCStorageAvailable"
      [("sop_url", SopUrlClusterSchedulableResourcesLow); ("message", "The {{  $labels.persistentvolumeclaim  }} PVC has has been {{ $value }} percent full for longer than 15 minutes.")]
      ("((sum by(persistentvolumeclaim, namespace) (kubelet_volume_stats_used_bytes{namespace=~'" +:+ nsPrefix +:+ ".*'})) / (sum by(persistentvolumeclaim, namespace) (kube_persistentvolumeclaim_resource_requests_storage_bytes{namespace=~'" +:+ nsPrefix +:+ ".*'}))) * 100 > 85")
      (Some "15m") [("severity", "warning"); ("product", installationName)];
   rule "PVCStorageMetricsAvailable"
      [("sop_url", SopUrlClusterSchedulableResourcesLow); ("message", "PVC storage metrics are not available")]
      "absent(kubelet_volume_stats_available_bytes) == 1 or absent(kubelet_volume_stats_capacity_bytes) == 1 or absent(kubelet_volume_stats_used_bytes) == 1 or absent(kube_persistentvolumeclaim_resource_requests_storage_bytes) == 1"
      (Some "15m") [("severity", "warning"); ("product", installationName)];
   rule "KubePersistentVolumeFillingUp4h"
      [("sop_url", SopUrlKubePersistentVolumeFillingUp4h); ("message", "Based on recent sampling, the PersistentVolume claimed by {{ $labels.persistentvolumeclaim }} in Namespace {{ $labels.namespace }} is expected to fill up within four days. Currently {{ $value | humanizePercentage }} is available.")]
      ("(predict_linear(kubelet_volume_stats_available_bytes{job='kubelet', namespace=~'" +:+ nsPrefix +:+ ".*'} [6h], 4 * 24 * 3600) <= 0 and kubelet_volume_stats_available_bytes{job='kubelet', namespace=~'" +:+ nsPrefix +:+ ".*'}  / kubelet_volume_stats_capacity_bytes{job='kubelet'} < 0.15)")
      (Some "15m") [("severity", "warning"); ("product", installationName)];
   rule "KubePersistentVolumeFillingUp"
      [("sop_url", SopUrlKubePersistentVolumeFillingUp); ("message", "The PersistentVolume claimed by {{ $labels.persistentvolumeclaim }} in Namespace {{ $labels.namespace }} is only {{ $value | humanizePercentage }} free.")]
      ("(kubelet_volume_stats_available_bytes{job='kubelet', namespace=~'" +:+ nsPrefix +:+ ".*'} / kubelet_volume_stats_capacity_bytes{job='kubelet', namespace=~'" +:+ nsPrefix +:+ ".*'} < 0.03)")
      (Some "15m") [("severity", "warning"); ("product", installationName)];
   rule "PersistentVolumeErrors"
      [("sop_url", SopUrlPersistentVolumeErrors); ("message", "The PVC {{  $labels.persistentvolumeclaim  }} is in status {{  $labels.phase  }} in namespace {{  $labels.namespace }} ")]
      ("(sum by(persistentvolumeclaim, namespace, phase) (kube_persistentvolumeclaim_status_phase{phase=~'Failed|Pending|Lost', namespace=~'" +:+ nsPrefix +:+ ".*'})) > 0")
      (Some "15m") [("severity", "warning"); ("product", installationName)]]).

Definition obo_ksm_endpoint (installationName namespace : string) : AlertConfiguration :=
  mkAlertConfiguration "obo-ksm-endpoint-alerts" "obo-endpoint.rules" namespace "" (OboRules [
   rule "RHOAMOboAlertmanagerOperatedServiceEndpointDown"
      [("sop_url", SopUrlEndpointAvailableAlert); ("message", "No {{  $labels.endpoint  }} endpoints in namespace " +:+ namespace +:+ ". Expected at least 1.")]
      ("absent(kube_endpoint_address{endpoint='alertmanager-operated', namespace='" +:+ namespace +:+ "'})")
      (Some "5m") [("severity", "warning"); ("product", installationName)];
   rule "RHOAMOboAlertmanagerServiceEndpointDown"
      [("sop_url", SopUrlEndpointAvailableAlert); ("message", "No {{  $labels.endpoint  }} endpoints in namespace " +:+ namespace +:+ ". Expected at least 1.")]
      ("absent(kube_endpoint_address{endpoint='rhoam-alertmanager', namespace='" +:+ namespace +:+ "'})")
      (Some "5m") [("severity", "warning"); ("product", installationName)];
   rule "RHOAMOboPrometheusOperatedServiceEndpointDown"
      [("sop_url", SopUrlEndpointAvailableAlert); ("message", "No {{  $labels.endpoint  }} endpoints in namespace " +:+ namespace +:+ ". Expected at least 1.")]
      ("absent(kube_endpoint_address{endpoint='prometheus-operated', namespace='" +:+ namespace +:+ "'})")
      (Some "5m") [("severity", "warning"); ("product", installationName)];
   rule "RHOAMOboPrometheusServiceEndpointDown"
      [("sop_url", SopUrlEndpointAvailableAlert); ("message", "No {{  $labels.endpoint  }} endpoints in namespace " +:+ namespace +:+ ". Expected at least 1.")]
      ("absent(kube_endpoint_address{endpoint='rhoam-prometheus', namespace='" +:+ namespace +:+ "'})")
      (Some "5m") [("severity", "warning"); ("product", installationName)];
   rule "RHOAMOboBlackboxExporterEndpointDown"
      [("sop_url", SopUrlEndpointAvailableAlert); ("message", "No {{  $labels.endpoint  }} endpoints in namespace " +:+ namespace +:+ ". Expected at least 1.")]
      ("absent(kube_endpoint_address{endpoint='blackbox-exporter', namespace='" +:+ namespace +:+ "'})")
      (Some "5m") [("severity", "warning"); ("product", installationName)]]).

Definition obo_install_upgrade (installationName nsPrefix namespace : string) : AlertConfiguration :=
  mkAlertConfiguration "install-upgrade-alerts" "general.rules" namespace "" (OboRules [
   rule "RHOAMCSVRequirementsNotMet"
      [("message", "RequirementsNotMet for CSV '{{$labels.name}}' in namespace '{{$labels.exported_namespace}}'. Phase is not succeeded")]
      ("csv_succeeded{exported_namespace=~" +:+ quoted (nsPrefix +:+ ".*") +:+ "} != 1")
      (Some "15m") [("severity", "warning"); ("product", installationName)]]).

Definition obo_multi_az_pod_distribution (installationName nsPrefix namespace : string) : AlertConfiguration :=
  mkAlertConfiguration "multi-az-pod-distribution" "general.rules" namespace "" (OboRules [
   rule "MultiAZPodDistribution"
      [("sop_url", SopUrlPodDistributionIncorrect); ("message", "Pod {{  $labels.namespace  }} / {{  $labels.pod  }} ({{  $labels.container  }}) is incorrectly distributed to the zone {{  $value  }} ; for the last 5 minutes")]
      (installationName +:+ "_version{to_version=" +:+ quoted "" +:+ "} and (count by(namespace, created_by_name, label_topology_kubernetes_io_zone) (kube_pod_info{namespace=~'" +:+ nsPrefix +:+ ".*', created_by_kind!=" +:+ quoted "<none>" +:+ "} == on(node) group_left(label_topology_kubernetes_io_zone) kube_node_labels) == on (namespace, created_by_name)(count by(namespace, created_by_name) (kube_pod_info{namespace=~'" +:+ nsPrefix +:+ ".*', created_by_kind!=" +:+ quoted "<none>" +:+ "}) > 1) > scalar((count(count by (label_topology_kubernetes_io_zone) (kube_node_labels)) >= bool 2) == 1))")
      (Some "5m") [("severity", "warning"); ("product", installationName)]]).

Definition obo_test (namespace : string) : AlertConfiguration :=
  mkAlertConfiguration "test-alerts" "test.rules" namespace "" (OboRules [
   rule "TestFireCriticalAlert"
      [("sop_url", SopUrlTestFireAlerts); ("message", "This is occasional Test Fire alert from Team SRE")]
      ("count(kube_secret_info{namespace='" +:+ namespace +:+ "', secret='cj3cssrec'}) > 0")
      (Some "10s") [("severity", "critical"); ("product", "secret")];
   rule "TestFireWarningAlert"
      [("sop_url", SopUrlTestFireAlerts); ("message", "This is occasional Test Fire alert from Team SRE")]
      ("count(kube_secret_info{namespace='" +:+ namespace +:+ "', secret='wj3cssrew'}) > 0")
      (Some "10s") [("severity", "warning"); ("product", "secret")]]).

Definition obo_component_reconciling_errors (installationName namespace : string) : AlertConfiguration :=
  mkAlertConfiguration (installationName +:+ "-component-reconciling-errors") (installationName +:+ "-component-installation.rules") namespace "" (OboRules [
   rule ((to_upper installationName) +:+ "RHSSOIsInReconcilingErrorState")
      [("sop_url", SopUrlRHOAMIsInReconcilingErrorState); ("message", (to_upper installationName) +:+ " RHSSO component has been in an error state while reconciling for the last 90 minutes")]
      ("(" +:+ installationName +:+ "_product_status{product=" +:+ quoted "rhsso" +:+ ",stage!=" +:+ quoted "completed" +:+ "} > 0) * on(pod) group_left(to_version, version) (" +:+ installationName +:+ "_version{to_version=" +:+ quoted "" +:+ ",version=~" +:+ quoted ".+" +:+ "} > 0)")
      (Some "90m") [("severity", "critical"); ("product", installationName); ("component", "rhsso")];
   rule ((to_upper installationName) +:+ "3ScaleIsInReconcilingErrorState")
      [("sop_url", SopUrlRHOAMIsInReconcilingErrorState); ("message", (to_upper installationName) +:+ " 3Scale component has been in an error state while reconciling for the last 90 minutes")]
      ("(" +:+ installationName +:+ "_product_status{product=" +:+ quoted "3scale" +:+ ",stage!=" +:+ quoted "completed" +:+ "} > 0) * on(pod) group_left(to_version, version) (" +:+ installationName +:+ "_version{to_version=" +:+ quoted "" +:+ ",version=~" +:+ quoted ".+" +:+ "} > 0)")
      (Some "90m") [("severity", "critical"); ("product", installationName); ("component", "3scale")];
   rule ((to_upper installationName) +:+ "CloudResourcesIsInReconcilingErrorState")
      [("sop_url", SopUrlRHOAMIsInReconcilingErrorState); ("message", (to_upper installationName) +:+ " Cloud Resources component has been in an error state while reconciling for the last 90 minutes")]
      ("(" +:+ installationName +:+ "_product_status{product=" +:+ quoted "cloud-resources" +:+ ",stage!=" +:+ quoted "completed" +:+ "} > 0) * on(pod) group_left(to_version, version) (" +:+ installationName +:+ "_version{to_version=" +:+ quoted "" +:+ ",version=~" +:+ quoted ".+" +:+ "} > 0)")
      (Some "90m") [("severity", "critical"); ("product", installationName); ("component", "cloud-resources")];
   rule ((to_upper installationName) +:+ "Marin3rIsInReconcilingErrorState")
      [("sop_url", SopUrlRHOAMIsInReconcilingErrorState); ("message", (to_upper installationName) +:+ " Marin3r component has been in an error state while reconciling for the last 90 minutes")]
      ("(" +:+ installationName +:+ "_product_status{product=" +:+ quoted "marin3r" +:+ ",stage!=" +:+ quoted "completed" +:+ "} > 0) * on(pod) group_left(to_version, version) (" +:+ installationName +:+ "_version{to_version=" +:+ quoted "" +:+ ",version=~" +:+ quoted ".+" +:+ "} > 0)")
      (Some "90m") [("severity", "critical"); ("product", installationName); ("component", "marin3r")];
   rule ((to_upper installationName) +:+ "GrafanaIsInReconcilingErrorState")
      [("sop_url", SopUrlRHOAMIsInReconcilingErrorState); ("message", (to_upper installationName) +:+ " Grafana component has been in an error state while reconciling for the last 90 minutes")]
      ("(" +:+ installationName +:+ "_product_status{product=" +:+ quoted "grafana" +:+ ",stage!=" +:+ quoted "completed" +:+ "} > 0) * on(pod) group_left(to_version, version) (" +:+ installationName +:+ "_version{to_version=" +:+ quoted "" +:+ ",version=~" +:+ quoted ".+" +:+ "} > 0)")
      (Some "90m") [("severity", "critical"); ("product", installationName); ("component", "grafana")];
   rule ((to_upper installationName) +:+ "RHSSOUserIsInReconcilingErrorState")
      [("sop_url", SopUrlRHOAMIsInReconcilingErrorState); ("message", (to_upper installationName) +:+ " RHSSO User component has been in an error state while reconciling for the last 90 minutes")]
      ("(" +:+ installationName +:+ "_product_status{product=" +:+ quoted "rhssouser" +:+ ",stage!=" +:+ quoted "completed" +:+ "} > 0) * on(pod) group_left(to_version, version) (" +:+ installationName +:+ "_version{to_version=" +:+ quoted "" +:+ ",version=~" +:+ quoted ".+" +:+ "} > 0)")
      (Some "90m") [("severity", "critical"); ("product", installationName); ("component", "rhssouser")]]).

Definition obo_multitenant (installationName namespace : string) : AlertConfiguration :=
  mkAlertConfiguration "multitenancy-api-management-tenant-alerts" "multitenancy-api-management-tenant.rules" namespace "" (OboRules [
   rule "ApiManagementTenantCRFailed"
      [("sop_url", SopApiManagementTenantCRFailed); ("message", "An APIManagementTenant CR has failed to reconcile. See the labels for details.")]
      ("tenants_summary{provisioningStatus!=" +:+ quoted "3scale account ready" +:+ "} and tenants_summary{provisioningStatus != " +:+ quoted "won't provision" +:+ "}")
      (Some "10m") [("severity", "critical"); ("product", installationName)]]).

Definition obo_removed_rhmi_controller (installationName namespace : string) : AlertConfiguration :=
  mkAlertConfiguration (installationName +:+ "-rhmi-controller-alerts") (installationName +:+ "-installation.rules") namespace "" (OboRules [
   rule ((to_upper installationName) +:+ "InstallationControllerReconcileDelayed")
      [("sop_url", SopUrlAlertsAndTroubleshooting); ("message", "The reconcile function of the installation controller in a completed state of " +:+ (to_upper installationName) +:+ " operator is taking more than 2 hours to complete")]
      (installationName +:+ "_version{version=~" +:+ quoted ".+" +:+ ", to_version=" +:+ quoted "" +:+ "} * on(pod) (installation_controller_reconcile_delayed == 1)")
      (Some "90m") [("severity", "critical"); ("product", installationName)]]).

(** OboAlertsReconciler *)
Definition OboAlertsReconciler (installation : RHMI) : AlertReconcilerImpl :=
  let installationName := map_get "" InstallationNames (Type_ (Spec installation)) in
  let nsPrefix := NamespacePrefix (Spec installation) in
  let namespace := GetOboNamespace (Namespace (rhmi_meta installation)) in
  mkAlertReconciler "OBO" installation
    ([obo_backup_monitoring installationName namespace;
      obo_ksm installationName nsPrefix namespace;
      obo_ksm_endpoint installationName namespace;
      obo_install_upgrade installationName nsPrefix namespace;
      obo_multi_az_pod_distribution installationName nsPrefix namespace;
      obo_test namespace;
      obo_component_reconciling_errors installationName namespace]
     ++ if IsRHOAMMultitenant (Type_ (Spec installation)) then [obo_multitenant installationName namespace] else [])
    [obo_removed_rhmi_controller installationName namespace].
