(* ===== verification/Backup.v ===== *)
(** * Backups (pkg/resources/backup)

    backup_executor.go, aws.go and cronjob.go: a backup is requested by
    creating a resource and waited for in a loop that ends by the clock. *)

From stdpp Require Import base list strings gmap.
From Stdlib Require Import ZArith Lia.
From S2P Require Import Prelude Numbers Kube.

(** backup.BackupExecutor: PerformBackup, with the timeout in nanoseconds. *)
Definition BackupExecutor (W : Type) : Type := KClient → Z → M W (option error).
Definition NoopBackupExecutor {W} : BackupExecutor W := λ _ _, mret None.

(** golang.org/x/sync/errgroup: functions run in goroutines, and Wait. *)
Class ErrGroup (W : Type) := errgroup_Wait : list (M W (option error)) → M W (option error).
Class ErrGroupLaws (W : Type) `{ErrGroup W} :=
  errgroup_none : ∀ l (w w' : W), errgroup_Wait l w = (Done None, w') →
    Forall (λ f, ∃ w1 w2, f w1 = (Done None, w2)) l.
Definition ConcurrentBackupExecutor {W} `{ErrGroup W} (executors : list (BackupExecutor W)) : BackupExecutor W :=
  λ c timeout,
    err ← errgroup_Wait (map (λ each, each c timeout) executors);
    mret ((λ e, errorf_v "Error occurred when performing concurrent backups: " (Some e)) <$> err).

(** ** Time stamps *)

(** Time.Format with the layout 2006-01-02-150405, in UTC: the civil date of
    the day by the usual computation on 400-year cycles. *)
Definition civil_from_days (days : Z) : Z * Z * Z :=
  (let z := days + 719468 in
   let era := z / 146097 in
   let doe := z mod 146097 in
   let yoe := (doe - doe / 1460 + doe / 36524 - doe / 146096) / 365 in
   let doy := doe - (365 * yoe + yoe / 4 - yoe / 100) in
   let mp := (5 * doy + 2) / 153 in
   let day := doy - (153 * mp + 2) / 5 + 1 in
   let month := if mp <? 10 then mp + 3 else mp - 9 in
   let year := yoe + era * 400 + (if month <=? 2 then 1 else 0) in
   (year, month, day))%Z.
Definition two_digits (n : Z) : string := pad_zeros 2 (itoa n).
Definition format_time (ns : Z) : string :=
  (let secs := ns / second_ns in
   let '(year, month, day) := civil_from_days (secs / 86400) in
   let s := secs mod 86400 in
   pad_zeros 4 (itoa year) +:+ "-" +:+ two_digits month +:+ "-" +:+ two_digits day +:+ "-"
   +:+ two_digits (s / 3600) +:+ two_digits (s mod 3600 / 60) +:+ two_digits (s mod 60))%Z.
(** The layout RFC3339, with the clock in UTC. *)
Definition format_RFC3339 (ns : Z) : string :=
  (let secs := ns / second_ns in
   let '(year, month, day) := civil_from_days (secs / 86400) in
   let s := secs mod 86400 in
   pad_zeros 4 (itoa year) +:+ "-" +:+ two_digits month +:+ "-" +:+ two_digits day +:+ "T"
     +:+ two_digits (s / 3600) +:+ ":" +:+ two_digits (s / 60 mod 60) +:+ ":" +:+ two_digits (s mod 60) +:+ "Z")%Z.

(** ** Waiting *)

Section poll.
Context {W : Type} `{Clock W}.

Definition out_of_fuel : string := "out of fuel".

(** The loop: the deadline is tested first, then one turn is made; [None]
    goes on.  Fuel bounds the turns of the model, not of the code. *)
Fixpoint poll (fuel : nat) (deadline : Z) (timed_out : error) (turn : M W (option (option error)))
    : M W (option error) :=
  match fuel with
  | O => panic out_of_fuel
  | S fuel =>
      t ← reads now;
      if (deadline <? t)%Z then mret (Some timed_out)
      else
        r ← turn;
        match r with
        | Some res => mret res
        | None => poll fuel deadline timed_out turn
        end
  end.
End poll.

(** ** aws.go *)

Inductive AWSSnapshotType := PostgresSnapshotType | RedisSnapshotType | OtherSnapshotType (name : string).
Definition snapshot_type_text (t : AWSSnapshotType) : string :=
  match t with
  | PostgresSnapshotType => "PostgresSnapshot"
  | RedisSnapshotType => "RedisSnapshot"
  | OtherSnapshotType n => n
  end.

(** The two kinds of snapshots: resource name of the spec, phase and message
    of the status. *)
Record Snapshot (kind : AWSSnapshotType) := mkSnapshot {
  sn_meta : ObjectMeta; sn_ResourceName : string; sn_Phase : string; sn_Message : string }.
Arguments mkSnapshot {_} _ _ _ _.
Arguments sn_meta {_} _.
Arguments sn_ResourceName {_} _.
Arguments sn_Phase {_} _.
Arguments sn_Message {_} _.
#[global] Instance Snapshot_eq_dec k : EqDecision (Snapshot k).
Proof. solve_decision. Defined.
#[global] Instance Snapshot_object k : K8sObject (Snapshot k) := {|
  meta := sn_meta; set_meta m s := mkSnapshot m (sn_ResourceName s) (sn_Phase s) (sn_Message s);
  semantic_deep_equal a b := bool_decide (a = b);
|}.

Record AWSBackupExecutor := mkAWSBackup {
  SnapshotNamespace : string; ResourceName : string; SnapshotType : AWSSnapshotType }.

(** crotypes.PhaseFailed and crotypes.PhaseComplete *)
Definition SnapshotFailed : string := "failed".
Definition SnapshotComplete : string := "complete".

Section aws.
Context {W : Type} `{Clock W}.

Definition snapshot_turn {k} `{Client W (Snapshot k)} (c : KClient) (e : AWSBackupExecutor) (name : string)
    : M W (option (option error)) :=
  got ← client_get (O := Snapshot k) c (SnapshotNamespace e) name;
  mret (match got with
        | inl _ => Some (Some (ErrStr ("Error occurred querying snapshot for backup " +:+ ResourceName e)))
        | inr cr =>
            if sn_Phase cr =?s SnapshotFailed then
              Some (Some (ErrStr ("Snapshot failed: " +:+ sn_Message cr)))
            else if sn_Phase cr =?s SnapshotComplete then Some None
            else None
        end).

(** With a snapshot of kind [k]. *)
Definition aws_backup (k : AWSSnapshotType) `{Client W (Snapshot k)} (fuel : nat)
    (e : AWSBackupExecutor) (snapshotName : string) (c : KClient) (timeout : Z) : M W (option error) :=
  r ← client_create c (mkSnapshot (kind := k) (named (SnapshotNamespace e) snapshotName)
                         (ResourceName e) "" "");
  match r with
  | inl err => mret (Some (errorf_v ("Error creating " +:+ snapshot_type_text (SnapshotType e)
                 +:+ " for backup of resource " +:+ ResourceName e +:+ ": ") (Some err)))
  | inr _ =>
      started ← reads now;
      poll fuel (started + timeout)
        (ErrStr ("Snapshot of " +:+ ResourceName e +:+ " " +:+ snapshot_type_text (SnapshotType e)
                 +:+ " timed out"))
        (snapshot_turn (k := k) c e snapshotName)
  end.

Definition aws_PerformBackup `{Client W (Snapshot PostgresSnapshotType)}
    `{Client W (Snapshot RedisSnapshotType)} (fuel : nat) (e : AWSBackupExecutor) : BackupExecutor W :=
  λ c timeout,
    t ← reads now;
    let snapshotName := ResourceName e +:+ "-preupgrade-snapshot-" +:+ format_time t in
    match SnapshotType e with
    | PostgresSnapshotType => aws_backup PostgresSnapshotType fuel e snapshotName c timeout
    | RedisSnapshotType => aws_backup RedisSnapshotType fuel e snapshotName c timeout
    | OtherSnapshotType n => mret (Some (ErrStr
        ("Unsupported value for AWSShapshotType. Expected PostgresSnapshot or RedisSnapshot, got " +:+ n)))
    end.
End aws.

(** ** cronjob.go *)

(** The job's pod template is carried over as it is. *)
Section cronjob.
Context {T : Type}.
Record CronJob := mkCronJob { cj_meta : ObjectMeta; cj_JobSpec : T }.
Record JobCondition := mkJobCondition { jc_Type : string; jc_Status : string; jc_Message : string }.
Record Job := mkJob {
  job_meta : ObjectMeta; job_Spec : T; job_CompletionTime : option Z; job_Conditions : list JobCondition }.
End cronjob.
Arguments CronJob : clear implicits.
Arguments Job : clear implicits.

Record CronJobBackupExecutor := mkCronJobBackup {
  CronJobName : string; cj_Namespace : string; JobGenerateName : string }.

Fixpoint job_error_in (l : list JobCondition) : option error :=
  match l with
  | [] => None
  | c :: l => if (jc_Type c =?s "Failed") && (jc_Status c =?s "True")
              then Some (ErrStr ("job failed: " +:+ jc_Message c)) else job_error_in l
  end.
Definition getJobError {T} (j : Job T) : option error := job_error_in (job_Conditions j).

Section cron.
Context {W T : Type} `{Clock W} `{Client W (CronJob T)} `{Client W (Job T)}.

(** The job's name is missing from the messages of the loop. *)
Definition job_turn (c : KClient) (e : CronJobBackupExecutor) (jobName : string)
    : M W (option (option error)) :=
  got ← client_get (O := Job T) c (cj_Namespace e) jobName;
  mret (match got with
        | inl err => Some (Some (errorf_v ("Error querying newly created Job  in namespace "
                       +:+ cj_Namespace e +:+ ": ") (Some err)))
        | inr j =>
            if is_some (job_CompletionTime j) then Some None
            else match getJobError j with
                 | Some err => Some (Some (ErrWrap "Error performing backup job: " err))
                 | None => None
                 end
        end).

Definition cronjob_PerformBackup (fuel : nat) (e : CronJobBackupExecutor) : BackupExecutor W :=
  λ c timeout,
    t ← reads now;
    let jobName := JobGenerateName e +:+ "-" +:+ format_time t in
    got ← client_get (O := CronJob T) c (cj_Namespace e) (CronJobName e);
    match got with
    | inl err => mret (Some (errorf_v ("Error obtaining CronJob " +:+ CronJobName e +:+ " in namespace "
                   +:+ cj_Namespace e +:+ ": ") (Some err)))
    | inr cronJob =>
        r ← client_create c (mkJob (named (cj_Namespace e) jobName) (cj_JobSpec cronJob) None []);
        match r with
        | inl err => mret (Some (errorf_v ("Error creating Job from CronJob " +:+ CronJobName e
                       +:+ " in namespace " +:+ cj_Namespace e +:+ ": ") (Some err)))
        | inr _ =>
            timeStarted ← reads now;
            poll fuel (timeStarted + timeout) (ErrStr "Timed out when waiting for Job  to finish")
              (job_turn c e jobName)
        end
    end.
End cron.

(** ** Facts *)

Section poll_facts.
Context {W : Type} `{Clock W}.
Implicit Types (turn : M W (option (option error))).

(** A turn that goes on takes at least one unit of time. *)
Definition takes_time turn : Prop :=
  ∀ w w', turn w = (Done None, w') → (now w < now w')%Z.

(** Once there is a turn for every unit of time left, more fuel changes
    nothing, and the loop does not run out of it. *)
Lemma poll_fuel n m deadline e turn (w : W) :
  takes_time turn →
  Z.to_nat (deadline - now w + 1) < n → Z.to_nat (deadline - now w + 1) < m →
  poll n deadline e turn w = poll m deadline e turn w.
Proof.
  intros Ht. revert m w. induction n as [|n IH]; intros m w Hn Hm; [lia|].
  destruct m as [|m]; [lia|]. cbn [poll]. rewrite !bind_reads.
  destruct (Z.ltb_spec deadline (now w)); [done|]. rewrite !run_bind.
  destruct (turn w) as [[[res|]|why] w1] eqn:E; [done| |done].
  apply Ht in E. apply IH; lia.
Qed.

Lemma poll_ends n deadline e turn (w : W) :
  takes_time turn → (∀ w w', turn w ≠ (Panic out_of_fuel, w')) →
  Z.to_nat (deadline - now w + 1) < n →
  (poll n deadline e turn w).1 ≠ Panic out_of_fuel.
Proof.
  intros Ht Hp. revert w. induction n as [|n IH]; intros w Hn; [lia|].
  cbn [poll]. rewrite bind_reads. destruct (Z.ltb_spec deadline (now w)); [done|]. rewrite run_bind.
  destruct (turn w) as [[[res|]|why] w1] eqn:E; [done| |].
  - apply Ht in E. apply IH. lia.
  - intros [= ->]. by apply (Hp w w1).
Qed.

(** A loop that ends well before the deadline ended in a turn that did. *)
Lemma poll_none n deadline e turn (w w' : W) :
  poll n deadline e turn w = (Done None, w') → ∃ w1, turn w1 = (Done (Some None), w').
Proof.
  revert w. induction n as [|n IH]; intros w; cbn [poll]; [done|]. rewrite bind_reads.
  destruct (_ <? _)%Z; [done|]. intros Hp.
  apply bind_done_inv in Hp as ([res|] & w1 & Hr & Hp); [|eauto]. go_inv. eauto.
Qed.
End poll_facts.

(** C26: The backup of an AWS resource ends: when reading the snapshot takes
    time, a turn for every nanosecond of the timeout is enough for the loop,
    with any more fuel the result is the same, and it is success only when
    the snapshot that was created was read back complete. *)
Theorem aws_backup_ends {W k} `{Clock W} `{Client W (Snapshot k)} e name c timeout (w : W) n :
  (∀ c ns x (w w' : W) got, client_get (O := Snapshot k) c ns x w = (Done got, w') → (now w < now w')%Z) →
  (∀ c ns x (w w' : W), client_get (O := Snapshot k) c ns x w ≠ (Panic out_of_fuel, w')) →
  (∀ c o (w w' : W), client_create (O := Snapshot k) c o w ≠ (Panic out_of_fuel, w')) →
  Z.to_nat (timeout + 1) < n →
  (aws_backup k n e name c timeout w).1 ≠ Panic out_of_fuel
  ∧ (∀ m, n ≤ m → aws_backup k m e name c timeout w = aws_backup k n e name c timeout w)
  ∧ (∀ w', aws_backup k n e name c timeout w = (Done None, w') →
       ∃ w1 cr, client_get (O := Snapshot k) c (SnapshotNamespace e) name w1 = (Done (inr cr), w')
                ∧ sn_Phase cr = SnapshotComplete).
Proof.
  intros Htime Hg Hcr Hn. unfold aws_backup.
  assert (takes_time (snapshot_turn (k := k) c e name)) as Ht.
  { intros w1 w2 Hs. unfold snapshot_turn in Hs.
    apply bind_done_inv in Hs as (got & w3 & Hget & Hs). apply Htime in Hget. by go_inv. }
  assert (∀ w w', snapshot_turn (k := k) c e name w ≠ (Panic out_of_fuel, w')) as Hpt.
  { intros w1 w2. unfold snapshot_turn. rewrite run_bind.
    destruct (client_get _ _ _ w1) as [[got|why] w3] eqn:E; [done|].
    intros [= -> ->]. by apply Hg in E. }
  rewrite run_bind.
  destruct (client_create c _ w) as [[[err|o]|why] w1] eqn:E.
  - split_and!; [done|intros m _; by rewrite run_bind, E|intros w' Hd; go_inv].
  - rewrite bind_reads. split_and!.
    + apply poll_ends; [done..|lia].
    + intros m Hm. rewrite run_bind, E, bind_reads. apply poll_fuel; [done|lia..].
    + intros w' (w2 & Hs)%poll_none. unfold snapshot_turn in Hs.
      apply bind_done_inv in Hs as ([err|cr] & w3 & Hget & Hs); go_inv.
      exists w2, cr. split; [done|]. destruct (sn_Phase cr =?s SnapshotFailed); [done|].
      by destruct (sn_Phase cr =?s SnapshotComplete) eqn:Ec; [apply str_eqb_true in Ec|].
  - split_and!; [|intros m _; by rewrite run_bind, E|intros w' Hd; discriminate Hd].
    intros [= ->]. by apply Hcr in E.
Qed.
