(* ===== verification/Marketplace.v ===== *)
(** * Installing product operators (pkg/resources/marketplace)

    manager.go, products_installation.go and the three catalog source
    reconcilers: how a product's operator is subscribed to. *)

From stdpp Require Import base list strings gmap.
From Stdlib Require Import ZArith Lia.
From S2P Require Import Prelude Kube Api Resources Olm Cluster Addon.

Definition IntegreatlyChannel : string := "rhmi".
Definition CatalogSourceName : string := "rhmi-registry-cs".
Definition OperatorGroupName : string := "rhmi-registry-og".
Definition Publisher : string := "RHMI".
Definition ThreeScaleSubscriptionName : string := "rhmi-3scale".
(** operatorsv1alpha1.ApprovalManual, and the source types *)
Definition ApprovalManual : string := "Manual".
Definition SourceTypeGrpc : string := "grpc".
Definition SourceTypeConfigmap : string := "configmap".

(** ** products_installation.go *)

Record ProductDeclaration := mkProductDeclaration {
  InstallFrom : string;
  ManifestsDir : option string;
  Index : string;
  Channel : string;
  Package : string;
}.
Definition ProductInstallationSourceLocal : string := "local".
Definition ProductInstallationSourceIndex : string := "index".
Definition ProductInstallationSourceImplicit : string := "implicit".

Definition LocalProductDeclaration (manifestsPath : string) : ProductDeclaration :=
  mkProductDeclaration ProductInstallationSourceLocal (Some ("manifests/" +:+ manifestsPath)) "" "" "".

Definition GetChannel (p : ProductDeclaration) : string :=
  if Channel p =?s "" then IntegreatlyChannel else Channel p.
Definition GetPackage (p : ProductDeclaration) : string * bool :=
  (Package p, negb (Package p =?s "")).

(** The state of the three implementations of CatalogSourceReconciler. *)
Inductive CatalogSourceReconciler :=
  | GRPCImage (image namespace csName : string)
  | FromConfigMap (manifestsProductDirectory namespace csName : string)
  | Implicit (selfCatalogSource : option CatalogSource).

Definition ToCatalogSourceReconciler (p : ProductDeclaration) (namespace catalogSourceName : string)
    : error + CatalogSourceReconciler :=
  if InstallFrom p =?s ProductInstallationSourceIndex then
    inr (GRPCImage (Index p) namespace catalogSourceName)
  else if InstallFrom p =?s ProductInstallationSourceLocal then
    match ManifestsDir p with
    | None => inl (ErrStr ("installation source " +:+ InstallFrom p +:+ " requires manifestsDir"))
    | Some dir => inr (FromConfigMap dir namespace catalogSourceName)
    end
  else if InstallFrom p =?s ProductInstallationSourceImplicit then inr (Implicit None)
  else inl (ErrStr ("installation source " +:+ InstallFrom p +:+ " not supported")).

Record Target := mkTarget {
  t_Namespace : string;
  t_SubscriptionName : string;
  t_Package : string;
  t_Channel : string;
}.

(** The target is a pointer: it is returned as it is left. *)
Definition PrepareTarget (p : ProductDeclaration) (catalogSourceName : string) (target : Target)
    : Target * (error + CatalogSourceReconciler) :=
  match ToCatalogSourceReconciler p (t_Namespace target) catalogSourceName with
  | inl e => (target, inl e)
  | inr r =>
      let '(pkg, ok) := GetPackage p in
      let pkg := if negb ok then t_SubscriptionName target else pkg in
      (mkTarget (t_Namespace target) (t_SubscriptionName target) pkg (GetChannel p), inr r)
  end.

(** ** The catalog source reconcilers *)

(** GenerateRegistryConfigMapFromManifest reads a directory of manifests. *)
Class Manifests (W : Type) :=
  GenerateRegistryConfigMapFromManifest : string → M W (error + gmap string string).

Section catalog_source.
Context {W : Type} `{Client W CatalogSource} `{Client W ConfigMap} `{Client W RHMI}
  `{Client W Subscription} `{Client W NamespaceObj} `{MapRange W} `{OsEnv W} `{Manifests W}.

(** rhmi.go of pkg/resources/rhmi; [None] is a nil installation. *)
Definition GetRhmiCr (c : KClient) (namespace : string) : M W (error + option RHMI) :=
  ls ← client_list c (InNamespace namespace);
  match ls with
  | inl e => mret (inl e)
  | inr [] => mret (inr None)
  | inr [i] => mret (inr (Some i))
  | inr _ => mret (inl (errorf_w "Unexpected number of rhmi CRs: " None))
  end.

(** The catalog source of a grpc or a config map reconciler. *)
Definition reconcile_catalog_source (c : KClient) (namespace csName : string)
    (spec : CatalogSourceSpec) : M W (option error) :=
  '(_, (_, err)) ← CreateOrUpdate c (mkCatalogSource (named namespace csName) zero_CSSpec)
    (λ cs, mret (mkCatalogSource (cs_meta cs) spec, None));
  mret ((λ e, ErrWrap ("failed to create/update registry catalog source for namespace '"
                       +:+ namespace +:+ "': ") e) <$> err).

Definition grpc_spec (image csName : string) : CatalogSourceSpec :=
  mkCSSpec SourceTypeGrpc "" image csName Publisher true.
Definition configmap_spec (configMapName csName : string) : CatalogSourceSpec :=
  mkCSSpec SourceTypeConfigmap configMapName "" csName Publisher true.

Definition reconcileRegistryConfigMap (c : KClient) (namespace : string)
    (configMapData : gmap string string) : M W (string * option error) :=
  let configMapName := "registry-cm-" +:+ namespace in
  got ← client_get c namespace configMapName;
  match got with
  | inl err =>
      if negb (IsNotFound (Some err)) then
        mret ("", Some (ErrWrap ("Failed to get config map " +:+ configMapName +:+ " from "
                                 +:+ namespace +:+ " namespace: ") err))
      else
        r ← client_create c (mkConfigMap (named namespace configMapName) (Some configMapData));
        match r with
        | inl e => mret ("", Some (ErrWrap ("Failed to create configmap " +:+ configMapName +:+ " in "
                                            +:+ namespace +:+ " namespace: ") e))
        | inr _ => mret (configMapName, None)
        end
  | inr configMap =>
      if negb (bool_decide (cm_Data configMap = Some configMapData)) then
        r ← client_update c (with_cm_Data configMap (Some configMapData));
        match r with
        | inl e => mret ("", Some (ErrWrap ("Failed to update configmap " +:+ configMapName +:+ " in "
                                            +:+ namespace +:+ " namespace: ") e))
        | inr _ => mret (configMapName, None)
        end
      else mret (configMapName, None)
  end.

Definition reconcile_from_config_map (c : KClient) (dir namespace csName : string)
    : M W (option error) :=
  data ← GenerateRegistryConfigMapFromManifest dir;
  match data with
  | inl e => mret (Some (ErrWrap "Failed to generated config map data from manifest: " e))
  | inr configMapData =>
      '(configMapName, err) ← reconcileRegistryConfigMap c namespace configMapData;
      match err with
      | Some e => mret (Some (ErrWrap "Failed to reconcile config map for registry: " e))
      | None =>
          err ← reconcile_catalog_source c namespace csName (configmap_spec configMapName csName);
          mret ((λ e, ErrWrap "Failed to reconcile catalog source for registry: " e) <$> err)
      end
  end.

Definition getSelfCatalogSource (c : KClient) (self : option CatalogSource)
    : M W (option CatalogSource * option error) :=
  match self with
  | Some cs => mret (Some cs, None)
  | None =>
      ns ← reads GetWatchNamespace;
      match ns with
      | inl e => mret (None, Some e)
      | inr ns =>
          got ← GetRhmiCr c ns;
          match got with
          | inl e => mret (None, Some e)
          | inr None => panic "nil pointer dereference"
          | inr (Some installation) => GetCatalogSource c installation
          end
      end
  end.

(** strings.Join(strings.Split(ns, "-")[0:2], "-") + "-" *)
Definition first_two_segments (namespace : string) : outcome string :=
  match split_on (Ascii.ascii_of_nat 45) namespace with
  | a :: b :: _ => Done (join "-" [a; b] +:+ "-")
  | _ => Panic "slice bounds out of range"
  end.

(** Reconcile of the implicit reconciler, with its cached catalog source. *)
Definition reconcile_implicit (c : KClient) (self : option CatalogSource) (subName : string)
    : M W (option CatalogSource * option error) :=
  '(catalogSource, err) ← getSelfCatalogSource c self;
  match err with
  | Some e => mret (self, Some e)
  | None =>
      match catalogSource with
      | None => mret (None, Some (ErrStr "catalog source not found for implicit product installation type"))
      | Some catalogSource =>
          ns ← reads GetWatchNamespace;
          match ns with
          | inl e => mret (Some catalogSource,
              errors_Wrap (Some e) "could not get watch namespace in ImplicitCatalogSourceReconciler")
          | inr watchNS =>
              namespacePrefix ← lift (first_two_segments watchNS);
              if (Namespace (cs_meta catalogSource) =?s namespacePrefix +:+ "operator")
                 && str_contains "3scale" subName
              then
                '(cs, (_, err)) ← CreateOrUpdate c
                  (mkCatalogSource (named (namespacePrefix +:+ "3scale-operator")
                                      (Name (cs_meta catalogSource))) zero_CSSpec)
                  (λ cs, mret (mkCatalogSource (cs_meta cs) (cs_Spec catalogSource), None));
                match err with
                | Some e => mret (Some catalogSource, errors_Wrap (Some e)
                    "could not createOrUpdate catalogSource in ImplicitCatalogSourceReconciler")
                | None => mret (Some cs, None)
                end
              else mret (Some catalogSource, None)
          end
      end
  end.

(** Reconcile of the interface.  No implementation asks for a requeue. *)
Definition csr_Reconcile (c : KClient) (r : CatalogSourceReconciler) (subName : string)
    : M W (CatalogSourceReconciler * option error) :=
  match r with
  | GRPCImage image ns csName =>
      err ← reconcile_catalog_source c ns csName (grpc_spec image csName); mret (r, err)
  | FromConfigMap dir ns csName => err ← reconcile_from_config_map c dir ns csName; mret (r, err)
  | Implicit self => '(self, err) ← reconcile_implicit c self subName; mret (Implicit self, err)
  end.
End catalog_source.

Lemma first_two_segments_spec a b rest :
  has_char (Ascii.ascii_of_nat 45) a = false → has_char (Ascii.ascii_of_nat 45) b = false →
  first_two_segments (a +:+ "-" +:+ b +:+ "-" +:+ rest) = Done (a +:+ "-" +:+ b +:+ "-").
Proof.
  intros Ha Hb. unfold first_two_segments.
  change ("-" +:+ b +:+ ?z) with (String (Ascii.ascii_of_nat 45) (b +:+ z)).
  change ("-" +:+ rest) with (String (Ascii.ascii_of_nat 45) rest).
  rewrite !split_on_app_sep by done. f_equal. unfold join. cbn. by rewrite !str_app_assoc.
Qed.


Definition csr_CatalogSourceName (r : CatalogSourceReconciler) : outcome string :=
  match r with
  | GRPCImage _ _ csName | FromConfigMap _ _ csName => Done csName
  | Implicit (Some cs) => Done (Name (cs_meta cs))
  | Implicit None => Panic "nil pointer dereference"
  end.
Definition csr_CatalogSourceNamespace (r : CatalogSourceReconciler) : outcome string :=
  match r with
  | GRPCImage _ ns _ | FromConfigMap _ ns _ => Done ns
  | Implicit (Some cs) => Done (Namespace (cs_meta cs))
  | Implicit None => Panic "nil pointer dereference"
  end.

(** ** manager.go *)

(** The loop over the variables of the 3scale subscription: the first one of
    that name gets the value, and it is added when there is none. *)
Fixpoint set_env (env : EnvVar) (l : list EnvVar) : list EnvVar :=
  match l with
  | [] => [env]
  | e :: l' => if ev_Name e =?s ev_Name env then mkEnvVar (ev_Name e) (ev_Value env) :: l'
               else e :: set_env env l'
  end.
Definition preflightsSkipEnvVar : EnvVar := mkEnvVar "PREFLIGHT_CHECKS_BYPASS" "true".

Definition zero_SubSpec : SubscriptionSpec := mkSubSpec "" "" "" "" "" None.

(** mutateSub, with the catalog source's name and namespace. *)
Definition mutateSub (t : Target) (approvalStrategy csName csNamespace : string) (sub : Subscription)
    : Subscription :=
  let sp := default zero_SubSpec (sub_Spec sub) in
  let cfg := default (mkSubConfig None []) (ss_Config sp) in
  let env := if t_SubscriptionName t =?s ThreeScaleSubscriptionName
             then set_env preflightsSkipEnvVar (sc_Env cfg) else sc_Env cfg in
  set_sub_Spec (mkSubSpec csName csNamespace (t_Package t) (t_Channel t) approvalStrategy
                  (Some (mkSubConfig (Some (default zero_CsvResources (sc_Resources cfg))) env))) sub.

Section manager.
Context {W : Type} `{Client W CatalogSource} `{Client W ConfigMap} `{Client W RHMI}
  `{Client W Subscription} `{Client W NamespaceObj} `{Client W OperatorGroup}
  `{Client W InstallPlan} `{MapRange W} `{OsEnv W} `{Manifests W}.

Definition reconcileOperatorGroup (c : KClient) (t : Target) (operatorGroupNamespaces : list string)
    : M W (option error) :=
  '(_, (_, err)) ← CreateOrUpdate c
    (mkOperatorGroup (SetLabels (Some {["integreatly" := t_SubscriptionName t]})
                        (named (t_Namespace t) OperatorGroupName)) [])
    (λ og, mret (mkOperatorGroup (og_meta og) operatorGroupNamespaces, None));
  mret err.

(** The catalog source reconciler is shared with the caller; it is returned
    as it is left.  A failed Get of the subscription is only logged. *)
Definition InstallOperator (c : KClient) (t : Target) (operatorGroupNamespaces : list string)
    (approvalStrategy : string) (r : CatalogSourceReconciler)
    : M W (CatalogSourceReconciler * option error) :=
  '(r, err) ← csr_Reconcile c r (t_SubscriptionName t);
  match err with
  | Some e => mret (r, Some e)
  | None =>
      err ← reconcileOperatorGroup c t operatorGroupNamespaces;
      match err with
      | Some e => mret (r, Some e)
      | None =>
          got ← client_get c (t_Namespace t) (t_SubscriptionName t);
          let sub := match got with
                     | inr s => s
                     | inl _ => mkSubscription (named (t_Namespace t) (t_SubscriptionName t)) None "" false None ""
                     end in
          '(_, (_, err)) ← CreateOrUpdate c sub (λ sub,
             csName ← lift (csr_CatalogSourceName r);
             csNamespace ← lift (csr_CatalogSourceNamespace r);
             mret (mutateSub t approvalStrategy csName csNamespace sub, None));
          mret (r, if is_some err && negb (IsAlreadyExists err) then err else None)
      end
  end.

Definition getSubscription (c : KClient) (subName ns : string) : M W (error + Subscription) :=
  client_get c ns subName.

(** The install plan and the subscription, either of which may be nil. *)
Definition GetSubscriptionInstallPlan (c : KClient) (subName ns : string)
    : M W (option InstallPlan * option Subscription * option error) :=
  got ← getSubscription c subName ns;
  match got with
  | inl e => mret (None, None, Some (ErrWrap "GetSubscriptionInstallPlan: " e))
  | inr sub =>
      match sub_Install sub, sub_InstallPlanRef sub with
      | true, Some (n, refns) =>
          got ← client_get c refns n;
          match got with
          | inl e => mret (None, None, if IsNotFound (Some e) then None else Some e)
          | inr ip => mret (Some ip, Some sub, None)
          end
      | _, _ => mret (None, Some sub, Some (ErrKube NotFound "installplans.operators.coreos.com not found"))
      end
  end.
End manager.

(** ** Facts *)

Lemma set_env_idempotent e l : set_env e (set_env e l) = set_env e l.
Proof.
  induction l as [|x l IH]; simpl; [rewrite str_eqb_refl; by destruct e|].
  destruct (ev_Name x =?s ev_Name e) eqn:E; simpl; rewrite E; [done|]. by rewrite IH.
Qed.
Lemma set_env_others e l :
  filter (λ x, ev_Name x ≠ ev_Name e) (set_env e l) = filter (λ x, ev_Name x ≠ ev_Name e) l.
Proof.
  induction l as [|x l IH]; cbn [set_env].
  - by rewrite filter_cons_False by naive_solver.
  - destruct (ev_Name x =?s ev_Name e) eqn:E.
    + apply str_eqb_true in E. rewrite !filter_cons_False by (simpl; naive_solver). done.
    + apply str_eqb_false in E. rewrite !filter_cons_True by done. by rewrite IH.
Qed.
Lemma set_env_mem e l : e ∈ set_env e l.
Proof.
  induction l as [|x l IH]; simpl; [set_solver|].
  destruct (ev_Name x =?s ev_Name e) eqn:E; [|set_solver].
  apply str_eqb_true in E. rewrite E. destruct e. set_solver.
Qed.

Lemma mutateSub_idempotent t a n ns s :
  mutateSub t a n ns (mutateSub t a n ns s) = mutateSub t a n ns s.
Proof.
  unfold mutateSub. cbn. destruct (t_SubscriptionName t =?s _); [|done].
  by rewrite set_env_idempotent.
Qed.

Section install_operator.
Context {W : Type} `{Client W CatalogSource} `{Client W ConfigMap} `{Client W RHMI}
  `{Client W Subscription} `{Client W NamespaceObj} `{Client W OperatorGroup}
  `{Client W InstallPlan} `{MapRange W} `{OsEnv W} `{Manifests W}.

End install_operator.
