(* ===== verification/Reconciler.v ===== *)
(** * The base reconciler of the products (pkg/resources)

    reconciler.go, pullSecret.go, installPlan.go and the clean-up functions
    of finalizers.go: the steps every product reconciler is built from.  They
    reach OLM through [MarketplaceInterface], which Marketplace.v implements,
    and a backup through [BackupExecutor]. *)

From stdpp Require Import base list strings gmap.
From Stdlib Require Import ZArith Lia.
From S2P Require Import Prelude Kube Api Resources Olm Config Cluster Addon Backup Marketplace.

(** ** Interfaces *)

(** marketplace.MarketplaceInterface.  The catalog source reconciler is
    returned as the call leaves it. *)
Class MarketplaceInterface (W : Type) := {
  mpm_InstallOperator : KClient → Target → list string → string → CatalogSourceReconciler →
    M W (CatalogSourceReconciler * option error);
  mpm_GetSubscriptionInstallPlan : KClient → string → string →
    M W (option InstallPlan * option Subscription * option error);
}.

(** The manager of marketplace/manager.go *)
#[export] Instance marketplace_Manager {W} `{Client W CatalogSource} `{Client W ConfigMap}
  `{Client W RHMI} `{Client W Subscription} `{Client W NamespaceObj} `{Client W OperatorGroup}
  `{Client W InstallPlan} `{MapRange W} `{OsEnv W} `{Manifests W} : MarketplaceInterface W := {|
  mpm_InstallOperator := InstallOperator;
  mpm_GetSubscriptionInstallPlan := GetSubscriptionInstallPlan;
|}.

(** ** Labels *)

Definition OwnerLabelKey : string := "integreatly.org/installation-uid".

Definition prepared_labels (labels : gmap string string) (install : RHMI)
    (addRHMIMonitoringLabels addClusterMonitoringLabel disableUserAlerting : bool)
    : gmap string string :=
  let labels := if disableUserAlerting
    then <["openshift.io/user-monitoring" := "false"]> labels else labels in
  let labels := if addRHMIMonitoringLabels
    then <["monitoring-key" := "middleware"]> labels else delete "monitoring-key" labels in
  let labels := if addClusterMonitoringLabel
    then <["openshift.io/cluster-monitoring" := "true"]> labels
    else delete "openshift.io/cluster-monitoring" labels in
  <[OwnerLabelKey := UID (rhmi_meta install)]> (<["integreatly" := "true"]> labels).

Section labels.
Context {O : Type} `{K8sObject O}.

Definition PrepareObjectLabels (object : O) (install : RHMI)
    (addRHMIMonitoringLabels addClusterMonitoringLabel disableUserAlerting : bool) : O :=
  set_meta (SetLabels (Some (prepared_labels (make_if_nil (Labels (meta object))) install
    addRHMIMonitoringLabels addClusterMonitoringLabel disableUserAlerting)) (meta object)) object.

(** The answer of the range loop does not depend on its order. *)
Definition IsOwnedBy (o : O) (owner : RHMI) : bool :=
  existsb (λ kv, (kv.1 =?s OwnerLabelKey) && (kv.2 =?s UID (rhmi_meta owner)))
    (map_to_list (make_if_nil (Labels (meta o)))).
End labels.
#[global] Arguments PrepareObjectLabels : simpl never.

(** ** Namespaces *)

Section namespaces.
Context {W : Type} `{Client W NamespaceObj} `{Client W ProjectRequest} `{Client W Project}
  `{Client W Secret}.

(** On an error the caller gets the object it asked for, of which it only
    reads the name. *)
Definition GetNS (namespace : string) (c : KClient) : M W (error + NamespaceObj) :=
  client_get c "" namespace.

Definition CreateNSWithProjectRequest (namespace : string) (c : KClient) (inst : RHMI)
    (addRHMIMonitoringLabels addClusterMonitoringLabel disableUserAlerting : bool)
    : M W (error + NamespaceObj) :=
  r ← client_create c (mkProjectRequest (named "" namespace));
  match r with
  | inl e => mret (inl (errorf_v ("could not create " +:+ namespace +:+ " Namespace: ") (Some e)))
  | inr _ =>
      got ← GetNS namespace c;
      match got with
      | inl e => mret (inl (errorf_v ("could not retrieve " +:+ namespace +:+ " namespace: ") (Some e)))
      | inr ns =>
          let ns := PrepareObjectLabels ns inst addRHMIMonitoringLabels
                      addClusterMonitoringLabel disableUserAlerting in
          r ← client_update c ns;
          match r with
          | inl e => mret (inl (errorf_v ("failed to update the " +:+ Name (ns_meta ns)
                                          +:+ " namespace definition: ") (Some e)))
          | inr ns => mret (inr ns)
          end
      end
  end.

(** *** pullSecret.go *)

Definition SecretTypeDockerConfigJson : string := "kubernetes.io/dockerconfigjson".

Definition CopySecret (c : KClient) (srcName srcNamespace destName destNamespace : string)
    : M W (option error) :=
  got ← client_get (O := Secret) c srcNamespace srcName;
  match got with
  | inl e => mret (Some e)
  | inr srcSecret =>
      '(_, (_, err)) ← CreateOrUpdate c
        (mkTypedSecret (named destNamespace destName) None SecretTypeDockerConfigJson)
        (λ destSecret, mret (mkOwnedSecret (sec_meta destSecret) (sec_Data srcSecret)
                               (sec_Type srcSecret) (sec_OwnerReferences destSecret), None));
      mret err
  end.

Definition CopyPullSecretToNameSpace (secretSpec : PullSecretSpec) (destNamespace destName : string)
    (c : KClient) : M W (option error) :=
  CopySecret c (ps_Name secretSpec) (ps_Namespace secretSpec) destName destNamespace.

Definition ReconcileSecretToProductNamespace (c : KClient) (m : Manager)
    (secretName namespace : string) : M W (StatusPhase * option error) :=
  err ← CopySecret c secretName (GetOperatorNamespace m) secretName namespace;
  match err with
  | Some e =>
      if IsNotFound (Some e) then mret (PhaseCompleted, None)
      else mret (PhaseFailed, Some (ErrWrap "failed to seed copy secret to product namespace: " e))
  | None => mret (PhaseCompleted, None)
  end.

(** The Keycloak [kc] becomes the owner of a secret that has none. *)
Definition AddOwnerRefToSSOSecret (c : KClient) (secretName namespace : string) (kc : ObjectMeta)
    : M W (option error) :=
  got ← client_get (O := Secret) c namespace secretName;
  match got with
  | inl e => mret (Some e)
  | inr srcSecret =>
      let owner := mkOwnerReference "keycloak.org/v1alpha1" "Keycloak" (Name kc) (UID kc)
                     (Some true) (Some true) in
      '(_, (_, err)) ← CreateOrUpdate c srcSecret (λ s,
        mret (mkOwnedSecret (sec_meta s) (sec_Data s) (sec_Type s)
                (match sec_OwnerReferences s with [] => [owner] | l => l end), None));
      mret err
  end.

Definition ReconcileSecretToRHMIOperatorNamespace (c : KClient) (m : Manager)
    (secretName namespace : string) : M W (StatusPhase * option error) :=
  err ← CopySecret c secretName namespace secretName (GetOperatorNamespace m);
  match err with
  | Some e => mret (PhaseFailed, Some (ErrWrap "failed to copy secret to RHMI Operator namespace: " e))
  | None => mret (PhaseCompleted, None)
  end.

Definition ReconcilePullSecret (destSecretNamespace destSecretName : string) (inst : RHMI)
    (c : KClient) : M W (StatusPhase * option error) :=
  err ← CopySecret c (ps_Name (PullSecret (Spec inst))) (ps_Namespace (PullSecret (Spec inst)))
          destSecretName destSecretNamespace;
  match err with
  | Some e => mret (PhaseFailed, Some (ErrWrap ("error creating/updating secret '" +:+ destSecretName
                      +:+ "' in namespace: '" +:+ destSecretNamespace +:+ "': ") e))
  | None => mret (PhaseCompleted, None)
  end.

Definition NamespaceTerminating : string := "Terminating".
Definition NamespaceActive : string := "Active".

Definition ReconcileNamespace (namespace : string) (inst : RHMI) (c : KClient)
    : M W (StatusPhase * option error) :=
  got ← GetNS namespace c;
  match got with
  | inl err =>
      if negb (IsNotFound (Some err)) && negb (IsForbidden (Some err)) then
        mret (PhaseFailed, Some (ErrWrap ("could not retrieve namespace: " +:+ namespace +:+ ". ") err))
      else
        r ← CreateNSWithProjectRequest namespace c inst true false true;
        match r with
        | inl e => mret (PhaseFailed,
            Some (errorf_v ("failed to create " +:+ namespace +:+ " namespace: ") (Some e)))
        | inr _ => mret (PhaseCompleted, None)
        end
  | inr ns =>
      let name := ps_Name (PullSecret (Spec inst)) in
      err ← (if negb (name =?s "") then
               '(_, err) ← ReconcilePullSecret namespace name inst c; mret err
             else mret None);
      match err with
      | Some _ => mret (PhaseFailed, Some (ErrStr ("Failed to reconcile " +:+ name +:+ " pull secret")))
      | None =>
          r ← client_update c (PrepareObjectLabels ns inst true false true);
          match r with
          | inl e => mret (PhaseFailed, Some (ErrWrap "failed to update the ns definition: " e))
          | inr ns =>
              if ns_Phase ns =?s NamespaceTerminating then mret (PhaseInProgress, None)
              else if negb (ns_Phase ns =?s NamespaceActive) then mret (PhaseInProgress, None)
              else mret (PhaseCompleted, None)
          end
      end
  end.

(** *** Clean-up *)

Definition RemoveNamespace (c : KClient) (namespace : string) : M W (StatusPhase * option error) :=
  got ← GetNS namespace c;
  match got with
  | inl err =>
      if IsNotFound (Some err) || IsForbidden (Some err) then mret (PhaseCompleted, None)
      else mret (PhaseFailed, Some err)
  | inr ns =>
      if ns_Phase ns =?s NamespaceTerminating then mret (PhaseCompleted, None)
      else
        err ← client_delete c (mkProject (ns_meta ns));
        if is_some err && negb (IsNotFound err) then mret (PhaseFailed, err)
        else mret (PhaseInProgress, None)
  end.
End namespaces.

(** ** OAuth clients *)

Section oauth.
Context {W : Type} `{Client W OAuthClient}.

(** The client's object is the caller's; it is returned as it is left. *)
Definition ReconcileOauthClient (inst : RHMI) (client : OAuthClient) (c : KClient)
    : M W (OAuthClient * (StatusPhase * option error)) :=
  let failed what e := Some (ErrWrap ("failed to " +:+ what +:+ " oauth client: "
                                      +:+ Name (oc_meta client) +:+ ". ") e) in
  got ← client_get c "" (Name (oc_meta client));
  match got with
  | inl err =>
      if IsNotFound (Some err) then
        let client := PrepareObjectLabels client inst true false false in
        r ← client_create c client;
        match r with
        | inl e => mret (client, (PhaseFailed, failed "create" e))
        | inr client => mret (client, (PhaseCompleted, None))
        end
      else mret (client, (PhaseFailed, failed "get" err))
  | inr existing =>
      let existing := PrepareObjectLabels existing inst true false false in
      let desired := mkOAuthClient (oc_meta existing) (oc_Secret client) (oc_GrantMethod client)
                       (oc_RedirectURIs client) in
      r ← client_update c desired;
      match r with
      | inl e => mret (desired, (PhaseFailed,
          Some (ErrWrap ("failed to update oauth client: " +:+ Name (oc_meta desired) +:+ ". ") e)))
      | inr client => mret (client, (PhaseCompleted, None))
      end
  end.

(** The delete call of the OpenShift clientset takes a name. *)
Definition RemoveOauthClient (delete_by_name : string → M W (option error)) (oauthClientName : string)
    : M W (option error) :=
  err ← delete_by_name oauthClientName;
  if is_some err && negb (IsNotFound err) then mret err else mret None.
End oauth.

(** ** Subscriptions *)

Definition InstallPlanPhaseFailed : string := "Failed".
Definition InstallPlanPhaseComplete : string := "Complete".
Definition InstallStrategyNameDeployment : string := "deployment".

(** errors.Unwrap *)
Definition errors_Unwrap (e : error) : option error :=
  match e with ErrWrap _ c => Some c | _ => None end.

Definition validateCSV (csv : ClusterServiceVersion) : option error :=
  if (StrategyName csv =?s InstallStrategyNameDeployment)
     && (length (DeploymentSpecs csv) =? 0)
  then Some (ErrStr "no Deployment found in install strategy") else None.

Section subscriptions.
Context {W : Type} `{Client W InstallPlan} `{Client W Subscription} `{Client W ClusterServiceVersion}
  `{MarketplaceInterface W}.

(** installPlan.go.  The install plan is the caller's object. *)
Definition upgradeApproval (preUpgradeBackupExecutor : BackupExecutor W) (c : KClient)
    (ip : InstallPlan) : M W (InstallPlan * option error) :=
  if negb (ip_Approved ip) && (0 <? length (ip_CSVNames ip)) then
    let ip := approve ip in
    err ← (if (1 <? Generation (ip_meta ip))%Z
           then preUpgradeBackupExecutor c (20 * minute_ns)%Z else mret None);
    match err with
    | Some e => mret (ip, Some (ErrWrap "error performing pre-upgrade backup: " e))
    | None =>
        r ← client_update c ip;
        match r with
        | inl e => mret (ip, Some (ErrWrap "error approving installplan: " e))
        | inr ip => mret (ip, None)
        end
    end
  else mret (ip, None).

(** [None] is a nil pointer; deleting a nil subscription panics. *)
Definition retryInstallation (c : KClient) (csv : option ClusterServiceVersion)
    (sub : option Subscription) : M W (StatusPhase * option error) :=
  err ← (match csv with Some csv => client_delete c csv | None => mret None end);
  if is_some err && negb (IsNotFound err) then
    mret (PhaseFailed, Some (errorf_v "failed to delete csv for re-install: " err))
  else
    match sub with
    | None => panic "nil pointer dereference"
    | Some sub =>
        err ← client_delete c sub;
        if is_some err && negb (IsNotFound err) then
          mret (PhaseFailed, Some (errorf_v "failed to delete subscription for re-intstall: " err))
        else mret (PhaseAwaitingOperator, None)
    end.

(** The loop over the CSVs of an install plan. *)
Fixpoint check_csvs (c : KClient) (namespace : string) (sub : option Subscription)
    (csvNames : list string) : M W (StatusPhase * option error) :=
  match csvNames with
  | [] => mret (PhaseCompleted, None)
  | csvName :: csvNames =>
      got ← client_get c namespace csvName;
      match got with
      | inl err =>
          if IsNotFound (Some err) then mret (PhaseInProgress, None)
          else mret (PhaseFailed, Some (errorf_v "error retrieving CSV: " (Some err)))
      | inr ipCSV =>
          match validateCSV ipCSV with
          | Some _ => retryInstallation c (Some ipCSV) sub
          | None => check_csvs c namespace sub csvNames
          end
      end
  end.

Definition zero_CSV (m : ObjectMeta) : ClusterServiceVersion := mkCSV m "" [].

Definition ReconcileSubscription (target : Target) (operandNS : list string)
    (preUpgradeBackupExecutor : BackupExecutor W) (c : KClient) (csr : CatalogSourceReconciler)
    : M W (CatalogSourceReconciler * (StatusPhase * option error)) :=
  let ns := t_Namespace target in
  '(csr, err) ← mpm_InstallOperator c target operandNS ApprovalManual csr;
  if is_some err && negb (IsAlreadyExists err) then
    mret (csr, (PhaseFailed, Some (errorf_w ("could not create subscription in namespace: "
                                             +:+ ns +:+ ": ") err)))
  else
    '(ip, sub, err) ← mpm_GetSubscriptionInstallPlan c (t_SubscriptionName target) ns;
    match err with
    | Some e =>
        if IsNotFound (Some e) || IsNotFound (errors_Unwrap e) then
          mret (csr, (PhaseAwaitingOperator, None))
        else mret (csr, (PhaseFailed, Some (ErrWrap
          ("could not retrieve installplan and subscription in namespace: " +:+ ns +:+ ": ") e)))
    | None =>
        match ip with
        | None => mret (csr, (PhaseInProgress, None))
        | Some ip =>
            '(ip, err) ← upgradeApproval preUpgradeBackupExecutor c ip;
            match err with
            | Some e => mret (csr, (PhaseFailed, Some (ErrWrap
                ("error approving installplan for " +:+ t_SubscriptionName target +:+ ": ") e)))
            | None =>
                if ip_Phase ip =?s InstallPlanPhaseFailed then
                  installed ← (match sub with
                               | None => panic "nil pointer dereference"
                               | Some sub => mret (sub_InstalledCSV sub)
                               end);
                  let csv := if negb (installed =?s "")
                             then Some (zero_CSV (named ns installed)) else None in
                  r ← retryInstallation c csv sub; mret (csr, r)
                else if negb (ip_Phase ip =?s InstallPlanPhaseComplete) && ip_Approved ip then
                  mret (csr, (PhaseInProgress, None))
                else r ← check_csvs c ns sub (ip_CSVNames ip); mret (csr, r)
            end
        end
    end.

Definition set_priority_class (priorityClassName : string) (csv : ClusterServiceVersion)
    : ClusterServiceVersion :=
  mkCSV (csv_meta csv) (StrategyName csv)
    (map (λ d, mkStrategyDeployment (sd_Name d) priorityClassName (sd_Containers d)) (DeploymentSpecs csv)).

Definition ReconcileCsvDeploymentsPriority (c : KClient)
    (csvName csvNamespace priorityClassName : string) : M W (StatusPhase * option error) :=
  '(_, r) ← PatchIfExists c (λ csv, mret (set_priority_class priorityClassName csv, None))
    (zero_CSV (named csvNamespace csvName));
  mret r.
End subscriptions.

(** ** Facts *)

(** What labelling needs of an object kind: its metadata is a field. *)
Class MetaField (O : Type) `{K8sObject O} := {
  meta_set_meta (m : ObjectMeta) (o : O) : meta (set_meta m o) = m;
  set_meta_set_meta (m m' : ObjectMeta) (o : O) : set_meta m (set_meta m' o) = set_meta m o;
}.
#[export] Instance NamespaceObj_meta_field : MetaField NamespaceObj.
Proof. by split. Qed.
#[export] Instance OAuthClient_meta_field : MetaField OAuthClient.
Proof. by split. Qed.
#[export] Instance ConfigMap_meta_field : MetaField ConfigMap.
Proof. by split. Qed.

Lemma IsOwnedBy_spec {O} `{K8sObject O} (o : O) owner :
  IsOwnedBy o owner = true ↔
  omap_lookup (Labels (meta o)) OwnerLabelKey = Some (UID (rhmi_meta owner)).
Proof.
  unfold IsOwnedBy. rewrite existsb_exists.
  transitivity (make_if_nil (Labels (meta o)) !! OwnerLabelKey = Some (UID (rhmi_meta owner))).
  - split.
    + intros ([k v] & Hin & [Hk%str_eqb_true Hv%str_eqb_true]%andb_prop). simpl in *. subst.
      by apply elem_of_map_to_list, list_elem_of_In.
    + intros Hl. exists (OwnerLabelKey, UID (rhmi_meta owner)). simpl. rewrite !str_eqb_refl.
      split; [|done]. by apply list_elem_of_In, elem_of_map_to_list.
  - unfold make_if_nil, omap_lookup. by destruct (Labels (meta o)).
Qed.

Lemma prepared_labels_owner ls i a b d :
  prepared_labels ls i a b d !! OwnerLabelKey = Some (UID (rhmi_meta i)).
Proof. apply lookup_insert_eq. Qed.

Lemma prepared_labels_other ls i a b d k :
  k ∉ ["openshift.io/user-monitoring"; "monitoring-key"; "openshift.io/cluster-monitoring";
       "integreatly"; OwnerLabelKey] →
  prepared_labels ls i a b d !! k = ls !! k.
Proof.
  intros Hk. unfold prepared_labels. repeat (rewrite lookup_insert_ne by set_solver).
  destruct b; rewrite ?lookup_insert_ne, ?lookup_delete_ne by set_solver;
  destruct a; rewrite ?lookup_insert_ne, ?lookup_delete_ne by set_solver;
  destruct d; by rewrite ?lookup_insert_ne by set_solver.
Qed.

Lemma prepared_labels_idempotent ls i a b d :
  prepared_labels (prepared_labels ls i a b d) i a b d = prepared_labels ls i a b d.
Proof.
  apply map_eq. intros k. unfold prepared_labels.
  repeat (destruct (decide (k = OwnerLabelKey)) as [->|];
    [by rewrite !lookup_insert_eq|rewrite ?(lookup_insert_ne _ OwnerLabelKey k) by congruence]).
  destruct (decide (k = "integreatly")) as [->|];
    [by rewrite !lookup_insert_eq|rewrite !(lookup_insert_ne _ "integreatly" k) by congruence].
  destruct b, a, d;
    repeat (first [rewrite lookup_insert_eq | rewrite lookup_delete_eq
      | rewrite lookup_insert_ne by congruence | rewrite lookup_delete_ne by congruence
      | match goal with |- context [<[?j := _]> _ !! k] => destruct (decide (k = j)) as [->|]
        | |- context [delete ?j _ !! k] => destruct (decide (k = j)) as [->|] end]); done.
Qed.

Lemma PrepareObjectLabels_owned {O} `{MetaField O} (o : O) i a b d :
  IsOwnedBy (PrepareObjectLabels o i a b d) i = true.
Proof.
  apply IsOwnedBy_spec. unfold PrepareObjectLabels. rewrite meta_set_meta. apply prepared_labels_owner.
Qed.
#[export] Hint Resolve PrepareObjectLabels_owned : go.

(** An object that was labelled for an installation is owned by that
    installation and by no other, its labels apart from the five the operator
    sets are the ones it had, the rest of its metadata is untouched, and
    labelling it again changes nothing. *)
Theorem PrepareObjectLabels_spec {O} `{MetaField O} (o : O) i a b d :
  let o' := PrepareObjectLabels o i a b d in
  (∀ j, IsOwnedBy o' j = true ↔ UID (rhmi_meta j) = UID (rhmi_meta i))
  ∧ (∀ k, k ∉ ["openshift.io/user-monitoring"; "monitoring-key"; "openshift.io/cluster-monitoring";
               "integreatly"; OwnerLabelKey] →
      omap_lookup (Labels (meta o')) k = omap_lookup (Labels (meta o)) k)
  ∧ SetLabels None (meta o') = SetLabels None (meta o)
  ∧ PrepareObjectLabels o' i a b d = o'.
Proof.
  intros o'. unfold o', PrepareObjectLabels. rewrite !meta_set_meta. split_and!.
  - intros j. rewrite IsOwnedBy_spec, meta_set_meta. simpl. rewrite prepared_labels_owner.
    split; congruence.
  - intros k Hk. simpl. rewrite prepared_labels_other by done. by destruct (Labels (meta o)).
  - done.
  - rewrite set_meta_set_meta. simpl. by rewrite prepared_labels_idempotent.
Qed.

Section namespace_properties.
Context {W : Type} `{Client W NamespaceObj} `{Client W ProjectRequest} `{Client W Project}
  `{Client W Secret}.

(** ReconcileNamespace reports a namespace completed only if it has just
    written it to the server with the labels of this installation; when the
    namespace existed before, only if its pull secret was copied (if the
    installation names one) and the server answered that it is active. *)
Theorem ReconcileNamespace_completed namespace i c (w w' : W) err :
  ReconcileNamespace namespace i c w = (Done (PhaseCompleted, err), w') →
  err = None ∧ ∃ sent answer w1,
    IsOwnedBy sent i = true
    ∧ client_update c sent w1 = (Done (inr answer), w')
    ∧ match (GetNS namespace c w).1 with
      | Done (inr ns) =>
          ns_Phase answer = NamespaceActive
          ∧ SetLabels None (ns_meta sent) = SetLabels None (ns_meta ns)
          ∧ (ps_Name (PullSecret (Spec i)) ≠ "" →
             ∃ w0, (CopySecret c (ps_Name (PullSecret (Spec i))) (ps_Namespace (PullSecret (Spec i)))
                      (ps_Name (PullSecret (Spec i))) namespace) w0 = (Done None, w1))
      | Done (inl e) => IsNotFound (Some e) || IsForbidden (Some e) = true
      | Panic _ => False
      end.
Proof.
  unfold ReconcileNamespace. intros Hr.
  apply bind_done_inv in Hr as ([e|ns] & w1 & -> & Hr).
  - destruct (negb _ && negb _) eqn:E; [go_inv|]. unfold CreateNSWithProjectRequest in Hr. go_inv.
    split; [done|]. do 3 eexists. split_and!; [apply PrepareObjectLabels_owned|done|].
    by apply negb_false_iff; rewrite negb_orb.
  - unfold ReconcilePullSecret in Hr. go_inv.
    all: split; [done|].
    all: match goal with Hu : client_update _ _ _ = _ |- _ =>
      eexists _, _, _; split_and!; [apply PrepareObjectLabels_owned|exact Hu|..] end.
    all: try done.
    all: try (match goal with E : negb (ns_Phase _ =?s _) = false |- _ =>
      by apply negb_false_iff, str_eqb_true in E end).
    all: try (match goal with E : negb (ps_Name _ =?s "") = false |- _ =>
      apply negb_false_iff, str_eqb_true in E; by intros [] end).
    all: eauto.
Qed.
End namespace_properties.

Section subscription_properties.
Context {W : Type} `{Client W InstallPlan} `{Client W Subscription} `{Client W ClusterServiceVersion}
  `{MarketplaceInterface W}.

Lemma upgradeApproval_skip b c ip (w : W) :
  ip_Approved ip = true ∨ ip_CSVNames ip = [] → upgradeApproval b c ip w = (Done (ip, None), w).
Proof. unfold upgradeApproval. intros [-> | ->]; [done|]. by destruct (ip_Approved ip). Qed.

(** An install plan is written at most once, approved, and only when it
    was not approved and names a CSV; when the operator was installed before
    (its generation is above one) the backup has to succeed first, and if it
    fails nothing is written. *)
Theorem upgradeApproval_spec (b : BackupExecutor W) c ip (w : W) :
  let pending := ip_Approved ip = false ∧ ip_CSVNames ip ≠ [] in
  (¬ pending → upgradeApproval b c ip w = (Done (ip, None), w))
  ∧ (pending → (1 < Generation (ip_meta ip))%Z →
       ∀ r w1, b c (20 * minute_ns)%Z w = (Done r, w1) →
       match r with
       | Some e => ∃ e', upgradeApproval b c ip w = (Done (approve ip, Some e'), w1)
       | None => (upgradeApproval b c ip w).2 = (client_update c (approve ip) w1).2
       end)
  ∧ (pending → (Generation (ip_meta ip) ≤ 1)%Z →
       (upgradeApproval b c ip w).2 = (client_update c (approve ip) w).2)
  ∧ (∀ ip' w', upgradeApproval b c ip w = (Done (ip', None), w') → pending →
       ∃ w1, client_update c (approve ip) w1 = (Done (inr ip'), w')).
Proof.
  intros pending. split_and!.
  - intros Hp. apply upgradeApproval_skip. unfold pending in Hp.
    destruct (ip_Approved ip), (ip_CSVNames ip); naive_solver.
  - intros [Ha Hn] Hg r w1 Hb. unfold upgradeApproval. rewrite Ha.
    destruct (ip_CSVNames ip); [done|]. cbn [negb andb length Nat.ltb Nat.leb].
    change (Generation (ip_meta (approve ip))) with (Generation (ip_meta ip)).
    apply Z.ltb_lt in Hg. rewrite Hg. cbn match. rewrite (bind_done _ _ _ _ _ Hb).
    destruct r as [e|]; [eauto|]. rewrite run_bind.
    by destruct (client_update c (approve ip) w1) as [[[]|] ?].
  - intros [Ha Hn] Hg. unfold upgradeApproval. rewrite Ha.
    destruct (ip_CSVNames ip); [done|]. cbn [negb andb length Nat.ltb Nat.leb].
    change (Generation (ip_meta (approve ip))) with (Generation (ip_meta ip)).
    apply Z.ltb_ge in Hg. rewrite Hg. cbn match. rewrite bind_ret, run_bind.
    by destruct (client_update c (approve ip) w) as [[[]|] ?].
  - intros ip' w' Hu [Ha Hn]. unfold upgradeApproval in Hu. rewrite Ha in Hu.
    destruct (ip_CSVNames ip); [done|]. simpl in Hu. go_inv; eauto.
Qed.

(** The reads of the CSV loop, each finding a valid CSV. *)
Inductive csvs_ready (c : KClient) (ns : string) : list string → W → W → Prop :=
  | csvs_ready_nil w : csvs_ready c ns [] w w
  | csvs_ready_cons n names csv w w1 w2 :
      client_get c ns n w = (Done (inr csv), w1) → validateCSV csv = None →
      csvs_ready c ns names w1 w2 → csvs_ready c ns (n :: names) w w2.

Lemma retryInstallation_phase c csv sub (w w' : W) ph err :
  retryInstallation c csv sub w = (Done (ph, err), w') → ph ≠ PhaseCompleted.
Proof. unfold retryInstallation. intros Hr. by go_inv. Qed.

Lemma check_csvs_completed c ns sub names (w w' : W) err :
  check_csvs c ns sub names w = (Done (PhaseCompleted, err), w') →
  err = None ∧ csvs_ready c ns names w w'.
Proof.
  revert w. induction names as [|n names IH]; intros w Hc; cbn [check_csvs] in Hc.
  - go_inv. split; [done|constructor].
  - apply bind_done_inv in Hc as ([e|csv] & w1 & Hg & Hc); [go_inv|].
    destruct (validateCSV csv) eqn:Hv.
    + by apply retryInstallation_phase in Hc.
    + apply IH in Hc as [-> Hc]. split; [done|]. by econstructor.
Qed.

End subscription_properties.
