(* ===== verification/Marin3rReconciler.v ===== *)
(** * The marin3r product (pkg/products/marin3r/reconciler.go)

    Its Reconcile with every step: the finalizer with the clean-up, the
    namespaces and their limit ranges, the subscription, the discovery service,
    Redis, the rate limit service, the service monitor and the alerts.  And
    GetGrafanaConsoleURL of pkg/products/grafana/reconciler.go, which it calls. *)

From stdpp Require Import base list strings gmap.
From Stdlib Require Import ZArith Lia.
From S2P Require Import Prelude Numbers Kube Api Resources Olm Quota Pods RateLimit Cro Envoy.
From S2P Require Import Config Cluster Addon Alerts CloudAlerts UsageAlerts Backup Marketplace Reconciler.

(** ** Objects of marin3r and of the observability operator *)

Record DiscoveryService := mkDiscoveryService { ds_meta : ObjectMeta; ds_PodPriorityClass : option string }.
#[global] Instance DiscoveryService_eq_dec : EqDecision DiscoveryService.
Proof. solve_decision. Defined.
#[global] Instance DiscoveryService_object : K8sObject DiscoveryService := {|
  meta := ds_meta; set_meta m d := mkDiscoveryService m (ds_PodPriorityClass d);
  semantic_deep_equal a b := bool_decide (a = b);
|}.

(** An endpoint of a ServiceMonitor: its port and the key of its token. *)
Record ServiceMonitor := mkServiceMonitor {
  sm_meta : ObjectMeta;
  sm_Endpoints : list (string * option string);
  sm_MatchLabels : option (gmap string string);
}.
#[global] Instance ServiceMonitor_eq_dec : EqDecision ServiceMonitor.
Proof. solve_decision. Defined.
#[global] Instance ServiceMonitor_object : K8sObject ServiceMonitor := {|
  meta := sm_meta; set_meta m s := mkServiceMonitor m (sm_Endpoints s) (sm_MatchLabels s);
  semantic_deep_equal a b := bool_decide (a = b);
|}.

(** ** GetGrafanaConsoleURL *)

Section grafana.
Context {W : Type} `{Client W Route}.

Definition grafana_namespace : string := "customer-monitoring".
Definition defaultRoutename : string := "grafana-route".

Definition GetGrafanaConsoleURL (c : KClient) (installation : RHMI) : M W (error + string) :=
  let grafanaConsoleURL :=
    p_Host (omap_get zero_product (s_Products (stage_of_status installation InstallStage)) ProductGrafana) in
  if negb (grafanaConsoleURL =?s "") then mret (inr grafanaConsoleURL)
  else
    let ns := NamespacePrefix (Spec installation) +:+ grafana_namespace in
    got ← client_get (O := Route) c ns defaultRoutename;
    mret (match got with
          | inl e => inl e
          | inr grafanaRoute => inr ("https://" +:+ rt_Host grafanaRoute)
          end).
End grafana.

(** ** The reconciler *)

Definition marin3r_defaultInstallationNamespace : string := "marin3r".
Definition discoveryServiceName : string := "instance".
Definition externalRedisSecretName : string := "redis".
Definition Marin3rSubscriptionName : string := "rhmi-marin3r".
Definition CloudResourceSubscriptionName : string := "rhmi-cloud-resources".

Section marin3r.
Context {W Q : Type}.
Context `{Client W RHMI} `{Client W ConfigMap} `{Client W Secret} `{Client W NamespaceObj}
  `{Client W ProjectRequest} `{Client W Project} `{Client W InstallPlan} `{Client W Subscription}
  `{Client W ClusterServiceVersion} `{Client W Postgres} `{Client W Redis} `{Client W EnvoyConfigCR}
  `{Client W DiscoveryService} `{Client W ServiceMonitor} `{Client W Service} `{Client W Route}
  `{Client W PrometheusRule} `{Client W UpstreamPrometheusRule}
  `{Client W (Snapshot PostgresSnapshotType)} `{Client W (Snapshot RedisSnapshotType)}
  `{Client W (LimitRange Q)} `{Client W (Deployment Q)}.
Context `{MarketplaceInterface W} `{EventRecorder W} `{Clock W} `{OsEnv W} `{MapRange W}
  `{Yaml} `{AlertsJson} `{LimitsYaml} `{Sha256} `{TitleCase} `{Quantity Q}
  `{SemanticDeepEqual (LimitRange Q)} `{SemanticDeepEqual (Deployment Q)}.

(** What NewReconciler has put in the reconciler, and the turns a backup may
    poll for. *)
Context (m : Manager) (cfg : Marin3r.t) (declaration : ProductDeclaration) (backup_fuel : nat).

Definition read_threescale_error (e : error) : option error :=
  errors_Wrap (Some e) "could not read 3scale config from marin3r reconciler".

Definition marin3r_reconcileSubscription (installation : RHMI) (c : KClient)
    (operatorNamespace : string) : M W (StatusPhase * option error) :=
  let '(target, prepared) := PrepareTarget declaration CatalogSourceName
    (mkTarget operatorNamespace Marin3rSubscriptionName "" "") in
  let preUpgradeBackupExecutor : BackupExecutor W :=
    if negb (UseClusterStorage (Spec installation) =?s "false") then NoopBackupExecutor
    else aws_PerformBackup backup_fuel
      (mkAWSBackup (Namespace (rhmi_meta installation))
         (RateLimitRedisPrefix +:+ Name (rhmi_meta installation)) RedisSnapshotType) in
  match prepared with
  | inl e => mret (PhaseFailed, Some e)
  | inr csr => '(_, r) ← ReconcileSubscription target [] preUpgradeBackupExecutor c csr; mret r
  end.

Definition reconcileDiscoveryService (installation : RHMI) (c : KClient)
    : M W (StatusPhase * option error) :=
  match ReadThreeScale m with
  | inl e => mret (PhaseFailed, read_threescale_error e)
  | inr threescaleConfig =>
      '(_, (_, err)) ← CreateOrUpdate c
        (mkDiscoveryService (named (ThreeScale.GetNamespace threescaleConfig) discoveryServiceName) None)
        (λ d, mret (mkDiscoveryService (ds_meta d) (Some (PriorityClassName (Spec installation))), None));
      match err with
      | Some e =>
          if negb (IsAlreadyExists (Some e))
          then mret (PhaseFailed, Some (ErrWrap "error reconciling resource: " e))
          else mret (PhaseCompleted, None)
      | None => mret (PhaseCompleted, None)
      end
  end.

Definition deleteDiscoveryService (c : KClient) : M W (option error) :=
  match ReadThreeScale m with
  | inl e => mret (read_threescale_error e)
  | inr threescaleConfig =>
      got ← client_get (O := DiscoveryService) c (ThreeScale.GetNamespace threescaleConfig)
              discoveryServiceName;
      match got with
      | inl e => mret (if IsNotFound (Some e) then None else Some e)
      | inr d => client_delete c d
      end
  end.

(** The mutate function of the connection secret writes to the Data of the
    secret it was given, which panics when the stored secret has none. *)
Definition redis_connection (systemCredSec s : Secret) : M W (Secret * option error) :=
  match sec_Data s with
  | None => panic "assignment to entry in nil map"
  | Some d =>
      let uri := omap_get "" (sec_Data systemCredSec) "uri" in
      let port := omap_get "" (sec_Data systemCredSec) "port" in
      mret (with_sec_Data s (Some (<["URL" := uri +:+ ":" +:+ port]> d)), None)
  end.

Definition marin3r_reconcileRedis (installation : RHMI) (c : KClient) : M W (StatusPhase * option error) :=
  let ns := Namespace (rhmi_meta installation) in
  let redisName := RateLimitRedisPrefix +:+ Name (rhmi_meta installation) in
  engine ← RedisEngineForReconcile c redisName ns;
  match engine with
  | inl e => mret (PhaseInProgress, Some (ErrWrap "failed to read existing rate limit redis CR: " e))
  | inr (redisEngine, redisEngineVersion) =>
      rateLimitRedis ← croUtil_ReconcileRedis c marin3r_defaultInstallationNamespace
        (Type_ (Spec installation)) TierProduction redisName ns redisName ns "" redisEngine
        redisEngineVersion false false (λ cr, AddIntegreatlyOwnerAnnotations cr installation);
      match rateLimitRedis with
      | inl e => mret (PhaseFailed, Some (ErrWrap "failed to reconcile backend redis request: " e))
      | inr rateLimitRedis =>
          if negb (rd_Phase rateLimitRedis =?s CroPhaseComplete) then mret (PhaseAwaitingComponents, None)
          else
            match rd_SecretRef rateLimitRedis with
            | None => panic "nil pointer dereference"
            | Some (secretName, secretNs) =>
                got ← client_get (O := Secret) c secretNs secretName;
                match got with
                | inl e => mret (PhaseFailed, Some (ErrWrap "failed to get system redis credential secret: " e))
                | inr systemCredSec =>
                    '(_, (_, err)) ← CreateOrUpdate c
                      (mkSecret (named (Marin3r.GetNamespace cfg) externalRedisSecretName) (Some ∅))
                      (redis_connection systemCredSec);
                    match err with
                    | Some e => mret (PhaseFailed, Some (ErrWrap "failed create or update redis secret: " e))
                    | None =>
                        '(phase, err) ← ReconcileRedisAlerts c installation rateLimitRedis;
                        match err with
                        | Some e => mret (PhaseFailed, Some (ErrWrap "failed to reconcile redis alerts: " e))
                        | None =>
                            if negb (phase =?s PhaseCompleted) then mret (phase, None)
                            else
                              err ← CreateRedisCpuUsageAlerts c installation rateLimitRedis;
                              match err with
                              | Some e => mret (PhaseFailed, Some (errorf_v
                                  "failed to create rate limit redis prometheus Cpu usage high alerts for threescale: "
                                  (Some e)))
                              | None => mret (phase, None)
                              end
                        end
                    end
                end
            end
      end
  end.

Definition reconcileServiceMonitor (c : KClient) (namespace : string) : M W (StatusPhase * option error) :=
  '(_, (_, err)) ← CreateOrUpdate c (mkServiceMonitor (named namespace RateLimitName) [] None)
    (λ s, mret (mkServiceMonitor (SetLabels (Some {["monitoring-key" := "middleware"]}) (sm_meta s))
                  [("http", Some "")] (Some {["app" := RateLimitName]}), None));
  match err with
  | Some e => mret (PhaseFailed, Some e)
  | None => mret (PhaseCompleted, None)
  end.

(** The tests on a failure to find Grafana while it is not installed yet. *)
Definition awaiting_grafana (installation : RHMI) (err : error) : bool :=
  match omap_lookup (Stages (Status installation)) InstallStage with
  | Some installStage =>
      match s_Products installStage with
      | Some products =>
          match products !! ProductGrafana with
          | None => true
          | Some grafanaProduct =>
              negb (p_Phase grafanaProduct =?s PhaseCompleted)
              && (IsForbidden (Some err) || IsNotFound (Some err))
          end
      | None => false
      end
  | None => false
  end.

Definition marin3r_reconcileAlerts (installation : RHMI) (rateLimitConfig : RateLimitConfig)
    (alertsConfig : gmap string (option AlertConfig)) (c : KClient) (namespace : string)
    : M W (StatusPhase * option error) :=
  if IsInProw installation then mret (PhaseCompleted, None)
  else
    url ← GetGrafanaConsoleURL c installation;
    match url with
    | inl e =>
        if awaiting_grafana installation e then mret (PhaseInProgress, None)
        else mret (PhaseFailed, Some e)
    | inr grafanaConsoleURL =>
        let grafanaDashboardURL :=
          grafanaConsoleURL +:+ "/d/66ab72e0d012aacf34f907be9d81cd9e/rate-limiting" in
        alertReconciler ← newAlertsReconciler installation rateLimitConfig alertsConfig
                            grafanaDashboardURL namespace;
        match alertReconciler with
        | inl e => mret (PhaseFailed, Some e)
        | inr alertReconciler =>
            '(phase, err) ← ReconcileAlerts alertReconciler c;
            if is_some err || negb (phase =?s PhaseCompleted) then
              HandleError installation phase "Failed to reconcile alerts" err;;
              mret (phase, err)
            else mret (PhaseCompleted, None)
        end
    end.

(** The clean-up of ReconcileFinalizer. *)
Definition marin3r_cleanup (threescaleNamespace : string) (c : KClient)
    : M W (StatusPhase * option error) :=
  '(phase, err) ← DeleteEnvoyConfigsInNamespaces c [threescaleNamespace];
  if is_some err || negb (phase =?s PhaseCompleted) then mret (phase, err)
  else
    err ← deleteDiscoveryService c;
    match err with
    | Some e => mret (PhaseFailed, Some (errorf_v "failed to delete discovery service: " (Some e)))
    | None =>
        '(phase, err) ← RemoveNamespace c (Marin3r.GetNamespace cfg);
        if is_some err || negb (phase =?s PhaseCompleted) then mret (phase, err)
        else
          '(phase, err) ← RemoveNamespace c (Marin3r.GetOperatorNamespace cfg);
          if is_some err || negb (phase =?s PhaseCompleted) then mret (phase, err)
          else mret (PhaseCompleted, None)
    end.

(** From the alerts of the rate limit on to the end. *)
Definition marin3r_reconcile_alerting (installation : RHMI) (productStatus : RHMIProductStatus)
    (rateLimitConfig : RateLimitConfig) (alertsConfig : gmap string (option AlertConfig))
    (c : KClient) : M W ProductResult :=
  let done phase err := mret (installation, productStatus, (phase, err)) in
  let oboNamespace := GetOboNamespace (Namespace (rhmi_meta installation)) in
  let ty := Type_ (Spec installation) in
  product_step installation productStatus "Failed to reconcile Marin3r alerts"
    (ReconcileAlerts (newAlertReconciler installation m cfg ty oboNamespace) c) $
  product_step installation productStatus "Failed to reconcile alerts"
    (marin3r_reconcileAlerts installation rateLimitConfig alertsConfig c oboNamespace) $
  rejected ← lift (newRejectedRequestsAlertsReconciler installation rateLimitConfig ty oboNamespace);
  match rejected with
  | inl e =>
      HandleError installation PhaseCompleted "Failed to instantiate rejected requests alert reconciler" (Some e);;
      done PhaseFailed (Some e)
  | inr rejectedRequestsAlertReconciler =>
      product_step installation productStatus "Failed to reconcile rejected requests alert"
        (ReconcileAlerts rejectedRequestsAlertReconciler c) $
      let productStatus := mkProductStatus (p_Name productStatus) (Marin3r.GetOperatorVersion cfg)
        (Marin3r.GetProductVersion cfg) (Marin3r.GetHost cfg) (p_Type productStatus)
        (p_Mobile productStatus) (p_Phase productStatus) (p_Uninstall productStatus) in
      HandleProductComplete installation ProductsStage (Marin3r.GetProductName cfg);;
      mret (installation, productStatus, (PhaseCompleted, None))
  end.

(** From the wait for the database on. *)
Definition marin3r_reconcile_ratelimit (installation : RHMI) (productStatus : RHMIProductStatus)
    (rateLimitConfig : RateLimitConfig) (alertsConfig : gmap string (option AlertConfig))
    (c : KClient) (productConfig : QuotaProductConfig Q) : M W ProductResult :=
  let done phase err := mret (installation, productStatus, (phase, err)) in
  let productNamespace := Marin3r.GetNamespace cfg in
  product_step installation productStatus "Waiting for RHSSO postgres to be completed"
    (WaitForRHSSOPostgresToBeComplete c (Name (rhmi_meta installation)) (mgr_Namespace m)) $
  '(phase, err) ← marin3r_reconcileRedis installation c;
  match err with
  | Some e => done PhaseFailed (Some e)
  | None =>
      if phase =?s PhaseAwaitingComponents then done phase None
      else
        '(phase, err) ← ReconcileRateLimitService
          (NewRateLimitServiceReconciler rateLimitConfig installation productNamespace
             externalRedisSecretName) c productConfig;
        match err with
        | Some e =>
            HandleError installation phase "Failed to reconcile rate limit service" (Some e);;
            done phase (Some e)
        | None =>
            if negb (phase =?s PhaseCompleted) then done phase None
            else
              product_step installation productStatus "Failed to reconcile Prometheus service monitor"
                (reconcileServiceMonitor c productNamespace) $
              marin3r_reconcile_alerting installation productStatus rateLimitConfig alertsConfig c
        end
  end.

(** Outside of an uninstall, after the finalizer; [phase] is the one
    ReconcileFinalizer gave. *)
Definition marin3r_reconcile_install (installation : RHMI) (productStatus : RHMIProductStatus)
    (phase : StatusPhase) (c : KClient) (productConfig : QuotaProductConfig Q) : M W ProductResult :=
  let operatorNamespace := Marin3r.GetOperatorNamespace cfg in
  let productNamespace := Marin3r.GetNamespace cfg in
  let step := product_step installation productStatus in
  rateLimitConfig ← lift (GetRateLimitConfig productConfig);
  alertsConfig ← GetAlertConfig c (Namespace (rhmi_meta installation));
  match alertsConfig with
  | inl e =>
      HandleError installation phase "Failed to obtain rate limit alerts config" (Some e);;
      mret (installation, productStatus, (PhaseFailed, Some e))
  | inr alertsConfig =>
      step ("Failed to reconcile " +:+ operatorNamespace +:+ " ns")
        (ReconcileNamespace operatorNamespace installation c) $
      step ("Failed to reconcile " +:+ productNamespace +:+ " ns")
        (ReconcileNamespace productNamespace installation c) $
      step ("Failed to reconcile LimitRange for Namespace " +:+ operatorNamespace)
        (ReconcileLimitRange (Q := Q) c operatorNamespace DefaultLimitRangeParams) $
      step ("Failed to reconcile LimitRange for Namespace " +:+ productNamespace)
        (ReconcileLimitRange (Q := Q) c productNamespace DefaultLimitRangeParams) $
      step ("Failed to reconcile " +:+ CloudResourceSubscriptionName +:+ " subscription")
        (marin3r_reconcileSubscription installation c operatorNamespace) $
      step "Failed to reconcile DiscoveryService cr" (reconcileDiscoveryService installation c) $
      '(phase, err) ← ReconcileCsvDeploymentsPriority c ("marin3r.v" +:+ OperatorVersionMarin3r)
        operatorNamespace (PriorityClassName (Spec installation));
      if is_some err || (phase =?s PhaseFailed) then
        HandleError installation phase "Failed to reconcile marin3r csv deployments priority class name" err;;
        mret (installation, productStatus, (phase, err))
      else marin3r_reconcile_ratelimit installation productStatus rateLimitConfig alertsConfig c productConfig
  end.

Definition marin3r_Reconcile (installation : RHMI) (productStatus : RHMIProductStatus) (c : KClient)
    (productConfig : QuotaProductConfig Q) (uninstall : bool) : M W ProductResult :=
  match ReadThreeScale m with
  | inl e => mret (installation, productStatus, (PhaseFailed, read_threescale_error e))
  | inr threescaleConfig =>
      '(installation, (phase, err)) ← ReconcileFinalizer c installation (Marin3r.GetProductName cfg)
        uninstall (λ i, r ← marin3r_cleanup (ThreeScale.GetNamespace threescaleConfig) c; mret (i, r));
      if is_some err || (phase =?s PhaseFailed) then
        HandleError installation phase "Failed to reconcile finalizer" err;;
        mret (installation, productStatus, (phase, err))
      else if uninstall then mret (installation, productStatus, (phase, None))
      else marin3r_reconcile_install installation productStatus phase c productConfig
  end.
End marin3r.

(** ** Facts *)

Section facts.
Context {W Q : Type}.
Context `{Client W RHMI} `{Client W ConfigMap} `{Client W Secret} `{Client W NamespaceObj}
  `{Client W ProjectRequest} `{Client W Project} `{Client W InstallPlan} `{Client W Subscription}
  `{Client W ClusterServiceVersion} `{Client W Postgres} `{Client W Redis} `{Client W EnvoyConfigCR}
  `{Client W DiscoveryService} `{Client W ServiceMonitor} `{Client W Service} `{Client W Route}
  `{Client W PrometheusRule} `{Client W UpstreamPrometheusRule}
  `{Client W (Snapshot PostgresSnapshotType)} `{Client W (Snapshot RedisSnapshotType)}
  `{Client W (LimitRange Q)} `{Client W (Deployment Q)}.
Context `{MarketplaceInterface W} `{EventRecorder W} `{Clock W} `{OsEnv W} `{MapRange W}
  `{Yaml} `{AlertsJson} `{LimitsYaml} `{Sha256} `{TitleCase} `{Quantity Q}
  `{SemanticDeepEqual (LimitRange Q)} `{SemanticDeepEqual (Deployment Q)}.
Context (m : Manager) (cfg : Marin3r.t) (declaration : ProductDeclaration) (backup_fuel : nat).

(** Without an error Redis is completed or awaited. *)
Lemma marin3r_reconcileRedis_phase i c (w w' : W) phase :
  marin3r_reconcileRedis cfg i c w = (Done (phase, None), w') →
  phase = PhaseCompleted ∨ phase = PhaseAwaitingComponents.
Proof.
  unfold marin3r_reconcileRedis. intros Hr. go_inv; auto.
  all: try match goal with H : negb (?p =?s _) = false |- _ =>
    apply negb_false_iff, str_eqb_true in H end; auto.
  all: match goal with H : ReconcileRedisAlerts _ _ _ _ = (Done (_, None), _) |- _ =>
    apply reconcile_cro_alerts_ok in H as [-> _] end; case_match; auto.
Qed.

(** The steps of an install, in the order in which Reconcile takes them; the
    step of the csv counts as done when it has not failed. *)
Definition not_failed (body : M W (StatusPhase * option error)) : M W (StatusPhase * option error) :=
  '(phase, err) ← body;
  mret (if is_some err || (phase =?s PhaseFailed) then (PhaseFailed, err) else (PhaseCompleted, None)).
Definition marin3r_steps (i : RHMI) (rl : RateLimitConfig) (alerts : gmap string (option AlertConfig))
    (rejected : AlertReconcilerImpl) (c : KClient) (q : QuotaProductConfig Q)
    : list (M W (StatusPhase * option error)) :=
  let operatorNs := Marin3r.GetOperatorNamespace cfg in
  let ns := Marin3r.GetNamespace cfg in
  let oboNs := GetOboNamespace (Namespace (rhmi_meta i)) in
  [ReconcileNamespace operatorNs i c; ReconcileNamespace ns i c;
   ReconcileLimitRange (Q := Q) c operatorNs DefaultLimitRangeParams;
   ReconcileLimitRange (Q := Q) c ns DefaultLimitRangeParams;
   marin3r_reconcileSubscription declaration backup_fuel i c operatorNs;
   reconcileDiscoveryService m i c;
   not_failed (ReconcileCsvDeploymentsPriority c ("marin3r.v" +:+ OperatorVersionMarin3r) operatorNs
                 (PriorityClassName (Spec i)));
   WaitForRHSSOPostgresToBeComplete c (Name (rhmi_meta i)) (mgr_Namespace m);
   marin3r_reconcileRedis cfg i c;
   ReconcileRateLimitService (NewRateLimitServiceReconciler rl i ns externalRedisSecretName) c q;
   reconcileServiceMonitor c ns;
   ReconcileAlerts (newAlertReconciler i m cfg (Type_ (Spec i)) oboNs) c;
   marin3r_reconcileAlerts i rl alerts c oboNs;
   ReconcileAlerts rejected c].

Definition marin3r_status (ps : RHMIProductStatus) : RHMIProductStatus :=
  mkProductStatus (p_Name ps) (Marin3r.GetOperatorVersion cfg) (Marin3r.GetProductVersion cfg)
    (Marin3r.GetHost cfg) (p_Type ps) (p_Mobile ps) (p_Phase ps) (p_Uninstall ps).

Lemma not_failed_done body (w w' : W) phase err :
  body w = (Done (phase, err), w') → is_some err || (phase =?s PhaseFailed) = false →
  not_failed body w = (Done (PhaseCompleted, None), w').
Proof. intros Hb Hn. unfold not_failed. rewrite (bind_done _ _ _ _ _ Hb). by rewrite Hn. Qed.

Lemma reconcile_alerting_done i ps rl alerts c (w w' : W) i' ps' :
  marin3r_reconcile_alerting m cfg i ps rl alerts c w = (Done (i', ps', (PhaseCompleted, None)), w') →
  ∃ rejected w1,
    newRejectedRequestsAlertsReconciler i rl (Type_ (Spec i)) (GetOboNamespace (Namespace (rhmi_meta i)))
      = Done (inr rejected)
    ∧ steps_done [ReconcileAlerts (newAlertReconciler i m cfg (Type_ (Spec i))
                     (GetOboNamespace (Namespace (rhmi_meta i)))) c;
                  marin3r_reconcileAlerts i rl alerts c (GetOboNamespace (Namespace (rhmi_meta i)));
                  ReconcileAlerts rejected c] w w1
    ∧ i' = i ∧ ps' = marin3r_status ps
    ∧ HandleProductComplete i ProductsStage ProductMarin3r w1 = (Done tt, w').
Proof.
  unfold marin3r_reconcile_alerting. intros Hr.
  apply product_step_done in Hr as (w1 & S1 & Hr). apply product_step_done in Hr as (w2 & S2 & Hr).
  rewrite bind_lift in Hr. destruct (newRejectedRequestsAlertsReconciler _ _ _ _) as [[e|rej]|] eqn:E; [go_inv| |done].
  apply product_step_done in Hr as (w3 & S3 & Hr). apply bind_done_inv in Hr as ([] & w4 & S4 & Hr). go_inv.
  exists rej, w3. split_and!; try done. steps_tac.
Qed.

Lemma reconcile_ratelimit_done i ps rl alerts c q (w w' : W) i' ps' :
  marin3r_reconcile_ratelimit m cfg i ps rl alerts c q w = (Done (i', ps', (PhaseCompleted, None)), w') →
  ∃ w1,
    steps_done [WaitForRHSSOPostgresToBeComplete c (Name (rhmi_meta i)) (mgr_Namespace m);
      marin3r_reconcileRedis cfg i c;
      ReconcileRateLimitService (NewRateLimitServiceReconciler rl i (Marin3r.GetNamespace cfg)
        externalRedisSecretName) c q;
      reconcileServiceMonitor c (Marin3r.GetNamespace cfg)] w w1
    ∧ marin3r_reconcile_alerting m cfg i ps rl alerts c w1 = (Done (i', ps', (PhaseCompleted, None)), w').
Proof.
  unfold marin3r_reconcile_ratelimit. intros Hr. apply product_step_done in Hr as (w1 & S1 & Hr).
  apply bind_done_inv in Hr as ([ph [e|]] & w2 & S2 & Hr); [go_inv|].
  destruct (ph =?s PhaseAwaitingComponents) eqn:E; [go_inv|].
  destruct (marin3r_reconcileRedis_phase _ _ _ _ _ S2) as [-> | ->]; [|done].
  apply bind_done_inv in Hr as ([ph [e|]] & w3 & S3 & Hr); [go_inv|].
  destruct (ph =?s PhaseCompleted) eqn:E3; [|go_inv].
  apply str_eqb_true in E3 as ->. cbn [negb] in Hr.
  apply product_step_done in Hr as (w4 & S4 & Hr). exists w4. split; [steps_tac|done].
Qed.

Lemma marin3r_install_done i ps phase c q (w w' : W) i' ps' :
  marin3r_reconcile_install m cfg declaration backup_fuel i ps phase c q w
    = (Done (i', ps', (PhaseCompleted, None)), w') →
  ∃ rl w0 alerts rejected w1,
    GetRateLimitConfig q = Done rl
    ∧ GetAlertConfig c (Namespace (rhmi_meta i)) w = (Done (inr alerts), w0)
    ∧ steps_done (marin3r_steps i rl alerts rejected c q) w0 w1
    ∧ i' = i ∧ ps' = marin3r_status ps
    ∧ HandleProductComplete i ProductsStage ProductMarin3r w1 = (Done tt, w').
Proof.
  unfold marin3r_reconcile_install. rewrite bind_lift. intros Hr.
  destruct (GetRateLimitConfig q) as [rl|] eqn:Hq; [|done].
  apply bind_done_inv in Hr as ([e|alerts] & w0 & Ha & Hr); [go_inv|].
  apply product_step_done in Hr as (w1 & S1 & Hr). apply product_step_done in Hr as (w2 & S2 & Hr).
  apply product_step_done in Hr as (w3 & S3 & Hr). apply product_step_done in Hr as (w4 & S4 & Hr).
  apply product_step_done in Hr as (w5 & S5 & Hr). apply product_step_done in Hr as (w6 & S6 & Hr).
  apply bind_done_inv in Hr as ([ph err] & w7 & S7 & Hr).
  destruct (is_some err || (ph =?s PhaseFailed)) eqn:Hn; [go_inv|].
  apply reconcile_ratelimit_done in Hr as (w8 & S8 & Hr).
  apply reconcile_alerting_done in Hr as (rej & w9 & _ & S9 & -> & -> & Hev).
  exists rl, w0, alerts, rej, w9. split_and!; try done.
  pose proof (not_failed_done _ _ _ _ _ S7 Hn) as S7'.
  apply (steps_done_app [_; _; _; _; _; _; _] [_; _; _; _; _; _; _]). exists w7. split; [steps_tac|].
  apply (steps_done_app [_; _; _; _] [_; _; _]). eauto.
Qed.
End facts.

