(* ===== verification/RhssoCommon.v ===== *)
(** * What the two single sign-ons share

    pkg/products/rhssocommon (reconciler.go, operator_metrics_service.go) and
    pkg/resources/rhsso.go.  A reconciler holds its config, the config manager
    and the installation: the record SsoState, which the steps of a reconcile
    hand on.  The config of each product is reached through the class
    SsoConfig. *)

From stdpp Require Import base list strings gmap.
From Stdlib Require Import ZArith Lia.
From S2P Require Import Prelude Kube Api Resources Users Olm Quota Pods Keycloak RateLimit Cro Config.
From S2P Require Import Alerts CloudAlerts Backup Marketplace Reconciler.

(** ** The config of a single sign-on *)

Class SsoConfig (C : Type) `{ConfigReadable C} := {
  sso_common : C → RHSSOCommon.t;
  with_common : RHSSOCommon.t → C → C;
}.
#[export] Instance RHSSO_sso : SsoConfig RHSSO.t := {|
  sso_common := RHSSO.common; with_common x _ := RHSSO.mk x |}.
#[export] Instance RHSSOUser_sso : SsoConfig RHSSOUser.t := {|
  sso_common := RHSSOUser.common; with_common x _ := RHSSOUser.mk x |}.

Class SsoConfigLaws (C : Type) `{SsoConfig C} :=
  sso_common_with : ∀ x (c : C), sso_common (with_common x c) = x.
#[export] Instance RHSSO_sso_laws : SsoConfigLaws RHSSO.t.
Proof. done. Qed.
#[export] Instance RHSSOUser_sso_laws : SsoConfigLaws RHSSOUser.t.
Proof. done. Qed.

Record SsoState (C : Type) := mkSso { so_cfg : C; so_mgr : Manager; so_inst : RHMI }.
Arguments mkSso {C}.
Arguments so_cfg {C}.
Arguments so_mgr {C}.
Arguments so_inst {C}.

Definition idpAlias : string := "openshift-v4".
Definition podMonitorName : string := "keycloak-pod-monitor".
Definition keycloakPDBName : string := "keycloak".
Definition KeycloakMetricsExtension : string :=
  "https://github.com/integr8ly/keycloak-metrics-spi/releases/download/2.5.3/keycloak-metrics-spi.jar".
Definition RHSSOSubscriptionName : string := "rhmi-rhsso".
Definition RhssoOperatorMetricsServiceName : string := "rhsso-operator-metrics".
Definition rhssoOperatorMetricsPort : Z := 8383.
Definition RHSSODatabaseSecretName : string := "keycloak-db-secret".

(** ** Lists of users *)

(** The removal of the first user of a name: the last one takes its place. *)
Definition swap_remove (name : string) (l : list KeycloakAPIUser) : list KeycloakAPIUser :=
  match list_find (λ u, kc_UserName u = name) l with
  | Some (i, _) => match last l with
                   | Some x => take (pred (length l)) (<[i := x]> l)
                   | None => l
                   end
  | None => l
  end.

Definition OsUserInKc (osUsers : list User) (kcUser : KeycloakAPIUser) : bool :=
  existsb (λ osu, Name (user_meta osu) =?s kc_UserName kcUser) osUsers.

Definition ContainsIdentityProvider (providers : list KeycloakIdentityProvider) (alias : string) : bool :=
  existsb (λ p, idp_Alias p =?s alias) providers.

Definition GetOAuthClientName {C} `{ConfigReadable C} (installation : RHMI) (sso : C) : string :=
  NamespacePrefix (Spec installation) +:+ Config.GetProductName sso.

(** ** Rules of the product

    removeRule(slice, s) appends what follows the position to what precedes
    it: within the array of the slice, of which the first [m] rules are the
    slice, the rules after the position move down, and the array keeps its
    length. *)
Definition removeRule (array : list Rule) (s m : nat) : list Rule :=
  take s array ++ drop (S s) (take m array) ++ drop (pred m) array.

Definition unavailable_rule (r : Rule) : bool := Alert r =?s "KeycloakInstanceNotAvailable".
Definition general_rules (g : RuleGroup) : bool := group_Name g =?s "general.rules".

(** The range over the rules of one group, [k] of them left: the rules that
    are looked at are those of its own array, what is cut are always the rules
    of the first group, [array] with [m] of them.  The result is that array,
    the number of rules of the first group, and the number of rules of the
    array this group is given, if any. *)
Fixpoint scan_rules (own : option (list Rule)) (k idx : nat) (array : list Rule) (m : nat)
    (cut : option nat) : outcome (list Rule * nat * option nat) :=
  match k with
  | O => Done (array, m, cut)
  | S k =>
      match default array own !! idx with
      | Some r =>
          if unavailable_rule r then
            if (S idx <=? m)%nat then
              scan_rules own k (S idx) (removeRule array idx m)
                (if is_some own then m else pred m) (Some (pred m))
            else Panic "slice bounds out of range"
          else scan_rules own k (S idx) array m cut
      | None => Panic "index out of range"
      end
  end.

Fixpoint scan_groups (groups : list RuleGroup) (array : list Rule) (m : nat)
    : outcome (list Rule * list (option nat)) :=
  match groups with
  | [] => Done (array, [])
  | g :: groups =>
      if general_rules g then
        '(array, _, cut) ← scan_rules (Some (Rules g)) (length (Rules g)) 0 array m None;
        '(array, cuts) ← scan_groups groups array m;
        Done (array, cut :: cuts)
      else
        '(array, cuts) ← scan_groups groups array m;
        Done (array, None :: cuts)
  end.

(** The loop over all groups; the first is the one whose rules are cut. *)
Definition without_unavailable (groups : list RuleGroup) : outcome (list RuleGroup) :=
  match groups with
  | [] => Done []
  | g0 :: rest =>
      '(array, m, _) ← (if general_rules g0
                        then scan_rules None (length (Rules g0)) 0 (Rules g0) (length (Rules g0)) None
                        else Done (Rules g0, length (Rules g0), None));
      '(array, cuts) ← scan_groups rest array m;
      Done (mkRuleGroup (group_Name g0) (take m array) (Interval g0)
            :: zip_with (λ g cut, match cut with
                                  | Some n => mkRuleGroup (group_Name g) (take n array) (Interval g)
                                  | None => g
                                  end) rest cuts)
  end.

(** ** The reconciler *)

Section common.
Context {W Q K C : Type} `{SsoConfig C} `{Quantity Q}.
Context `{Client W RHMI} `{Client W Secret} `{Client W ConfigMap} `{Client W CRD} `{Client W KeycloakUser}
  `{Client W KeycloakClient} `{Client W KeycloakRealm} `{SemanticDeepEqual (Keycloak Q)}
  `{Client W (Keycloak Q)} `{Client W Route} `{Client W OAuthClient} `{Client W Postgres}
  `{SemanticDeepEqual (StatefulSet Q)} `{Client W (StatefulSet Q)} `{Client W PodMonitor}
  `{Client W PrometheusRule} `{Client W UpstreamPrometheusRule} `{Client W PodDisruptionBudget}
  `{Client W Service} `{Client W InstallPlan} `{Client W Subscription}
  `{Client W ClusterServiceVersion} `{Client W (Snapshot PostgresSnapshotType)}
  `{Client W (Snapshot RedisSnapshotType)}.
Context `{KeycloakInterface W K} `{MarketplaceInterface W} `{EventRecorder W} `{OsEnv W} `{Clock W}
  `{Ticker W} `{Yaml} `{TitleCase}.

Definition SetNameSpaces (installation : RHMI) (config : RHSSOCommon.t) (namespace : string)
    : RHSSOCommon.t :=
  let config := if RHSSOCommon.GetNamespace config =?s ""
                then RHSSOCommon.SetNamespace config (NamespacePrefix (Spec installation) +:+ namespace)
                else config in
  if RHSSOCommon.GetOperatorNamespace config =?s "" then
    if OperatorsInProductNamespace (Spec installation)
    then RHSSOCommon.SetOperatorNamespace config (RHSSOCommon.GetNamespace config)
    else RHSSOCommon.SetOperatorNamespace config (RHSSOCommon.GetNamespace config +:+ "-operator")
  else config.

(** Listing a kind in a namespace and deleting what was found. *)
Fixpoint delete_items {O} `{Client W O} (c : KClient) (l : list O) : M W (option error) :=
  match l with
  | [] => mret None
  | o :: l =>
      err ← client_delete c o;
      match err with
      | Some e => mret (Some e)
      | None => delete_items c l
      end
  end.

Fixpoint drop_finalizers (c : KClient) (l : list KeycloakRealm) : M W (option error) :=
  match l with
  | [] => mret None
  | realm :: l =>
      r ← client_update c (set_meta (SetFinalizers [] (kcr_meta realm)) realm);
      match r with
      | inl e => if negb (IsNotFound (Some e)) then mret (Some e) else drop_finalizers c l
      | inr _ => drop_finalizers c l
      end
  end.

Definition on_list {O A} (r : error + list O) (failed : error → A) (next : list O → M W A) : M W A :=
  match r with
  | inl e => mret (failed e)
  | inr l => next l
  end.

(** From the deletion of the realms on: the error of the first list is lost. *)
Definition cleanup_realms (c : KClient) (ns : string) : M W (StatusPhase * option error) :=
  let failed e := (PhaseFailed, Some e) in
  realms ← client_list (O := KeycloakRealm) c (InNamespace ns);
  on_list realms (λ _, (PhaseFailed, None)) (λ realms,
  err ← delete_items c realms;
  match err with
  | Some e => mret (failed e)
  | None =>
      realms ← client_list (O := KeycloakRealm) c (InNamespace ns);
      on_list realms failed (λ realms,
      err ← drop_finalizers c realms;
      match err with
      | Some e => mret (failed e)
      | None =>
          realms ← client_list (O := KeycloakRealm) c (InNamespace ns);
          on_list realms failed (λ realms,
          match realms with
          | [] => mret (PhaseCompleted, None)
          | _ => mret (PhaseInProgress, None)
          end)
      end)
  end).

(** From the second look at users and clients on. *)
Definition await_users_and_clients (c : KClient) (ns : string) : M W (StatusPhase * option error) :=
  let failed e := (PhaseFailed, Some e) in
  users ← client_list (O := KeycloakUser) c (InNamespace ns);
  on_list users failed (λ users,
  match users with
  | _ :: _ => mret (PhaseInProgress, None)
  | [] =>
      clients ← client_list (O := KeycloakClient) c (InNamespace ns);
      on_list clients failed (λ clients,
      match clients with
      | _ :: _ => mret (PhaseInProgress, None)
      | [] => cleanup_realms c ns
      end)
  end).

Definition CleanupKeycloakResources (inst : RHMI) (c : KClient) (ns : string)
    : M W (StatusPhase * option error) :=
  let failed e := (PhaseFailed, Some e) in
  if is_none (DeletionTimestamp (rhmi_meta inst)) then mret (PhaseCompleted, None)
  else
    '(crdExists, err) ← Exists c (mkCRD (named "" "keycloaks.keycloak.org"));
    match err with
    | Some e => mret (failed e)
    | None =>
        if negb crdExists then mret (PhaseCompleted, None)
        else
          users ← client_list (O := KeycloakUser) c (InNamespace ns);
          on_list users failed (λ users,
          err ← delete_items c users;
          match err with
          | Some e => mret (failed e)
          | None =>
              clients ← client_list (O := KeycloakClient) c (InNamespace ns);
              on_list clients failed (λ clients,
              err ← delete_items c clients;
              match err with
              | Some e => mret (failed e)
              | None => await_users_and_clients c ns
              end)
          end)
    end.

(** The mutate function keeps the host. *)
Definition keycloak_route : RouteTarget := mkRouteTarget "Service" "keycloak" "keycloak" "reencrypt" "None".

Definition CreateKeycloakRoute (c : KClient) (routeName : string) (s : SsoState C)
    : M W (SsoState C * (StatusPhase * option error)) :=
  '(route, (_, err)) ← CreateOrUpdate c
    (mkRoute (named (RHSSOCommon.GetNamespace (sso_common (so_cfg s))) routeName) "" [])
    (λ r, mret (mkRouteTo (rt_meta r) (rt_Host r) (Some keycloak_route) (rt_Ingress r), None));
  match err with
  | Some e => mret (s, (PhaseFailed, Some (ErrWrap "error creating keycloak edge route: " e)))
  | None =>
      if rt_Host route =?s "" then mret (s, (PhaseInProgress, None))
      else
        let cfg := with_common (RHSSOCommon.SetHost (sso_common (so_cfg s))
                                  ("https://" +:+ rt_Host route)) (so_cfg s) in
        '(m, err) ← WriteConfig (so_mgr s) cfg;
        let s := mkSso cfg m (so_inst s) in
        match err with
        | Some e => mret (s, (PhaseFailed, Some (ErrWrap "error writing to config in rhsso reconciler: " e)))
        | None => mret (s, (PhaseCompleted, None))
        end
  end.

(** *** Identity provider and its secret *)

Definition secret_of (c : KClient) (ns secretName key : string) : M W (error + string) :=
  got ← client_get (O := Secret) c ns secretName;
  mret (match got with
        | inl e => inl (ErrWrap ("Could not find " +:+ secretName +:+ " Secret: ") e)
        | inr s =>
            match omap_lookup (sec_Data s) key with
            | None => inl (errorf_w ("Could not find " +:+ key +:+ " key in " +:+ secretName +:+ " Secret: ") None)
            | Some v => inr v
            end
        end).
Definition getTenantClientSecret (m : Manager) (c : KClient) (tenant : string) : M W (error + string) :=
  secret_of c (GetOperatorNamespace m) "tenant-oauth-client-secrets" tenant.
Definition getClientSecret (m : Manager) (c : KClient) (sso : C) : M W (error + string) :=
  secret_of c (GetOperatorNamespace m) (GetOauthClientsSecretName m) (Config.GetProductName sso).

Definition openshift_idp (installation : RHMI) (clientId clientSecret : string) : KeycloakIdentityProvider :=
  mkIdp idpAlias "openshift-v4" true true true true "first broker login" false (Some (list_to_map
    [("hideOnLoginPage", ""); ("baseUrl", APIServer (Spec installation)); ("clientId", clientId);
     ("disableUserInfo", ""); ("clientSecret", clientSecret); ("defaultScope", "user:full");
     ("useJwksUrl", "true")])).

(** The realm is the one of the KeycloakRealm that is being built. *)
Definition SetupOpenshiftIDP (c : KClient) (m : Manager) (installation : RHMI) (sso : C)
    (realm : KeycloakAPIRealm) (redirectUris : list string) (tenant : string)
    : M W (KeycloakAPIRealm * option error) :=
  secret ← (if negb (tenant =?s "") then getTenantClientSecret m c tenant else getClientSecret m c sso);
  match secret with
  | inl e => mret (realm, Some e)
  | inr clientSecret =>
      let clientId := if negb (tenant =?s "") then tenant else GetOAuthClientName installation sso in
      '(_, (_, err)) ← ReconcileOauthClient installation
        (mkOAuthClient (named "" clientId) clientSecret "auto" redirectUris) c;
      match err with
      | Some e => mret (realm, Some e)
      | None =>
          if ContainsIdentityProvider (realm_IdentityProviders realm) idpAlias then mret (realm, None)
          else mret (with_providers realm (realm_IdentityProviders realm
                       ++ [openshift_idp installation clientId clientSecret]), None)
      end
  end.

Definition SyncOpenshiftIDPClientSecret (c : KClient) (m : Manager) (authenticated : K) (sso : C)
    (keycloakRealmName : string) : M W (option error) :=
  secret ← getClientSecret m c sso;
  match secret with
  | inl e => mret (Some e)
  | inr clientSecret =>
      idp ← api_GetIdentityProvider authenticated idpAlias keycloakRealmName;
      match idp with
      | inl e => mret (Some (ErrWrap "failed to get identity provider via keycloak api " e))
      | inr None => panic "nil pointer dereference"
      | inr (Some idp) =>
          let idp := with_idp_Config idp
                       (Some (<["clientSecret" := clientSecret]> (make_if_nil (idp_Config idp)))) in
          err ← api_UpdateIdentityProvider authenticated idp keycloakRealmName;
          mret (match err with
                | Some e => Some (ErrWrap "Unable to update Identity Provider " e)
                | None => None
                end)
      end
  end.

(** *** The database *)

Definition database_secret_data (postgresSec : Secret) (d : option (gmap string string)) : gmap string string :=
  let value k := omap_get "" (sec_Data postgresSec) k in
  <["POSTGRES_SUPERUSER" := "false"]> $ <["POSTGRES_USERNAME" := value "username"]> $
  <["POSTGRES_PASSWORD" := value "password"]> $ <["POSTGRES_EXTERNAL_ADDRESS" := value "host"]> $
  <["POSTGRES_EXTERNAL_PORT" := value "port"]> $ <["POSTGRES_DATABASE" := value "database"]> $
  make_if_nil d.

(** No instance while it is being provisioned. *)
Definition ReconcileRHSSOPostgresCredentials (c : KClient) (installation : RHMI) (name ns nsPostfix : string)
    : M W (error + option Postgres) :=
  let postgresNS := Namespace (rhmi_meta installation) in
  postgres ← croUtil_ReconcilePostgres c nsPostfix (Type_ (Spec installation)) TierProduction name postgresNS
               name postgresNS PostgresApplyImmediately (λ cr, AddIntegreatlyOwnerAnnotations cr installation);
  match postgres with
  | inl e => mret (inl (ErrWrap ("failed to provision postgres instance while reconciling rhsso postgres credentials, "
                                 +:+ name +:+ ": ") e))
  | inr postgres =>
      if negb (pg_Phase postgres =?s CroPhaseComplete) then mret (inr None)
      else
        match pg_SecretRef postgres with
        | None => panic "nil pointer dereference"
        | Some (secretName, secretNs) =>
            got ← client_get (O := Secret) c secretNs secretName;
            match got with
            | inl e => mret (inl (ErrWrap ("failed to get postgres credential secret while reconciling rhsso postgres credentials, "
                                           +:+ name +:+ ": ") e))
            | inr postgresSec =>
                '(_, (_, err)) ← CreateOrUpdate c (mkSecret (named ns RHSSODatabaseSecretName) None)
                  (λ s, let s := AddIntegreatlyOwnerAnnotations s installation in
                        mret (with_sec_Data s (Some (database_secret_data postgresSec (sec_Data s))), None));
                mret (match err with
                      | Some e => inl (ErrWrap ("failed to create keycloak external database secret, "
                                                +:+ name +:+ ": ") e)
                      | None => inr (Some postgres)
                      end)
            end
        end
  end.

Definition ReconcileCloudResources (dbPRefix defaultNamespace ssoType : string) (c : KClient)
    (s : SsoState C) : M W (SsoState C * (StatusPhase * option error)) :=
  let installation := so_inst s in
  postgres ← ReconcileRHSSOPostgresCredentials c installation
    (dbPRefix +:+ Name (rhmi_meta installation)) (RHSSOCommon.GetNamespace (sso_common (so_cfg s))) defaultNamespace;
  match postgres with
  | inl e => mret (s, (PhaseFailed, Some (ErrWrap
               ("failed to reconcile database credentials secret while provisioning " +:+ ssoType +:+ ": ") e)))
  | inr (Some postgres) =>
      '(phase, err) ← ReconcilePostgresAlerts c installation postgres;
      mret (s, match err with
               | Some e => (PhaseFailed, Some (ErrWrap ("failed to reconcile postgres alerts for "
                              +:+ omap_get "" (Labels (pg_meta postgres)) "productName" +:+ ": ") e))
               | None => if negb (phase =?s PhaseCompleted) then (phase, None) else (PhaseCompleted, None)
               end)
  | inr None => mret (s, (PhaseAwaitingCloudResources, None))
  end.

(** *** The operator *)

Definition PreUpgradeBackupsExecutor (backup_fuel : nat) (installation : RHMI) (resourceName : string)
    : BackupExecutor W :=
  if negb (UseClusterStorage (Spec installation) =?s "false") then NoopBackupExecutor
  else aws_PerformBackup backup_fuel
    (mkAWSBackup (Namespace (rhmi_meta installation)) resourceName PostgresSnapshotType).

Definition sso_ReconcileSubscription (backup_fuel : nat) (declaration : ProductDeclaration) (c : KClient)
    (installation : RHMI) (productNamespace operatorNamespace resourceName : string)
    : M W (StatusPhase * option error) :=
  let '(target, prepared) := PrepareTarget declaration CatalogSourceName
    (mkTarget operatorNamespace RHSSOSubscriptionName "" "") in
  match prepared with
  | inl e => mret (PhaseFailed, Some e)
  | inr csr =>
      '(_, r) ← ReconcileSubscription target [productNamespace]
        (PreUpgradeBackupsExecutor backup_fuel installation resourceName) c csr;
      mret r
  end.

(** The object literal of a stateful set of which only the name is set. *)
Definition ReconcileStatefulSet (c : KClient) (s : SsoState C) : M W (StatusPhase * option error) :=
  affinity ← reads (MutateMultiAZAntiAffinity "app");
  '(_, r) ← UpdatePodTemplateIfExists (Q := Q) c
    (AllMutationsOf [affinity; MutateZoneTopologySpreadConstraints "app";
                     MutatePodPriority (PriorityClassName (Spec (so_inst s)))])
    (mkStatefulSet (named (RHSSOCommon.GetNamespace (sso_common (so_cfg s))) "keycloak") None
       zero_PodTemplate 0);
  mret r.

(** *** Users *)

Fixpoint DeleteKeycloakUsers (c : KClient) (ns : string) (allKcUsers deletedUsers : list KeycloakAPIUser)
    : M W (error + list KeycloakAPIUser) :=
  match deletedUsers with
  | [] => mret (inr allKcUsers)
  | delUser :: deletedUsers =>
      if kc_UserName delUser =?s "" then DeleteKeycloakUsers c ns allKcUsers deletedUsers
      else
        let allKcUsers := swap_remove (kc_UserName delUser) allKcUsers in
        let name := GetValidGeneratedUserName delUser in
        if name =?s "" then mret (inl (ErrStr "failed to get valid generated username"))
        else
          err ← client_delete c (named_user (named ns name));
          match err with
          | Some e => mret (inl (ErrWrap "failed to delete keycloak user: " e))
          | None => DeleteKeycloakUsers c ns allKcUsers deletedUsers
          end
  end.

(** *** Progress *)

(** keycloak.PhaseReconciling *)
Definition KeycloakPhaseReconciling : string := "reconciling".

Definition exportConfig (c : KClient) (keycloakName keycloakRealmName : string) (cfg : C)
    : M W (C * option error) :=
  got ← client_get (O := Keycloak Q) c (Config.GetNamespace cfg) keycloakName;
  match got with
  | inl e => mret (cfg, Some (ErrWrap "Could not retrieve keycloak custom resource for keycloak config: " e))
  | inr _ => mret (with_common (RHSSOCommon.SetRealm (sso_common cfg) keycloakRealmName) cfg, None)
  end.

Definition HandleProgressPhase (c : KClient) (keycloakName keycloakRealmName rhssoVersion operatorVersion : string)
    (s : SsoState C) : M W (SsoState C * (StatusPhase * option error)) :=
  let ns := Config.GetNamespace (so_cfg s) in
  kc ← client_get (O := Keycloak Q) c ns keycloakName;
  match kc with
  | inl e => mret (s, (PhaseFailed, Some e))
  | inr _ =>
      let common := RHSSOCommon.SetOperatorVersion
                      (RHSSOCommon.SetProductVersion (sso_common (so_cfg s)) rhssoVersion) operatorVersion in
      let cfg := with_common common (so_cfg s) in
      '(m, err) ← WriteConfig (so_mgr s) cfg;
      let s := mkSso cfg m (so_inst s) in
      match err with
      | Some e => mret (s, (PhaseFailed, Some e))
      | None =>
          kcr ← client_get (O := KeycloakRealm) c (Config.GetNamespace cfg) keycloakRealmName;
          match kcr with
          | inl e => mret (s, (PhaseFailed, Some (ErrWrap "failed to get keycloak realm custom resource: " e)))
          | inr kcr =>
              if kcr_Phase kcr =?s KeycloakPhaseReconciling then
                '(cfg, err) ← exportConfig c keycloakName keycloakRealmName cfg;
                let s := mkSso cfg m (so_inst s) in
                match err with
                | Some e => mret (s, (PhaseFailed, Some (ErrWrap "failed to write rhsso config: " e)))
                | None => mret (s, (PhaseCompleted, None))
                end
              else mret (s, (PhaseInProgress, None))
          end
      end
  end.

(** *** Monitoring *)

Definition RemovePodMonitors (c : KClient) (cfg : C) : M W (StatusPhase * option error) :=
  got ← client_get (O := PodMonitor) c (Config.GetNamespace cfg) podMonitorName;
  match got with
  | inl e => mret (if IsNotFound (Some e) then (PhaseCompleted, None) else (PhaseFailed, Some e))
  | inr podMonitor =>
      err ← client_delete c podMonitor;
      mret (match err with
            | Some e => (PhaseFailed, Some e)
            | None => (PhaseCompleted, None)
            end)
  end.

(** The rules are copied field by field into the other kind. *)
Definition ExportAlerts (c : KClient) (installation : RHMI) (productName productNamespace : string)
    : M W (StatusPhase * option error) :=
  got ← client_get (O := UpstreamPrometheusRule) c productNamespace "keycloak";
  match got with
  | inl e => mret (PhaseFailed, Some e)
  | inr ssoAlert =>
      match up_Groups ssoAlert with
      | [] => mret (PhaseInProgress, None)
      | groups =>
          groups ← lift (without_unavailable groups);
          '(_, (_, err)) ← CreateOrUpdate c
            (mkPrometheusRule (named (GetOboNamespace (Namespace (rhmi_meta installation))) productName) [])
            (λ r, mret (mkPrometheusRule (SetLabels (Labels (up_meta ssoAlert)) (rule_meta r)) groups, None));
          mret (match err with
                | Some e => (PhaseFailed, Some e)
                | None => (PhaseCompleted, None)
                end)
      end
  end.

Definition ReconcilePodDisruptionBudget (c : KClient) (productNamespace : string)
    : M W (StatusPhase * option error) :=
  '(_, (_, err)) ← CreateOrUpdate c (mkPDB (named productNamespace keycloakPDBName) None None)
    (λ p, mret (mkPDB (SetLabels (Some {["app" := keycloakPDBName]}) (pdb_meta p))
                  (Some {["component" := keycloakPDBName]}) (Some 1%Z), None));
  mret (match err with
        | Some e => (PhaseFailed, Some e)
        | None => (PhaseCompleted, None)
        end).

Definition ReconcileOperatorMetricsService (c : KClient) (installation : RHMI) (operatorNamespace : string)
    : M W (StatusPhase * option error) :=
  if operatorNamespace =?s "" then mret (PhaseFailed, Some (ErrStr "operator namespace is empty"))
  else
    '(_, (_, err)) ← CreateOrUpdate c (mkService (named operatorNamespace RhssoOperatorMetricsServiceName) [] None)
      (λ svc, let svc := AddIntegreatlyOwnerAnnotations svc installation in
              mret (set_service (set_label "name" "rhsso-operator" (svc_meta svc))
                      [mkServicePort RhssoOperatorMetricsServiceName "TCP" rhssoOperatorMetricsPort
                         rhssoOperatorMetricsPort]
                      (Some {["name" := "rhsso-operator"]}) "ClusterIP" svc, None));
    mret (match err with
          | Some e => (PhaseFailed, Some (ErrWrap ("failed to reconcile " +:+ operatorNamespace +:+ "/"
                         +:+ RhssoOperatorMetricsServiceName +:+ " Service: ") e))
          | None => (PhaseCompleted, None)
          end).

(** *** What both reconciles share *)

Context `{Client W NamespaceObj} `{Client W Project}.

(** The clean-up up to the OAuth client, which the clientset of OpenShift
    deletes by its name: completed means that it goes on. *)
Definition remove_namespace_once (c : KClient) (namespace : string)
    (before : M W (StatusPhase * option error)) : M W (StatusPhase * option error) :=
  got ← GetNS namespace c;
  if match got with inl e => IsNotFound (Some e) | inr _ => false end then mret (PhaseCompleted, None)
  else
    '(phase, err) ← before;
    if is_some err || negb (phase =?s PhaseCompleted) then mret (phase, err)
    else RemoveNamespace c namespace.

Definition remove_sso (oauth_delete : string → M W (option error)) (c : KClient) (cfg : C)
    (productNamespace operatorNamespace : string) (installation : RHMI) : M W (StatusPhase * option error) :=
  '(phase, err) ← remove_namespace_once c productNamespace
                    (CleanupKeycloakResources installation c productNamespace);
  if is_some err || negb (phase =?s PhaseCompleted) then mret (phase, err)
  else
    '(phase, err) ← remove_namespace_once c operatorNamespace (mret (PhaseCompleted, None));
    if is_some err || negb (phase =?s PhaseCompleted) then mret (phase, err)
    else
      err ← RemoveOauthClient oauth_delete (GetOAuthClientName installation cfg);
      match err with
      | Some e => mret (PhaseFailed, Some e)
      | None => mret (PhaseCompleted, None)
      end.
End common.

(** *** Steps *)

Definition reported {W S} (what : string) (run : S → M W (S * (StatusPhase * option error))) : Step W S :=
  mkStep (Some what) completes_only run.
Definition unreported {W S} (run : S → M W (S * (StatusPhase * option error))) : Step W S :=
  mkStep None completes_only run.
(** A step that leaves the reconciler alone. *)
Definition keeps {W S} (run : S → M W (StatusPhase * option error)) (s : S)
    : M W (S * (StatusPhase * option error)) := r ← run s; mret (s, r).
(** A step that writes the config. *)
Definition write_config {W C} `{ConfigReadable C} `{Client W ConfigMap} `{Yaml} (what : string) (s : SsoState C)
    : M W (SsoState C * (StatusPhase * option error)) :=
  '(m, err) ← WriteConfig (so_mgr s) (so_cfg s);
  mret (mkSso (so_cfg s) m (so_inst s),
        match err with Some e => (PhaseFailed, Some (ErrWrap what e)) | None => (PhaseCompleted, None) end).

(** The status of a product after a reconcile that is completed. *)
Definition sso_status {C} `{ConfigReadable C} (cfg : C) (ps : RHMIProductStatus) : RHMIProductStatus :=
  mkProductStatus (p_Name ps) (Config.GetOperatorVersion cfg) (Config.GetProductVersion cfg)
    (Config.GetHost cfg) (p_Type ps) (p_Mobile ps) (p_Phase ps) (p_Uninstall ps).

(** ** Facts *)

(** Steps that leave a part of the state alone. *)
Section kept.
Context {W S X : Type} (f : S → X).

Definition step_keeps (st : Step W S) : Prop :=
  ∀ s (w w' : W) s' r, step_run st s w = (Done (s', r), w') → f s' = f s.
Lemma steps_keep l s (w w' : W) s' : Forall step_keeps l → steps_ran l s w s' w' → f s' = f s.
Proof.
  intros Hl. revert s w. induction Hl as [|st l Hst _ IH]; intros s w; cbn [steps_ran]; [by intros [-> _]|].
  intros (s1 & w1 & ph & Hr & _ & Hrest). apply Hst in Hr. by rewrite (IH _ _ Hrest).
Qed.
Lemma keeps_keeps what on run : step_keeps (mkStep what on (keeps run)).
Proof. intros s w w' s' r. cbn [step_run]. unfold keeps. intros Hr. by go_inv. Qed.
End kept.
Ltac all_keep_with tac :=
  repeat first [apply Forall_nil_2 | apply Forall_cons_2]; first [apply keeps_keeps | tac].

Lemma filter_ext_in {A} (P R : A → Prop) `{∀ x, Decision (P x)} `{∀ x, Decision (R x)} (l : list A) :
  (∀ x, x ∈ l → P x ↔ R x) → filter P l = filter R l.
Proof.
  induction l as [|x l IH]; intros HP; [done|].
  assert (P x ↔ R x) as Hx by (apply HP; left). rewrite !filter_cons, IH by (intros; apply HP; by right).
  destruct (decide (P x)), (decide (R x)); tauto.
Qed.

(** The first user of the name goes, the others stay in some order. *)
Lemma swap_remove_some name l i u :
  list_find (λ u, kc_UserName u = name) l = Some (i, u) → u :: swap_remove name l ≡ₚ l.
Proof.
  intros Hf. unfold swap_remove. rewrite Hf. apply list_find_Some in Hf as (Hi & _ & _).
  destruct l as [|u0 l0] using rev_ind; [done|]. clear IHl0. rewrite last_snoc, length_app. cbn [length].
  replace (pred (length l0 + 1)) with (length l0) by lia.
  destruct (decide (i = length l0)) as [->|Hne].
  - rewrite list_lookup_middle in Hi by done. injection Hi as ->.
    rewrite insert_app_r_alt, Nat.sub_diag by lia. cbn. rewrite take_app_length. apply Permutation_cons_append.
  - assert (i < length l0) as Hlt.
    { apply lookup_lt_Some in Hi. rewrite length_app in Hi. cbn in Hi. lia. }
    rewrite lookup_app_l in Hi by done. rewrite insert_app_l by done.
    rewrite take_app_length' by (by rewrite length_insert).
    rewrite insert_take_drop, <- Permutation_middle, <- Permutation_cons_append, perm_swap by done.
    apply perm_skip. rewrite Permutation_middle. by rewrite take_drop_middle.
Qed.
Lemma swap_remove_none name l :
  list_find (λ u, kc_UserName u = name) l = None → swap_remove name l = l.
Proof. unfold swap_remove. by intros ->. Qed.

Lemma NoDup_fmap_filter {A B} (f : A → B) (P : A → Prop) `{∀ x, Decision (P x)} (l : list A) :
  NoDup (f <$> l) → NoDup (f <$> filter P l).
Proof.
  induction l as [|x l IH]; [done|]. cbn [fmap list_fmap]. intros [Hx Hnd]%NoDup_cons.
  destruct (decide (P x)); [rewrite filter_cons_True by done|rewrite filter_cons_False by done; auto].
  cbn [fmap list_fmap]. apply NoDup_cons. split; [|auto]. intros Hin. apply Hx.
  apply list_elem_of_fmap in Hin as (y & -> & [_ Hy]%list_elem_of_filter). by apply list_elem_of_fmap_2.
Qed.

(** With distinct names, what is left are the users of the other names. *)
Lemma swap_remove_filter name l :
  NoDup (kc_UserName <$> l) → swap_remove name l ≡ₚ filter (λ u, kc_UserName u ≠ name) l.
Proof.
  intros Hnd. destruct (list_find (λ u, kc_UserName u = name) l) as [[i u]|] eqn:Hf.
  - pose proof (swap_remove_some _ _ _ _ Hf) as Hp. apply list_find_Some in Hf as (_ & Hu & _).
    transitivity (filter (λ u, kc_UserName u ≠ name) (u :: swap_remove name l)); [|by rewrite Hp].
    assert (NoDup (kc_UserName <$> u :: swap_remove name l)) as Hnd' by (by rewrite Hp).
    cbn [fmap list_fmap] in Hnd'. apply NoDup_cons in Hnd' as [Hni _].
    rewrite filter_cons_False by naive_solver. rewrite filter_id; [done|].
    intros x Hx Heq. apply Hni, list_elem_of_fmap. exists x. by rewrite Hu.
  - rewrite swap_remove_none by done. rewrite filter_id; [done|].
    apply list_find_None in Hf. exact (proj1 (Forall_forall _ _) Hf).
Qed.

Section facts.
Context {W Q C : Type} `{SsoConfig C}.
Context `{Client W KeycloakUser} `{Client W KeycloakClient} `{Client W KeycloakRealm} `{Client W CRD}.

(** With distinct names, exactly the users to be deleted go, but for those
    without a name. *)
Lemma DeleteKeycloakUsers_ok c ns all deleted (w w' : W) l :
  NoDup (kc_UserName <$> all) → DeleteKeycloakUsers c ns all deleted w = (Done (inr l), w') →
  l ≡ₚ filter (λ u, kc_UserName u = "" ∨ kc_UserName u ∉ kc_UserName <$> deleted) all.
Proof.
  revert all w. induction deleted as [|d deleted IH]; intros all w Hnd; cbn [DeleteKeycloakUsers].
  { intros [= <- <-]. rewrite filter_id; [done|]. intros u _. right. apply not_elem_of_nil. }
  destruct (kc_UserName d =?s "") eqn:Ed.
  - apply str_eqb_true in Ed. intros Hr. rewrite (IH _ _ Hnd Hr).
    erewrite list_filter_iff; [done|]. intros u. rewrite fmap_cons, not_elem_of_cons, Ed.
    destruct (decide (kc_UserName u = "")); tauto.
  - apply str_eqb_false in Ed. destruct (_ =?s ""); [done|]. intros Hr.
    apply bind_done_inv in Hr as ([e|] & w1 & _ & Hr); [done|].
    pose proof (swap_remove_filter (kc_UserName d) all Hnd) as Hp. apply IH in Hr.
    2:{ rewrite Hp. by apply NoDup_fmap_filter. }
    rewrite Hr, Hp, list_filter_filter. erewrite list_filter_iff; [done|].
    intros u. rewrite fmap_cons, not_elem_of_cons.
    destruct (decide (kc_UserName u = "")) as [E|E]; [|tauto]. rewrite E. naive_solver.
Qed.

(** A completed progress phase has set the versions and the realm. *)
Lemma HandleProgressPhase_ok `{!SsoConfigLaws C} `{SemanticDeepEqual (Keycloak Q)} `{Client W (Keycloak Q)}
    `{Client W ConfigMap} `{Yaml} c kn realm v ov (s s' : SsoState C) (w w' : W) :
  HandleProgressPhase (Q := Q) c kn realm v ov s w = (Done (s', (PhaseCompleted, None)), w') →
  sso_common (so_cfg s') = RHSSOCommon.SetRealm
    (RHSSOCommon.SetOperatorVersion (RHSSOCommon.SetProductVersion (sso_common (so_cfg s)) v) ov) realm.
Proof.
  unfold HandleProgressPhase, exportConfig. intros Hr. go_inv. by rewrite !sso_common_with.
Qed.

(** *** Clean-up *)

(** What a clean-up may do before the realms: anything that keeps [R], which
    no deletion of a user or a client breaks. *)
Ltac list_inv :=
  repeat (go_inv;
          match goal with H : on_list ?x _ _ _ = _ |- _ => destruct x; cbn [on_list] in H end);
  go_inv.

Section order.
Context (R : W → W → Prop) `{!PreOrder R}.
Context (get_R : ∀ c ns n, preserves R (client_get (O := CRD) c ns n))
  (users_R : ∀ c o, preserves R (client_list (O := KeycloakUser) c o))
  (clients_R : ∀ c o, preserves R (client_list (O := KeycloakClient) c o))
  (delete_user_R : ∀ c (u : KeycloakUser), preserves R (client_delete c u))
  (delete_client_R : ∀ c (k : KeycloakClient), preserves R (client_delete c k)).

(** The clean-up gets to the realms of [ns] in a world [w1] related to [w]. *)
Definition gets_to_realms (c : KClient) (ns : string) (w w' : W) (r : outcome (StatusPhase * option error)) : Prop :=
  ∃ w1 w2 w3, R w w1 ∧ client_list (O := KeycloakUser) c (InNamespace ns) w1 = (Done (inr []), w2)
    ∧ client_list (O := KeycloakClient) c (InNamespace ns) w2 = (Done (inr []), w3)
    ∧ cleanup_realms c ns w3 = (r, w').

Lemma delete_items_preserves {O} `{Client W O} c (l : list O) :
  (∀ o : O, preserves R (client_delete c o)) → preserves R (delete_items c l).
Proof. intros Hd. induction l as [|o l IH]; cbn [delete_items]; frame. Qed.

Lemma await_order c ns (w w' : W) r :
  await_users_and_clients c ns w = (r, w') → R w w' ∨ gets_to_realms c ns w w' r.
Proof.
  unfold await_users_and_clients. rewrite run_bind.
  destruct (client_list _ _ w) as [users w1] eqn:Hu. pose proof (users_R _ _ _ _ _ Hu) as HR1.
  destruct users as [[e|[|u users]]|why]; try (intros [= <- <-]; by left). cbn [on_list].
  rewrite run_bind. destruct (client_list _ _ w1) as [clients w2] eqn:Hc.
  pose proof (clients_R _ _ _ _ _ Hc) as HR2.
  destruct clients as [[e|[|k clients]]|why]; try (intros [= <- <-]; left; by etransitivity).
  intros Hr. right. by exists w, w1, w2.
Qed.

(** One step of the way there. *)
Lemma order_bind {A} (m : M W A) (f : A → M W (StatusPhase * option error)) c ns (w w' : W) r :
  preserves R m → (∀ a w1 r, f a w1 = (r, w') → R w1 w' ∨ gets_to_realms c ns w1 w' r) →
  (x ← m; f x) w = (r, w') → R w w' ∨ gets_to_realms c ns w w' r.
Proof.
  intros Hm Hf. rewrite run_bind. destruct (m w) as [[a|why] w1] eqn:E; [|intros [= <- <-]; left; by eapply Hm].
  apply Hm in E as HR. intros [?|(x & y & z & ? & ?)]%Hf; [left; by etransitivity|].
  right. exists x, y, z. split; [by etransitivity|done].
Qed.
Lemma order_ret x c ns (w w' : W) r :
  (mret x : M W _) w = (r, w') → R w w' ∨ gets_to_realms c ns w w' r.
Proof. intros [= <- <-]. by left. Qed.

(** C14: The clean-up of a single sign-on touches no realm before a list
    showed no user and a list showed no client left; and it is completed only
    when a last list showed no realm left, or there was nothing to do: the
    installation is not deleted, or the kind is not known. *)
Theorem realms_go_last inst c ns (w w' : W) r :
  CleanupKeycloakResources inst c ns w = (r, w') →
  (R w w' ∨ gets_to_realms c ns w w' r)
  ∧ (r = Done (PhaseCompleted, None) →
      DeletionTimestamp (rhmi_meta inst) = None
      ∨ (∃ w1, Exists c (mkCRD (named "" "keycloaks.keycloak.org")) w = (Done (false, None), w1))
      ∨ ∃ w1, client_list (O := KeycloakRealm) c (InNamespace ns) w1 = (Done (inr []), w')).
Proof.
  intros Hr. split.
  - revert Hr. unfold CleanupKeycloakResources. destruct (is_none _); [apply order_ret|].
    apply order_bind; [unfold Exists; frame|]. intros [ex err] w1 r1. destruct err; [apply order_ret|].
    destruct ex; cbn [negb]; [|apply order_ret].
    apply order_bind; [apply users_R|]. intros [e|users] w2 r2; cbn [on_list]; [apply order_ret|].
    apply order_bind; [by apply delete_items_preserves|]. intros [e|] w3 r3; [apply order_ret|].
    apply order_bind; [apply clients_R|]. intros [e|clients] w4 r4; cbn [on_list]; [apply order_ret|].
    apply order_bind; [by apply delete_items_preserves|]. intros [e|] w5 r5; [apply order_ret|].
    apply await_order.
  - intros ->. revert Hr. unfold CleanupKeycloakResources.
    destruct (DeletionTimestamp (rhmi_meta inst)) as [t|]; [cbn [is_none]|by left].
    intros Hr. apply bind_done_inv in Hr as ([ex err] & w1 & Hex & Hr).
    destruct err; [done|]. destruct ex; cbn [negb] in Hr; [|right; left; by eexists].
    right; right. unfold await_users_and_clients, cleanup_realms in Hr. list_inv. by eexists.
Qed.
End order.
End facts.

(** ** The rule that is left out *)

Lemma scan_skip own k idx array m cut :
  (∀ i, idx ≤ i < idx + k → ∃ r, default array own !! i = Some r ∧ unavailable_rule r = false) →
  scan_rules own k idx array m cut = Done (array, m, cut).
Proof.
  revert idx. induction k as [|k IH]; intros idx Hr; [done|]. cbn [scan_rules].
  destruct (Hr idx ltac:(lia)) as (r & -> & ->). apply IH. intros i Hi. apply Hr. lia.
Qed.
Lemma scan_add own a b idx array m cut :
  (∀ i, idx ≤ i < idx + a → ∃ r, default array own !! i = Some r ∧ unavailable_rule r = false) →
  scan_rules own (a + b) idx array m cut = scan_rules own b (idx + a) array m cut.
Proof.
  revert idx. induction a as [|a IH]; intros idx Hr; [by rewrite Nat.add_0_r|]. cbn [scan_rules Nat.add].
  destruct (Hr idx ltac:(lia)) as (r & -> & ->). rewrite IH; [f_equal; lia|]. intros i Hi. apply Hr. lia.
Qed.
Lemma scan_groups_none groups array m :
  Forall (λ g, general_rules g = false) groups →
  scan_groups groups array m = Done (array, replicate (length groups) None).
Proof. induction 1 as [|g l Hg _ IH]; [done|]. cbn [scan_groups]. by rewrite Hg, IH. Qed.
Lemma zip_none {A B} (f : A → option B → A) (l : list A) :
  (∀ x, f x None = x) → zip_with f l (replicate (length l) None) = l.
Proof. intros Hf. induction l as [|x l IH]; [done|]. cbn. by rewrite Hf, IH. Qed.

