(* ===== verification/Metrics.v ===== *)
(** * Metrics (pkg/metrics/metrics.go)

    The gauges the installation controller exposes, as operations on a
    Prometheus registry that is an interface here. *)

From stdpp Require Import base list strings gmap.
From Stdlib Require Import ZArith Lia.
From S2P Require Import Prelude Kube Api.

(** A label set is the list of its names and values. *)
Abbreviation LabelSet := (list (string * string)) (only parsing).

(** GaugeVec.Reset, GaugeVec.With(labels).Set and Gauge.Set of the
    Prometheus client; a gauge is named by its metric name. *)
Class Prometheus (W : Type) := {
  gauge_Reset : string → W → W;
  gauge_Set : string → LabelSet → Z → W → W;
}.
(** What can be scraped: the series of each gauge. *)
Class PrometheusLaws (W : Type) `{Prometheus W} := {
  series : string → W → gmap LabelSet Z;
  series_Reset : ∀ g w, series g (gauge_Reset g w) = ∅;
  series_Set : ∀ g l v w, series g (gauge_Set g l v w) = <[l := v]> (series g w);
}.

Definition rhoam_status : string := "rhoam_status".
Definition rhoam_product_status : string := "rhoam_product_status".
Definition rhoam_version : string := "rhoam_version".
Definition rhoam_state : string := "rhoam_state".
Definition rhoam_cluster : string := "rhoam_cluster".
Definition rhoam_quota : string := "rhoam_quota".
Definition rhoam_custom_domain : string := "rhoam_custom_domain".
Definition rhoam_spec : string := "rhoam_spec".
Definition tenants_summary : string := "tenants_summary".
Definition threescale_portals : string := "threescale_portals".
Definition threescale_user_action : string := "threescale_user_action".
Definition no_activated_3scale_tenant_account : string := "no_activated_3scale_tenant_account".
Definition installation_controller_reconcile_delayed : string :=
  "installation_controller_reconcile_delayed".

(** InstallationState of pkg/resources/metrics.go *)
Definition InstallationState (version toVersion : string) : string :=
  if (version =?s "") && negb (toVersion =?s "") then "Installing"
  else if negb (version =?s "") && negb (toVersion =?s "") then "Upgrading"
  else if negb (version =?s "") && (toVersion =?s "") then "Installed"
  else "Unknown State".

Record RhoamState := mkRhoamState { rs_Status : StatusPhase; Upgrading : bool; rs_Version : string }.

(** [None] is a nil installation. *)
Definition GetRhoamState (cr : option RHMI) : RhoamState * option error :=
  match cr with
  | None => (mkRhoamState "" false "", Some (ErrStr ("funtion parameter " +:+ dquote +:+ "cr"
               +:+ dquote +:+ " is nil")))
  | Some cr =>
      (mkRhoamState
         (if Stage_ (Status cr) =?s CompleteStage then PhaseCompleted else PhaseInProgress)
         (negb (Version (Status cr) =?s "") && negb (ToVersion (Status cr) =?s ""))
         (if Version (Status cr) =?s "" then ToVersion (Status cr) else Version (Status cr)),
       None)
  end.

Record PortalInfo := mkPortalInfo {
  Host : string; Ingress : string; PortalName : string; IsAvailable : bool }.

Section metrics.
Context {W : Type} `{Prometheus W} `{MapRange W}.

Definition SetStatus (installation : RHMI) (w : W) : W :=
  let w := gauge_Reset rhoam_status w in
  if negb (Stage_ (Status installation) =?s "")
  then gauge_Set rhoam_status [("stage", Stage_ (Status installation))] 1 w else w.

(** 0 = completed, 1 = in progress/error *)
Definition product_value (p : RHMIProductStatus) : Z :=
  if p_Phase p =?s PhaseCompleted then 0 else 1.
Definition product_labels (n : ProductName) (p : RHMIProductStatus) : LabelSet :=
  [("product", n); ("stage", p_Phase p)].

Fixpoint set_products (order : list ProductName) (ps : gmap string RHMIProductStatus) (w : W) : W :=
  match order with
  | [] => w
  | n :: order' =>
      let p := map_get zero_product ps n in
      set_products order' ps
        (gauge_Set rhoam_product_status (product_labels n p) (product_value p) w)
  end.

Definition SetProductStatus (installation : RHMI) (w : W) : W :=
  let w := gauge_Reset rhoam_product_status w in
  match omap_lookup (Stages (Status installation)) "installation" with
  | Some st =>
      let ps := make_if_nil (s_Products st) in
      set_products (range_keys w (dom ps)) ps w
  | None => w
  end.

Definition SetVersions (stage version toVersion externalID : string) (firstInstallTimestamp : Z)
    (w : W) : W :=
  let w := gauge_Reset rhoam_version w in
  let status := InstallationState version toVersion in
  gauge_Set rhoam_version [("stage", stage); ("status", status); ("version", version);
    ("to_version", toVersion); ("externalID", externalID)] firstInstallTimestamp w.

Definition SetRHOAMCluster (cluster externalID version : string) (value : Z) (w : W) : W :=
  gauge_Set rhoam_cluster [("type", cluster); ("externalID", externalID); ("version", version)] value
    (gauge_Reset rhoam_cluster w).

Definition SetQuota (quota toQuota : string) (w : W) : W :=
  gauge_Set rhoam_quota [("quota", quota); ("toQuota", toQuota)] 1 (gauge_Reset rhoam_quota w).

Definition SetCustomDomain (active : bool) (value : Z) (w : W) : W :=
  gauge_Set rhoam_custom_domain [("active", format_bool active)] value
    (gauge_Reset rhoam_custom_domain w).

(** WithLabelValues alone adds a series with the value 0; nothing sets the
    gauge to another value. *)
Definition SetInfo (i : RHMI) (w : W) : W :=
  let s := Spec i in
  gauge_Set rhoam_spec [("use_cluster_storage", UseClusterStorage s); ("master_url", MasterURL s);
    ("installation_type", Type_ s); ("operator_name", Name (rhmi_meta i));
    ("namespace", Namespace (rhmi_meta i)); ("namespace_prefix", NamespacePrefix s);
    ("operators_in_product_namespace", format_bool (OperatorsInProductNamespace s));
    ("routing_subdomain", RoutingSubdomain s); ("self_signed_certs", format_bool (SelfSignedCerts s))] 0 w.

(** Unix seconds of a creation time kept in nanoseconds. *)
Definition SetTenantsSummary (tenants : list APIManagementTenant) (w : W) : W :=
  fold_left (λ w t,
    gauge_Set tenants_summary [("tenantName", Name (tenant_meta t));
      ("tenantNamespace", Namespace (tenant_meta t));
      ("provisioningStatus", ProvisioningStatus (tenant_Status t));
      ("lastError", t_LastError (tenant_Status t))] (CreationTimestamp (tenant_meta t) / second_ns)%Z w)
    tenants (gauge_Reset tenants_summary w).

Definition portal_label (portals : gmap string PortalInfo) (k : string) : string * string :=
  (k, match portals !! k with Some p => format_bool (IsAvailable p) | None => "false" end).
(** A key other than the three label names makes With panic; the callers use
    the three. *)
Definition SetThreeScalePortals (portals : gmap string PortalInfo) (value : Z) (w : W) : W :=
  gauge_Set threescale_portals
    (portal_label portals <$> ["system_master"; "system_developer"; "system_provider"]) value
    (gauge_Reset threescale_portals w).

Definition SetThreeScaleUserAction (httpStatus : Z) (username action : string) (w : W) : W :=
  gauge_Set threescale_user_action [("username", username); ("action", action)] httpStatus w.
Definition ResetThreeScaleUserAction (w : W) : W := gauge_Reset threescale_user_action w.
Definition ResetNoActivated3ScaleTenantAccount (w : W) : W := gauge_Reset no_activated_3scale_tenant_account w.
Definition SetNoActivated3ScaleTenantAccount (username : string) (w : W) : W :=
  gauge_Set no_activated_3scale_tenant_account [("username", username)] 1 w.

Definition SetRhoamState (st : RhoamState) (w : W) : W :=
  gauge_Set rhoam_state [("status", rs_Status st); ("upgrading", format_bool (Upgrading st));
    ("version", rs_Version st)] 1 (gauge_Reset rhoam_state w).
End metrics.

Section properties.
Context {W : Type} `{PrometheusLaws W} `{MapRangeLaws W}.

Lemma series_set_products order ps (w : W) l :
  NoDup order →
  series rhoam_product_status (set_products order ps w) !! l =
  match list_find (λ n, product_labels n (map_get zero_product ps n) = l) order with
  | Some (_, n) => Some (product_value (map_get zero_product ps n))
  | None => series rhoam_product_status w !! l
  end.
Proof.
  revert w. induction order as [|n order IH]; intros w Hnd; [done|].
  apply NoDup_cons in Hnd as [Hn Hnd]. cbn [set_products list_find]. rewrite IH by done.
  rewrite series_Set. destruct (decide (product_labels n _ = l)) as [<-|Hne]; cbn.
  - destruct (list_find _ order) as [[i m]|] eqn:E; cbn; [|by rewrite lookup_insert_eq].
    apply list_find_Some in E as (Hi & Heq & _). destruct Hn.
    apply list_elem_of_lookup_2 in Hi. unfold product_labels in Heq. by simplify_eq.
  - destruct (list_find _ order) as [[i m]|]; cbn; [done|]. by rewrite lookup_insert_ne.
Qed.

(** After SetProductStatus the product gauge has exactly one series per
    product of the install stage, labelled with its phase, with value 0 when
    the product is completed and 1 otherwise, whatever it held before and in
    whatever order the products are met. *)
Theorem SetProductStatus_exact i (w : W) st ps l v :
  omap_lookup (Stages (Status i)) "installation" = Some st → s_Products st = Some ps →
  series rhoam_product_status (SetProductStatus i w) !! l = Some v ↔
  ∃ n p, ps !! n = Some p ∧ l = [("product", n); ("stage", p_Phase p)]
         ∧ v = (if bool_decide (p_Phase p = PhaseCompleted) then 0 else 1)%Z.
Proof.
  intros Hst Hps. unfold SetProductStatus. rewrite Hst, Hps. change (make_if_nil (Some ps)) with ps.
  set (w0 := gauge_Reset rhoam_product_status w). cbn zeta.
  pose proof (range_keys_perm w0 (dom ps)) as Hperm.
  assert (NoDup (range_keys w0 (dom ps))) as Hnd by (rewrite Hperm; apply NoDup_elements).
  rewrite series_set_products by done. subst w0. rewrite series_Reset, lookup_empty.
  split.
  - destruct (list_find _ _) as [[k n]|] eqn:E; [|done]. intros [= <-].
    apply list_find_Some in E as (Hi & <- & _). apply list_elem_of_lookup_2 in Hi.
    rewrite Hperm, elem_of_elements, elem_of_dom in Hi. destruct Hi as [p Hp].
    exists n, p. unfold map_get, product_labels, product_value, str_eqb. rewrite Hp. done.
  - intros (n & p & Hp & -> & ->).
    assert (n ∈ range_keys (gauge_Reset rhoam_product_status w) (dom ps)) as Hin
      by (rewrite Hperm, elem_of_elements; by eapply elem_of_dom_2).
    apply list_elem_of_lookup in Hin as [k Hk].
    destruct (list_find _ _) as [[k' n']|] eqn:E.
    + apply list_find_Some in E as (Hi & Heq & _). unfold product_labels in Heq.
      injection Heq as -> _. unfold map_get. by rewrite Hp.
    + exfalso. eapply list_find_None in E. rewrite Forall_forall in E.
      apply (E n); [by eapply list_elem_of_lookup_2|]. unfold map_get, product_labels. by rewrite Hp.
Qed.
End properties.

(** The exported state is that of the installation: completed exactly
    in the complete stage, upgrading exactly when a version is installed and
    another one is being moved to, and the version in it is the installed one
    if there is one. The state text agrees with it. *)
Theorem GetRhoamState_spec i :
  ∃ s, GetRhoamState (Some i) = (s, None)
  ∧ (rs_Status s = PhaseCompleted ↔ Stage_ (Status i) = CompleteStage)
  ∧ (Upgrading s = true ↔ InstallationState (Version (Status i)) (ToVersion (Status i)) = "Upgrading")
  ∧ (IsInstalled i = true → rs_Version s = Version (Status i))
  ∧ (IsInstalled i = false → rs_Version s = ToVersion (Status i)).
Proof.
  unfold GetRhoamState, IsInstalled, InstallationState. eexists. split; [done|]. cbn.
  split_and!.
  - destruct (_ =?s CompleteStage) eqn:E; [apply str_eqb_true in E|apply str_eqb_false in E];
      split; done.
  - destruct (Version _ =?s ""), (ToVersion _ =?s ""); done.
  - by destruct (Version _ =?s "").
  - destruct (Version _ =?s ""); [done|discriminate].
Qed.

(** A registry that is the map of its series. *)
Definition Registry : Type := gmap string (gmap LabelSet Z).
#[export] Instance registry_prometheus : Prometheus Registry := {|
  gauge_Reset g w := <[g := ∅]> w;
  gauge_Set g l v w := <[g := <[l := v]> (default ∅ (w !! g))]> w;
|}.
#[export] Instance registry_laws : PrometheusLaws Registry.
Proof.
  refine {| series g w := default ∅ (w !! g) |}; intros; cbn; unfold Registry in *; by simplify_map_eq.
Defined.

Definition example_install_stage : RHMIStageStatus :=
  mkStageStatus InstallStage PhaseInProgress
    (Some {[ "3scale" := set_p_Phase PhaseCompleted zero_product;
             "rhsso" := set_p_Phase PhaseFailed zero_product ]}).

#[export] Instance registry_range : MapRange Registry := λ _ X, elements X.
#[export] Instance registry_range_laws : MapRangeLaws Registry.
Proof. intros w X. reflexivity. Qed.

Definition example_rhmi : RHMI :=
  on_status (λ s, set_Stages s (Some {["installation" := example_install_stage]})) zero_RHMI.

Lemma SetProductStatus_exact_witness :
  series rhoam_product_status (SetProductStatus example_rhmi (∅ : Registry))
    !! [("product", "rhsso"); ("stage", "failed")] = Some 1%Z.
Proof.
  apply (SetProductStatus_exact example_rhmi (∅ : Registry) example_install_stage
    {[ "3scale" := set_p_Phase PhaseCompleted zero_product;
       "rhsso" := set_p_Phase PhaseFailed zero_product ]}); [reflexivity|reflexivity|].
  exists "rhsso", (set_p_Phase PhaseFailed zero_product). split; [reflexivity|].
  split; reflexivity.
Defined.
