(* ===== verification/Custom.v ===== *)
(** * Settings a customer may give

    pkg/resources/custom-smtp, pkg/resources/custom-domain and
    pkg/resources/smtp.go: an SMTP server and a routing domain of the
    customer's own, read from the add-on parameters. *)

From stdpp Require Import base list strings gmap.
From Stdlib Require Import ZArith Lia Ascii.
From S2P Require Import Prelude Numbers Kube Api Resources Olm Quota Pods RateLimit Cluster Addon Metrics.

(** ** custom-smtp.go *)

Definition Valid : string := "valid".
Definition Partial : string := "partial".
Definition Blank : string := "blank".
Definition CustomSecret : string := "custom-smtp".

Record CustomSmtp := mkCustomSmtp {
  FromAddress : string; Address : string; Password : string; Port : string; smtp_Username : string }.

Definition smtp_of_parameters (data : option (gmap string string)) : CustomSmtp :=
  let value k := default "" (omap_lookup data k) in
  mkCustomSmtp (value "custom-smtp-from_address") (value "custom-smtp-address")
    (value "custom-smtp-password") (value "custom-smtp-port") (value "custom-smtp-username").

(** The mandatory fields with the names ParameterErrors gives them. *)
Definition smtp_fields (s : CustomSmtp) : list (string * string) :=
  [("Port, ", Port s); ("Address, ", Address s); ("username, ", smtp_Username s);
   ("From_Address, ", FromAddress s); ("Password, ", Password s)].

Definition ParameterValidation (s : CustomSmtp) : string :=
  let valid := existsb (λ f, negb (f.2 =?s "")) (smtp_fields s) in
  let partial := existsb (λ f, f.2 =?s "") (smtp_fields s) in
  if valid && negb partial then Valid else if valid && partial then Partial else Blank.

Definition ParameterErrors (s : CustomSmtp) : string :=
  fold_left (λ message f, if f.2 =?s "" then message +:+ f.1 else message) (smtp_fields s) "".

Section smtp.
Context {W : Type} `{Client W Secret}.

Definition GetCustomAddonValues `{Client W Subscription} (c : KClient) (namespace : string)
    : M W (error + CustomSmtp) :=
  secret ← GetAddonParametersSecret c namespace;
  mret (match secret with
        | inl e => inl e
        | inr secret => inr (smtp_of_parameters (sec_Data secret))
        end).

Definition smtp_secret_data (s : CustomSmtp) (data : option (gmap string string)) : gmap string string :=
  <["username" := smtp_Username s]> (<["port" := Port s]> (<["password" := Password s]>
  (<["host" := Address s]> (<["from_address" := FromAddress s]> (make_if_nil data))))).

(** [None] is a nil pointer. *)
Definition CreateOrUpdateCustomSMTPSecret (c : KClient) (s : option CustomSmtp) (namespace : string)
    : M W (StatusPhase * option error) :=
  match s with
  | None => mret (PhaseFailed, Some (ErrStr "nill pointer passed for smtp details"))
  | Some s =>
      '(_, (_, err)) ← CreateOrUpdate c (mkSecret (named namespace CustomSecret) None)
        (λ x, mret (with_sec_Data x (Some (smtp_secret_data s (sec_Data x))), None));
      match err with
      | Some e => mret (PhaseFailed, Some e)
      | None => mret (PhaseCompleted, None)
      end
  end.

Definition DeleteCustomSMTP (c : KClient) (namespace : string) : M W (StatusPhase * option error) :=
  got ← client_get (O := Secret) c namespace CustomSecret;
  match got with
  | inl e => if IsNotFound (Some e) then mret (PhaseCompleted, None) else mret (PhaseFailed, Some e)
  | inr secret =>
      err ← client_delete c secret;
      match err with
      | Some e => mret (PhaseFailed, Some e)
      | None => mret (PhaseCompleted, None)
      end
  end.

Definition GetFromAddress (c : KClient) (namespace : string) : M W (error + string) :=
  got ← client_get (O := Secret) c namespace CustomSecret;
  mret (match got with
        | inl e => inl e
        | inr secret => inr (omap_get "" (sec_Data secret) "from_address")
        end).

(** smtp.go; [None] is a nil installation. *)
Definition GetSMTPFromAddress `{OsEnv W} (c : KClient) (installation : option RHMI)
    : M W (error + string) :=
  match installation with
  | None => mret (inl (ErrStr "nil pointer passed for installation"))
  | Some i =>
      if IsRHOAMMultitenant (Type_ (Spec i)) then mret (inr "test@rhmw.io")
      else
        existing ← (if match Api.CustomSmtp (Status i) with Some s => smtp_Enabled s | None => false end
                    then GetFromAddress c (Namespace (rhmi_meta i))
                    else mret (inr (AlertFromAddress (Spec i))));
        match existing with
        | inl e => mret (inl e)
        | inr existing =>
            if existing =?s "" then v ← reads (Getenv EnvKeyAlertSMTPFrom); mret (inr v)
            else mret (inr existing)
        end
  end.
End smtp.

(** ** custom-domain.go *)

Definition CustomDomainDomain : string := "custom-domain_domain".

(** net/url.ParseRequestURI: the host of a URL it accepts. *)
Class UrlParser := url_ParseRequestURI_Host : string → option string.
(** net.LookupIP and net.ParseIP *)
Class Net (W : Type) := {
  IP : Type;
  LookupIP : string → M W (error + list IP);
  ParseIP : string → IP;
}.

(** customdomainv1alpha1.CustomDomain and operatorv1.IngressController *)
Record CustomDomainCR := mkCustomDomain { cd_meta : ObjectMeta; cd_Domain : string; cd_State : string }.
Definition CustomDomainStateReady : string := "Ready".
Record IngressController := mkIngressController {
  ic_meta : ObjectMeta; ic_Domain : string; ic_Conditions : list (string * string) }.

(** strings.TrimSpace on ASCII *)
Definition is_space (c : ascii) : bool :=
  let n := nat_of_ascii c in ((9 <=? n) && (n <=? 13)) || (n =? 32).
Fixpoint trim_left (s : string) : string :=
  match s with
  | EmptyString => EmptyString
  | String c s' => if is_space c then trim_left s' else s
  end.
Definition trim_space (s : string) : string := str_rev (trim_left (str_rev (trim_left s))).

Definition IsValidDomain `{UrlParser} (domain : string) : bool :=
  if domain =?s "" then false
  else match url_ParseRequestURI_Host ("https://" +:+ domain +:+ "/") with
       | Some host => host =?s domain
       | None => false
       end.

Section domain.
Context {W : Type} `{UrlParser}.

Definition GetDomain `{Client W Secret} `{Client W Subscription} (c : KClient) (installation : option RHMI)
    : M W (bool * string * option error) :=
  match installation with
  | None => mret (false, "", Some (ErrStr "nil pointer passed in for installation parameter"))
  | Some i =>
      '(parameter, ok, err) ← GetStringParameter c (Namespace (rhmi_meta i)) CustomDomainDomain;
      match err with
      | Some e => mret (false, "", Some e)
      | None =>
          if (ok : bool) then
            let parameter := trim_space parameter in
            if IsValidDomain parameter then mret (true, parameter, None)
            else mret (true, parameter,
                       Some (ErrStr ("not valid domain " +:+ dquote +:+ parameter +:+ dquote)))
          else mret (false, "", None)
      end
  end.

Definition invalid_domain (domain : string) : error :=
  ErrStr ("invalid domain string passed: " +:+ dquote +:+ domain +:+ dquote).

Definition HasValidCustomDomainCR `{Client W CustomDomainCR} (c : KClient) (domain : string)
    : M W (bool * string * option error) :=
  if negb (IsValidDomain domain) then mret (false, "", Some (invalid_domain domain))
  else
    ls ← client_list (O := CustomDomainCR) c list_all;
    match ls with
    | inl e => mret (false, "", Some e)
    | inr items =>
        match List.find (λ i, cd_Domain i =?s domain) items with
        | Some item =>
            if cd_State item =?s CustomDomainStateReady then mret (true, Name (cd_meta item), None)
            else mret (false, Name (cd_meta item), Some (ErrStr
                         ("custom domain CR in failing state for: " +:+ dquote +:+ domain +:+ dquote)))
        | None => mret (false, "", Some (ErrStr
                    ("no custom domain CR found for: " +:+ dquote +:+ domain +:+ dquote)))
        end
    end.

Definition ingress_available (i : IngressController) : bool :=
  existsb (λ c, (c.1 =?s "Available") && (c.2 =?s "True")) (ic_Conditions i).
Definition ingress_result (domain : string) (i : IngressController) : bool * option error :=
  if ingress_available i then (true, None)
  else (false, Some (ErrStr ("ingress controller CR in failing state for: " +:+ dquote +:+ domain +:+ dquote))).

Definition HasValidIngressControllerCR `{Client W IngressController} (c : KClient)
    (customDomainName domain : string) : M W (bool * option error) :=
  if negb (IsValidDomain domain) then mret (false, Some (invalid_domain domain))
  else if customDomainName =?s "" then
    ls ← client_list (O := IngressController) c list_all;
    match ls with
    | inl e => mret (false, Some e)
    | inr items =>
        match List.find (λ i, ic_Domain i =?s domain) items with
        | Some item => mret (ingress_result domain item)
        | None => mret (false, Some (ErrStr
                    ("no ingress controller CR found for: " +:+ dquote +:+ domain +:+ dquote)))
        end
    end
  else
    got ← client_get (O := IngressController) c "openshift-ingress-operator" customDomainName;
    mret (match got with
          | inl e => (false, Some e)
          | inr item => ingress_result domain item
          end).

(** Writing to a nil status panics. *)
Definition UpdateErrorAndCustomDomainMetric `{Prometheus W} (i : RHMI) (active : bool)
    (err : option error) : M W RHMI :=
  match CustomDomain (Status i) with
  | None => panic "nil pointer dereference"
  | Some d =>
      let '(text, value) := match err with Some e => (error_msg e, 1%Z) | None => ("", 0%Z) end in
      modifies (SetCustomDomain active value);;
      mret (on_status (λ st, set_CustomDomain st (Some (mkCustomDomainStatus (domain_Enabled d) text))) i)
  end.

Definition GetIngressRouterService `{Client W Service} (c : KClient) (svcName : string)
    : M W (error + Service) := client_get c "openshift-ingress" svcName.

Definition GetIngressRouterIPs `{Net W} (ingress : list LoadBalancerIngress) : M W (error + list IP) :=
  match ingress with
  | [] => panic "index out of range"
  | first :: _ =>
      let hostname := lb_Hostname first in
      if negb (hostname =?s "") then
        ips ← LookupIP hostname;
        mret (match ips with
              | inl e => inl (errorf_v ("unable to perform ip lookup for hostname " +:+ hostname +:+ ": ") (Some e))
              | inr ips => inr ips
              end)
      else mret (inr (map (λ i, ParseIP (lb_IP i)) ingress))
  end.

Definition IsCustomDomain (i : RHMI) : bool :=
  match CustomDomain (Status i) with Some d => domain_Enabled d | None => false end.
End domain.

(** ** Facts *)

(** The parameters are valid when all fields are given, blank when none is,
    partial otherwise; the errors name exactly the fields that are missing. *)
Lemma ParameterValidation_spec s :
  (ParameterValidation s = Valid ↔ Forall (λ f, f.2 ≠ "") (smtp_fields s))
  ∧ (ParameterValidation s = Blank ↔ Forall (λ f, f.2 = "") (smtp_fields s))
  ∧ (ParameterErrors s = "" ↔ ParameterValidation s = Valid).
Proof.
  destruct s as [f a p o u]. unfold ParameterValidation, ParameterErrors, smtp_fields.
  cbn [Port Address smtp_Username FromAddress Password existsb fold_left fst snd].
  rewrite !Forall_cons, !Forall_nil. cbn [snd].
  destruct (o =?s "") eqn:Eo, (a =?s "") eqn:Ea, (u =?s "") eqn:Eu, (f =?s "") eqn:Ef, (p =?s "") eqn:Ep;
    rewrite ?str_eqb_true, ?str_eqb_false in *; cbn; split_and!; split; intros; destruct_and?; done.
Qed.

(** GetFromAddress reads what CreateOrUpdateCustomSMTPSecret writes. *)
Lemma smtp_secret_from_address s data :
  smtp_secret_data s data !! "from_address" = Some (FromAddress s).
Proof. unfold smtp_secret_data. by simplify_map_eq. Qed.
