(* ===== verification/ProductAlerts.v ===== *)
(** * Alerts of the products

    prometheusRules.go of 3scale, the two single sign-on products, Grafana
    and the cloud resource operator: one definition for each
    AlertConfiguration, and the reconciler they are handed to.  The durations
    are constants that time.ParseDuration accepts. *)

From stdpp Require Import base list strings gmap.
From Stdlib Require Import ZArith Lia Ascii QArith.
From S2P Require Import Prelude Kube Api Resources Numbers Olm Config Addon Cro Cluster Alerts CloudAlerts UsageAlerts OboAlerts.
From S2P Require Import Metrics Custom.
#[local] Open Scope Z_scope.

(** ** 3scale *)

(** GetContainerCPUMetric of pkg/metrics/metrics.go *)
Definition GetContainerCPUMetric {W} `{Client W ClusterVersion} `{FloatParse} (c : KClient)
    : M W (error + string) :=
  '(before49, err) ← ClusterVersionBefore49 c;
  mret (match err with
        | Some e => inl e
        | None => inr (if (before49 : bool)
                       then "node_namespace_pod_container:container_cpu_usage_seconds_total:sum_rate"
                       else "node_namespace_pod_container:container_cpu_usage_seconds_total:sum_irate")
        end).

Definition alertThreeScaleContainerHighMemory (installationName namespace : string) : Rule :=
  rule "ThreeScaleContainerHighMemory"
      [("sop_url", SopUrlAlertsAndTroubleshooting); ("message", "The {{  $labels.container  }} Container in the {{  $labels.pod  }} Pod has been using {{  $value  }}% of available memory for longer than 15 minutes.")]
      ("sum by(container, pod) (container_memory_usage_bytes{container!='', container!='system-provider', namespace='" +:+ namespace +:+ "'}) / sum by(container, pod) (kube_pod_container_resource_limits{namespace='" +:+ namespace +:+ "',resource='memory'}) * 100 > 90")
      (Some "15m") [("severity", "info"); ("product", installationName)].

Definition threescale_ksm_endpoint (installationName ns namespace : string) : AlertConfiguration :=
  mkAlertConfiguration "3scale-ksm-endpoint-alerts" " 3scale-endpoint.rules" namespace "" (OboRules [
   rule "RHOAMThreeScaleApicastProductionServiceEndpointDown"
      [("sop_url", SopUrlRHOAMThreeScaleApicastProductionServiceEndpointDown); ("message", "No {{  $labels.endpoint  }} endpoints in namespace " +:+ ns +:+ ". Expected at least 1.")]
      ("absent(kube_endpoint_address{endpoint='apicast-production', namespace='" +:+ ns +:+ "'})")
      (Some "5m") [("severity", "critical"); ("product", installationName)];
   rule "RHOAMThreeScaleApicastStagingServiceEndpointDown"
      [("sop_url", SopUrlRHOAMThreeScaleApicastStagingServiceEndpointDown); ("message", "No {{  $labels.endpoint  }} endpoints in namespace " +:+ ns +:+ ". Expected at least 1.")]
      ("absent(kube_endpoint_address{endpoint='apicast-staging', namespace='" +:+ ns +:+ "'})")
      (Some "5m") [("severity", "critical"); ("product", installationName)];
   rule "RHOAMThreeScaleBackendListenerServiceEndpointDown"
      [("sop_url", SopUrlRHOAMThreeScaleBackendListenerServiceEndpointDown); ("message", "No {{  $labels.endpoint  }} endpoints in namespace " +:+ ns +:+ ". Expected at least 1.")]
      ("absent(kube_endpoint_address{endpoint='backend-listener', namespace='" +:+ ns +:+ "'})")
      (Some "5m") [("severity", "critical"); ("product", installationName)];
   rule "RHOAMThreeScaleSystemDeveloperServiceEndpointDown"
      [("sop_url", SopUrlEndpointAvailableAlert); ("message", "No {{  $labels.endpoint  }} endpoints in namespace " +:+ ns +:+ ". Expected at least 1.")]
      ("absent(kube_endpoint_address{endpoint='system-developer', namespace='" +:+ ns +:+ "'})")
      (Some "5m") [("severity", "warning"); ("product", installationName)];
   rule "RHOAMThreeScaleSystemMasterServiceEndpointDown"
      [("sop_url", SopUrlEndpointAvailableAlert); ("message", "No {{  $labels.endpoint  }} endpoints in namespace " +:+ ns +:+ ". Expected at least 1.")]
      ("absent(kube_endpoint_address{endpoint='system-master', namespace='" +:+ ns +:+ "'})")
      (Some "5m") [("severity", "warning"); ("product", installationName)];
   rule "RHOAMThreeScaleSystemMemcacheServiceEndpointDown"
      [("sop_url", SopUrlEndpointAvailableAlert); ("message", "No {{  $labels.endpoint  }} endpoints in namespace " +:+ ns +:+ ". Expected at least 1.")]
      ("absent(kube_endpoint_address{endpoint='system-memcache', namespace='" +:+ ns +:+ "'})")
      (Some "5m") [("severity", "warning"); ("product", installationName)];
   rule "RHOAMThreeScaleSystemProviderServiceEndpointDown"
      [("sop_url", SopUrlEndpointAvailableAlert); ("message", "No endpoints available for the {{  $labels.endpoint  }} service in the " +:+ ns +:+ " namespace")]
      ("absent(kube_endpoint_address{endpoint='system-provider', namespace='" +:+ ns +:+ "'})")
      (Some "5m") [("severity", "warning"); ("product", installationName)];
   rule "RHOAMThreeScaleSystemSearchdServiceEndpointDown"
      [("sop_url", SopUrlEndpointAvailableAlert); ("message", "No endpoints available for the {{  $labels.endpoint  }} service in the " +:+ ns +:+ " namespace")]
      ("absent(kube_endpoint_address{endpoint='system-searchd', namespace='" +:+ ns +:+ "'})")
      (Some "5m") [("severity", "warning"); ("product", installationName)];
   rule "RHOAMThreeScaleZyncServiceEndpointDown"
      [("sop_url", SopUrlRHOAMThreeScaleZyncServiceEndpointDown); ("message", "No endpoints available for the {{  $labels.endpoint  }} service in the " +:+ ns +:+ " namespace")]
      ("absent(kube_endpoint_address{endpoint='zync', namespace='" +:+ ns +:+ "'})")
      (Some "5m") [("severity", "critical"); ("product", installationName)];
   rule "RHOAMThreeScaleZyncDatabaseServiceEndpointDown"
      [("sop_url", SopUrlRHOAMThreeScaleZyncDatabaseServiceEndpointDown); ("message", "No endpoints available for the {{  $labels.endpoint  }} service in the " +:+ ns +:+ " namespace")]
      ("absent(kube_endpoint_address{endpoint='zync-database', namespace='" +:+ ns +:+ "'})")
      (Some "5m") [("severity", "critical"); ("product", installationName)]]).

Definition threescale_operator_ksm_endpoint (installationName operatorNs namespace : string) : AlertConfiguration :=
  mkAlertConfiguration "3scale-operator-ksm-endpoint-alerts" " 3scale-operator-endpoint.rules" namespace "" (OboRules [
   rule "RHOAMThreeScaleOperatorRhmiRegistryCsServiceEndpointDown"
      [("sop_url", SopUrlEndpointAvailableAlert); ("message", "No {{  $labels.endpoint  }} endpoints in namespace " +:+ operatorNs +:+ ". Expected at least 1.")]
      ("absent(kube_endpoint_address{endpoint='rhmi-registry-cs', namespace='" +:+ operatorNs +:+ "'})")
      (Some "5m") [("severity", "warning"); ("product", installationName)];
   rule "RHOAMThreeScaleOperatorServiceEndpointDown"
      [("sop_url", SopUrlEndpointAvailableAlert); ("message", "No {{  $labels.endpoint  }} endpoints in namespace " +:+ operatorNs +:+ ". Expected at least 1.")]
      ("absent(kube_endpoint_address{endpoint='threescale-operator-controller-manager-metrics-service', namespace='" +:+ operatorNs +:+ "'})")
      (Some "5m") [("severity", "warning"); ("product", installationName)]]).

Definition threescale_user (namespace : string) : AlertConfiguration :=
  mkAlertConfiguration "3scale-ksm-3scale-user-alerts" "general.rules" namespace "" (OboRules [
   rule "ThreeScaleUserCreationFailed"
      [("message", "3Scale user creation failed for user {{  $labels.username  }}")]
      "threescale_user_action{action='POST'} != 201"
      None [("severity", "warning")];
   rule "ThreeScaleUserDeletionFailed"
      [("message", "3Scale user deletion failed for user {{  $labels.username  }}")]
      "threescale_user_action{action='DELETE'} != 200"
      None [("severity", "warning")]]).

Definition threescale_ksm (installationName ns namespace containerCpuMetric zyncApp zyncQue : string) : AlertConfiguration :=
  mkAlertConfiguration "3scale-ksm-3scale-alerts" "general.rules" namespace "" (OboRules [
   rule "ThreeScaleApicastStagingPod"
      [("sop_url", SopUrlAlertsAndTroubleshooting); ("message", "3Scale apicast-staging has no pods in a ready state.")]
      ("sum(kube_pod_status_ready{condition='true',namespace='" +:+ ns +:+ "', pod=~'apicast-staging.*'} * on(pod, namespace) group_left() kube_pod_status_phase{phase='Running'}) < 1")
      (Some "5m") [("severity", "warning"); ("product", installationName)];
   rule "ThreeScaleApicastProductionPod"
      [("sop_url", SopUrlApicastProductionPodsDown); ("message", "3Scale apicast-production has no pods in a ready state.")]
      ("sum(kube_pod_status_ready{condition='true',namespace='" +:+ ns +:+ "', pod=~'apicast-production.*'} * on(pod, namespace) group_left() kube_pod_status_phase{phase='Running'}) < 1")
      (Some "15m") [("severity", "critical"); ("product", installationName)];
   rule "ThreeScaleBackendWorkerPod"
      [("sop_url", SopUrlThreeScaleBackendWorkerPod); ("message", "3Scale backend-worker has no pods in a ready state.")]
      ("sum(kube_pod_status_ready{condition='true',namespace='" +:+ ns +:+ "', pod=~'backend-worker.*'} * on(pod, namespace) group_left() kube_pod_status_phase{phase='Running'}) < 1")
      (Some "5m") [("severity", "critical"); ("product", installationName)];
   rule "ThreeScaleBackendListenerPod"
      [("sop_url", SopUrlAlertsAndTroubleshooting); ("message", "3Scale backend-listener has no pods in a ready state")]
      ("sum(kube_pod_status_ready{condition='true',namespace='" +:+ ns +:+ "', pod=~'backend-listener.*'} * on(pod, namespace) group_left() kube_pod_status_phase{phase='Running'}) < 1")
      (Some "15m") [("severity", "critical"); ("product", installationName)];
   rule "ThreeScaleSystemAppPod"
      [("sop_url", SopUrlSystemAppPodsDown); ("message", "3Scale system-app has no pods in a ready state.")]
      ("sum(kube_pod_status_ready{condition='true', namespace='" +:+ ns +:+ "', pod=~'system-app.*'} * on(pod, namespace) group_left() kube_pod_status_phase{phase='Running'}) < 1")
      (Some "15m") [("severity", "critical"); ("product", installationName)];
   rule "ThreeScaleAdminUIBBT"
      [("sop_url", SopUrlThreeScaleAdminUIBBT); ("message", "3Scale Admin UI Blackbox Target: If this console is unavailable, the client is unable to configure or administer their API setup.")]
      "probe_success{job='blackbox', service='3scale-admin-ui'} != 1"
      (Some "5m") [("severity", "warning"); ("product", installationName)];
   rule "ThreeScaleDeveloperUIBBT"
      [("sop_url", SopUrlThreeScaleDeveloperUIBBT); ("message", "3Scale Developer UI Blackbox Target: If this console is unavailable, the clients developers are unable signup or perform API management.")]
      "probe_success{job='blackbox',service='3scale-developer-console-ui'} != 1"
      (Some "5m") [("severity", "warning"); ("product", installationName)];
   rule "ThreeScaleSystemAdminUIBBT"
      [("sop_url", SopUrlThreeScaleSystemAdminUIBBT); ("message", "3Scale System Admin UI Blackbox Target: If this console is unavailable, the client is unable to perform Account Management,Analytics or Billing.")]
      "probe_success{job='blackbox', service='3scale-system-admin-ui'} == 0 and up{job='blackbox', service='3scale-system-admin-ui'} ==1"
      (Some "5m") [("severity", "warning"); ("product", installationName)];
   rule "ThreeScaleZyncPodAvailability"
      [("sop_url", SopUrlAlertsAndTroubleshooting); ("message", "3Scale Zync has no pods in a ready state. Expected number of pods for zync: " +:+ zyncApp +:+ ", and for zync-que: " +:+ zyncQue +:+ ".")]
      ("sum(kube_pod_status_ready{condition='true', namespace='" +:+ ns +:+ "', pod=~'zync.*', pod!~'zync-database-.*'} * on(pod, namespace) group_left() kube_pod_status_phase{phase='Running'}) < 1")
      (Some "15m") [("severity", "critical"); ("product", installationName)];
   rule "ThreeScaleZyncDatabasePodAvailability"
      [("sop_url", SopUrlAlertsAndTroubleshooting); ("message", "3Scale Zync-database has no pods in a ready state. Expected a minimum of 1 pod.")]
      ("sum(kube_pod_status_ready{condition='true', namespace='" +:+ ns +:+ "', pod=~'zync-database.*'} * on(pod, namespace) group_left() kube_pod_status_phase{phase='Running'}) < 1")
      (Some "15m") [("severity", "critical"); ("product", installationName)];
   alertThreeScaleContainerHighMemory installationName ns;
   rule "ThreeScaleContainerHighCPU"
      [("sop_url", SopUrlAlertsAndTroubleshooting); ("message", "The {{  $labels.container  }} Container in the {{  $labels.pod }} Pod has been using {{  $value  }}% of available CPU for longer than 15 minutes.")]
      ("sum(" +:+ containerCpuMetric +:+ "{namespace='" +:+ ns +:+ "'}) by (container, pod) / sum(kube_pod_container_resource_requests{namespace='" +:+ ns +:+ "', resource='cpu'}) by (container, pod) * 100 > 90")
      (Some "15m") [("severity", "warning"); ("product", installationName)];
   rule "ThreescaleApicastWorkerRestart"
      [("summary", "A new worker process in Nginx has been started"); ("description", "A new thread has been started. This could indicate that a worker process has died due to the memory limits being exceeded. Please investigate the memory pressure on pod (instance {{ $labels.instance }})"); ("sop_url", "https://github.com/3scale/3scale-Operations/blob/master/sops/alerts/apicast_worker_restart.adoc")]
      ("changes(worker_process{kubernetes_namespace='" +:+ ns +:+ "', kubernetes_pod_name=~'apicast-production.*'}[5m]) > 0")
      (Some "5m") [("severity", "critical"); ("product", installationName)]]).

Definition threescale_missing_metrics (installationName namespace missingMetricsExpr : string) : AlertConfiguration :=
  mkAlertConfiguration (installationName +:+ "-missing-metrics") (installationName +:+ "-general.rules") namespace "" (OboRules [
   rule ((to_upper installationName) +:+ "ThreescaleCriticalMetricsMissing")
      [("sop_url", SopUrlCriticalMetricsMissing); ("message", "one or more critical metrics have been missing for 10+ minutes")]
      missingMetricsExpr
      (Some "30m") [("severity", "critical")]]).

Definition threescale_custom_domain (installationName namespace : string) : AlertConfiguration :=
  mkAlertConfiguration (installationName +:+ "-custom-domain-alert") (installationName +:+ "-custom-domaim.rules") namespace "" (OboRules [
   rule "CustomDomainCRErrorState"
      [("sop_url", SopUrlRHOAMServiceDefinition); ("message", "Error configuring custom domain, please refer to the documentation to resolve the error.")]
      (installationName +:+ "_custom_domain{active='true'} > 0")
      (Some "5m") [("severity", "warning"); ("product", installationName)];
   rule "DnsBypassThreeScaleAdminUI"
      [("sop_url", SopUrlDnsBypassThreeScaleAdminUI); ("message", "3Scale Admin UI, bypassing DNS: If this console is unavailable, the client is unable to configure or administer their API setup.")]
      "threescale_portals{system_master='false'} > 0"
      (Some "15m") [("severity", "critical"); ("product", installationName)];
   rule "DnsBypassThreeScaleDeveloperUI"
      [("sop_url", SopUrlDnsBypassThreeScaleDeveloperUI); ("message", "3Scale Developer UI, bypassing DNS: If this console is unavailable, the client developers are unable signup or perform API management.")]
      "threescale_portals{system_developer='false'} > 0"
      (Some "15m") [("severity", "critical"); ("product", installationName)];
   rule "DnsBypassThreeScaleSystemAdminUI"
      [("sop_url", SopUrlDnsBypassThreeScaleSystemAdminUI); ("message", "3Scale System Admin UI, bypassing DNS: If this console is unavailable, the client is unable to perform Account Management, Analytics or Billing.")]
      "threescale_portals{system_provider='false'} > 0"
      (Some "15m") [("severity", "critical"); ("product", installationName)]]).

Definition threescale_missing_expr (installation : RHMI) (installationName : string) : string :=
  if IsCustomDomain installation
  then "absent(threescale_portals) OR absent(" +:+ installationName +:+ "_custom_domain) == 1"
  else "absent(threescale_portals) == 1".

Definition threescale_alerts (installation : RHMI) (installationName ns operatorNs namespace containerCpuMetric : string)
    : list AlertConfiguration :=
  let missingMetricsExpr := threescale_missing_expr installation installationName in
  let replicas := ThreeScale.GetReplicasConfig installation in
  let zyncApp := itoa (map_get 0 replicas "zyncApp") in
  let zyncQue := itoa (map_get 0 replicas "zyncQue") in
     [threescale_ksm_endpoint installationName ns namespace;
      threescale_operator_ksm_endpoint installationName operatorNs namespace;
      threescale_user namespace;
      threescale_ksm installationName ns namespace containerCpuMetric zyncApp zyncQue;
      threescale_missing_metrics installationName namespace missingMetricsExpr;
      threescale_custom_domain installationName namespace].

Definition threescale_newAlertReconciler {W} `{Client W ClusterVersion} `{FloatParse}
    (installation : RHMI) (cfg : ThreeScale.t) (installType namespace : string) (c : KClient)
    : M W (error + AlertReconcilerImpl) :=
  metric ← GetContainerCPUMetric c;
  mret (match metric with
        | inl e => inl e
        | inr containerCpuMetric =>
            let installationName := map_get "" InstallationNames installType in
            inr (mkAlertReconciler "3scale" installation
              (threescale_alerts installation installationName (ThreeScale.GetNamespace cfg)
                 (ThreeScale.GetOperatorNamespace cfg) namespace containerCpuMetric) [])
        end).

(** *** envoy_prometheusRules.go *)

Definition threescale_envoy_ksm_marin3r (installationName ns namespace : string) : AlertConfiguration :=
  mkAlertConfiguration "3scale-ksm-marin3r-alerts" "general.rules" namespace "" (OboRules [
   rule "Marin3rEnvoyApicastStagingContainerDown"
      [("sop_url", SopUrlMarin3rEnvoyApicastStagingContainerDown); ("message", "3Scale apicast-staging pods have no ratelimiting sidecar container attached.")]
      ("(sum(kube_pod_container_status_ready{container='envoy-sidecar'} * on (pod,namespace) kube_pod_labels{label_deployment='apicast-staging',namespace='" +:+ ns +:+ "'})) < 1")
      (Some "5m") [("severity", "critical"); ("product", installationName)];
   rule "Marin3rEnvoyApicastProductionContainerDown"
      [("sop_url", SopUrlMarin3rEnvoyApicastProductionContainerDown); ("message", "3Scale apicast-production pods have no ratelimiting sidecar container attached.")]
      ("(sum(kube_pod_container_status_ready{container='envoy-sidecar'} * on (pod,namespace) kube_pod_labels{label_deployment='apicast-production',namespace='" +:+ ns +:+ "'})) < 1")
      (Some "5m") [("severity", "critical"); ("product", installationName)]]).

Definition newEnvoyAlertReconciler (installation : RHMI) (cfg : ThreeScale.t)
    (installType namespace : string) : AlertReconcilerImpl :=
  let installationName := map_get "" InstallationNames installType in
  let ns := ThreeScale.GetNamespace cfg in
  mkAlertReconciler "3scale" installation [threescale_envoy_ksm_marin3r installationName ns namespace] [].

(** ** Single sign-on of the operator *)

Definition rhsso_ksm_endpoint (installationName ns namespace : string) : AlertConfiguration :=
  mkAlertConfiguration "rhsso-ksm-endpoint-alerts" "rhsso-endpoint.rules" namespace "" (OboRules [
   rule "RHOAMRhssoKeycloakServiceEndpointDown"
      [("sop_url", SopUrlEndpointAvailableAlert); ("message", "No {{  $labels.endpoint  }} endpoints in namespace " +:+ ns +:+ ". Expected at least 1.")]
      ("absent(kube_endpoint_address{endpoint='keycloak', namespace='" +:+ ns +:+ "'})")
      (Some "5m") [("severity", "warning"); ("product", installationName)];
   rule "RHOAMRhssoKeycloakDiscoveryServiceEndpointDown"
      [("sop_url", SopUrlEndpointAvailableAlert); ("message", "No {{  $labels.endpoint  }} endpoints in namespace " +:+ ns +:+ ". Expected at least 1.")]
      ("absent(kube_endpoint_address{endpoint='keycloak-discovery', namespace='" +:+ ns +:+ "'})")
      (Some "5m") [("severity", "warning"); ("product", installationName)]]).

Definition rhsso_general (installationName ns namespace : string) : AlertConfiguration :=
  mkAlertConfiguration "rhsso-general" "rhoam-general-rhsso.rules" namespace "" (OboRules [
   rule "KeycloakInstanceNotAvailable"
      [("sop_url", SopUrlKeycloakInstanceNotAvailable); ("message", "Keycloak instance in namespace " +:+ ns +:+ " has not been available for the last 5 minutes.")]
      ("sum(kube_pod_status_ready{condition=" +:+ quoted "true" +:+ ",namespace=" +:+ quoted ns +:+ ",pod=~" +:+ quoted "keycloak.*" +:+ "} * on(pod, namespace) group_left() kube_pod_status_phase{phase=" +:+ quoted "Running" +:+ ",namespace=" +:+ quoted ns +:+ "}) < 1 OR absent(kube_pod_status_ready{condition=" +:+ quoted "true" +:+ ",namespace=" +:+ quoted ns +:+ ",pod=~" +:+ quoted "keycloak.*" +:+ "})")
      (Some "5m") [("severity", "critical"); ("route", "keycloak"); ("service", "keycloak"); ("product", installationName)]]).

Definition rhsso_operator_ksm_endpoint (installationName operatorNs namespace : string) : AlertConfiguration :=
  mkAlertConfiguration "rhsso-operator-ksm-endpoint-alerts" "rhsso-operator-endpoint.rules" namespace "" (OboRules [
   rule "RHOAMRhssoKeycloakOperatorRhmiRegistryCsServiceEndpointDown"
      [("sop_url", SopUrlEndpointAvailableAlert); ("message", "No {{  $labels.endpoint  }} endpoints in namespace " +:+ operatorNs +:+ ". Expected at least 1.")]
      ("absent(kube_endpoint_address{endpoint='rhmi-registry-cs', namespace='" +:+ operatorNs +:+ "'})")
      (Some "5m") [("severity", "warning"); ("product", installationName)];
   rule "RHOAMRhssoKeycloakOperatorMetricsServiceEndpointDown"
      [("sop_url", SopUrlEndpointAvailableAlert); ("message", "No {{  $labels.endpoint  }} endpoints in namespace " +:+ operatorNs +:+ ". Expected at least 1.")]
      ("absent(kube_endpoint_address{endpoint='rhsso-operator-metrics', namespace='" +:+ operatorNs +:+ "'})")
      (Some "5m") [("severity", "warning"); ("product", installationName)]]).

Definition rhsso_slo_availability (installationName ns namespace : string) : AlertConfiguration :=
  mkAlertConfiguration "rhsso-slo-availability-alerts" "rhsso-slo-availability.rules" namespace "" (OboRules [
   rule ((to_upper installationName) +:+ "RhssoAvailability5mto1hErrorBudgetBurn")
      [("sop_url", SopUrlSloRhssoAvailabilityAlert); ("message", "High 5m and 1h error budget burn for RHSSO")]
      ("
							sum( sum(rate(haproxy_backend_http_responses_total{route=~" +:+ quoted "^keycloak.*" +:+ ", exported_namespace='" +:+ ns +:+ "', code=" +:+ quoted "5xx" +:+ "}[5m]))
								/sum(rate(haproxy_backend_http_responses_total{route=~" +:+ quoted "^keycloak.*" +:+ ", exported_namespace='" +:+ ns +:+ "'}[5m]))) > (14.40 * (1-0.99000))
							and
							sum( sum(rate(haproxy_backend_http_responses_total{route=~" +:+ quoted "^keycloak.*" +:+ ", exported_namespace='" +:+ ns +:+ "', code=" +:+ quoted "5xx" +:+ "}[1h]))
								/sum(rate(haproxy_backend_http_responses_total{route=~" +:+ quoted "^keycloak.*" +:+ ", exported_namespace='" +:+ ns +:+ "'}[1h]))) > (14.40 * (1-0.99000))")
      (Some "2m") [("severity", "warning"); ("route", "keycloak"); ("service", "keycloak"); ("product", installationName)];
   rule ((to_upper installationName) +:+ "RhssoAvailability30mto6hErrorBudgetBurn")
      [("sop_url", SopUrlSloRhssoAvailabilityAlert); ("message", "High 30m and 6h error budget burn for RHSSO")]
      ("
							sum( sum(rate(haproxy_backend_http_responses_total{route=~" +:+ quoted "^keycloak.*" +:+ ", exported_namespace='" +:+ ns +:+ "', code=" +:+ quoted "5xx" +:+ "}[30m]))
								/sum(rate(haproxy_backend_http_responses_total{route=~" +:+ quoted "^keycloak.*" +:+ ", exported_namespace='" +:+ ns +:+ "'}[30m]))) > (6.00 * (1-0.99000))
							and 
							sum( sum(rate(haproxy_backend_http_responses_total{route=~" +:+ quoted "^keycloak.*" +:+ ", exported_namespace='" +:+ ns +:+ "', code=" +:+ quoted "5xx" +:+ "}[6h]))
								/sum(rate(haproxy_backend_http_responses_total{route=~" +:+ quoted "^keycloak.*" +:+ ", exported_namespace='" +:+ ns +:+ "'}[6h]))) > (6.00 * (1-0.99000))")
      (Some "15m") [("severity", "warning"); ("route", "keycloak"); ("service", "keycloak"); ("product", installationName)];
   rule ((to_upper installationName) +:+ "RhssoAvailability2hto1dErrorBudgetBurn")
      [("sop_url", SopUrlSloRhssoAvailabilityAlert); ("message", "High 2h and 1d error budget burn for RHSSO")]
      ("
							sum( sum(rate(haproxy_backend_http_responses_total{route=~" +:+ quoted "^keycloak.*" +:+ ", exported_namespace='" +:+ ns +:+ "', code=" +:+ quoted "5xx" +:+ "}[2h]))
								/sum(rate(haproxy_backend_http_responses_total{route=~" +:+ quoted "^keycloak.*" +:+ ", exported_namespace='" +:+ ns +:+ "'}[2h]))) > (3.00 * (1-0.99000))
							and
							sum( sum(rate(haproxy_backend_http_responses_total{route=~" +:+ quoted "^keycloak.*" +:+ ", exported_namespace='" +:+ ns +:+ "', code=" +:+ quoted "5xx" +:+ "}[1d]))
								/sum(rate(haproxy_backend_http_responses_total{route=~" +:+ quoted "^keycloak.*" +:+ ", exported_namespace='" +:+ ns +:+ "'}[1d]))) > (3.00 * (1-0.99000))")
      (Some "1h") [("severity", "warning"); ("route", "keycloak"); ("service", "keycloak"); ("product", installationName)];
   rule ((to_upper installationName) +:+ "RhssoAvailability6hto3dErrorBudgetBurn")
      [("sop_url", SopUrlSloRhssoAvailabilityAlert); ("message", "High 6h and 3d error budget burn for RHSSO")]
      ("
							sum( sum(rate(haproxy_backend_http_responses_total{route=~" +:+ quoted "^keycloak.*" +:+ ", exported_namespace='" +:+ ns +:+ "', code=" +:+ quoted "5xx" +:+ "}[6h]))
								/sum(rate(haproxy_backend_http_responses_total{route=~" +:+ quoted "^keycloak.*" +:+ ", exported_namespace='" +:+ ns +:+ "'}[6h]))) > (6.00 * (1-0.99000))
							and 
							sum( sum(rate(haproxy_backend_http_responses_total{route=~" +:+ quoted "^keycloak.*" +:+ ", exported_namespace='" +:+ ns +:+ "', code=" +:+ quoted "5xx" +:+ "}[3d]))
								/sum(rate(haproxy_backend_http_responses_total{route=~" +:+ quoted "^keycloak.*" +:+ ", exported_namespace='" +:+ ns +:+ "'}[3d]))) > (6.00 * (1-0.99000))")
      (Some "3h") [("severity", "warning"); ("route", "keycloak"); ("service", "keycloak"); ("product", installationName)]]).

Definition rhsso_newAlertsReconciler (installation : RHMI) (cfg : RHSSO.t)
    (installType namespace : string) : AlertReconcilerImpl :=
  let installationName := map_get "" InstallationNames installType in
  let ns := RHSSOCommon.GetNamespace (RHSSO.common cfg) in
  let operatorNs := RHSSOCommon.GetOperatorNamespace (RHSSO.common cfg) in
  mkAlertReconciler "rhsso" installation
     [rhsso_ksm_endpoint installationName ns namespace;
      rhsso_general installationName ns namespace;
      rhsso_operator_ksm_endpoint installationName operatorNs namespace;
      rhsso_slo_availability installationName ns namespace] [].

(** ** Single sign-on of the users *)

Definition rhssouser_ksm_endpoint (installationName ns namespace : string) : AlertConfiguration :=
  mkAlertConfiguration "user-sso-ksm-endpoint-alerts" "user-rhsso-endpoint.rules" namespace "" (OboRules [
   rule "RHOAMUserRhssoKeycloakServiceEndpointDown"
      [("sop_url", SopUrlEndpointAvailableAlert); ("message", "No {{  $labels.endpoint  }} endpoints in namespace " +:+ ns +:+ ". Expected at least 1.")]
      ("absent(kube_endpoint_address{endpoint='keycloak', namespace='" +:+ ns +:+ "'})")
      (Some "5m") [("severity", "warning"); ("product", installationName)];
   rule "RHOAMUserRhssoKeycloakDiscoveryServiceEndpointDown"
      [("sop_url", SopUrlEndpointAvailableAlert); ("message", "No {{  $labels.endpoint  }} endpoints in namespace " +:+ ns +:+ ". Expected at least 1.")]
      ("absent(kube_endpoint_address{endpoint='keycloak-discovery', namespace='" +:+ ns +:+ "'})")
      (Some "5m") [("severity", "warning"); ("product", installationName)]]).

Definition rhssouser_general (installationName ns namespace : string) : AlertConfiguration :=
  mkAlertConfiguration "rhssouser-general" "rhoam-general-user-rhsso.rules" namespace "" (OboRules [
   rule "KeycloakInstanceNotAvailable"
      [("sop_url", SopUrlKeycloakInstanceNotAvailable); ("message", "Keycloak instance in namespace " +:+ ns +:+ " has not been available for the last 5 minutes.")]
      ("sum(kube_pod_status_ready{condition=" +:+ quoted "true" +:+ ",namespace=" +:+ quoted ns +:+ ",pod=~" +:+ quoted "keycloak.*" +:+ "} * on(pod, namespace) group_left() kube_pod_status_phase{phase=" +:+ quoted "Running" +:+ ",namespace=" +:+ quoted ns +:+ "}) < 1 OR absent(kube_pod_status_ready{condition=" +:+ quoted "true" +:+ ",namespace=" +:+ quoted ns +:+ ",pod=~" +:+ quoted "keycloak.*" +:+ "})")
      (Some "5m") [("severity", "critical"); ("route", "keycloak"); ("service", "keycloak"); ("product", installationName)]]).

Definition rhssouser_operator_ksm_endpoint (installationName operatorNs namespace : string) : AlertConfiguration :=
  mkAlertConfiguration "user-sso-operator-ksm-endpoint-alerts" "user-rhsso-operator-endpoint.rules" namespace "" (OboRules [
   rule "RHOAMUserRhssoOperatorRhmiRegistryCsMetricsServiceEndpointDown"
      [("sop_url", SopUrlEndpointAvailableAlert); ("message", "No {{  $labels.endpoint  }} endpoints in namespace " +:+ operatorNs +:+ ". Expected at least 1.")]
      ("absent(kube_endpoint_address{endpoint='rhmi-registry-cs', namespace='" +:+ operatorNs +:+ "'})")
      (Some "5m") [("severity", "warning"); ("product", installationName)];
   rule "RHOAMUserRhssoKeycloakOperatorMetricsServiceEndpointDown"
      [("sop_url", SopUrlEndpointAvailableAlert); ("message", "No {{  $labels.endpoint  }} endpoints in namespace " +:+ operatorNs +:+ ". Expected at least 1.")]
      ("absent(kube_endpoint_address{endpoint='rhsso-operator-metrics', namespace='" +:+ operatorNs +:+ "'})")
      (Some "5m") [("severity", "warning"); ("product", installationName)]]).

Definition rhssouser_slo_availability (installationName ns namespace : string) : AlertConfiguration :=
  mkAlertConfiguration "user-sso-slo-availability-alerts" "user-sso-slo-availability.rules" namespace "" (OboRules [
   rule ((to_upper installationName) +:+ "UserSsoAvailability5mto1hErrorBudgetBurn")
      [("sop_url", SopUrlSloUserSsoAvailabilityAlert); ("message", "High 5m and 1h error budget burn for SSO User")]
      ("
							sum( sum(rate(haproxy_backend_http_responses_total{route=~" +:+ quoted "^keycloak.*" +:+ ", exported_namespace='" +:+ ns +:+ "', code=" +:+ quoted "5xx" +:+ "}[5m]))
								/sum(rate(haproxy_backend_http_responses_total{route=~" +:+ quoted "^keycloak.*" +:+ ", exported_namespace='" +:+ ns +:+ "'}[5m]))) > (14.40 * (1-0.99000))
							and
							sum( sum(rate(haproxy_backend_http_responses_total{route=~" +:+ quoted "^keycloak.*" +:+ ", exported_namespace='" +:+ ns +:+ "', code=" +:+ quoted "5xx" +:+ "}[1h]))
								/sum(rate(haproxy_backend_http_responses_total{route=~" +:+ quoted "^keycloak.*" +:+ ", exported_namespace='" +:+ ns +:+ "'}[1h]))) > (14.40 * (1-0.99000))")
      (Some "2m") [("severity", "warning"); ("route", "keycloak"); ("service", "keycloak"); ("product", installationName)];
   rule ((to_upper installationName) +:+ "UserSsoAvailability30mto6hErrorBudgetBurn")
      [("sop_url", SopUrlSloUserSsoAvailabilityAlert); ("message", "High 30m and 6h error budget burn for SSO User")]
      ("
							sum( sum(rate(haproxy_backend_http_responses_total{route=~" +:+ quoted "^keycloak.*" +:+ ", exported_namespace='" +:+ ns +:+ "', code=" +:+ quoted "5xx" +:+ "}[30m]))
								/sum(rate(haproxy_backend_http_responses_total{route=~" +:+ quoted "^keycloak.*" +:+ ", exported_namespace='" +:+ ns +:+ "'}[30m]))) > (6.00 * (1-0.99000))
							and 
							sum( sum(rate(haproxy_backend_http_responses_total{route=~" +:+ quoted "^keycloak.*" +:+ ", exported_namespace='" +:+ ns +:+ "', code=" +:+ quoted "5xx" +:+ "}[6h]))
								/sum(rate(haproxy_backend_http_responses_total{route=~" +:+ quoted "^keycloak.*" +:+ ", exported_namespace='" +:+ ns +:+ "'}[6h]))) > (6.00 * (1-0.99000))")
      (Some "15m") [("severity", "warning"); ("route", "keycloak"); ("service", "keycloak"); ("product", installationName)];
   rule ((to_upper installationName) +:+ "UserSsoAvailability2hto1dErrorBudgetBurn")
      [("sop_url", SopUrlSloUserSsoAvailabilityAlert); ("message", "High 2h and 1d error budget burn for SSO User")]
      ("
							sum( sum(rate(haproxy_backend_http_responses_total{route=~" +:+ quoted "^keycloak.*" +:+ ", exported_namespace='" +:+ ns +:+ "', code=" +:+ quoted "5xx" +:+ "}[2h]))
								/sum(rate(haproxy_backend_http_responses_total{route=~" +:+ quoted "^keycloak.*" +:+ ", exported_namespace='" +:+ ns +:+ "'}[2h]))) > (3.00 * (1-0.99000))
							and
							sum( sum(rate(haproxy_backend_http_responses_total{route=~" +:+ quoted "^keycloak.*" +:+ ", exported_namespace='" +:+ ns +:+ "', code=" +:+ quoted "5xx" +:+ "}[1d]))
								/sum(rate(haproxy_backend_http_responses_total{route=~" +:+ quoted "^keycloak.*" +:+ ", exported_namespace='" +:+ ns +:+ "'}[1d]))) > (3.00 * (1-0.99000))")
      (Some "1h") [("severity", "warning"); ("route", "keycloak"); ("service", "keycloak"); ("product", installationName)];
   rule ((to_upper installationName) +:+ "UserSsoAvailability6hto3dErrorBudgetBurn")
      [("sop_url", SopUrlSloUserSsoAvailabilityAlert); ("message", "High 6h and 3d error budget burn for SSO User")]
      ("
							sum( sum(rate(haproxy_backend_http_responses_total{route=~" +:+ quoted "^keycloak.*" +:+ ", exported_namespace='" +:+ ns +:+ "', code=" +:+ quoted "5xx" +:+ "}[6h]))
								/sum(rate(haproxy_backend_http_responses_total{route=~" +:+ quoted "^keycloak.*" +:+ ", exported_namespace='" +:+ ns +:+ "'}[6h]))) > (6.00 * (1-0.99000))
							and 
							sum( sum(rate(haproxy_backend_http_responses_total{route=~" +:+ quoted "^keycloak.*" +:+ ", exported_namespace='" +:+ ns +:+ "', code=" +:+ quoted "5xx" +:+ "}[3d]))
								/sum(rate(haproxy_backend_http_responses_total{route=~" +:+ quoted "^keycloak.*" +:+ ", exported_namespace='" +:+ ns +:+ "'}[3d]))) > (6.00 * (1-0.99000))")
      (Some "3h") [("severity", "warning"); ("route", "keycloak"); ("service", "keycloak"); ("product", installationName)]]).

Definition rhssouser_newAlertsReconciler (installation : RHMI) (cfg : RHSSOUser.t)
    (installType namespace : string) : AlertReconcilerImpl :=
  let installationName := map_get "" InstallationNames installType in
  let ns := RHSSOCommon.GetNamespace (RHSSOUser.common cfg) in
  let operatorNs := RHSSOCommon.GetOperatorNamespace (RHSSOUser.common cfg) in
  mkAlertReconciler "RHSSO User" installation
     [rhssouser_ksm_endpoint installationName ns namespace;
      rhssouser_general installationName ns namespace;
      rhssouser_operator_ksm_endpoint installationName operatorNs namespace;
      rhssouser_slo_availability installationName ns namespace] [].

(** ** Grafana *)

Definition grafana_ksm_endpoint (installationName namespace : string) : AlertConfiguration :=
  mkAlertConfiguration "customer-monitoring-po-ksm-endpoint-alerts" "grafana-endpoint.rules" namespace "" (OboRules [
   rule "GrafanaServiceEndpointDown"
      [("sop_url", SopUrlEndpointAvailableAlert); ("message", "No {{  $labels.endpoint  }} endpoints in namespace " +:+ namespace +:+ ". Expected at least 1.")]
      ("absent(kube_endpoint_address{endpoint='grafana-service', namespace='" +:+ namespace +:+ "'})")
      (Some "5m") [("severity", "warning"); ("product", installationName)]]).

Definition grafana_ksm (installationName namespace : string) : AlertConfiguration :=
  mkAlertConfiguration "customer-monitoring-po-ksm-grafana-alerts" "grafana-general.rules" namespace "" (OboRules [
   rule "GrafanaServicePod"
      [("sop_url", SopUrlAlertsAndTroubleshooting); ("message", "Grafana Service has no pods in ready state.")]
      ("sum(kube_pod_status_ready{condition='true',namespace='" +:+ namespace +:+ "', pod=~'grafana-deployment.*'} * on(pod, namespace) group_left() kube_pod_status_phase{phase='Running'}) < 1")
      (Some "5m") [("severity", "warning"); ("product", installationName)]]).

Definition grafana_newAlertReconciler (installation : RHMI) (installType namespace : string)
    : AlertReconcilerImpl :=
  let installationName := map_get "" InstallationNames installType in
  mkAlertReconciler "Grafana" installation
     [grafana_ksm_endpoint installationName namespace;
      grafana_ksm installationName namespace] [].

Definition delete_rule {W} `{Client W PrometheusRule} (c : KClient) (namespace name : string)
    : M W (option error) :=
  err ← client_delete c (mkPrometheusRule (named namespace name) []);
  mret (if IsNotFound err then None else err).
Definition removeGrafanaOperatorAlerts {W} `{Client W PrometheusRule} (nsPrefix : string) (c : KClient)
    : M W (option error) :=
  let namespace := nsPrefix +:+ "operator-observability" in
  err ← delete_rule c namespace "customer-monitoring-ksm-grafana-alerts";
  match err with
  | Some e => mret (Some e)
  | None => delete_rule c namespace "customer-monitoring-ksm-endpoint-alerts"
  end.

(** ** Cloud resource operator *)

Definition cro_ksm_endpoint (installationName operatorNs namespace : string) : AlertConfiguration :=
  mkAlertConfiguration "cro-ksm-endpoint-alerts" "cloud-resources-operator-endpoint.rules" namespace "" (OboRules [
   rule "RHOAMCloudResourceOperatorMetricsServiceEndpointDown"
      [("sop_url", SopUrlRHOAMCloudResourceOperatorMetricsServiceEndpointDown); ("message", "No {{  $labels.endpoint  }} endpoints in namespace " +:+ operatorNs +:+ ". Expected at least 1.")]
      ("absent(kube_endpoint_address{namespace='" +:+ operatorNs +:+ "', endpoint='operator-metrics-service'})")
      (Some "5m") [("severity", "critical"); ("product", installationName)];
   rule "RHOAMCloudResourceOperatorRhmiRegistryCsServiceEndpointDown"
      [("sop_url", SopUrlEndpointAvailableAlert); ("message", "No {{  $labels.endpoint  }} endpoints in namespace " +:+ operatorNs +:+ ". Expected at least 1.")]
      ("absent(kube_endpoint_address{endpoint='rhmi-registry-cs', namespace='" +:+ operatorNs +:+ "'})")
      (Some "5m") [("severity", "warning"); ("product", installationName)];
   rule "RHOAMCloudResourceOperatorVPCActionFailed"
      [("sop_url", SopUrlRHOAMCloudResourceOperatorVPCActionFailed); ("message", "CRO failed to perform an action on a VPC.")]
      ("cro_vpc_action{namespace='" +:+ operatorNs +:+ "', status='failed', error!=''} > 0")
      (Some "5m") [("severity", "critical"); ("product", installationName)]]).

Definition cro_metrics_missing (installationName namespace : string) : AlertConfiguration :=
  mkAlertConfiguration "cloud-resource-operator-metrics-missing" "cloud-resource-operator.rules" namespace "" (OboRules [
   rule ((to_upper installationName) +:+ "CloudResourceOperatorMetricsMissing")
      [("sop_url", SopUrlRHOAMCloudResourceOperatorMetricsMissing); ("message", "one or more cloud-resource-operator metrics have been missing for 5+ minutes")]
      ("(absent(cro_postgres_available) or absent(cro_postgres_connection) or absent(cro_postgres_status_phase) or absent(cro_redis_available) or absent(cro_redis_connection) or absent(cro_redis_status_phase) or absent(cro_postgres_current_allocated_storage)) == 1 and rhoam_spec{use_cluster_storage=" +:+ quoted "false" +:+ "}")
      (Some "5m") [("severity", "critical")]]).

Definition cro_alerts (installationName operatorNs namespace : string) : list AlertConfiguration :=
     [cro_ksm_endpoint installationName operatorNs namespace;
      cro_metrics_missing installationName namespace].

Fixpoint replace_char (a b : ascii) (s : string) : string :=
  match s with
  | EmptyString => EmptyString
  | String c s' => String (if Ascii.eqb c a then b else c) (replace_char a b s')
  end.
Definition sanitize (metricsCheck : string) : string := to_lower (replace_char "-" "_" metricsCheck).

Definition getRedisCRsNames {W} `{Client W Redis} (c : KClient) (ns : string)
    : M W (error + list string) :=
  ls ← client_list (O := Redis) c (InNamespace ns);
  mret (match ls with
        | inl e => inl (ErrWrap "failed to list redis instances: " e)
        | inr items => inr (map (λ r, Name (rd_meta r)) items)
        end).

Definition snapshot_expr (names : list string) : string :=
  sanitize (trim_suffix " or "
    (fold_left (λ s name, s +:+ "cro_redis_snapshot_not_found_" +:+ name +:+ " > 1 or ") names "")).

(** The rule is added to the first configuration's. *)
Definition add_rule (r : Rule) (l : list AlertConfiguration) : list AlertConfiguration :=
  match l with
  | [] => []
  | a :: l => match alert_Rules a with
              | OboRules rules => mkAlertConfiguration (AlertName a) (GroupName a) (alert_Namespace a)
                                    (alert_Interval a) (OboRules (rules ++ [r])) :: l
              | _ => a :: l
              end
  end.

(** The reconciler is returned also with an error. *)
Definition addElasticCacheSnapshotNotFoundAlert {W} `{Client W Redis} (c : KClient)
    (installationName : string) (alertsReconciler : AlertReconcilerImpl) (ns : string)
    : M W (AlertReconcilerImpl * option error) :=
  got ← getRedisCRsNames c ns;
  mret (match got with
        | inl e => (alertsReconciler, Some e)
        | inr [] => (alertsReconciler, None)
        | inr names =>
            (mkAlertReconciler (ar_ProductName alertsReconciler) (ar_Installation alertsReconciler)
               (add_rule (rule "RHOAMCloudResourceOperatorElasticCacheSnapshotsNotFound"
                  [("sop_url", SopUrlAlertsAndTroubleshooting);
                   ("message", "Elastic Cache snapshot not found or not available for tagging.")]
                  (snapshot_expr names) None
                  [("severity", "critical"); ("product", installationName)])
                  (ar_Alerts alertsReconciler))
               (ar_RemovedAlerts alertsReconciler), None)
        end).

Definition cro_newAlertsReconciler {W} `{Client W Redis} (installation : RHMI) (cfg : CloudResources.t)
    (c : KClient) (installType namespace : string) : M W (AlertReconcilerImpl * option error) :=
  let installationName := map_get "" InstallationNames installType in
  addElasticCacheSnapshotNotFoundAlert c installationName
    (mkAlertReconciler "Cloud Resources Operator" installation
       (cro_alerts installationName (CloudResources.GetOperatorNamespace cfg) namespace) [])
    (Namespace (rhmi_meta installation)).

(** ** Facts *)

Section installed.
Context (i : RHMI) `{Yaml} (m : Manager) (c3 : ThreeScale.t) (csso : RHSSO.t) (cuser : RHSSOUser.t)
  (ccro : CloudResources.t) (cm : Marin3r.t) (metric : string).

(** The alerts every product hands to its reconciler, those that depend on
    the quota's limits apart. *)
Definition installed_alerts : list AlertConfiguration :=
  let t := Type_ (Spec i) in
  let namespace := GetOboNamespace (Namespace (rhmi_meta i)) in
  let installationName := map_get "" InstallationNames t in
  ar_Alerts (OboAlertsReconciler i)
  ++ threescale_alerts i installationName (ThreeScale.GetNamespace c3) (ThreeScale.GetOperatorNamespace c3)
       namespace metric
  ++ ar_Alerts (newEnvoyAlertReconciler i c3 t namespace)
  ++ ar_Alerts (rhsso_newAlertsReconciler i csso t namespace)
  ++ ar_Alerts (rhssouser_newAlertsReconciler i cuser t namespace)
  ++ ar_Alerts (grafana_newAlertReconciler i t namespace)
  ++ ar_Alerts (newAlertReconciler i m cm t namespace)
  ++ cro_alerts installationName (CloudResources.GetOperatorNamespace ccro) namespace.

Definition rule_ok (r : Rule) : bool :=
  match For r with Some d => is_some (ParseDuration d) | None => true end
  && ((Alert r =?s "CronJobNotRunInThreshold")
      || match RuleLabels r !! "severity" with
         | Some s => Slices.Contains ["critical"; "warning"; "info"] s
         | None => false
         end).
Definition config_ok (a : AlertConfiguration) : bool :=
  match alert_Rules a with OboRules l => forallb rule_ok l | _ => false end.

Lemma rule_ok_spec r : rule_ok r = true →
  (∀ d, For r = Some d → DurationPtr d = Done (Some d))
  ∧ (Alert r = "CronJobNotRunInThreshold"
     ∨ ∃ s, RuleLabels r !! "severity" = Some s ∧ s ∈ ["critical"; "warning"; "info"]).
Proof.
  unfold rule_ok. intros [Hd Hs]%andb_prop. split.
  - intros d Hf. rewrite Hf in Hd. unfold DurationPtr. by destruct (ParseDuration d).
  - apply orb_prop in Hs as [->%str_eqb_true|Hs]; [by left|right].
    destruct (RuleLabels r !! "severity") as [s|]; [|done]. exists s. split; [done|].
    by apply Slices.Contains_true.
Qed.

Hypothesis supported_type :
  Type_ (Spec i) = InstallationTypeManagedApi ∨ Type_ (Spec i) = InstallationTypeMultitenantManagedApi.

Lemma installed_alerts_ok : forallb config_ok installed_alerts = true.
Proof.
  destruct supported_type as [E|E]; unfold installed_alerts, OboAlertsReconciler; rewrite E;
    vm_compute; reflexivity.
Qed.


End installed.
