(* ===== verification/AlertManager.v ===== *)
(** * The configuration of Alertmanager (pkg/products/obo)

    alertmanagerConfig.go and templateHelper.go: the secret with the routing
    of alerts, made of templates on disk, the credentials in the cluster and
    the addresses of the custom resource. *)

From stdpp Require Import base list strings gmap.
From Stdlib Require Import ZArith Lia Ascii.
From S2P Require Import Prelude Numbers Kube Api Resources Olm Quota Pods RateLimit Cro Config Cluster Addon Custom.

(** ** templateHelper.go *)

(** os.Stat, of which only os.IsNotExist of the error is used, and os.ReadFile *)
Class FileSystem (W : Type) := {
  os_NotExist : string → M W bool;
  os_ReadFile : string → M W (error + string);
}.
(** text/template: parse a text and execute it on the parameters. *)
Class TextTemplate := template_Execute : string → gmap string string → error + string.

Record TemplateHelper := mkTemplateHelper { Params : gmap string string; TemplatePath : string }.

(** filepath.Clean drops the leading dot of the paths used here, which have
    no other parts to clean. *)
Definition filepath_Clean (p : string) : string := trim_prefix "./" p.

Section templates.
Context {W : Type} `{FileSystem W} `{TextTemplate}.

Definition GetTemplatePath : M W string :=
  let templatePath := "./templates/monitoring" in
  missing ← os_NotExist templatePath;
  if (missing : bool) then
    let templatePath := "../../../templates/monitoring" in
    missing ← os_NotExist templatePath;
    if (missing : bool) then
      let templatePath := "/usr/local/bin/templates/monitoring" in
      missing ← os_NotExist templatePath;
      if (missing : bool) then panic "cannot find templates" else mret templatePath
    else mret templatePath
  else mret templatePath.

Definition NewTemplateHelper (extraParams : gmap string string) : M W TemplateHelper :=
  templatePath ← GetTemplatePath; mret (mkTemplateHelper extraParams templatePath).

Definition LoadTemplate (h : TemplateHelper) (name : string) : M W (error + string) :=
  tpl ← os_ReadFile (filepath_Clean (TemplatePath h +:+ "/" +:+ name));
  mret (match tpl with
        | inl e => inl e
        | inr tpl => template_Execute tpl (Params h)
        end).
End templates.

(** ** alertmanagerConfig.go *)

Definition clusterInfraName : string := "cluster".
Definition clusterVersionName : string := "version".
Definition openShiftConsoleRoute : string := "console".
Definition openShiftConsoleNamespace : string := "openshift-console".
Definition alertManagerServiceName : string := "rhoam-alertmanager".

(** Of pkg/config/obo.go *)
Definition AlertManagerConfigSecretName : string := "alertmanager-rhoam".
Definition AlertManagerConfigSecretFileName : string := "alertmanager.yaml".
Definition AlertManagerEmailTemplateSecretFileName : string := "alertmanager-email-config.tmpl".
Definition AlertManagerConfigTemplatePath : string := "alertmanager/alertmanager-application-monitoring.yaml".
Definition AlertManagerCustomTemplatePath : string := "alertmanager/alertmanager-email-config.tmpl".

Definition smtp_field (k fallback : string) (data : option (gmap string string)) : string :=
  let v := omap_get "" data k in if v =?s "" then fallback else v.
Definition getSmtpHost := smtp_field "host" "smtp.example.com".
Definition getSmtpPort := smtp_field "port" "587".
Definition getSmtpUsername := smtp_field "username" "smtp_username".
Definition getSmtpPassword := smtp_field "password" "smtp_password".

Definition prepareEmailAddresses (l : string) : string := join ", " (split_on " " (trim_space l)).

(** strings.ReplaceAll of a text that is not empty; [skip] characters belong
    to a text just replaced. *)
Fixpoint replace_all (old new : string) (skip : nat) (s : string) : string :=
  match s with
  | EmptyString => EmptyString
  | String c s' =>
      match skip with
      | S skip => replace_all old new skip s'
      | O => if has_prefix old s then new +:+ replace_all old new (String.length old - 1) s'
             else String c (replace_all old new 0 s')
      end
  end.

Definition or_default (v fallback : string) : string := if v =?s "" then fallback else v.

Section alertmanager.
Context {W : Type} `{Client W Secret} `{Client W Service} `{Client W Infrastructure}
  `{Client W ClusterVersion} `{Client W Route} `{FileSystem W} `{TextTemplate} `{OsEnv W} `{MapRange W}.

Definition getPagerDutySecret (c : KClient) (installation : RHMI) : M W (error + string) :=
  got ← client_get (O := Secret) c (Namespace (rhmi_meta installation)) (PagerDutySecret (Spec installation));
  mret (match got with
        | inl e => inl (ErrWrap "could not obtain pagerduty credentials secret: " e)
        | inr s =>
            let secret := or_default (omap_get "" (sec_Data s) "PAGERDUTY_KEY")
                            (omap_get "" (sec_Data s) "serviceKey") in
            if secret =?s "" then inl (ErrStr "secret key is undefined in pager duty secret")
            else inr secret
        end).

Definition GetDMSSecret (c : KClient) (installation : RHMI) : M W (error + string) :=
  got ← client_get (O := Secret) c (Namespace (rhmi_meta installation)) (DeadMansSnitchSecret (Spec installation));
  mret (match got with
        | inl e => inl (ErrWrap "could not obtain dead mans snitch credentials secret: " e)
        | inr s =>
            let secret := or_default (omap_get "" (sec_Data s) "SNITCH_URL") (omap_get "" (sec_Data s) "url") in
            if secret =?s "" then inl (ErrStr "url is undefined in dead mans snitch secret")
            else inr secret
        end).

(** What the templates are filled in with. *)
Definition alertmanager_params (i : RHMI) (smtp : option (gmap string string)) (env_from pagerduty dms : string)
    (clusterID clusterName console : string) : gmap string string :=
  let alertmanagerRoute := "noreply2@" +:+ alertManagerServiceName +:+ "-" +:+ Namespace (rhmi_meta i)
                           +:+ "-" +:+ RoutingSubdomain (Spec i) in
  let customer := AlertingEmailAddress (Spec i) in
  list_to_map [
    ("SMTPHost", getSmtpHost smtp); ("SMTPPort", getSmtpPort smtp);
    ("SMTPFrom", or_default (AlertFromAddress (Spec i)) env_from);
    ("SMTPUsername", getSmtpUsername smtp); ("SMTPPassword", getSmtpPassword smtp);
    ("SMTPToCustomerAddress", if customer =?s "" then alertmanagerRoute else prepareEmailAddresses customer);
    ("SMTPToSREAddress", or_default (CSSRE (AlertingEmailAddresses_ (Spec i))) alertmanagerRoute);
    ("SMTPToBUAddress", or_default (BusinessUnit (AlertingEmailAddresses_ (Spec i))) alertmanagerRoute);
    ("PagerDutyServiceKey", pagerduty); ("DeadMansSnitchURL", dms);
    ("Subject", "{{template " +:+ dquote +:+ "email.integreatly.subject" +:+ dquote +:+ " . }}");
    ("clusterID", clusterID); ("clusterName", clusterName); ("clusterConsole", console);
    ("html", "{{ template " +:+ dquote +:+ "email.integreatly.html" +:+ dquote +:+ " . }}")].

Definition cluster_vars (clusterID clusterName console : string) : gmap string string :=
  list_to_map [("${CLUSTER_NAME}", clusterName); ("${CLUSTER_ID}", clusterID); ("${CLUSTER_CONSOLE}", console)].
Definition fill_email (vars : gmap string string) (order : list string) (contents : string) : string :=
  fold_left (λ s name, replace_all name (map_get "" vars name) 0 s) order contents.

Definition write_alertmanager_secret (c : KClient) (i : RHMI) (configData email : string)
    : M W (StatusPhase * option error) :=
  '(_, (_, err)) ← CreateOrUpdate c
    (mkTypedSecret (named (GetOboNamespace (Namespace (rhmi_meta i))) AlertManagerConfigSecretName) None "Opaque")
    (λ s, let s := AddIntegreatlyOwnerAnnotations s i in
          mret (with_sec_Data s
                  (Some (list_to_map [(AlertManagerConfigSecretFileName, configData);
                                      (AlertManagerEmailTemplateSecretFileName, email)])), None));
  match err with
  | Some e => mret (PhaseFailed, Some (ErrWrap "could not create or update alert manager secret: " e))
  | None => mret (PhaseCompleted, None)
  end.

(** From the templates on. *)
Definition render_alertmanager (c : KClient) (i : RHMI) (params vars : gmap string string)
    : M W (StatusPhase * option error) :=
  templateUtil ← NewTemplateHelper params;
  templatePath ← GetTemplatePath;
  email ← os_ReadFile (filepath_Clean (templatePath +:+ "/" +:+ AlertManagerCustomTemplatePath));
  match email with
  | inl e => mret (PhaseFailed, Some (ErrWrap "could not read alertmanager custom email template file: " e))
  | inr email =>
      order ← reads (λ w, range_keys w (dom vars));
      let email := fill_email vars order email in
      configSecretData ← LoadTemplate templateUtil AlertManagerConfigTemplatePath;
      match configSecretData with
      | inl e => mret (PhaseFailed, Some (ErrWrap "could not parse alert manager configuration template: " e))
      | inr configSecretData => write_alertmanager_secret c i configSecretData email
      end
  end.

(** The cluster's name, id and console. *)
Definition cluster_details (c : KClient) : M W (error + string * string * string) :=
  infra ← client_get (O := Infrastructure) c "" clusterInfraName;
  match infra with
  | inl e => mret (inl (ErrWrap "failed to fetch cluster infra details for alertmanager config: " e))
  | inr infra =>
      version ← client_get (O := ClusterVersion) c "" clusterVersionName;
      match version with
      | inl e => mret (inl (ErrWrap "failed to fetch cluster ID details for alertmanager config: " e))
      | inr version =>
          route ← client_get (O := Route) c openShiftConsoleNamespace openShiftConsoleRoute;
          mret (match route with
                | inl e => inl (ErrWrap "failed to fetch OpenShift console URL details for alertmanager config: " e)
                | inr route => inr (ClusterID version, inf_InfrastructureName infra, "https://" +:+ rt_Host route)
                end)
      end
  end.

Definition ReconcileAlertManagerSecrets (c : KClient) (installation : RHMI)
    : M W (StatusPhase * option error) :=
  let ns := Namespace (rhmi_meta installation) in
  service ← client_get (O := Service) c (GetOboNamespace ns) alertManagerServiceName;
  match service with
  | inl e => if IsNotFound (Some e) then mret (PhaseAwaitingComponents, None)
             else mret (PhaseFailed, Some (ErrWrap "failed to fetch alert manager service: " e))
  | inr _ =>
      smtp ← client_get (O := Secret) c ns (SMTPSecret (Spec installation));
      let smtp := match smtp with inl _ => None | inr s => sec_Data s end in
      pagerduty ← getPagerDutySecret c installation;
      match pagerduty with
      | inl e => mret (PhaseFailed, Some e)
      | inr pagerduty =>
          dms ← GetDMSSecret c installation;
          let dms := match dms with inl _ => "" | inr s => s end in
          env_from ← reads (Getenv EnvKeyAlertSMTPFrom);
          details ← cluster_details c;
          match details with
          | inl e => mret (PhaseFailed, Some e)
          | inr (clusterID, clusterName, console) =>
              render_alertmanager c installation
                (alertmanager_params installation smtp env_from pagerduty dms clusterID clusterName console)
                (cluster_vars clusterID clusterName console)
          end
      end
  end.
End alertmanager.
