(* ===== verification/Products.v ===== *)
(** * Product reconcilers as the installation controller sees them

    pkg/products/reconciler.go, and of each product's reconciler.go its
    constructor, VerifyVersion and GetPreflightObject.  What a product's
    Reconcile does is the interface [ProductInterface] declared in Stages.v. *)

From stdpp Require Import base list strings gmap.
From Stdlib Require Import ZArith Lia.
From S2P Require Import Prelude Kube Api Resources Olm Quota Config Cluster Addon Marketplace.

(** productsInstallationLoader.GetProductsInstallation *)
Class ProductsInstallationLoader (W : Type) :=
  GetProductsInstallation : M W (error + gmap string ProductDeclaration).
(** NewForConfig of the OpenShift oauth and apps clients; [None] is success. *)
Class OpenshiftClients (W : Type) := {
  oauth_NewForConfig : M W (option error);
  apps_NewForConfig : M W (option error);
}.

(** A value of the products.Interface type: a nil pointer or interface, the
    no-op of an unknown product, or a product's reconciler with its config. *)
Inductive Reconciler :=
  | NilReconciler
  | NoOp
  | ProductReconciler (product : ProductName) (config : AnyConfig).

(** What GetPreflightObject returns, with its namespace and name. *)
Inductive PreflightObject :=
  | PreDeployment (ns name : string)
  | PreDeploymentConfig (ns name : string).

Record DeploymentConfigRef := mkDeploymentConfigRef { dc_meta : ObjectMeta }.
#[global] Instance DeploymentConfigRef_eq_dec : EqDecision DeploymentConfigRef.
Proof. solve_decision. Defined.
#[global] Instance DeploymentConfigRef_object : K8sObject DeploymentConfigRef := {|
  meta := dc_meta; set_meta m _ := mkDeploymentConfigRef m;
  semantic_deep_equal a b := bool_decide (a = b);
|}.

Definition SetNameSpaces (installation : RHMI) (c : RHSSOCommon.t) (namespace : string)
    : RHSSOCommon.t :=
  let c := if RHSSOCommon.GetNamespace c =?s ""
           then RHSSOCommon.SetNamespace c (NamespacePrefix (Spec installation) +:+ namespace)
           else c in
  if RHSSOCommon.GetOperatorNamespace c =?s "" then
    if OperatorsInProductNamespace (Spec installation)
    then RHSSOCommon.SetOperatorNamespace c (RHSSOCommon.GetNamespace c)
    else RHSSOCommon.SetOperatorNamespace c (RHSSOCommon.GetNamespace c +:+ "-operator")
  else c.

(** Each constructor leaves the config manager with the config map it last
    wrote or read. *)
Section constructors.
Context {W : Type} `{Client W ConfigMap} `{Yaml}.
Context (m : Manager) (installation : RHMI) (declaration : option ProductDeclaration).

Definition Constructed : Type := Manager * (Reconciler * option error).

Definition rhsso_NewReconciler : M W Constructed :=
  match declaration with
  | None => mret (m, (NilReconciler, Some (ErrStr "no product declaration found for RHSSO")))
  | Some _ =>
      match ReadRHSSO m with
      | inl err => mret (m, (NilReconciler, Some err))
      | inr c =>
          let c := RHSSO.mk (SetNameSpaces installation (RHSSO.common c) "rhsso") in
          mret (m, (ProductReconciler ProductRHSSO (ARHSSO c), None))
      end
  end.

Definition rhssouser_NewReconciler : M W Constructed :=
  match declaration with
  | None => mret (m, (NilReconciler, Some (ErrStr "no product declaration found for user SSO")))
  | Some _ =>
      match ReadRHSSOUser m with
      | inl err => mret (m, (NilReconciler, Some err))
      | inr c =>
          let c := RHSSOUser.mk (SetNameSpaces installation (RHSSOUser.common c) "user-sso") in
          mret (m, (ProductReconciler ProductRHSSOUser (ARHSSOUser c), None))
      end
  end.

(** SetOperatorNamespace as the constructors below choose it. *)
Definition operator_namespace (ns : string) : string :=
  if OperatorsInProductNamespace (Spec installation) then ns else ns +:+ "-operator".

Definition threescale_NewReconciler : M W Constructed :=
  match declaration with
  | None => mret (m, (NilReconciler, Some (ErrStr "no product declaration found for 3scale")))
  | Some _ =>
      let ns := NamespacePrefix (Spec installation) +:+ "3scale" in
      match ReadThreeScale m with
      | inl err =>
          mret (m, (NilReconciler, Some (ErrWrap "could not retrieve threescale config: " err)))
      | inr c =>
          let c := ThreeScale.SetNamespace c ns in
          let c := ThreeScale.SetOperatorNamespace c (operator_namespace (ThreeScale.GetNamespace c)) in
          let c := ThreeScale.SetBlackboxTargetPathForAdminUI c "/p/login/" in
          '(m, err) ← WriteConfig m c;
          match err with
          | Some err =>
              mret (m, (NilReconciler, Some (ErrWrap "error writing threescale config : " err)))
          | None => mret (m, (ProductReconciler Product3Scale (AThreeScale c), None))
          end
      end
  end.

Definition cloudresources_NewReconciler : M W Constructed :=
  match declaration with
  | None => mret (m, (NilReconciler, Some (ErrStr "no product declaration found for cloud resources")))
  | Some _ =>
      match ReadCloudResources m with
      | inl err =>
          mret (m, (NilReconciler, Some (ErrWrap "could not read cloud resources config: " err)))
      | inr c =>
          let c := CloudResources.SetNamespace c
                     (NamespacePrefix (Spec installation) +:+ "cloud-resources") in
          let c := CloudResources.SetOperatorNamespace c
                     (operator_namespace (CloudResources.GetNamespace c)) in
          '(m, err) ← WriteConfig m c;
          match err with
          | Some err =>
              mret (m, (NilReconciler, Some (ErrWrap "error writing cloudresources config : " err)))
          | None => mret (m, (ProductReconciler ProductCloudResources (ACloudResources c), None))
          end
      end
  end.

Definition marin3r_NewReconciler : M W Constructed :=
  match declaration with
  | None => mret (m, (NilReconciler, Some (ErrStr "no product declaration found for marin3r")))
  | Some _ =>
      let ns := NamespacePrefix (Spec installation) +:+ "marin3r" in
      match ReadMarin3r m with
      | inl err =>
          mret (m, (NilReconciler, Some (ErrWrap "could not retrieve threescale config: " err)))
      | inr c =>
          let c := Marin3r.SetNamespace c ns in
          let c := Marin3r.SetOperatorNamespace c (operator_namespace (Marin3r.GetNamespace c)) in
          '(m, err) ← WriteConfig m c;
          match err with
          | Some err =>
              mret (m, (NilReconciler, Some (ErrWrap "error writing marin3r config : " err)))
          | None => mret (m, (ProductReconciler ProductMarin3r (AMarin3r c), None))
          end
      end
  end.

Definition grafana_NewReconciler : M W Constructed :=
  match ReadGrafana m with
  | inl err => mret (m, (NilReconciler, Some (ErrWrap "could not retrieve grafana config: " err)))
  | inr c =>
      let c := Grafana.SetNamespace c
                 (NamespacePrefix (Spec installation) +:+ "customer-monitoring") in
      '(m, err) ← WriteConfig m c;
      match err with
      | Some err => mret (m, (NilReconciler, Some (ErrWrap "error writing grafana config : " err)))
      | None => mret (m, (ProductReconciler ProductGrafana (AGrafana c), None))
      end
  end.
End constructors.

Section new_reconciler.
Context {W : Type} `{Client W ConfigMap} `{Yaml} `{ProductsInstallationLoader W}
  `{OpenshiftClients W}.

(** The client a failed NewForConfig returns is nil, and is used before the
    error is looked at. *)
Definition openshift_client (new : M W (option error)) : M W unit :=
  err ← new;
  match err with
  | Some _ => panic "nil pointer dereference"
  | None => mret tt
  end.

Definition NewReconciler (product : ProductName) (m : Manager) (installation : RHMI)
    : M W Constructed :=
  loaded ← GetProductsInstallation;
  match loaded with
  | inl err => mret (m, (NilReconciler, Some err))
  | inr declared =>
      let pd := declared !! product in
      if product =?s ProductRHSSO then
        openshift_client oauth_NewForConfig ;; rhsso_NewReconciler m installation pd
      else if product =?s ProductRHSSOUser then
        openshift_client oauth_NewForConfig ;; rhssouser_NewReconciler m installation pd
      else if product =?s Product3Scale then
        openshift_client apps_NewForConfig ;; openshift_client oauth_NewForConfig ;;
        threescale_NewReconciler m installation pd
      else if product =?s ProductCloudResources then cloudresources_NewReconciler m installation pd
      else if product =?s ProductMarin3r then marin3r_NewReconciler m installation pd
      else if product =?s ProductGrafana then grafana_NewReconciler m installation
      else mret (m, (NoOp, Some (ErrStr ("unknown products: " +:+ product))))
  end.
End new_reconciler.

(** ** VerifyVersion and GetPreflightObject *)

Definition installed_product (installation : RHMI) (p : ProductName) : RHMIProductStatus :=
  omap_get zero_product (s_Products (GetInstallStage installation)) p.

Definition verify_product (product : ProductName) (installation : RHMI) : bool :=
  if product =?s ProductRHSSO then
    VerifyProductAndOperatorVersion (installed_product installation ProductRHSSO)
      VersionRHSSO OperatorVersionRHSSO
  else if product =?s ProductRHSSOUser then
    VerifyProductAndOperatorVersion (installed_product installation ProductRHSSOUser)
      VersionRHSSOUser OperatorVersionRHSSOUser
  else if product =?s Product3Scale then
    VerifyProductAndOperatorVersion (installed_product installation Product3Scale)
      Version3Scale OperatorVersion3Scale
  else if product =?s ProductCloudResources then
    VerifyProductAndOperatorVersion (installed_product installation ProductCloudResources)
      VersionCloudResources OperatorVersionCloudResources
  else if product =?s ProductMarin3r then
    VerifyProductAndOperatorVersion (installed_product installation ProductMarin3r)
      VersionMarin3r OperatorVersionMarin3r
  else true.

(** The methods do not use their receiver, so a nil product pointer would
    answer too; the callers have checked the constructor's error before. *)
Definition VerifyVersion (r : Reconciler) (installation : RHMI) : outcome bool :=
  match r with
  | NilReconciler => Panic "nil pointer dereference"
  | NoOp => Done true
  | ProductReconciler p _ => Done (verify_product p installation)
  end.

(** [None] is a nil object. *)
Definition GetPreflightObject (r : Reconciler) (ns : string) : outcome (option PreflightObject) :=
  match r with
  | NilReconciler => Panic "nil pointer dereference"
  | NoOp => Done (Some (PreDeployment "" ""))
  | ProductReconciler p _ =>
      Done (if (p =?s ProductRHSSO) || (p =?s ProductRHSSOUser) then Some (PreDeploymentConfig ns "sso")
            else if p =?s Product3Scale then Some (PreDeployment ns "system-app")
            else None)
  end.

Section preflight_exists.
Context {W : Type} `{Client W DeploymentRef} `{Client W DeploymentConfigRef}.

Definition preflight_exists (c : KClient) (o : PreflightObject) : M W (bool * option error) :=
  match o with
  | PreDeployment ns n => Exists c (mkDeploymentRef (named ns n))
  | PreDeploymentConfig ns n => Exists c (mkDeploymentConfigRef (named ns n))
  end.
End preflight_exists.

(** ** Facts about the constructors *)

Section constructor_facts.
Context {W : Type} `{Client W ConfigMap} `{Yaml} `{ProductsInstallationLoader W}
  `{OpenshiftClients W}.

(** A constructor that reports no error has made the reconciler of the
    product it was asked for. *)
Lemma NewReconciler_ok product m i (w w' : W) m' r :
  NewReconciler product m i w = (Done (m', (r, None)), w') →
  ∃ c, r = ProductReconciler product c ∧ GetProductName c = product.
Proof.
  unfold NewReconciler. intros Hn.
  apply bind_done_inv in Hn as ([e|declared] & w1 & _ & Hn); [go_inv|].
  assert (∀ new (k : M W Constructed) w r, mbind (λ _ : unit, k) (openshift_client new) w = (Done r, w') →
    ∃ w2, k w2 = (Done r, w')) as Hos.
  { intros new k w2 r2 Hk. apply bind_done_inv in Hk as (? & w3 & _ & Hk). eauto. }
  repeat (destruct (product =?s _) eqn:E; [apply str_eqb_true in E; subst product|clear E]).
  all: try (apply Hos in Hn as [? Hn]); try (apply Hos in Hn as [? Hn]).
  all: unfold rhsso_NewReconciler, rhssouser_NewReconciler, threescale_NewReconciler,
    cloudresources_NewReconciler, marin3r_NewReconciler, grafana_NewReconciler in Hn.
  all: go_inv; repeat (case_match; go_inv); simplify_eq/=; eexists; (split; [reflexivity|]); reflexivity.
Qed.
End constructor_facts.
