(* ===== verification/Session.v ===== *)
(** * The state of one reconcile

    What the functions of the installation controller share: the world, the
    installation object and the config manager they hold pointers to, the
    quota being applied, and the package's global variables, which outlive a
    reconcile: the stage tables of types.go, productVersionMismatchFound and
    the reconciler's informers.  The interfaces to the world work on a session
    through its world. *)

From stdpp Require Import base list strings gmap.
From Stdlib Require Import ZArith Lia.
From S2P Require Import Prelude Kube Api Resources Quota Config Metrics Products.

(** ** types.go *)

Record Stage := mkStage {
  st_Products : option (gmap string RHMIProductStatus); st_Name : StageName }.
Record InstallType := mkType { InstallStages : list Stage; UninstallStages : list Stage }.

(** A product's entry in a stage table: only its name is set. *)
Definition entry (p : ProductName) : string * RHMIProductStatus :=
  (p, mkProductStatus p "" "" "" "" false "" false).
Definition stage_of (n : StageName) (ps : list ProductName) : Stage :=
  mkStage (Some (list_to_map (entry <$> ps))) n.

Definition allMultitenantManagedApiStages : InstallType := mkType
  [mkStage None BootstrapStage;
   stage_of InstallStage
     [ProductCloudResources; ProductRHSSO; Product3Scale; ProductMarin3r; ProductGrafana]]
  [stage_of UninstallProductsStage [ProductRHSSO; Product3Scale; ProductMarin3r; ProductGrafana];
   stage_of UninstallCloudResourcesStage [ProductCloudResources];
   mkStage None UninstallBootstrap].

Definition allManagedApiStages : InstallType := mkType
  [mkStage None BootstrapStage;
   stage_of InstallStage
     [ProductCloudResources; ProductRHSSO; Product3Scale; ProductRHSSOUser; ProductMarin3r;
      ProductGrafana]]
  [stage_of UninstallProductsStage
     [ProductRHSSO; Product3Scale; ProductRHSSOUser; ProductMarin3r; ProductGrafana];
   stage_of UninstallCloudResourcesStage [ProductCloudResources];
   mkStage None UninstallBootstrap].

Definition HasProduct (_ : InstallType) (_ : string) : bool := false.
Definition GetInstallStages (t : InstallType) : list Stage := InstallStages t.
Definition GetUninstallStages (t : InstallType) : list Stage := UninstallStages t.

(** Which of the two tables a name denotes; the factory hands out a pointer
    to the table itself, so a table is named and read in the session. *)
Inductive TypeRef := ManagedApi | Multitenant.

Definition TypeFactory (installationType : InstallationType) : error + TypeRef :=
  if installationType =?s InstallationTypeManagedApi then inr ManagedApi
  else if installationType =?s InstallationTypeMultitenantManagedApi then inr Multitenant
  else inl (ErrStr ("unknown installation type: " +:+ installationType)).

(** GetProductNamespaces: the keys of the map it builds. *)
Definition expectedNamespaces : list string :=
  [Product3Scale; Product3Scale +:+ "-operator"; ProductMarin3r; ProductMarin3r +:+ "-operator";
   ProductCloudResources +:+ "-operator"; ProductRHSSO; ProductRHSSO +:+ "-operator";
   "user-sso"; "user-sso-operator"; "customer-monitoring"; "operator-observability"].
Definition GetProductNamespaces (watchNamespace : string) : gset string :=
  let namespacePrefix := trim_suffix "operator" watchNamespace in
  {[watchNamespace]} ∪ list_to_set ((λ s, namespacePrefix +:+ s) <$> expectedNamespaces).

(** ** The session *)

(** ctrl.Result *)
Record Result := mkResult { Requeue : bool; RequeueAfter : Z }.
Definition zero_Result : Result := mkResult false 0.

Record Globals := mkGlobals {
  managedApi : InstallType;
  multitenant : InstallType;
  productVersionMismatchFound : bool;
  (** by GVK and namespace: the informer's handle *)
  customInformers : gmap string (gmap string nat);
}.

Record Session (W Q : Type) := mkSession {
  world : W;
  installation : RHMI;
  configManager : Manager;
  installationQuota : Quota Q;
  globals : Globals;
}.
Arguments mkSession {W Q} _ _ _ _ _.
Arguments world {W Q} _.
Arguments installation {W Q} _.
Arguments configManager {W Q} _.
Arguments installationQuota {W Q} _.
Arguments globals {W Q} _.

Section session.
Context {W Q : Type}.
Implicit Types (s : Session W Q).

Definition set_world (w : W) s : Session W Q :=
  mkSession w (installation s) (configManager s) (installationQuota s) (globals s).
Definition set_installation (i : RHMI) s : Session W Q :=
  mkSession (world s) i (configManager s) (installationQuota s) (globals s).
Definition set_configManager (m : Manager) s : Session W Q :=
  mkSession (world s) (installation s) m (installationQuota s) (globals s).
Definition set_installationQuota (q : Quota Q) s : Session W Q :=
  mkSession (world s) (installation s) (configManager s) q (globals s).
Definition set_globals (g : Globals) s : Session W Q :=
  mkSession (world s) (installation s) (configManager s) (installationQuota s) g.

Definition set_mismatch (b : bool) s : Session W Q :=
  set_globals (mkGlobals (managedApi (globals s)) (multitenant (globals s)) b
    (customInformers (globals s))) s.
Definition set_informers (m : gmap string (gmap string nat)) s : Session W Q :=
  set_globals (mkGlobals (managedApi (globals s)) (multitenant (globals s))
    (productVersionMismatchFound (globals s)) m) s.

(** The table a TypeRef points to, and a write to the products of its
    [i]-th install stage: stages are copied out of the slice by value, but
    their product maps are shared with it. *)
Definition get_type (r : TypeRef) s : InstallType :=
  match r with ManagedApi => managedApi (globals s) | Multitenant => multitenant (globals s) end.
Definition set_type (r : TypeRef) (t : InstallType) s : Session W Q :=
  let g := globals s in
  set_globals (match r with
    | ManagedApi => mkGlobals t (multitenant g) (productVersionMismatchFound g) (customInformers g)
    | Multitenant => mkGlobals (managedApi g) t (productVersionMismatchFound g) (customInformers g)
    end) s.
Definition set_install_stage (r : TypeRef) (i : nat) (st : Stage) s : Session W Q :=
  let t := get_type r s in
  set_type r (mkType (<[i := st]> (InstallStages t)) (UninstallStages t)) s.

(** Run a function of the world, or of another part, on the session. *)
Definition on_world {A} (m : M W A) : M (Session W Q) A := λ s,
  let '(r, w) := m (world s) in (r, set_world w s).

(** installation.X = ..., and a read of the installation. *)
Definition upd_installation (f : RHMI → RHMI) : M (Session W Q) unit :=
  modifies (λ s, set_installation (f (installation s)) s).
Definition upd_status (f : RHMIStatus → RHMIStatus) : M (Session W Q) unit :=
  upd_installation (on_status f).
Definition the_installation : M (Session W Q) RHMI := reads installation.
End session.

(** The interfaces of the world, on a session. *)
Section lifted.
Context {W Q : Type}.

#[export] Instance session_client {O} `{Client W O} : Client (Session W Q) O := {|
  client_get c ns n := on_world (client_get c ns n);
  client_list c o := on_world (client_list c o);
  client_create c o := on_world (client_create c o);
  client_update c o := on_world (client_update c o);
  client_status_update c o := on_world (client_status_update c o);
  client_delete c o := on_world (client_delete c o);
  client_patch c o := on_world (client_patch c o);
|}.
#[export] Instance session_new_client `{NewClient W} : NewClient (Session W Q) :=
  on_world k8sclient_New.
#[export] Instance session_env `{OsEnv W} : OsEnv (Session W Q) :=
  λ k s, LookupEnv k (world s).
#[export] Instance session_clock `{Clock W} : Clock (Session W Q) := λ s, now (world s).
#[export] Instance session_recorder `{EventRecorder W} : EventRecorder (Session W Q) :=
  λ t r m s, set_world (record_event t r m (world s)) s.
#[export] Instance session_range `{MapRange W} : MapRange (Session W Q) :=
  λ s X, range_keys (world s) X.
#[export] Instance session_range_laws `{MapRangeLaws W} : MapRangeLaws (Session W Q).
Proof. intros s X. exact (range_keys_perm (world s) X). Qed.
#[export] Instance session_prometheus `{Prometheus W} : Prometheus (Session W Q) := {|
  gauge_Reset g s := set_world (gauge_Reset g (world s)) s;
  gauge_Set g l v s := set_world (gauge_Set g l v (world s)) s;
|}.
#[export] Instance session_loader `{ProductsInstallationLoader W}
    : ProductsInstallationLoader (Session W Q) := on_world GetProductsInstallation.
#[export] Instance session_openshift `{OpenshiftClients W} : OpenshiftClients (Session W Q) := {|
  oauth_NewForConfig := on_world oauth_NewForConfig;
  apps_NewForConfig := on_world apps_NewForConfig;
|}.

(** Client.Update and Client.Status().Update of the installation: the answer
    of the server replaces the object in memory. *)
Context `{Client W RHMI}.
Definition update_installation (c : KClient) : M (Session W Q) (option error) :=
  i ← the_installation;
  r ← client_update c i;
  match r with
  | inl err => mret (Some err)
  | inr i => upd_installation (λ _, i) ;; mret None
  end.
Definition update_installation_status (c : KClient) : M (Session W Q) (option error) :=
  i ← the_installation;
  r ← client_status_update c i;
  match r with
  | inl err => mret (Some err)
  | inr i => upd_installation (λ _, i) ;; mret None
  end.
End lifted.

(** ** Frames *)

Section session_frames.
Context {W Q : Type}.

Lemma the_installation_frame (R : Session W Q → Session W Q → Prop) :
  PreOrder R → preserves R the_installation.
Proof. intros HR. unfold the_installation. by apply preserves_reads. Qed.
Lemma upd_installation_globals f :
  preserves (same (globals (W := W) (Q := Q))) (upd_installation f).
Proof. unfold upd_installation. by apply preserves_modifies. Qed.
Lemma upd_status_globals f : preserves (same (globals (W := W) (Q := Q))) (upd_status f).
Proof. apply upd_installation_globals. Qed.
Lemma on_world_same {A B} (m : M W A) (f : Session W Q → B) :
  (∀ s w, f (set_world w s) = f s) → preserves (same f) (on_world m).
Proof.
  intros Hf s r s'. unfold on_world. destruct (m (world s)) as [r2 w2].
  intros [= <- <-]. apply Hf.
Qed.
Lemma on_world_globals {A} (m : M W A) : preserves (same (globals (W := W) (Q := Q))) (on_world m).
Proof. by apply on_world_same. Qed.
Lemma new_client_globals `{NewClient W} :
  preserves (same (globals (W := W) (Q := Q))) k8sclient_New.
Proof. apply on_world_globals. Qed.

(** What leaves the globals alone leaves anything read off them alone. *)
Lemma same_globals {A B} (f : Globals → B) (m : M (Session W Q) A) :
  preserves (same globals) m → preserves (same (λ s, f (globals s))) m.
Proof. intros Hm s r s' E. unfold same. by rewrite (Hm _ _ _ E). Qed.
End session_frames.

#[export] Hint Resolve the_installation_frame upd_installation_globals upd_status_globals
  on_world_globals new_client_globals : go.

(** ** Facts about the tables *)

Lemma stage_products_of n ps p s :
  p ∈ ps → NoDup ps → st_Products (stage_of n ps) = Some s → s !! p = Some (entry p).2.
Proof.
  intros Hp Hnd [= <-]. apply elem_of_list_to_map_1.
  - rewrite <- list_fmap_compose. change (fst ∘ entry) with (@id string).
    by rewrite list_fmap_id.
  - apply list_elem_of_fmap. by exists p.
Qed.

(** Every product an installation type installs is uninstalled by it:
    the products of its uninstall stages are those of its install stages,
    each in exactly one uninstall stage, and cloud resources come after all
    the others. *)
Theorem uninstall_covers_install t :
  t ∈ [allManagedApiStages; allMultitenantManagedApiStages] →
  let products (l : list Stage) :=
    concat ((λ st, elements (dom (make_if_nil (st_Products st)))) <$> l) in
  products (GetUninstallStages t) ≡ₚ products (GetInstallStages t)
  ∧ NoDup (products (GetUninstallStages t))
  ∧ (∃ front st back, GetUninstallStages t = front ++ st :: back
      ∧ dom (make_if_nil (st_Products st)) = {[ProductCloudResources]}
      ∧ products front ≡ₚ filter (λ p, p ≠ ProductCloudResources) (products (GetInstallStages t))
      ∧ products back = []).
Proof.
  intros Ht. repeat (apply elem_of_cons in Ht as [->|Ht]; [|]); [..|by apply elem_of_nil in Ht];
    (split; [apply (bool_decide_unpack _); vm_compute; exact I|]);
    (split; [apply (bool_decide_unpack _); vm_compute; exact I|]).
  - exists [stage_of UninstallProductsStage
       [ProductRHSSO; Product3Scale; ProductRHSSOUser; ProductMarin3r; ProductGrafana]],
      (stage_of UninstallCloudResourcesStage [ProductCloudResources]),
      [mkStage None UninstallBootstrap].
    split; [done|]. split; [by apply set_eq; vm_compute|].
    split; [apply (bool_decide_unpack _); vm_compute; exact I|done].
  - exists [stage_of UninstallProductsStage
       [ProductRHSSO; Product3Scale; ProductMarin3r; ProductGrafana]],
      (stage_of UninstallCloudResourcesStage [ProductCloudResources]),
      [mkStage None UninstallBootstrap].
    split; [done|]. split; [by apply set_eq; vm_compute|].
    split; [apply (bool_decide_unpack _); vm_compute; exact I|done].
Qed.

(** The products an installation reports in its install stage. *)
Definition reported_products (i : RHMI) : gset string :=
  dom (make_if_nil (s_Products (GetInstallStage i))).
(** The products a type installs. *)
Definition installed_products (t : InstallType) : gset string :=
  ⋃ ((λ st, dom (make_if_nil (st_Products st))) <$> InstallStages t).

(** A multitenant installation, which does not install the user SSO, is
    never reported healthy, whatever the phases of its products are. *)
Theorem multitenant_never_healthy i :
  reported_products i ⊆ installed_products allMultitenantManagedApiStages →
  IsCoreComponentsHealthy i = false.
Proof.
  intros Hsub. unfold IsCoreComponentsHealthy.
  assert (IsProductInInstallStagePhaseComplete i ProductRHSSOUser = false) as ->;
    [|by rewrite andb_false_r].
  unfold IsProductInInstallStagePhaseComplete.
  assert (ProductRHSSOUser ∉ reported_products i) as Hn.
  { intros Hin. apply Hsub in Hin. revert Hin. apply (bool_decide_unpack _). vm_compute. exact I. }
  unfold reported_products in Hn. rewrite not_elem_of_dom in Hn.
  unfold omap_get, map_get. destruct (s_Products (GetInstallStage i)) as [m|]; [|done].
  cbn in Hn. by rewrite Hn.
Qed.

(** The operator watches, for an operator namespace made of a prefix and
    the word operator, its own namespace and the namespace every product
    constructor gives its product and its operator. *)
Theorem GetProductNamespaces_covers prefix p :
  p ∈ ["3scale"; "3scale-operator"; "marin3r"; "marin3r-operator"; "cloud-resources-operator";
       "rhsso"; "rhsso-operator"; "user-sso"; "user-sso-operator"; "customer-monitoring";
       "operator"] →
  prefix +:+ p ∈ GetProductNamespaces (prefix +:+ "operator").
Proof.
  intros Hp. unfold GetProductNamespaces. rewrite trim_suffix_app.
  rewrite elem_of_union, elem_of_singleton, elem_of_list_to_set.
  destruct (decide (p = "operator")) as [->|Hne]; [by left|right].
  apply list_elem_of_fmap_2. unfold expectedNamespaces.
  repeat (apply elem_of_cons in Hp as [->|Hp]; [apply (bool_decide_unpack _); vm_compute; exact I|]).
  apply list_elem_of_singleton in Hp. done.
Qed.

Lemma GetProductNamespaces_covers_witness :
  "redhat-rhoam-marin3r" ∈ GetProductNamespaces "redhat-rhoam-operator".
Proof.
  apply (GetProductNamespaces_covers "redhat-rhoam-" "marin3r").
  apply (bool_decide_unpack _). vm_compute. exact I.
Defined.

Lemma uninstall_covers_install_witness :
  NoDup (concat ((λ st, elements (dom (make_if_nil (st_Products st)))) <$>
    GetUninstallStages allManagedApiStages)).
Proof.
  apply (uninstall_covers_install allManagedApiStages).
  apply list_elem_of_In. left. reflexivity.
Defined.
