(* ===== verification/Tenants.v ===== *)
(** * The tenant controller (internal/controller/tenant)

    One APIManagementTenant of a multitenant installation is reconciled
    through its provisioning status: nothing, user annotated, account
    requested, account ready; a tenant that is refused is marked so.

    The functions hold a pointer to the tenant: each returns it with what it
    assigned, also when the write to the API failed, or as the server
    answered. *)

From stdpp Require Import base list strings gmap.
From Stdlib Require Import ZArith Lia.
From S2P Require Import Prelude Kube Api Resources Users Olm Quota Config Metrics Products Session.

(** ** The controller *)

(** ctrl.Request *)
Record Request := mkRequest { req_Namespace : string; req_Name : string }.

Definition requeue_soon : Result := mkResult true (15 * second_ns).

(** The three statuses of a tenant that has been accepted. *)
Definition provisioned (t : APIManagementTenant) : bool :=
  let s := ProvisioningStatus (tenant_Status t) in
  (s =?s ThreeScaleAccountReady) || (s =?s ThreeScaleAccountRequested) || (s =?s UserAnnotated).

Definition assign_LastError (e : string) (t : APIManagementTenant) : APIManagementTenant :=
  mkTenant (tenant_meta t)
    (mkTenantStatus e (ProvisioningStatus (tenant_Status t)) (TenantUrl (tenant_Status t))).
Definition assign_ProvisioningStatus (s : string) (t : APIManagementTenant) : APIManagementTenant :=
  mkTenant (tenant_meta t)
    (mkTenantStatus (t_LastError (tenant_Status t)) s (TenantUrl (tenant_Status t))).
Definition assign_TenantUrl (u : string) (t : APIManagementTenant) : APIManagementTenant :=
  mkTenant (tenant_meta t)
    (mkTenantStatus (t_LastError (tenant_Status t)) (ProvisioningStatus (tenant_Status t)) u).

(** The user a namespace belongs to: both suffixes are cut, in this order. *)
Definition username_of (ns : string) : string := trim_suffix "-stage" (trim_suffix "-dev" ns).

Definition tenant_namespace (ns : string) : bool := has_suffix "-dev" ns || has_suffix "-stage" ns.

Section tenants.
Context {W : Type} `{Client W APIManagementTenant} `{Client W User} `{Client W Route}.

Definition update_status (t : APIManagementTenant)
    : M W (APIManagementTenant * option error) :=
  r ← client_status_update ServerClient t;
  mret (match r with inl e => (t, Some e) | inr t' => (t', None) end).

Definition updateLastError (t : APIManagementTenant) (message : string)
    : M W (APIManagementTenant * option error) :=
  update_status (assign_LastError message t).

Definition updateProvisioningStatus (t : APIManagementTenant) (status : string)
    : M W (APIManagementTenant * option error) :=
  '(t, err) ← update_status (assign_ProvisioningStatus status t);
  mret (t, match err with
           | Some e => Some (errorf_v ("error updating the provisioningStatus to " +:+ status
                               +:+ " for tenant " +:+ Name (tenant_meta t) +:+ ": ") (Some e))
           | None => None
           end).

Definition updateTenantUrl (t : APIManagementTenant) (url : string)
    : M W (APIManagementTenant * option error) :=
  '(t, err) ← update_status (assign_TenantUrl url t);
  mret (t, match err with
           | Some e => Some (errorf_v ("error updating the tenantUrl to " +:+ url
                               +:+ " for tenant " +:+ Name (tenant_meta t) +:+ ": ") (Some e))
           | None => None
           end).

Definition getUserByTenantNamespace (ns : string) : M W (error + User) :=
  client_get (O := User) ServerClient "" (username_of ns).

(** The value verb forgets the kind of the error. *)
Definition getAPIManagementTenant (crName crNamespace : string) : M W (error + APIManagementTenant) :=
  got ← client_get ServerClient crNamespace crName;
  mret (match got with
        | inl e => inl (errorf_v ("error getting tenant " +:+ crName +:+ ": ") (Some e))
        | inr t => inr t
        end).

(** The loop over the two namespaces of the user. *)
Fixpoint check_namespaces (namespacesToCheck : list string) : M W (bool * string * option error) :=
  match namespacesToCheck with
  | [] => mret (true, "", None)
  | ns :: rest =>
      ls ← client_list (O := APIManagementTenant) ServerClient (InNamespace ns);
      match ls with
      | inl e => mret (false, "an error occurred while trying to check if another reconciled APIManagementTenant CR already exists", Some e)
      | inr items =>
          if existsb provisioned items
          then mret (false, "can't create more than 1 APIManagementTenant CR in -dev or -stage namespace", None)
          else check_namespaces rest
      end
  end.

Definition verifyAPIManagementTenant (t : APIManagementTenant) : M W (bool * string * option error) :=
  if provisioned t then mret (true, "", None)
  else
    let ns := Namespace (tenant_meta t) in
    if negb (tenant_namespace ns)
    then mret (false, "tenant not created in a namespace ending in {USERNAME}-dev or {USERNAME}-stage", None)
    else
      got ← getUserByTenantNamespace ns;
      match got with
      | inl e =>
          if IsNotFound (Some e)
          then mret (false, "the user extracted by the APIManagementTenant's namespace does not exist", None)
          else mret (false, "an error occurred while trying to get the user by the APIManagementTenant's namespace", Some e)
      | inr user =>
          let n := Name (user_meta user) in check_namespaces [n +:+ "-dev"; n +:+ "-stage"]
      end.

Definition annotate_user (user : User) : User :=
  set_meta (SetAnnotations (Some (<["tenant" := "yes"]> (make_if_nil (Annotations (user_meta user)))))
              (user_meta user)) user.

Definition addAnnotationToUser (t : APIManagementTenant) : M W (APIManagementTenant * option error) :=
  if ProvisioningStatus (tenant_Status t) =?s "" then
    got ← getUserByTenantNamespace (Namespace (tenant_meta t));
    match got with
    | inl e => mret (t, Some (errorf_v ("error getting user for tenant " +:+ Name (tenant_meta t) +:+ ": ")
                               (Some e)))
    | inr user =>
        '(user, (_, err)) ← CreateOrUpdate ServerClient user (λ u, mret (annotate_user u, None));
        match err with
        | Some e => mret (t, Some (errorf_v ("failed to add tenant annotation to user "
                               +:+ Name (user_meta user) +:+ ": ") (Some e)))
        | None => updateProvisioningStatus t UserAnnotated
        end
    end
  else mret (t, None).

(** Requested, with the reason to wait as the last error. *)
Definition await_account (t : APIManagementTenant) (message : string)
    : M W (APIManagementTenant * (bool * option error)) :=
  '(t, err) ← updateProvisioningStatus t ThreeScaleAccountRequested;
  match err with
  | Some e => mret (t, (false, Some e))
  | None => '(t, err) ← updateLastError t message; mret (t, (false, err))
  end.

Definition routes_of_tenants : ListOptions :=
  mkListOptions (Some "sandbox-rhoam-3scale") [("zync.3scale.net/route-to", "system-provider")].

Definition reconcileTenantUrl (t : APIManagementTenant)
    : M W (APIManagementTenant * (bool * option error)) :=
  if ProvisioningStatus (tenant_Status t) =?s ThreeScaleAccountReady then mret (t, (true, None))
  else
    routes ← client_list (O := Route) ServerClient routes_of_tenants;
    match routes with
    | inl e => mret (t, (false, Some e))
    | inr [] => mret (t, (false, Some (ErrStr
                  "failed to find any system-developer routes in namespace sandbox-rhoam-3scale")))
    | inr routes =>
        got ← getUserByTenantNamespace (Namespace (tenant_meta t));
        match got with
        | inl e => mret (t, (false, Some e))
        | inr user =>
            match List.find (λ r, str_contains (Name (user_meta user)) (rt_Host r)) routes with
            | None => await_account t ("waiting for route creation for tenant " +:+ Name (tenant_meta t))
            | Some foundRoute =>
                if negb (omap_get "" (Annotations (user_meta user)) "ssoReady" =?s "yes")
                then await_account t ("waiting for SSO for user " +:+ Name (user_meta user) +:+ " to be ready")
                else
                  '(t, err) ← updateTenantUrl t (rt_Host foundRoute);
                  match err with
                  | Some e => mret (t, (false, Some e))
                  | None =>
                      '(t, err) ← updateProvisioningStatus t ThreeScaleAccountReady;
                      match err with
                      | Some e => mret (t, (false, Some e))
                      | None => mret (t, (true, None))
                      end
                  end
            end
        end
    end.

(** Write the error down and return it, unless writing it failed. *)
Definition fail_with (t : APIManagementTenant) (r : Result) (e : error)
    : M W (APIManagementTenant * (Result * option error)) :=
  '(t, err1) ← updateLastError t (error_msg e);
  mret (t, (r, match err1 with Some e1 => Some e1 | None => Some e end)).

Definition reconcile_verified (t : APIManagementTenant)
    : M W (APIManagementTenant * (Result * option error)) :=
  '(t, err) ← addAnnotationToUser t;
  match err with
  | Some e => fail_with t requeue_soon e
  | None =>
      '(t, (wasTenantUrlReconciled, err)) ← reconcileTenantUrl t;
      match err with
      | Some e => fail_with t requeue_soon e
      | None =>
          if negb wasTenantUrlReconciled then mret (t, (requeue_soon, None))
          else '(t, err1) ← updateLastError t ""; mret (t, (zero_Result, err1))
      end
  end.

Definition refuse (t : APIManagementTenant) (rejectionReason : string)
    : M W (APIManagementTenant * (Result * option error)) :=
  '(t, err1) ← updateProvisioningStatus t WontProvisionTenant;
  match err1 with
  | Some e1 => mret (t, (zero_Result, Some e1))
  | None => '(t, err1) ← updateLastError t rejectionReason; mret (t, (zero_Result, err1))
  end.

Definition reconcile_tenant (t : APIManagementTenant)
    : M W (APIManagementTenant * (Result * option error)) :=
  '(isTenantVerified, rejectionReason, err) ← verifyAPIManagementTenant t;
  match err with
  | Some e => fail_with t zero_Result e
  | None =>
      if negb (isTenantVerified : bool) then refuse t rejectionReason
      else reconcile_verified t
  end.

Definition tenant_Reconcile (request : Request) : M W (Result * option error) :=
  got ← getAPIManagementTenant (req_Name request) (req_Namespace request);
  match got with
  | inl e => if IsNotFound (Some e) then mret (zero_Result, None) else mret (zero_Result, Some e)
  | inr t => '(_, r) ← reconcile_tenant t; mret r
  end.
End tenants.

(** ** At most one tenant of a user is accepted

    What the API does to the tenants it stores: [tenants w] is the server's
    table.  Reads show it, a status write changes the status of the tenant
    written to or nothing, and a write that fails may have happened; writes
    to users and reads of users and routes leave it alone. *)

Definition tenant_key (t : APIManagementTenant) : string * string :=
  (Namespace (tenant_meta t), Name (tenant_meta t)).

Class TenantStore (W : Type) `{Client W APIManagementTenant} `{Client W User} `{Client W Route} := {
  tenants : W → gmap (string * string) APIManagementTenant;
  tenant_get_law : ∀ c ns n w r w', client_get c ns n w = (r, w') →
    tenants w' = tenants w
    ∧ ∀ t, r = Done (inr t) → tenants w !! (ns, n) = Some t ∧ tenant_key t = (ns, n);
  tenant_list_law : ∀ c ns w r w', client_list c (InNamespace ns) w = (r, w') →
    tenants w' = tenants w
    ∧ ∀ l n t, r = Done (inr l) → tenants w !! (ns, n) = Some t → t ∈ l;
  tenant_status_law : ∀ c t w r w', client_status_update c t w = (r, w') →
    ∃ t', tenant_key t' = tenant_key t ∧ tenant_Status t' = tenant_Status t
      ∧ (tenants w' = tenants w ∨ tenants w' = <[tenant_key t := t']> (tenants w))
      ∧ ∀ t'', r = Done (inr t'') → t'' = t';
  tenant_user_get_law : ∀ c ns n w r w', client_get (O := User) c ns n w = (r, w') →
    tenants w' = tenants w ∧ ∀ u, r = Done (inr u) → Name (user_meta u) = n;
  tenant_user_create_law : ∀ c (u : User), preserves (same tenants) (client_create c u);
  tenant_user_update_law : ∀ c (u : User), preserves (same tenants) (client_update c u);
  tenant_route_list_law : ∀ c o, preserves (same tenants) (client_list (O := Route) c o);
}.

Section facts.
Context {W : Type} `{TenantStore W}.
Implicit Types (t : APIManagementTenant) (k : string * string).

(** A run that writes to the tenant [k] only, and there only statuses that
    satisfy [P], and what it returns of the tenant satisfies [Post]. *)
Definition only_writes k (P : APIManagementTenantStatus → Prop) : W → W → Prop := λ w w',
  (∀ k', k' ≠ k → tenants w' !! k' = tenants w !! k')
  ∧ ∀ t, tenants w' !! k = Some t → tenants w !! k = Some t ∨ P (tenant_Status t).
#[export] Instance only_writes_preorder k P : PreOrder (only_writes k P).
Proof.
  split; [by split; auto|]. intros a b c [Ho1 Hk1] [Ho2 Hk2]. split.
  - intros k' Hne. by rewrite Ho2, Ho1.
  - intros t [?|?]%Hk2; auto.
Qed.

Definition tracks {A} k P (m : M W (APIManagementTenant * A)) (Post : APIManagementTenant → A → Prop) :=
  ∀ w r w', m w = (r, w') →
    only_writes k P w w' ∧ ∀ t a, r = Done (t, a) → tenant_key t = k ∧ Post t a.

Lemma same_only_writes k P w w' : same tenants w w' → only_writes k P w w'.
Proof. unfold same. intros E. split; [by rewrite E|rewrite E; auto]. Qed.

Lemma tracks_ret {A} k P t (a : A) (Post : _ → _ → Prop) :
  tenant_key t = k → Post t a → tracks k P (mret (t, a)) Post.
Proof. intros ?? w r w' [= <- <-]. split; [reflexivity|]. by intros ?? [= <- <-]. Qed.

Lemma tracks_bind {A B} k P (m : M W (APIManagementTenant * A)) Q
    (f : APIManagementTenant * A → M W (APIManagementTenant * B)) Post :
  tracks k P m Q → (∀ t a, tenant_key t = k → Q t a → tracks k P (f (t, a)) Post) →
  tracks k P (mbind f m) Post.
Proof.
  intros Hm Hf w r w'. rewrite run_bind. destruct (m w) as [[[t a]|why] w1] eqn:E.
  - destruct (Hm _ _ _ E) as [Hw Hq]. destruct (Hq t a eq_refl) as [Hk Ha]. intros Hfw.
    destruct (Hf t a Hk Ha _ _ _ Hfw) as [Hw' ?]. split; [by etransitivity|done].
  - intros [= <- <-]. destruct (Hm _ _ _ E). split; [done|discriminate].
Qed.

Lemma tracks_reads {A B} k P (m : M W A) (f : A → M W (APIManagementTenant * B)) Post :
  preserves (same tenants) m → (∀ a w w', m w = (Done a, w') → tracks k P (f a) Post) →
  tracks k P (mbind f m) Post.
Proof.
  intros Hm Hf w r w'. rewrite run_bind. destruct (m w) as [[a|why] w1] eqn:E.
  - intros Hfw. destruct (Hf a _ _ E _ _ _ Hfw) as [Hw' ?]. split; [|done].
    etransitivity; [|exact Hw']. eapply same_only_writes, Hm, E.
  - intros [= <- <-]. split; [eapply same_only_writes, Hm, E|discriminate].
Qed.

Lemma update_status_tracks k P t :
  tenant_key t = k → P (tenant_Status t) →
  tracks k P (update_status t) (λ t' _, tenant_Status t' = tenant_Status t).
Proof.
  intros Hk HP w r w'. unfold update_status. rewrite run_bind.
  destruct (client_status_update ServerClient t w) as [o w1] eqn:E.
  destruct (tenant_status_law _ _ _ _ _ E) as (t' & Hk' & Hs & Hw & Hr).
  assert (only_writes k P w w1) as Hwr.
  { split.
    - intros k' Hne. destruct Hw as [->| ->]; [done|]. rewrite lookup_insert_ne; congruence.
    - intros x. destruct Hw as [->| ->]; [auto|]. rewrite Hk, lookup_insert_eq.
      intros [= <-]. right. by rewrite Hs. }
  destruct o as [[e|t'']|why]; cbn; intros [= <- <-]; split; try done; intros ? ? [= <- <-].
  - done.
  - rewrite (Hr t'' eq_refl). split; congruence.
Qed.

Lemma updateLastError_tracks k P t msg :
  tenant_key t = k → P (tenant_Status (assign_LastError msg t)) →
  tracks k P (updateLastError t msg) (λ t' _, tenant_Status t' = tenant_Status (assign_LastError msg t)).
Proof. intros. by apply update_status_tracks. Qed.
Lemma updateProvisioningStatus_tracks k P t s :
  tenant_key t = k → P (tenant_Status (assign_ProvisioningStatus s t)) →
  tracks k P (updateProvisioningStatus t s)
    (λ t' _, tenant_Status t' = tenant_Status (assign_ProvisioningStatus s t)).
Proof.
  intros. eapply tracks_bind; [by apply update_status_tracks|]. intros. by apply tracks_ret.
Qed.
Lemma updateTenantUrl_tracks k P t u :
  tenant_key t = k → P (tenant_Status (assign_TenantUrl u t)) →
  tracks k P (updateTenantUrl t u) (λ t' _, tenant_Status t' = tenant_Status (assign_TenantUrl u t)).
Proof.
  intros. eapply tracks_bind; [by apply update_status_tracks|]. intros. by apply tracks_ret.
Qed.

(** Reads and writes of other objects leave the tenants alone. *)
Lemma get_user_same c ns n : preserves (same tenants) (client_get (W := W) (O := User) c ns n).
Proof. intros w r w' E. apply same_intro. by apply tenant_user_get_law in E as [? _]. Qed.
Lemma list_tenants_same c ns :
  preserves (same tenants) (client_list (W := W) (O := APIManagementTenant) c (InNamespace ns)).
Proof. intros w r w' E. apply same_intro. by apply tenant_list_law in E as [? _]. Qed.
#[local] Hint Resolve get_user_same list_tenants_same tenant_user_create_law
  tenant_user_update_law tenant_route_list_law : go.

Lemma annotate_same (u : User) :
  preserves (same tenants) (CreateOrUpdate (W := W) ServerClient u (λ u, mret (annotate_user u, None))).
Proof. unfold CreateOrUpdate, mutate. frame. Qed.
Lemma getUser_same ns : preserves (same tenants) (getUserByTenantNamespace (W := W) ns).
Proof. unfold getUserByTenantNamespace. frame. Qed.
Lemma check_namespaces_same l : preserves (same tenants) (check_namespaces (W := W) l).
Proof. induction l as [|ns l IH]; cbn [check_namespaces]; frame. Qed.
#[local] Hint Resolve annotate_same getUser_same check_namespaces_same : go.

(** What an account is declared ready on. *)
Definition account_found (ns : string) (st : APIManagementTenantStatus) : Prop :=
  ∃ w1 w2 w3 w4 routes user route,
    client_list (W := W) ServerClient routes_of_tenants w1 = (Done (inr routes), w2)
    ∧ getUserByTenantNamespace (W := W) ns w3 = (Done (inr user), w4)
    ∧ Name (user_meta user) = username_of ns
    ∧ route ∈ routes ∧ str_contains (username_of ns) (rt_Host route) = true
    ∧ omap_get "" (Annotations (user_meta user)) "ssoReady" = "yes"
    ∧ TenantUrl st = rt_Host route.

Section tracked.
Variables (k : string * string) (P : APIManagementTenantStatus → Prop).
Hypothesis P_error : ∀ t e, P (tenant_Status t) → P (tenant_Status (assign_LastError e t)).
Hypothesis P_annotated : ∀ t, P (tenant_Status (assign_ProvisioningStatus UserAnnotated t)).
Hypothesis P_requested : ∀ t, P (tenant_Status (assign_ProvisioningStatus ThreeScaleAccountRequested t)).
Hypothesis P_url : ∀ t u, ProvisioningStatus (tenant_Status t) ≠ ThreeScaleAccountReady →
  P (tenant_Status (assign_TenantUrl u t)).
Hypothesis P_ready : ∀ t, tenant_key t = k → account_found k.1 (tenant_Status t) →
  P (tenant_Status (assign_ProvisioningStatus ThreeScaleAccountReady t)).

#[local] Abbreviation keeps m := (tracks k P m (λ t _, P (tenant_Status t))).

Lemma fail_with_tracks t r e : tenant_key t = k → P (tenant_Status t) → keeps (fail_with (W := W) t r e).
Proof.
  intros. eapply tracks_bind; [apply updateLastError_tracks; eauto|]. cbn.
  intros t' err Hk Hs. apply tracks_ret; [done|]. rewrite Hs. by apply (P_error t).
Qed.

Lemma refuse_tracks t reason :
  tenant_key t = k → P (tenant_Status (assign_ProvisioningStatus WontProvisionTenant t)) →
  keeps (refuse (W := W) t reason).
Proof.
  intros Hk HP. eapply tracks_bind; [by apply updateProvisioningStatus_tracks|].
  cbn [fst snd]. intros t1 err Hk1 Hs1. rewrite <- Hs1 in HP.
  destruct err as [e|]; [by apply tracks_ret|].
  eapply tracks_bind; [apply updateLastError_tracks; auto|]. cbn [fst snd]. intros t2 err Hk2 Hs2.
  apply tracks_ret; [done|]. rewrite Hs2. by apply P_error.
Qed.

Lemma addAnnotationToUser_tracks t :
  tenant_key t = k → P (tenant_Status t) → keeps (addAnnotationToUser (W := W) t).
Proof.
  intros Hk HP. unfold addAnnotationToUser. destruct (_ =?s _); [|by apply tracks_ret].
  apply tracks_reads; [frame|]. intros [e|u] ? ? _; [by apply tracks_ret|].
  apply tracks_reads; [frame|]. intros [u' [? [e|]]] ? ? _; [by apply tracks_ret|].
  intros w1 r w1' E. destruct (updateProvisioningStatus_tracks k P t UserAnnotated Hk (P_annotated t) _ _ _ E)
    as [? Hq]. split; [done|]. intros t' a Hr. destruct (Hq t' a Hr) as [? Hs]. by rewrite Hs.
Qed.

Lemma await_account_tracks t msg : tenant_key t = k → keeps (await_account (W := W) t msg).
Proof.
  intros Hk. unfold await_account.
  eapply tracks_bind; [apply updateProvisioningStatus_tracks; eauto|]. cbn. intros t' err Hk' Hs.
  assert (P (tenant_Status t')) as HP by (rewrite Hs; apply (P_requested t)).
  destruct err as [e|]; [by apply tracks_ret|].
  eapply tracks_bind; [apply updateLastError_tracks; eauto|]. cbn. intros t2 err Hk2 Hs2.
  apply tracks_ret; [done|]. rewrite Hs2. by apply (P_error t').
Qed.

Lemma reconcileTenantUrl_tracks t :
  tenant_key t = k → P (tenant_Status t) → keeps (reconcileTenantUrl (W := W) t).
Proof.
  intros Hk HP. unfold reconcileTenantUrl. destruct (_ =?s ThreeScaleAccountReady) eqn:Ere.
  { by apply tracks_ret. }
  apply str_eqb_false in Ere.
  apply tracks_reads; [frame|]. intros [e|routes] w1 w2 Hroutes; [by apply tracks_ret|].
  destruct routes as [|r0 routes]; [by apply tracks_ret|].
  apply tracks_reads; [frame|]. intros [e|user] w3 w4 Huser; [by apply tracks_ret|].
  destruct (List.find _ _) as [route|] eqn:Ef; [|by apply await_account_tracks].
  destruct (_ =?s "yes") eqn:Es; cbn [negb]; [|by apply await_account_tracks].
  apply str_eqb_true in Es. apply List.find_some in Ef as [Hin Hhost].
  assert (Name (user_meta user) = username_of (Namespace (tenant_meta t))) as Hn.
  { apply tenant_user_get_law in Huser as [_ Hu]. by apply Hu. }
  eapply tracks_bind; [apply updateTenantUrl_tracks; eauto|]. cbn. intros t1 err Hk1 Hs1.
  destruct err as [e|]; [apply tracks_ret; [done|]; rewrite Hs1; by apply P_url|].
  eapply tracks_bind.
  { apply updateProvisioningStatus_tracks; [done|]. apply P_ready; [done|].
    rewrite <- Hk. exists w1, w2, w3, w4, (r0 :: routes), user, route.
    rewrite Hn in Hhost. apply list_elem_of_In in Hin. by rewrite Hs1. }
  cbn. intros t2 err Hk2 Hs2. assert (P (tenant_Status t2)).
  { rewrite Hs2. apply P_ready; [done|]. rewrite <- Hk.
    exists w1, w2, w3, w4, (r0 :: routes), user, route.
    rewrite Hn in Hhost. apply list_elem_of_In in Hin. by rewrite Hs1. }
  destruct err; by apply tracks_ret.
Qed.

Lemma reconcile_verified_tracks t :
  tenant_key t = k → P (tenant_Status t) → keeps (reconcile_verified (W := W) t).
Proof.
  intros Hk HP. unfold reconcile_verified.
  eapply tracks_bind; [by apply addAnnotationToUser_tracks|]. cbn. intros t1 [e|] Hk1 HP1.
  { by apply fail_with_tracks. }
  eapply tracks_bind; [by apply reconcileTenantUrl_tracks|]. cbn. intros t2 [ok [e|]] Hk2 HP2.
  { by apply fail_with_tracks. }
  destruct ok; cbn [negb]; [|by apply tracks_ret].
  eapply tracks_bind; [apply updateLastError_tracks; eauto|]. cbn. intros t3 err Hk3 Hs3.
  apply tracks_ret; [done|]. rewrite Hs3. by apply (P_error t2).
Qed.
End tracked.

(** *** Acceptance *)

Definition accepted (m : gmap (string * string) APIManagementTenant) k : Prop :=
  ∃ t, m !! k = Some t ∧ provisioned t = true.
Definition user_namespaces (u : string) : list string := [u +:+ "-dev"; u +:+ "-stage"].

Lemma check_namespaces_true l w r w' reason :
  check_namespaces (W := W) l w = (r, w') → r = Done (true, reason, None) →
  ∀ k, k.1 ∈ l → ¬ accepted (tenants w) k.
Proof.
  revert w. induction l as [|ns l IH]; intros w; cbn [check_namespaces].
  { intros _ _ k Hk. by apply elem_of_nil in Hk. }
  intros Hr -> k Hk (t & Ht & Hp). apply bind_done_inv in Hr as (ls & w1 & Hl & Hr).
  destruct (tenant_list_law _ _ _ _ _ Hl) as [Hsame Hin].
  destruct ls as [e|items]; [by go_inv|].
  destruct (existsb provisioned items) eqn:Ee; [by go_inv|].
  apply elem_of_cons in Hk as [Hk|Hk].
  - assert (t ∈ items) as Hti by (eapply (Hin items k.2); [done|]; by rewrite <- Hk, <- surjective_pairing).
    apply list_elem_of_In in Hti. assert (existsb provisioned items = true); [|congruence].
    apply existsb_exists. eauto.
  - eapply (IH _ Hr eq_refl k Hk). exists t. by rewrite Hsame.
Qed.

(** A tenant passes the verification when it was accepted before, or when
    none of its user's two namespaces has an accepted tenant. *)
Lemma verify_spec t w r w' :
  verifyAPIManagementTenant (W := W) t w = (r, w') →
  tenants w' = tenants w ∧ ∀ reason, r = Done (true, reason, None) →
    provisioned t = true
    ∨ ∀ k, k.1 ∈ user_namespaces (username_of (Namespace (tenant_meta t))) → ¬ accepted (tenants w) k.
Proof.
  intros Hr. split.
  { revert w r w' Hr. change (preserves (same tenants) (verifyAPIManagementTenant (W := W) t)).
    unfold verifyAPIManagementTenant. frame. }
  intros reason ->. unfold verifyAPIManagementTenant in Hr.
  destruct (provisioned t); [by left|right]. destruct (negb _); [by go_inv|].
  apply bind_done_inv in Hr as (got & w1 & Hg & Hr).
  destruct (tenant_user_get_law _ _ _ _ _ _ Hg) as [Hs Hn]. destruct got as [e|user].
  { destruct (has_reason _ _); by go_inv. }
  rewrite (Hn user eq_refl) in Hr. rewrite <- Hs.
  by eapply check_namespaces_true.
Qed.

Lemma reconcile_tenant_accepts k t w r w' :
  tenants w !! k = Some t → tenant_key t = k → reconcile_tenant (W := W) t w = (r, w') →
  (∀ k', k' ≠ k → tenants w' !! k' = tenants w !! k')
  ∧ (accepted (tenants w') k → accepted (tenants w) k
       ∨ ∀ k', k'.1 ∈ user_namespaces (username_of k.1) → ¬ accepted (tenants w) k').
Proof.
  intros Ht Hk Hr.
  assert (∀ (P : Prop), only_writes k (λ st, P ∨ provisioned (mkTenant (tenant_meta t) st) = false) w w' →
    (∀ k', k' ≠ k → tenants w' !! k' = tenants w !! k')
    ∧ (accepted (tenants w') k → accepted (tenants w) k ∨ P)) as Hout.
  { intros P [Ho Hw]. split; [done|]. intros (x & Hx & Hp). destruct (Hw x Hx) as [?|[?|Hf]]; eauto.
    - left. by exists x.
    - unfold provisioned in *; cbn in *; congruence. }
  assert (∀ t', provisioned (mkTenant (tenant_meta t) (tenant_Status t')) = provisioned t') as Hprov by done.
  unfold reconcile_tenant in Hr. rewrite run_bind in Hr.
  destruct (verifyAPIManagementTenant t w) as [[[[ok reason] err]|why] w1] eqn:Ev.
  2:{ apply (Hout _ ). injection Hr as <- <-. apply same_only_writes, same_intro.
      by apply verify_spec in Ev as [? _]. }
  apply verify_spec in Ev as [Hs Hok].
  assert (Hpre : ∀ P, only_writes k P w w1) by (intros; by apply same_only_writes, same_intro).
  destruct err as [e|].
  - destruct (provisioned t) eqn:Ep.
    + destruct (Hout True) as [? _]; [|split; [done|left; by exists t]].
      etransitivity; [apply Hpre|]. eapply (fail_with_tracks k); eauto.
    + apply Hout. etransitivity; [apply Hpre|]. eapply (fail_with_tracks k); eauto.
  - destruct ok; cbn [negb] in Hr.
    + destruct (Hok reason eq_refl) as [Hp|Hnone].
      * destruct (Hout True) as [? _]; [|split; [done|left; by exists t]].
        etransitivity; [apply Hpre|]. eapply (reconcile_verified_tracks k); eauto.
      * destruct (Hout True) as [? _]; [|split; [done|right; by rewrite <- Hk]].
        etransitivity; [apply Hpre|]. eapply (reconcile_verified_tracks k); eauto.
    + apply Hout. etransitivity; [apply Hpre|]. eapply (refuse_tracks k); eauto.
Qed.

(** At most one accepted tenant in the namespaces of a user. *)
Definition one_tenant_each (m : gmap (string * string) APIManagementTenant) : Prop :=
  ∀ u a b, has_suffix "-stage" u = false → a.1 ∈ user_namespaces u → b.1 ∈ user_namespaces u →
    accepted m a → accepted m b → a = b.

(** What happens between two runs of the controller, one at a time: another
    run, for any request, or changes by others, who cannot write statuses. *)
Inductive tenant_step : W → W → Prop :=
  | step_reconcile req w r w' : tenant_Reconcile req w = (r, w') → tenant_step w w'
  | step_others w w' : (∀ k, accepted (tenants w') k → accepted (tenants w) k) → tenant_step w w'.

Lemma username_of_namespaces u ns :
  has_suffix "-stage" u = false → ns ∈ user_namespaces u → username_of ns = u.
Proof.
  intros Hu. unfold user_namespaces, username_of. rewrite !elem_of_cons, elem_of_nil.
  intros [->|[->|[]]].
  - rewrite trim_suffix_app. unfold trim_suffix, trim_prefix.
    unfold has_suffix in Hu. rewrite Hu. apply str_rev_involutive.
  - assert (trim_suffix "-dev" (u +:+ "-stage") = u +:+ "-stage") as ->.
    { unfold trim_suffix, trim_prefix.
      assert (has_prefix (str_rev "-dev") (str_rev (u +:+ "-stage")) = false) as ->; [|apply str_rev_involutive].
      rewrite str_rev_concat. reflexivity. }
    apply trim_suffix_app.
Qed.

Lemma tenant_Reconcile_one_each req w r w' :
  tenant_Reconcile req w = (r, w') → one_tenant_each (tenants w) → one_tenant_each (tenants w').
Proof.
  unfold tenant_Reconcile, getAPIManagementTenant. intros Hr Hone.
  rewrite run_bind in Hr.
  destruct ((mbind (M := M W) _ (client_get _ _ _)) w) as [got w1] eqn:Hg in Hr.
  rewrite run_bind in Hg.
  destruct (client_get ServerClient _ _ w) as [o w0] eqn:E in Hg.
  destruct (tenant_get_law _ _ _ _ _ _ E) as [Hs Ht].
  destruct o as [[e|t]|why]; cbn in Hg; injection Hg as <- <-.
  - destruct (has_reason _ _); cbn in Hr; injection Hr as <- <-; by rewrite Hs.
  - destruct (Ht t eq_refl) as [Hl Hk]. rewrite run_bind in Hr.
    destruct (reconcile_tenant t w0) as [o w2] eqn:Erec.
    assert (w2 = w') as ->.
    { destruct o as [[? ?]|]; cbn in Hr; by injection Hr. }
    rewrite <- Hs in Hl, Hone.
    destruct (reconcile_tenant_accepts _ _ _ _ _ Hl Hk Erec) as [Ho Ha].
    set (k := (req_Namespace req, req_Name req)) in *.
    assert (∀ x, x ≠ k → accepted (tenants w') x → accepted (tenants w0) x) as Hoth.
    { intros x Hx (y & Hy & Hp). exists y. by rewrite <- (Ho x Hx). }
    intros u a b Hu Ha1 Hb1 Haa Hab.
    destruct (decide (a = k)) as [->|Hak], (decide (b = k)) as [->|Hbk]; [done|..].
    + destruct (Ha Haa) as [?|Hno]; [by eapply Hone; eauto|].
      rewrite (username_of_namespaces u) in Hno by done. by destruct (Hno b Hb1 (Hoth b Hbk Hab)).
    + destruct (Ha Hab) as [?|Hno]; [by eapply Hone; eauto|].
      rewrite (username_of_namespaces u) in Hno by done. by destruct (Hno a Ha1 (Hoth a Hak Haa)).
    + eapply Hone; eauto.
  - injection Hr as <- <-. by rewrite Hs.
Qed.


(** C5: A tenant that was not ready when it was read and is ready in the API
    afterwards got so on a route of its user, while the user's single sign-on
    was ready, and its URL is the host of that route; it was accepted before,
    or none of its user's namespaces had an accepted tenant. *)
Theorem tenant_ready_only_if k t w r w' t' :
  tenants w !! k = Some t → tenant_key t = k →
  ProvisioningStatus (tenant_Status t) ≠ ThreeScaleAccountReady →
  reconcile_tenant t w = (r, w') → tenants w' !! k = Some t' →
  ProvisioningStatus (tenant_Status t') = ThreeScaleAccountReady →
  account_found k.1 (tenant_Status t')
  ∧ (accepted (tenants w) k
     ∨ ∀ k', k'.1 ∈ user_namespaces (username_of k.1) → ¬ accepted (tenants w) k').
Proof.
  intros Ht Hk Hnot Hr Ht' Hready. split.
  2:{ apply (reconcile_tenant_accepts _ _ _ _ _ Ht Hk Hr). exists t'. split; [done|].
      unfold provisioned. by rewrite Hready. }
  set (P st := ProvisioningStatus st = ThreeScaleAccountReady → account_found k.1 st).
  assert (only_writes k P w w') as [_ Hw]; [|destruct (Hw t' Ht') as [?|HP]; [congruence|by apply HP]].
  clear Ht' Hready t'. unfold reconcile_tenant in Hr. rewrite run_bind in Hr.
  assert (P (tenant_Status t)) as HP by (by intros ?).
  assert (∀ x e, P (tenant_Status x) → P (tenant_Status (assign_LastError e x))) as He by (intros x e; exact id).
  destruct (verifyAPIManagementTenant t w) as [o w1] eqn:Ev. apply verify_spec in Ev as [Hs _].
  transitivity w1; [by apply same_only_writes, same_intro|].
  destruct o as [[[ok reason] [e|]]|why]; [..|by injection Hr as <- <-].
  - eapply (fail_with_tracks k); eauto.
  - destruct ok; cbn [negb] in Hr.
    + eapply (reconcile_verified_tracks k); eauto; subst P; cbn; try done; auto.
    + eapply (refuse_tracks k); eauto; done.
Qed.
End facts.

(** ** A tenant gets its account *)

Section progress.
Context {W : Type} `{Client W APIManagementTenant} `{Client W User} `{Client W Route}.
Implicit Types (t : APIManagementTenant) (w : W).

(** Worlds in which the API accepts writes, the user of the namespace is
    there with single sign-on ready, and the account has a route. *)
Variables (ns : string) (healthy : W → Prop).
Hypothesis status_writes : ∀ t w, healthy w → ∃ t' w',
  client_status_update ServerClient t w = (Done (inr t'), w')
  ∧ tenant_key t' = tenant_key t ∧ tenant_Status t' = tenant_Status t ∧ healthy w'.
Hypothesis user_ready : ∀ w, healthy w → ∃ user w',
  getUserByTenantNamespace ns w = (Done (inr user), w')
  ∧ Name (user_meta user) = username_of ns ∧ Namespace (user_meta user) = ""
  ∧ omap_get "" (Annotations (user_meta user)) "ssoReady" = "yes" ∧ healthy w'.
Hypothesis user_writes : ∀ user w, healthy w →
  Name (user_meta user) = username_of ns → Namespace (user_meta user) = "" → ∃ user' r w',
  CreateOrUpdate ServerClient user (λ u, mret (annotate_user u, None)) w = (Done (user', (r, None)), w') ∧ healthy w'.
Hypothesis route_there : ∀ w, healthy w → ∃ routes w',
  client_list ServerClient routes_of_tenants w = (Done (inr routes), w')
  ∧ existsb (λ r, str_contains (username_of ns) (rt_Host r)) routes = true ∧ healthy w'.

Lemma update_status_healthy t w : healthy w → ∃ t' w',
  update_status t w = (Done (t', None), w')
  ∧ tenant_key t' = tenant_key t ∧ tenant_Status t' = tenant_Status t ∧ healthy w'.
Proof.
  intros Hw. destruct (status_writes t w Hw) as (t' & w' & Hu & Hk & Hs & Hw').
  exists t', w'. unfold update_status. by rewrite (bind_done _ _ _ _ _ Hu).
Qed.

Lemma addAnnotationToUser_healthy t w : healthy w → Namespace (tenant_meta t) = ns →
  ∃ t' w', addAnnotationToUser t w = (Done (t', None), w') ∧ tenant_key t' = tenant_key t ∧ healthy w'.
Proof.
  intros Hw Hns. unfold addAnnotationToUser. destruct (_ =?s ""); [|by exists t, w].
  rewrite Hns. destruct (user_ready w Hw) as (user & w1 & Hu & Hn & Hnn & _ & Hw1). rewrite (bind_done _ _ _ _ _ Hu).
  destruct (user_writes user w1 Hw1 Hn Hnn) as (user' & r & w2 & Hc & Hw2). rewrite (bind_done _ _ _ _ _ Hc).
  destruct (update_status_healthy (assign_ProvisioningStatus UserAnnotated t) w2 Hw2) as (t' & w' & Hs & Hk & _ & Hw').
  exists t', w'. unfold updateProvisioningStatus. by rewrite (bind_done _ _ _ _ _ Hs).
Qed.

Lemma reconcileTenantUrl_healthy t w : healthy w → Namespace (tenant_meta t) = ns →
  ∃ t' w', reconcileTenantUrl t w = (Done (t', (true, None)), w')
  ∧ ProvisioningStatus (tenant_Status t') = ThreeScaleAccountReady ∧ healthy w'.
Proof.
  intros Hw Hns. unfold reconcileTenantUrl. destruct (_ =?s ThreeScaleAccountReady) eqn:E.
  { apply str_eqb_true in E. by exists t, w. }
  destruct (route_there w Hw) as (routes & w1 & Hr & Hex & Hw1). rewrite (bind_done _ _ _ _ _ Hr).
  destruct routes as [|r0 rs]; [done|]. rewrite Hns.
  destruct (user_ready w1 Hw1) as (user & w2 & Hu & Hn & _ & Hsso & Hw2). rewrite (bind_done _ _ _ _ _ Hu), Hn.
  destruct (List.find _ (r0 :: rs)) as [route|] eqn:Ef.
  2:{ apply existsb_exists in Hex as (r & Hin & Hr'). by rewrite (List.find_none _ _ Ef r Hin) in Hr'. }
  rewrite Hsso. cbn [negb]. change ("yes" =?s "yes") with true. cbn [negb].
  destruct (update_status_healthy (assign_TenantUrl (rt_Host route) t) w2 Hw2) as (t1 & w3 & H3 & _ & _ & Hw3).
  unfold updateTenantUrl, updateProvisioningStatus. rewrite run_bind, (bind_done _ _ _ _ _ H3). cbn.
  destruct (update_status_healthy (assign_ProvisioningStatus ThreeScaleAccountReady t1) w3 Hw3)
    as (t2 & w4 & H4 & _ & Hs4 & Hw4).
  rewrite run_bind, (bind_done _ _ _ _ _ H4). cbn. exists t2, w4. by rewrite Hs4.
Qed.

(** C6: In such a world one run makes every tenant that passes the verification
    ready, whatever its status was, with no error left, and asks for no
    other run. *)
Theorem tenant_becomes_ready t w reason w1 :
  healthy w1 → Namespace (tenant_meta t) = ns →
  verifyAPIManagementTenant t w = (Done (true, reason, None), w1) →
  ∃ t' w', reconcile_tenant t w = (Done (t', (zero_Result, None)), w')
    ∧ ProvisioningStatus (tenant_Status t') = ThreeScaleAccountReady
    ∧ t_LastError (tenant_Status t') = "" ∧ healthy w'.
Proof.
  intros Hw Hns Hv. unfold reconcile_tenant. rewrite (bind_done _ _ _ _ _ Hv). cbn [negb].
  unfold reconcile_verified.
  destruct (addAnnotationToUser_healthy t w1 Hw Hns) as (t2 & w2 & H2 & Hk2 & Hw2). rewrite (bind_done _ _ _ _ _ H2).
  destruct (reconcileTenantUrl_healthy t2 w2 Hw2) as (t3 & w3 & H3 & Hr3 & Hw3).
  { injection Hk2 as -> _. done. }
  rewrite (bind_done _ _ _ _ _ H3). cbn [negb].
  destruct (update_status_healthy (assign_LastError "" t3) w3 Hw3) as (t4 & w4 & H4 & _ & Hs4 & Hw4).
  unfold updateLastError. rewrite (bind_done _ _ _ _ _ H4). exists t4, w4. by rewrite Hs4.
Qed.
End progress.
