(* ===== verification/PodDistribution.v ===== *)
(** * Spreading pods over zones (pkg/resources/poddistribution)

    On a cluster with several zones, a controller whose running pods are all
    in one zone loses a pod, which the scheduler then places anew; an
    annotation of the controller is meant to count the attempts. *)

From stdpp Require Import base list strings gmap.
From Stdlib Require Import ZArith Lia.
From S2P Require Import Prelude Kube Api Resources Olm Quota Pods Config Products.

(** ** Kinds *)

(** The kinds of controllers pods are balanced for, of each the metadata. *)
Inductive ControllerKind := DC | SS | RS.
#[global] Instance ControllerKind_eq_dec : EqDecision ControllerKind.
Proof. solve_decision. Defined.
Definition kind_text (k : ControllerKind) : string :=
  match k with DC => "dc" | SS => "ss" | RS => "rs" end.

Record PodController (k : ControllerKind) := mkPodController { pc_meta : ObjectMeta }.
Arguments mkPodController {_} _.
Arguments pc_meta {_} _.
#[global] Instance PodController_eq_dec k : EqDecision (PodController k).
Proof. solve_decision. Defined.
#[global] Instance PodController_object k : K8sObject (PodController k) := {|
  meta := pc_meta; set_meta m _ := mkPodController m;
  semantic_deep_equal a b := bool_decide (a = b);
|}.

(** corev1.Pod with what is read of its status. *)
Record Pod := mkPod {
  pod_meta : ObjectMeta; pod_Owners : list OwnerReference; pod_Phase : string; pod_HostIP : string }.
#[global] Instance Pod_eq_dec : EqDecision Pod.
Proof. solve_decision. Defined.
#[global] Instance Pod_object : K8sObject Pod := {|
  meta := pod_meta; set_meta m p := mkPod m (pod_Owners p) (pod_Phase p) (pod_HostIP p);
  semantic_deep_equal a b := bool_decide (a = b);
|}.

(** KindNameSpaceName: a controller of another kind has no object, no kind
    and no name. *)
Record KindNameSpaceName := mkKnn { knn_Namespace : string; knn_Name : string; knn_Kind : option ControllerKind }.
#[global] Instance KindNameSpaceName_eq_dec : EqDecision KindNameSpaceName.
Proof. solve_decision. Defined.
Definition knn_kind_text (k : KindNameSpaceName) : string := default "" (kind_text <$> knn_Kind k).

Definition PodRebalanceAttempts : string := "pod-rebalance-attempts".
Definition maxBalanceAttempts : Z := 3.

(** ** Attempts *)

Definition verifyRebalanceCount (m : ObjectMeta) : error + bool :=
  match omap_lookup (Annotations m) PodRebalanceAttempts with
  | None => inr true
  | Some val =>
      match parse_int64 val with
      | None => inl (ErrStr ("Error converting string annotations " +:+ val))
      | Some i => inr (negb (maxBalanceAttempts <=? i)%Z)
      end
  end.

Definition getAnnotations (ant : option (gmap string string)) (name ns : string)
    : error + gmap string string :=
  let ant := make_if_nil ant in
  match ant !! PodRebalanceAttempts with
  | Some val =>
      match parse_int64 val with
      | None => inl (ErrStr ("Error converting annotation to int " +:+ PodRebalanceAttempts +:+ ", "
                              +:+ name +:+ ", " +:+ ns))
      | Some i =>
          (* i + 1 in 64 bits *)
          let next := (if (i =? max_int64)%Z then min_int64 else i + 1)%Z in
          inr (<[PodRebalanceAttempts := itoa next]> ant)
      end
  | None => inr (<[PodRebalanceAttempts := "1"]> ant)
  end.

(** ** Unbalanced controllers *)

Definition getNamespaces (nsPrefix : string) : list string :=
  map (String.append nsPrefix) ["3scale"; "rhsso"; "user-sso"; "marin3r"].

(** The zone of each internal address: the first of a node counts, and a
    later node overwrites an earlier one. *)
Definition nodes_to_zone (nodes : list Node) : gmap string string :=
  foldl (λ m n, match List.find (λ a, a.1 =?s "InternalIP") (node_Addresses n) with
                | Some a => <[a.2 := node_zone n]> m
                | None => m
                end) ∅ nodes.

(** The controller a pod belongs to. *)
Definition knn_of (namespace : string) (p : Pod) (o : OwnerReference) : KindNameSpaceName :=
  if or_Kind o =?s "ReplicationController" then
    mkKnn namespace (omap_get "" (Annotations (pod_meta p)) "openshift.io/deployment-config.name") (Some DC)
  else if or_Kind o =?s "StatefulSet" then mkKnn namespace (or_Name o) (Some SS)
  else if or_Kind o =?s "ReplicaSet" then mkKnn namespace (or_Name o) (Some RS)
  else mkKnn namespace "" None.

Definition controller_of (p : Pod) : option OwnerReference :=
  List.find (λ o, default false (or_Controller o)) (pod_Owners p).

(** The running pods with a controller, with their zones. *)
Definition placed (namespace : string) (zones : gmap string string) (pods : list Pod)
    : list (KindNameSpaceName * (string * string)) :=
  omap (λ p, if negb (pod_Phase p =?s "Running") then None
             else o ← controller_of p;
                  Some (knn_of namespace p o, (Name (pod_meta p), map_get "" zones (pod_HostIP p)))) pods.

(** What the three maps of the loop hold of one controller: its pods, in
    order, and the zones they are in. *)
Definition pods_of (k : KindNameSpaceName) (l : list (KindNameSpaceName * (string * string)))
    : list (string * string) := (filter (λ x, x.1 = k) l).*2.
Definition zones_of (l : list (string * string)) : list string := remove_dups (l.*2).
Definition unbalanced (l : list (string * string)) : bool :=
  (length (zones_of l) =? 1) && (1 <? length l).

Section distribution.
Context {W : Type} `{Client W Node} `{Client W Pod} `{∀ k, Client W (PodController k)}
  `{MapRange W} `{Clock W} `{Ticker W}.

(** The map from controllers to their pods, keyed by the position of the
    controller in allKnn. *)
Definition findUnbalanced (c : KClient) (nameSpace : string)
    : M W (error + gmap string (KindNameSpaceName * list string)) :=
  nodes ← client_list (O := Node) c list_all;
  match nodes with
  | inl e => mret (inl e)
  | inr nodes =>
      pods ← client_list (O := Pod) c (InNamespace nameSpace);
      match pods with
      | inl e => mret (inl (errorf_w "Error getting pod lists " (Some e)))
      | inr pods =>
          let l := placed nameSpace (nodes_to_zone nodes) pods in
          let knns := filter (λ k, unbalanced (pods_of k l) = true) (remove_dups l.*1) in
          mret (inr (list_to_map (imap (λ i k, (itoa (Z.of_nat i), (k, (pods_of k l).*1))) knns)))
      end
  end.

(** Reading the controller; the type assertion panics without an object. *)
Definition get_controller (c : KClient) (k : KindNameSpaceName) : M W (error + ObjectMeta) :=
  match knn_Kind k with
  | None => panic "interface conversion: interface is nil, not client.Object"
  | Some kd =>
      got ← client_get (O := PodController kd) c (knn_Namespace k) (knn_Name k);
      mret (match got with inl e => inl e | inr o => inr (pc_meta o) end)
  end.

Definition getObject (c : KClient) (k : KindNameSpaceName) : M W (error + ObjectMeta) :=
  got ← get_controller c k;
  mret (match got with
        | inl e => inl (errorf_w ("Error getting object " +:+ knn_Name k +:+ ", on ns "
                                  +:+ knn_Namespace k +:+ ": ") (Some e))
        | inr m => inr m
        end).

(** Errors are only logged. *)
Definition deletePod (c : KClient) (podName ns : string) : M W unit :=
  got ← client_get (O := Pod) c ns podName;
  match got with
  | inl _ => mret tt
  | inr pod => _ ← client_delete c pod; mret tt
  end.

Definition updatePodBalanceAttemptsOnKNN (c : KClient) (k : KindNameSpaceName) : M W (option error) :=
  match knn_Kind k with
  | None => panic "interface conversion: interface is nil, not client.Object"
  | Some kd =>
      got ← client_get (O := PodController kd) c (knn_Namespace k) (knn_Name k);
      match got with
      | inl e => mret (Some (errorf_w ("Error getting " +:+ knn_kind_text k +:+ " " +:+ knn_Name k
                     +:+ " on namespace " +:+ knn_Namespace k +:+ ". ") (Some e)))
      | inr o =>
          match getAnnotations (Annotations (pc_meta o)) (knn_Name k) (knn_Namespace k) with
          | inl e => mret (Some e)
          | inr ant =>
              r ← client_update c (set_meta (SetAnnotations (Some ant) (pc_meta o)) o);
              mret (match r with
                    | inl e => Some (errorf_w ("Error Updating " +:+ knn_kind_text k +:+ " "
                         +:+ knn_Name k +:+ " on " +:+ knn_Namespace k +:+ ". ") (Some e))
                    | inr _ => None
                    end)
          end
      end
  end.

Definition forceRebalance (c : KClient) (k : KindNameSpaceName) (pods : list string)
    : M W (option error) :=
  match pods with
  | [] => panic "index out of range"
  | podName :: _ =>
      deletePod c podName (knn_Namespace k) ;;
      r ← PollUntilContextTimeout (5 * second_ns) (5 * second_ns)
            (err ← updatePodBalanceAttemptsOnKNN c k; mret (Some err));
      mret (match r with inl e => Some e | inr err => err end)
  end.

Definition rebalance_one (c : KClient) (k : KindNameSpaceName) (pods : list string) (mErr : MultiErr)
    : M W MultiErr :=
  obj ← getObject c k;
  match obj with
  | inl e => mret (MultiErr_Add mErr e)
  | inr m =>
      match verifyRebalanceCount m with
      | inl e => mret (MultiErr_Add mErr e)
      | inr false => mret mErr
      | inr true =>
          err ← forceRebalance c k pods;
          mret (match err with Some e => MultiErr_Add mErr e | None => mErr end)
      end
  end.

Fixpoint rebalance_each (c : KClient) (found : gmap string (KindNameSpaceName * list string))
    (keys : list string) (mErr : MultiErr) : M W MultiErr :=
  match keys with
  | [] => mret mErr
  | i :: keys =>
      mErr ← match found !! i with
             | Some (k, pods) => rebalance_one c k pods mErr
             | None => mret mErr
             end;
      rebalance_each c found keys mErr
  end.

Fixpoint rebalance_namespaces (c : KClient) (l : list string) (mErr : MultiErr) : M W MultiErr :=
  match l with
  | [] => mret mErr
  | ns :: l =>
      found ← findUnbalanced c ns;
      mErr ← match found with
             | inl e => mret (MultiErr_Add mErr (errorf_w ("Error getting pods to balance on namespace "
                                +:+ ns +:+ ". ") (Some e)))
             | inr found =>
                 keys ← reads (λ w, range_keys w (dom found));
                 rebalance_each c found keys mErr
             end;
      rebalance_namespaces c l mErr
  end.

Definition ReconcilePodDistribution (c : KClient) (nsPrefix : string) : M W MultiErr :=
  r ← IsMultiAZCluster c;
  match r with
  | inl e => mret (MultiErr_Add newMultiErr e)
  | inr false => mret newMultiErr
  | inr true => rebalance_namespaces c (getNamespaces nsPrefix) newMultiErr
  end.
End distribution.

(** ** Facts *)

Lemma verifyRebalanceCount_true m :
  verifyRebalanceCount m = inr true ↔
  match omap_lookup (Annotations m) PodRebalanceAttempts with
  | None => True
  | Some val => ∃ i, parse_int64 val = Some i ∧ (i < maxBalanceAttempts)%Z
  end.
Proof.
  unfold verifyRebalanceCount. destruct (omap_lookup _ _) as [val|]; [|done].
  destruct (parse_int64 val) as [i|].
  - split.
    + intros [= Hi%negb_true_iff%Z.leb_gt]. by exists i.
    + intros (? & [= <-] & Hi). do 2 f_equal. by apply negb_true_iff, Z.leb_gt.
  - split; [done|]. by intros (? & ? & _).
Qed.

Lemma zones_of_one l : unbalanced l = true ↔
  (∃ z, ∀ x, x ∈ l → x.2 = z) ∧ 1 < length l.
Proof.
  unfold unbalanced, zones_of. rewrite andb_true_iff, Nat.eqb_eq, Nat.ltb_lt. split.
  - intros [H1 Hl]. split; [|done].
    destruct (remove_dups l.*2) as [|z [|]] eqn:E; [done| |done]. exists z. intros x Hx.
    assert (x.2 ∈ remove_dups l.*2) as Hin by (apply elem_of_remove_dups; by apply list_elem_of_fmap_2).
    rewrite E in Hin. by apply list_elem_of_singleton.
  - intros [[z Hz] Hl]. split; [|done]. destruct l as [|x l]; [simpl in Hl; lia|].
    assert (remove_dups (x :: l).*2 ≡ₚ [z]) as ->; [|done].
    apply NoDup_Permutation; [apply NoDup_remove_dups|apply NoDup_singleton|].
    intros y. rewrite elem_of_remove_dups, list_elem_of_singleton, list_elem_of_fmap. split.
    + intros (a & -> & Ha). by apply Hz.
    + intros ->. exists x. split; [symmetry; apply Hz|]; left.
Qed.

Section distribution_facts.
Context {W : Type} `{Client W Node} `{Client W Pod} `{∀ k, Client W (PodController k)}
  `{MapRange W} `{Clock W} `{Ticker W}.

(** A tick takes its interval. *)
Class TickerLaw := tick_takes : ∀ i (w : W), (now w + i ≤ now (wait_tick i w))%Z.

(** The wait of five seconds is over when the first tick of a five second
    interval comes: the function waited for is not called. *)
Lemma forceRebalance_times_out `{!TickerLaw} c k podName pods (w w1 : W) :
  deletePod c podName (knn_Namespace k) w = (Done tt, w1) →
  forceRebalance c k (podName :: pods) w
    = (Done (Some DeadlineExceeded), wait_tick (5 * second_ns) w1).
Proof.
  intros Hd. unfold forceRebalance. rewrite (bind_done _ _ _ _ _ Hd), run_bind.
  unfold PollUntilContextTimeout. rewrite bind_reads.
  change (Z.to_nat (5 * second_ns / (5 * second_ns))) with 1. cbn [poll_ticks].
  rewrite bind_modifies, bind_reads.
  pose proof (tick_takes (5 * second_ns) w1) as Ht.
  assert ((now w1 + 5 * second_ns <=? now (wait_tick (5 * second_ns) w1))%Z = true) as ->.
  { by apply Z.leb_le. }
  done.
Qed.

Section untouched.
(** [R] is respected by everything but the update of a controller. *)
Context `{!TickerLaw} (R : W → W → Prop) `{!PreOrder R}
  (node_list_R : ∀ c o, preserves R (client_list (O := Node) c o))
  (pod_list_R : ∀ c o, preserves R (client_list (O := Pod) c o))
  (pod_get_R : ∀ c ns n, preserves R (client_get (O := Pod) c ns n))
  (pod_delete_R : ∀ c p, preserves R (client_delete (O := Pod) c p))
  (controller_get_R : ∀ k c ns n, preserves R (client_get (O := PodController k) c ns n))
  (tick_R : ∀ i w, R w (wait_tick i w)).

Lemma deletePod_preserves c n ns : preserves R (deletePod (W := W) c n ns).
Proof. unfold deletePod. frame. Qed.

Lemma forceRebalance_preserves c k pods : preserves R (forceRebalance (W := W) c k pods).
Proof.
  destruct pods as [|p pods]; [frame|]. intros w r w' Hf.
  destruct (deletePod c p (knn_Namespace k) w) as [[[]|why] w1] eqn:Hd.
  - rewrite (forceRebalance_times_out _ _ _ _ _ _ Hd) in Hf. injection Hf as <- <-.
    etransitivity; [by eapply deletePod_preserves|apply tick_R].
  - unfold forceRebalance in Hf. rewrite run_bind, Hd in Hf. injection Hf as <- <-.
    by eapply deletePod_preserves.
Qed.

End untouched.

(** What findUnbalanced reports: controllers of two or more running pods, all
    of them in one zone, with these pods in the order of the list. *)
Lemma findUnbalanced_sound c ns (w w' : W) found i k pods :
  findUnbalanced c ns w = (Done (inr found), w') → found !! i = Some (k, pods) →
  ∃ nodes all w1 z, client_list (O := Node) c list_all w = (Done (inr nodes), w1)
    ∧ client_list (O := Pod) c (InNamespace ns) w1 = (Done (inr all), w')
    ∧ let l := pods_of k (placed ns (nodes_to_zone nodes) all) in
      pods = l.*1 ∧ 1 < length pods ∧ ∀ x, x ∈ l → x.2 = z.
Proof.
  unfold findUnbalanced. intros Hf Hi.
  apply bind_done_inv in Hf as ([e|nodes] & w1 & Hn & Hf); [by rewrite run_ret in Hf|].
  apply bind_done_inv in Hf as ([e|all] & w2 & Hp & Hf); [by rewrite run_ret in Hf|].
  rewrite run_ret in Hf. injection Hf as <- <-.
  apply elem_of_list_to_map_2 in Hi. apply elem_of_lookup_imap in Hi as (j & k' & [= -> <- ->] & Hj).
  apply list_elem_of_lookup_2, list_elem_of_filter in Hj as [Hu _].
  apply zones_of_one in Hu as [[z Hz] Hl].
  exists nodes, all, w1, z. split_and!; [done..| |done]. by rewrite length_fmap.
Qed.
End distribution_facts.
