(* ===== verification/Rhsso.v ===== *)
(** * The single sign-on of the cluster (pkg/products/rhsso/reconciler.go)

    Its Reconcile with every step: the Keycloak with its realm and identity
    providers, the delay of the first login, the users of the cluster, and the
    restart of a pod that uses too much CPU. *)

From stdpp Require Import base list strings gmap.
From Stdlib Require Import ZArith Lia.
From S2P Require Import Prelude Numbers Kube Api Resources Users Olm Quota Pods Keycloak RateLimit Cro Config Cluster.
From S2P Require Import Alerts CloudAlerts UsageAlerts OboAlerts Backup Marketplace Reconciler RhssoCommon.
From S2P Require Import Metrics Custom ProductAlerts PodDistribution.

(** ** State

    The reconciler, and the variable lastPodRestart of the package. *)
Record RhssoState := mkRhsso { rs_sso : SsoState RHSSO.t; lastPodRestart : Z }.
Definition rs_inst (s : RhssoState) : RHMI := so_inst (rs_sso s).
Definition rs_cfg (s : RhssoState) : RHSSO.t := so_cfg (rs_sso s).

Definition defaultOperandNamespace : string := "rhsso".
Definition keycloakName : string := "rhsso".
Definition keycloakRealmName : string := "openshift".
Definition githubIdpAlias : string := "github".
Definition authFlowAlias : string := "authdelay".
Definition adminCredentialSecretName : string := "credential-" +:+ keycloakName.
Definition ssoType : string := "rhsso".
Definition postgresResourceName : string := "rhsso-postgres-rhmi".
Definition routeName : string := "keycloak-edge".
Definition SSOLabelKey : string := "sso".
Definition SSOLabelValue : string := "integreatly".
Definition RHSSOProfile : string := "RHSSO".
Definition multiTenantCPU : Z := 2000.
Definition authdelay_jar : string :=
  "https://github.com/integr8ly/authentication-delay-plugin/releases/download/1.0.2/authdelay.jar".

Definition GetInstanceLabels : gmap string string := {[SSOLabelKey := SSOLabelValue]}.

(** ** CPU of the pods

    metrics.k8s.io: the CPU of each container that has a usage, printed. *)
Record PodMetrics := mkPodMetrics { pm_Name : string; pm_Containers : list (option string) }.
Class MetricsClient (W : Type) := {
  metrics_NewForConfig : M W (option error);
  list_PodMetricses : string → M W (error + option (list PodMetrics));
}.

Definition seventyFivePercent : Z := multiTenantCPU * 3 / 4.
Definition container_hot (usage : option string) : bool :=
  match usage with
  | Some cpuQuantityString =>
      match parse_int64 (trim_suffix "m" cpuQuantityString) with
      | Some cpuInt => (seventyFivePercent <? cpuInt)%Z
      | None => false
      end
  | None => false
  end.
(** The first pod with such a container. *)
Definition hot_pod (items : list PodMetrics) : option PodMetrics :=
  List.find (λ p, existsb container_hot (pm_Containers p)) items.

Section cpu.
Context {W Q : Type} `{SemanticDeepEqual (StatefulSet Q)} `{Client W (StatefulSet Q)} `{Client W Pod}
  `{Clock W} `{MetricsClient W}.

(** Errors are logged only; the result is the last restart. *)
Definition CheckCPUUsage (c : KClient) (ns : string) (last : Z) : M W Z :=
  ss ← client_get (O := StatefulSet Q) c ns "keycloak";
  match ss with
  | inl _ => mret last
  | inr ss =>
      match ss_Replicas ss with
      | None => panic "nil pointer dereference"
      | Some replicas =>
          if negb (ss_ReadyReplicas ss =? replicas)%Z then mret last
          else
            t ← reads now;
            if (t <? last + 30 * minute_ns)%Z then mret last
            else
              err ← metrics_NewForConfig;
              match err with
              | Some _ => mret last
              | None =>
                  podMetrics ← list_PodMetricses ns;
                  match podMetrics with
                  | inl _ | inr None => mret last
                  | inr (Some items) =>
                      match hot_pod items with
                      | None => mret last
                      | Some podMetric =>
                          client_delete c (mkPod (named ns (pm_Name podMetric)) [] "" "");;
                          reads now
                      end
                  end
              end
      end
  end.
End cpu.

(** ** Users *)

Definition kcContainsOsUser (kcUsers : list KeycloakAPIUser) (osUser : User) : bool :=
  existsb (λ kcu, kc_UserName kcu =?s Name (user_meta osUser)) kcUsers.

Definition getUserDiff (keycloakUsers : list KeycloakAPIUser) (openshiftUsers : list User)
    (groups : list Group) : list User * list KeycloakAPIUser :=
  (List.filter (λ osUser, negb (kcContainsOsUser keycloakUsers osUser)
                          && negb (IsInExclusionGroup osUser groups)) openshiftUsers,
   List.filter (λ kcUser, negb (OsUserInKc openshiftUsers kcUser)) keycloakUsers).

Definition getKeycloakRoles (installationType : InstallationType) : gmap string (list string) :=
  if IsRHOAMMultitenant installationType then {["account" := ["view-profile"]]}
  else {["account" := ["manage-account"; "view-profile"]; "broker" := ["read-token"]]}.

(** The email of a user without one is made of its name. *)
Definition new_keycloak_user `{MailParser} (identities : list Identity) (osUser : User) : KeycloakAPIUser :=
  let email := GetEmailFromIdentity (user_Identities osUser) identities in
  let email := if email =?s "" then SetUserNameAsEmail (Name (user_meta osUser)) else email in
  AppendUpdateProfileActionForUserWithoutEmail
    (mkKeycloakUser "" (Name (user_meta osUser)) email true true
       [mkFederated idpAlias (UID (user_meta osUser)) (Name (user_meta osUser))] [] [] ∅ []).
Definition with_ClientRoles (roles : gmap string (list string)) (u : KeycloakAPIUser) : KeycloakAPIUser :=
  mkFullKeycloakUser (kc_ID u) (kc_UserName u) (kc_Email u) (kc_EmailVerified u) (kc_Enabled u)
    (kc_FederatedIdentities u) (kc_RequiredActions u) (kc_RealmRoles u) roles (kc_Groups u) (kc_Attributes u).

Section users.
Context {W : Type} `{Client W User} `{Client W Identity} `{Client W OAuth} `{Client W Group}
  `{Client W KeycloakUser} `{MailParser}.

Definition syncronizeWithOpenshiftUsers (keycloakUsers : list KeycloakAPIUser) (c : KClient)
    (ns : string) (installation : RHMI) : M W (error + list KeycloakAPIUser) :=
  openshiftUsers ← GetUsersInActiveIDPs c;
  match openshiftUsers with
  | inl e => mret (inl (ErrWrap "could not get users in active IDPs: " e))
  | inr openshiftUsers =>
      groups ← client_list (O := Group) c list_all;
      match groups with
      | inl e => mret (inl e)
      | inr groups =>
          let '(added, deletedUsers) := getUserDiff keycloakUsers openshiftUsers groups in
          keycloakUsers ← DeleteKeycloakUsers c ns keycloakUsers deletedUsers;
          match keycloakUsers with
          | inl e => mret (inl e)
          | inr keycloakUsers =>
              identitiesList ← client_list (O := Identity) c list_all;
              match identitiesList with
              | inl e => mret (inl e)
              | inr identitiesList =>
                  let keycloakUsers := keycloakUsers ++ map (new_keycloak_user identitiesList) added in
                  mret (inr (map (with_ClientRoles (getKeycloakRoles (Type_ (Spec installation))))
                               keycloakUsers))
              end
          end
      end
  end.

Definition conflict_of (u : KeycloakUser) : bool :=
  str_contains "409 Conflict" (ku_Message u) && negb (ku_Phase u =?s "reconciled").

Definition createOrUpdateKeycloakUser (user : KeycloakAPIUser) (c : KClient) (ns : string)
    : M W (bool * option error) :=
  let name := GetValidGeneratedUserName user in
  if name =?s "" then mret (false, Some (ErrStr "failed to get valid generated username"))
  else
    '(conflictFound, (_, (_, err))) ← CreateOrUpdateCapturing false c (named_user (named ns name))
      (λ conflictFound u,
         mret (conflictFound || conflict_of u,
               (mkKeycloakUserCR (SetLabels (Some GetInstanceLabels) (ku_meta u)) (Some GetInstanceLabels) user
                  (ku_Message u) (ku_Phase u), None)));
    mret (conflictFound, err).

Definition GetKeycloakUsers (c : KClient) (ns : string) : M W (error + list KeycloakAPIUser) :=
  users ← client_list (O := KeycloakUser) c (mkListOptions (Some ns) (map_to_list GetInstanceLabels));
  mret (match users with
        | inl e => inl e
        | inr users => inr (map ku_User users)
        end).
End users.

(** ** The delay of the first login *)

(** keycloakCommon.Required *)
Definition Required : string := "REQUIRED".
Definition executionProviderID : string := "delay-authentication".

Section authdelay.
Context {W K : Type} `{KeycloakInterface W K}.

Definition ensure_flow (authenticated : K) : M W (option error) :=
  authFlow ← api_FindAuthenticationFlowByAlias authenticated authFlowAlias keycloakRealmName;
  match authFlow with
  | inl e => mret (Some (ErrWrap "failed to find authentication flow by alias via keycloak api " e))
  | inr true => mret None
  | inr false =>
      err ← api_CreateAuthenticationFlow authenticated authFlowAlias "basic-flow" true false keycloakRealmName;
      mret ((λ e, ErrWrap "failed to create authentication flow via keycloak api " e) <$> err)
  end.

Definition ensure_execution (authenticated : K) : M W (option error) :=
  authExecution ← api_FindAuthenticationExecutionForFlow authenticated authFlowAlias keycloakRealmName
    (λ execution, ex_ProviderID execution =?s executionProviderID);
  match authExecution with
  | inl e => mret (Some (ErrWrap "failed to find authentication execution flow via keycloak api " e))
  | inr (Some _) => mret None
  | inr None =>
      err ← api_AddExecutionToAuthenticatonFlow authenticated authFlowAlias keycloakRealmName
              executionProviderID Required;
      mret ((λ e, ErrWrap "failed to add execution to authentication flow via keycloak api " e) <$> err)
  end.

Definition ensure_idp_flow (authenticated : K) : M W (option error) :=
  idp ← api_GetIdentityProvider authenticated idpAlias keycloakRealmName;
  match idp with
  | inl e => mret (Some (ErrWrap "failed to get identity provider via keycloak api " e))
  | inr None => panic "nil pointer dereference"
  | inr (Some idp) =>
      if idp_FirstBrokerLoginFlowAlias idp =?s authFlowAlias then mret None
      else
        err ← api_UpdateIdentityProvider authenticated (with_idp_Flow idp authFlowAlias) keycloakRealmName;
        mret ((λ e, ErrWrap "failed to update identity provider via keycloak api " e) <$> err)
  end.

Definition createAuthDelayAuthenticationFlow (authenticated : K) : M W (option error) :=
  err ← ensure_flow authenticated;
  match err with
  | Some e => mret (Some e)
  | None =>
      err ← ensure_execution authenticated;
      match err with
      | Some e => mret (Some e)
      | None => ensure_idp_flow authenticated
      end
  end.
End authdelay.

(** ** Components *)

Definition github_idp (githubCreds : Secret) : KeycloakIdentityProvider :=
  mkIdp githubIdpAlias githubIdpAlias true false true true "first broker login" true (Some (list_to_map
    [("hideOnLoginPage", "true"); ("clientId", omap_get "" (sec_Data githubCreds) "clientId");
     ("disableUserInfo", ""); ("clientSecret", omap_get "" (sec_Data githubCreds) "secret");
     ("defaultScope", "repo,user,write:public_key,admin:repo_hook,read:org,public_repo,user:email");
     ("useJwksUrl", "true")])).

Definition enable_github (i : RHMI) : RHMI :=
  mkRHMI (rhmi_meta i) (Spec i) (set_GitHubOAuthEnabled (Status i) true).

Definition multitenant (i : RHMI) : bool := IsRHOAMMultitenant (Type_ (Spec i)).

(** The mutate function of the Keycloak: the same resources as requests and
    as limits, and never fewer instances. *)
Definition keycloak_cpu (i : RHMI) : string :=
  if multitenant i then itoa multiTenantCPU +:+ "m" else "650m".
Definition mutate_keycloak {Q} `{Quantity Q} (i : RHMI) (kc : Keycloak Q) : outcome (Keycloak Q) :=
  match q_MustParse (keycloak_cpu i), q_MustParse "2G" with
  | Some cpu, Some memory =>
      let l := Some {[ResourceCPU := cpu; ResourceMemory := memory]} in
      mret (mkKeycloak (SetLabels (Some GetInstanceLabels) (kc_meta kc)) (kc_Env kc)
              [KeycloakMetricsExtension; authdelay_jar] true true RHSSOProfile true (mkRR l l) "rolling"
              (Z.max (kc_Instances kc) (RHSSO.GetReplicasConfig i)))
  | _, _ => Panic "cannot parse quantity"
  end.

Definition openshift_realm : KeycloakAPIRealm :=
  mkAPIRealm keycloakRealmName keycloakRealmName true keycloakRealmName ["metrics-listener"] [].
Definition with_realm (r : KeycloakAPIRealm) (kcr : KeycloakRealm) : KeycloakRealm :=
  mkRealm (SetLabels (Some GetInstanceLabels) (kcr_meta kcr)) [(idpAlias, "browser")]
    (Some GetInstanceLabels) (Some r) (kcr_Phase kcr).
Definition no_access : EnvVar := mkEnvVar "DISABLE_EXTERNAL_ACCESS" "TRUE".

Section rhsso.
Context {W Q K : Type}.
Context `{Client W RHMI} `{Client W Secret} `{Client W ConfigMap} `{Client W CRD} `{Client W KeycloakUser}
  `{Client W KeycloakClient} `{Client W KeycloakRealm} `{SemanticDeepEqual (Keycloak Q)}
  `{Client W (Keycloak Q)} `{Client W Route} `{Client W OAuthClient} `{Client W Postgres}
  `{SemanticDeepEqual (StatefulSet Q)} `{Client W (StatefulSet Q)} `{Client W PodMonitor}
  `{Client W PrometheusRule} `{Client W UpstreamPrometheusRule} `{Client W PodDisruptionBudget}
  `{Client W Service} `{Client W InstallPlan} `{Client W Subscription}
  `{Client W ClusterServiceVersion} `{Client W (Snapshot PostgresSnapshotType)}
  `{Client W (Snapshot RedisSnapshotType)} `{Client W NamespaceObj} `{Client W Project}
  `{Client W ProjectRequest} `{SemanticDeepEqual (LimitRange Q)} `{Client W (LimitRange Q)} `{Client W Pod}
  `{Client W User} `{Client W Identity} `{Client W OAuth} `{Client W Group}.
Context `{Quantity Q} `{KeycloakClientFactory W Q K} `{KeycloakInterface W K} `{MarketplaceInterface W}
  `{EventRecorder W} `{OsEnv W} `{Clock W} `{Ticker W} `{MetricsClient W} `{Yaml} `{TitleCase} `{MailParser}.

(** What NewReconciler has put in the reconciler besides the state. *)
Context (declaration : ProductDeclaration) (oauth_delete : string → M W (option error)) (backup_fuel : nat).

(** The clients of the two factories are of one kind; this one is made of the
    local config. *)
Definition setupGithubIDP (kc : Keycloak Q) (m : Manager) (c : KClient) (installation : RHMI)
    (realm : KeycloakAPIRealm) : M W (RHMI * (KeycloakAPIRealm * option error)) :=
  githubCreds ← client_get (O := Secret) c (GetOperatorNamespace m) (GetGHOauthClientsSecretName m);
  match githubCreds with
  | inl e => mret (installation, (realm, Some e))
  | inr githubCreds =>
      let realm := if ContainsIdentityProvider (realm_IdentityProviders realm) githubIdpAlias then realm
                   else with_providers realm (realm_IdentityProviders realm ++ [github_idp githubCreds]) in
      let done err := mret (installation, (realm, err)) in
      let githubClientID := omap_get "" (sec_Data githubCreds) "clientId" in
      let githubClientSecret := omap_get "" (sec_Data githubCreds) "secret" in
      if (githubClientID =?s "dummy") || (githubClientSecret =?s "dummy") then done None
      else
        authenticated ← LocalAuthenticatedClient kc;
        match authenticated with
        | inl e => done (Some (errorf_v "Unable to authenticate to the Keycloak API: " (Some e)))
        | inr authenticated =>
            identityProvider ← api_GetIdentityProvider (authenticated : K) githubIdpAlias (realm_DisplayName realm);
            match identityProvider with
            | inl e => done (Some (errorf_v "Unable to get Identity Provider from Keycloak API: " (Some e)))
            | inr None => panic "nil pointer dereference"
            | inr (Some idp) =>
                match idp_Config idp with
                | None => panic "assignment to entry in nil map"
                | Some config =>
                    let config := <["clientSecret" := githubClientSecret]>
                                    (<["clientId" := githubClientID]> config) in
                    err ← api_UpdateIdentityProvider authenticated (with_idp_Config idp (Some config))
                            (realm_DisplayName realm);
                    match err with
                    | Some e => done (Some (errorf_v "Unable to update Identity Provider to Keycloak API: " (Some e)))
                    | None => mret (enable_github installation, (realm, None))
                    end
                end
            end
        end
  end.

(** The mutate function of the realm, which builds it anew. *)
Definition mutate_realm (kc : Keycloak Q) (m : Manager) (cfg : RHSSO.t) (c : KClient) (installation : RHMI)
    (kcr : KeycloakRealm) : M W (RHMI * (KeycloakRealm * option error)) :=
  let redirectUris := [Config.GetHost cfg +:+ "/auth/realms/openshift/broker/openshift-v4/endpoint"] in
  '(realm, err) ← SetupOpenshiftIDP c m installation cfg openshift_realm redirectUris "";
  match err with
  | Some e => mret (installation, (with_realm realm kcr, Some (ErrWrap "failed to setup Openshift IDP: " e)))
  | None =>
      if multitenant installation then mret (installation, (with_realm realm kcr, None))
      else
        '(installation, (realm, err)) ← setupGithubIDP kc m c installation realm;
        mret (installation, (with_realm realm kcr,
                             (λ e, ErrWrap "failed to setup Github IDP: " e) <$> err))
  end.

(** The loop over the users that are to be in Keycloak. *)
Fixpoint reconcile_users (authenticated : K) (c : KClient) (ns : string) (i : RHMI)
    (users : list KeycloakAPIUser) : M W (option error) :=
  match users with
  | [] => mret None
  | user :: users =>
      '(conflictFound, err) ← createOrUpdateKeycloakUser user c ns;
      match err with
      | Some e => mret (Some (ErrWrap "failed to create/update the customer admin user: " e))
      | None =>
          (if conflictFound && multitenant i
           then api_DeleteUser authenticated (kc_UserName user) keycloakRealmName else mret None);;
          reconcile_users authenticated c ns i users
      end
  end.

(** From the list of the users in Keycloak on. *)
Definition reconcile_sso_users (authenticated : K) (c : KClient) (s : RhssoState)
    : M W (RhssoState * (StatusPhase * option error)) :=
  let ns := Config.GetNamespace (rs_cfg s) in
  let failed e := (s, (PhaseFailed, Some e)) in
  keycloakUsers ← GetKeycloakUsers c ns;
  match keycloakUsers with
  | inl e => mret (failed (ErrWrap "failed to list the keycloak users: " e))
  | inr keycloakUsers =>
      users ← syncronizeWithOpenshiftUsers keycloakUsers c ns (rs_inst s);
      match users with
      | inl e => mret (failed (ErrWrap "failed to synchronize the users: " e))
      | inr users =>
          err ← reconcile_users authenticated c ns (rs_inst s) users;
          match err with
          | Some e => mret (failed e)
          | None =>
              last ← (if multitenant (rs_inst s) then CheckCPUUsage (Q := Q) c ns (lastPodRestart s)
                      else mret (lastPodRestart s));
              let s := mkRhsso (rs_sso s) last in
              '(_, err) ← ReconcilePodDisruptionBudget c ns;
              mret (s, match err with Some e => (PhaseFailed, Some e) | None => (PhaseCompleted, None) end)
          end
      end
  end.

(** From the realm on, when the host is known. *)
Definition reconcile_realm (kc : Keycloak Q) (c : KClient) (s : RhssoState)
    : M W (RhssoState * (StatusPhase * option error)) :=
  let sso := rs_sso s in
  let cfg := so_cfg sso in
  '(installation, (_, (_, err))) ← CreateOrUpdateCapturing (so_inst sso) c
    (mkRealm (named (Config.GetNamespace cfg) keycloakRealmName) [] None None "")
    (mutate_realm kc (so_mgr sso) cfg c);
  let s := mkRhsso (mkSso cfg (so_mgr sso) installation) (lastPodRestart s) in
  let failed e := (s, (PhaseFailed, Some e)) in
  match err with
  | Some e => mret (failed (ErrWrap "failed to create/update keycloak realm: " e))
  | None =>
      authenticated ← AuthenticatedClient kc;
      match authenticated with
      | inl e => mret (failed (ErrWrap "failed to authenticate client in keycloak api " e))
      | inr authenticated =>
          err ← createAuthDelayAuthenticationFlow (authenticated : K);
          match err with
          | Some e => mret (failed (ErrWrap "failed to create and add keycloak authentication flow: " e))
          | None =>
              err ← SyncOpenshiftIDPClientSecret c (so_mgr sso) authenticated cfg keycloakRealmName;
              match err with
              | Some e => mret (failed (ErrWrap "failed to sync openshift idp client secret: " e))
              | None => reconcile_sso_users authenticated c s
              end
          end
      end
  end.

Definition reconcileComponents (c : KClient) (s : RhssoState)
    : M W (RhssoState * (StatusPhase * option error)) :=
  let ns := Config.GetNamespace (rs_cfg s) in
  '(kc, (_, err)) ← CreateOrUpdate c (named_Keycloak (named ns keycloakName) [no_access])
    (λ kc : Keycloak Q, kc ← lift (mutate_keycloak (rs_inst s) kc); mret (kc, None));
  match err with
  | Some e => mret (s, (PhaseFailed, Some (ErrWrap "failed to create/update keycloak custom resource: " e)))
  | None =>
      err ← AddOwnerRefToSSOSecret c adminCredentialSecretName ns (kc_meta kc);
      match err with
      | Some e =>
          HandleError (rs_inst s) PhaseFailed "Failed to add ownerReference admin credentials secret" (Some e);;
          mret (s, (PhaseFailed, Some e))
      | None =>
          if Config.GetHost (rs_cfg s) =?s "" then mret (s, (PhaseAwaitingComponents, None))
          else reconcile_realm kc c s
      end
  end.

(** ** Reconcile *)

Definition on_sso (run : SsoState RHSSO.t → M W (SsoState RHSSO.t * (StatusPhase * option error)))
    (s : RhssoState) : M W (RhssoState * (StatusPhase * option error)) :=
  '(sso, r) ← run (rs_sso s); mret (mkRhsso sso (lastPodRestart s), r).

Definition rhsso_cleanup (c : KClient) (cfg : RHSSO.t) (productNamespace operatorNamespace : string)
    (installation : RHMI) : M W (StatusPhase * option error) :=
  '(phase, err) ← remove_sso oauth_delete c cfg productNamespace operatorNamespace installation;
  if is_some err || negb (phase =?s PhaseCompleted) then mret (phase, err)
  else
    operatorNS ← GetNS operatorNamespace c;
    ns ← GetNS productNamespace c;
    let gone (got : error + NamespaceObj) :=
      match got with inl e => IsNotFound (Some e) | inr _ => false end in
    if gone operatorNS && gone ns then mret (PhaseCompleted, None) else mret (PhaseInProgress, None).

Definition csv_name : string := "rhsso-operator.7.6.12-opr-005".

(** The steps of an install, in order. *)
Definition rhsso_steps (c : KClient) (productNamespace operatorNamespace : string) : list (Step W RhssoState) :=
  let steady (run : RHMI → RHSSO.t → Manager → M W (StatusPhase * option error)) :=
    keeps (λ s, run (rs_inst s) (rs_cfg s) (so_mgr (rs_sso s))) in
  [ reported ("Failed to reconcile " +:+ productNamespace +:+ " namespace")
      (steady (λ i _ _, ReconcileNamespace productNamespace i c));
    reported ("Failed to reconcile " +:+ operatorNamespace +:+ " namespace")
      (steady (λ i _ _, ReconcileNamespace operatorNamespace i c));
    reported ("Failed to reconcile LimitRange for Namespace " +:+ operatorNamespace)
      (steady (λ _ _ _, ReconcileLimitRange (Q := Q) c operatorNamespace DefaultLimitRangeParams));
    reported ("Failed to reconcile LimitRange for Namespace " +:+ productNamespace)
      (steady (λ _ _ _, ReconcileLimitRange (Q := Q) c productNamespace DefaultLimitRangeParams));
    reported "Failed to reconcile admin credentials secret"
      (steady (λ _ _ m, ReconcileSecretToProductNamespace c m adminCredentialSecretName productNamespace));
    reported ("Failed to reconcile " +:+ RHSSOSubscriptionName +:+ " subscription")
      (steady (λ i _ _, sso_ReconcileSubscription backup_fuel declaration c i productNamespace
                          operatorNamespace postgresResourceName));
    mkStep (Some "Failed to reconcile rhsso-operator csv deployments priority class name") goes_on_unless_failed
      (steady (λ i cfg _, ReconcileCsvDeploymentsPriority c csv_name
                            (RHSSOCommon.GetOperatorNamespace (RHSSO.common cfg)) (PriorityClassName (Spec i))));
    reported "Failed to reconcile rhsso-operator metrics Service"
      (steady (λ i _ _, ReconcileOperatorMetricsService c i operatorNamespace));
    reported "Failed to handle in progress phase" (on_sso (CreateKeycloakRoute c routeName));
    reported "Failed to reconcile cloud resources"
      (on_sso (ReconcileCloudResources RHSSOPostgresPrefix defaultOperandNamespace ssoType c));
    reported "Failed to reconcile components" (reconcileComponents c);
    reported "Failed to reconsile RHSSO pod priority" (keeps (λ s, ReconcileStatefulSet (Q := Q) c (rs_sso s)));
    unreported (on_sso (HandleProgressPhase (Q := Q) c keycloakName keycloakRealmName VersionRHSSO
                          OperatorVersionRHSSO));
    unreported (on_sso (write_config "error writing to config in rhsso cluster reconciler: "));
    reported "Failed to remove pod monitor" (steady (λ _ cfg _, RemovePodMonitors c cfg));
    reported "Failed to reconcile admin credential secret to RHMI operator namespace"
      (steady (λ _ _ m, ReconcileSecretToRHMIOperatorNamespace c m adminCredentialSecretName productNamespace));
    reported "Failed to reconcile alerts"
      (steady (λ i cfg _, ReconcileAlerts (rhsso_newAlertsReconciler i cfg (Type_ (Spec i))
                            (GetOboNamespace (Namespace (rhmi_meta i)))) c));
    reported "Failed to export alerts to the observability namespace"
      (steady (λ i cfg _, ExportAlerts c i (Config.GetProductName cfg) (Config.GetNamespace cfg))) ].

Definition rhsso_Reconcile (s : RhssoState) (ps : RHMIProductStatus) (c : KClient) (uninstall : bool)
    : M W (RhssoState * RHMIProductStatus * (StatusPhase * option error)) :=
  let cfg := rs_cfg s in
  let operatorNamespace := RHSSOCommon.GetOperatorNamespace (RHSSO.common cfg) in
  let productNamespace := Config.GetNamespace cfg in
  '(installation, (phase, err)) ← ReconcileFinalizer c (rs_inst s) (Config.GetProductName cfg) uninstall
    (λ i, r ← rhsso_cleanup c cfg productNamespace operatorNamespace i; mret (i, r));
  let s := mkRhsso (mkSso cfg (so_mgr (rs_sso s)) installation) (lastPodRestart s) in
  if is_some err || (phase =?s PhaseFailed) then
    HandleError installation phase "Failed to reconcile finalizer" err;;
    mret (s, ps, (phase, err))
  else if uninstall then mret (s, ps, (phase, None))
  else
    '(s, (phase, err)) ← run_steps rs_inst (rhsso_steps c productNamespace operatorNamespace) s;
    if is_some err || negb (phase =?s PhaseCompleted) then mret (s, ps, (phase, err))
    else
      HandleProductComplete (rs_inst s) InstallStage (Config.GetProductName (rs_cfg s));;
      mret (s, sso_status (rs_cfg s) ps, (PhaseCompleted, None)).
End rhsso.

Definition rhsso_NewReconciler (m : Manager) (installation : RHMI) (declaration : option ProductDeclaration)
    (last : Z) `{Yaml} : error + RhssoState :=
  match declaration with
  | None => inl (ErrStr "no product declaration found for RHSSO")
  | Some _ =>
      match ReadRHSSO m with
      | inl e => inl e
      | inr cfg =>
          inr (mkRhsso (mkSso (RHSSO.mk (SetNameSpaces installation (RHSSO.common cfg) defaultOperandNamespace))
                          m installation) last)
      end
  end.

(** ** Facts *)

Lemma list_filter_bool {A} (f : A → bool) (l : list A) : List.filter f l = filter (λ x, f x = true) l.
Proof.
  induction l as [|x l IH]; [done|]. cbn [List.filter]. destruct (f x) eqn:E.
  - by rewrite filter_cons_True, IH.
  - rewrite filter_cons_False by (by rewrite E). done.
Qed.

Lemma OsUserInKc_true os u : OsUserInKc os u = true ↔ kc_UserName u ∈ (λ o, Name (user_meta o)) <$> os.
Proof.
  unfold OsUserInKc. rewrite existsb_exists, list_elem_of_fmap. split.
  - intros (o & Ho & He%str_eqb_true). exists o. by rewrite list_elem_of_In.
  - intros (o & He & Ho). exists o. rewrite <- list_elem_of_In, He, str_eqb_refl. done.
Qed.

Lemma with_ClientRoles_name r u : kc_UserName (with_ClientRoles r u) = kc_UserName u.
Proof. reflexivity. Qed.

Section user_facts.
Context {W : Type} `{Client W User} `{Client W Identity} `{Client W OAuth} `{Client W Group}
  `{Client W KeycloakUser} `{MailParser}.

Lemma new_keycloak_user_name ids o : kc_UserName (new_keycloak_user ids o) = Name (user_meta o).
Proof. unfold new_keycloak_user, AppendUpdateProfileActionForUserWithoutEmail. by case_match. Qed.

(** C18: When the users of Keycloak have distinct names, none of them empty,
    what the synchronisation gives are, in some order, exactly the ones of them
    that are active users of the cluster, otherwise as they were, and one user
    for each active user that Keycloak did not have and that is in no excluded
    group; all of them have the client roles of the installation's type, and
    their names are distinct if those of the active users are. *)
Theorem syncronizeWithOpenshiftUsers_spec kc c ns i (w w' : W) l :
  NoDup (kc_UserName <$> kc) → "" ∉ kc_UserName <$> kc →
  syncronizeWithOpenshiftUsers kc c ns i w = (Done (inr l), w') →
  ∃ active w1 groups w2 w3 ids,
    GetUsersInActiveIDPs c w = (Done (inr active), w1)
    ∧ client_list (O := Group) c list_all w1 = (Done (inr groups), w2)
    ∧ client_list (O := Identity) c list_all w3 = (Done (inr ids), w')
    ∧ let roles := with_ClientRoles (getKeycloakRoles (Type_ (Spec i))) in
      l ≡ₚ (roles <$> filter (λ u, kc_UserName u ∈ (λ o, Name (user_meta o)) <$> active) kc)
           ++ ((λ o, roles (new_keycloak_user ids o))
               <$> filter (λ o, Name (user_meta o) ∉ kc_UserName <$> kc ∧ IsInExclusionGroup o groups = false) active)
    ∧ (NoDup ((λ o, Name (user_meta o)) <$> active) → NoDup (kc_UserName <$> l)).
Proof.
  intros Hnd Hne Hr. unfold syncronizeWithOpenshiftUsers in Hr.
  apply bind_done_inv in Hr as ([e|active] & w1 & Ha & Hr); [done|].
  apply bind_done_inv in Hr as ([e|groups] & w2 & Hg & Hr); [done|]. unfold getUserDiff in Hr.
  apply bind_done_inv in Hr as ([e|kept] & w3 & Hd & Hr); [done|].
  apply bind_done_inv in Hr as ([e|ids] & w4 & Hi & Hr); [done|]. rewrite run_ret in Hr. injection Hr as <- <-.
  exists active, w1, groups, w2, w3, ids. split_and!; [done..|].
  apply DeleteKeycloakUsers_ok in Hd; [|done].
  set (names := (λ o, Name (user_meta o)) <$> active).
  assert (kept ≡ₚ filter (λ u, kc_UserName u ∈ names) kc) as Hk.
  { rewrite Hd, list_filter_bool. clear Hd. apply Permutation_refl'. apply filter_ext_in. intros u Hu.
    assert (kc_UserName u ≠ "") as Hu' by (intros He; apply Hne; rewrite <- He; by apply list_elem_of_fmap_2).
    split.
    - intros [?|Hni]; [done|]. destruct (OsUserInKc active u) eqn:E; [by apply OsUserInKc_true|].
      destruct Hni. apply list_elem_of_fmap_2, list_elem_of_filter. by rewrite E.
    - intros Hin. right. intros (v & Hv & [Hf Hv']%list_elem_of_filter)%list_elem_of_fmap.
      apply negb_true_iff in Hf. rewrite (proj2 (OsUserInKc_true active v)) in Hf; [done|]. by rewrite <- Hv. }
  assert (List.filter (λ o, negb (kcContainsOsUser kc o) && negb (IsInExclusionGroup o groups)) active
          = filter (λ o, Name (user_meta o) ∉ kc_UserName <$> kc ∧ IsInExclusionGroup o groups = false) active) as Hadd.
  { rewrite list_filter_bool. apply list_filter_iff. intros o.
    rewrite andb_true_iff, !negb_true_iff. f_equiv. unfold kcContainsOsUser.
    rewrite <- not_true_iff_false, existsb_exists, list_elem_of_fmap. f_equiv. split.
    - intros (u & Hu & He%str_eqb_true). exists u. by rewrite list_elem_of_In.
    - intros (u & He & Hu). exists u. rewrite <- list_elem_of_In, He, str_eqb_refl. done. }
  rewrite Hadd. cbn zeta.
  assert (map (with_ClientRoles (getKeycloakRoles (Type_ (Spec i)))) (kept ++ map (new_keycloak_user ids)
    (filter (λ o, Name (user_meta o) ∉ kc_UserName <$> kc ∧ IsInExclusionGroup o groups = false) active)) ≡ₚ
   (with_ClientRoles (getKeycloakRoles (Type_ (Spec i))) <$> filter (λ u, kc_UserName u ∈ names) kc)
    ++ ((λ o, with_ClientRoles (getKeycloakRoles (Type_ (Spec i))) (new_keycloak_user ids o))
         <$> filter (λ o, Name (user_meta o) ∉ kc_UserName <$> kc ∧ IsInExclusionGroup o groups = false) active)) as Hl.
  { rewrite map_app, map_map. by rewrite Hk. }
  split; [done|]. intros Hna. rewrite Hl, fmap_app, <- !list_fmap_compose.
  apply NoDup_app. split_and!.
  - by apply NoDup_fmap_filter.
  - intros n (u & -> & Hu)%list_elem_of_fmap (o & Hn & [[Ho _] _]%list_elem_of_filter)%list_elem_of_fmap.
    apply list_elem_of_filter in Hu as [_ Hu]. cbn [compose] in Hn. rewrite !with_ClientRoles_name in Hn.
    rewrite new_keycloak_user_name in Hn. apply Ho. rewrite <- Hn. by apply list_elem_of_fmap_2.
  - erewrite list_fmap_ext; [by apply (NoDup_fmap_filter (λ o, Name (user_meta o)))|].
    intros k o _. apply new_keycloak_user_name.
Qed.
End user_facts.

(** Two whole cores, the limit, are printed without a unit and not taken for
    more than three quarters of it. *)
Lemma whole_cores_not_hot : container_hot (Some "2") = false ∧ container_hot (Some "1900m") = true
  ∧ container_hot (Some "1900000000n") = false.
Proof. done. Qed.

Lemma hot_pod_spec items p :
  hot_pod items = Some p → p ∈ items ∧ ∃ u n, Some u ∈ pm_Containers p
    ∧ parse_int64 (trim_suffix "m" u) = Some n ∧ (1500 < n)%Z.
Proof.
  intros [Hin He]%List.find_some. split; [by apply list_elem_of_In|].
  apply existsb_exists in He as ([u|] & Hu & Hh); [|done]. exists u. unfold container_hot in Hh.
  destruct (parse_int64 _) as [n|]; [|done]. apply Z.ltb_lt in Hh. exists n. by rewrite list_elem_of_In.
Qed.

Section cpu_facts.
Context {W Q : Type} `{SemanticDeepEqual (StatefulSet Q)} `{Client W (StatefulSet Q)} `{Client W Pod}
  `{Clock W} `{MetricsClient W}.
Context (R : W → W → Prop) `{!PreOrder R}
  (get_R : ∀ c ns n, preserves R (client_get (O := StatefulSet Q) c ns n))
  (config_R : preserves R metrics_NewForConfig) (metrics_R : ∀ ns, preserves R (list_PodMetricses ns)).

(** C19: A check of the CPU usage leaves the world as the reads leave it and
    the time of the last restart as it was, or it deletes one pod of the
    namespace, once: then all replicas of the stateful set were ready, the last
    restart was half an hour ago, a container of the pod used more than three
    quarters of the limit, and the restart is remembered. *)
Theorem CheckCPUUsage_spec c ns last (w w' : W) last' :
  CheckCPUUsage (Q := Q) c ns last w = (Done last', w') →
  (R w w' ∧ last' = last)
  ∨ ∃ ss w1 wc pods pod u n w2 err,
      client_get (O := StatefulSet Q) c ns "keycloak" w = (Done (inr ss), w1)
      ∧ ss_Replicas ss = Some (ss_ReadyReplicas ss)
      ∧ (last + 30 * minute_ns ≤ now w1)%Z
      ∧ list_PodMetricses ns wc = (Done (inr (Some pods)), w2)
      ∧ pod ∈ pods ∧ Some u ∈ pm_Containers pod ∧ parse_int64 (trim_suffix "m" u) = Some n ∧ (1500 < n)%Z
      ∧ R w w2
      ∧ client_delete c (mkPod (named ns (pm_Name pod)) [] "" "") w2 = (Done err, w')
      ∧ last' = now w'.
Proof.
  unfold CheckCPUUsage. intros Hr.
  apply bind_done_inv in Hr as ([e|ss] & w1 & Hg & Hr); pose proof (get_R _ _ _ _ _ _ Hg) as HR1; [go_inv; auto|].
  destruct (ss_Replicas ss) as [n|] eqn:Hn; [|done].
  destruct (ss_ReadyReplicas ss =? n)%Z eqn:Er; cbn [negb] in Hr; [|go_inv; auto]. apply Z.eqb_eq in Er as <-.
  rewrite bind_reads in Hr. destruct (_ <? _)%Z eqn:Et; [go_inv; auto|]. apply Z.ltb_ge in Et.
  apply bind_done_inv in Hr as ([e|] & w2 & Hc & Hr); pose proof (config_R _ _ _ Hc) as HR2;
    [go_inv; left; split; [by etransitivity|done]|].
  apply bind_done_inv in Hr as (got & w3 & Hm & Hr); pose proof (metrics_R _ _ _ _ Hm) as HR3.
  assert (R w w3) as HR by (by repeat (etransitivity; [done|])).
  destruct got as [e|[pods|]]; [go_inv; auto| |go_inv; auto].
  destruct (hot_pod pods) as [pod|] eqn:Hp; [|go_inv; auto].
  apply hot_pod_spec in Hp as (Hin & u & k & Hu & Hk & Hlt).
  apply bind_done_inv in Hr as (err & w4 & Hd & Hr). unfold reads in Hr. injection Hr as <- <-.
  right. by exists ss, w1, w2, pods, pod, u, k, w3, err.
Qed.
End cpu_facts.

Section rhsso_facts.
Context {W Q K : Type}.
Context `{Client W RHMI} `{Client W Secret} `{Client W ConfigMap} `{Client W CRD} `{Client W KeycloakUser}
  `{Client W KeycloakClient} `{Client W KeycloakRealm} `{SemanticDeepEqual (Keycloak Q)}
  `{Client W (Keycloak Q)} `{Client W Route} `{Client W OAuthClient} `{Client W Postgres}
  `{SemanticDeepEqual (StatefulSet Q)} `{Client W (StatefulSet Q)} `{Client W PodMonitor}
  `{Client W PrometheusRule} `{Client W UpstreamPrometheusRule} `{Client W PodDisruptionBudget}
  `{Client W Service} `{Client W InstallPlan} `{Client W Subscription}
  `{Client W ClusterServiceVersion} `{Client W (Snapshot PostgresSnapshotType)}
  `{Client W (Snapshot RedisSnapshotType)} `{Client W NamespaceObj} `{Client W Project}
  `{Client W ProjectRequest} `{SemanticDeepEqual (LimitRange Q)} `{Client W (LimitRange Q)} `{Client W Pod}
  `{Client W User} `{Client W Identity} `{Client W OAuth} `{Client W Group}.
Context `{Quantity Q} `{KeycloakClientFactory W Q K} `{KeycloakInterface W K} `{MarketplaceInterface W}
  `{EventRecorder W} `{OsEnv W} `{Clock W} `{Ticker W} `{MetricsClient W} `{Yaml} `{TitleCase} `{MailParser}.
Context (declaration : ProductDeclaration) (oauth_delete : string → M W (option error)) (backup_fuel : nat).

(** The components leave the config alone, and are completed only when the
    host is known. *)
Lemma reconcileComponents_cfg c s (w w' : W) s' r :
  reconcileComponents (Q := Q) c s w = (Done (s', r), w') →
  rs_cfg s' = rs_cfg s ∧ (r = (PhaseCompleted, None) → Config.GetHost (rs_cfg s) ≠ "").
Proof.
  unfold reconcileComponents, reconcile_realm, reconcile_sso_users. intros Hr.
  apply bind_done_inv in Hr as ([kc [? err]] & w1 & _ & Hr). destruct err; [by go_inv|].
  apply bind_done_inv in Hr as ([e|] & w2 & _ & Hr); [by go_inv|].
  destruct (_ =?s "") eqn:Eh; [by go_inv|]. apply str_eqb_false in Eh. split; [|done]. by go_inv.
Qed.

Lemma write_keeps_cfg what : step_keeps rs_cfg (unreported (on_sso (write_config what))).
Proof. intros s w w' s' r. cbn [step_run unreported]. unfold on_sso, write_config. intros Hr. by go_inv. Qed.
Ltac all_keep := all_keep_with ltac:(apply write_keeps_cfg).

(** C15: The reconcile of the single sign-on reports an install completed
    only when its finalizer was reconciled and each of its eighteen steps
    ran, in order, none with an error; the status of the product then names a
    host and passes the check of its versions, the config has the realm, and
    the event of a completed product is the last thing emitted. *)
Theorem rhsso_completed s ps c (w w' : W) s' ps' :
  let cfg := rs_cfg s in
  let operatorNs := RHSSOCommon.GetOperatorNamespace (RHSSO.common cfg) in
  let ns := RHSSOCommon.GetNamespace (RHSSO.common cfg) in
  rhsso_Reconcile (Q := Q) (K := K) declaration oauth_delete backup_fuel s ps c false w
    = (Done (s', ps', (PhaseCompleted, None)), w') →
  ∃ i wf w1,
    ReconcileFinalizer c (rs_inst s) ProductRHSSO false
      (λ i, r ← rhsso_cleanup oauth_delete c cfg ns operatorNs i; mret (i, r)) w
      = (Done (i, (PhaseCompleted, None)), wf)
    ∧ steps_ran (rhsso_steps (Q := Q) declaration backup_fuel c ns operatorNs)
        (mkRhsso (mkSso cfg (so_mgr (rs_sso s)) i) (lastPodRestart s)) wf s' w1
    ∧ ps' = sso_status (rs_cfg s') ps
    ∧ VerifyProductAndOperatorVersion ps' VersionRHSSO OperatorVersionRHSSO = true
    ∧ p_Host ps' ≠ "" ∧ RHSSOCommon.GetRealm (RHSSO.common (rs_cfg s')) = keycloakRealmName
    ∧ HandleProductComplete (rs_inst s') InstallStage ProductRHSSO w1 = (Done tt, w').
Proof.
  cbn zeta. unfold rhsso_Reconcile. intros Hr.
  apply bind_done_inv in Hr as ([i [ph err]] & wf & Hf & Hr).
  destruct (is_some err || (ph =?s PhaseFailed)) eqn:Hn; [go_inv|].
  apply orb_false_iff in Hn as [He _]. destruct err; [done|].
  pose proof (ReconcileFinalizer_phase _ _ _ _ _ _ _ _ _ Hf eq_refl) as ->.
  apply bind_done_inv in Hr as ([s1 [ph1 err1]] & w1 & Hs & Hr).
  destruct (is_some err1 || negb (ph1 =?s PhaseCompleted)) eqn:Hn1; [by go_inv|].
  apply orb_false_iff in Hn1 as [He1 ->%negb_false_iff%str_eqb_true]. destruct err1; [done|].
  apply bind_done_inv in Hr as ([] & w2 & Hc & Hr). rewrite run_ret in Hr. injection Hr as <- <- <-.
  apply run_steps_completed in Hs; [|by repeat constructor]. exists i, wf, w1. split; [done|]. split; [done|].
  unfold rhsso_steps in Hs.
  apply (steps_ran_app rs_inst [_; _; _; _; _; _; _; _; _; _]) in Hs as (s2 & w3 & _ & Hs).
  destruct Hs as (s3 & w4 & ph & Hcomp & Hph & Hs). apply str_eqb_true in Hph as ->.
  apply reconcileComponents_cfg in Hcomp as [Hcfg3 Hhost]. specialize (Hhost eq_refl).
  apply (steps_ran_app rs_inst [_]) in Hs as (s4 & w5 & Hs4 & Hs).
  apply (steps_keep rs_cfg) in Hs4; [|all_keep].
  destruct Hs as (s5 & w6 & ph & Hprog & Hph & Hs). apply str_eqb_true in Hph as ->.
  apply (steps_keep rs_cfg) in Hs; [|all_keep].
  cbn [unreported step_run] in Hprog. unfold on_sso in Hprog.
  apply bind_done_inv in Hprog as ([sso r] & w7 & Hprog & Hret). rewrite run_ret in Hret. injection Hret as <- -> <-.
  apply HandleProgressPhase_ok in Hprog. cbn [sso_common RHSSO_sso] in Hprog.
  assert (RHSSO.common (rs_cfg s1) = RHSSOCommon.SetRealm (RHSSOCommon.SetOperatorVersion
    (RHSSOCommon.SetProductVersion (RHSSO.common (rs_cfg s2)) VersionRHSSO) OperatorVersionRHSSO) keycloakRealmName)
    as Hcfg.
  { rewrite Hs. cbn [rs_cfg rs_sso]. rewrite <- Hcfg3, <- Hs4. exact Hprog. }
  split; [done|].
  unfold VerifyProductAndOperatorVersion, sso_status. cbn [p_OperatorVersion p_Version p_Host].
  cbn [Config.GetOperatorVersion Config.GetProductVersion Config.GetHost RHSSO_readable] in Hhost |- *.
  rewrite Hcfg, str_eqb_refl. clear -Hhost Hc.
  unfold RHSSOCommon.GetProductVersion, RHSSOCommon.GetHost, RHSSOCommon.GetRealm in *. cbn [RHSSOCommon.Config
    RHSSOCommon.SetRealm RHSSOCommon.SetOperatorVersion RHSSOCommon.SetProductVersion].
  unfold cfg_get in *. autorewrite with go. done.
Qed.
End rhsso_facts.
