(* ===== verification/RhssoUser.v ===== *)
(** * The single sign-on of the users (pkg/products/rhssouser/reconciler.go)

    Its Reconcile with every step: the Keycloak with its master realm, the
    groups with their roles, the dedicated administrators, and the link in the
    console. *)

From stdpp Require Import base list strings gmap.
From Stdlib Require Import ZArith Lia.
From S2P Require Import Prelude Numbers Kube Api Resources Users Olm Quota Pods Keycloak RateLimit Cro Config Cluster.
From S2P Require Import Alerts CloudAlerts UsageAlerts OboAlerts Backup Marketplace Reconciler RhssoCommon.
From S2P Require Import Metrics Custom ProductAlerts.

Definition defaultNamespace : string := "user-sso".
Definition keycloakName : string := "rhssouser".
Definition masterRealmName : string := "master".
Definition adminCredentialSecretName : string := "credential-" +:+ keycloakName.
Definition ssoType : string := "user sso".
Definition postgresResourceName : string := "rhssouser-postgres-rhmi".
Definition routeName : string := "keycloak".
Definition masterRealmLabelKey : string := "sso".
Definition masterRealmLabelValue : string := "master".
Definition developersGroupName : string := "rhmi-developers".
Definition dedicatedAdminsGroupName : string := "dedicated-admins".
Definition realmManagersGroupName : string := "realm-managers".
Definition fullRealmManagersGroupPath : string := dedicatedAdminsGroupName +:+ "/" +:+ realmManagersGroupName.
Definition viewRealmRoleName : string := "view-realm".
Definition createRealmRoleName : string := "create-realm".
Definition manageUsersRoleName : string := "manage-users".
Definition masterRealmClientName : string := "master-realm".
Definition firstBrokerLoginFlowAlias : string := "first broker login".
Definition reviewProfileExecutionAlias : string := "review profile config".
Definition userSsoConsoleLink : string := "rhoam-user-sso-console-link".
Definition RHSSOProfile : string := "RHSSO".
Definition userSSOIcon : string :=
  "data:image/svg+xml;base64,PD94bWwgdmVyc2lvbj0iMS4wIiBlbmNvZGluZz0idXRmLTgiPz4KPCEtLSBHZW5lcmF0b3I6IEFkb2JlIElsbHVzdHJhdG9yIDI1LjIuMCwgU1ZHIEV4cG9ydCBQbHVnLUluIC4gU1ZHIFZlcnNpb246IDYuMDAgQnVpbGQgMCkgIC0tPgo8c3ZnIHZlcnNpb249IjEuMSIgaWQ9IkxheWVyXzEiIHhtbG5zPSJodHRwOi8vd3d3LnczLm9yZy8yMDAwL3N2ZyIgeG1sbnM6eGxpbms9Imh0dHA6Ly93d3cudzMub3JnLzE5OTkveGxpbmsiIHg9IjBweCIgeT0iMHB4IgoJIHZpZXdCb3g9IjAgMCAzNyAzNyIgc3R5bGU9ImVuYWJsZS1iYWNrZ3JvdW5kOm5ldyAwIDAgMzcgMzc7IiB4bWw6c3BhY2U9InByZXNlcnZlIj4KPHN0eWxlIHR5cGU9InRleHQvY3NzIj4KCS5zdDB7ZmlsbDojRUUwMDAwO30KCS5zdDF7ZmlsbDojRkZGRkZGO30KPC9zdHlsZT4KPGc+Cgk8cGF0aCBkPSJNMjcuNSwwLjVoLTE4Yy00Ljk3LDAtOSw0LjAzLTksOXYxOGMwLDQuOTcsNC4wMyw5LDksOWgxOGM0Ljk3LDAsOS00LjAzLDktOXYtMThDMzYuNSw0LjUzLDMyLjQ3LDAuNSwyNy41LDAuNUwyNy41LDAuNXoiCgkJLz4KCTxnPgoJCTxwYXRoIGNsYXNzPSJzdDAiIGQ9Ik0yNSwyMi4zN2MtMC45NSwwLTEuNzUsMC42My0yLjAyLDEuNWgtMS44NVYyMS41YzAtMC4zNS0wLjI4LTAuNjItMC42Mi0wLjYycy0wLjYyLDAuMjgtMC42MiwwLjYydjMKCQkJYzAsMC4zNSwwLjI4LDAuNjIsMC42MiwwLjYyaDIuNDhjMC4yNywwLjg3LDEuMDcsMS41LDIuMDIsMS41YzEuMTcsMCwyLjEyLTAuOTUsMi4xMi0yLjEyUzI2LjE3LDIyLjM3LDI1LDIyLjM3eiBNMjUsMjUuMzcKCQkJYy0wLjQ4LDAtMC44OC0wLjM5LTAuODgtMC44OHMwLjM5LTAuODgsMC44OC0wLjg4czAuODgsMC4zOSwwLjg4LDAuODhTMjUuNDgsMjUuMzcsMjUsMjUuMzd6Ii8+CgkJPHBhdGggY2xhc3M9InN0MCIgZD0iTTIwLjUsMTYuMTJjMC4zNCwwLDAuNjItMC4yOCwwLjYyLTAuNjJ2LTIuMzhoMS45MWMwLjMyLDAuNzcsMS4wOCwxLjMxLDEuOTYsMS4zMQoJCQljMS4xNywwLDIuMTItMC45NSwyLjEyLTIuMTJzLTAuOTUtMi4xMi0yLjEyLTIuMTJjLTEuMDIsMC0xLjg4LDAuNzMtMi4wOCwxLjY5SDIwLjVjLTAuMzQsMC0wLjYyLDAuMjgtMC42MiwwLjYydjMKCQkJQzE5Ljg3LDE1Ljg1LDIwLjE2LDE2LjEyLDIwLjUsMTYuMTJ6IE0yNSwxMS40M2MwLjQ4LDAsMC44OCwwLjM5LDAuODgsMC44OHMtMC4zOSwwLjg4LTAuODgsMC44OHMtMC44OC0wLjM5LTAuODgtMC44OAoJCQlTMjQuNTIsMTEuNDMsMjUsMTEuNDN6Ii8+CgkJPHBhdGggY2xhc3M9InN0MCIgZD0iTTEyLjEyLDE5Ljk2di0wLjg0aDIuMzhjMC4zNCwwLDAuNjItMC4yOCwwLjYyLTAuNjJzLTAuMjgtMC42Mi0wLjYyLTAuNjJoLTIuMzh2LTAuOTEKCQkJYzAtMC4zNS0wLjI4LTAuNjItMC42Mi0wLjYyaC0zYy0wLjM0LDAtMC42MiwwLjI4LTAuNjIsMC42MnYzYzAsMC4zNSwwLjI4LDAuNjIsMC42MiwwLjYyaDNDMTEuODQsMjAuNTksMTIuMTIsMjAuMzEsMTIuMTIsMTkuOTYKCQkJeiBNMTAuODcsMTkuMzRIOS4xMnYtMS43NWgxLjc1VjE5LjM0eiIvPgoJCTxwYXRoIGNsYXNzPSJzdDAiIGQ9Ik0yOC41LDE2LjM0aC0zYy0wLjM0LDAtMC42MiwwLjI4LTAuNjIsMC42MnYwLjkxSDIyLjVjLTAuMzQsMC0wLjYyLDAuMjgtMC42MiwwLjYyczAuMjgsMC42MiwwLjYyLDAuNjJoMi4zOAoJCQl2MC44NGMwLDAuMzUsMC4yOCwwLjYyLDAuNjIsMC42MmgzYzAuMzQsMCwwLjYyLTAuMjgsMC42Mi0wLjYydi0zQzI5LjEyLDE2LjYyLDI4Ljg0LDE2LjM0LDI4LjUsMTYuMzR6IE0yNy44NywxOS4zNGgtMS43NXYtMS43NQoJCQloMS43NVYxOS4zNHoiLz4KCQk8cGF0aCBjbGFzcz0ic3QwIiBkPSJNMTYuNSwyMC44N2MtMC4zNCwwLTAuNjMsMC4yOC0wLjYzLDAuNjJ2Mi4zOGgtMS44NWMtMC4yNy0wLjg3LTEuMDctMS41LTIuMDItMS41CgkJCWMtMS4xNywwLTIuMTIsMC45NS0yLjEyLDIuMTJzMC45NSwyLjEyLDIuMTIsMi4xMmMwLjk1LDAsMS43NS0wLjYzLDIuMDItMS41aDIuNDhjMC4zNCwwLDAuNjItMC4yOCwwLjYyLTAuNjJ2LTMKCQkJQzE3LjEyLDIxLjE1LDE2Ljg0LDIwLjg3LDE2LjUsMjAuODd6IE0xMiwyNS4zN2MtMC40OCwwLTAuODgtMC4zOS0wLjg4LTAuODhzMC4zOS0wLjg4LDAuODgtMC44OHMwLjg4LDAuMzksMC44OCwwLjg4CgkJCVMxMi40OCwyNS4zNywxMiwyNS4zN3oiLz4KCQk8cGF0aCBjbGFzcz0ic3QwIiBkPSJNMTYuNSwxMS44N2gtMi40MmMtMC4yLTAuOTctMS4wNi0xLjY5LTIuMDgtMS42OWMtMS4xNywwLTIuMTIsMC45NS0yLjEyLDIuMTJzMC45NSwyLjEyLDIuMTIsMi4xMgoJCQljMC44OCwwLDEuNjQtMC41NCwxLjk2LTEuMzFoMS45MXYyLjM4YzAsMC4zNSwwLjI4LDAuNjIsMC42MywwLjYyczAuNjItMC4yOCwwLjYyLTAuNjJ2LTNDMTcuMTIsMTIuMTUsMTYuODQsMTEuODcsMTYuNSwxMS44N3oKCQkJIE0xMiwxMy4xOGMtMC40OCwwLTAuODgtMC4zOS0wLjg4LTAuODhzMC4zOS0wLjg4LDAuODgtMC44OHMwLjg4LDAuMzksMC44OCwwLjg4UzEyLjQ4LDEzLjE4LDEyLDEzLjE4eiIvPgoJPC9nPgoJPHBhdGggY2xhc3M9InN0MSIgZD0iTTE4LjUsMjIuNjJjLTIuMjcsMC00LjEzLTEuODUtNC4xMy00LjEyczEuODUtNC4xMiw0LjEzLTQuMTJzNC4xMiwxLjg1LDQuMTIsNC4xMlMyMC43NywyMi42MiwxOC41LDIyLjYyegoJCSBNMTguNSwxNS42MmMtMS41OCwwLTIuODgsMS4yOS0yLjg4LDIuODhzMS4yOSwyLjg4LDIuODgsMi44OHMyLjg4LTEuMjksMi44OC0yLjg4UzIwLjA4LDE1LjYyLDE4LjUsMTUuNjJ6Ii8+CjwvZz4KPC9zdmc+Cg==".
Definition realmManagersClientRoles : list string :=
  ["create-client"; "manage-authorization"; "manage-clients"; "manage-events"; "manage-identity-providers";
   "manage-realm"; "manage-users"; "query-clients"; "query-groups"; "query-realms"; "query-users";
   "view-authorization"; "view-clients"; "view-events"; "view-identity-providers"; "view-realm"; "view-users"].

Definition getMasterLabels : gmap string string := {[masterRealmLabelKey := masterRealmLabelValue]}.

(** ** The administrators *)

Definition first_uid (u : KeycloakAPIUser) : option string := fi_UserID <$> head (kc_FederatedIdentities u).
Definition linked (u : KeycloakAPIUser) (o : User) : bool := bool_decide (first_uid u = Some (UID (user_meta o))).

Definition kcUserInDedicatedAdmins (kcUser : KeycloakAPIUser) (admins : list User) : bool :=
  existsb (linked kcUser) admins.
Definition getOpenShiftUser (kcUser : KeycloakAPIUser) (osUsers : list User) : option User :=
  List.find (linked kcUser) osUsers.
Definition getKeyCloakUser (admin : User) (kcUsers : list KeycloakAPIUser) : option KeycloakAPIUser :=
  List.find (λ u, linked u admin) kcUsers.

Definition master_roles (u : KeycloakAPIUser) : list string := map_get [] (kc_ClientRoles u) "master-realm".
Definition hasAdminPrivileges (u : KeycloakAPIUser) : bool :=
  Slices.Contains (master_roles u) "manage-users" && Slices.Contains (kc_RealmRoles u) "create-realm".

(** The users of the first group of the name. *)
Definition getOsUsersInAdminsGroup (groups : list Group) : list string :=
  match List.find (λ g, Name (grp_meta g) =?s "dedicated-admins") groups with
  | Some g => grp_Users g
  | None => []
  end.
Definition getDedicatedAdmins (osUsers : list User) (groups : list Group) : list User :=
  List.filter (λ o, Slices.Contains (getOsUsersInAdminsGroup groups) (Name (user_meta o))) osUsers.

(** By name, unlike kcUserInDedicatedAdmins. *)
Definition OsUserInDedicatedAdmins (dedicatedAdmins : list string) (kcUser : KeycloakAPIUser) : bool :=
  Slices.Contains dedicatedAdmins (kc_UserName kcUser).

Record UserDiff := mkDiff {
  d_added : list User; d_deleted : list KeycloakAPIUser;
  d_promoted : list KeycloakAPIUser; d_demoted : list KeycloakAPIUser }.
Definition getUserDiff (keycloakUsers : list KeycloakAPIUser) (openshiftUsers dedicatedAdmins : list User) : UserDiff :=
  mkDiff
    (List.filter (λ a, is_none (getKeyCloakUser a keycloakUsers)) dedicatedAdmins)
    (List.filter (λ u, is_none (getOpenShiftUser u openshiftUsers)) keycloakUsers)
    (List.filter (λ u, negb (hasAdminPrivileges u)) (omap (λ a, getKeyCloakUser a keycloakUsers) dedicatedAdmins))
    (List.filter (λ u, is_some (getOpenShiftUser u openshiftUsers)
                       && negb (kcUserInDedicatedAdmins u dedicatedAdmins) && hasAdminPrivileges u) keycloakUsers).

Definition admin_ClientRoles : gmap string (list string) :=
  {["account" := ["manage-account"; "view-profile"];
    "master-realm" := ["view-clients"; "view-realm"; "manage-users"]]}.
Definition admin_RealmRoles : list string := ["offline_access"; "uma_authorization"; "create-realm"].

Definition new_admin (osUser : User) : KeycloakAPIUser :=
  mkKeycloakUser "" (Name (user_meta osUser)) "" true true
    [mkFederated idpAlias (UID (user_meta osUser)) (Name (user_meta osUser))] [] admin_RealmRoles
    admin_ClientRoles [dedicatedAdminsGroupName; fullRealmManagersGroupPath].
Definition addKeycloakUsers (keycloakUsers : list KeycloakAPIUser) (added : list User) : list KeycloakAPIUser :=
  keycloakUsers ++ map new_admin added.

Definition with_roles (realm_roles : list string) (client_roles : gmap string (list string))
    (groups : list string) (u : KeycloakAPIUser) : KeycloakAPIUser :=
  mkFullKeycloakUser (kc_ID u) (kc_UserName u) (kc_Email u) (kc_EmailVerified u) (kc_Enabled u)
    (kc_FederatedIdentities u) (kc_RequiredActions u) realm_roles client_roles groups (kc_Attributes u).

(** The first user of a name is changed. *)
Fixpoint on_first (name : string) (f : KeycloakAPIUser → KeycloakAPIUser) (l : list KeycloakAPIUser)
    : list KeycloakAPIUser :=
  match l with
  | [] => []
  | u :: l => if name =?s kc_UserName u then f u :: l else u :: on_first name f l
  end.

Definition append_absent (g : string) (had now : list string) : list string :=
  if Slices.Contains had g then now else now ++ [g].
Definition promote (u : KeycloakAPIUser) : KeycloakAPIUser :=
  with_roles admin_RealmRoles admin_ClientRoles
    (append_absent fullRealmManagersGroupPath (kc_Groups u)
       (append_absent dedicatedAdminsGroupName (kc_Groups u) (kc_Groups u))) u.
Definition promoteKeycloakUsers (allUsers promoted : list KeycloakAPIUser) : list KeycloakAPIUser :=
  fold_left (λ l p, on_first (kc_UserName p) promote l) promoted allUsers.

Definition demote (u : KeycloakAPIUser) : KeycloakAPIUser :=
  with_roles ["offline_access"; "uma_authorization"]
    {["account" := ["manage-account"; "manage-account-links"; "view-profile"]]}
    (List.filter (λ g, negb (g =?s dedicatedAdminsGroupName) && negb (g =?s fullRealmManagersGroupPath))
       (kc_Groups u)) u.
Definition demoteKeycloakUsers (allUsers demoted : list KeycloakAPIUser) : list KeycloakAPIUser :=
  fold_left (λ l d, on_first (kc_UserName d) demote l) demoted allUsers.

Section admins.
Context {W : Type} `{Client W User} `{Client W Group} `{Client W KeycloakUser}.

Definition syncAdminUsersInMasterRealm (keycloakUsers : list KeycloakAPIUser) (c : KClient) (ns : string)
    : M W (error + list KeycloakAPIUser) :=
  openshiftUsers ← client_list (O := User) c list_all;
  match openshiftUsers with
  | inl e => mret (inl e)
  | inr openshiftUsers =>
      openshiftGroups ← client_list (O := Group) c list_all;
      match openshiftGroups with
      | inl e => mret (inl e)
      | inr openshiftGroups =>
          let dedicatedAdminUsers := getDedicatedAdmins openshiftUsers openshiftGroups in
          let d := getUserDiff keycloakUsers openshiftUsers dedicatedAdminUsers in
          keycloakUsers ← DeleteKeycloakUsers c ns keycloakUsers (d_deleted d);
          match keycloakUsers with
          | inl e => mret (inl e)
          | inr keycloakUsers =>
              let keycloakUsers := addKeycloakUsers keycloakUsers (d_added d) in
              let keycloakUsers := promoteKeycloakUsers keycloakUsers (d_promoted d) in
              mret (inr (demoteKeycloakUsers keycloakUsers (d_demoted d)))
          end
      end
  end.

(** keycloak.UserPhaseFailing; the other phases are no error. *)
Definition createOrUpdateKeycloakAdmin (user : KeycloakAPIUser) (c : KClient) (ns : string) : M W (option error) :=
  let name := GetValidGeneratedUserName user in
  if name =?s "" then mret (Some (ErrStr "failed to get valid generated username"))
  else
    '(kcUser, (_, err)) ← CreateOrUpdate c (named_user (named ns name))
      (λ u, mret (mkKeycloakUserCR (SetLabels (Some getMasterLabels) (ku_meta u)) (Some getMasterLabels) user
                    (ku_Message u) (ku_Phase u), None));
    mret (match err with
          | Some e => Some e
          | None => if ku_Phase kcUser =?s "failing"
                    then Some (ErrStr ("keycloack operator failed to reconcile user: " +:+ ku_Message kcUser))
                    else None
          end).

Definition getUsers (c : KClient) (ns : string) : M W (error + list KeycloakAPIUser) :=
  users ← client_list (O := KeycloakUser) c (mkListOptions (Some ns) (map_to_list getMasterLabels));
  mret (match users with
        | inl e => inl e
        | inr users => inr (map ku_User
            (List.filter (λ u, has_prefix GeneratedNamePrefix (Name (ku_meta u))) users))
        end).
Definition GetKeycloakUsers := getUsers.
End admins.

(** ** Groups *)

Record keycloakClientRole := mkClientRole { ClientName : string; RoleName : string }.
Inductive keycloakGroupSpec := mkGroupSpec (name realmName : string) (isDefault : bool)
  (realmRoles : list string) (clientRoles : list keycloakClientRole) (childGroups : list keycloakGroupSpec).
Definition gs_Name (g : keycloakGroupSpec) := let '(mkGroupSpec n _ _ _ _ _) := g in n.
Definition gs_RealmName (g : keycloakGroupSpec) := let '(mkGroupSpec _ r _ _ _ _) := g in r.
Definition gs_RealmRoles (g : keycloakGroupSpec) := let '(mkGroupSpec _ _ _ l _ _) := g in l.
Definition gs_ClientRoles (g : keycloakGroupSpec) := let '(mkGroupSpec _ _ _ _ l _) := g in l.

Definition developers_group : keycloakGroupSpec :=
  mkGroupSpec developersGroupName masterRealmName true [createRealmRoleName]
    [mkClientRole masterRealmClientName viewRealmRoleName] [].
Definition dedicated_admins_group : keycloakGroupSpec :=
  mkGroupSpec dedicatedAdminsGroupName masterRealmName false []
    [mkClientRole masterRealmClientName manageUsersRoleName; mkClientRole masterRealmClientName viewRealmRoleName]
    [mkGroupSpec realmManagersGroupName masterRealmName false [] [] []].
(** All roles of the managers on every realm but the master realm. *)
Definition realm_managers_roles (realms : list string) : list keycloakClientRole :=
  List.filter (λ r, negb (r =?s masterRealmName)) realms
    ≫= λ realm, map (mkClientRole (realm +:+ "-realm")) realmManagersClientRoles.
Definition realm_managers_group (realms : list string) : keycloakGroupSpec :=
  mkGroupSpec realmManagersGroupName masterRealmName false [] (realm_managers_roles realms) [].

Section groups.
Context {W K : Type} `{KeycloakInterface W K}.

Definition find_role (roleName : string) (roles : list KeycloakRole) : option KeycloakRole :=
  List.find (λ r, role_Name r =?s roleName) roles.

Definition mapRoleToGroupByName (roleName : string)
    (listMappedRoles listAvailableRoles : M W (error + list KeycloakRole))
    (mapRoleToGroup : KeycloakRole → M W (option error)) : M W (option error) :=
  existingRoles ← listMappedRoles;
  match existingRoles with
  | inl e => mret (Some e)
  | inr existingRoles =>
      match find_role roleName existingRoles with
      | Some _ => mret None
      | None =>
          availableRoles ← listAvailableRoles;
          match availableRoles with
          | inl e => mret (Some e)
          | inr availableRoles =>
              match find_role roleName availableRoles with
              | None => mret (Some (ErrStr (roleName +:+ " role not found as available role for group")))
              | Some role => mapRoleToGroup role
              end
          end
      end
  end.

Definition mapClientRoleToGroup (k : K) (realmName groupID clientID roleName : string) : M W (option error) :=
  mapRoleToGroupByName roleName (api_ListGroupClientRoles k realmName clientID groupID)
    (api_ListAvailableGroupClientRoles k realmName clientID groupID)
    (λ role, api_CreateGroupClientRole k role realmName clientID groupID).
Definition mapRealmRoleToGroup (k : K) (realmName groupID roleName : string) : M W (option error) :=
  mapRoleToGroupByName roleName (api_ListGroupRealmRoles k realmName groupID)
    (api_ListAvailableGroupRealmRoles k realmName groupID)
    (λ role, api_CreateGroupRealmRole k role realmName groupID).

(** Ids by name: the last client of a name. *)
Definition listClientsByName (k : K) (realmName : string) : M W (error + gmap string string) :=
  clients ← api_ListClients k realmName;
  mret (match clients with
        | inl e => inl e
        | inr clients => inr (fold_left (λ m kv, <[kv.1 := kv.2]> m) clients ∅)
        end).

Fixpoint map_client_roles (k : K) (realmName groupID : string) (realmClients : gmap string string)
    (roles : list keycloakClientRole) : M W (option error) :=
  match roles with
  | [] => mret None
  | role :: roles =>
      match realmClients !! ClientName role with
      | None => mret (Some (ErrStr ("Client " +:+ ClientName role +:+ " required for role " +:+ RoleName role
                                    +:+ " not found in realm " +:+ realmName)))
      | Some clientID =>
          err ← mapClientRoleToGroup k realmName groupID clientID (RoleName role);
          match err with
          | Some e => mret (Some e)
          | None => map_client_roles k realmName groupID realmClients roles
          end
      end
  end.
Definition reconcileGroupClientRoles (k : K) (groupID : string) (group : keycloakGroupSpec) : M W (option error) :=
  match gs_ClientRoles group with
  | [] => mret None
  | roles =>
      realmClients ← listClientsByName k (gs_RealmName group);
      match realmClients with
      | inl e => mret (Some e)
      | inr realmClients => map_client_roles k (gs_RealmName group) groupID realmClients roles
      end
  end.

Fixpoint map_realm_roles (k : K) (realmName groupID : string) (roles : list string) : M W (option error) :=
  match roles with
  | [] => mret None
  | role :: roles =>
      err ← mapRealmRoleToGroup k realmName groupID role;
      match err with
      | Some e => mret (Some e)
      | None => map_realm_roles k realmName groupID roles
      end
  end.
Definition reconcileGroupRealmRoles (k : K) (groupID : string) (group : keycloakGroupSpec) : M W (option error) :=
  map_realm_roles k (gs_RealmName group) groupID (gs_RealmRoles group).

(** The group itself: its id, found or created, and made default. *)
Definition ensure_group (k : K) (name realmName : string) (isDefault : bool) : M W (error + string) :=
  existingGroup ← api_FindGroupByName k name realmName;
  match existingGroup with
  | inl e => mret (inl (errorf_v ("Error querying groups in realm " +:+ realmName +:+ ": ") (Some e)))
  | inr existingGroup =>
      groupID ← match existingGroup with
                | Some g => mret (inr (kg_ID g))
                | None => api_CreateGroup k name realmName
                end;
      match groupID with
      | inl e => mret (inl (errorf_v ("Error creating new group " +:+ name +:+ ": ") (Some e)))
      | inr groupID =>
          err ← (if (isDefault : bool) then api_MakeGroupDefault k groupID realmName else mret None);
          mret (match err with
                | Some e => inl (errorf_v ("Error making group " +:+ name +:+ " default: ") (Some e))
                | None => inr groupID
                end)
      end
  end.

(** The loop over the children, each reconciled by [go]. *)
Fixpoint child_groups (go : keycloakGroupSpec → M W (error + string)) (k : K) (name realmName groupID : string)
    (l : list keycloakGroupSpec) : M W (error + string) :=
  match l with
  | [] => mret (inr groupID)
  | child :: l =>
      childGroupID ← go child;
      match childGroupID with
      | inl e => mret (inl (errorf_v ("Error creating child group " +:+ gs_Name child +:+ " for group "
                                      +:+ name +:+ ": ") (Some e)))
      | inr childGroupID =>
          err ← api_SetGroupChild k groupID realmName (mkKeycloakGroup childGroupID (gs_Name child));
          match err with
          | Some e => mret (inl (errorf_v ("Error assigning child group " +:+ gs_Name child
                                           +:+ " to parent group " +:+ name +:+ ": ") (Some e)))
          | None => child_groups go k name realmName groupID l
          end
      end
  end.

Fixpoint reconcileGroup (k : K) (group : keycloakGroupSpec) : M W (error + string) :=
  let '(mkGroupSpec name realmName isDefault _ _ childGroups) := group in
  groupID ← ensure_group k name realmName isDefault;
  match groupID with
  | inl e => mret (inl e)
  | inr groupID =>
      err ← reconcileGroupClientRoles k groupID group;
      match err with
      | Some e => mret (inl e)
      | None =>
          err ← reconcileGroupRealmRoles k groupID group;
          match err with
          | Some e => mret (inl e)
          | None => child_groups (reconcileGroup k) k name realmName groupID childGroups
          end
      end
  end.

(** *** Membership

    The pool of the group ids that were looked up. *)
Fixpoint add_to_groups (k : K) (realm userID : string) (groups : list string) (groupPool : gmap string string)
    : M W (error + gmap string string) :=
  match groups with
  | [] => mret (inr groupPool)
  | group :: groups =>
      let add groupPool groupID :=
        err ← api_AddUserToGroup k realm userID groupID;
        match err with
        | Some e => mret (inl e)
        | None => add_to_groups k realm userID groups groupPool
        end in
      match groupPool !! group with
      | Some groupID => add groupPool groupID
      | None =>
          foundGroup ← api_FindGroupByPath k group realm;
          match foundGroup with
          | inl e => mret (inl e)
          | inr None => add_to_groups k realm userID groups groupPool
          | inr (Some g) => add (<[group := kg_ID g]> groupPool) (kg_ID g)
          end
      end
  end.
Fixpoint membership_loop (k : K) (realm : string) (users : list KeycloakAPIUser) (groupPool : gmap string string)
    : M W (option error) :=
  match users with
  | [] => mret None
  | user :: users =>
      r ← add_to_groups k realm (kc_ID user) (kc_Groups user) groupPool;
      match r with
      | inl e => mret (Some e)
      | inr groupPool => membership_loop k realm users groupPool
      end
  end.
Definition reconcileGroupMembership (users : list KeycloakAPIUser) (k : K) (realm : string) : M W (option error) :=
  membership_loop k realm users ∅.

Definition identityProviderExists (k : K) : M W (error + bool) :=
  provider ← api_GetIdentityProvider k idpAlias "master";
  mret (match provider with
        | inl e => inl e
        | inr provider => inr (is_some provider)
        end).
End groups.

(** ** Components *)

Definition with_ID (id : string) (u : KeycloakAPIUser) : KeycloakAPIUser :=
  mkFullKeycloakUser id (kc_UserName u) (kc_Email u) (kc_EmailVerified u) (kc_Enabled u)
    (kc_FederatedIdentities u) (kc_RequiredActions u) (kc_RealmRoles u) (kc_ClientRoles u) (kc_Groups u)
    (kc_Attributes u).

Definition mutate_user_keycloak {Q} `{Quantity Q} `{SemanticDeepEqual (Keycloak Q)} (i : RHMI)
    (productConfig : QuotaProductConfig Q) (kc : Keycloak Q) : outcome (Keycloak Q * option error) :=
  let kc := AddIntegreatlyOwnerAnnotations kc i in
  Configure_keycloak productConfig
    (mkKeycloak (SetLabels (Some getMasterLabels) (kc_meta kc)) (kc_Env kc) [KeycloakMetricsExtension] true
       false RHSSOProfile true (kc_Resources kc) "rolling" (kc_Instances kc)).

Definition master_realm : KeycloakAPIRealm :=
  mkAPIRealm masterRealmName masterRealmName true masterRealmName [] [].

Section components.
Context {W Q K : Type}.
Context `{Client W RHMI} `{Client W Secret} `{Client W ConfigMap} `{Client W CRD} `{Client W KeycloakUser}
  `{Client W KeycloakClient} `{Client W KeycloakRealm} `{SemanticDeepEqual (Keycloak Q)}
  `{Client W (Keycloak Q)} `{Client W Route} `{Client W OAuthClient} `{Client W Postgres}
  `{SemanticDeepEqual (StatefulSet Q)} `{Client W (StatefulSet Q)} `{Client W PodMonitor}
  `{Client W PrometheusRule} `{Client W UpstreamPrometheusRule} `{Client W PodDisruptionBudget}
  `{Client W Service} `{Client W InstallPlan} `{Client W Subscription}
  `{Client W ClusterServiceVersion} `{Client W (Snapshot PostgresSnapshotType)}
  `{Client W (Snapshot RedisSnapshotType)} `{Client W NamespaceObj} `{Client W Project}
  `{Client W ProjectRequest} `{SemanticDeepEqual (LimitRange Q)} `{Client W (LimitRange Q)}
  `{Client W User} `{Client W Group} `{Client W ConsoleLink}.
Context `{Quantity Q} `{KeycloakClientFactory W Q K} `{KeycloakInterface W K} `{MarketplaceInterface W}
  `{EventRecorder W} `{OsEnv W} `{Clock W} `{Ticker W} `{Yaml} `{TitleCase}.

Definition updateMasterRealm (m : Manager) (cfg : RHSSOUser.t) (c : KClient) (installation : RHMI)
    : M W (error + KeycloakRealm) :=
  let redirectURIs := [Config.GetHost cfg +:+ "/auth/realms/" +:+ masterRealmName
                       +:+ "/broker/openshift-v4/endpoint"] in
  '(kcr, (_, err)) ← CreateOrUpdate c
    (mkRealm (named (Config.GetNamespace cfg) masterRealmName) [] None None "")
    (λ kcr,
       '(realm, err) ← SetupOpenshiftIDP c m installation cfg master_realm redirectURIs "";
       mret (mkRealm (SetLabels (Some getMasterLabels) (kcr_meta kcr)) [(idpAlias, "browser")]
               (Some getMasterLabels) (Some realm) (kcr_Phase kcr),
             (λ e, ErrWrap "failed to setup Openshift IDP for user-sso: " e) <$> err));
  mret (match err with
        | Some e => inl (ErrWrap "failed to create/update keycloak realm: " e)
        | None => inr kcr
        end).

(** The provider of the realm that the API server answered with; an omitted
    list of providers is nil. *)
Definition ensure_master_idp (k : K) (masterKcr : KeycloakRealm) : M W (option error) :=
  match kcr_Realm masterKcr with
  | None => panic "nil pointer dereference"
  | Some realm =>
      match realm_IdentityProviders realm with
      | [] => panic "index out of range"
      | idp :: _ =>
          exists_ ← identityProviderExists k;
          match exists_ with
          | inl e => mret (Some (ErrWrap "Error attempting to get existing idp on user sso, master realm: " e))
          | inr true => mret None
          | inr false =>
              err ← api_CreateIdentityProvider k idp (realm_Realm realm);
              mret ((λ e, ErrWrap "Error creating idp on master realm, user sso: " e) <$> err)
          end
      end
  end.

Definition reconcileBrowserAuthFlow (kc : Keycloak Q) : M W (StatusPhase * option error) :=
  kcClient ← AuthenticatedClient kc;
  match kcClient with
  | inl e => mret (PhaseFailed, Some e)
  | inr kcClient =>
      executions ← api_ListAuthenticationExecutionsForFlow (kcClient : K) "browser" masterRealmName;
      match executions with
      | inl e => mret (PhaseFailed, Some (ErrWrap "Failed to retrieve execution flows on master realm: " e))
      | inr executions =>
          let found := List.find (λ x, ex_ProviderID x =?s "identity-provider-redirector") executions in
          if match found with Some x => negb (ex_AuthenticationConfig x =?s "") | None => false end
          then mret (PhaseCompleted, None)
          else
            let executionID := match found with Some x => ex_ID x | None => "" end in
            if executionID =?s "" then
              mret (PhaseFailed, Some (errorf_w "Failed to find relevant ProviderID in Authentication Executions: " None))
            else
              err ← api_CreateAuthenticatorConfig kcClient {["defaultProvider" := "openshift-v4"]} "openshift-v4"
                      masterRealmName executionID;
              mret (match err with
                    | Some e => (PhaseFailed, Some (ErrWrap "Failed to create Authenticator Config: " e))
                    | None => (PhaseCompleted, None)
                    end)
      end
  end.

Definition reconcileFirstLoginAuthFlow (kc : Keycloak Q) : M W (option error) :=
  kcClient ← AuthenticatedClient kc;
  match kcClient with
  | inl e => mret (Some e)
  | inr kcClient =>
      x ← api_FindAuthenticationExecutionForFlow (kcClient : K) firstBrokerLoginFlowAlias masterRealmName
            (λ execution, ex_Alias execution =?s reviewProfileExecutionAlias);
      match x with
      | inl e => mret (Some e)
      | inr None => mret None
      | inr (Some x) =>
          if to_upper (ex_Requirement x) =?s "DISABLED" then mret None
          else api_UpdateAuthenticationExecutionForFlow kcClient firstBrokerLoginFlowAlias masterRealmName
                 (mkExecution (ex_ID x) (ex_Alias x) (ex_ProviderID x) (ex_AuthenticationConfig x) "DISABLED")
      end
  end.

Definition reconcileDevelopersGroup (kc : Keycloak Q) : M W (option error) :=
  kcClient ← AuthenticatedClient kc;
  match kcClient with
  | inl e => mret (Some e)
  | inr kcClient =>
      r ← reconcileGroup (kcClient : K) developers_group;
      mret (match r with inl e => Some e | inr _ => None end)
  end.

Definition reconcileDedicatedAdminsGroup (kc : Keycloak Q) : M W (option error) :=
  kcClient ← AuthenticatedClient kc;
  match kcClient with
  | inl e => mret (Some e)
  | inr kcClient =>
      r ← reconcileGroup (kcClient : K) dedicated_admins_group;
      match r with
      | inl e => mret (Some e)
      | inr _ =>
          realms ← api_ListRealms kcClient;
          match realms with
          | inl e => mret (Some e)
          | inr realms =>
              r ← reconcileGroup kcClient (realm_managers_group realms);
              mret (match r with inl e => Some e | inr _ => None end)
          end
      end
  end.

Definition reconcileGroups (kc : Keycloak Q) (s : SsoState RHSSOUser.t)
    : M W (SsoState RHSSOUser.t * option error) :=
  let admins s :=
    err ← reconcileDedicatedAdminsGroup kc;
    mret (s, (λ e, errorf_v "failed to reconcile dedicated-admins group: " (Some e)) <$> err) in
  match RHSSOUser.GetDevelopersGroupConfigured (so_cfg s) with
  | (_, Some e) => mret (s, Some e)
  | (true, None) => admins s
  | (false, None) =>
      err ← reconcileDevelopersGroup kc;
      match err with
      | Some e => mret (s, Some (ErrWrap "failed to reconcile rhmi-developers group: " e))
      | None =>
          let cfg := RHSSOUser.SetDevelopersGroupConfigured (so_cfg s) true in
          '(m, err) ← WriteConfig (so_mgr s) cfg;
          let s := mkSso cfg m (so_inst s) in
          match err with
          | Some e => mret (s, Some (ErrWrap "could not update keycloak config for user-sso: " e))
          | None => admins s
          end
      end
  end.

(** The id that is found is set in the copy of the loop only. *)
Definition with_found_ID (k : K) (user : KeycloakAPIUser) : M W (error + KeycloakAPIUser) :=
  if negb (kc_ID user =?s "") then mret (inr user)
  else
    kcUser ← api_FindUserByUsername k (kc_UserName user) masterRealmName;
    match kcUser with
    | inl e => if error_msg e =?s "not found" then mret (inr user)
               else mret (inl (ErrWrap "error attempting to retrieve user: " e))
    | inr None => panic "nil pointer dereference"
    | inr (Some kcUser) => mret (inr (with_ID (kc_ID kcUser) user))
    end.
Fixpoint reconcile_admins (k : K) (c : KClient) (ns : string) (users : list KeycloakAPIUser) : M W (option error) :=
  match users with
  | [] => mret None
  | user :: users =>
      if kc_UserName user =?s "" then reconcile_admins k c ns users
      else
        r ← with_found_ID k user;
        match r with
        | inl e => mret (Some e)
        | inr user =>
            err ← createOrUpdateKeycloakAdmin user c ns;
            match err with
            | Some e => mret (Some (ErrWrap "failed to create/update the customer admin user: " e))
            | None => reconcile_admins k c ns users
            end
        end
  end.
Definition reconcileAdminUsers (c : KClient) (k : K) (keycloakUsers : list KeycloakAPIUser) (ns : string)
    : M W (option error) :=
  users ← syncAdminUsersInMasterRealm keycloakUsers c ns;
  match users with
  | inl e => mret (Some (ErrWrap "failed to synchronize the users: " e))
  | inr users =>
      err ← reconcile_admins k c ns users;
      match err with
      | Some e => mret (Some e)
      | None => reconcileGroupMembership users k masterRealmName
      end
  end.

(** From the client of the Keycloak on. *)
Definition reconcile_master (kc : Keycloak Q) (masterKcr : KeycloakRealm) (c : KClient) (s : SsoState RHSSOUser.t)
    : M W (SsoState RHSSOUser.t * (StatusPhase * option error)) :=
  let ns := Config.GetNamespace (so_cfg s) in
  let failed (s : SsoState RHSSOUser.t) e := (s, (PhaseFailed, Some e)) in
  kcClient ← AuthenticatedClient kc;
  match kcClient with
  | inl e => mret (failed s e)
  | inr kcClient =>
      err ← ensure_master_idp (kcClient : K) masterKcr;
      match err with
      | Some e => mret (failed s e)
      | None =>
          '(phase, err) ← reconcileBrowserAuthFlow kc;
          if is_some err || negb (phase =?s PhaseCompleted) then
            HandleError (so_inst s) phase "Failed to reconcile browser authentication flow" err;;
            mret (s, (phase, err))
          else
            err ← reconcileFirstLoginAuthFlow kc;
            match err with
            | Some e => mret (failed s (ErrWrap "Failed to reconcile first broker login authentication flow: " e))
            | None =>
                keycloakUsers ← GetKeycloakUsers c ns;
                match keycloakUsers with
                | inl e => mret (failed s (ErrWrap "failed to list the keycloak users: " e))
                | inr keycloakUsers =>
                    '(s, err) ← reconcileGroups kc s;
                    match err with
                    | Some e => mret (failed s e)
                    | None =>
                        err ← reconcileAdminUsers c kcClient keycloakUsers ns;
                        match err with
                        | Some e => mret (failed s e)
                        | None =>
                            '(_, err) ← ReconcilePodDisruptionBudget c ns;
                            mret (s, match err with
                                     | Some e => (PhaseFailed, Some e)
                                     | None => (PhaseCompleted, None)
                                     end)
                        end
                    end
                end
            end
      end
  end.

Definition reconcileComponents (c : KClient) (productConfig : QuotaProductConfig Q) (s : SsoState RHSSOUser.t)
    : M W (SsoState RHSSOUser.t * (StatusPhase * option error)) :=
  let ns := Config.GetNamespace (so_cfg s) in
  let failed e := (s, (PhaseFailed, Some e)) in
  let literal := named_Keycloak (Q := Q) (named ns keycloakName) [mkEnvVar "DISABLE_EXTERNAL_ACCESS" "TRUE"] in
  got ← client_get (O := Keycloak Q) c ns keycloakName;
  match match got with
        | inl e => if IsNotFound (Some e) then inr literal else inl e
        | inr kc => inr kc
        end with
  | inl e => mret (failed e)
  | inr kc =>
      '(kc, (_, err)) ← CreateOrUpdate c kc (λ kc, lift (mutate_user_keycloak (so_inst s) productConfig kc));
      match err with
      | Some e => mret (failed (ErrWrap "failed to create/update keycloak custom resource: " e))
      | None =>
          err ← AddOwnerRefToSSOSecret c adminCredentialSecretName ns (kc_meta kc);
          match err with
          | Some e =>
              HandleError (so_inst s) PhaseFailed "Failed to add ownerReferance admin credentials secret" (Some e);;
              mret (failed e)
          | None =>
              if Config.GetHost (so_cfg s) =?s "" then
                mret (failed (ErrStr "failed to create/update keycloak master realm, host not available"))
              else
                masterKcr ← updateMasterRealm (so_mgr s) (so_cfg s) c (so_inst s);
                match masterKcr with
                | inl e => mret (failed e)
                | inr masterKcr => reconcile_master kc masterKcr c s
                end
          end
      end
  end.

(** ** The link in the console *)

Definition reconcileConsoleLink (c : KClient) (cfg : RHSSOUser.t) : M W (option error) :=
  '(_, (_, err)) ← CreateOrUpdate c (mkConsoleLink (named "" userSsoConsoleLink) None "" "" "" None)
    (λ cl, mret (mkConsoleLink (cl_meta cl) (Some (userSSOIcon, "OpenShift Managed Services")) "ApplicationMenu"
                   (Config.GetHost cfg) "API Management SSO" None, None));
  mret ((λ e, errorf_v "error reconciling console link: " (Some e)) <$> err).

Definition deleteConsoleLink (c : KClient) (name : string) : M W (option error) :=
  err ← client_delete c (mkConsoleLink (named "" name) None "" "" "" None);
  mret (match err with
        | Some e => if IsNotFound (Some e) then None else Some (errorf_v "error removing console link: " (Some e))
        | None => None
        end).

(** ** Reconcile *)

(** What NewReconciler has put in the reconciler besides the state. *)
Context (declaration : ProductDeclaration) (oauth_delete : string → M W (option error)) (backup_fuel : nat).

Definition rhssouser_cleanup (c : KClient) (cfg : RHSSOUser.t) (productNamespace operatorNamespace : string)
    (installation : RHMI) : M W (StatusPhase * option error) :=
  '(phase, err) ← remove_sso oauth_delete c cfg productNamespace operatorNamespace installation;
  if is_some err || negb (phase =?s PhaseCompleted) then mret (phase, err)
  else
    err ← deleteConsoleLink c userSsoConsoleLink;
    mret (match err with Some e => (PhaseFailed, Some e) | None => (PhaseCompleted, None) end).

Definition csv_name : string := "rhsso-operator.7.6.12-opr-005".

Definition rhssouser_steps (c : KClient) (productConfig : QuotaProductConfig Q)
    (productNamespace operatorNamespace : string) : list (Step W (SsoState RHSSOUser.t)) :=
  let steady (run : RHMI → RHSSOUser.t → Manager → M W (StatusPhase * option error)) :=
    keeps (λ s, run (so_inst s) (so_cfg s) (so_mgr s)) in
  [ reported ("Failed to reconcile " +:+ operatorNamespace +:+ " namespace")
      (steady (λ i _ _, ReconcileNamespace operatorNamespace i c));
    reported ("Failed to reconcile " +:+ productNamespace +:+ " namespace")
      (steady (λ i _ _, ReconcileNamespace productNamespace i c));
    reported ("Failed to reconcile LimitRange for Namespace " +:+ operatorNamespace)
      (steady (λ _ _ _, ReconcileLimitRange (Q := Q) c operatorNamespace DefaultLimitRangeParams));
    reported ("Failed to reconcile LimitRange for Namespace " +:+ productNamespace)
      (steady (λ _ _ _, ReconcileLimitRange (Q := Q) c productNamespace DefaultLimitRangeParams));
    reported "Failed to reconcile admin credentials secret"
      (steady (λ _ _ m, ReconcileSecretToProductNamespace c m adminCredentialSecretName productNamespace));
    reported ("Failed to reconcile " +:+ RHSSOSubscriptionName +:+ " subscription")
      (steady (λ i _ _, sso_ReconcileSubscription backup_fuel declaration c i productNamespace
                          operatorNamespace postgresResourceName));
    mkStep (Some "Failed to reconcile user rhsso-operator csv deployments priority class name") goes_on_unless_failed
      (steady (λ i cfg _, ReconcileCsvDeploymentsPriority c csv_name
                            (RHSSOCommon.GetOperatorNamespace (RHSSOUser.common cfg)) (PriorityClassName (Spec i))));
    reported "Failed to reconcile user-sso rhsso-operator metrics Service"
      (steady (λ i _ _, ReconcileOperatorMetricsService c i operatorNamespace));
    reported "Failed to handle in progress phase" (CreateKeycloakRoute c routeName);
    reported "Waiting for RHSSO postgres to be completed"
      (steady (λ i _ m, WaitForRHSSOPostgresToBeComplete c (Name (rhmi_meta i)) (GetOperatorNamespace m)));
    reported "Failed to reconcile cloud resources"
      (ReconcileCloudResources RHSSOUserProstgresPrefix defaultNamespace ssoType c);
    reported "Failed to reconcile components" (reconcileComponents c productConfig);
    reported "Failed to reconsile RHSSO pod priority" (keeps (λ s, ReconcileStatefulSet (Q := Q) c s));
    reported "Failed to handle in progress phase"
      (HandleProgressPhase (Q := Q) c keycloakName masterRealmName VersionRHSSOUser OperatorVersionRHSSOUser);
    unreported (write_config "error writing to config in rhssouser reconciler: ");
    reported "Failed to reconcile admin credential secret to RHMI operator namespace"
      (steady (λ _ _ m, ReconcileSecretToRHMIOperatorNamespace c m adminCredentialSecretName productNamespace));
    reported "Failed to reconcile alerts"
      (steady (λ i cfg _, ReconcileAlerts (rhssouser_newAlertsReconciler i cfg (Type_ (Spec i))
                            (GetOboNamespace (Namespace (rhmi_meta i)))) c));
    reported "Failed to remove pod monitor" (steady (λ _ cfg _, RemovePodMonitors c cfg));
    unreported (steady (λ _ cfg _,
      err ← reconcileConsoleLink c cfg;
      mret (match err with Some e => (PhaseFailed, Some e) | None => (PhaseCompleted, None) end)));
    reported "Failed to export alerts to the observability namespace"
      (steady (λ i cfg _, ExportAlerts c i (Config.GetProductName cfg) (Config.GetNamespace cfg))) ].

Definition rhssouser_Reconcile (s : SsoState RHSSOUser.t) (ps : RHMIProductStatus) (c : KClient)
    (productConfig : QuotaProductConfig Q) (uninstall : bool)
    : M W (SsoState RHSSOUser.t * RHMIProductStatus * (StatusPhase * option error)) :=
  let cfg := so_cfg s in
  let operatorNamespace := RHSSOCommon.GetOperatorNamespace (RHSSOUser.common cfg) in
  let productNamespace := Config.GetNamespace cfg in
  '(installation, (phase, err)) ← ReconcileFinalizer c (so_inst s) (Config.GetProductName cfg) uninstall
    (λ i, r ← rhssouser_cleanup c cfg productNamespace operatorNamespace i; mret (i, r));
  let s := mkSso cfg (so_mgr s) installation in
  if is_some err || (phase =?s PhaseFailed) then
    HandleError installation phase "Failed to reconcile finalizer" err;;
    mret (s, ps, (phase, err))
  else if uninstall then mret (s, ps, (phase, None))
  else
    '(s, (phase, err)) ← run_steps so_inst (rhssouser_steps c productConfig productNamespace operatorNamespace) s;
    if is_some err || negb (phase =?s PhaseCompleted) then mret (s, ps, (phase, err))
    else
      HandleProductComplete (so_inst s) InstallStage (Config.GetProductName (so_cfg s));;
      mret (s, sso_status (so_cfg s) ps, (PhaseCompleted, None)).
End components.

Definition rhssouser_NewReconciler `{Yaml} (m : Manager) (installation : RHMI)
    (declaration : option ProductDeclaration) : error + SsoState RHSSOUser.t :=
  match declaration with
  | None => inl (ErrStr "no product declaration found for user SSO")
  | Some _ =>
      match ReadRHSSOUser m with
      | inl e => inl e
      | inr cfg =>
          inr (mkSso (RHSSOUser.mk (SetNameSpaces installation (RHSSOUser.common cfg) defaultNamespace)) m installation)
      end
  end.

(** ** Facts *)

Lemma same_name (l : list KeycloakAPIUser) u v :
  NoDup (kc_UserName <$> l) → u ∈ l → v ∈ l → kc_UserName u = kc_UserName v → u = v.
Proof.
  induction l as [|x l IH]; [by intros _ ?%not_elem_of_nil|]. cbn [fmap list_fmap].
  intros [Hx Hnd]%NoDup_cons [->|Hu]%elem_of_cons [->|Hv]%elem_of_cons He; auto.
  - destruct Hx. rewrite He. by apply list_elem_of_fmap_2.
  - destruct Hx. rewrite <- He. by apply list_elem_of_fmap_2.
Qed.

Lemma on_first_app name f l a :
  NoDup (kc_UserName <$> l) → name ∈ kc_UserName <$> l →
  on_first name f (l ++ a) = ((λ u, if decide (kc_UserName u = name) then f u else u) <$> l) ++ a.
Proof.
  induction l as [|x l IH]; [by intros _ ?%not_elem_of_nil|]. cbn [fmap list_fmap app on_first].
  intros [Hx Hnd]%NoDup_cons Hin. destruct (name =?s kc_UserName x) eqn:E.
  - apply str_eqb_true in E as ->. rewrite decide_True by done. f_equal. f_equal.
    rewrite <- (list_fmap_id l) at 1. apply list_fmap_ext. intros k y Hy. cbn.
    rewrite decide_False; [done|]. intros He. apply Hx. rewrite <- He.
    apply list_elem_of_fmap_2. by eapply list_elem_of_lookup_2.
  - apply str_eqb_false in E. apply elem_of_cons in Hin as [?|Hin]; [done|].
    rewrite decide_False by done. f_equal. by apply IH.
Qed.

(** Changing the users of some names, when the change keeps the name and can
    be repeated. *)
Lemma on_first_fold f ps l a :
  (∀ u, kc_UserName (f u) = kc_UserName u) → (∀ u, f (f u) = f u) →
  NoDup (kc_UserName <$> l) → Forall (λ p, kc_UserName p ∈ kc_UserName <$> l) ps →
  fold_left (λ l p, on_first (kc_UserName p) f l) ps (l ++ a)
  = ((λ u, if decide (kc_UserName u ∈ kc_UserName <$> ps) then f u else u) <$> l) ++ a.
Proof.
  intros Hf Hff. revert l. induction ps as [|p ps IH]; intros l Hnd Hps; cbn [fold_left].
  { f_equal. rewrite <- (list_fmap_id l) at 1. apply list_fmap_ext. intros k u _. cbn.
    by rewrite decide_False by apply not_elem_of_nil. }
  apply Forall_cons in Hps as [Hp Hps]. rewrite on_first_app by done.
  set (l' := _ <$> l). assert (kc_UserName <$> l' = kc_UserName <$> l) as Hl'.
  { unfold l'. rewrite <- list_fmap_compose. apply list_fmap_ext. intros k u _. cbn. case_decide; auto. }
  rewrite IH by (by rewrite Hl'). f_equal. unfold l'. rewrite <- list_fmap_compose.
  apply list_fmap_ext. intros k u _. rewrite fmap_cons. cbn [compose].
  assert (kc_UserName u ∈ kc_UserName p :: (kc_UserName <$> ps)
          ↔ kc_UserName u = kc_UserName p ∨ kc_UserName u ∈ kc_UserName <$> ps) as Hin by apply elem_of_cons.
  destruct (decide (kc_UserName u = kc_UserName p)); rewrite ?Hf;
    destruct (decide (kc_UserName u ∈ kc_UserName <$> ps)),
      (decide (kc_UserName u ∈ kc_UserName p :: (kc_UserName <$> ps))); rewrite ?Hff; tauto.
Qed.

Lemma promote_name u : kc_UserName (promote u) = kc_UserName u.
Proof. reflexivity. Qed.
Lemma demote_name u : kc_UserName (demote u) = kc_UserName u.
Proof. reflexivity. Qed.
Lemma promote_uid u : first_uid (promote u) = first_uid u.
Proof. reflexivity. Qed.
Lemma demote_uid u : first_uid (demote u) = first_uid u.
Proof. reflexivity. Qed.
Lemma promote_admin u : hasAdminPrivileges (promote u) = true.
Proof. reflexivity. Qed.
Lemma demote_admin u : hasAdminPrivileges (demote u) = false.
Proof. reflexivity. Qed.
Lemma append_absent_in g l had : l = had → g ∈ append_absent g had l.
Proof.
  intros ->. unfold append_absent. destruct (Slices.Contains had g) eqn:E; [by apply Slices.Contains_true|].
  apply elem_of_app. right. by apply list_elem_of_singleton.
Qed.
Lemma append_absent_old g x had l : x ∈ l → x ∈ append_absent g had l.
Proof. unfold append_absent. destruct (Slices.Contains _ _); [done|]. intros ?. apply elem_of_app. by left. Qed.
Lemma append_absent_id g l l' : g ∈ l → append_absent g l l' = l'.
Proof. intros Hg. unfold append_absent. by rewrite (proj2 (Slices.Contains_true _ _) Hg). Qed.

(** A promoted user is in both groups. *)
Lemma promote_groups u :
  dedicatedAdminsGroupName ∈ kc_Groups (promote u) ∧ fullRealmManagersGroupPath ∈ kc_Groups (promote u).
Proof.
  cbn [kc_Groups promote with_roles]. split.
  - apply append_absent_old. by apply append_absent_in.
  - unfold append_absent at 1. destruct (Slices.Contains _ fullRealmManagersGroupPath) eqn:E.
    + apply append_absent_old. by apply Slices.Contains_true.
    + apply elem_of_app. right. by apply list_elem_of_singleton.
Qed.
Lemma promote_twice u : promote (promote u) = promote u.
Proof.
  destruct (promote_groups u) as [H1 H2]. unfold promote at 1. rewrite !append_absent_id by done. reflexivity.
Qed.
Lemma filter_idem {A} (f : A → bool) (l : list A) : List.filter f (List.filter f l) = List.filter f l.
Proof.
  induction l as [|x l IH]; [done|]. cbn [List.filter]. destruct (f x) eqn:E; [|done].
  cbn [List.filter]. by rewrite E, IH.
Qed.
Lemma demote_twice u : demote (demote u) = demote u.
Proof. unfold demote at 1. cbn [kc_Groups demote with_roles]. by rewrite filter_idem. Qed.

Lemma linked_spec u o : linked u o = true ↔ first_uid u = Some (UID (user_meta o)).
Proof. apply bool_decide_eq_true. Qed.
Lemma kcUserInDedicatedAdmins_spec u l :
  kcUserInDedicatedAdmins u l = true ↔ ∃ a, a ∈ l ∧ first_uid u = Some (UID (user_meta a)).
Proof.
  unfold kcUserInDedicatedAdmins. rewrite existsb_exists.
  f_equiv. intros a. by rewrite list_elem_of_In, linked_spec.
Qed.
Lemma getOpenShiftUser_spec u l :
  is_some (getOpenShiftUser u l) = true ↔ ∃ o, o ∈ l ∧ first_uid u = Some (UID (user_meta o)).
Proof.
  unfold getOpenShiftUser. split.
  - destruct (List.find _ l) as [o|] eqn:E; [|done]. intros _. apply List.find_some in E as [Hin Hl].
    exists o. by rewrite list_elem_of_In, <- linked_spec.
  - intros (o & Ho & Hl). destruct (List.find _ l) as [|] eqn:E; [done|].
    apply List.find_none with (x := o) in E; [|by apply list_elem_of_In]. apply linked_spec in Hl. congruence.
Qed.

Section sync.
Context (kc : list KeycloakAPIUser) (os admins : list User).
Context (names : NoDup (kc_UserName <$> kc)) (admins_os : admins ⊆ os)
  (links : ∀ u v, u ∈ kc → v ∈ kc → is_some (first_uid u) → first_uid u = first_uid v →
             kc_UserName u = kc_UserName v).

Definition is_admin (u : KeycloakAPIUser) : Prop := ∃ a, a ∈ admins ∧ first_uid u = Some (UID (user_meta a)).
Definition in_os (u : KeycloakAPIUser) : Prop := ∃ o, o ∈ os ∧ first_uid u = Some (UID (user_meta o)).

Lemma promoted_iff u :
  u ∈ kc → kc_UserName u ∈ kc_UserName <$> d_promoted (getUserDiff kc os admins)
  ↔ is_admin u ∧ hasAdminPrivileges u = false.
Proof.
  intros Hu. cbn [d_promoted getUserDiff]. rewrite list_elem_of_fmap. split.
  - intros (p & Hn & [Hin Hp]%list_elem_of_In%List.filter_In).
    apply list_elem_of_In, list_elem_of_omap in Hin as (a & Ha & [Hpk Hl]%List.find_some).
    apply list_elem_of_In in Hpk. rewrite (same_name kc u p) by done. split; [|by apply negb_true_iff].
    exists a. by rewrite <- linked_spec.
  - intros [(a & Ha & Hl) Hno]. destruct (getKeyCloakUser a kc) as [p|] eqn:E.
    + pose proof E as E'. apply List.find_some in E as [Hpk%list_elem_of_In Hlp%linked_spec].
      assert (p = u) as ->.
      { apply (same_name kc); try done. apply links; try done; [by rewrite Hlp|congruence]. }
      exists u. split; [done|]. apply list_elem_of_In, List.filter_In. split; [|by rewrite Hno].
      apply list_elem_of_In, list_elem_of_omap. eauto.
    + apply List.find_none with (x := u) in E; [|by apply list_elem_of_In]. apply linked_spec in Hl. congruence.
Qed.

Lemma demoted_iff u :
  u ∈ kc → kc_UserName u ∈ kc_UserName <$> d_demoted (getUserDiff kc os admins)
  ↔ in_os u ∧ ¬ is_admin u ∧ hasAdminPrivileges u = true.
Proof.
  intros Hu. cbn [d_demoted getUserDiff].
  assert (∀ v, is_some (getOpenShiftUser v os) && negb (kcUserInDedicatedAdmins v admins) && hasAdminPrivileges v = true
               ↔ in_os v ∧ ¬ is_admin v ∧ hasAdminPrivileges v = true) as Hd.
  { intros v. unfold in_os, is_admin. rewrite !andb_true_iff, getOpenShiftUser_spec, negb_true_iff.
    pose proof (kcUserInDedicatedAdmins_spec v admins) as Ha.
    destruct (kcUserInDedicatedAdmins v admins); intuition congruence. }
  rewrite list_elem_of_fmap, <- Hd. split.
  - intros (p & Hn & [Hin Hp]%list_elem_of_In%List.filter_In). apply list_elem_of_In in Hin.
    by rewrite (same_name kc u p).
  - intros Hp. exists u. split; [done|]. by apply list_elem_of_In, List.filter_In; rewrite <- list_elem_of_In.
Qed.

(** What becomes of a user that stays. *)
Definition settled (u : KeycloakAPIUser) : KeycloakAPIUser :=
  let d := getUserDiff kc os admins in
  let u := if decide (kc_UserName u ∈ kc_UserName <$> d_promoted d) then promote u else u in
  if decide (kc_UserName u ∈ kc_UserName <$> d_demoted d) then demote u else u.

Lemma settled_admin u : u ∈ kc → in_os u → hasAdminPrivileges (settled u) = true ↔ is_admin u.
Proof.
  intros Hu Hos. unfold settled. cbn zeta. pose proof (promoted_iff u Hu) as Hp. pose proof (demoted_iff u Hu) as Hd.
  destruct (decide (kc_UserName u ∈ kc_UserName <$> d_promoted _)) as [Hin|Hni].
  - apply Hp in Hin as [Ha _]. rewrite promote_name. rewrite decide_False by (rewrite Hd; tauto).
    by rewrite promote_admin.
  - destruct (decide (kc_UserName u ∈ kc_UserName <$> d_demoted _)) as [Hin'|Hni'].
    + rewrite demote_admin. apply Hd in Hin' as (_ & Hna & _). split; [done|tauto].
    + rewrite Hp in Hni. rewrite Hd in Hni'. destruct (hasAdminPrivileges u) eqn:E; split; try done.
      * intros _. destruct (kcUserInDedicatedAdmins u admins) eqn:Ek; [by apply kcUserInDedicatedAdmins_spec in Ek|].
        destruct Hni'. split_and!; [done| |done]. unfold is_admin. rewrite <- kcUserInDedicatedAdmins_spec. congruence.
      * intros Ha. destruct Hni. done.
Qed.

Lemma settled_uid u : first_uid (settled u) = first_uid u.
Proof. unfold settled. cbn zeta. repeat case_decide; reflexivity. Qed.
Lemma settled_name u : kc_UserName (settled u) = kc_UserName u.
Proof. unfold settled. cbn zeta. repeat case_decide; reflexivity. Qed.

(** The users that are left after the deletions, settled. *)
Lemma sync_lists l :
  let d := getUserDiff kc os admins in
  l ≡ₚ filter (λ u, is_some (getOpenShiftUser u os) = true) kc →
  demoteKeycloakUsers (promoteKeycloakUsers (addKeycloakUsers l (d_added d)) (d_promoted d)) (d_demoted d)
  = (settled <$> l) ++ map new_admin (d_added d).
Proof.
  cbn zeta. intros Hl. set (d := getUserDiff kc os admins).
  assert (NoDup (kc_UserName <$> l)) as Hnd by (rewrite Hl; by apply NoDup_fmap_filter).
  assert (∀ u, u ∈ kc → in_os u → kc_UserName u ∈ kc_UserName <$> l) as Hin.
  { intros u Hu Hos. apply list_elem_of_fmap_2. rewrite Hl. apply list_elem_of_filter.
    by rewrite getOpenShiftUser_spec. }
  unfold addKeycloakUsers, promoteKeycloakUsers, demoteKeycloakUsers.
  assert (Forall (λ p, kc_UserName p ∈ kc_UserName <$> l) (d_promoted d)) as Hprom.
  { apply Forall_forall. intros p [Hp _]%list_elem_of_In%List.filter_In.
    apply list_elem_of_In, list_elem_of_omap in Hp as (a & Ha & [Hp%list_elem_of_In Hlk%linked_spec]%List.find_some).
    apply Hin; [done|]. exists a. auto. }
  rewrite (on_first_fold promote); [|done|apply promote_twice|done|done].
  set (l' := _ <$> l). assert (kc_UserName <$> l' = kc_UserName <$> l) as Hl'.
  { unfold l'. rewrite <- list_fmap_compose. apply list_fmap_ext. intros k u _. cbn [compose]. by case_decide. }
  rewrite (on_first_fold demote); [|done|apply demote_twice|by rewrite Hl'|].
  - f_equal. unfold l'. rewrite <- list_fmap_compose. reflexivity.
  - apply Forall_forall. intros p [Hp Hf]%list_elem_of_In%List.filter_In. rewrite Hl'.
    apply list_elem_of_In in Hp. apply Hin; [done|]. apply getOpenShiftUser_spec.
    by apply andb_true_iff in Hf as [[? _]%andb_true_iff _].
Qed.
End sync.

Section facts.
Context {W : Type} `{Client W User} `{Client W Group} `{Client W KeycloakUser}.

Lemma new_admin_facts a :
  kc_UserName (new_admin a) = Name (user_meta a) ∧ first_uid (new_admin a) = Some (UID (user_meta a))
  ∧ hasAdminPrivileges (new_admin a) = true.
Proof. done. Qed.

(** C16: When the Keycloak users have distinct names, none of them empty, and
    no two are linked to the same identity, the synchronisation gives users that
    are all linked to a user of the cluster, and of these exactly the ones
    linked to a dedicated administrator have the privileges of one; every
    dedicated administrator is among them, and so is, by its name and identity,
    every user there was that is still linked to a user of the cluster. *)
Theorem syncAdminUsers_spec kc c ns (w w' : W) l :
  NoDup (kc_UserName <$> kc) → "" ∉ kc_UserName <$> kc →
  (∀ u v, u ∈ kc → v ∈ kc → is_some (first_uid u) → first_uid u = first_uid v →
     kc_UserName u = kc_UserName v) →
  syncAdminUsersInMasterRealm kc c ns w = (Done (inr l), w') →
  ∃ os w1 groups w2,
    client_list (O := User) c list_all w = (Done (inr os), w1)
    ∧ client_list (O := Group) c list_all w1 = (Done (inr groups), w2)
    ∧ let admins := getDedicatedAdmins os groups in
      (∀ u, u ∈ l → in_os os u ∧ (hasAdminPrivileges u = true ↔ is_admin admins u))
    ∧ (∀ a, a ∈ admins → ∃ u, u ∈ l ∧ first_uid u = Some (UID (user_meta a)))
    ∧ (∀ u, u ∈ kc → in_os os u → ∃ v, v ∈ l ∧ kc_UserName v = kc_UserName u ∧ first_uid v = first_uid u).
Proof.
  intros Hnd Hne Hlinks Hr. unfold syncAdminUsersInMasterRealm in Hr.
  apply bind_done_inv in Hr as ([e|os] & w1 & Hu & Hr); [done|].
  apply bind_done_inv in Hr as ([e|groups] & w2 & Hg & Hr); [done|].
  set (admins := getDedicatedAdmins os groups) in *.
  apply bind_done_inv in Hr as ([e|kept] & w3 & Hd & Hr); [done|]. rewrite run_ret in Hr. injection Hr as <- <-.
  exists os, w1, groups, w2. split; [done|]. split; [done|]. cbn zeta.
  assert (admins ⊆ os) as Hsub by (intros a [? _]%list_elem_of_In%List.filter_In; by apply list_elem_of_In).
  apply DeleteKeycloakUsers_ok in Hd; [|done].
  assert (kept ≡ₚ filter (λ u, is_some (getOpenShiftUser u os) = true) kc) as Hk.
  { rewrite Hd. apply Permutation_refl', filter_ext_in. intros u Hin. cbn [d_deleted getUserDiff].
    assert (kc_UserName u ≠ "") as Hu' by (intros He; apply Hne; rewrite <- He; by apply list_elem_of_fmap_2).
    split.
    - intros [?|Hni]; [done|]. destruct (is_some _) eqn:E; [done|]. destruct Hni.
      apply list_elem_of_fmap_2, list_elem_of_In, List.filter_In. rewrite <- list_elem_of_In. unfold is_none.
      by rewrite E.
    - intros Hs. right. intros (v & Hn & [Hv Hf]%list_elem_of_In%List.filter_In)%list_elem_of_fmap.
      apply list_elem_of_In in Hv. rewrite (same_name kc u v) in Hs by done. unfold is_none in Hf. by rewrite Hs in Hf. }
  pose proof (sync_lists kc os admins Hnd Hsub kept Hk) as Hl.
  cbn [d_added d_promoted d_demoted getUserDiff] in Hl. rewrite Hl. fold admins. clear Hl.
  assert (∀ u, u ∈ kept ↔ u ∈ kc ∧ in_os os u) as Hkept.
  { intros u. rewrite Hk, list_elem_of_filter, getOpenShiftUser_spec. unfold in_os. tauto. }
  split_and!.
  - intros v [(u & -> & [Hin Hos]%Hkept)%list_elem_of_fmap|Hv]%elem_of_app.
    + split; [unfold in_os; by rewrite settled_uid|]. rewrite settled_admin by done.
      unfold is_admin. by rewrite settled_uid.
    + apply list_elem_of_In, List.in_map_iff in Hv as (a & <- & [Ha _]%List.filter_In).
      apply list_elem_of_In in Ha. split; [exists a; auto|]. split; [intros _; by exists a|done].
  - intros a Ha. destruct (getKeyCloakUser a kc) as [u|] eqn:E.
    + apply List.find_some in E as [Hin%list_elem_of_In Hl%linked_spec]. exists (settled kc os admins u).
      rewrite settled_uid. split; [|done]. apply elem_of_app. left. apply list_elem_of_fmap_2, Hkept.
      split; [done|]. exists a. auto.
    + exists (new_admin a). split; [|done]. apply elem_of_app. right.
      apply list_elem_of_In, List.in_map, List.filter_In. split; [by apply list_elem_of_In|by rewrite E].
  - intros u Hin Hos. exists (settled kc os admins u). rewrite settled_uid, settled_name.
    split; [|done]. apply elem_of_app. left. by apply list_elem_of_fmap_2, Hkept.
Qed.
End facts.

(** *** Roles of the groups

    What a Keycloak holds: the roles of groups by their id, the groups below a
    group, and which client of a realm has a name; and what the documentation
    of its API says of the calls made here. *)
Section roles.
Context {W K : Type} `{KeycloakInterface W K} (k : K).
Context (realm_role : W → string → string → Prop) (client_role : W → string → string → string → Prop)
  (child : W → string → string → Prop) (client_named : string → string → string → Prop).

Definition grows (w w' : W) : Prop :=
  (∀ g r, realm_role w g r → realm_role w' g r) ∧ (∀ g cl r, client_role w g cl r → client_role w' g cl r)
  ∧ (∀ p g, child w p g → child w' p g).
#[local] Instance grows_preorder : PreOrder grows.
Proof. split; [done|]. intros a b c (?&?&?) (?&?&?). split_and!; eauto. Qed.

Class RolesApi := {
  find_grows n r : preserves grows (api_FindGroupByName k n r);
  create_grows n r : preserves grows (api_CreateGroup k n r);
  default_grows g r : preserves grows (api_MakeGroupDefault k g r);
  child_grows g r x : preserves grows (api_SetGroupChild k g r x);
  clients_grow r : preserves grows (api_ListClients k r);
  list_client_grows r cl g : preserves grows (api_ListGroupClientRoles k r cl g);
  avail_client_grows r cl g : preserves grows (api_ListAvailableGroupClientRoles k r cl g);
  add_client_grows x r cl g : preserves grows (api_CreateGroupClientRole k x r cl g);
  list_realm_grows r g : preserves grows (api_ListGroupRealmRoles k r g);
  avail_realm_grows r g : preserves grows (api_ListAvailableGroupRealmRoles k r g);
  add_realm_grows x r g : preserves grows (api_CreateGroupRealmRole k x r g);
  clients_named r w l w' : api_ListClients k r w = (Done (inr l), w') → ∀ kv, kv ∈ l → client_named r kv.1 kv.2;
  list_client_ok r cl g w l w' : api_ListGroupClientRoles k r cl g w = (Done (inr l), w') →
    ∀ x, x ∈ l → client_role w' g cl (role_Name x);
  add_client_ok x r cl g w w' : api_CreateGroupClientRole k x r cl g w = (Done None, w') →
    client_role w' g cl (role_Name x);
  list_realm_ok r g w l w' : api_ListGroupRealmRoles k r g w = (Done (inr l), w') →
    ∀ x, x ∈ l → realm_role w' g (role_Name x);
  add_realm_ok x r g w w' : api_CreateGroupRealmRole k x r g w = (Done None, w') → realm_role w' g (role_Name x);
  child_ok g r x w w' : api_SetGroupChild k g r x w = (Done None, w') → child w' g (kg_ID x);
}.
Context `{!RolesApi}.

(** A group with an id is as its specification says, with its children. *)
Fixpoint as_specified (w : W) (group : keycloakGroupSpec) (id : string) : Prop :=
  let '(mkGroupSpec _ realm _ realmRoles clientRoles childGroups) := group in
  (∀ r, r ∈ realmRoles → realm_role w id r)
  ∧ (∀ r, r ∈ clientRoles → ∃ cl, client_named realm (ClientName r) cl ∧ client_role w id cl (RoleName r))
  ∧ (fix all (l : list keycloakGroupSpec) : Prop :=
       match l with
       | [] => True
       | c :: l => (∃ g, child w id g ∧ as_specified w c g) ∧ all l
       end) childGroups.
Fixpoint children_as_specified (w : W) (id : string) (l : list keycloakGroupSpec) : Prop :=
  match l with
  | [] => True
  | c :: l => (∃ g, child w id g ∧ as_specified w c g) ∧ children_as_specified w id l
  end.
Lemma as_specified_unfold w n realm d rr cr l id :
  as_specified w (mkGroupSpec n realm d rr cr l) id =
  ((∀ r, r ∈ rr → realm_role w id r)
   ∧ (∀ r, r ∈ cr → ∃ cl, client_named realm (ClientName r) cl ∧ client_role w id cl (RoleName r))
   ∧ children_as_specified w id l).
Proof. cbn [as_specified]. do 2 f_equal. induction l as [|c l IH]; cbn; [done|by rewrite IH]. Qed.

Lemma as_specified_grows w w' : grows w w' → ∀ g id, as_specified w g id → as_specified w' g id.
Proof.
  intros (Hr & Hc & Hch). fix IH 1. intros [n realm d rr cr l] id. rewrite !as_specified_unfold.
  intros (H1 & H2 & H3). split_and!; [by eauto| |].
  - intros r Hin. destruct (H2 r Hin) as (cl & ? & ?). eauto.
  - clear H1 H2. induction l as [|c l IHl]; [done|]. destruct H3 as [(g & ? & ?) H3].
    split; [|by apply IHl]. exists g. split; [by apply Hch|by apply IH].
Qed.

Lemma mapRole_grows n l a f :
  preserves grows l → preserves grows a → (∀ r, preserves grows (f r)) →
  preserves grows (mapRoleToGroupByName n l a f).
Proof. intros Hl Ha Hf. unfold mapRoleToGroupByName. frame. Qed.
Lemma mapRole_ok n l a f (P : W → string → Prop) :
  (∀ w rs w', l w = (Done (inr rs), w') → ∀ r, r ∈ rs → P w' (role_Name r)) →
  (∀ r w w', f r w = (Done None, w') → P w' (role_Name r)) →
  ∀ w w', mapRoleToGroupByName n l a f w = (Done None, w') → P w' n.
Proof.
  intros Hl Hf w w'. unfold mapRoleToGroupByName. intros Hr.
  apply bind_done_inv in Hr as ([e|rs] & w1 & Hrs & Hr); [done|].
  destruct (find_role n rs) as [r|] eqn:E.
  - rewrite run_ret in Hr. injection Hr as <-. apply List.find_some in E as [Hin <-%str_eqb_true].
    eapply Hl; [done|by apply list_elem_of_In].
  - apply bind_done_inv in Hr as ([e|av] & w2 & _ & Hr); [done|].
    destruct (find_role n av) as [r|] eqn:E'; [|done]. apply List.find_some in E' as [_ <-%str_eqb_true]. eauto.
Qed.

Lemma ensure_group_grows n r d : preserves grows (ensure_group k n r d).
Proof.
  unfold ensure_group. frame; auto using find_grows, create_grows, default_grows.
Qed.
Lemma client_role_grows realm id cl n : preserves grows (mapClientRoleToGroup k realm id cl n).
Proof. apply mapRole_grows; auto using list_client_grows, avail_client_grows, add_client_grows. Qed.
Lemma realm_role_grows realm id n : preserves grows (mapRealmRoleToGroup k realm id n).
Proof. apply mapRole_grows; auto using list_realm_grows, avail_realm_grows, add_realm_grows. Qed.

Lemma listClientsByName_ok realm (w w' : W) m n id :
  listClientsByName k realm w = (Done (inr m), w') → m !! n = Some id → client_named realm n id.
Proof.
  unfold listClientsByName. intros Hr. apply bind_done_inv in Hr as ([e|l] & w1 & Hl & Hr); [done|].
  rewrite run_ret in Hr. injection Hr as <- <-. pose proof (clients_named _ _ _ _ Hl) as Hn.
  assert (∀ l (m : gmap string string), (∀ kv, kv ∈ l → client_named realm kv.1 kv.2) →
    (∀ n id, m !! n = Some id → client_named realm n id) →
    ∀ n id, fold_left (λ m kv, <[kv.1 := kv.2]> m) l m !! n = Some id → client_named realm n id) as Hf.
  { clear. induction l as [|kv l IH]; intros m Hl Hm; cbn [fold_left]; [done|]. apply IH.
    - intros x Hx. apply Hl. by right.
    - intros n id [[<- <-]|[_ Hx]]%lookup_insert_Some; [apply Hl; by left|eauto]. }
  apply (Hf l ∅); [done|]. intros n' id' Hl'. by rewrite lookup_empty in Hl'.
Qed.

Lemma map_client_roles_ok realm id (m : gmap string string) roles (w w' : W) :
  (∀ n cl, m !! n = Some cl → client_named realm n cl) →
  map_client_roles k realm id m roles w = (Done None, w') →
  grows w w' ∧ ∀ r, r ∈ roles → ∃ cl, client_named realm (ClientName r) cl ∧ client_role w' id cl (RoleName r).
Proof.
  intros Hm. revert w. induction roles as [|r roles IH]; intros w; cbn [map_client_roles].
  { intros [= <-]. split; [reflexivity|]. by intros r ?%not_elem_of_nil. }
  destruct (m !! ClientName r) as [cl|] eqn:E; [|done]. intros Hr.
  apply bind_done_inv in Hr as ([e|] & w1 & Hmap & Hr); [done|]. apply IH in Hr as [Hg Hrs].
  split; [etransitivity; [eapply client_role_grows; exact Hmap|done]|].
  intros x [->|Hx]%elem_of_cons; [|by apply Hrs]. exists cl. split; [by apply Hm|].
  destruct Hg as (_ & Hg & _). apply Hg.
  eapply (mapRole_ok _ _ _ _ (λ w n, client_role w id cl n)); [| |exact Hmap].
  - intros ? ? ? Hls y Hy. eapply list_client_ok; [exact Hls|done].
  - intros y ? ? Ha. eapply add_client_ok; exact Ha.
Qed.

Lemma map_realm_roles_ok realm id roles (w w' : W) :
  map_realm_roles k realm id roles w = (Done None, w') →
  grows w w' ∧ ∀ r, r ∈ roles → realm_role w' id r.
Proof.
  revert w. induction roles as [|r roles IH]; intros w; cbn [map_realm_roles].
  { intros [= <-]. split; [reflexivity|]. by intros r ?%not_elem_of_nil. }
  intros Hr. apply bind_done_inv in Hr as ([e|] & w1 & Hmap & Hr); [done|]. apply IH in Hr as [Hg Hrs].
  split; [etransitivity; [eapply realm_role_grows; exact Hmap|done]|].
  intros x [->|Hx]%elem_of_cons; [|by apply Hrs]. destruct Hg as (Hg & _ & _). apply Hg.
  eapply (mapRole_ok _ _ _ _ (λ w n, realm_role w id n)); [| |exact Hmap].
  - intros ? ? ? Hls y Hy. eapply list_realm_ok; [exact Hls|done].
  - intros y ? ? Ha. eapply add_realm_ok; exact Ha.
Qed.

Lemma group_client_roles_ok n realm d rr cr l id (w w' : W) :
  reconcileGroupClientRoles k id (mkGroupSpec n realm d rr cr l) w = (Done None, w') →
  grows w w' ∧ ∀ r, r ∈ cr → ∃ cl, client_named realm (ClientName r) cl ∧ client_role w' id cl (RoleName r).
Proof.
  unfold reconcileGroupClientRoles. cbn [gs_ClientRoles gs_RealmName]. destruct cr as [|r cr].
  { intros [= <-]. split; [reflexivity|]. by intros r ?%not_elem_of_nil. }
  intros Hr. apply bind_done_inv in Hr as ([e|m] & w1 & Hl & Hr); [done|].
  apply map_client_roles_ok in Hr as [Hg Hrs]; [|intros x cl; by eapply listClientsByName_ok].
  split; [|done]. etransitivity; [|done]. unfold listClientsByName in Hl.
  apply bind_done_inv in Hl as (x & w2 & Hx & Hl). rewrite run_ret in Hl. injection Hl as _ <-.
  eapply clients_grow; exact Hx.
Qed.

End roles.

Section rhssouser_facts.
Context {W Q K : Type}.
Context `{Client W RHMI} `{Client W Secret} `{Client W ConfigMap} `{Client W CRD} `{Client W KeycloakUser}
  `{Client W KeycloakClient} `{Client W KeycloakRealm} `{SemanticDeepEqual (Keycloak Q)}
  `{Client W (Keycloak Q)} `{Client W Route} `{Client W OAuthClient} `{Client W Postgres}
  `{SemanticDeepEqual (StatefulSet Q)} `{Client W (StatefulSet Q)} `{Client W PodMonitor}
  `{Client W PrometheusRule} `{Client W UpstreamPrometheusRule} `{Client W PodDisruptionBudget}
  `{Client W Service} `{Client W InstallPlan} `{Client W Subscription}
  `{Client W ClusterServiceVersion} `{Client W (Snapshot PostgresSnapshotType)}
  `{Client W (Snapshot RedisSnapshotType)} `{Client W NamespaceObj} `{Client W Project}
  `{Client W ProjectRequest} `{SemanticDeepEqual (LimitRange Q)} `{Client W (LimitRange Q)}
  `{Client W User} `{Client W Group} `{Client W ConsoleLink}.
Context `{Quantity Q} `{KeycloakClientFactory W Q K} `{KeycloakInterface W K} `{MarketplaceInterface W}
  `{EventRecorder W} `{OsEnv W} `{Clock W} `{Ticker W} `{Yaml} `{TitleCase}.
Context (declaration : ProductDeclaration) (oauth_delete : string → M W (option error)) (backup_fuel : nat).

Definition host_of (s : SsoState RHSSOUser.t) : string := RHSSOCommon.GetHost (RHSSOUser.common (so_cfg s)).

(** The groups change one entry of the config, which is not the host. *)
Lemma reconcileGroups_host kc s (w w' : W) s' err :
  reconcileGroups (Q := Q) (K := K) kc s w = (Done (s', err), w') → host_of s' = host_of s.
Proof.
  unfold reconcileGroups. destruct (RHSSOUser.GetDevelopersGroupConfigured _) as [[] [e|]].
  1,3: by intros [= <- <-].
  - intros Hr. by go_inv.
  - intros Hr. apply bind_done_inv in Hr as ([e|] & w1 & _ & Hr); [by go_inv|].
    apply bind_done_inv in Hr as ([m [e|]] & w2 & _ & Hr); go_inv.
    all: unfold host_of, RHSSOCommon.GetHost, cfg_get; cbn; by autorewrite with go.
Qed.

(** The components are completed only when the host is known, and keep it. *)
Lemma reconcileComponents_host c q s (w w' : W) s' r :
  reconcileComponents (Q := Q) (K := K) c q s w = (Done (s', r), w') →
  host_of s' = host_of s ∧ (r = (PhaseCompleted, None) → host_of s ≠ "").
Proof.
  unfold reconcileComponents. intros Hr.
  apply bind_done_inv in Hr as (got & w0 & _ & Hr).
  destruct (match got with inl e => _ | inr kc => _ end) as [e|kc]; [by go_inv|].
  apply bind_done_inv in Hr as ([kc' [? err]] & w1 & _ & Hr). destruct err; [by go_inv|].
  apply bind_done_inv in Hr as ([e|] & w2 & _ & Hr); [by go_inv|].
  destruct (_ =?s "") eqn:Eh; [by go_inv|]. apply str_eqb_false in Eh. split; [|done].
  apply bind_done_inv in Hr as ([e|kcr] & w3 & _ & Hr); [by go_inv|].
  unfold reconcile_master in Hr. go_inv; try done.
  all: match goal with H : reconcileGroups _ _ _ = _ |- _ => by apply reconcileGroups_host in H end.
Qed.

Lemma write_keeps_host what : step_keeps host_of (unreported (write_config what)).
Proof. intros s w w' s' r. cbn [step_run unreported]. unfold write_config. intros Hr. by go_inv. Qed.
Lemma write_keeps_user_cfg what : step_keeps so_cfg (unreported (write_config (C := RHSSOUser.t) what)).
Proof. intros s w w' s' r. cbn [step_run unreported]. unfold write_config. intros Hr. by go_inv. Qed.

(** The reconcile of the users' single sign-on reports an install
    completed only when its finalizer was reconciled and each of its twenty
    steps ran, in order, none with an error; the status of the product then
    names a host and passes the check of its versions. *)
Theorem rhssouser_completed s ps c q (w w' : W) s' ps' :
  let cfg := so_cfg s in
  let operatorNs := RHSSOCommon.GetOperatorNamespace (RHSSOUser.common cfg) in
  let ns := RHSSOCommon.GetNamespace (RHSSOUser.common cfg) in
  rhssouser_Reconcile (Q := Q) (K := K) declaration oauth_delete backup_fuel s ps c q false w
    = (Done (s', ps', (PhaseCompleted, None)), w') →
  ∃ i wf w1,
    ReconcileFinalizer c (so_inst s) ProductRHSSOUser false
      (λ i, r ← rhssouser_cleanup oauth_delete c cfg ns operatorNs i; mret (i, r)) w
      = (Done (i, (PhaseCompleted, None)), wf)
    ∧ steps_ran (rhssouser_steps (Q := Q) (K := K) declaration backup_fuel c q ns operatorNs)
        (mkSso cfg (so_mgr s) i) wf s' w1
    ∧ ps' = sso_status (so_cfg s') ps
    ∧ VerifyProductAndOperatorVersion ps' VersionRHSSOUser OperatorVersionRHSSOUser = true
    ∧ p_Host ps' ≠ ""
    ∧ HandleProductComplete (so_inst s') InstallStage ProductRHSSOUser w1 = (Done tt, w').
Proof.
  cbn zeta. unfold rhssouser_Reconcile. intros Hr.
  apply bind_done_inv in Hr as ([i [ph err]] & wf & Hf & Hr).
  destruct (is_some err || (ph =?s PhaseFailed)) eqn:Hn; [go_inv|].
  apply orb_false_iff in Hn as [He _]. destruct err; [done|].
  pose proof (ReconcileFinalizer_phase _ _ _ _ _ _ _ _ _ Hf eq_refl) as ->.
  apply bind_done_inv in Hr as ([s1 [ph1 err1]] & w1 & Hs & Hr).
  destruct (is_some err1 || negb (ph1 =?s PhaseCompleted)) eqn:Hn1; [by go_inv|].
  apply orb_false_iff in Hn1 as [He1 ->%negb_false_iff%str_eqb_true]. destruct err1; [done|].
  apply bind_done_inv in Hr as ([] & w2 & Hc & Hr). rewrite run_ret in Hr. injection Hr as <- <- <-.
  apply run_steps_completed in Hs; [|by repeat constructor]. exists i, wf, w1. split; [done|]. split; [done|].
  unfold rhssouser_steps in Hs.
  apply (steps_ran_app so_inst [_; _; _; _; _; _; _; _; _; _; _]) in Hs as (s2 & w3 & _ & Hs).
  destruct Hs as (s3 & w4 & ph & Hcomp & Hph & Hs). apply str_eqb_true in Hph as ->.
  apply reconcileComponents_host in Hcomp as [Hh3 Hhost]. specialize (Hhost eq_refl).
  apply (steps_ran_app so_inst [_]) in Hs as (s4 & w5 & Hs4 & Hs).
  apply (steps_keep host_of) in Hs4; [|all_keep_with ltac:(apply write_keeps_host)].
  destruct Hs as (s5 & w6 & ph & Hprog & Hph & Hs). apply str_eqb_true in Hph as ->.
  apply (steps_keep so_cfg) in Hs; [|all_keep_with ltac:(apply write_keeps_user_cfg)].
  cbn [reported step_run] in Hprog. apply HandleProgressPhase_ok in Hprog. cbn [sso_common RHSSOUser_sso] in Hprog.
  rewrite <- Hs in Hprog. split; [done|].
  unfold VerifyProductAndOperatorVersion, sso_status, host_of in *. cbn [p_OperatorVersion p_Version p_Host].
  cbn [Config.GetOperatorVersion Config.GetProductVersion Config.GetHost RHSSOUser_readable].
  rewrite Hprog, str_eqb_refl. rewrite <- Hh3, <- Hs4 in Hhost. clear -Hhost Hc.
  unfold RHSSOCommon.GetProductVersion, RHSSOCommon.GetHost in *. cbn [RHSSOCommon.Config
    RHSSOCommon.SetRealm RHSSOCommon.SetOperatorVersion RHSSOCommon.SetProductVersion].
  unfold cfg_get in *. autorewrite with go. done.
Qed.
End rhssouser_facts.
