(* ===== verification/ThreeScaleClient.v ===== *)
(** * The client of the 3scale API

    pkg/products/threescale/three_scale_client.go, types.go and filters.go.
    The client makes requests through an HTTP transport and reads the answers
    with decoders of JSON and XML, which are parameters; what the reconciler
    asks of it is the class ThreeScaleInterface, which the client
    implements. *)

From stdpp Require Import base list strings gmap.
From Stdlib Require Import ZArith Lia.
From S2P Require Import Prelude Kube Olm.

(** ** types.go *)

Record UserDetails := mkUserDetails {
  ud_Id : Z; ud_State : string; ud_Role : string; ud_Username : string; ud_Email : string }.
Record AuthProviderDetails := mkAuthProviderDetails {
  ap_Kind : string; ap_Name : string; ap_SystemName : string; ap_ClientId : string;
  ap_ClientSecret : string; ap_Site : string; ap_SkipSSLCertificateVerification : bool;
  ap_Published : bool }.
Record XMLUserDetails := mkXMLUser { xu_Id : Z; xu_State : string; xu_Username : string }.
#[global] Instance XMLUserDetails_eq_dec : EqDecision XMLUserDetails.
Proof. solve_decision. Defined.
Record AccountDetail := mkAccount {
  acc_Id : Z; acc_Name : string; acc_OrgName : string; acc_AdminBaseURL : string; acc_State : string;
  acc_Users : list XMLUserDetails }.
#[global] Instance AccountDetail_eq_dec : EqDecision AccountDetail.
Proof. solve_decision. Defined.
Record SignUpAccount := mkSignUp { su_AccountDetail : AccountDetail; su_AccessToken : string }.

(** An error that may be a tsError; types.go looks at the error itself, not
    at what it wraps. *)
Inductive ts_error :=
  | tsError (message : string) (StatusCode : Z)
  | OtherError (e : error).
Definition ts_Error (e : ts_error) : error :=
  match e with tsError message _ => ErrStr message | OtherError e => e end.
Definition StatusOK : Z := 200.
Definition StatusCreated : Z := 201.
Definition StatusFound : Z := 302.
Definition StatusNotFound : Z := 404.
Definition StatusServiceUnavailable : Z := 503.
Definition tsIsNotFoundError (e : option ts_error) : bool :=
  match e with Some (tsError _ code) => (code =? StatusNotFound)%Z | _ => false end.

(** ** The transport *)

(** http.Response, of which the body can be read once; reading it may fail. *)
Record Response := mkResponse { StatusCode : Z; Body : error + string }.

(** Method, url and a JSON body with its header; a request that cannot be
    made is an error as well.  Some calls set the timeout of the transport
    they share, which stays. *)
Class HttpClient (W : Type) := {
  http_SetTimeout : Z → M W unit;
  http_Do : string → string → option string → M W (error + Response);
}.

(** The values of the parameters of a request. *)
Inductive param := PStr (s : string) | PNum (z : Z) | PBool (b : bool).

(** encoding/json and encoding/xml on the types above; users and providers of
    an answer are never null. *)
Class ThreeScaleCodec := {
  params_Marshal : gmap string param → error + string;
  users_Decode : string → error + list UserDetails;
  providers_Decode : string → error + list AuthProviderDetails;
  accounts_Decode : string → error + list AccountDetail;
  signup_Decode : string → error + SignUpAccount;
  (** the id of the object under a key *)
  id_Decode : string → string → error + Z;
  (** endpoint and version of a proxy config, over what was there before *)
  proxy_Decode : string * Z → string → error + string * Z;
  (** the text of the first node of a path *)
  xml_FindOne : string → string → error + option string;
}.

(** ** The client *)

Record threeScaleClient := mkThreeScaleClient { wildCardDomain : string; tsc_ns : string }.
Definition NewThreeScaleClient (domain : string) : threeScaleClient := mkThreeScaleClient domain "".
Definition SetNamespace (ns : string) (tsc : threeScaleClient) : threeScaleClient :=
  mkThreeScaleClient (wildCardDomain tsc) ns.

Definition adminRole : string := "admin".
Definition memberRole : string := "member".

Definition withAccessToken (accessToken : string) (data : gmap string param) : gmap string param :=
  <["access_token" := PStr accessToken]> data.
Definition onlyAccessToken (accessToken : string) : gmap string param := withAccessToken accessToken ∅.

(** The first tenant accounts are the ones of 3scale itself. *)
Definition no_filter (ac : AccountDetail) : bool := true.

Section client.
Context {W : Type} `{HttpClient W} `{ThreeScaleCodec}.

Definition assertStatusCode (expected : Z) (res : Response) : option error :=
  if (StatusCode res =? expected)%Z then None
  else match Body res with
       | inl e => Some e
       | inr body => Some (ErrStr ("unexpected status code: " +:+ itoa (StatusCode res)
                                   +:+ ". Body: " +:+ body))
       end.
(** A decoder reads the body. *)
Definition from_body {A} (decode : string → error + A) (res : Response) : error + A :=
  match Body res with inl e => inl e | inr body => decode body end.
Definition xmlFromResponse (path : string) (res : Response) : error + string :=
  match from_body (xml_FindOne path) res with
  | inl e => inl e
  | inr None => inl (ErrStr "query not found in doc")
  | inr (Some data) => inr data
  end.

Definition makeRequest (url method : string) (parameters : gmap string param) : M W (error + Response) :=
  match params_Marshal parameters with
  | inl e => mret (inl e)
  | inr body => http_Do method url (Some body)
  end.
Definition makeRequest_admin (tsc : threeScaleClient) (method path : string) (parameters : gmap string param)
    : M W (error + Response) :=
  makeRequest ("https://3scale-admin." +:+ wildCardDomain tsc +:+ "/admin/api/" +:+ path) method parameters.
(** A request of a call that sets the timeout. *)
Definition makeRequest_timed (url method : string) (parameters : gmap string param) : M W (error + Response) :=
  match params_Marshal parameters with
  | inl e => mret (inl e)
  | inr body => http_SetTimeout (10 * second_ns);; http_Do method url (Some body)
  end.
Definition makeRequest_admin_timed (tsc : threeScaleClient) (method path : string)
    (parameters : gmap string param) : M W (error + Response) :=
  makeRequest_timed ("https://3scale-admin." +:+ wildCardDomain tsc +:+ "/admin/api/" +:+ path) method parameters.
Definition makeRequestToMaster (tsc : threeScaleClient) (method path : string) (parameters : gmap string param)
    : M W (error + Response) :=
  makeRequest ("https://master." +:+ wildCardDomain tsc +:+ "/" +:+ path) method parameters.

(** An answer with a status, and what is read off it. *)
Definition expecting {A} (code : Z) (read : Response → error + A) (request : M W (error + Response))
    : M W (error + A) :=
  res ← request;
  mret (match res with
        | inl e => inl e
        | inr res => match assertStatusCode code res with Some e => inl e | None => read res end
        end).
Definition expecting_only (code : Z) (request : M W (error + Response)) : M W (option error) :=
  r ← expecting code (λ _, inr ()) request;
  mret (match r with inl e => Some e | inr _ => None end).

(** *** Authentication providers and users *)

Definition AddAuthenticationProvider (tsc : threeScaleClient) (data : gmap string string) (accessToken : string)
    : M W (error + Response) :=
  makeRequest_timed ("https://3scale-admin." +:+ wildCardDomain tsc
               +:+ "/admin/api/account/authentication_providers.json") "POST"
    (withAccessToken accessToken (PStr <$> data)).
Definition GetAuthenticationProviders (tsc : threeScaleClient) (accessToken : string)
    : M W (error + list AuthProviderDetails) :=
  res ← http_Do "GET" ("https://3scale-admin." +:+ wildCardDomain tsc
          +:+ "/admin/api/account/authentication_providers.json?access_token=" +:+ accessToken) None;
  mret (match res with inl e => inl e | inr res => from_body providers_Decode res end).
Definition GetAuthenticationProviderByName (tsc : threeScaleClient) (name accessToken : string)
    : M W (ts_error + AuthProviderDetails) :=
  authProviders ← GetAuthenticationProviders tsc accessToken;
  mret (match authProviders with
        | inl e => inl (OtherError e)
        | inr l => match List.find (λ ap, ap_Name ap =?s name) l with
                   | Some ap => inr ap
                   | None => inl (tsError "Authprovider not found" StatusNotFound)
                   end
        end).

(** The status of the answer is not looked at. *)
Definition GetUsers (tsc : threeScaleClient) (accessToken : string) : M W (error + list UserDetails) :=
  res ← http_Do "GET" ("https://3scale-admin." +:+ wildCardDomain tsc
          +:+ "/admin/api/users.json?access_token=" +:+ accessToken) None;
  mret (match res with inl e => inl e | inr res => from_body users_Decode res end).
Definition GetUser (tsc : threeScaleClient) (username accessToken : string) : M W (ts_error + UserDetails) :=
  users ← GetUsers tsc accessToken;
  mret (match users with
        | inl e => inl (OtherError e)
        | inr l => match List.find (λ u, ud_Username u =?s username) l with
                   | Some u => inr u
                   | None => inl (tsError "User not found" StatusNotFound)
                   end
        end).
Definition SetFromEmailAddress (tsc : threeScaleClient) (emailAddress accessToken : string)
    : M W (error + Response) :=
  res ← makeRequest_admin_timed tsc "PUT" "provider.xml"
    (withAccessToken accessToken {["from_email" := PStr emailAddress]});
  mret (match res with
        | inl e => inl e
        | inr res => if (StatusCode res =? 200)%Z then inr res
                     else inl (ErrStr ("statusCode " +:+ itoa (StatusCode res) +:+ " calling SetFromEmailAddress"))
        end).
Definition AddUser (tsc : threeScaleClient) (username email password accessToken : string)
    : M W (error + Response) :=
  makeRequest_admin tsc "POST" "users.json" (withAccessToken accessToken
    (<["username" := PStr username]> (<["email" := PStr email]> {["password" := PStr password]}))).
Definition DeleteUser (tsc : threeScaleClient) (userID : Z) (accessToken : string) : M W (error + Response) :=
  makeRequest_admin_timed tsc "DELETE" ("users/" +:+ itoa userID +:+ ".json") (onlyAccessToken accessToken).
Definition SetUserAsAdmin (tsc : threeScaleClient) (userID : Z) (accessToken : string) : M W (error + Response) :=
  makeRequest_admin_timed tsc "PUT" ("users/" +:+ itoa userID +:+ "/admin.json") (onlyAccessToken accessToken).
Definition SetUserAsMember (tsc : threeScaleClient) (userID : Z) (accessToken : string) : M W (error + Response) :=
  makeRequest_admin_timed tsc "PUT" ("users/" +:+ itoa userID +:+ "/member.json") (onlyAccessToken accessToken).
Definition UpdateUser (tsc : threeScaleClient) (userID : Z) (username email accessToken : string)
    : M W (error + Response) :=
  makeRequest_admin_timed tsc "PUT" ("users/" +:+ itoa userID +:+ ".json")
    (withAccessToken accessToken (<["username" := PStr username]> {["email" := PStr email]})).

(** *** Accounts, backends and services *)

Definition CreateAccount (tsc : threeScaleClient) (accessToken orgName username : string) : M W (error + string) :=
  expecting StatusCreated (xmlFromResponse "//account/id/text()") (makeRequest_admin tsc "POST" "signup.xml"
    (withAccessToken accessToken (<["org_name" := PStr orgName]> {["username" := PStr username]}))).
Definition CreateBackend (tsc : threeScaleClient) (accessToken name privateEndpoint : string) : M W (error + Z) :=
  expecting StatusCreated (from_body (id_Decode "backend_api")) (makeRequest_admin tsc "POST" "backend_apis.json"
    (withAccessToken accessToken (<["name" := PStr name]> {["private_endpoint" := PStr privateEndpoint]}))).
Definition CreateMetric (tsc : threeScaleClient) (accessToken : string) (backendID : Z) (friendlyName unit_ : string)
    : M W (error + Z) :=
  expecting StatusCreated (from_body (id_Decode "metric"))
    (makeRequest_admin tsc "POST" ("backend_apis/" +:+ itoa backendID +:+ "/metrics.json")
       (withAccessToken accessToken (<["friendly_name" := PStr friendlyName]> {["unit" := PStr unit_]}))).
Definition CreateBackendMappingRule (tsc : threeScaleClient) (accessToken : string) (backendID metricID : Z)
    (httpMethod pattern : string) (delta : Z) : M W (option error) :=
  expecting_only StatusCreated
    (makeRequest_admin tsc "POST" ("backend_apis/" +:+ itoa backendID +:+ "/mapping_rules.json")
       (withAccessToken accessToken
          (<["http_method" := PStr httpMethod]> (<["pattern" := PStr pattern]>
           (<["delta" := PNum delta]> {["metric_id" := PNum metricID]}))))).
(** The system name that is asked for is not used. *)
Definition CreateService (tsc : threeScaleClient) (accessToken name systemName : string) : M W (error + string) :=
  expecting StatusCreated (xmlFromResponse "//service/id/text()") (makeRequest_admin tsc "POST" "services.xml"
    (withAccessToken accessToken (<["name" := PStr name]> {["system_name" := PStr name]}))).
Definition CreateBackendUsage (tsc : threeScaleClient) (accessToken serviceID : string) (backendID : Z) (path : string)
    : M W (option error) :=
  expecting_only StatusCreated
    (makeRequest_admin tsc "POST" ("services/" +:+ serviceID +:+ "/backend_usages.json")
       (withAccessToken accessToken (<["backend_api_id" := PNum backendID]> {["path" := PStr path]}))).
Definition CreateApplicationPlan (tsc : threeScaleClient) (accessToken serviceID name : string) : M W (error + string) :=
  expecting StatusCreated (xmlFromResponse "//plan/id/text()")
    (makeRequest_admin tsc "POST" ("services/" +:+ serviceID +:+ "/application_plans.xml")
       (withAccessToken accessToken {["name" := PStr name]})).
Definition CreateApplication (tsc : threeScaleClient) (accessToken accountID planID name description : string)
    : M W (error + string) :=
  expecting StatusCreated (xmlFromResponse "//application/user_key/text()")
    (makeRequest_admin tsc "POST" ("accounts/" +:+ accountID +:+ "/applications.xml")
       (withAccessToken accessToken
          (<["plan_id" := PStr planID]> (<["name" := PStr name]> {["description" := PStr description]})))).
Definition DeployProxy (tsc : threeScaleClient) (accessToken serviceID : string) : M W (option error) :=
  expecting_only StatusCreated
    (makeRequest_admin tsc "POST" ("services/" +:+ serviceID +:+ "/proxy/deploy.xml") (onlyAccessToken accessToken)).
Definition PromoteProxy (tsc : threeScaleClient) (accessToken serviceID env to : string) : M W (error + string) :=
  latest ← expecting StatusOK (from_body (proxy_Decode ("", 0%Z)))
    (http_Do "GET" ("https://3scale-admin." +:+ wildCardDomain tsc +:+ "/admin/api/services/" +:+ serviceID
       +:+ "/proxy/configs/" +:+ env +:+ "/latest.json?access_token=" +:+ accessToken) None);
  match latest with
  | inl e => mret (inl e)
  | inr (endpoint, version) =>
      promoted ← expecting StatusCreated (from_body (proxy_Decode (endpoint, version)))
        (makeRequest_admin tsc "POST"
           ("services/" +:+ serviceID +:+ "/proxy/configs/" +:+ env +:+ "/" +:+ itoa version +:+ "/promote.json")
           (withAccessToken accessToken {["to" := PStr to]}));
      mret (match promoted with inl e => inl e | inr (endpoint, _) => inr endpoint end)
  end.
Definition DeleteService (tsc : threeScaleClient) (accessToken serviceID : string) : M W (option error) :=
  expecting_only StatusOK
    (makeRequest_admin tsc "DELETE" ("services/" +:+ serviceID +:+ ".xml") (onlyAccessToken accessToken)).
Definition DeleteBackend (tsc : threeScaleClient) (accessToken : string) (backendID : Z) : M W (option error) :=
  expecting_only StatusOK
    (makeRequest_admin tsc "DELETE" ("backend_apis/" +:+ itoa backendID +:+ ".json") (onlyAccessToken accessToken)).
Definition DeleteAccount (tsc : threeScaleClient) (accessToken accountID : string) : M W (option error) :=
  expecting_only StatusOK
    (makeRequest_admin tsc "DELETE" ("accounts/" +:+ accountID +:+ ".xml") (onlyAccessToken accessToken)).

(** *** Tenants *)

Definition ListTenantAccounts (tsc : threeScaleClient) (accessToken : string) (page : Z)
    (filterFn : AccountDetail → bool) : M W (error + list AccountDetail) :=
  accounts ← expecting StatusOK (from_body accounts_Decode)
    (makeRequestToMaster tsc "GET" "admin/api/accounts.xml" (withAccessToken accessToken {["page" := PNum page]}));
  mret (match accounts with inl e => inl e | inr l => inr (List.filter filterFn l) end).
Definition CreateTenant (tsc : threeScaleClient) (accessToken : string) (account : AccountDetail)
    (password email : string) : M W (error + SignUpAccount) :=
  expecting StatusCreated (from_body signup_Decode) (makeRequestToMaster tsc "POST" "master/api/providers.xml"
    (withAccessToken accessToken
       (<["org_name" := PStr (acc_OrgName account)]> (<["username" := PStr (acc_Name account)]>
        (<["password" := PStr password]> {["email" := PStr email]}))))).
Definition GetTenantAccount (tsc : threeScaleClient) (accessToken : string) (id : Z) : M W (error + SignUpAccount) :=
  expecting StatusOK (from_body signup_Decode)
    (makeRequestToMaster tsc "GET" ("master/api/providers/{" +:+ itoa id +:+ "}.xml") (onlyAccessToken accessToken)).
Definition ActivateUser (tsc : threeScaleClient) (accessToken : string) (accountId userId : Z) : M W (option error) :=
  expecting_only StatusOK
    (makeRequestToMaster tsc "PUT"
       ("admin/api/accounts/" +:+ itoa accountId +:+ "/users/" +:+ itoa userId +:+ "/activate.xml")
       (onlyAccessToken accessToken)).

Definition account_providers (account : AccountDetail) : string :=
  acc_AdminBaseURL account +:+ "/" +:+ "admin/api/account/authentication_providers.json".
Definition AddAuthProviderToAccount (accessToken : string) (account : AccountDetail) (d : AuthProviderDetails)
    : M W (option error) :=
  res ← makeRequest (account_providers account) "POST"
    (withAccessToken accessToken (list_to_map
       [("kind", PStr (ap_Kind d)); ("name", PStr (ap_Name d)); ("client_id", PStr (ap_ClientId d));
        ("client_secret", PStr (ap_ClientSecret d)); ("site", PStr (ap_Site d));
        ("skip_ssl_certificate_verification", PBool (ap_SkipSSLCertificateVerification d));
        ("published", PBool (ap_Published d)); ("system_name", PStr (ap_SystemName d))]));
  mret (match res with
        | inl e => Some (ErrWrap ("error creating new authentication provider for " +:+ acc_OrgName account
                                  +:+ " tenant account: , ") e)
        | inr res => assertStatusCode StatusCreated res
        end).
Definition IsAuthProviderAdded (accessToken authProviderName : string) (account : AccountDetail)
    : M W (error + bool) :=
  expecting StatusOK
    (λ res, match from_body providers_Decode res with
            | inl e => inl e
            | inr l => inr (existsb (λ ap, ap_Name ap =?s authProviderName) l)
            end)
    (makeRequest (account_providers account) "GET" (onlyAccessToken accessToken)).

Definition DeleteTenant (tsc : threeScaleClient) (accessToken : string) (accountId : Z) : M W (option error) :=
  expecting_only StatusOK
    (makeRequestToMaster tsc "DELETE" ("master/api/providers/" +:+ itoa accountId +:+ ".xml")
       (onlyAccessToken accessToken)).
(** A deletion without an error ends the loop. *)
Fixpoint DeleteTenants (tsc : threeScaleClient) (accessToken : string) (accounts : list AccountDetail)
    : M W (option error) :=
  match accounts with
  | [] => mret None
  | account :: accounts =>
      err ← DeleteTenant tsc accessToken (acc_Id account);
      match err with
      | None => mret (Some (ErrStr ("error deleting tenant: " +:+ acc_Name account)))
      | Some _ => DeleteTenants tsc accessToken accounts
      end
  end.
End client.

(** ** What the reconciler asks of a client

    The calls it makes; UpdateTenant goes through the client of the porta
    library, made for the host of a portal. *)
Class ThreeScaleInterface (W T : Type) := {
  ts_AddAuthenticationProvider : T → gmap string string → string → M W (error + Response);
  ts_GetAuthenticationProviderByName : T → string → string → M W (ts_error + AuthProviderDetails);
  ts_GetUser : T → string → string → M W (ts_error + UserDetails);
  ts_GetUsers : T → string → M W (error + list UserDetails);
  ts_AddUser : T → string → string → string → string → M W (error + Response);
  ts_DeleteUser : T → Z → string → M W (error + Response);
  ts_SetUserAsAdmin : T → Z → string → M W (error + Response);
  ts_SetFromEmailAddress : T → string → string → M W (error + Response);
  ts_UpdateUser : T → Z → string → string → string → M W (error + Response);
  ts_CreateTenant : T → string → AccountDetail → string → string → M W (error + SignUpAccount);
  ts_ListTenantAccounts : T → string → Z → (AccountDetail → bool) → M W (error + list AccountDetail);
  ts_DeleteTenant : T → string → Z → M W (option error);
  ts_DeleteTenants : T → string → list AccountDetail → M W (option error);
  ts_ActivateUser : T → string → Z → Z → M W (option error);
  ts_AddAuthProviderToAccount : T → string → AccountDetail → AuthProviderDetails → M W (option error);
  ts_IsAuthProviderAdded : T → string → string → AccountDetail → M W (error + bool);
}.
#[export] Instance threeScaleClient_interface {W} `{HttpClient W} `{ThreeScaleCodec}
    : ThreeScaleInterface W threeScaleClient := {|
  ts_AddAuthenticationProvider := AddAuthenticationProvider;
  ts_GetAuthenticationProviderByName := GetAuthenticationProviderByName;
  ts_GetUser := GetUser;
  ts_GetUsers := GetUsers;
  ts_AddUser := AddUser;
  ts_DeleteUser := DeleteUser;
  ts_SetUserAsAdmin := SetUserAsAdmin;
  ts_SetFromEmailAddress := SetFromEmailAddress;
  ts_UpdateUser := UpdateUser;
  ts_CreateTenant := CreateTenant;
  ts_ListTenantAccounts := ListTenantAccounts;
  ts_DeleteTenant := DeleteTenant;
  ts_DeleteTenants := DeleteTenants;
  ts_ActivateUser := ActivateUser;
  ts_AddAuthProviderToAccount := λ _, AddAuthProviderToAccount;
  ts_IsAuthProviderAdded := λ _, IsAuthProviderAdded;
|}.

(** ** filters.go *)

(** strings.LastIndex: what precedes the last occurrence, and what follows it. *)
Fixpoint cut_last (sep s : string) : option (string * string) :=
  match s with
  | EmptyString => None
  | String c s' =>
      match cut_last sep s' with
      | Some (a, b) => Some (String c a, b)
      | None => if has_prefix sep s then Some (EmptyString, drop_str (String.length sep) s) else None
      end
  end.

Record TenantAccountsFilter := mkFilter { f_providers : list AccountDetail; f_developers : list (string * string) }.
(** Url and state of the developer portal of an account. *)
Definition developerRoute (account : AccountDetail) : option (string * string) :=
  match cut_last "-admin." (acc_AdminBaseURL account) with
  | Some (a, b) => Some (a +:+ "." +:+ b, acc_State account)
  | None => None
  end.
Definition generateDeveloperRoutes (accounts : list AccountDetail) : list (string * string) :=
  omap developerRoute accounts.
Definition NewTenantAccountsFilter (accounts : list AccountDetail) : TenantAccountsFilter :=
  mkFilter accounts (generateDeveloperRoutes accounts).
(** The first account whose url ends in the host decides. *)
Definition Provider (f : TenantAccountsFilter) (r : Route) : bool :=
  match List.find (λ a, has_suffix (rt_Host r) (acc_AdminBaseURL a)) (f_providers f) with
  | Some a => acc_State a =?s "approved"
  | None => false
  end.
Definition Developer (f : TenantAccountsFilter) (r : Route) : bool :=
  match List.find (λ d, has_suffix (rt_Host r) d.1) (f_developers f) with
  | Some d => d.2 =?s "approved"
  | None => false
  end.

(** ** Facts *)

Section client_facts.
Context {W : Type} `{HttpClient W} `{ThreeScaleCodec}.

Definition deletion_failed (tsc : threeScaleClient) (accessToken : string) (a : AccountDetail) : Prop :=
  ∃ (w : W) e w', DeleteTenant tsc accessToken (acc_Id a) w = (Done (Some e), w').

(** Deleting tenants ends without an error exactly when every request to
    delete one has failed; when a request succeeds, the loop stops there with
    an error that names the deleted account, and the accounts after it are not
    asked for. *)
Lemma DeleteTenants_spec tsc accessToken accounts (w w' : W) r :
  DeleteTenants tsc accessToken accounts w = (Done r, w') →
  match r with
  | None => Forall (deletion_failed tsc accessToken) accounts
  | Some e => ∃ pre a post w1, accounts = pre ++ a :: post
      ∧ Forall (deletion_failed tsc accessToken) pre
      ∧ DeleteTenant tsc accessToken (acc_Id a) w1 = (Done None, w')
      ∧ e = ErrStr ("error deleting tenant: " +:+ acc_Name a)
  end.
Proof.
  revert w. induction accounts as [|a l IH]; intros w Hd; cbn [DeleteTenants] in Hd.
  { rewrite run_ret in Hd. by injection Hd as <- <-. }
  apply bind_done_inv in Hd as ([e|] & w1 & Ha & Hd).
  - apply IH in Hd. destruct r as [e'|].
    + destruct Hd as (pre & b & post & w2 & -> & Hp & Hb & He). exists (a :: pre), b, post, w2.
      split_and!; [done| |done|done]. constructor; [by exists w, e, w1|done].
    + constructor; [by exists w, e, w1|done].
  - rewrite run_ret in Hd. injection Hd as <- <-. exists [], a, l, w. split_and!; done.
Qed.
End client_facts.

Lemma cut_last_none sep s : str_contains sep s = false → cut_last sep s = None.
Proof.
  induction s as [|c s IH]; intros Hc; [done|]. cbn [str_contains] in Hc. apply orb_false_iff in Hc as [Hp Hc].
  cbn [cut_last]. rewrite IH by done. unfold has_prefix in Hp |- *. by rewrite Hp.
Qed.
Lemma drop_str_app a b : drop_str (String.length a) (a +:+ b) = b.
Proof. induction a; [by destruct b|done]. Qed.
Lemma cut_last_app c sep a b :
  str_contains (String c sep) (sep +:+ b) = false →
  cut_last (String c sep) (a +:+ String c sep +:+ b) = Some (a, b).
Proof.
  intros Hn. induction a as [|d a IH].
  - change ("" +:+ String c sep +:+ b) with (String c (sep +:+ b)). cbn [cut_last].
    rewrite cut_last_none by done. change (String c (sep +:+ b)) with (String c sep +:+ b).
    by rewrite has_prefix_app, drop_str_app.
  - change (String d a +:+ String c sep +:+ b) with (String d (a +:+ String c sep +:+ b)). cbn [cut_last].
    by rewrite IH.
Qed.

(** The developer portal of an account has the url of its admin portal
    without its last "-admin". *)
Lemma developerRoute_spec id name org a b state users :
  str_contains "-admin." ("admin." +:+ b) = false →
  developerRoute (mkAccount id name org (a +:+ "-admin." +:+ b) state users) = Some (a +:+ "." +:+ b, state).
Proof. intros Hb. unfold developerRoute. cbn [acc_AdminBaseURL acc_State]. by rewrite cut_last_app. Qed.
