(* ===== verification/ThreeScaleUsers.v ===== *)
(** * Users of 3scale

    The part of pkg/products/threescale/reconciler.go that keeps the users of
    3scale in line with the users of the single sign-on: the tokens and the
    administrator of the seed secret, the difference of the two sets of users,
    the requests that close it and the attributes that remember which user of
    3scale a user of Keycloak is. *)

From stdpp Require Import base list strings gmap.
From Stdlib Require Import ZArith Lia.
From S2P Require Import Prelude Kube Api Resources Users Olm Quota Pods Keycloak RateLimit Cro Config Metrics.
From S2P Require Import Rhsso ThreeScaleClient.

Definition user3ScaleID : string := "3scale_user_id".
Definition userCreated3ScaleName : string := "3scale_user_created".

(** strings.EqualFold, on ASCII *)
Definition EqualFold (a b : string) : bool := to_lower a =?s to_lower b.

(** ** The seed secret *)

Section seed.
Context {W : Type} `{Client W Secret} `{OsEnv W}.

Definition getToken (c : KClient) (namespace tokenType : string) : M W (error + string) :=
  s ← client_get (O := Secret) c namespace "system-seed";
  mret (match s with inl e => inl e | inr s => inr (omap_get "" (sec_Data s) tokenType) end).
Definition GetAdminToken (c : KClient) (cfg : ThreeScale.t) : M W (error + string) :=
  getToken c (ThreeScale.GetNamespace cfg) "ADMIN_ACCESS_TOKEN".
Definition GetMasterToken (c : KClient) (cfg : ThreeScale.t) : M W (error + string) :=
  getToken c (ThreeScale.GetNamespace cfg) "MASTER_ACCESS_TOKEN".

(** Name and email of the administrator *)
Definition GetAdminNameAndPassFromSecret (c : KClient) (cfg : ThreeScale.t) : M W (error + string * string) :=
  s ← client_get (O := Secret) c (ThreeScale.GetNamespace cfg) "system-seed";
  mret (match s with
        | inl e => inl e
        | inr s => inr (omap_get "" (sec_Data s) "ADMIN_USER", omap_get "" (sec_Data s) "ADMIN_EMAIL")
        end).
Definition SetAdminDetailsOnSecret (c : KClient) (cfg : ThreeScale.t) (username email : string) : M W (option error) :=
  '(_, (_, err)) ← CreateOrUpdate c (mkSecret (named (ThreeScale.GetNamespace cfg) "system-seed") None) (λ s,
    match sec_Data s with
    | None => panic "assignment to entry in nil map"
    | Some d => mret (with_sec_Data s (Some (<["ADMIN_EMAIL" := email]> (<["ADMIN_USER" := username]> d))), None)
    end);
  mret err.
End seed.

(** ** Which users are the same *)

(** The first value of the attribute is the id. *)
Definition tsUserIDInKc (tsUser : UserDetails) (kcUser : KeycloakUser) : bool :=
  match omap_get [] (kc_Attributes (ku_User kcUser)) user3ScaleID with
  | [] => false
  | id :: _ => EqualFold (itoa (ud_Id tsUser)) id
  end.
Definition kcContainsTs (kcUsers : list KeycloakAPIUser) (tsUser : UserDetails) : bool :=
  existsb (λ kcu, to_lower (kc_UserName kcu) =?s ud_Username tsUser) kcUsers.
Definition tsContainsKc (tsusers : list UserDetails) (kcUser : KeycloakAPIUser) : bool :=
  existsb (λ tsu, ud_Username tsu =?s to_lower (kc_UserName kcUser)) tsusers.
Definition userIsOpenshiftAdmin (tsUser : UserDetails) (adminGroup : Group) : bool :=
  existsb (EqualFold (ud_Username tsUser)) (grp_Users adminGroup).

(** The user of Keycloak with the attributes of the user of 3scale. *)
Definition with_3scale_id (tsUser : UserDetails) (user : KeycloakAPIUser) : KeycloakAPIUser :=
  mkFullKeycloakUser (kc_ID user) (kc_UserName user) (kc_Email user) (kc_EmailVerified user) (kc_Enabled user)
    (kc_FederatedIdentities user) (kc_RequiredActions user) (kc_RealmRoles user) (kc_ClientRoles user)
    (kc_Groups user)
    (Some (<[user3ScaleID := [itoa (ud_Id tsUser)]]>
             (<[userCreated3ScaleName := ["true"]]> (make_if_nil (kc_Attributes user))))).

Section diff.
Context {W : Type} `{Client W KeycloakUser}.

(** Whether the generated user of one of the users of Keycloak has the id; a
    generated user that cannot be read is passed over, a user without a name
    ends the search. *)
Fixpoint claimed_by (c : KClient) (ns : string) (user : UserDetails) (kcUsers : list KeycloakAPIUser)
    : M W (option bool) :=
  match kcUsers with
  | [] => mret (Some false)
  | kuUser :: kcUsers =>
      let name := GetValidGeneratedUserName kuUser in
      if name =?s "" then mret None
      else
        genKcUser ← client_get (O := KeycloakUser) c ns name;
        match genKcUser with
        | inl _ => claimed_by c ns user kcUsers
        | inr genKcUser =>
            if tsUserIDInKc user genKcUser then mret (Some true) else claimed_by c ns user kcUsers
        end
  end.
(** Deleted and updated users. *)
Fixpoint split_deleted (c : KClient) (ns : string) (kcUsers : list KeycloakAPIUser)
    (expectedDeleted deleted updated : list UserDetails) : M W (list UserDetails * list UserDetails) :=
  match expectedDeleted with
  | [] => mret (deleted, updated)
  | user :: expectedDeleted =>
      claimed ← claimed_by c ns user kcUsers;
      match claimed with
      | None => mret (deleted, updated)
      | Some true => split_deleted c ns kcUsers expectedDeleted deleted (updated ++ [user])
      | Some false => split_deleted c ns kcUsers expectedDeleted (deleted ++ [user]) updated
      end
  end.
Definition getUserDiff (c : KClient) (m : Manager) `{Yaml} (kcUsers : list KeycloakAPIUser)
    (tsUsers : list UserDetails) : M W (list KeycloakAPIUser * (list UserDetails * list UserDetails)) :=
  match ReadRHSSO m with
  | inl _ => mret ([], ([], []))
  | inr rhssoConfig =>
      let added := List.filter (λ k, negb (tsContainsKc tsUsers k)) kcUsers in
      let expectedDeleted := List.filter (λ u, negb (kcContainsTs kcUsers u)) tsUsers in
      r ← split_deleted c (Config.GetNamespace rhssoConfig) kcUsers expectedDeleted [] [];
      mret (added, r)
  end.

Definition getGeneratedKeycloakUser (c : KClient) (ns : string) (tsUser : UserDetails)
    : M W (error + KeycloakUser) :=
  users ← client_list (O := KeycloakUser) c (mkListOptions (Some ns) (map_to_list GetInstanceLabels));
  mret (match users with
        | inl e => inl e
        | inr users => match List.find (tsUserIDInKc tsUser) users with
                       | Some kcUser => inr kcUser
                       | None => inl (ErrStr "genrated Keycloak user was not found")
                       end
        end).
End diff.

(** ** Closing the difference *)

Section users.
Context {W T : Type} `{Client W Secret} `{Client W KeycloakUser} `{Client W Group} `{Prometheus W} `{OsEnv W}
  `{Yaml} `{ThreeScaleInterface W T}.
Context (tsClient : T).

(** A request that fails counts as a 503 in the metric; what came back ends
    nothing. *)
Fixpoint delete_ts_users (admin accessToken : string) (deleted : list UserDetails) : M W unit :=
  match deleted with
  | [] => mret tt
  | tsUser :: deleted =>
      (if negb (ud_Username tsUser =?s admin) then
         res ← ts_DeleteUser tsClient (ud_Id tsUser) accessToken;
         let statusCode := match res with inl _ => StatusServiceUnavailable | inr res => StatusCode res end in
         modifies (SetThreeScaleUserAction statusCode (itoa (ud_Id tsUser)) "DELETE")
       else mret tt);;
      delete_ts_users admin accessToken deleted
  end.
Fixpoint update_ts_users (c : KClient) (ns admin accessToken : string) (updated : list UserDetails) : M W unit :=
  match updated with
  | [] => mret tt
  | tsUser :: updated =>
      (if negb (ud_Username tsUser =?s admin) then
         genKcUser ← getGeneratedKeycloakUser c ns tsUser;
         match genKcUser with
         | inl _ => mret tt
         | inr genKcUser =>
             ts_UpdateUser tsClient (ud_Id tsUser) (to_lower (kc_UserName (ku_User genKcUser)))
               (ud_Email tsUser) accessToken;; mret tt
         end
       else mret tt);;
      update_ts_users c ns admin accessToken updated
  end.
(** A user that 3scale knows by now is left alone. *)
Fixpoint add_ts_users (accessToken : string) (added : list KeycloakAPIUser) : M W unit :=
  match added with
  | [] => mret tt
  | kcUser :: added =>
      user ← ts_GetUser tsClient (to_lower (kc_UserName kcUser)) accessToken;
      match user with
      | inr _ => mret tt
      | inl _ =>
          res ← ts_AddUser tsClient (to_lower (kc_UserName kcUser)) (to_lower (kc_Email kcUser)) "" accessToken;
          let statusCode := match res with inl _ => StatusServiceUnavailable | inr res => StatusCode res end in
          modifies (SetThreeScaleUserAction statusCode (kc_UserName kcUser) "POST")
      end;;
      add_ts_users accessToken added
  end.

Fixpoint set_attributes (c : KClient) (ns accessToken : string) (kcu : list KeycloakAPIUser)
    : M W (StatusPhase * option error) :=
  match kcu with
  | [] => mret (PhaseCompleted, None)
  | user :: kcu =>
      tsUser ← ts_GetUser tsClient (to_lower (kc_UserName user)) accessToken;
      match tsUser with
      | inl _ => set_attributes c ns accessToken kcu
      | inr tsUser =>
          let name := GetValidGeneratedUserName user in
          if name =?s "" then mret (PhaseFailed, Some (ErrStr "failed to get valid generated username"))
          else
            '(_, (_, err)) ← CreateOrUpdate c (named_user (named ns name)) (λ kcUser,
              mret (mkKeycloakUserCR (ku_meta kcUser) (ku_RealmSelector kcUser) (with_3scale_id tsUser user)
                      (ku_Message kcUser) (ku_Phase kcUser), None));
            match err with
            | Some e => mret (PhaseInProgress, Some (ErrWrap ("failed to update KeycloakUser CR with "
                                +:+ userCreated3ScaleName +:+ " attribute: ") e))
            | None => set_attributes c ns accessToken kcu
            end
      end
  end.
Definition updateKeycloakUsersAttributeWith3ScaleUserId (c : KClient) (m : Manager) (kcu : list KeycloakAPIUser)
    (accessToken : string) : M W (StatusPhase * option error) :=
  match ReadRHSSO m with
  | inl e => mret (PhaseFailed, Some e)
  | inr rhssoConfig => set_attributes c (Config.GetNamespace rhssoConfig) accessToken kcu
  end.

(** An answer other than 200 ends the loop without an error. *)
Fixpoint syncOpenshiftAdminMembership (openshiftAdminGroup : Group) (newTsUsers : list UserDetails)
    (systemAdminUsername accessToken : string) : M W (option error) :=
  match newTsUsers with
  | [] => mret None
  | tsUser :: newTsUsers =>
      let next := syncOpenshiftAdminMembership openshiftAdminGroup newTsUsers systemAdminUsername accessToken in
      if ud_Username tsUser =?s systemAdminUsername then next
      else if userIsOpenshiftAdmin tsUser openshiftAdminGroup && negb (ud_Role tsUser =?s adminRole) then
        res ← ts_SetUserAsAdmin tsClient (ud_Id tsUser) accessToken;
        match res with
        | inl e => mret (Some e)
        | inr res => if (StatusCode res =? StatusOK)%Z then next else mret None
        end
      else next
  end.

(** The members of the group dedicated-admins, none when there is no such group. *)
Definition admin_group (c : KClient) : M W (error + Group) :=
  got ← client_get (O := Group) c "" "dedicated-admins";
  mret (match got with
        | inr g => inr g
        | inl e => if IsNotFound (Some e) then inr (mkGroup (named "" "") []) else inl e
        end).

Definition reconcileOpenshiftUsers (c : KClient) (m : Manager) (cfg : ThreeScale.t)
    : M W (StatusPhase * option error) :=
  match ReadRHSSO m with
  | inl e => mret (PhaseFailed, Some e)
  | inr rhssoConfig =>
      let ns := Config.GetNamespace rhssoConfig in
      accessToken ← GetAdminToken c cfg;
      match accessToken with
      | inl e => mret (PhaseFailed, Some e)
      | inr accessToken =>
      admin ← GetAdminNameAndPassFromSecret c cfg;
      match admin with
      | inl e => mret (PhaseInProgress, Some e)
      | inr (systemAdminUsername, _) =>
      kcu ← GetKeycloakUsers c ns;
      match kcu with
      | inl e => mret (PhaseFailed, Some e)
      | inr kcu =>
      tsUsers ← ts_GetUsers tsClient accessToken;
      match tsUsers with
      | inl e => mret (PhaseInProgress, Some e)
      | inr tsUsers =>
          '(added, (deleted, updated)) ← getUserDiff c m kcu tsUsers;
          modifies ResetThreeScaleUserAction;;
          delete_ts_users systemAdminUsername accessToken deleted;;
          update_ts_users c ns systemAdminUsername accessToken updated;;
          add_ts_users accessToken added;;
          '(phase, err) ← updateKeycloakUsersAttributeWith3ScaleUserId c m kcu accessToken;
          if is_some err || negb (phase =?s PhaseCompleted) then mret (phase, err)
          else
            openshiftAdminGroup ← admin_group c;
            match openshiftAdminGroup with
            | inl e => mret (PhaseInProgress, Some e)
            | inr openshiftAdminGroup =>
                newTsUsers ← ts_GetUsers tsClient accessToken;
                match newTsUsers with
                | inl e => mret (PhaseInProgress, Some e)
                | inr newTsUsers =>
                    err ← syncOpenshiftAdminMembership openshiftAdminGroup newTsUsers systemAdminUsername accessToken;
                    mret (match err with
                          | Some e => (PhaseInProgress, Some e)
                          | None => (PhaseCompleted, None)
                          end)
                end
            end
      end
      end
      end
      end
  end.
End users.

(** ** Facts *)

(** The attribute that is written is the one that is looked for. *)
Lemma written_id_found tsUser user kcUser :
  ku_User kcUser = with_3scale_id tsUser user → tsUserIDInKc tsUser kcUser = true.
Proof.
  intros Hu. unfold tsUserIDInKc. rewrite Hu. unfold with_3scale_id. cbn [kc_Attributes omap_get].
  rewrite map_get_insert. cbn. unfold EqualFold. by rewrite str_eqb_refl.
Qed.

Lemma kcContainsTs_true kcUsers u :
  kcContainsTs kcUsers u = true ↔ ud_Username u ∈ (λ k, to_lower (kc_UserName k)) <$> kcUsers.
Proof.
  unfold kcContainsTs. rewrite existsb_exists, list_elem_of_fmap. split.
  - intros (k & Hk & He%str_eqb_true). exists k. by rewrite list_elem_of_In.
  - intros (k & He & Hk). exists k. rewrite <- list_elem_of_In, He, str_eqb_refl. done.
Qed.
Lemma tsContainsKc_true tsUsers k :
  tsContainsKc tsUsers k = true ↔ to_lower (kc_UserName k) ∈ ud_Username <$> tsUsers.
Proof.
  unfold tsContainsKc. rewrite existsb_exists, list_elem_of_fmap. split.
  - intros (u & Hu & He%str_eqb_true). exists u. by rewrite list_elem_of_In.
  - intros (u & He & Hu). exists u. rewrite <- list_elem_of_In, He, str_eqb_refl. done.
Qed.

Lemma GetValidGeneratedUserName_nonempty u : (GetValidGeneratedUserName u =?s "") = false.
Proof. by apply str_eqb_false. Qed.

Section diff_facts.
Context {W : Type} `{Client W KeycloakUser} `{Yaml}.

(** A generated user was read, and what it says about the id. *)
Definition read_claim (c : KClient) (ns : string) (u : UserDetails) (k : KeycloakAPIUser) (claim : bool) : Prop :=
  ∃ (w w' : W) g, client_get c ns (GetValidGeneratedUserName k) w = (Done g, w')
    ∧ match g with inl _ => false | inr g => tsUserIDInKc u g end = claim.

Lemma claimed_by_ok c ns u kcUsers (w w' : W) r :
  claimed_by c ns u kcUsers w = (Done r, w') →
  (r = Some true ∧ List.Exists (λ k, read_claim c ns u k true) kcUsers)
  ∨ (r = Some false ∧ Forall (λ k, read_claim c ns u k false) kcUsers).
Proof.
  revert w. induction kcUsers as [|k kcUsers IH]; intros w Hc; cbn [claimed_by] in Hc.
  { rewrite run_ret in Hc. injection Hc as <- <-. auto. }
  rewrite GetValidGeneratedUserName_nonempty in Hc. apply bind_done_inv in Hc as (g & w1 & Hg & Hc).
  destruct g as [e|g]; [|destruct (tsUserIDInKc u g) eqn:E].
  2:{ rewrite run_ret in Hc. injection Hc as <- <-. left. split; [done|]. left. by exists w, w1, (inr g). }
  all: apply IH in Hc as [[-> Hc]|[-> Hc]]; [left; auto|right; split; [done|]; constructor; [|done]].
  - by exists w, w1, (inl e).
  - by exists w, w1, (inr g).
Qed.

Lemma split_deleted_ok c ns kcUsers l d u (w w' : W) deleted updated :
  split_deleted c ns kcUsers l d u w = (Done (deleted, updated), w') →
  ∃ d' u', deleted = d ++ d' ∧ updated = u ++ u' ∧ d' ++ u' ≡ₚ l
    ∧ Forall (λ x, List.Exists (λ k, read_claim c ns x k true) kcUsers) u'
    ∧ Forall (λ x, Forall (λ k, read_claim c ns x k false) kcUsers) d'.
Proof.
  revert d u w. induction l as [|x l IH]; intros d u w Hs; cbn [split_deleted] in Hs.
  { rewrite run_ret in Hs. injection Hs as <- <- <-. exists [], []. by rewrite !app_nil_r. }
  apply bind_done_inv in Hs as (r & w1 & Hc & Hs). apply claimed_by_ok in Hc as [[-> Hc]|[-> Hc]];
    apply IH in Hs as (d' & u' & -> & -> & Hp & Hu & Hd).
  - exists d', (x :: u'). rewrite <- app_assoc. split_and!; try done.
    + by rewrite <- Permutation_middle, Hp.
    + by constructor.
  - exists (x :: d'), u'. rewrite <- app_assoc. split_and!; try done.
    + cbn [app]. by rewrite Hp.
    + by constructor.
Qed.

(** C0: When the config of the single sign-on can be read, the users added to
    3scale are exactly the users of Keycloak whose lower-case name no user of
    3scale has; the users of 3scale that no user of Keycloak has the name of
    are, each once, deleted or updated: updated only when the generated user
    of a user of Keycloak carries their id, deleted only after the generated
    users of all users of Keycloak were asked for and none carried it. *)
Theorem getUserDiff_spec c m cfg kcUsers tsUsers (w w' : W) added deleted updated :
  ReadRHSSO m = inr cfg →
  getUserDiff c m kcUsers tsUsers w = (Done (added, (deleted, updated)), w') →
  added = filter (λ k, to_lower (kc_UserName k) ∉ ud_Username <$> tsUsers) kcUsers
  ∧ deleted ++ updated
      ≡ₚ filter (λ u, ud_Username u ∉ (λ k, to_lower (kc_UserName k)) <$> kcUsers) tsUsers
  ∧ (∀ u, u ∈ updated → ∃ k, k ∈ kcUsers ∧ read_claim c (Config.GetNamespace cfg) u k true)
  ∧ (∀ u k, u ∈ deleted → k ∈ kcUsers → read_claim c (Config.GetNamespace cfg) u k false).
Proof.
  intros Hm Hd. unfold getUserDiff in Hd. rewrite Hm in Hd.
  apply bind_done_inv in Hd as ([d u] & w1 & Hs & Hd). rewrite run_ret in Hd. injection Hd as <- <- <- <-.
  apply split_deleted_ok in Hs as (d' & u' & -> & -> & Hp & Hu & Hdel). cbn [app]. split_and!.
  - rewrite list_filter_bool. apply list_filter_iff. intros k.
    rewrite negb_true_iff, <- not_true_iff_false, tsContainsKc_true. done.
  - rewrite Hp, list_filter_bool. apply Permutation_refl'. apply list_filter_iff. intros x.
    rewrite negb_true_iff, <- not_true_iff_false, kcContainsTs_true. done.
  - intros x Hx. rewrite Forall_forall in Hu. apply Hu in Hx. apply List.Exists_exists in Hx as (k & Hk & ?).
    exists k. by rewrite list_elem_of_In.
  - intros x k Hx Hk. rewrite Forall_forall in Hdel. apply Hdel in Hx. rewrite Forall_forall in Hx. auto.
Qed.
End diff_facts.

Section user_facts.
Context {W T : Type} `{Prometheus W} `{ThreeScaleInterface W T}.
Context (tsClient : T).

(** The administrator of the seed secret is never deleted: the requests made
    are those for the other users of the list. *)
Lemma delete_ts_users_frame (R : W → W → Prop) `{!PreOrder R} admin token l :
  (∀ u, u ∈ l → ud_Username u ≠ admin → preserves R (ts_DeleteUser tsClient (ud_Id u) token)) →
  (∀ n name w, R w (SetThreeScaleUserAction n name "DELETE" w)) →
  preserves R (delete_ts_users tsClient admin token l).
Proof.
  intros Hd Hm. induction l as [|u l IH]; cbn [delete_ts_users]; [apply preserves_ret; exact _|].
  apply preserves_bind; [exact _| |intros _; apply IH; intros x Hx; apply Hd; by right].
  destruct (_ =?s _) eqn:E; cbn [negb]; [apply preserves_ret; exact _|]. apply str_eqb_false in E.
  apply preserves_bind; [exact _|apply Hd; [by left|done]|].
  intros r. apply preserves_modifies. intros w. apply Hm.
Qed.

(** Who is to become an administrator of 3scale. *)
Definition to_promote (g : Group) (admin : string) (u : UserDetails) : bool :=
  negb (ud_Username u =?s admin) && (userIsOpenshiftAdmin u g && negb (ud_Role u =?s adminRole)).
Definition answered (token : string) (u : UserDetails) (res : Response) (w' : W) : Prop :=
  ∃ w, ts_SetUserAsAdmin tsClient (ud_Id u) token w = (Done (inr res), w').

(** When the synchronisation of the administrators ends without an error,
    every user to be promoted was, or an answer other than 200 was the last. *)
Lemma syncOpenshiftAdminMembership_ok g l admin token (w w' : W) :
  syncOpenshiftAdminMembership tsClient g l admin token w = (Done None, w') →
  Forall (λ u, to_promote g admin u = true → ∃ res w', answered token u res w' ∧ StatusCode res = StatusOK) l
  ∨ ∃ u res, u ∈ l ∧ answered token u res w' ∧ StatusCode res ≠ StatusOK.
Proof.
  revert w. induction l as [|u l IH]; intros w Hs; cbn [syncOpenshiftAdminMembership] in Hs; [by left|].
  assert (∀ w1, syncOpenshiftAdminMembership tsClient g l admin token w1 = (Done None, w') →
    (to_promote g admin u = true → ∃ res w', answered token u res w' ∧ StatusCode res = StatusOK) →
    Forall (λ u, to_promote g admin u = true → ∃ res w', answered token u res w' ∧ StatusCode res = StatusOK) (u :: l)
    ∨ ∃ v res, v ∈ u :: l ∧ answered token v res w' ∧ StatusCode res ≠ StatusOK) as Hnext.
  { intros w1 H1 Hu. apply IH in H1 as [H1|(v & res & Hv & Hr)].
    - left. by constructor.
    - right. exists v, res. split; [by right|done]. }
  unfold to_promote at 1 in Hnext. destruct (_ =?s admin); cbn [negb andb] in Hnext; [by eapply Hnext|].
  destruct (_ && _); [|by eapply Hnext].
  apply bind_done_inv in Hs as ([e|res] & w1 & Hr & Hs); [by rewrite run_ret in Hs|].
  destruct (StatusCode res =? StatusOK)%Z eqn:Es.
  - apply Z.eqb_eq in Es. apply (Hnext _ Hs). intros _. exists res, w1. split; [by exists w|done].
  - apply Z.eqb_neq in Es. rewrite run_ret in Hs. injection Hs as <-. right. exists u, res.
    split_and!; [by left|by exists w|done].
Qed.
End user_facts.
