(* ===== verification/ThreeScaleTenants.v ===== *)
(** * Tenant accounts of 3scale

    The multitenant part of pkg/products/threescale/reconciler.go: one account
    of 3scale for each tenant, its authentication provider, its client of the
    single sign-on (pkg/resources/rhssoClient.go), its password and its link in
    the console; accounts without a tenant are deleted. *)

From stdpp Require Import base list strings gmap.
From Stdlib Require Import ZArith Lia.
From S2P Require Import Prelude Kube Api Resources Users Olm Quota Pods Keycloak RateLimit Cro Config Metrics.
From S2P Require Import RhssoCommon Rhsso ThreeScaleClient ThreeScaleUsers Password.

Definition rhssoIntegrationName : string := "rhsso".
Definition multitenantID : string := "rhoam-mt".

(** ** Clients of the single sign-on *)

Definition property_mapper (name attribute claim : string) (consent : bool) (text : string) : KeycloakProtocolMapper :=
  mkProtocolMapper name "openid-connect" "oidc-usermodel-property-mapper" consent text (list_to_map
    [("userinfo.token.claim", "true"); ("user.attribute", attribute); ("id.token.claim", "true");
     ("access.token.claim", "true"); ("claim.name", claim); ("jsonType.label", "String")]).
Definition protocolMappers : list KeycloakProtocolMapper :=
  [ property_mapper "given name" "firstName" "given_name" true "${givenName}";
    property_mapper "email verified" "emailVerified" "email_verified" true "${emailVerified}";
    mkProtocolMapper "full name" "openid-connect" "oidc-full-name-mapper" true "${fullName}"
      (list_to_map [("id.token.claim", "true"); ("access.token.claim", "true")]);
    property_mapper "family name" "lastName" "family_name" true "${familyName}";
    mkProtocolMapper "role list" "saml" "saml-role-list-mapper" false "${familyName}"
      (list_to_map [("single", "false"); ("attribute.nameformat", "Basic"); ("attribute.name", "Role")]);
    property_mapper "email" "email" "email" true "${email}";
    property_mapper "org_name" "org_name" "org_name" false "n.a." ].
Definition sso_client (id clientID secret rootURL : string) : KeycloakAPIClient :=
  mkAPIClient id clientID true secret "client-secret" [rootURL +:+ "/*"] true rootURL (Some true)
    (list_to_map [("view", true); ("configure", true); ("manage", true)]) protocolMappers.
Definition admin_url (i : RHMI) : string := "https://3scale-admin." +:+ RoutingSubdomain (Spec i).

(** getKeycloakClientSpec of rhssoClient.go, the client of the spec; its realm
    selector is GetInstanceLabels, getRHSSOInstanceLabels of that file. *)
Definition getKeycloakClientSpec (apiClientID clientID clientSecret clientURL : string) (installation : RHMI)
    : KeycloakAPIClient :=
  if negb (IsRHOAMMultitenant (Type_ (Spec installation)))
  then sso_client apiClientID clientID clientSecret (admin_url installation)
  else sso_client apiClientID clientID clientSecret clientURL.
Definition with_client (client : KeycloakAPIClient) (k : KeycloakClient) : KeycloakClient :=
  mkKeycloakClient (kcl_meta k) (Some GetInstanceLabels) (Some client) (kcl_Ready k).

Section sso.
Context {W : Type} `{Client W KeycloakClient} `{Yaml}.

(** The client as it is read first, and the id that the keycloak operator has
    given it. *)
Definition existing_sso_client (c : KClient) (ns clientID : string) : M W (KeycloakClient * string) :=
  got ← client_get (O := KeycloakClient) c ns clientID;
  match got with
  | inl _ => mret (named_client (named ns clientID), "")
  | inr kcClient => match kcl_Client kcClient with
                    | None => panic "nil pointer dereference"
                    | Some client => mret (kcClient, kac_ID client)
                    end
  end.
(** It is then made or updated as [spec] makes it of that id. *)
Definition reconcile_sso_client (c : KClient) (ns clientID : string) (spec : string → KeycloakAPIClient)
    : M W (option error) :=
  '(kcClient, id) ← existing_sso_client c ns clientID;
  '(_, (_, err)) ← CreateOrUpdate c kcClient (λ k, mret (with_client (spec id) k, None));
  mret ((λ e, ErrWrap "could not create/update 3scale keycloak client: " e) <$> err).

Definition CreateRHSSOClient (clientID clientSecret clientURL : string) (c : KClient) (m : Manager)
    (installation : RHMI) : M W (StatusPhase * option error) :=
  match ReadRHSSO m with
  | inl e => mret (PhaseFailed, Some e)
  | inr rhssoConfig =>
      let rhssoNamespace := Config.GetNamespace rhssoConfig in
      if (rhssoNamespace =?s "") || (RHSSOCommon.GetRealm (RHSSO.common rhssoConfig) =?s "")
      then mret (PhaseInProgress, None)
      else
        err ← reconcile_sso_client c rhssoNamespace clientID
          (λ id, getKeycloakClientSpec id clientID clientSecret clientURL installation);
        mret (match err with Some e => (PhaseFailed, Some e) | None => (PhaseCompleted, None) end)
  end.
End sso.

(** ** Accounts and tenants *)

Definition accountExists (tenant : string) (accounts : list AccountDetail) : bool :=
  existsb (λ acc, (tenant =?s acc_OrgName acc) && (acc_State acc =?s "approved")) accounts.
Definition setTenantMetrics {W} `{Prometheus W} (users : list MultiTenantUser) (accounts : list AccountDetail)
    (w : W) : W :=
  fold_left (λ w user, if accountExists (TenantName user) accounts then w
                       else SetNoActivated3ScaleTenantAccount (Username user) w)
    users (ResetNoActivated3ScaleTenantAccount w).

Definition new_account (tenant : string) : AccountDetail := mkAccount 0 tenant tenant "" "" [].
Definition has_account (accounts : list AccountDetail) (identity : MultiTenantUser) : bool :=
  existsb (λ account, acc_OrgName account =?s TenantName identity) accounts.
(** Each account with the email it is made with. *)
Definition getMTAccountsToBeCreated `{MailParser} (usersIdentity : list MultiTenantUser)
    (accounts : list AccountDetail) : list (AccountDetail * string) :=
  map (λ identity, (new_account (TenantName identity),
                    if negb (mt_Email identity =?s "") then mt_Email identity
                    else SetUserNameAsEmail (TenantName identity)))
    (List.filter (λ identity, negb (has_account accounts identity)) usersIdentity).
Definition getMTAccountsToBeDeleted (usersIdentity : list MultiTenantUser) (accounts : list AccountDetail)
    : list AccountDetail :=
  List.filter (λ account, negb (existsb (λ identity, acc_OrgName account =?s TenantName identity) usersIdentity))
    accounts.

(** Pages of 500 accounts; one more for accounts to be deleted. *)
Definition total_pages (totalIdentities : nat) : nat :=
  S (if 500 <? totalIdentities then totalIdentities / 500 else 1).
Definition own_account (ac : AccountDetail) : bool := negb (acc_Id ac =? 1)%Z && negb (acc_Id ac =? 2)%Z.

Definition access_token_secret : string := "mt-signupaccount-3scale-access-token".
Definition tenants_created_cm : string := "tenants-created".
Definition tenant_passwords_secret : string := "tenant-account-passwords".

Section stores.
Context {W : Type} `{Client W Secret} `{Client W ConfigMap} `{Rand W} `{Shuffle W}.

Definition getAccessTokenSecret (c : KClient) (namespace : string) : M W (error + Secret) :=
  got ← client_get (O := Secret) c namespace access_token_secret;
  mret (match got with
        | inr s => inr s
        | inl e => if IsNotFound (Some e) then inr (mkSecret (named namespace access_token_secret) (Some ∅))
                   else inl (ErrWrap "error getting access token secret: " e)
        end).
Definition getAccountsCreatedCM (c : KClient) (namespace : string) : M W (error + ConfigMap) :=
  got ← client_get (O := ConfigMap) c namespace tenants_created_cm;
  mret (match got with
        | inr s => inr s
        | inl e => if IsNotFound (Some e) then inr (mkConfigMap (named namespace tenants_created_cm) (Some ∅))
                   else inl (ErrWrap "error getting accounts created configmap: " e)
        end).

(** The secret of the passwords, empty when there is none. *)
Definition passwords_of (c : KClient) (ns : string) : M W (error + Secret) :=
  got ← client_get (O := Secret) c ns tenant_passwords_secret;
  mret (match got with
        | inr s => inr s
        | inl e => if IsNotFound (Some e) then inr (mkSecret (named ns tenant_passwords_secret) None) else inl e
        end).
Definition removeTenantAccountPassword (c : KClient) (ns : string) (account : AccountDetail) : M W (option error) :=
  s ← passwords_of c ns;
  match s with
  | inl e => mret (Some e)
  | inr s =>
      '(_, (_, err)) ← CreateOrUpdate c s (λ s,
        mret (with_sec_Data s (delete (acc_OrgName account) <$> sec_Data s), None));
      mret ((λ e, ErrWrap "error occurred while removing tenant Account password: " e) <$> err)
  end.
(** The mutate function assigns the password it has found or made to a
    variable of the caller. *)
Definition mutate_password (account : AccountDetail) (pw : string) (s : Secret)
    : M W (string * (Secret * option error)) :=
  let data := make_if_nil (sec_Data s) in
  '(pw, data) ← match data !! acc_Name account with
                | None => pw ← GenerateRandomPassword 20 2 2 2; mret (pw, <[acc_Name account := pw]> data)
                | Some pw => mret (pw, data)
                end;
  mret (pw, (with_sec_Data s (Some data),
             if pw =?s "" then Some (ErrStr "failed to generate password") else None)).
Definition getTenantAccountPassword (c : KClient) (ns : string) (account : AccountDetail) : M W (error + string) :=
  s ← passwords_of c ns;
  match s with
  | inl e => mret (inl e)
  | inr s =>
      '(pw, (_, (_, err))) ← CreateOrUpdateCapturing "" c s (mutate_password account);
      mret (match err with
            | Some e => inl (ErrWrap "error occurred while creating or updating tenant Account Secret: " e)
            | None => inr pw
            end)
  end.
End stores.

(** ** One account *)

(** What the loop does after an account: it goes on, drops the account so that
    it is made again, or stops. *)
Inductive account_result := NextAccount | DropAccount | StopWith (e : error).

Section tenants.
Context {W T : Type} `{Client W Secret} `{Client W ConfigMap} `{Client W KeycloakClient} `{Client W KeycloakUser}
  `{Client W ConsoleLink} `{Client W User} `{Client W Identity} `{Rand W} `{Shuffle W} `{Prometheus W} `{Yaml} `{MailParser}
  `{ThreeScaleInterface W T}.
Context (tsClient : T) (c : KClient) (m : Manager) (installation : RHMI).

Definition tenant_namespaces (username : string) : list string := [username +:+ "-stage"; username +:+ "-dev"].
Definition reconcileDashboardLink (username tenantLink : string) : M W (option error) :=
  '(_, (_, err)) ← CreateOrUpdate c (mkConsoleLink (named "" (username +:+ "-3scale")) None "" "" "" None)
    (λ cl, mret (mkConsoleLink (cl_meta cl) None "NamespaceDashboard" tenantLink "API Management"
                   (Some (tenant_namespaces username)), None));
  mret ((λ e, errorf_v "error reconciling console link: " (Some e)) <$> err).

Definition addSSOReadyAnnotationToUser (name : string) : M W (option error) :=
  got ← client_get (O := User) c "" name;
  match got with
  | inl e => mret (Some (errorf_v ("error getting user " +:+ name +:+ ": ") (Some e)))
  | inr user =>
      '(user, (_, err)) ← CreateOrUpdate c user (λ u,
        mret (set_meta (SetAnnotations (Some (<["ssoReady" := "yes"]> (make_if_nil (Annotations (meta u))))) (meta u)) u,
              None));
      mret ((λ e, errorf_v ("failed to add ssoReady annotation to user " +:+ Name (user_meta user) +:+ ": ") (Some e))
              <$> err)
  end.

Definition sso_namespace : string := NamespacePrefix (Spec installation) +:+ "rhsso".
Definition getKeycloakUserFromAccount (accountName : string) : M W (error + KeycloakUser) :=
  got ← client_list (O := KeycloakUser) c (InNamespace sso_namespace);
  mret (match got with
        | inl e => inl (errorf_v "failed to get list of KeycloakUsers, err: " (Some e))
        | inr l => match List.find (λ u, kc_UserName (ku_User u) =?s accountName) l with
                   | Some u => inr u
                   | None => inl (ErrStr ("failed to find the KeycloakUser for " +:+ accountName))
                   end
        end).
(** The first client with the name of the account somewhere in its name. *)
Definition getKeycloakClientFromAccount (accountName : string) : M W (error + KeycloakClient) :=
  got ← client_list (O := KeycloakClient) c (InNamespace sso_namespace);
  mret (match got with
        | inl e => inl (errorf_v "failed to get list of KeycloakClients, err: " (Some e))
        | inr l => match List.find (λ k, str_contains accountName (Name (kcl_meta k))) l with
                   | Some k => inr k
                   | None => inl (ErrStr ("failed to find the KeycloakClient for " +:+ accountName))
                   end
        end).

(** The client of a tenant, and the provider that leads to it. *)
Definition tenant_clientID (tenantID : string) : string := multitenantID +:+ "-" +:+ tenantID.
Definition tenant_integration (tenantID : string) : string :=
  rhssoIntegrationName +:+ "-" +:+ tenant_clientID tenantID.
Definition tenant_provider (tenantID secret site : string) : AuthProviderDetails :=
  mkAuthProviderDetails "keycloak" (tenant_integration tenantID) (tenant_clientID tenantID) (tenant_clientID tenantID)
    secret site true true.

(** The secret of a tenant's client; the secret is written back unchanged. *)
Definition tenant_client_secret (tenantID : string) : M W (error + string) :=
  let name := "tenant-oauth-client-secrets" in
  got ← client_get (O := Secret) c (Namespace (rhmi_meta installation)) name;
  match got with
  | inl e => mret (inl (ErrWrap ("could not find " +:+ name +:+ " Secret: ") e))
  | inr s =>
      match omap_lookup (sec_Data s) tenantID with
      | None => mret (inl (errorf_w ("could not find " +:+ tenantID +:+ " key in " +:+ name +:+ " Secret: ") None))
      | Some secret =>
          '(_, (_, err)) ← CreateOrUpdate c s (λ s, mret (set_meta (SetResourceVersion "" (meta s)) s, None));
          mret (match err with
                | Some e => inl (ErrWrap "error creating or updating RHSSO secret clients : " e)
                | None => inr secret
                end)
      end
  end.

Definition addAuthProviderToMTAccount (account : SignUpAccount) : M W (option error) :=
  let detail := su_AccountDetail account in
  let tenantID := acc_OrgName detail in
  isAdded ← ts_IsAuthProviderAdded tsClient (su_AccessToken account) (tenant_integration tenantID) detail;
  match isAdded with
  | inl e => mret (Some e)
  | inr true => mret None
  | inr false =>
      secret ← tenant_client_secret tenantID;
      match secret with
      | inl e => mret (Some e)
      | inr secret =>
          match ReadRHSSO m with
          | inl e => mret (Some (ErrWrap "error getting RHSSO config: " e))
          | inr rhssoConfig =>
              let site := Config.GetHost rhssoConfig +:+ "/auth/realms/"
                          +:+ RHSSOCommon.GetRealm (RHSSO.common rhssoConfig) in
              '(_, err) ← CreateRHSSOClient (tenant_clientID tenantID) secret (acc_AdminBaseURL detail) c m installation;
              match err with
              | Some e => mret (Some (ErrWrap "failed to create RHSSO client: " e))
              | None =>
                  err ← ts_AddAuthProviderToAccount tsClient (su_AccessToken account) detail
                          (tenant_provider tenantID secret site);
                  mret ((λ e, ErrWrap "failed to add auth provider to account " e) <$> err)
              end
          end
      end
  end.

(** Pending users are activated, each of them; whether one could not be. *)
Fixpoint activate_users (accessToken : string) (account : AccountDetail) (users : list XMLUserDetails) : M W bool :=
  match users with
  | [] => mret false
  | user :: users =>
      failed ← (if xu_State user =?s "pending"
                then err ← ts_ActivateUser tsClient accessToken (acc_Id account) (xu_Id user); mret (is_some err)
                else mret false);
      rest ← activate_users accessToken account users;
      mret (failed || rest)
  end.

Definition UserPhaseReconciled : string := "reconciled".
Definition mark_created (org : string) (cm : ConfigMap) : M W (ConfigMap * option error) :=
  match cm_Data cm with
  | None => panic "assignment to entry in nil map"
  | Some d => mret (set_meta (SetResourceVersion "" (meta cm)) (with_cm_Data cm (Some (<[org := "true"]> d))), None)
  end.

(** An account whose provider is there: when its user and its client of the
    single sign-on are ready, it is made known and remembered. *)
Definition finish_account (account : AccountDetail) (tenantsCreated : ConfigMap)
    : M W (ConfigMap * account_result) :=
  let org := acc_OrgName account in
  let next := mret (tenantsCreated, NextAccount) in
  kcUser ← getKeycloakUserFromAccount org;
  match kcUser with
  | inl _ => next
  | inr kcUser =>
      kcClient ← getKeycloakClientFromAccount org;
      match kcClient with
      | inl _ => next
      | inr kcClient =>
          if negb (ku_Phase kcUser =?s UserPhaseReconciled) || negb (kcl_Ready kcClient) then next
          else
            err ← addSSOReadyAnnotationToUser org;
            match err with
            | Some _ => next
            | None =>
                err ← reconcileDashboardLink org (acc_AdminBaseURL account);
                match err with
                | Some _ => next
                | None =>
                    '(tenantsCreated, (_, err)) ← CreateOrUpdate c tenantsCreated (mark_created org);
                    mret (tenantsCreated,
                          match err with
                          | Some e => StopWith (ErrWrap "error creating/updating tenant created CM: " e)
                          | None => NextAccount
                          end)
                end
            end
      end
  end.

Definition check_account (accessToken : string) (signUpAccountsSecret : Secret) (account : AccountDetail)
    (tenantsCreated : ConfigMap) : M W (ConfigMap * account_result) :=
  let org := acc_OrgName account in
  let next := mret (tenantsCreated, NextAccount) in
  if omap_get "" (cm_Data tenantsCreated) org =?s "true" then next
  else if acc_State account =?s "approved" then
    breakout ← activate_users accessToken account (acc_Users account);
    if (breakout : bool) then next
    else
      let val := omap_get "" (sec_Data signUpAccountsSecret) org in
      if val =?s "" then next
      else
        err ← addAuthProviderToMTAccount (mkSignUp account val);
        match err with
        | Some _ => next
        | None => finish_account account tenantsCreated
        end
  else if negb (acc_State account =?s "scheduled_for_deletion") then
    ts_DeleteTenant tsClient accessToken (acc_Id account);;
    mret (tenantsCreated, DropAccount)
  else next.

(** The loop over the accounts.  It reads the array the slice had at its
    start, [k] elements from [index] on; the variable allAccounts is the first
    [n] elements of the array, and an account is dropped by moving the ones
    after it down in the same array. *)
Fixpoint check_accounts (accessToken : string) (signup : Secret) (index k : nat) (a : list AccountDetail) (n : nat)
    (tenantsCreated : ConfigMap) : M W (ConfigMap * (error + list AccountDetail)) :=
  match k, a !! index with
  | S k, Some account =>
      '(tenantsCreated, r) ← check_account accessToken signup account tenantsCreated;
      match r with
      | NextAccount => check_accounts accessToken signup (S index) k a n tenantsCreated
      | StopWith e => mret (tenantsCreated, inl e)
      | DropAccount =>
          if n <=? index then panic "index out of range"
          else check_accounts accessToken signup (S index) k (Slices.shift_down a index n) (n - 1) tenantsCreated
      end
  | _, _ => mret (tenantsCreated, inr (take n a))
  end.

(** ** Listing, making and deleting *)

Fixpoint list_accounts (accessToken : string) (page : Z) (pages : nat) : M W (error + list AccountDetail) :=
  match pages with
  | O => mret (inr [])
  | S pages =>
      accounts ← ts_ListTenantAccounts tsClient accessToken page own_account;
      match accounts with
      | inl e => mret (inl e)
      | inr accounts =>
          rest ← list_accounts accessToken (page + 1) pages;
          mret (match rest with inl e => inl e | inr rest => inr (accounts ++ rest) end)
      end
  end.

Definition record_token (org token : string) (s : Secret) : M W (Secret * option error) :=
  match sec_Data s with
  | None => panic "assignment to entry in nil map"
  | Some d => mret (set_meta (SetResourceVersion "" (meta s)) (with_sec_Data s (Some (<[org := token]> d))), None)
  end.
Fixpoint create_accounts (ns accessToken : string) (signup : Secret) (l : list (AccountDetail * string))
    : M W (option error) :=
  match l with
  | [] => mret None
  | (account, email) :: l =>
      pw ← getTenantAccountPassword c ns account;
      match pw with
      | inl e => mret (Some e)
      | inr pw =>
          created ← ts_CreateTenant tsClient accessToken account pw email;
          match created with
          | inl e => mret (Some (ErrStr ("error creating tenant account: " +:+ acc_OrgName account
                                         +:+ ", Error=[" +:+ error_msg e +:+ "]")))
          | inr newSignupAccount =>
              '(signup, (_, err)) ← CreateOrUpdate c signup
                (record_token (acc_OrgName account) (su_AccessToken newSignupAccount));
              match err with
              | Some e => mret (Some (ErrWrap "error creating access token secret: " e))
              | None => create_accounts ns accessToken signup l
              end
          end
      end
  end.
Fixpoint remove_passwords (ns : string) (l : list AccountDetail) : M W (option error) :=
  match l with
  | [] => mret None
  | account :: l =>
      err ← removeTenantAccountPassword c ns account;
      match err with
      | Some e => mret (Some (ErrStr ("error deleting tenant account password: " +:+ acc_OrgName account
                                      +:+ ", Error=[" +:+ error_msg e +:+ "]")))
      | None => remove_passwords ns l
      end
  end.

(** From the accounts that are left on.  The tokens of deleted accounts leave
    the secret at hand only, which is not written again. *)
Definition close_accounts (ns accessToken : string) (signup : Secret) (identities : list MultiTenantUser)
    (allAccounts : list AccountDetail) : M W (StatusPhase * option error) :=
  let failed e := mret (PhaseFailed, Some e) in
  let accountsToBeCreated := getMTAccountsToBeCreated identities allAccounts in
  err ← create_accounts ns accessToken signup accountsToBeCreated;
  match err with
  | Some e => failed e
  | None =>
      let accountsToBeDeleted := getMTAccountsToBeDeleted identities allAccounts in
      err ← ts_DeleteTenants tsClient accessToken accountsToBeDeleted;
      match err with
      | Some e => failed e
      | None =>
          err ← remove_passwords ns accountsToBeDeleted;
          match err with
          | Some e => failed e
          | None => mret (match accountsToBeCreated with
                          | [] => (PhaseCompleted, None)
                          | _ :: _ => (PhaseInProgress, None)
                          end)
          end
      end
  end.

Definition reconcile3scaleMultiTenancy (cfg : ThreeScale.t) : M W (StatusPhase * option error) :=
  let ns := ThreeScale.GetNamespace cfg in
  let failed e := mret (PhaseFailed, Some e) in
  identities ← GetMultiTenantUsers c;
  match identities with
  | inl e => failed e
  | inr identities =>
  accessToken ← GetMasterToken c cfg;
  match accessToken with
  | inl e => failed e
  | inr accessToken =>
  allAccounts ← list_accounts accessToken 1 (total_pages (length identities));
  match allAccounts with
  | inl e => failed e
  | inr allAccounts =>
  modifies (setTenantMetrics identities allAccounts);;
  signup ← getAccessTokenSecret c ns;
  match signup with
  | inl e => failed e
  | inr signup =>
  tenantsCreated ← getAccountsCreatedCM c ns;
  match tenantsCreated with
  | inl e => failed e
  | inr tenantsCreated =>
      '(_, remaining) ← check_accounts accessToken signup 0 (length allAccounts) allAccounts (length allAccounts)
                     tenantsCreated;
      match remaining with
      | inl e => failed e
      | inr allAccounts => close_accounts ns accessToken signup identities allAccounts
      end
  end
  end
  end
  end
  end.
End tenants.

(** ** Facts *)

(** The pages that are listed have room for all tenants. *)
Lemma total_pages_enough n : n ≤ 500 * total_pages n ∧ (1 ≤ total_pages n).
Proof.
  unfold total_pages. destruct (Nat.ltb_spec 500 n); [|lia].
  pose proof (Nat.div_mod_eq n 500). pose proof (Nat.mod_upper_bound n 500). lia.
Qed.

Lemma has_account_true accounts i :
  has_account accounts i = true ↔ TenantName i ∈ acc_OrgName <$> accounts.
Proof.
  unfold has_account. rewrite existsb_exists, list_elem_of_fmap. split.
  - intros (a & Ha & He%str_eqb_true). exists a. by rewrite list_elem_of_In.
  - intros (a & He & Ha). exists a. rewrite <- list_elem_of_In, He, str_eqb_refl. done.
Qed.

Lemma to_be_created_names `{MailParser} identities accounts :
  (λ x, acc_OrgName x.1) <$> getMTAccountsToBeCreated identities accounts
  = TenantName <$> filter (λ i, TenantName i ∉ acc_OrgName <$> accounts) identities.
Proof.
  unfold getMTAccountsToBeCreated. rewrite list_filter_bool.
  erewrite (list_filter_iff _ (λ i, TenantName i ∉ acc_OrgName <$> accounts)).
  - change (map ?f ?l) with (f <$> l). rewrite <- list_fmap_compose. done.
  - intros i. cbn. rewrite negb_true_iff, <- not_true_iff_false, has_account_true. done.
Qed.

Lemma fmap_filter_names {A} (f : A → string) (l : list A) (ns : list string) n :
  n ∈ f <$> filter (λ x, f x ∉ ns) l ↔ n ∈ f <$> l ∧ n ∉ ns.
Proof.
  rewrite (list_elem_of_fmap f), (list_elem_of_fmap f). split.
  - intros (i & -> & [Hn Hi]%list_elem_of_filter). split; [by exists i|done].
  - intros [(i & -> & Hi) Hn]. exists i. split; [done|]. by apply list_elem_of_filter.
Qed.

Lemma to_be_created_elem `{MailParser} identities accounts n :
  n ∈ (λ x, acc_OrgName x.1) <$> getMTAccountsToBeCreated identities accounts
  ↔ n ∈ TenantName <$> identities ∧ n ∉ acc_OrgName <$> accounts.
Proof. rewrite to_be_created_names. by apply fmap_filter_names. Qed.
Lemma to_be_deleted_eq identities accounts :
  getMTAccountsToBeDeleted identities accounts
  = filter (λ a, acc_OrgName a ∉ TenantName <$> identities) accounts.
Proof.
  unfold getMTAccountsToBeDeleted. rewrite list_filter_bool. apply list_filter_iff.
  intros a. rewrite negb_true_iff, <- not_true_iff_false, existsb_exists, list_elem_of_fmap. f_equiv. split.
  - intros (i & Hi & He%str_eqb_true). exists i. by rewrite list_elem_of_In.
  - intros (i & He & Hi). exists i. rewrite <- list_elem_of_In, He, str_eqb_refl. done.
Qed.

(** C0: The accounts that are made are exactly one for each tenant without an
    account, the accounts that are deleted are exactly those of no tenant, so
    that none is made and deleted; with both done, the accounts are those of
    the tenants, and where tenants and accounts have distinct names so have the
    accounts after. *)
Theorem mt_accounts_spec `{MailParser} identities accounts :
  let tenants := TenantName <$> identities in
  let created := (λ x, acc_OrgName x.1) <$> getMTAccountsToBeCreated identities accounts in
  let deleted := acc_OrgName <$> getMTAccountsToBeDeleted identities accounts in
  let kept := filter (λ n, n ∉ deleted) (acc_OrgName <$> accounts) in
  (∀ n, n ∈ created ↔ n ∈ tenants ∧ n ∉ acc_OrgName <$> accounts)
  ∧ (∀ n, n ∈ deleted ↔ n ∈ acc_OrgName <$> accounts ∧ n ∉ tenants)
  ∧ (∀ n, n ∈ kept ++ created ↔ n ∈ tenants)
  ∧ (NoDup tenants → NoDup (acc_OrgName <$> accounts) → NoDup (kept ++ created)).
Proof.
  cbn zeta. assert (Hc := to_be_created_elem identities accounts).
  assert (∀ n, n ∈ acc_OrgName <$> getMTAccountsToBeDeleted identities accounts
    ↔ n ∈ acc_OrgName <$> accounts ∧ n ∉ TenantName <$> identities) as Hd.
  { intros n. rewrite to_be_deleted_eq. by apply fmap_filter_names. }
  split; [exact Hc|]. split; [exact Hd|]. split.
  - intros n. rewrite elem_of_app, list_elem_of_filter, Hc, Hd.
    destruct (decide (n ∈ acc_OrgName <$> accounts)), (decide (n ∈ TenantName <$> identities)); tauto.
  - intros Ht Ha. apply NoDup_app. split_and!.
    + by apply NoDup_filter.
    + intros n [_ Hn]%list_elem_of_filter [_ Hn']%Hc. done.
    + rewrite to_be_created_names. by apply NoDup_fmap_filter.
Qed.

Section account_facts.
Context {W T : Type} `{Client W Secret} `{Client W ConfigMap} `{Client W KeycloakClient} `{Client W KeycloakUser}
  `{Client W ConsoleLink} `{Client W User} `{Client W Identity} `{Rand W} `{Shuffle W} `{Prometheus W} `{Yaml} `{MailParser}
  `{ThreeScaleInterface W T}.
Context (tsClient : T) (c : KClient) (m : Manager) (installation : RHMI).

(** An account is remembered as created. *)
Definition known (tc : ConfigMap) (a : AccountDetail) : Prop := omap_get "" (cm_Data tc) (acc_OrgName a) = "true".
(** Neither approved nor on its way out. *)
Definition broken (a : AccountDetail) : Prop :=
  acc_State a ≠ "approved" ∧ acc_State a ≠ "scheduled_for_deletion".

Lemma activate_users_ok token a users (w w' : W) :
  activate_users tsClient token a users w = (Done false, w') →
  Forall (λ u, xu_State u = "pending" →
    ∃ w1 w2, ts_ActivateUser tsClient token (acc_Id a) (xu_Id u) w1 = (Done None, w2)) users.
Proof.
  revert w. induction users as [|u users IH]; intros w Ha; cbn [activate_users] in Ha; [done|].
  apply bind_done_inv in Ha as (failed & w1 & Hu & Ha). apply bind_done_inv in Ha as (rest & w2 & Hr & Ha).
  rewrite run_ret in Ha. injection Ha as Hb <-. apply orb_false_iff in Hb as [-> ->].
  constructor; [|by eapply IH]. intros Hp. rewrite (proj2 (str_eqb_true _ _) Hp) in Hu.
  apply bind_done_inv in Hu as ([e|] & w3 & Hu & Hs); rewrite run_ret in Hs; [done|]. by exists w, w3.
Qed.

(** C0: Checking an account changes what is remembered of the created ones
    only by recording this account, and only when it is approved, each of its
    pending users was activated, it has an access token, its authentication
    provider is there, its user of the single sign-on is reconciled and its
    client is ready, the user of the cluster was told so, and the link in the
    console was written, in this order. *)
Theorem check_account_records token signup account tc (w w' : W) tc' r :
  check_account tsClient c m installation token signup account tc w = (Done (tc', r), w') →
  tc' = tc
  ∨ acc_State account = "approved"
    ∧ Forall (λ u, xu_State u = "pending" →
        ∃ w1 w2, ts_ActivateUser tsClient token (acc_Id account) (xu_Id u) w1 = (Done None, w2)) (acc_Users account)
    ∧ let org := acc_OrgName account in
      let own := omap_get "" (sec_Data signup) org in
      own ≠ ""
      ∧ ∃ w1 w2 w3 w4 w5 w6 kcUser kcClient op err,
          addAuthProviderToMTAccount tsClient c m installation (mkSignUp account own) w1 = (Done None, w2)
          ∧ getKeycloakUserFromAccount c installation org w2 = (Done (inr kcUser), w3)
          ∧ ku_Phase kcUser = UserPhaseReconciled
          ∧ getKeycloakClientFromAccount c installation org w3 = (Done (inr kcClient), w4)
          ∧ kcl_Ready kcClient = true
          ∧ addSSOReadyAnnotationToUser c org w4 = (Done None, w5)
          ∧ reconcileDashboardLink c org (acc_AdminBaseURL account) w5 = (Done None, w6)
          ∧ CreateOrUpdate c tc (mark_created org) w6 = (Done (tc', (op, err)), w').
Proof.
  unfold check_account, finish_account. intros Hc.
  destruct (_ =?s "true"); [go_inv; auto|]. destruct (_ =?s "approved") eqn:Ea.
  2:{ destruct (negb _); go_inv; auto. }
  apply str_eqb_true in Ea.
  apply bind_done_inv in Hc as ([] & w0 & Hu & Hc); [go_inv; auto|]. apply activate_users_ok in Hu.
  destruct (_ =?s "") eqn:Eo; [go_inv; auto|]. apply str_eqb_false in Eo.
  apply bind_done_inv in Hc as ([e|] & w2 & Hp & Hc); [go_inv; auto|].
  apply bind_done_inv in Hc as ([e|ku] & w3 & Hku & Hc); [go_inv; auto|].
  apply bind_done_inv in Hc as ([e|kc] & w4 & Hkc & Hc); [go_inv; auto|].
  destruct (_ || _) eqn:En; [go_inv; auto|].
  apply orb_false_iff in En as [En1%negb_false_iff%str_eqb_true En2%negb_false_iff].
  apply bind_done_inv in Hc as ([e|] & w5 & Hs & Hc); [go_inv; auto|].
  apply bind_done_inv in Hc as ([e|] & w6 & Hl & Hc); [go_inv; auto|].
  apply bind_done_inv in Hc as ([tc1 [op err]] & w7 & Ht & Hc). rewrite run_ret in Hc. injection Hc as <- <- <-.
  right. split; [done|]. split; [done|]. split; [done|].
  by exists w0, w2, w3, w4, w5, w6, ku, kc, op, err.
Qed.

Lemma check_account_known token signup a tc (w : W) :
  known tc a ∨ acc_State a = "scheduled_for_deletion" →
  check_account tsClient c m installation token signup a tc w = (Done (tc, NextAccount), w).
Proof.
  intros Hk. unfold check_account. destruct (_ =?s "true") eqn:E; [done|].
  destruct Hk as [Hk|Hk]; [by apply str_eqb_false in E|]. by rewrite Hk.
Qed.
Lemma check_account_broken token signup a tc (w w' : W) tc' r :
  broken a → ¬ known tc a →
  check_account tsClient c m installation token signup a tc w = (Done (tc', r), w') → tc' = tc ∧ r = DropAccount.
Proof.
  intros [Hb1 Hb2] Hk Hc. unfold check_account in Hc.
  destruct (_ =?s "true") eqn:E; [by apply str_eqb_true in E|]. apply str_eqb_false in Hb1, Hb2.
  rewrite Hb1, Hb2 in Hc. cbn [negb] in Hc. by go_inv.
Qed.

Lemma shift_down_length {A} (a : list A) i n : i < n → n ≤ length a → length (Slices.shift_down a i n) = length a.
Proof. intros ??. unfold Slices.shift_down. rewrite !length_app, !length_take, !length_drop. lia. Qed.
Lemma shift_down_last {A} (a : list A) i n : i < n → n ≤ length a → last (Slices.shift_down a i n) = last a.
Proof.
  intros ??. unfold Slices.shift_down. rewrite app_assoc, last_app.
  assert (last (drop (n - 1) a) = last a) as ->.
  { rewrite <- (take_drop (n - 1) a) at 2. rewrite last_app.
    destruct (drop (n - 1) a) as [|x l] eqn:E; [|by destruct (last (x :: l)) eqn:El; [|apply last_None in El]].
    apply (f_equal length) in E. rewrite length_drop in E. cbn in E. lia. }
  destruct (last a) eqn:E; [done|]. apply last_None in E. subst a. cbn in *. lia.
Qed.
Lemma shift_down_subset {A} (a : list A) i n x : x ∈ Slices.shift_down a i n → x ∈ a.
Proof.
  assert (∀ k (l : list A), x ∈ take k l → x ∈ l) as Ht.
  { intros k l Hx. rewrite <- (take_drop k l). apply elem_of_app. by left. }
  assert (∀ k (l : list A), x ∈ drop k l → x ∈ l) as Hd.
  { intros k l Hx. rewrite <- (take_drop k l). apply elem_of_app. by right. }
  unfold Slices.shift_down. rewrite !elem_of_app. intros [Hx|[Hx|Hx]]; eauto.
Qed.

(** Every account is known, broken or on its way out, and the last one is
    broken. *)
Definition settled (tc : ConfigMap) (a : list AccountDetail) : Prop :=
  (∀ x, x ∈ a → known tc x ∨ acc_State x = "scheduled_for_deletion" ∨ broken x ∧ ¬ known tc x)
  ∧ ∃ z, last a = Some z ∧ broken z ∧ ¬ known tc z.

Lemma settled_shift tc a i n : i < n → n ≤ length a → settled tc a → settled tc (Slices.shift_down a i n).
Proof.
  intros Hi Hn [Ha Hz]. split.
  - intros x Hx. by eapply Ha, shift_down_subset.
  - by rewrite shift_down_last.
Qed.

(** Once an account was dropped, the broken last one is met outside of the slice. *)
Lemma dropped_then_panics token signup k : ∀ index a n tc (w w' : W) r,
  settled tc a → index + S k = length a → n ≤ length a - 1 →
  check_accounts tsClient c m installation token signup index (S k) a n tc w = (Done r, w') → False.
Proof.
  induction k as [|k IH]; intros index a n tc w w' r Hs Hk Hn Hc; cbn [check_accounts] in Hc;
    (destruct (a !! index) as [x|] eqn:Hx; [|apply lookup_ge_None in Hx; lia]).
  - destruct Hs as [_ (z & Hz & Hb & Hnk)].
    assert (x = z) as ->.
    { rewrite last_lookup in Hz. replace (Nat.pred (length a)) with index in Hz by lia. congruence. }
    apply bind_done_inv in Hc as ([tc' r'] & w1 & Hch & Hc).
    apply check_account_broken in Hch as [-> ->]; [|done..].
    destruct (Nat.leb_spec n index); [done|lia].
  - destruct (proj1 Hs x) as [Hkn|[Hsd|[Hb Hnk]]]; [by eapply list_elem_of_lookup_2|..].
    1,2: rewrite (bind_done _ _ _ _ _ (check_account_known token signup x tc w ltac:(tauto))) in Hc;
      by apply (IH (S index) a n tc w w' r) in Hc; [|done|lia|lia].
    apply bind_done_inv in Hc as ([tc' r'] & w1 & Hch & Hc).
    apply check_account_broken in Hch as [-> ->]; [|done..].
    destruct (Nat.leb_spec n index); [done|].
    eapply IH; [..|exact Hc]; [apply settled_shift; [lia|lia|done]|rewrite shift_down_length; lia..].
Qed.

(** C0: When two accounts are broken, the last one of them being the last
    account, and every approved account is known, the loop over the accounts
    never completes: it panics, because it removes elements from the slice
    it ranges over. *)
Theorem two_broken_accounts_panic token signup accounts tc i x (w w' : W) r :
  settled tc accounts → accounts !! i = Some x → i < length accounts - 1 → broken x → ¬ known tc x →
  check_accounts tsClient c m installation token signup 0 (length accounts) accounts (length accounts) tc w
    = (Done r, w') → False.
Proof.
  intros Hs Hx Hi Hb Hnk. cut (∀ k index a (w w' : W) r, settled tc a → a !! i = Some x → i < length a - 1 →
    index + k = length a → index ≤ i →
    check_accounts tsClient c m installation token signup index k a (length a) tc w = (Done r, w') → False).
  { intros Hgen Hc. apply (Hgen (length accounts) 0 accounts w w' r); (done || lia). }
  clear Hs Hx Hi w w' r accounts. intros k.
  induction k as [|k IH]; intros index a w w' r Hs Hx Hi Hk Hii Hc; [lia|].
  cbn [check_accounts] in Hc. destruct (a !! index) as [y|] eqn:Hy; [|apply lookup_ge_None in Hy; lia].
  assert (index = i → y = x) as Hxy by (intros ->; congruence).
  destruct (proj1 Hs y) as [Hkn|[Hsd|[Hby Hny]]]; [by eapply list_elem_of_lookup_2|..].
  1,2: rewrite (bind_done _ _ _ _ _ (check_account_known token signup y tc w ltac:(tauto))) in Hc;
    apply (IH (S index) a w w' r); try done; try lia;
    (destruct (decide (index = i)) as [E|]; [|lia]); specialize (Hxy E); subst y; by destruct Hb.
  apply bind_done_inv in Hc as ([tc' r'] & w1 & Hch & Hc).
  apply check_account_broken in Hch as [-> ->]; [|done..].
  destruct (Nat.leb_spec (length a) index); [lia|]. destruct k as [|k]; [lia|].
  eapply dropped_then_panics; [..|exact Hc]; [apply settled_shift; [lia|lia|done]|rewrite shift_down_length; lia..].
Qed.
End account_facts.

Section close_facts.
Context {W : Type} `{Client W Secret} `{Client W ConfigMap} `{Client W KeycloakClient} `{Client W KeycloakUser}
  `{Client W ConsoleLink} `{Client W User} `{Client W Identity} `{Rand W} `{Shuffle W} `{Prometheus W} `{Yaml} `{MailParser}
  `{HttpClient W} `{ThreeScaleCodec}.

(** C0: With the client of the 3scale API, the reconcile of the tenants
    completes only when every tenant of the cluster has one of the accounts
    that are left after the loop, and each request to delete an account
    without a tenant has failed: a deletion that succeeds makes the reconcile
    fail. *)
Theorem multitenancy_completed tsc c m i cfg (w w' : W) :
  reconcile3scaleMultiTenancy (T := threeScaleClient) tsc c m i cfg w = (Done (PhaseCompleted, None), w') →
  ∃ identities token signup tc tc' all accounts w1 w2 w3,
    GetMultiTenantUsers c w = (Done (inr identities), w1)
    ∧ check_accounts tsc c m i token signup 0 (length all) all (length all) tc w2 = (Done (tc', inr accounts), w3)
    ∧ (∀ n, n ∈ TenantName <$> identities → n ∈ acc_OrgName <$> accounts)
    ∧ Forall (λ a, acc_OrgName a ∉ TenantName <$> identities → deletion_failed (W := W) tsc token a) accounts.
Proof.
  unfold reconcile3scaleMultiTenancy. intros Hr.
  apply bind_done_inv in Hr as ([e|ids] & w1 & Hi & Hr); [by rewrite run_ret in Hr|].
  apply bind_done_inv in Hr as ([e|token] & w2 & _ & Hr); [by rewrite run_ret in Hr|].
  apply bind_done_inv in Hr as ([e|all] & w3 & _ & Hr); [by rewrite run_ret in Hr|].
  apply bind_done_inv in Hr as ([] & w4 & _ & Hr).
  apply bind_done_inv in Hr as ([e|signup] & w5 & _ & Hr); [by rewrite run_ret in Hr|].
  apply bind_done_inv in Hr as ([e|tc] & w6 & _ & Hr); [by rewrite run_ret in Hr|].
  apply bind_done_inv in Hr as ([tc' [e|accounts]] & w7 & Hc & Hr); [by rewrite run_ret in Hr|].
  exists ids, token, signup, tc, tc', all, accounts, w1, w6, w7. split; [done|]. split; [done|].
  unfold close_accounts in Hr.
  apply bind_done_inv in Hr as ([e|] & w8 & _ & Hr); [by rewrite run_ret in Hr|].
  apply bind_done_inv in Hr as ([e|] & w9 & Hd & Hr); [by rewrite run_ret in Hr|].
  apply bind_done_inv in Hr as ([e|] & w10 & _ & Hr); [by rewrite run_ret in Hr|].
  pose proof (to_be_created_elem ids accounts) as Hmade. rewrite run_ret in Hr.
  destruct (getMTAccountsToBeCreated ids accounts) as [|x l]; [|done]. split.
  - intros n Hn. destruct (decide (n ∈ acc_OrgName <$> accounts)) as [|Hna]; [done|].
    exfalso. by apply (not_elem_of_nil n), (proj2 (Hmade n) (conj Hn Hna)).
  - apply DeleteTenants_spec in Hd. apply Forall_forall. intros a Ha Hna.
    rewrite Forall_forall in Hd. apply Hd. rewrite to_be_deleted_eq. by apply list_elem_of_filter.
Qed.
End close_facts.
