(* ===== verification/ThreeScaleLimits.v ===== *)
(** * Rate limiting of 3scale

    pkg/products/threescale/envoyconfig.go and the part of reconciler.go that
    puts Envoy sidecars before apicast and the backend listener and writes
    their configurations. *)

From stdpp Require Import base list strings gmap.
From Stdlib Require Import ZArith Lia.
From S2P Require Import Prelude Kube Api Resources Olm Quota Pods RateLimit Cro Envoy Config.

Definition ApicastContainerAddress : string := "127.0.0.1".
Definition ApicastContainerPort : Z := 8444.
Definition ApicastClusterName : string := "apicast-ratelimit".
Definition ApicastNodeID : string := "apicast-ratelimit".
Definition ApicastEnvoyProxyAddress : string := "0.0.0.0".
Definition ApicastEnvoyProxyPort : Z := 8443.
Definition ApicastListenerName : string := "http".
Definition BackendContainerAddress : string := "127.0.0.1".
Definition BackendContainerPort : Z := 3000.
Definition BackendClusterName : string := "backend-listener-ratelimit".
Definition BackendEnvoyProxyAddress : string := "0.0.0.0".
Definition BackendEnvoyProxyPort : Z := 3001.
Definition BackendListenerName : string := "http".
Definition BackendNodeID : string := "backend-listener-ratelimit".
Definition BackendServiceName : string := "backend-listener-proxy".
Definition headerName : string := "host".
Definition tenantHeaderName : string := "tenant".
Definition safeRegex : string := ".*apicast.*".
Definition multitenantDescriptorKey : string := "per-mt-limit".
(** Of pkg/resources/ratelimit *)
Definition RateLimitClusterName : string := "ratelimit".
Definition TransportSocketName : string := "envoy.transport_sockets.tls".

(** ** Rate limits of a route *)

Definition stage_0 : string * proto := ("Stage", PNumber 0).
Definition tsRatelimitDescriptor : proto :=
  PMessage "route.RateLimit" [stage_0;
    ("Actions", PRepeated [PMessage "route.RateLimit_Action"
       [("GenericKey", PMessage "route.RateLimit_Action_GenericKey"
           [("DescriptorValue", PText RateLimitDescriptorValue)])]])].
Definition multiTenantRatelimitDescriptor : proto :=
  PMessage "route.RateLimit" [stage_0;
    ("Actions", PRepeated
       [PMessage "route.RateLimit_Action"
          [("HeaderValueMatch", PMessage "route.RateLimit_Action_HeaderValueMatch"
              [("DescriptorValue", PText multitenantDescriptorKey);
               ("Headers", PRepeated [PMessage "route.HeaderMatcher"
                  [("Name", PText headerName);
                   ("SafeRegexMatch", PMessage "matcher.RegexMatcher"
                      [("GoogleRe2", PMessage "" []); ("Regex", PText safeRegex)])]])])];
        PMessage "route.RateLimit_Action"
          [("RequestHeaders", PMessage "route.RateLimit_Action_RequestHeaders"
              [("HeaderName", PText tenantHeaderName); ("DescriptorKey", PText tenantHeaderName)])]])].
Definition getRateLimitsPerInstallType (installation : RHMI) : list proto :=
  if negb (IsRHOAMMultitenant (Type_ (Spec installation))) then [tsRatelimitDescriptor]
  else [tsRatelimitDescriptor; multiTenantRatelimitDescriptor].

(** ** Filters and hosts *)

Definition http_filter (name : string) (config : proto) : proto :=
  PMessage "hcm.HttpFilter" [("Name", PText name); ("TypedConfig", config)].
Definition ratelimit_filter_config : proto :=
  PMessage "ratelimit.RateLimit"
    [("Domain", PText RateLimitDomain); stage_0;
     ("RateLimitService", PMessage "ratelimit.RateLimitServiceConfig"
        [("GrpcService", PMessage "core.GrpcService"
            [("EnvoyGrpc", PMessage "core.GrpcService_EnvoyGrpc" [("ClusterName", PText RateLimitClusterName)]);
             ("Timeout", PDuration 2)]);
         ("TransportApiVersion", PEnum "V3")])].

Definition lua_tenant_header : string :=
  "function envoy_on_request(request_handle) host = request_handle:headers():get('Host') local headers = request_handle:headers() split_string = Split(host, '-apicast') headers:add('tenant', split_string[1]) end function Split(s, delimiter) result = {}; for match in (s..delimiter):gmatch('(.-)'..delimiter) do table.insert(result, match); end return result; end".
Definition lua_rejection_reason : string :=
  "function envoy_on_response(response_handle) rate_limit = response_handle:headers():get('x-envoy-ratelimited') if rate_limit ~= nil then response_handle:headers():add('3scale-rejection-reason', 'limits_exceeded') end end".

Definition virtual_host (clusterName : string) (rateLimits : list proto) : proto :=
  PMessage "route.VirtualHost"
    [("Name", PText clusterName); ("Domains", PRepeated [PText "*"]);
     ("Routes", PRepeated [PMessage "route.Route"
        [("Match", PMessage "route.RouteMatch" [("Prefix", PText "/")]);
         ("Route", PMessage "route.RouteAction"
            [("Cluster", PText clusterName); ("Timeout", PDuration 75);
             ("RateLimits", PRepeated rateLimits)])]])].
Definition getAPICastVirtualHosts (installation : RHMI) (clusterName : string) : list proto :=
  [virtual_host clusterName (getRateLimitsPerInstallType installation)].
Definition getBackendListenerVitualHosts (clusterName : string) : list proto :=
  [virtual_host clusterName [tsRatelimitDescriptor]].

Section filters.
Context `{Protobuf}.

Definition getAPICastHTTPFilters : error + list proto :=
  match anypb_New ratelimit_filter_config with
  | inl _ => inl (ErrStr "failed to convert rate limit filter for rate limiting")
  | inr ratelimitSerial =>
      match anypb_New (PMessage "router.Router" []) with
      | inl _ => inl (ErrStr "failed to convert router filter for Apicast ratelimit envoy configuration")
      | inr routerSerial => inr [http_filter "envoy.filters.http.ratelimit" ratelimitSerial;
                                 http_filter "envoy.filters.http.router" routerSerial]
      end
  end.
(** A filter that runs a script, before the filters of apicast. *)
Definition lua_filters (script : string) : error + list proto :=
  match anypb_New (PMessage "lua.Lua" [("InlineCode", PText script)]) with
  | inl e => inl (errorf_v "failed to convert HttpConnectionManager for rate limiting: " (Some e))
  | inr pbst =>
      match getAPICastHTTPFilters with
      | inl e => inl e
      | inr filters => inr (http_filter "envoy.filters.http.lua" pbst :: filters)
      end
  end.
Definition getMultitenantAPICastHTTPFilters : error + list proto := lua_filters lua_tenant_header.
Definition getBackendListenerHTTPFilters : error + list proto := lua_filters lua_rejection_reason.

Definition connection_manager (virtualHosts httpFilters : list proto) : proto :=
  PMessage "hcm.HttpConnectionManager"
    [("CodecType", PEnum "AUTO"); ("StatPrefix", PText "ingress_http");
     ("RouteConfig", PMessage "route.RouteConfiguration"
        [("Name", PText "local_route"); ("VirtualHosts", PRepeated virtualHosts)]);
     ("HttpProtocolOptions", PMessage "core.Http1ProtocolOptions" [("EnableTrailers", PFlag true)]);
     ("HttpFilters", PRepeated httpFilters)].
Definition getListenerResourceFilters (virtualHosts httpFilters : list proto) : error + list proto :=
  match anypb_New (connection_manager virtualHosts httpFilters) with
  | inl e => inl (errorf_v "failed to convert HttpConnectionManager for rate limiting: " (Some e))
  | inr pbst => inr [PMessage "listener.Filter"
                       [("Name", PText "envoy.filters.network.http_connection_manager"); ("TypedConfig", pbst)]]
  end.

(** ** The configurations *)

Definition http2 (extensionProtocol cluster : proto) : proto :=
  with_field "TypedExtensionProtocolOptions"
    (PMap [("envoy.extensions.upstreams.http.v3.HttpProtocolOptions", extensionProtocol)]) cluster.

Definition getRatelimitServicePort (rateLimitService : Service) : Z :=
  match List.find (λ p, sp_Name p =?s "grpc") (svc_Ports rateLimitService) with
  | Some p => sp_TargetPort p
  | None => 0
  end.

(** Clusters, listener and runtime of apicast, and the cluster of the rate
    limit service, which both configurations hold. *)
Record ProxyConfig := mkProxyConfig { px_clusters : list proto; px_listeners : list proto }.
Definition apicast_config (installation : RHMI) (ratelimitService : Service) : error + (proto * ProxyConfig) :=
  match CreateTypedExtensionProtocol with
  | inl e => inl e
  | inr extensionProtocol =>
      let ratelimitCluster := http2 extensionProtocol
        (CreateClusterResource (svc_ClusterIP ratelimitService) RateLimitClusterName
           (getRatelimitServicePort ratelimitService)) in
      match CreateApicastTransportSocketConfig with
      | inl e => inl e
      | inr apicastTLSContext =>
          let apicastCluster := with_field "TransportSocket"
            (PMessage "core.TransportSocket" [("Name", PText TransportSocketName); ("TypedConfig", apicastTLSContext)])
            (http2 extensionProtocol
               (CreateClusterResource ApicastContainerAddress ApicastClusterName ApicastContainerPort)) in
          match (if negb (IsRHOAMMultitenant (Type_ (Spec installation))) then getAPICastHTTPFilters
                 else getMultitenantAPICastHTTPFilters) with
          | inl e => inl e
          | inr apicastHTTPFilters =>
              match getListenerResourceFilters (getAPICastVirtualHosts installation ApicastClusterName)
                      apicastHTTPFilters with
              | inl e => inl e
              | inr apiCastFilters => inr (ratelimitCluster, mkProxyConfig [apicastCluster; ratelimitCluster]
                  [CreateListenerResource ApicastListenerName ApicastEnvoyProxyAddress ApicastEnvoyProxyPort
                     apiCastFilters])
              end
          end
      end
  end.
Definition backend_config (ratelimitCluster : proto) : error + ProxyConfig :=
  match getBackendListenerHTTPFilters with
  | inl e => inl e
  | inr backendHTTPFilters =>
      match getListenerResourceFilters (getBackendListenerVitualHosts BackendClusterName) backendHTTPFilters with
      | inl e => inl e
      | inr backendFilters => inr (mkProxyConfig
          [CreateClusterResource BackendContainerAddress BackendClusterName BackendContainerPort; ratelimitCluster]
          [CreateListenerResource BackendListenerName BackendEnvoyProxyAddress BackendEnvoyProxyPort backendFilters])
      end
  end.
End filters.

Section limits.
Context {W Q : Type} `{Client W EnvoyConfigCR} `{Client W Service} `{Client W Route} `{Protobuf} `{Yaml}
  `{SemanticDeepEqual (Deployment Q)} `{Client W (Deployment Q)}.
Context (c : KClient) (m : Manager) (cfg : ThreeScale.t) (installation : RHMI).

Definition ts_namespace : string := ThreeScale.GetNamespace cfg.

Definition getRateLimitServiceCR : M W (error + Service) :=
  match ReadMarin3r m with
  | inl e => mret (inl (errorf_v "failed to load marin3r config in 3scale reconciler: " (Some e)))
  | inr marin3rConfig =>
      got ← client_get (O := Service) c (Marin3r.GetNamespace marin3rConfig) "ratelimit";
      mret (match got with
            | inl e => inl (errorf_v "failed to rate limiting service: " (Some e))
            | inr s => inr s
            end)
  end.
Definition getBackendListenerRoute : M W (error + Route) :=
  got ← client_get (O := Route) c ts_namespace "backend";
  mret (match got with
        | inl e => inl (errorf_v "error getting the backend-listener external route: " (Some e))
        | inr r => inr r
        end).

Definition proxy_ports : list ServicePort :=
  [mkServicePort "http" "TCP" BackendEnvoyProxyPort BackendEnvoyProxyPort].
Definition mutate_proxy_service (s : Service) : Service :=
  let s := AddIntegreatlyOwnerAnnotations s installation in
  set_service (svc_meta s) proxy_ports (Some {["deployment" := "backend-listener"]}) (svc_Type s) s.
Definition route_to (name : string) (r : Route) : Route :=
  let t := default (mkRouteTarget "" "" "" "" "") (rt_Target r) in
  mkRouteTo (rt_meta r) (rt_Host r)
    (Some (mkRouteTarget (to_Kind t) name (to_Port t) (to_Termination t) (to_WildcardPolicy t))) (rt_Ingress r).
Definition createBackendListenerProxyService : M W (option error) :=
  '(service, (_, err)) ← CreateOrUpdate c (mkService (named ts_namespace BackendServiceName) [] None)
    (λ s, mret (mutate_proxy_service s, None));
  match err with
  | Some e => mret (Some e)
  | None =>
      backendRoute ← getBackendListenerRoute;
      match backendRoute with
      | inl e => mret (Some e)
      | inr backendRoute =>
          r ← client_update c (route_to (Name (svc_meta service)) backendRoute);
          mret (match r with
                | inl e => Some (errorf_v "error updating the backend-listener external route to the backend-listener proxy server: " (Some e))
                | inr _ => None
                end)
      end
  end.

(** Deployment, node, service, port name and port of each sidecar. *)
Definition sidecars : list (string * string * string * string * Z) :=
  [ ("apicast-staging", ApicastNodeID, "apicast-staging", "gateway", ApicastEnvoyProxyPort);
    ("apicast-production", ApicastNodeID, "apicast-production", "gateway", ApicastEnvoyProxyPort);
    ("backend-listener", BackendNodeID, BackendServiceName, "http", BackendEnvoyProxyPort) ].
(** A phase other than completed ends the loop. *)
Fixpoint create_sidecars (l : list (string * string * string * string * Z)) : M W (option (StatusPhase * option error)) :=
  match l with
  | [] => mret None
  | (deployment, node, service, portName, port) :: l =>
      '(phase, err) ← CreateEnvoyProxyContainer (Q := Q) c deployment ts_namespace node service portName port;
      if negb (phase =?s PhaseCompleted) then mret (Some (phase, err)) else create_sidecars l
  end.

Definition write_configs (ratelimitService : Service) : M W (StatusPhase * option error) :=
  let failed e := mret (PhaseFailed, Some e) in
  match apicast_config installation ratelimitService with
  | inl e => failed e
  | inr (ratelimitCluster, apicast) =>
      err ← CreateEnvoyConfig (mkEnvoyConfig ApicastClusterName ts_namespace ApicastNodeID) c
              (px_clusters apicast) (px_listeners apicast) CreateRuntimesResource installation;
      match err with
      | Some e => failed e
      | None =>
          match backend_config ratelimitCluster with
          | inl e => failed e
          | inr backend =>
              err ← CreateEnvoyConfig (mkEnvoyConfig BackendClusterName ts_namespace BackendNodeID) c
                      (px_clusters backend) (px_listeners backend) CreateRuntimesResource installation;
              match err with
              | Some e => failed e
              | None => mret (PhaseCompleted, None)
              end
          end
      end
  end.

Definition reconcileRatelimitingTo3scaleComponents : M W (StatusPhase * option error) :=
  err ← createBackendListenerProxyService;
  match err with
  | Some e => mret (PhaseInProgress, Some e)
  | None =>
      stopped ← create_sidecars sidecars;
      match stopped with
      | Some r => mret r
      | None =>
          ratelimitServiceCR ← getRateLimitServiceCR;
          match ratelimitServiceCR with
          | inl e => mret (PhaseFailed, Some e)
          | inr s => write_configs s
          end
      end
  end.
End limits.

(** ** Facts *)

(** What Envoy makes of a rate limit: a descriptor with one entry for each
    action, a generic key having the key generic_key and a header match
    header_match when they name none. *)
Definition action_entry (action : proto) : option (string * option string) :=
  match field "GenericKey" action, field "HeaderValueMatch" action, field "RequestHeaders" action with
  | Some a, _, _ => Some ("generic_key", text <$> field "DescriptorValue" a)
  | _, Some a, _ => Some ("header_match", text <$> field "DescriptorValue" a)
  | _, _, Some a => (λ k, (text k, None)) <$> field "DescriptorKey" a
  | _, _, _ => None
  end.
Definition descriptor (rateLimit : proto) : list (string * option string) :=
  match field "Actions" rateLimit with
  | Some (PRepeated l) => omap action_entry l
  | _ => []
  end.
(** The two ways a limit names the value of a key. *)
Definition condition_on (k v condition : string) : Prop :=
  condition = "descriptors[0]['" +:+ k +:+ "'] == " +:+ dquote +:+ v +:+ dquote
  ∨ condition = k +:+ " == " +:+ v.
(** A limit counts the requests with a descriptor: it is in the domain of the
    filter, each of its conditions is met by an entry of the descriptor, and
    each variable it counts by is one of the descriptor's keys. *)
Definition counts (l : limitadorLimit) (rateLimit : proto) : Prop :=
  (text <$> field "Domain" ratelimit_filter_config) = Some (l_Namespace l)
  ∧ l_Conditions l ≠ []
  ∧ Forall (λ cond, ∃ k v, (k, Some v) ∈ descriptor rateLimit ∧ condition_on k v cond) (l_Conditions l)
  ∧ Forall (λ x, x ∈ (descriptor rateLimit).*1) (l_Variables l).

Section limit_facts.
Context {W : Type} `{Client W ConfigMap}.

(** C0: The limits the rate limit service is given and the descriptors the
    sidecar of apicast sends are of one mind: for either type of installation
    the limits correspond, one to one and in order, to the rate limits of the
    route, each limit being in the domain of the filter, its conditions met by
    what the route sends and its variables sent. *)
Theorem limits_match_descriptors r c (w w' : W) limits :
  getLimitadorSetting r c w = (Done (inr limits), w') →
  Forall2 counts limits (getRateLimitsPerInstallType (rls_Installation r)).
Proof.
  assert (∀ mx s, counts (mkLimit RateLimitDomain mx s [slowpath_condition] []) tsRatelimitDescriptor) as Hslow.
  { intros mx s. split_and!; [done|done| |by constructor]. constructor; [|by constructor].
    exists "generic_key", RateLimitDescriptorValue. split; [by left|by left]. }
  unfold getLimitadorSetting, getRateLimitsPerInstallType, is_multitenant. intros Hg.
  apply bind_done_inv in Hg as ([e|l] & w1 & Hl & Hg); [by rewrite run_ret in Hg|].
  rewrite run_ret in Hg. injection Hg as <- <-. destruct (IsRHOAMMultitenant _); cbn [negb] in *.
  - unfold getMultitenantRHOAMLimitadorSetting in Hl.
    apply bind_done_inv in Hl as ([e|n] & w2 & _ & Hl); [by rewrite run_ret in Hl|].
    destruct (getUnitInSeconds _); rewrite run_ret in Hl; [done|]. injection Hl as <- <-.
    constructor; [done|]. constructor; [|done]. split_and!; [done|done| |].
    + constructor; [|by constructor]. exists "header_match", multitenantDescriptorKey. split; [by left|by right].
    + constructor; [|by constructor]. by right; left.
  - rewrite run_ret in Hl. injection Hl as Hl <-. unfold getRHOAMLimitadorSetting in Hl.
    destruct (getUnitInSeconds _); [done|]. injection Hl as <-. by constructor.
Qed.
End limit_facts.
