(* ===== verification/ThreeScaleApim.v ===== *)
(** * The API manager of 3scale

    The part of pkg/products/threescale/reconciler.go about the APIManager
    custom resource: blob storage and its credentials, the mutate function of
    the resource, the routes and their resync. *)

From stdpp Require Import base list strings gmap.
From Stdlib Require Import ZArith Lia.
From S2P Require Import Prelude Kube Api Resources Olm Quota Pods RateLimit Cro Config Cluster Backup PodDistribution.
From S2P Require Import RhssoCommon ThreeScaleUsers.

(** The reconciler: its config, the config manager and the installation. *)
Record TsState := mkTs { ts_cfg : ThreeScale.t; ts_mgr : Manager; ts_inst : RHMI }.
Definition ts_ns (s : TsState) : string := ThreeScale.GetNamespace (ts_cfg s).

Definition defaultInstallationNamespace : string := "3scale".
Definition apiManagerName : string := "3scale".
Definition apicastHTTPsPort : Z := 8444.
Definition s3CredentialsSecretName : string := "s3-credentials".
Definition stsS3CredentialsSecretName : string := "sts-s3-credentials".
Definition stsWebIdentityTokenFilePath : string := "/var/run/secrets/openshift/serviceaccount/token".
Definition stsTokenAudience : string := "openshift".
(** configv1.AWSPlatformType *)
Definition AWSPlatform : string := "AWS".

(** A pointer that is followed. *)
Definition deref {A} (p : option A) : outcome A :=
  match p with Some a => mret a | None => Panic "nil pointer dereference" end.

(** ** The custom resource

    Of apps.3scale.net: the fields the operator sets or reads. *)
Record ApiComponent (Q : Type) := mkApiComponent {
  ac_Spread : list TopologySpreadConstraint;
  ac_PriorityClassName : option string;
  ac_Replicas : option Z;
  ac_Affinity : option Affinity;
  ac_HTTPSPort : option Z;
  ac_Resources : option (ResourceRequirements Q);
}.
Arguments mkApiComponent {Q}.
Arguments ac_Spread {Q}.
Arguments ac_PriorityClassName {Q}.
Arguments ac_Replicas {Q}.
Arguments ac_Affinity {Q}.
Arguments ac_HTTPSPort {Q}.
Arguments ac_Resources {Q}.
Definition zero_ApiComponent {Q} : ApiComponent Q := mkApiComponent [] None None None None None.

(** SystemFileStorageSpec: the secret of its S3 spec, and the audience of its
    STS spec, which is enabled. *)
Record FileStorageSpec := mkFileStorage { fs_S3 : option string; fs_STS : option string }.
Record ApiApicast (Q : Type) := mkApiApicast {
  ap_Production : option (ApiComponent Q); ap_Staging : option (ApiComponent Q) }.
Record ApiBackend (Q : Type) := mkApiBackend {
  ab_Listener : option (ApiComponent Q); ab_Worker : option (ApiComponent Q); ab_Cron : option (ApiComponent Q) }.
(** Sphinx and database specs: whether they are there. *)
Record ApiSystem (Q : Type) := mkApiSystem {
  as_FileStorage : option FileStorageSpec; as_Sphinx : bool; as_Database : bool;
  as_App : option (ApiComponent Q); as_Sidekiq : option (ApiComponent Q); as_Searchd : option (ApiComponent Q);
  as_MemcachedSpread : list TopologySpreadConstraint; as_MemcachedPriority : option string }.
Record ApiZync (Q : Type) := mkApiZync {
  az_App : option (ApiComponent Q); az_Que : option (ApiComponent Q);
  az_DatabaseSpread : list TopologySpreadConstraint; az_DatabasePriority : option string }.
(** Redis and database of the system, Redis of the backend. *)
Record ExternalComponents := mkExternal {
  ex_System : option (option bool * option bool); ex_Backend : option (option bool) }.
Record APIManager (Q : Type) := mkAPIManager {
  am_meta : ObjectMeta;
  am_WildcardDomain : string;
  am_ResourceRequirementsEnabled : option bool;
  am_HighAvailability : option bool;
  am_PodDisruptionBudget : option bool;
  am_Monitoring : option bool;
  am_External : option ExternalComponents;
  am_Apicast : option (ApiApicast Q);
  am_Backend : option (ApiBackend Q);
  am_System : option (ApiSystem Q);
  am_Zync : option (ApiZync Q);
  (** starting, stopped and ready deployments of the status *)
  am_Starting : list string;
  am_Stopped : list string;
  am_Ready : list string;
}.
Arguments mkApiApicast {Q}.
Arguments ap_Production {Q}.
Arguments ap_Staging {Q}.
Arguments mkApiBackend {Q}.
Arguments ab_Listener {Q}.
Arguments ab_Worker {Q}.
Arguments ab_Cron {Q}.
Arguments mkApiSystem {Q}.
Arguments as_FileStorage {Q}.
Arguments as_Sphinx {Q}.
Arguments as_Database {Q}.
Arguments as_App {Q}.
Arguments as_Sidekiq {Q}.
Arguments as_Searchd {Q}.
Arguments as_MemcachedSpread {Q}.
Arguments as_MemcachedPriority {Q}.
Arguments mkApiZync {Q}.
Arguments az_App {Q}.
Arguments az_Que {Q}.
Arguments az_DatabaseSpread {Q}.
Arguments az_DatabasePriority {Q}.
Arguments mkAPIManager {Q}.
Arguments am_meta {Q}.
Arguments am_WildcardDomain {Q}.
Arguments am_ResourceRequirementsEnabled {Q}.
Arguments am_HighAvailability {Q}.
Arguments am_PodDisruptionBudget {Q}.
Arguments am_Monitoring {Q}.
Arguments am_External {Q}.
Arguments am_Apicast {Q}.
Arguments am_Backend {Q}.
Arguments am_System {Q}.
Arguments am_Zync {Q}.
Arguments am_Starting {Q}.
Arguments am_Stopped {Q}.
Arguments am_Ready {Q}.
Definition named_APIManager {Q} (m : ObjectMeta) : APIManager Q :=
  mkAPIManager m "" None None None None None None None None None [] [] [].
#[global] Instance APIManager_object {Q} `{SemanticDeepEqual (APIManager Q)} : K8sObject (APIManager Q) := {|
  meta := am_meta;
  set_meta m a := mkAPIManager m (am_WildcardDomain a) (am_ResourceRequirementsEnabled a) (am_HighAvailability a)
    (am_PodDisruptionBudget a) (am_Monitoring a) (am_External a) (am_Apicast a) (am_Backend a) (am_System a)
    (am_Zync a) (am_Starting a) (am_Stopped a) (am_Ready a);
  semantic_deep_equal := equality_DeepEqual;
|}.

(** ** Its mutate function *)

Section mutate.
Context {Q : Type} `{Quantity Q}.

(** A section that is missing is made with all its components; one that is
    there is left as it is. *)
Definition some_or {A} (new : A) (p : option A) : option A := Some (default new p).
Definition prepareNestedOptionalFields (a : APIManager Q) : APIManager Q :=
  let z := Some zero_ApiComponent in
  mkAPIManager (am_meta a) (am_WildcardDomain a) (am_ResourceRequirementsEnabled a) (am_HighAvailability a)
    (am_PodDisruptionBudget a) (am_Monitoring a)
    (some_or (mkExternal (Some (None, None)) (Some None)) (am_External a))
    (some_or (mkApiApicast z z) (am_Apicast a))
    (some_or (mkApiBackend z z z) (am_Backend a))
    (some_or (mkApiSystem (Some (mkFileStorage None None)) true true z z z [] None) (am_System a))
    (some_or (mkApiZync z z [] None) (am_Zync a))
    (am_Starting a) (am_Stopped a) (am_Ready a).

Definition zone_spread : list TopologySpreadConstraint :=
  [mkSpread 1 ZoneLabel "ScheduleAnyway" {["app" := "3scale-api-management"]}].

(** What a component is to have: replicas it has at least, labels of its pod
    affinity, an HTTPS port. *)
Record Wanted := mkWanted { want_replicas : option Z; want_affinity : option Affinity; want_https : option Z }.
Definition at_least (wanted have : option Z) : option Z :=
  match wanted, have with
  | Some n, Some k => if (k <? n)%Z then Some n else Some k
  | Some n, None => Some n
  | None, have => have
  end.
Definition settle_component (priority : string) (w : Wanted) (c : ApiComponent Q) : ApiComponent Q :=
  mkApiComponent zone_spread (Some priority) (at_least (want_replicas w) (ac_Replicas c))
    (match want_affinity w with Some a => Some a | None => ac_Affinity c end)
    (match want_https w with Some p => Some p | None => ac_HTTPSPort c end) (ac_Resources c).
Definition settle (priority : string) (w : Wanted) (c : option (ApiComponent Q)) : outcome (option (ApiComponent Q)) :=
  c ← deref c; mret (Some (settle_component priority w c)).

Definition component_labels (component element : string) : gmap string string :=
  list_to_map [("threescale_component", component); ("threescale_component_element", element)].

(** The assignments of the mutate function, up to Configure.  A component that
    is missing in a section that is there is a nil pointer. *)
Definition settle_apim (fss : FileStorageSpec) (required : bool) (replicas : gmap string Z) (i : RHMI)
    (a : APIManager Q) : outcome (APIManager Q) :=
  let a := prepareNestedOptionalFields a in
  let prio := PriorityClassName (Spec i) in
  let affinity component element := Some (SelectAntiAffinityForCluster required (component_labels component element)) in
  let want r component element https :=
    mkWanted (map_get 0%Z replicas <$> r) (affinity component element) https in
  apicast ← deref (am_Apicast a);
  backend ← deref (am_Backend a);
  system ← deref (am_System a);
  zync ← deref (am_Zync a);
  external ← deref (am_External a);
  staging ← settle prio (want (Some "apicastStage") "apicast" "staging" (Some apicastHTTPsPort)) (ap_Staging apicast);
  production ← settle prio (want None "apicast" "production" (Some apicastHTTPsPort)) (ap_Production apicast);
  cron ← settle prio (want (Some "backendCron") "backend" "cron" None) (ab_Cron backend);
  listener ← settle prio (want None "backend" "listener" None) (ab_Listener backend);
  worker ← settle prio (want None "backend" "worker" None) (ab_Worker backend);
  app ← settle prio (want (Some "systemApp") "system" "app" None) (as_App system);
  searchd ← settle prio (mkWanted None None None) (as_Searchd system);
  sidekiq ← settle prio (want (Some "systemSidekiq") "system" "sidekiq" None) (as_Sidekiq system);
  zyncApp ← settle prio (want (Some "zyncApp") "zync" "zync" None) (az_App zync);
  zyncQue ← settle prio (want (Some "zyncQue") "zync" "zync-que" None) (az_Que zync);
  externalSystem ← deref (ex_System external);
  externalBackend ← deref (ex_Backend external);
  mret (mkAPIManager (am_meta a)
    (if am_WildcardDomain a =?s "" then RoutingSubdomain (Spec i) else am_WildcardDomain a)
    (Some true) (Some true) (Some true) (Some false)
    (Some (mkExternal (Some (Some true, Some true)) (Some (Some true))))
    (Some (mkApiApicast production staging))
    (Some (mkApiBackend listener worker cron))
    (Some (mkApiSystem (Some fss) (as_Sphinx system) (as_Database system) app sidekiq searchd zone_spread (Some prio)))
    (Some (mkApiZync zyncApp zyncQue zone_spread (Some prio)))
    (am_Starting a) (am_Stopped a) (am_Ready a)).

(** Configure of the quota on an API manager. *)
Definition to_component (c : ApiComponent Q) : Component Q := mkComponent (ac_Replicas c) (ac_Resources c).
Definition from_component (old : option (ApiComponent Q)) (c : Component Q) : ApiComponent Q :=
  let o := default zero_ApiComponent old in
  mkApiComponent (ac_Spread o) (ac_PriorityClassName o) (comp_Replicas c) (ac_Affinity o) (ac_HTTPSPort o)
    (comp_Resources c).
Definition Configure_apim (p : QuotaProductConfig Q) (a : APIManager Q) : outcome (APIManager Q * option error) :=
  '(o, err) ← Configure p (AnAPIManager (Name (am_meta a))
    ((λ x, mkApicast (to_component <$> ap_Production x) (to_component <$> ap_Staging x)) <$> am_Apicast a)
    ((λ x, mkBackend (to_component <$> ab_Listener x) (to_component <$> ab_Worker x)) <$> am_Backend a));
  match o with
  | AnAPIManager _ (Some apicast) (Some backend) =>
      let oldA := default (mkApiApicast None None) (am_Apicast a) in
      let oldB := default (mkApiBackend None None None) (am_Backend a) in
      mret (mkAPIManager (am_meta a) (am_WildcardDomain a) (am_ResourceRequirementsEnabled a) (am_HighAvailability a)
        (am_PodDisruptionBudget a) (am_Monitoring a) (am_External a)
        (Some (mkApiApicast (from_component (ap_Production oldA) <$> ProductionSpec apicast)
                            (from_component (ap_Staging oldA) <$> StagingSpec apicast)))
        (Some (mkApiBackend (from_component (ab_Listener oldB) <$> ListenerSpec backend)
                            (from_component (ab_Worker oldB) <$> WorkerSpec backend) (ab_Cron oldB)))
        (am_System a) (am_Zync a) (am_Starting a) (am_Stopped a) (am_Ready a), err)
  | _ => mret (a, err)
  end.

Definition mutate_apim `{SemanticDeepEqual (APIManager Q)} (fss : FileStorageSpec) (required : bool)
    (replicas : gmap string Z) (i : RHMI) (p : QuotaProductConfig Q) (a : APIManager Q)
    : outcome (APIManager Q * option error) :=
  a ← settle_apim fss required replicas i a;
  '(a, err) ← Configure_apim p a;
  mret (match err with
        | Some e => (a, Some e)
        | None => (AddIntegreatlyOwnerAnnotations a i, None)
        end).
End mutate.

(** ** Blob storage *)

Section storage.
Context {W : Type} `{Client W Secret} `{Client W BlobStorage} `{Client W CloudCredential} `{OsEnv W}.
Context (c : KClient).

Definition blob_storage_name (i : RHMI) : string := ThreeScaleBlobStoragePrefix +:+ Name (rhmi_meta i).
Definition reconcileBlobStorage (i : RHMI) : M W (StatusPhase * option error) :=
  let ns := Namespace (rhmi_meta i) in
  let name := blob_storage_name i in
  blobStorage ← croUtil_ReconcileBlobStorage c defaultInstallationNamespace (Type_ (Spec i)) TierProduction
    name ns name ns (λ cr, AddIntegreatlyOwnerAnnotations cr i);
  mret (match blobStorage with
        | inl e => (PhaseFailed, Some (ErrWrap "failed to reconcile blob storage request: " e))
        | inr b => if bs_Phase b =?s CroPhaseComplete then (PhaseCompleted, None) else (PhaseAwaitingComponents, None)
        end).

(** The keys of 3scale for the keys of the cloud resource operator. *)
Definition s3_key (key : string) : string :=
  if key =?s "credentialKeyID" then "AWS_ACCESS_KEY_ID"
  else if key =?s "credentialSecretKey" then "AWS_SECRET_ACCESS_KEY"
  else if key =?s "bucketName" then "AWS_BUCKET"
  else if key =?s "bucketRegion" then "AWS_REGION"
  else key.
(** A range over the data of the secret of the storage, in the order of the
    map; the data of the new secret must be there when there is any. *)
Definition copy_keys `{MapRange W} (keep : string → bool) (from : gmap string string)
    (to : option (gmap string string)) : M W (option (gmap string string)) :=
  keys ← reads (λ w, range_keys w (dom from));
  lift (fold_left (λ acc k, acc ← acc;
          if keep k then
            match acc, from !! k with
            | None, _ => Panic "assignment to entry in nil map"
            | Some d, Some v => mret (Some (<[s3_key k := v]> d))
            | Some d, None => mret (Some d)
            end
          else mret acc) keys (mret to)).
Definition is_bucket_key (k : string) : bool := (k =?s "bucketName") || (k =?s "bucketRegion").

Definition createStsS3Secret `{MapRange W} (ns : string) (credSec blobStorageSec : Secret) : M W (option error) :=
  stsSecret ← client_get (O := Secret) c ns stsS3CredentialsSecretName;
  match stsSecret with
  | inl e => mret (Some (ErrWrap "failed to get 3scale sts secret resource: " e))
  | inr stsSecret =>
      '(_, (_, err)) ← CreateOrUpdate c credSec (λ s,
        d ← copy_keys is_bucket_key (make_if_nil (sec_Data blobStorageSec)) (sec_Data s);
        match d with
        | None => panic "assignment to entry in nil map"
        | Some d => mret (with_sec_Data s (Some
            (<["AWS_WEB_IDENTITY_TOKEN_FILE" := stsWebIdentityTokenFilePath]>
             (<["AWS_ROLE_ARN" := omap_get "" (sec_Data stsSecret) "role_arn"]> d))), None)
        end);
      mret err
  end.

Definition getBlobStorageFileStorageSpec `{MapRange W} (s : TsState) (platformType : string)
    : M W (error + FileStorageSpec) :=
  let i := ts_inst s in
  let credSec := mkSecret (named (ts_ns s) s3CredentialsSecretName) (Some ∅) in
  let failed e := mret (inl (ErrWrap "failed to create or update blob storage aws credentials secret: " e)) in
  if negb (platformType =?s AWSPlatform) then failed (ErrStr ("unsupported cluster type: " +:+ platformType))
  else
    blobStorage ← client_get (O := BlobStorage) c (Namespace (rhmi_meta i)) (blob_storage_name i);
    match blobStorage with
    | inl e => mret (inl (ErrWrap "failed to get blob storage custom resource: " e))
    | inr blobStorage =>
    '(name, ns) ← lift (deref (bs_SecretRef blobStorage));
    blobStorageSec ← client_get (O := Secret) c ns name;
    match blobStorageSec with
    | inl e => mret (inl (ErrWrap "failed to get blob storage connection secret: " e))
    | inr blobStorageSec =>
    '(isSTS, err) ← IsClusterSTS c;
    match err with
    | Some e => mret (inl (ErrWrap "error checking STS mode: " e))
    | None =>
        err ← (if (isSTS : bool) then createStsS3Secret (ts_ns s) credSec blobStorageSec
               else
                 '(_, (_, err)) ← CreateOrUpdate c credSec (λ s,
                   d ← copy_keys (λ _, true) (make_if_nil (sec_Data blobStorageSec)) (sec_Data s);
                   mret (with_sec_Data s d, None));
                 mret err);
        match err with
        | Some e => failed e
        | None => mret (inr (mkFileStorage (Some s3CredentialsSecretName)
                               (if (isSTS : bool) then Some stsTokenAudience else None)))
        end
    end
    end
    end.
End storage.

(** ** Routes, pods and deployments *)

(** resources.PodExecutorInterface: stdout, stderr and an error. *)
Class PodExecutor (W : Type) := {
  ExecuteRemoteCommand : string → string → list string → M W (string * string * option error);
  ExecuteRemoteContainerCommand : string → string → string → list string → M W (string * string * option error);
}.

Definition any_route (r : Route) : bool := true.
Definition route_label : string := "zync.3scale.net/route-to".

Section deployments.
Context {W Q : Type} `{SemanticDeepEqual (Deployment Q)} `{Client W (Deployment Q)} `{Clock W}.

Definition restarted_at (time : string) (d : Deployment Q) : Deployment Q :=
  let t := dp_Template d in
  set_dp_Template (mkPodTemplateFull (pt_Labels t)
    (Some (<["kubernetes.io/restartedAt" := time]> (make_if_nil (pt_Annotations t)))) (pt_PriorityClassName t)
    (pt_Volumes t) (pt_Containers t) (pt_Affinity t) (pt_TopologySpreadConstraints t)) d.
Definition RolloutDeployment (c : KClient) (ns name : string) : M W (option error) :=
  got ← client_get (O := Deployment Q) c ns name;
  match got with
  | inl e => mret (Some e)
  | inr deployment =>
      t ← reads now;
      r ← client_update c (restarted_at (format_RFC3339 t) deployment);
      mret (match r with
            | inl e => Some (ErrWrap "failed to update deployment: " e)
            | inr _ => None
            end)
  end.
End deployments.

Section routes.
Context {W : Type} `{Client W Route} `{Client W Pod} `{PodExecutor W}.
Context (c : KClient).

(** The first of the routes with the label that the filter accepts. *)
Definition getThreescaleRoute (ns label : string) (filterFn : Route → bool) : M W (error + option Route) :=
  routes ← client_list (O := Route) c (mkListOptions (Some ns) [(route_label, label)]);
  mret (match routes with inl e => inl e | inr items => inr (List.find filterFn items) end).

Definition expectedRoutes : nat := 4.
Definition routesExist (ns : string) : M W (error + bool) :=
  routes ← client_list (O := Route) c (InNamespace ns);
  mret (match routes with inl e => inl e | inr items => inr (expectedRoutes <=? length items) end).

(** The first running pod of a deployment. *)
Definition running_pod (ns deployment : string) : M W (error + option Pod) :=
  pods ← client_list (O := Pod) c (mkListOptions (Some ns) [("deployment", deployment)]);
  mret (match pods with inl e => inl e | inr items => inr (List.find (λ p, pod_Phase p =?s "Running") items) end).
(** What a command is to be followed by: a command that cannot be executed is
    a failure without an error. *)
Definition after_command (done : StatusPhase) (run : M W (string * string * option error))
    : M W (StatusPhase * option error) :=
  '(_, stderr, err) ← run;
  mret (match err with
        | Some _ => (PhaseFailed, None)
        | None => if negb (stderr =?s "") then (PhaseFailed, Some (ErrStr stderr)) else (done, None)
        end).
Definition resyncRoutes (ns : string) : M W (StatusPhase * option error) :=
  pod ← running_pod ns "system-sidekiq";
  match pod with
  | inl e => mret (PhaseFailed, Some e)
  | inr None => mret (PhaseInProgress, None)
  | inr (Some pod) =>
      if Name (pod_meta pod) =?s "" then mret (PhaseInProgress, None)
      else after_command PhaseInProgress (ExecuteRemoteCommand ns (Name (pod_meta pod))
             ["/bin/bash"; "-c"; "bundle exec rake zync:resync:domains"])
  end.
End routes.

(** ** The components *)

Section components.
Context {W Q : Type} `{Client W Secret} `{Client W ConfigMap} `{Client W BlobStorage} `{Client W CloudCredential}
  `{SemanticDeepEqual (APIManager Q)} `{Client W (APIManager Q)} `{Client W Route} `{Client W Pod} `{PodExecutor W}
  `{Quantity Q} `{OsEnv W} `{MapRange W} `{Yaml}.

(** The deployments of the API manager are all ready. *)
Definition apim_ready (a : APIManager Q) : bool :=
  match am_Starting a, am_Stopped a, am_Ready a with [], [], _ :: _ => true | _, _, _ => false end.
Definition is_admin_route (r : Route) : bool := has_prefix "3scale-admin." (rt_Host r).

(** From the deployments being ready on: the host is that of the admin route,
    and the routes are resynced when there are too few. *)
Definition reconcile_routes (c : KClient) (s : TsState) : M W (TsState * (StatusPhase * option error)) :=
  route ← getThreescaleRoute c (ts_ns s) "system-provider" is_admin_route;
  match route with
  | inl e => mret (s, (PhaseFailed, Some e))
  | inr route =>
      '(s, err) ← match route with
        | None => mret (s, None)
        | Some r =>
            let cfg := ThreeScale.SetHost (ts_cfg s) ("https://" +:+ rt_Host r) in
            '(m, err) ← WriteConfig (ts_mgr s) cfg;
            mret (mkTs cfg m (ts_inst s), err)
        end;
      match err with
      | Some e => mret (s, (PhaseFailed, Some e))
      | None =>
          exist ← routesExist c (ts_ns s);
          match exist with
          | inl e => mret (s, (PhaseFailed, Some e))
          | inr true => mret (s, (PhaseCompleted, None))
          | inr false => r ← resyncRoutes c (ts_ns s); mret (s, r)
          end
      end
  end.

Definition reconcileComponents (c : KClient) (p : QuotaProductConfig Q) (platformType : string) (s : TsState)
    : M W (TsState * (StatusPhase * option error)) :=
  fss ← getBlobStorageFileStorageSpec c s platformType;
  match fss with
  | inl e => mret (s, (PhaseFailed, Some e))
  | inr fss =>
      got ← client_get (O := APIManager Q) c (ts_ns s) apiManagerName;
      match (match got with
             | inr a => inr a
             | inl e => if IsNotFound (Some e) then inr (named_APIManager (named (ts_ns s) apiManagerName)) else inl e
             end) with
      | inl e => mret (s, (PhaseFailed, Some e))
      | inr apim =>
          '(required, err) ← reads IsAntiAffinityRequired;
          let required := if is_some err then false else required in
          let replicas := ThreeScale.GetReplicasConfig (ts_inst s) in
          '(apim, (_, err)) ← CreateOrUpdate c apim
            (λ a, lift (mutate_apim fss required replicas (ts_inst s) p a));
          match err with
          | Some e => mret (s, (PhaseFailed, Some e))
          | None => if apim_ready apim then reconcile_routes c s else mret (s, (PhaseInProgress, None))
          end
      end
  end.
End components.
