(* ===== verification/ThreeScaleResources.v ===== *)
(** * Resources of 3scale

    The steps of pkg/products/threescale/reconciler.go about single resources
    of the product: secrets of mail and of databases, the config map of the
    service discovery, roles, console link, service monitor, subscription and
    deployments. *)

From stdpp Require Import base list strings gmap.
From Stdlib Require Import ZArith Lia.
From S2P Require Import Prelude Kube Api Resources Olm Quota Pods RateLimit Cro Config Cluster Alerts CloudAlerts.
From S2P Require Import Backup Marketplace Reconciler RhssoCommon Custom.
From S2P Require Import ThreeScaleApim.

(** ** Early returns *)

Definition early {W R A : Type} (m : M W (R + A)) (k : A → M W R) : M W R :=
  r ← m; match r with inl r => mret r | inr a => k a end.
Notation "x ←? m ; k" := (early m (λ x, k))
  (at level 20, m at level 100, k at level 200, right associativity) : go_scope.
Notation "' x ←? m ; k" := (early m (λ x : _, match x with x => k end))
  (at level 20, x pattern, m at level 100, k at level 200, right associativity) : go_scope.
(** The same within a part, which may stop the whole. *)
Definition within {W R A B : Type} (m : M W (R + A)) (k : A → M W (R + B)) : M W (R + B) :=
  r ← m; match r with inl r => mret (inl r) | inr a => k a end.
Notation "x ←! m ; k" := (within m (λ x, k))
  (at level 20, m at level 100, k at level 200, right associativity) : go_scope.

Definition PhaseResult : Type := StatusPhase * option error.
(** A call that must not fail: what it returns, or the phase that stops. *)
Definition must {W A : Type} (phase : StatusPhase) (what : error → error) (m : M W (error + A))
    : M W (PhaseResult + A) :=
  r ← m; mret (match r with inl e => inl (phase, Some (what e)) | inr a => inr a end).
Definition must_succeed {W : Type} (phase : StatusPhase) (what : error → error) (m : M W (option error))
    : M W (PhaseResult + unit) :=
  r ← m; mret (match r with Some e => inl (phase, Some (what e)) | None => inr () end).
(** A step of its own that must complete. *)
Definition must_complete {W : Type} (what : error → error) (m : M W PhaseResult) : M W (PhaseResult + unit) :=
  '(phase, err) ← m;
  mret (match err with
        | Some e => inl (PhaseFailed, Some (what e))
        | None => if phase =?s PhaseCompleted then inr () else inl (phase, None)
        end).
Definition must_be {W : Type} (b : bool) (r : PhaseResult) : M W (PhaseResult + unit) :=
  mret (if b then inr () else inl r).
Definition as_it_is (e : error) : error := e.
Definition done {W : Type} : M W PhaseResult := mret (PhaseCompleted, None).

Definition externalRedisSecretName : string := "system-redis".
Definition externalBackendRedisSecretName : string := "backend-redis".
Definition externalPostgresSecretName : string := "system-database".
Definition systemSeedSecretName : string := "system-seed".
Definition systemMasterApiCastSecretName : string := "system-master-apicast".
Definition systemAppDeploymentName : string := "system-app".

(** ** Secrets that are copied *)

Section secrets.
Context {W : Type} `{Client W Secret}.

Definition system_secrets : list string := [systemSeedSecretName; systemMasterApiCastSecretName].
(** A secret that is not there, or a conflict, is passed over. *)
Fixpoint restore_secrets (c : KClient) (from to : string) (names : list string) : M W PhaseResult :=
  match names with
  | [] => done
  | name :: names =>
      err ← CopySecret c name from name to;
      if is_some err && negb (IsNotFound err) && negb (has_reason Conflict err) then mret (PhaseFailed, err)
      else restore_secrets c from to names
  end.
Definition restoreSystemSecrets (c : KClient) (s : TsState) (installation : RHMI) : M W PhaseResult :=
  restore_secrets c (Namespace (rhmi_meta installation)) (ts_ns s) system_secrets.
Fixpoint backup_secrets (c : KClient) (from to : string) (names : list string) : M W PhaseResult :=
  match names with
  | [] => done
  | name :: names =>
      _ ←? must_succeed PhaseFailed as_it_is (CopySecret c name from name to);
      backup_secrets c from to names
  end.
Definition backupSystemSecrets (c : KClient) (s : TsState) (installation : RHMI) : M W PhaseResult :=
  backup_secrets c (ts_ns s) (Namespace (rhmi_meta installation)) system_secrets.

Definition getOauthClientSecret (c : KClient) (s : TsState) : M W (error + string) :=
  let name := GetOauthClientsSecretName (ts_mgr s) in
  let product := ThreeScale.GetProductName (ts_cfg s) in
  got ← client_get (O := Secret) c (GetOperatorNamespace (ts_mgr s)) name;
  mret (match got with
        | inl e => inl (ErrWrap ("could not find " +:+ name +:+ " Secret: ") e)
        | inr sec => match omap_lookup (sec_Data sec) product with
                     | Some v => inr v
                     | None => inl (ErrStr ("could not find " +:+ product +:+ " key in " +:+ name +:+ " Secret"))
                     end
        end).
Definition getOAuthClientName (s : TsState) : string :=
  NamespacePrefix (Spec (ts_inst s)) +:+ ThreeScale.GetProductName (ts_cfg s).
End secrets.

(** ** Mail *)

(** Keys of the credentials, and of the secret of 3scale. *)
Definition smtp_keys : list (string * string) :=
  [("host", "address"); ("authentication", "authentication"); ("domain", "domain");
   ("openssl.verify.mode", "openssl.verify.mode"); ("password", "password"); ("port", "port");
   ("username", "username")].
(** The values that differ are copied. *)
Definition copy_smtp (cred : option (gmap string string)) (d : gmap string string) : gmap string string * bool :=
  fold_left (λ '(d, smtpUpdated) '(from, to),
    if omap_get "" cred from =?s map_get "" d to then (d, smtpUpdated)
    else (<[to := omap_get "" cred from]> d, true)) smtp_keys (d, false).

Section mail.
Context {W Q : Type} `{Client W Secret} `{SemanticDeepEqual (Deployment Q)} `{Client W (Deployment Q)} `{Clock W}.

Definition rollout_system (c : KClient) (ns : string) : M W unit :=
  RolloutDeployment (Q := Q) c ns systemAppDeploymentName;;
  RolloutDeployment (Q := Q) c ns "system-sidekiq";; mret tt.
(** The deployments are rolled out by the mutate function, before the secret
    is written; that a rollout fails is only logged. *)
Definition mutate_smtp (c : KClient) (ns : string) (i : RHMI) (cred : option (gmap string string)) (sec : Secret)
    : M W (Secret * option error) :=
  let sec := AddIntegreatlyOwnerAnnotations sec i in
  let d := make_if_nil (sec_Data sec) in
  if IsRHOAMMultitenant (Type_ (Spec i)) then mret (with_sec_Data sec (Some d), None)
  else
    let '(d, smtpUpdated) := copy_smtp cred d in
    (if smtpUpdated then rollout_system c ns else mret tt);;
    mret (with_sec_Data sec (Some d), None).
Definition smtp_secret_name (i : RHMI) : string :=
  if match Api.CustomSmtp (Status i) with Some s => smtp_Enabled s | None => false end
  then CustomSecret else SMTPSecret (Spec i).
Definition reconcileSMTPCredentials (c : KClient) (s : TsState) : M W PhaseResult :=
  let i := ts_inst s in
  credSec ← client_get (O := Secret) c (Namespace (rhmi_meta i)) (smtp_secret_name i);
  let cred := match credSec with inl _ => None | inr sec => sec_Data sec end in
  '(_, (_, err)) ← CreateOrUpdate c (mkSecret (named (ts_ns s) "system-smtp") (Some ∅))
    (mutate_smtp c (ts_ns s) i cred);
  _ ←? must_succeed PhaseFailed (ErrWrap "failed to create or update 3scale smtp configmap: ") (mret err);
  done.
End mail.

(** ** Databases *)

Definition isQuotaChanged (newQuota activeQuota : string) : bool :=
  if newQuota =?s "" then false else negb (newQuota =?s activeQuota).

Definition redis_uri (sec : Secret) (db : string) : string :=
  "redis://" +:+ omap_get "" (sec_Data sec) "uri" +:+ ":" +:+ omap_get "" (sec_Data sec) "port" +:+ "/" +:+ db.
(** The connection of the backend, and of the system, which has no keys of a
    message bus any more. *)
Definition backend_connection (cred : Secret) (d : gmap string string) : gmap string string :=
  <["REDIS_QUEUES_URL" := redis_uri cred "1"]> (<["REDIS_STORAGE_URL" := redis_uri cred "0"]> d).
Definition messageBusKeys : list string :=
  ["MESSAGE_BUS_URL"; "MESSAGE_BUS_NAMESPACE"; "MESSAGE_BUS_SENTINEL_HOSTS"; "MESSAGE_BUS_SENTINEL_ROLE"].
Definition system_connection (cred : Secret) (d : gmap string string) : gmap string string :=
  fold_left (λ d key, delete key d) messageBusKeys (<["URL" := redis_uri cred "1"]> d).

Definition postgres_url (useClusterStorage : string) (cred : Secret) : string :=
  let field := omap_get "" (sec_Data cred) in
  "postgresql://" +:+ field "username" +:+ ":" +:+ field "password" +:+ "@" +:+ field "host" +:+ ":"
  +:+ field "port" +:+ "/" +:+ field "database"
  +:+ (if to_lower useClusterStorage =?s "true" then "" else "?sslmode=require").
Definition postgres_connection (newURL : string) (cred : Secret) (d : gmap string string) : gmap string string :=
  <["DB_PASSWORD" := omap_get "" (sec_Data cred) "password"]>
    (<["DB_USER" := omap_get "" (sec_Data cred) "username"]> (<["URL" := newURL]> d)).
Definition url_changed (newURL : string) (d : gmap string string) : bool :=
  let existingURL := map_get "" d "URL" in negb (existingURL =?s "") && negb (existingURL =?s newURL).

Section datasources.
Context {W : Type} `{Client W Secret} `{Client W Redis} `{Client W Postgres} `{Client W PrometheusRule}
  `{Client W (Job unit)} `{TitleCase} `{OsEnv W}.
Context (c : KClient).

(** The mutate functions write to the data of the secret as it was read, which
    may be nil. *)
Definition data_of (sec : Secret) : M W (gmap string string) :=
  match sec_Data sec with
  | None => panic "assignment to entry in nil map"
  | Some d => mret d
  end.
Definition reconcile_connection (ns name : string) (fill : gmap string string → gmap string string)
    : M W (option error) :=
  '(_, (_, err)) ← CreateOrUpdate c (mkSecret (named ns name) (Some ∅))
    (λ sec, d ← data_of sec; mret (with_sec_Data sec (Some (fill d)), None));
  mret ((λ e, ErrWrap ("failed to create or update 3scale " +:+ name +:+ " connection secret: ") e) <$> err).
Definition connection_of (what : string) (ref : option (string * string)) : M W (PhaseResult + Secret) :=
  '(name, ns) ← lift (deref ref);
  must PhaseFailed (ErrWrap ("failed to get " +:+ what +:+ " credential secret: ")) (client_get (O := Secret) c ns name).

Definition deleteSystemAppPreJob (ns : string) : M W (option error) :=
  err ← client_delete c (mkJob (named ns "system-app-pre") () None []);
  mret (match err with
        | Some e => if IsNotFound (Some e) then None else Some (ErrWrap "failed to delete system-app-pre job: " e)
        | None => None
        end).

(** The resources of the cloud resource operator. *)
Definition request_redis (i : RHMI) (prefix what size : string) (quotaChange : bool) : M W (PhaseResult + Redis) :=
  let ns := Namespace (rhmi_meta i) in
  let name := prefix +:+ Name (rhmi_meta i) in
  engine ← RedisEngineForReconcile c name ns;
  match engine with
  | inl e => mret (inl (PhaseInProgress, Some (ErrWrap ("failed to read existing " +:+ what +:+ " redis CR: ") e)))
  | inr (engine, engineVersion) =>
      must PhaseFailed (ErrWrap ("failed to reconcile " +:+ what +:+ " redis request: "))
        (croUtil_ReconcileRedis c defaultInstallationNamespace (Type_ (Spec i)) TierProduction name ns name ns size
           engine engineVersion quotaChange quotaChange (λ cr, AddIntegreatlyOwnerAnnotations cr i))
  end.
Definition request_postgres (i : RHMI) : M W (PhaseResult + Postgres) :=
  let ns := Namespace (rhmi_meta i) in
  let name := ThreeScalePostgresPrefix +:+ Name (rhmi_meta i) in
  must PhaseFailed (ErrWrap "failed to reconcile postgres request: ")
    (croUtil_ReconcilePostgres c defaultInstallationNamespace (Type_ (Spec i)) TierProduction name ns name ns
       PostgresApplyImmediately (λ cr, AddIntegreatlyOwnerAnnotations cr i)).

(** Alerts and connection of the Redis of the backend, of the system, and of
    the database. *)
Definition connect_backend (s : TsState) (backendRedis : Redis) : M W (PhaseResult + unit) :=
  let i := ts_inst s in
  _ ←! must_complete (ErrWrap "failed to reconcile redis alerts: ") (ReconcileRedisAlerts c i backendRedis);
  _ ←! must_succeed PhaseFailed
    (λ e, errorf_v "failed to create backend redis prometheus Cpu usage high alerts for threescale: " (Some e))
    (CreateRedisCpuUsageAlerts c i backendRedis);
  _ ←! must_be (rd_Phase backendRedis =?s CroPhaseComplete) (PhaseAwaitingComponents, None);
  cred ←! connection_of "backend redis" (rd_SecretRef backendRedis);
  must_succeed PhaseFailed as_it_is
    (reconcile_connection (ts_ns s) externalBackendRedisSecretName (backend_connection cred)).
Definition connect_system (s : TsState) (systemRedis : Redis) : M W (PhaseResult + unit) :=
  _ ←! must_complete (ErrWrap "failed to reconcile redis alerts: ")
    (ReconcileRedisAlerts c (ts_inst s) systemRedis);
  _ ←! must_be (rd_Phase systemRedis =?s CroPhaseComplete) (PhaseAwaitingComponents, None);
  cred ←! connection_of "system redis" (rd_SecretRef systemRedis);
  must_succeed PhaseFailed as_it_is
    (reconcile_connection (ts_ns s) externalRedisSecretName (system_connection cred)).
(** Whether the URL changed is a variable of the caller's. *)
Definition mutate_postgres_secret (newURL : string) (cred : Secret) (urlChanged : bool) (sec : Secret)
    : M W (bool * (Secret * option error)) :=
  d ← data_of sec;
  mret (urlChanged || url_changed newURL d,
        (with_sec_Data sec (Some (postgres_connection newURL cred d)), None)).
Definition connect_postgres (s : TsState) (postgres : Postgres) : M W PhaseResult :=
  let i := ts_inst s in
  let productName := omap_get "" (Labels (pg_meta postgres)) "productName" in
  _ ←? must_complete (ErrWrap ("failed to reconcile postgres alerts for " +:+ productName +:+ ": "))
         (ReconcilePostgresAlerts c i postgres);
  cred ←? connection_of "postgres" (pg_SecretRef postgres);
  let newURL := postgres_url (UseClusterStorage (Spec i)) cred in
  '(urlChanged, (_, (_, err))) ← CreateOrUpdateCapturing false c
    (mkSecret (named (ts_ns s) externalPostgresSecretName) (Some ∅)) (mutate_postgres_secret newURL cred);
  _ ←? must_succeed PhaseFailed
         (ErrWrap ("failed to create or update 3scale " +:+ externalPostgresSecretName +:+ " connection secret: "))
         (mret err);
  (if urlChanged : bool then deleteSystemAppPreJob (ts_ns s) else mret None);;
  done.

Definition reconcileExternalDatasources (s : TsState) (activeQuota platformType : string) : M W PhaseResult :=
  let i := ts_inst s in
  let quotaChange := isQuotaChanged (Quota_ (Status i)) activeQuota in
  backendRedis ←? request_redis i ThreeScaleBackendRedisPrefix "backend"
    (ThreeScale.GetBackendRedisNodeSize activeQuota platformType) quotaChange;
  systemRedis ←? request_redis i ThreeScaleSystemRedisPrefix "system" "" false;
  postgres ←? request_postgres i;
  _ ←? must_be (pg_Phase postgres =?s CroPhaseComplete) (PhaseAwaitingCloudResources, None);
  _ ←? connect_backend s backendRedis;
  _ ←? connect_system s systemRedis;
  connect_postgres s postgres.
End datasources.

(** ** Service discovery *)

Definition newline_ (l : list string) : string := String.concat "" ((λ s, s +:+ newline) <$> l).
Definition discovery_config (clientName clientSecret : string) : string :=
  newline_ ["production:"; "  enabled: true"; "  authentication_method: oauth"; "  oauth_server_type: builtin";
            "  client_id: '" +:+ clientName +:+ "'"; "  client_secret: '" +:+ clientSecret +:+ "'"].

Section discovery.
Context {W Q : Type} `{Client W Secret} `{Client W ConfigMap} `{SemanticDeepEqual (Deployment Q)}
  `{Client W (Deployment Q)} `{Clock W} `{Yaml}.
Context (c : KClient).

(** A version that differs is put in the config, which is written. *)
Definition settle_version (have wanted : string) (set : ThreeScale.t → string → ThreeScale.t) (s : TsState)
    : M W (TsState * option error) :=
  if have =?s wanted then mret (s, None)
  else
    let cfg := set (ts_cfg s) wanted in
    '(m, err) ← WriteConfig (ts_mgr s) cfg;
    mret (mkTs cfg m (ts_inst s), (λ e, ErrWrap "error writing threescale config : " e) <$> err).
Definition mutate_discovery (s : TsState) (system : ConfigMap) : M W (ConfigMap * option error) :=
  clientSecret ← getOauthClientSecret c s;
  match clientSecret with
  | inl e => mret (system, Some e)
  | inr clientSecret =>
      match cm_Data system with
      | None => panic "assignment to entry in nil map"
      | Some d => mret (mkConfigMap (cm_meta system)
                          (Some (<["service_discovery.yml" := discovery_config (getOAuthClientName s) clientSecret]> d)),
                        None)
      end
  end.
(** The deployments are rolled out when the config map changed. *)
Definition write_discovery (s : TsState) : M W PhaseResult :=
  '(_, (status, err)) ← CreateOrUpdate c (mkConfigMap (named (ts_ns s) "system") None) (mutate_discovery s);
  _ ←? must_succeed PhaseInProgress as_it_is (mret err);
  match status with
  | OperationResultNone => done
  | _ =>
      _ ←? must_succeed PhaseInProgress as_it_is (RolloutDeployment (Q := Q) c (ts_ns s) systemAppDeploymentName);
      _ ←? must_succeed PhaseInProgress as_it_is (RolloutDeployment (Q := Q) c (ts_ns s) "system-sidekiq");
      done
  end.
Definition reconcileServiceDiscovery (s : TsState) : M W (TsState * PhaseResult) :=
  '(s, err) ← settle_version (ThreeScale.GetProductVersion (ts_cfg s)) Version3Scale
                ThreeScale.SetProductVersion s;
  match err with
  | Some e => mret (s, (PhaseFailed, Some e))
  | None =>
      '(s, err) ← settle_version (ThreeScale.GetOperatorVersion (ts_cfg s)) OperatorVersion3Scale
                    ThreeScale.SetOperatorVersion s;
      match err with
      | Some e => mret (s, (PhaseFailed, Some e))
      | None => r ← write_discovery s; mret (s, r)
      end
  end.
End discovery.

(** ** Roles, console link, monitoring *)

Definition threeScaleConsoleLink : string := "rhmi-3scale-console-link".
Definition threeScaleIcon : string :=
  "data:image/svg+xml;base64,PD94bWwgdmVyc2lvbj0iMS4wIiBlbmNvZGluZz0idXRmLTgiPz4KPCEtLSBHZW5lcmF0b3I6IEFkb2JlIElsbHVzdHJhdG9yIDI1LjIuMCwgU1ZHIEV4cG9ydCBQbHVnLUluIC4gU1ZHIFZlcnNpb246IDYuMDAgQnVpbGQgMCkgIC0tPgo8c3ZnIHZlcnNpb249IjEuMSIgaWQ9IkxheWVyXzEiIHhtbG5zPSJodHRwOi8vd3d3LnczLm9yZy8yMDAwL3N2ZyIgeG1sbnM6eGxpbms9Imh0dHA6Ly93d3cudzMub3JnLzE5OTkveGxpbmsiIHg9IjBweCIgeT0iMHB4IgoJIHZpZXdCb3g9IjAgMCAzNyAzNyIgc3R5bGU9ImVuYWJsZS1iYWNrZ3JvdW5kOm5ldyAwIDAgMzcgMzc7IiB4bWw6c3BhY2U9InByZXNlcnZlIj4KPHN0eWxlIHR5cGU9InRleHQvY3NzIj4KCS5zdDB7ZmlsbDojRUUwMDAwO30KCS5zdDF7ZmlsbDojRkZGRkZGO30KPC9zdHlsZT4KPGc+Cgk8cGF0aCBkPSJNMjcuNSwwLjVoLTE4Yy00Ljk3LDAtOSw0LjAzLTksOXYxOGMwLDQuOTcsNC4wMyw5LDksOWgxOGM0Ljk3LDAsOS00LjAzLDktOXYtMThDMzYuNSw0LjUzLDMyLjQ3LDAuNSwyNy41LDAuNUwyNy41LDAuNXoiCgkJLz4KCTxnPgoJCTxwYXRoIGNsYXNzPSJzdDAiIGQ9Ik0yNSwyMi4zN2MtMC45NSwwLTEuNzUsMC42My0yLjAyLDEuNWgtMS44NVYyMS41YzAtMC4zNS0wLjI4LTAuNjItMC42Mi0wLjYycy0wLjYyLDAuMjgtMC42MiwwLjYydjMKCQkJYzAsMC4zNSwwLjI4LDAuNjIsMC42MiwwLjYyaDIuNDhjMC4yNywwLjg3LDEuMDcsMS41LDIuMDIsMS41YzEuMTcsMCwyLjEyLTAuOTUsMi4xMi0yLjEyUzI2LjE3LDIyLjM3LDI1LDIyLjM3eiBNMjUsMjUuMzcKCQkJYy0wLjQ4LDAtMC44OC0wLjM5LTAuODgtMC44OHMwLjM5LTAuODgsMC44OC0wLjg4czAuODgsMC4zOSwwLjg4LDAuODhTMjUuNDgsMjUuMzcsMjUsMjUuMzd6Ii8+CgkJPHBhdGggY2xhc3M9InN0MCIgZD0iTTIwLjUsMTYuMTJjMC4zNCwwLDAuNjItMC4yOCwwLjYyLTAuNjJ2LTIuMzhoMS45MWMwLjMyLDAuNzcsMS4wOCwxLjMxLDEuOTYsMS4zMQoJCQljMS4xNywwLDIuMTItMC45NSwyLjEyLTIuMTJzLTAuOTUtMi4xMi0yLjEyLTIuMTJjLTEuMDIsMC0xLjg4LDAuNzMtMi4wOCwxLjY5SDIwLjVjLTAuMzQsMC0wLjYyLDAuMjgtMC42MiwwLjYydjMKCQkJQzE5Ljg3LDE1Ljg1LDIwLjE2LDE2LjEyLDIwLjUsMTYuMTJ6IE0yNSwxMS40M2MwLjQ4LDAsMC44OCwwLjM5LDAuODgsMC44OHMtMC4zOSwwLjg4LTAuODgsMC44OHMtMC44OC0wLjM5LTAuODgtMC44OAoJCQlTMjQuNTIsMTEuNDMsMjUsMTEuNDN6Ii8+CgkJPHBhdGggY2xhc3M9InN0MCIgZD0iTTEyLjEyLDE5Ljk2di0wLjg0aDIuMzhjMC4zNCwwLDAuNjItMC4yOCwwLjYyLTAuNjJzLTAuMjgtMC42Mi0wLjYyLTAuNjJoLTIuMzh2LTAuOTEKCQkJYzAtMC4zNS0wLjI4LTAuNjItMC42Mi0wLjYyaC0zYy0wLjM0LDAtMC42MiwwLjI4LTAuNjIsMC42MnYzYzAsMC4zNSwwLjI4LDAuNjIsMC42MiwwLjYyaDNDMTEuODQsMjAuNTksMTIuMTIsMjAuMzEsMTIuMTIsMTkuOTYKCQkJeiBNMTAuODcsMTkuMzRIOS4xMnYtMS43NWgxLjc1VjE5LjM0eiIvPgoJCTxwYXRoIGNsYXNzPSJzdDAiIGQ9Ik0yOC41LDE2LjM0aC0zYy0wLjM0LDAtMC42MiwwLjI4LTAuNjIsMC42MnYwLjkxSDIyLjVjLTAuMzQsMC0wLjYyLDAuMjgtMC42MiwwLjYyczAuMjgsMC42MiwwLjYyLDAuNjJoMi4zOAoJCQl2MC44NGMwLDAuMzUsMC4yOCwwLjYyLDAuNjIsMC42MmgzYzAuMzQsMCwwLjYyLTAuMjgsMC42Mi0wLjYydi0zQzI5LjEyLDE2LjYyLDI4Ljg0LDE2LjM0LDI4LjUsMTYuMzR6IE0yNy44NywxOS4zNGgtMS43NXYtMS43NQoJCQloMS43NVYxOS4zNHoiLz4KCQk8cGF0aCBjbGFzcz0ic3QwIiBkPSJNMTYuNSwyMC44N2MtMC4zNCwwLTAuNjMsMC4yOC0wLjYzLDAuNjJ2Mi4zOGgtMS44NWMtMC4yNy0wLjg3LTEuMDctMS41LTIuMDItMS41CgkJCWMtMS4xNywwLTIuMTIsMC45NS0yLjEyLDIuMTJzMC45NSwyLjEyLDIuMTIsMi4xMmMwLjk1LDAsMS43NS0wLjYzLDIuMDItMS41aDIuNDhjMC4zNCwwLDAuNjItMC4yOCwwLjYyLTAuNjJ2LTMKCQkJQzE3LjEyLDIxLjE1LDE2Ljg0LDIwLjg3LDE2LjUsMjAuODd6IE0xMiwyNS4zN2MtMC40OCwwLTAuODgtMC4zOS0wLjg4LTAuODhzMC4zOS0wLjg4LDAuODgtMC44OHMwLjg4LDAuMzksMC44OCwwLjg4CgkJCVMxMi40OCwyNS4zNywxMiwyNS4zN3oiLz4KCQk8cGF0aCBjbGFzcz0ic3QwIiBkPSJNMTYuNSwxMS44N2gtMi40MmMtMC4yLTAuOTctMS4wNi0xLjY5LTIuMDgtMS42OWMtMS4xNywwLTIuMTIsMC45NS0yLjEyLDIuMTJzMC45NSwyLjEyLDIuMTIsMi4xMgoJCQljMC44OCwwLDEuNjQtMC41NCwxLjk2LTEuMzFoMS45MXYyLjM4YzAsMC4zNSwwLjI4LDAuNjIsMC42MywwLjYyczAuNjItMC4yOCwwLjYyLTAuNjJ2LTNDMTcuMTIsMTIuMTUsMTYuODQsMTEuODcsMTYuNSwxMS44N3oKCQkJIE0xMiwxMy4xOGMtMC40OCwwLTAuODgtMC4zOS0wLjg4LTAuODhzMC4zOS0wLjg4LDAuODgtMC44OHMwLjg4LDAuMzksMC44OCwwLjg4UzEyLjQ4LDEzLjE4LDEyLDEzLjE4eiIvPgoJPC9nPgoJPHBhdGggY2xhc3M9InN0MSIgZD0iTTE4LjUsMjIuNjJjLTIuMjcsMC00LjEzLTEuODUtNC4xMy00LjEyczEuODUtNC4xMiw0LjEzLTQuMTJzNC4xMiwxLjg1LDQuMTIsNC4xMlMyMC43NywyMi42MiwxOC41LDIyLjYyegoJCSBNMTguNSwxNS42MmMtMS41OCwwLTIuODgsMS4yOS0yLjg4LDIuODhzMS4yOSwyLjg4LDIuODgsMi44OHMyLjg4LTEuMjksMi44OC0yLjg4UzIwLjA4LDE1LjYyLDE4LjUsMTUuNjJ6Ii8+CjwvZz4KPC9zdmc+Cg==".

Section objects.
Context {W : Type} `{Client W Role} `{Client W RoleBinding} `{Client W ConsoleLink} `{Client W ServiceMonitor}.
Context (c : KClient).

Definition edit_routes : PolicyRule :=
  mkPolicyRule ["route.openshift.io"] ["routes"] ["get"; "update"; "list"; "watch"; "patch"] [].
(** The messages print the object as well, which is left out here. *)
Definition reconcileRouteEditRole (s : TsState) : M W PhaseResult :=
  let i := ts_inst s in
  '(role, (_, err)) ← CreateOrUpdate c (mkRole (named (ts_ns s) "edit-3scale-routes") [])
    (λ r, mret (mkRole (role_meta (AddIntegreatlyOwnerAnnotations r i)) [edit_routes], None));
  _ ←? must_succeed PhaseFailed (ErrWrap "failed reconciling edit routes role : ") (mret err);
  '(_, (_, err)) ← CreateOrUpdate c (mkRoleBinding (named (ts_ns s) "dedicated-admins-edit-routes") ("", "") [])
    (λ b, mret (mkRoleBinding (rb_meta (AddIntegreatlyOwnerAnnotations b i)) (Name (role_meta role), "Role")
                  [("dedicated-admins", "Group")], None));
  _ ←? must_succeed PhaseFailed (ErrWrap "failed reconciling service admin role binding : ") (mret err);
  done.

Definition empty_console_link : ConsoleLink := mkConsoleLink (named "" threeScaleConsoleLink) None "" "" "" None.
Definition reconcileConsoleLink (s : TsState) : M W PhaseResult :=
  '(_, (_, err)) ← CreateOrUpdate c empty_console_link (λ cl,
    mret (mkConsoleLink (cl_meta cl) (Some (threeScaleIcon, "OpenShift Managed Services")) "ApplicationMenu"
            (ThreeScale.GetHost (ts_cfg s) +:+ "/auth/rhsso/bounce") "API Management" None, None));
  _ ←? must_succeed PhaseFailed
         (λ e, errorf_v "error creating or updating 3Scale console link, " (Some e)) (mret err);
  done.
Definition deleteConsoleLink : M W PhaseResult :=
  err ← client_delete c empty_console_link;
  mret (match err with
        | Some e => if IsNotFound (Some e) then (PhaseCompleted, None)
                    else (PhaseFailed, Some (errorf_v "error removing 3Scale console link, " (Some e)))
        | None => (PhaseCompleted, None)
        end).

Definition reconcileServiceMonitor (namespace : string) : M W PhaseResult :=
  '(_, (_, err)) ← CreateOrUpdate c (mkServiceMonitor (named namespace "3scale-service-monitor") [] ∅) (λ sm,
    mret (mkServiceMonitor (SetLabels (Some {["monitoring-key" := "middleware"]}) (sm_meta sm))
            [("metrics", "metrics")] {["app" := "3scale-api-management"]}, None));
  _ ←? must_succeed PhaseFailed as_it_is (mret err);
  done.
End objects.

(** ** The subscription of the operator *)

Section subscription.
Context {W : Type} `{MarketplaceInterface W} `{ErrGroup W} `{Clock W} `{Client W InstallPlan} `{Client W Subscription}
  `{Client W ClusterServiceVersion} `{Client W (Snapshot PostgresSnapshotType)}
  `{Client W (Snapshot RedisSnapshotType)}.

Definition preUpgradeBackupExecutor (backup_fuel : nat) (installation : RHMI) : BackupExecutor W :=
  if negb (UseClusterStorage (Spec installation) =?s "false") then NoopBackupExecutor
  else
    let aws name kind := aws_PerformBackup backup_fuel (mkAWSBackup (Namespace (rhmi_meta installation)) name kind) in
    ConcurrentBackupExecutor
      [ aws "threescale-postgres-rhmi" PostgresSnapshotType;
        aws "threescale-backend-redis-rhmi" RedisSnapshotType;
        aws "threescale-redis-rhmi" RedisSnapshotType ].
Definition reconcileSubscription (backup_fuel : nat) (declaration : ProductDeclaration) (c : KClient)
    (installation rhmi : RHMI) (productNamespace operatorNamespace : string) : M W PhaseResult :=
  let '(target, prepared) := PrepareTarget declaration CatalogSourceName
    (mkTarget operatorNamespace ThreeScaleSubscriptionName "" "") in
  match prepared with
  | inl e => mret (PhaseFailed, Some e)
  | inr csr =>
      '(_, r) ← Reconciler.ReconcileSubscription target
        (if IsRHOAMMultitenant (Type_ (Spec rhmi)) then [productNamespace] else [])
        (preUpgradeBackupExecutor backup_fuel installation) c csr;
      mret r
  end.
End subscription.
