(* ===== verification/ThreeScalePortals.v ===== *)
(** * Deployments, mail addresses and portals of 3scale

    The steps of pkg/products/threescale/reconciler.go that look at what runs:
    deployments that are waited for, mail addresses in deployments, in a pod and
    in the tenants, the integration with the single sign-on, and the portals,
    which are pinged. *)

From stdpp Require Import base list strings gmap.
From Stdlib Require Import ZArith Lia.
From S2P Require Import Prelude Kube Api Resources Olm Quota Pods Keycloak RateLimit Cro Config Cluster Metrics Custom.
From S2P Require Import PodDistribution.
From S2P Require Import ThreeScaleClient ThreeScaleUsers ThreeScaleTenants ThreeScaleApim ThreeScaleResources.

(** ** Deployments *)

Definition threeScaleDeployments : list string :=
  ["apicast-production"; "apicast-staging"; "backend-cron"; "backend-listener"; "backend-worker"; "system-app";
   "system-memcache"; "system-sidekiq"; "system-searchd"; "zync"; "zync-database"; "zync-que"].

Definition ConditionTrue : string := "True".
Definition ConditionFalse : string := "False".
Definition condition_failed (st : DeploymentStatus) : bool := existsb (λ s, s =?s ConditionFalse) (ds_Conditions st).
(** A deployment without conditions is not waited for. *)
Definition rolling_out (st : DeploymentStatus) : bool :=
  existsb (λ s, negb (s =?s ConditionTrue) || (negb (ds_Replicas st =? ds_AvailableReplicas st)%Z
                || negb (ds_ReadyReplicas st =? ds_UpdatedReplicas st)%Z)) (ds_Conditions st).

(** The variable is added where it is missing. *)
Definition set_env (name value : string) (env : list EnvVar) : list EnvVar * bool :=
  if existsb (λ v, ev_Name v =?s name) env then
    (map (λ v, if ev_Name v =?s name then mkEnvVar name value else v) env,
     existsb (λ v, (ev_Name v =?s name) && negb (ev_Value v =?s value)) env)
  else (env ++ [mkEnvVar name value], true).

Section deployments.
Context {W Q : Type} `{Client W Secret} `{SemanticDeepEqual (Deployment Q)} `{Client W (Deployment Q)} `{Clock W}
  `{OsEnv W} `{Client W Pod} `{PodExecutor W}.

Fixpoint deployments_ready (c : KClient) (ns : string) (names : list string) : M W PhaseResult :=
  match names with
  | [] => done
  | name :: names =>
      deployment ←? must PhaseFailed as_it_is (client_get (O := Deployment Q) c ns name);
      let st := dp_Status deployment in
      if condition_failed st then
        _ ←? must_succeed PhaseFailed as_it_is (RolloutDeployment (Q := Q) c ns name);
        mret (PhaseCreatingComponents, None)
      else if rolling_out st then
        mret (PhaseInProgress,
              Some (ErrStr ("waiting for 3scale deployments " +:+ name +:+ " to become available")))
      else deployments_ready c ns names
  end.
Definition ensureDeploymentsReady (c : KClient) (productNamespace : string) : M W PhaseResult :=
  deployments_ready c productNamespace threeScaleDeployments.

Definition with_Env (env : list EnvVar) (ct : Container Q) : Container Q :=
  mkContainer (ct_Name ct) (ct_Image ct) (ct_VolumeMounts ct) (ct_Ports ct) env (ct_LivenessProbe ct)
    (ct_ReadinessProbe ct) (ct_Resources ct).
Definition with_Containers (l : list (Container Q)) (t : PodTemplate Q) : PodTemplate Q :=
  mkPodTemplateFull (pt_Labels t) (pt_Annotations t) (pt_PriorityClassName t) (pt_Volumes t) l (pt_Affinity t)
    (pt_TopologySpreadConstraints t).
Definition updateContainerSupportEmail (deployment : Deployment Q) (existingSMTPFromAddress envar : string)
    : Deployment Q * bool :=
  let t := dp_Template deployment in
  let set ct := set_env envar existingSMTPFromAddress (ct_Env ct) in
  (set_dp_Template (with_Containers (map (λ ct, with_Env (set ct).1 ct) (pt_Containers t)) t) deployment,
   existsb (λ ct, (set ct).2) (pt_Containers t)).
Definition updateSystemAppAddresses (deployment : Deployment Q) (value : string) : Deployment Q * bool :=
  updateContainerSupportEmail deployment value "SUPPORT_EMAIL".
Definition updateSystemSidekiqAddresses (deployment : Deployment Q) (value : string) : Deployment Q * bool :=
  let '(deployment, support) := updateContainerSupportEmail deployment value "SUPPORT_EMAIL" in
  let '(deployment, notification) := updateContainerSupportEmail deployment value "NOTIFICATION_EMAIL" in
  (deployment, support || notification).

Definition reconcileDeploymentEnvarEmailAddress (c : KClient) (s : TsState) (deploymentName : string)
    (updateFn : Deployment Q → string → Deployment Q * bool) : M W PhaseResult :=
  address ←? must PhaseFailed as_it_is (GetSMTPFromAddress c (Some (ts_inst s)));
  deployment ←? must PhaseFailed as_it_is (client_get (O := Deployment Q) c (ts_ns s) deploymentName);
  let '(deployment, updated) := updateFn deployment address in
  if (updated : bool) then
    _ ←? must PhaseFailed as_it_is (client_update c deployment);
    _ ←? must_succeed PhaseFailed as_it_is (RolloutDeployment (Q := Q) c (ts_ns s) deploymentName);
    done
  else done.

Definition set_master_email (fromAddress : string) : list string :=
  ["/bin/bash"; "-c"; "bundle exec rails runner " +:+ dquote +:+ "a=Account.find_by_master true; a.from_email = '"
    +:+ fromAddress +:+ "'; a.save;" +:+ dquote].
Definition syncInvitationEmail (c : KClient) (s : TsState) : M W PhaseResult :=
  fromAddress ←? must PhaseFailed as_it_is (GetSMTPFromAddress c (Some (ts_inst s)));
  pod ←? must PhaseFailed as_it_is (running_pod c (ts_ns s) systemAppDeploymentName);
  match pod with
  | None => mret (PhaseInProgress, None)
  | Some pod =>
      if Name (pod_meta pod) =?s "" then mret (PhaseInProgress, None)
      else after_command PhaseCompleted (ExecuteRemoteContainerCommand (ts_ns s) (Name (pod_meta pod))
             "system-master" (set_master_email fromAddress))
  end.
End deployments.

(** ** The annotation of the API manager

    The annotations are a map that the object shares only when there is one
    already. *)
Definition disable_service_reconciler : string := "apps.3scale.net/disable-apicast-service-reconciler".
Definition annotate_ports (m : ObjectMeta) : ObjectMeta :=
  SetAnnotations ((<[disable_service_reconciler := "true"]>) <$> Annotations m) m.

Section annotation.
Context {W Q : Type} `{SemanticDeepEqual (APIManager Q)} `{Client W (APIManager Q)}.

Definition reconcileRatelimitPortAnnotation (c : KClient) (s : TsState) : M W PhaseResult :=
  '(_, (_, err)) ← CreateOrUpdate c (named_APIManager (Q := Q) (named (ts_ns s) apiManagerName))
    (λ a, mret (set_meta (annotate_ports (meta a)) a, None));
  _ ←? must_succeed PhaseFailed as_it_is (mret err);
  done.
End annotation.

(** ** Mail addresses of the tenants *)

(** The porta client of 3scale: the admin portal of a host, which must make a
    URL, and the update of a tenant through the portal with a token, certificates
    checked or not. *)
Class PortaClient (W : Type) := {
  porta_AdminPortal : Type;
  porta_NewAdminPortal : string → string → Z → error + porta_AdminPortal;
  porta_UpdateTenant : porta_AdminPortal → string → bool → Z → gmap string string → M W (option error);
}.

Section mail.
Context {W T : Type} `{Client W Secret} `{Client W Route} `{OsEnv W} `{ThreeScaleInterface W T} `{PortaClient W}.
Context (tsClient : T) (c : KClient) (s : TsState).

(** The pages up to the first on which the filter leaves no account. *)
Fixpoint tenant_pages (token : string) (page : Z) (pages : nat) : M W (error + list AccountDetail) :=
  match pages with
  | O => mret (inr [])
  | S pages =>
      accounts ← ts_ListTenantAccounts tsClient token page own_account;
      match accounts with
      | inl e => mret (inl e)
      | inr [] => mret (inr [])
      | inr accounts =>
          rest ← tenant_pages token (page + 1) pages;
          mret (match rest with inl e => inl e | inr rest => inr (accounts ++ rest) end)
      end
  end.
Fixpoint update_tenants (portal : porta_AdminPortal) (token address : string) (accounts : list AccountDetail)
    : M W (option error) :=
  match accounts with
  | [] => mret None
  | account :: accounts =>
      err ← porta_UpdateTenant portal token (SelfSignedCerts (Spec (ts_inst s))) (acc_Id account)
              {["from_email" := address]};
      match err with Some e => mret (Some e) | None => update_tenants portal token address accounts end
  end.
Definition is_master_route (r : Route) : bool :=
  match omap_lookup (Labels (rt_meta r)) route_label with Some v => v =?s "system-master" | None => false end.

Definition reconcileTenantOutgoingEmailAddress (address : string) : M W (option error) :=
  masterAccessToken ← GetMasterToken c (ts_cfg s);
  match masterAccessToken with
  | inl e => mret (Some e)
  | inr token =>
      routes ← client_list (O := Route) c (InNamespace (ts_ns s));
      match routes with
      | inl e => mret (Some (errorf_v "failed to get 3scale route list during portaClient creation, error: " (Some e)))
      | inr routes =>
          match List.find is_master_route routes with
          | None => mret (Some (ErrStr "failed to get 3scale route during portaClient creation"))
          | Some admRoute =>
              match porta_NewAdminPortal "https" (rt_Host admRoute) 443 with
              | inl e => mret (Some (errorf_v "could not create admin portal during portaClient creation, error: " (Some e)))
              | inr adminPortal =>
                  accountList ← tenant_pages token 1 100;
                  match accountList with
                  | inl e => mret (Some e)
                  | inr accountList => update_tenants adminPortal token address accountList
                  end
              end
          end
      end
  end.

Definition reconcileOutgoingEmailAddress : M W PhaseResult :=
  address ←? must PhaseFailed as_it_is (GetSMTPFromAddress c (Some (ts_inst s)));
  accessToken ←? must PhaseInProgress as_it_is (GetAdminToken c (ts_cfg s));
  _ ←? must_succeed PhaseFailed as_it_is (reconcileTenantOutgoingEmailAddress address);
  _ ←? must PhaseFailed as_it_is (ts_SetFromEmailAddress tsClient address accessToken);
  done.
End mail.

(** ** The integration with the single sign-on *)

Definition clientID : string := "3scale".

Section integration.
Context {W T : Type} `{Client W Secret} `{Client W KeycloakClient} `{OsEnv W} `{Yaml} `{ThreeScaleInterface W T}.
Context (tsClient : T) (c : KClient).

Definition rhsso_provider (clientSecret site : string) : gmap string string :=
  list_to_map [("kind", "keycloak"); ("name", rhssoIntegrationName); ("client_id", clientID);
    ("client_secret", clientSecret); ("site", site); ("skip_ssl_certificate_verification", "true");
    ("published", "true")].
(** The message of a client that cannot be written ends with the operation as
    well, which is left out.

    A provider that is not there is added; an answer other than that it was
    created is waited for, without an error. *)
Definition ensure_provider (clientSecret site accessToken : string) : M W PhaseResult :=
  got ← ts_GetAuthenticationProviderByName tsClient rhssoIntegrationName accessToken;
  match got with
  | inr _ => done
  | inl e =>
      if tsIsNotFoundError (Some e) then
        res ←? must PhaseInProgress as_it_is
                 (ts_AddAuthenticationProvider tsClient (rhsso_provider clientSecret site) accessToken);
        if (StatusCode res =? StatusCreated)%Z then done else mret (PhaseInProgress, None)
      else mret (PhaseInProgress, Some (ts_Error e))
  end.
Definition reconcileRHSSOIntegration (s : TsState) : M W PhaseResult :=
  rhssoConfig ←? must PhaseFailed as_it_is (mret (ReadRHSSO (ts_mgr s)));
  let rhssoNamespace := Config.GetNamespace rhssoConfig in
  let rhssoRealm := RHSSOCommon.GetRealm (RHSSO.common rhssoConfig) in
  _ ←? must_be (negb ((rhssoNamespace =?s "") || (rhssoRealm =?s ""))) (PhaseInProgress, None);
  '(kcClient, apiClientID) ← existing_sso_client c rhssoNamespace clientID;
  clientSecret ←? must PhaseFailed as_it_is (getOauthClientSecret c s);
  '(_, (_, err)) ← CreateOrUpdate c kcClient
    (λ k, mret (with_client (sso_client apiClientID clientID clientSecret (admin_url (ts_inst s))) k, None));
  _ ←? must_succeed PhaseFailed (ErrWrap "could not create/update 3scale keycloak client: ") (mret err);
  accessToken ←? must PhaseInProgress as_it_is (GetAdminToken c (ts_cfg s));
  ensure_provider clientSecret (Config.GetHost rhssoConfig +:+ "/auth/realms/" +:+ rhssoRealm) accessToken.
End integration.

(** ** The portals *)

Section custom_domain.
Context {W : Type} `{Client W CustomDomainCR} `{Client W IngressController} `{Prometheus W} `{EventRecorder W}
  `{UrlParser}.
Context (c : KClient).

Definition findCustomDomainCr (s : TsState) : M W (StatusPhase * string * option error) :=
  '(ok, customDomainName, err) ← HasValidCustomDomainCR c (RoutingSubdomain (Spec (ts_inst s)));
  mret (if (ok : bool) then (PhaseCompleted, customDomainName, None)
        else (PhaseFailed, customDomainName, Some (errorf_v "finding CustomDomain CR failed: " err))).
Definition findIngressControllerCr (s : TsState) (customDomainName : string) : M W PhaseResult :=
  '(ok, err) ← HasValidIngressControllerCR c customDomainName (RoutingSubdomain (Spec (ts_inst s)));
  mret (if (ok : bool) then (PhaseCompleted, None)
        else (PhaseFailed, Some (errorf_v "finding IngressController CR failed: " err))).

(** One of the two resources is enough.  When both are missing the reconcile
    stops with the error of the ingress controller; the second test of the code
    is about phases of which none is completed. *)
Definition both_failed : string :=
  "Both CustomDomain and IngressController CRs failed to be found or are in unexpected state".
Definition none_completed : string := "CustomDomain or IngressController CR is not in a completed phase".
Definition check_custom_domain (phase : StatusPhase) (s : TsState) : M W (TsState * PhaseResult) :=
  let i := ts_inst s in
  let active := IsCustomDomain i in
  let update err := i ← UpdateErrorAndCustomDomainMetric i active err; mret (mkTs (ts_cfg s) (ts_mgr s) i) in
  '(customDomainPhase, customDomainName, customDomainErr) ← findCustomDomainCr s;
  '(ingressControllerPhase, ingressControllerErr) ← findIngressControllerCr s customDomainName;
  if is_some customDomainErr && is_some ingressControllerErr then
    HandleError i ingressControllerPhase both_failed ingressControllerErr;;
    s ← update ingressControllerErr;
    mret (s, (ingressControllerPhase, ingressControllerErr))
  else if negb (customDomainPhase =?s PhaseCompleted) && negb (ingressControllerPhase =?s PhaseCompleted) then
    let err := Some (ErrStr ("customDomain Phase and ingressController Phase failed : " +:+ none_completed)) in
    HandleError i phase none_completed err;;
    s ← update err;
    mret (s, (phase, err))
  else s ← update None; mret (s, (PhaseCompleted, None)).
End custom_domain.

(** http.Response after redirects: status and URL of the request of each
    response, the last one first. *)
Record Hop := mkHop { hop_StatusCode : Z; hop_Host : string; hop_Path : string }.
(** A GET with certificates unchecked of which the connections to port 443 of
    a host go to the first of the addresses. *)
Class PortalHttp (W : Type) `{Net W} :=
  portal_Get : string → string → list (IP (W := W)) → M W (error + (Hop * list Hop)).

Fixpoint checkRedirects (host path : string) (res : list Hop) (statusCode : Z) : bool * Z :=
  match res with
  | [] => (false, 0%Z)
  | h :: res =>
      if (hop_StatusCode h =? statusCode)%Z && (hop_Host h =?s host) && (hop_Path h =?s path)
      then (true, hop_StatusCode h) else checkRedirects host path res statusCode
  end.
Definition available (host : string) (h : Hop) (before : list Hop) : bool :=
  if (hop_StatusCode h =? StatusOK)%Z then true else (checkRedirects host "/p/login" (h :: before) StatusFound).1.

Definition LabelSystemMaster : string := "system_master".
Definition LabelSystemDeveloper : string := "system_developer".
Definition LabelSystemProvider : string := "system_provider".

(** A portal is pinged where its route was admitted. *)
Definition portal_of (routeTo : string) (route : option Route) : option PortalInfo :=
  match route with
  | Some r => match rt_Ingress r with
              | i :: _ => Some (mkPortalInfo (ri_Host i) (hd "" (split_on (Ascii.ascii_of_nat 46) (ri_RouterCanonicalHostname i))) routeTo false)
              | [] => None
              end
  | None => None
  end.
Definition put_portal (label : string) (p : option PortalInfo) (m : gmap string PortalInfo) : gmap string PortalInfo :=
  match p with Some p => <[label := p]> m | None => m end.
Definition with_available (ok : bool) (p : PortalInfo) : PortalInfo :=
  mkPortalInfo (Host p) (Ingress p) (PortalName p) ok.

Section ping.
Context {W T : Type} `{Client W Secret} `{Client W Route} `{Client W Service} `{Net W} `{!PortalHttp W} `{OsEnv W}
  `{Prometheus W} `{MapRange W} `{EventRecorder W} `{ThreeScaleInterface W T}.
Context (tsClient : T) (c : KClient) (s : TsState).

Definition portal_route (routeTo : string) (filterFn : Route → bool) : M W (PhaseResult + option Route) :=
  must PhaseFailed (λ _, ErrStr ("failed to retrieve " +:+ routeTo +:+ " 3scale route"))
    (getThreescaleRoute c (ts_ns s) routeTo filterFn).
(** What is reported before it stops. *)
Definition reporting {A} (errorMessage : string) (err : option error) : M W (PhaseResult + A) :=
  HandleError (ts_inst s) PhaseFailed errorMessage err;;
  mret (inl (PhaseFailed, Some (errorf_v (errorMessage +:+ ": ") err))).
(** A range over the portals, each of which is pinged through the service of
    its router. *)
Definition ping_portal (portal : PortalInfo) : M W (PhaseResult + bool) :=
  service ← GetIngressRouterService c (Ingress portal);
  match service with
  | inl e => reporting "failed to retrieve ingress router service" (Some e)
  | inr service =>
      match svc_LoadBalancer service with
      | [] => reporting "failed to retrieve ingress router service" None
      | ingress =>
          ips ← GetIngressRouterIPs ingress;
          match ips with
          | inl e => reporting "failed to retrieve ingress router ips" (Some e)
          | inr ips =>
              res ← portal_Get ("https://" +:+ Host portal) (Host portal) ips;
              mret (match res with
                    | inl e => inl (PhaseFailed, Some (errorf_v ("failed to ping " +:+ PortalName portal
                                 +:+ " 3scale portal (" +:+ Host portal +:+ "): ") (Some e)))
                    | inr (h, before) => inr (available (Host portal) h before)
                    end)
          end
      end
  end.
Fixpoint ping_portals (keys : list string) (portals : gmap string PortalInfo) (unavailable : Z)
    : M W (PhaseResult + gmap string PortalInfo * Z) :=
  match keys with
  | [] => mret (inr (portals, unavailable))
  | key :: keys =>
      match portals !! key with
      | None => ping_portals keys portals unavailable
      | Some portal =>
          ok ←! ping_portal portal;
          ping_portals keys (<[key := with_available ok portal]> portals) (if (ok : bool) then unavailable else 1%Z)
      end
  end.

Definition ping3scalePortals : M W PhaseResult :=
  accessToken ←? must PhaseFailed as_it_is (GetMasterToken c (ts_cfg s));
  accounts ←? must PhaseFailed as_it_is (ts_ListTenantAccounts tsClient accessToken 1 no_filter);
  let filter := NewTenantAccountsFilter accounts in
  systemMasterRoute ←? portal_route "system-master" any_route;
  systemDeveloperRoute ←? portal_route "system-developer" (Developer filter);
  systemProviderRoute ←? portal_route "system-provider" (Provider filter);
  let portals :=
    put_portal LabelSystemProvider (portal_of "system-provider" systemProviderRoute)
    (put_portal LabelSystemDeveloper (portal_of "system-developer" systemDeveloperRoute)
    (put_portal LabelSystemMaster (portal_of "system-master" systemMasterRoute) ∅)) in
  keys ← reads (λ w, range_keys w (dom portals));
  '(portals, unavailable) ←? ping_portals keys portals 0;
  modifies (SetThreeScalePortals portals unavailable);;
  done.
End ping.
