(* ===== verification/Subscriptions.v ===== *)
(** * The subscription controller (internal/controller/subscription)

    The controller keeps the operator's own subscription on manual approval
    and approves the upgrades that do not affect the service: which ones do
    is an annotation of the CSV, which csvlocator finds in the install plan
    or in a config map the plan refers to.

    The cache of the CSV locator is the state of the controller: functions
    that use it take it and return it. *)

From stdpp Require Import base list strings gmap.
From Stdlib Require Import ZArith Lia Ascii.
From S2P Require Import Prelude Kube Api Resources Olm Cro Quota Config Cluster Products Marketplace.
From S2P Require Import Reconciler Session Tenants.

(** ** csvlocator/csvlocator.go *)

(** encoding/json on the types of the package (a null literal makes the
    pointer nil), base64, gzip, and the decoder of the operator registry: the
    kind of a manifest, and the manifest as JSON. *)
Class CsvDecoding := {
  unmarshal_csv : string → option ClusterServiceVersion → error + option ClusterServiceVersion;
  unmarshal_reference : string → error + option (string * string);
  base64_DecodeString : string → error + string;
  gzip_ReadAll : string → error + string;
  gzip_Close : string → option error;
  DecodeUnstructured : string → error + (string * (error + string));
}.

Definition ClusterServiceVersionKind : string := "ClusterServiceVersion".
Definition nil_pointer : string := "nil pointer dereference".

Definition empty_CSV : ClusterServiceVersion := zero_CSV zero_meta.

Inductive CSVLocator := EmbeddedCSVLocator | ConfigMapCSVLocator.

(** The cache of CachedCSVLocator, by namespace and name of the plan. *)
Abbreviation CsvCache := (gmap string ClusterServiceVersion) (only parsing).

Section locators.
Context `{CsvDecoding}.

Definition step_is_csv (step : string * string) : bool := step.1 =?s ClusterServiceVersionKind.

(** EmbeddedCSVLocator.GetCSV: every step is unmarshalled over the last. *)
Fixpoint embedded_csv (plan : list (string * string)) (csv : option ClusterServiceVersion)
    : error + option ClusterServiceVersion :=
  match plan with
  | [] => inr csv
  | step :: plan =>
      if step_is_csv step then
        match unmarshal_csv step.2 csv with
        | inl e => inl (errorf_w "failed to unmarshal json: " (Some e))
        | inr csv => embedded_csv plan csv
        end
      else embedded_csv plan csv
  end.

(** The CSV may be returned with an error, and is nil for another kind. *)
Definition getCSVfromCM (resourceStr : string) : option ClusterServiceVersion * option error :=
  match DecodeUnstructured resourceStr with
  | inl e => (Some empty_CSV, Some e)
  | inr (kind, json) =>
      if negb (kind =?s ClusterServiceVersionKind) then (None, None)
      else match json with
           | inl e => (Some empty_CSV, Some e)
           | inr resourceJSON =>
               match unmarshal_csv resourceJSON (Some empty_CSV) with
               | inl e => (Some empty_CSV, Some (errorf_v "failed to unmarshall yaml: " (Some e)))
               | inr csv => (Some (default empty_CSV csv), None)
               end
           end
  end.

(** The loop over the binary data of the config map, in the order of [keys]. *)
Fixpoint bundle_csv (data : gmap string string) (keys : list string)
    (csv : option ClusterServiceVersion) : error + option ClusterServiceVersion :=
  match keys with
  | [] => inr csv
  | k :: keys =>
      match base64_DecodeString (map_get "" data k) with
      | inl e => inl (errorf_v "failed to decode base64: " (Some e))
      | inr compressedData =>
          match gzip_ReadAll compressedData with
          | inl e => inl e
          | inr result =>
              match getCSVfromCM result with
              | (None, _) => bundle_csv data keys csv
              | (_, Some e) => inl e
              | (Some csvCandidate, None) =>
                  match gzip_Close compressedData with
                  | Some e => inl e
                  | None => bundle_csv data keys (Some csvCandidate)
                  end
              end
          end
      end
  end.

Definition ForReference (ip : InstallPlan) : outcome (option CSVLocator) :=
  match List.find step_is_csv (ip_Plan ip) with
  | None => Done None
  | Some step =>
      match unmarshal_reference step.2 with
      | inl _ => Done None
      | inr None => Panic nil_pointer
      | inr (Some (name, namespace)) =>
          if (name =?s "") || (namespace =?s "") then Done None else Done (Some ConfigMapCSVLocator)
      end
  end.

Definition ForEmbedded (ip : InstallPlan) : outcome (option CSVLocator) :=
  match List.find step_is_csv (ip_Plan ip) with
  | None => Done None
  | Some step =>
      match unmarshal_csv step.2 (Some empty_CSV) with
      | inl _ => Done None
      | inr None => Panic nil_pointer
      | inr (Some csv) =>
          if (Name (csv_meta csv) =?s "") || (Namespace (csv_meta csv) =?s "") then Done None
          else Done (Some EmbeddedCSVLocator)
      end
  end.

(** SwitchLocators: the first condition that gives a locator. *)
Fixpoint SwitchLocators (conditions : list (InstallPlan → outcome (option CSVLocator)))
    (ip : InstallPlan) : outcome (option CSVLocator) :=
  match conditions with
  | [] => Done None
  | condition :: conditions =>
      l ← condition ip;
      match l with Some l => Done (Some l) | None => SwitchLocators conditions ip end
  end.

(** The condition the controller's locator is made with (New). *)
Definition controller_condition : InstallPlan → outcome (option CSVLocator) :=
  SwitchLocators [ForReference; ForEmbedded].

Section reading.
Context {W : Type} `{Client W ConfigMap} `{MapRange W}.

(** ConfigMapCSVLocator.GetCSV *)
Fixpoint configmap_csv (c : KClient) (plan : list (string * string))
    (csv : option ClusterServiceVersion) : M W (error + option ClusterServiceVersion) :=
  match plan with
  | [] => mret (inr csv)
  | step :: plan =>
      if negb (step_is_csv step) then configmap_csv c plan csv
      else match unmarshal_reference step.2 with
           | inl e => mret (inl (errorf_w "failed to unmarshal json: " (Some e)))
           | inr None => panic nil_pointer
           | inr (Some (name, namespace)) =>
               got ← client_get (O := ConfigMap) c namespace name;
               match got with
               | inl e => mret (inl (errorf_v ("error retrieving ConfigMap " +:+ namespace +:+ "/"
                                               +:+ name +:+ ": ") (Some e)))
               | inr csvConfigMap =>
                   let data := make_if_nil (cm_BinaryData csvConfigMap) in
                   keys ← reads (λ w, range_keys w (dom data));
                   match bundle_csv data keys csv with
                   | inl e => mret (inl e)
                   | inr csv => configmap_csv c plan csv
                   end
               end
           end
  end.

Definition locator_GetCSV (l : CSVLocator) (c : KClient) (ip : InstallPlan)
    : M W (error + option ClusterServiceVersion) :=
  match l with
  | EmbeddedCSVLocator => mret (embedded_csv (ip_Plan ip) (Some empty_CSV))
  | ConfigMapCSVLocator => configmap_csv c (ip_Plan ip) (Some empty_CSV)
  end.

(** ConditionalCSVLocator.GetCSV *)
Definition conditional_GetCSV (c : KClient) (ip : InstallPlan)
    : M W (error + option ClusterServiceVersion) :=
  l ← lift (controller_condition ip);
  match l with
  | None => mret (inl (ErrStr ("no csvlocator found for installplan " +:+ Name (ip_meta ip))))
  | Some l => locator_GetCSV l c ip
  end.

(** CachedCSVLocator *)
Definition csv_key (ip : InstallPlan) : string :=
  Namespace (ip_meta ip) +:+ "/" +:+ Name (ip_meta ip).

Definition GetCSV (cache : CsvCache) (c : KClient) (ip : InstallPlan)
    : M W (CsvCache * (error + option ClusterServiceVersion)) :=
  match cache !! csv_key ip with
  | Some found => mret (cache, inr (Some found))
  | None =>
      r ← conditional_GetCSV c ip;
      mret (match r with
            | inl e => (cache, inl e)
            | inr (Some csv) => (<[csv_key ip := csv]> cache, inr (Some csv))
            | inr None => (cache, inr None)
            end)
  end.
End reading.
End locators.

(** ** rhmiConfigs/main.go *)

Definition IsUpgradeAvailable (s : Subscription) : bool :=
  negb (sub_CurrentCSV s =?s sub_InstalledCSV s).

Definition IsUpgradeServiceAffecting (csv : option ClusterServiceVersion) : bool :=
  match csv with
  | None => true
  | Some csv =>
      match omap_lookup (Annotations (csv_meta csv)) "serviceAffecting" with
      | Some v => negb (v =?s "false")
      | None => true
      end
  end.

Section configs.
Context {W : Type} `{Client W InstallPlan} `{EventRecorder W}.

Definition GetLatestInstallPlan (s : Subscription) (c : KClient) : M W (error + InstallPlan) :=
  match sub_InstallPlanRef s with
  | None => mret (inl (ErrStr "installplan not found in the subscription status reference"))
  | Some (name, namespace) => client_get c namespace name
  end.

Definition InstallPlanPhaseInstalling : string := "Installing".

Definition ApproveUpgrade (c : KClient) (ip : InstallPlan) : M W (option error) :=
  if ip_Phase ip =?s InstallPlanPhaseInstalling then mret None
  else
    match ip_CSVNames ip with
    | [] => panic "index out of range"
    | csvName :: _ =>
        event "Normal" EventUpgradeApproved
          ("Approving " +:+ Name (ip_meta ip) +:+ " install plan: " +:+ csvName) ;;
        r ← client_update c (approve ip);
        mret (match r with inl e => Some e | inr _ => None end)
    end.
End configs.

(** ** subscription_controller.go *)

Definition IntegreatlyPackage : string := "integreatly".
Definition ManagedAPIAddonSubscription : string := "addon-managed-api-service".
Definition ManagedAPIAddonSubscriptionEdge : string := "addon-managed-api-service-internal".
Definition ManagedAPIolmSubscription : string := "managed-api-service".
Definition subscriptionsToReconcile : list string :=
  [IntegreatlyPackage; ManagedAPIAddonSubscription; ManagedAPIAddonSubscriptionEdge;
   ManagedAPIolmSubscription].

(** New: the namespace of the operator from the one that is watched; slicing
    the segments panics when there is no dash. *)
Definition operator_ns_of (watchNS : string) : outcome string :=
  match split_on "-"%char watchNS with
  | a :: b :: _ => Done (join "-" [a; b] +:+ "-" +:+ "operator")
  | _ => Panic "slice bounds out of range"
  end.

Definition shouldReconcileSubscription (operatorNamespace : string) (request : Request) : bool :=
  if negb (req_Namespace request =?s operatorNamespace) then false
  else existsb (λ r, req_Name request =?s r) subscriptionsToReconcile.

Section controller.
Context {W : Type} `{CsvDecoding} `{Client W Subscription} `{Client W InstallPlan}
  `{Client W ConfigMap} `{Client W RHMI} `{Client W Postgres} `{Client W Redis}
  `{MapRange W} `{EventRecorder W} `{Clock W} `{Ticker W} `{OsEnv W}.

Definition open_window (s : CroSpec) : CroSpec :=
  mkCroSpec (cro_Type s) (cro_Tier s) (cro_SpecSecretRef s) (cro_Size s) (cro_Engine s)
    (cro_EngineVersion s) (cro_ApplyImmediately s) true.
Definition open_postgres (p : Postgres) : Postgres :=
  mkPostgres (pg_meta p) (open_window (pg_Spec p)) (pg_Phase p) (pg_Strategy p) (pg_SecretRef p).
Definition open_redis (r : Redis) : Redis :=
  mkRedis (rd_meta r) (open_window (rd_Spec r)) (rd_Phase r) (rd_Strategy r) (rd_SecretRef r).

(** The loops over the instances; the message of both names postgres. *)
Fixpoint update_each {O} `{Client W O} `{K8sObject O} (f : O → O) (l : list O) : M W (option error) :=
  match l with
  | [] => mret None
  | inst :: l =>
      r ← client_update ServerClient (f inst);
      match r with
      | inl e => mret (errors_Wrap (Some e) ("failed to update maintenance window for postgres "
                                              +:+ Name (meta inst)))
      | inr _ => update_each f l
      end
  end.

Definition allowDatabaseUpdates (i : RHMI) (isServiceAffecting : bool) : M W (option error) :=
  if negb (Version (Status i) =?s "") && negb (ToVersion (Status i) =?s "") && isServiceAffecting
  then
    pgs ← client_list (O := Postgres) ServerClient list_all;
    match pgs with
    | inl e => mret (Some (errorf_w "failed to list postgres instances: " (Some e)))
    | inr pgs =>
        err ← update_each open_postgres pgs;
        match err with
        | Some e => mret (Some e)
        | None =>
            rds ← client_list (O := Redis) ServerClient list_all;
            match rds with
            | inl e => mret (Some (errorf_w "failed to list redis instances: " (Some e)))
            | inr rds => update_each open_redis rds
            end
        end
    end
  else mret None.

Definition requeue_after (d : Z) : Result := mkResult true d.

(** A turn of the first loop of HandleUpgrades. *)
Definition latest_plan (sub : Subscription) : M W (option (Subscription * InstallPlan)) :=
  got ← client_get (O := Subscription) ServerClient (Namespace (sub_meta sub)) (Name (sub_meta sub));
  match got with
  | inl _ => mret None
  | inr sub =>
      ip ← GetLatestInstallPlan sub ServerClient;
      mret (match ip with inl _ => None | inr ip => Some (sub, ip) end)
  end.

(** What is done once the plan, its CSV and the subscription are known. *)
Definition decide_upgrade (sub : Subscription) (ip : InstallPlan) (i : RHMI)
    (isServiceAffecting : bool) : M W (Result * option error) :=
  err ← allowDatabaseUpdates i isServiceAffecting;
  match err with
  | Some e => mret (zero_Result, Some e)
  | None =>
      if negb (IsUpgradeAvailable sub) then
        v ← reads GetVersion;
        if (negb (ToVersion (Status i) =?s "") || negb (Version (Status i) =?s v))
           && isServiceAffecting
        then mret (requeue_after (10 * second_ns), None)
        else mret (zero_Result, None)
      else if negb isServiceAffecting && negb (ip_Approved ip) then
        err ← ApproveUpgrade ServerClient ip;
        match err with
        | Some e => mret (zero_Result, Some e)
        | None => mret (requeue_after (10 * second_ns), None)
        end
      else mret (requeue_after minute_ns, None)
  end.

Definition HandleUpgrades (cache : CsvCache) (sub : Subscription) (i : RHMI)
    : M W (CsvCache * (Result * option error)) :=
  found ← PollUntilContextTimeout (5 * second_ns) (5 * minute_ns) (latest_plan sub);
  match found with
  | inl e => mret (cache, (zero_Result, Some e))
  | inr (sub, ip) =>
      '(cache, csv) ← GetCSV cache ServerClient ip;
      match csv with
      | inl e => mret (cache, (zero_Result, Some e))
      | inr csv =>
          r ← decide_upgrade sub ip i (IsUpgradeServiceAffecting csv);
          mret (cache, r)
      end
  end.

(** A turn of the loop of Reconcile; the subscription is not read again. *)
Definition plan_of (sub : Subscription) : M W (option InstallPlan) :=
  match sub_InstallPlanRef sub with
  | None => mret None
  | Some (name, namespace) =>
      got ← client_get (O := InstallPlan) ServerClient namespace name;
      mret (match got with inl _ => None | inr ip => Some ip end)
  end.

(** The resources of the first container of the first deployment. *)
Definition with_resources (csv : ClusterServiceVersion) (sp : SubscriptionSpec) : SubscriptionSpec :=
  match DeploymentSpecs csv with
  | d :: _ =>
      match sd_Containers d with
      | c :: _ =>
          mkSubSpec (ss_CatalogSource sp) (ss_CatalogSourceNamespace sp) (ss_Package sp)
            (ss_Channel sp) (ss_InstallPlanApproval sp)
            (Some (mkSubConfig (Some c) (default [] (sc_Env <$> ss_Config sp))))
      | [] => sp
      end
  | [] => sp
  end.
Definition manual (sp : SubscriptionSpec) : SubscriptionSpec :=
  mkSubSpec (ss_CatalogSource sp) (ss_CatalogSourceNamespace sp) (ss_Package sp) (ss_Channel sp)
    ApprovalManual (ss_Config sp).

(** The subscription is set to manual approval and written. *)
Definition set_manual (cache : CsvCache) (sub : Subscription) (sp : SubscriptionSpec)
    : M W (CsvCache * (error + Subscription)) :=
  found ← PollUntilContextTimeout (5 * second_ns) (3 * minute_ns) (plan_of sub);
  match found with
  | inl e => mret (cache, inl e)
  | inr ip =>
      '(cache, csv) ← GetCSV cache ServerClient ip;
      match csv with
      | inl e => mret (cache, inl e)
      | inr None => panic nil_pointer
      | inr (Some csv) =>
          r ← client_update ServerClient (set_sub_Spec (with_resources csv (manual sp)) sub);
          mret (cache, r)
      end
  end.

(** What follows once the subscription is on manual approval. *)
Definition reconcile_manual (cache : CsvCache) (namespace : string) (sub : Subscription)
    : M W (CsvCache * (Result * option error)) :=
  got ← GetRhmiCr ServerClient namespace;
  match got with
  | inl e => mret (cache, (zero_Result, Some e))
  | inr None => mret (cache, (zero_Result, None))
  | inr (Some rhmiCr) => HandleUpgrades cache sub rhmiCr
  end.

Definition subscription_Reconcile (operatorNamespace : string) (cache : CsvCache) (request : Request)
    : M W (CsvCache * (Result * option error)) :=
  if negb (shouldReconcileSubscription operatorNamespace request)
  then mret (cache, (zero_Result, None))
  else
    got ← client_get (O := Subscription) ServerClient (req_Namespace request) (req_Name request);
    match got with
    | inl e => mret (cache, (zero_Result, if IsNotFound (Some e) then None else Some e))
    | inr sub =>
        match sub_Spec sub with
        | None => panic nil_pointer
        | Some sp =>
            if negb (ss_InstallPlanApproval sp =?s ApprovalManual) then
              '(cache, r) ← set_manual cache sub sp;
              match r with
              | inl e => mret (cache, (zero_Result, Some e))
              | inr sub => reconcile_manual cache (req_Namespace request) sub
              end
            else reconcile_manual cache (req_Namespace request) sub
        end
    end.
End controller.

(** ** Facts *)

Lemma IsUpgradeServiceAffecting_false csv :
  IsUpgradeServiceAffecting csv = false ↔
  ∃ c, csv = Some c ∧ omap_lookup (Annotations (csv_meta c)) "serviceAffecting" = Some "false".
Proof.
  unfold IsUpgradeServiceAffecting. split.
  - destruct csv as [c|]; [|done]. destruct (omap_lookup _ _) as [v|] eqn:E; [|done].
    intros Hv%negb_false_iff%str_eqb_true. subst v. by exists c.
  - intros (c & -> & ->). done.
Qed.

Section cache_facts.
Context `{CsvDecoding} {W : Type} `{Client W ConfigMap} `{MapRange W}.

(** A plan is located once: what the cache holds stays, only the entry of the
    plan is added, and it is what the second call returns without a call to
    the API. *)
Lemma GetCSV_cached cache c ip (w w' : W) cache' csv :
  GetCSV cache c ip w = (Done (cache', inr (Some csv)), w') →
  cache' !! csv_key ip = Some csv
  ∧ (∀ k, k ≠ csv_key ip → cache' !! k = cache !! k)
  ∧ ∀ w2, GetCSV cache' c ip w2 = (Done (cache', inr (Some csv)), w2).
Proof.
  intros Hg. assert (cache' !! csv_key ip = Some csv ∧ ∀ k, k ≠ csv_key ip → cache' !! k = cache !! k) as [Hc Ho].
  { unfold GetCSV in Hg. destruct (cache !! csv_key ip) as [found|] eqn:E; [by go_inv|].
    apply bind_done_inv in Hg as ([e|[x|]] & w1 & _ & Hg); go_inv.
    split; [by rewrite lookup_insert_eq|]. intros k Hk. by rewrite lookup_insert_ne. }
  split_and!; [done..|]. intros w2. unfold GetCSV. by rewrite Hc.
Qed.

Context (R : W → W → Prop) `{!PreOrder R}
  (get_R : ∀ c ns n, preserves R (client_get (O := ConfigMap) c ns n)).

Lemma GetCSV_preserves cache c ip : preserves R (GetCSV cache c ip).
Proof.
  unfold GetCSV. destruct (cache !! _); [frame|].
  assert (∀ plan csv, preserves R (configmap_csv c plan csv)) as Hcm.
  { induction plan as [|step plan IH]; intros csv; cbn [configmap_csv]; frame. }
  apply preserves_bind; [done| |intros; frame]. unfold conditional_GetCSV, locator_GetCSV. frame.
Qed.
End cache_facts.

Section controller_facts.
Context {W : Type} `{CsvDecoding} `{Client W Subscription} `{Client W InstallPlan}
  `{Client W ConfigMap} `{Client W RHMI} `{Client W Postgres} `{Client W Redis}
  `{MapRange W} `{EventRecorder W} `{Clock W} `{Ticker W} `{OsEnv W}.

(** *** The maintenance windows *)

Lemma update_each_ok {O} `{Client W O} `{K8sObject O} (f : O → O) l (w w' : W) :
  update_each f l w = (Done None, w') →
  ∀ o, o ∈ l → ∃ w1 o' w2, client_update ServerClient (f o) w1 = (Done (inr o'), w2).
Proof.
  revert w. induction l as [|x l IH]; intros w; cbn [update_each].
  { intros _ o Ho. by apply elem_of_nil in Ho. }
  intros Hu o. apply bind_done_inv in Hu as ([e|x'] & w1 & Hx & Hu); [go_inv|].
  intros [->|Ho]%elem_of_cons; [by do 3 eexists|]. by eapply IH.
Qed.

Lemma allowDatabaseUpdates_ok i affecting (w w' : W) :
  Version (Status i) ≠ "" → ToVersion (Status i) ≠ "" → affecting = true →
  allowDatabaseUpdates i affecting w = (Done None, w') →
  ∃ pgs rds w1 w2 w3, client_list (O := Postgres) ServerClient list_all w = (Done (inr pgs), w1)
    ∧ client_list (O := Redis) ServerClient list_all w2 = (Done (inr rds), w3)
    ∧ (∀ p, p ∈ pgs → ∃ w4 p' w5, client_update ServerClient (open_postgres p) w4 = (Done (inr p'), w5))
    ∧ ∀ r, r ∈ rds → ∃ w4 r' w5, client_update ServerClient (open_redis r) w4 = (Done (inr r'), w5).
Proof.
  intros Hv%str_eqb_false Ht%str_eqb_false ->. unfold allowDatabaseUpdates. rewrite Hv, Ht. cbn.
  intros Ha. apply bind_done_inv in Ha as ([e|pgs] & w1 & Hpg & Ha); [go_inv|].
  apply bind_done_inv in Ha as ([e|] & w2 & Hup & Ha); [go_inv|].
  apply bind_done_inv in Ha as ([e|rds] & w3 & Hrd & Ha); [go_inv|].
  exists pgs, rds, w1, w2, w3. split_and!; [done..| |].
  - by eapply update_each_ok.
  - by eapply update_each_ok.
Qed.

(** *** Approval *)

Section approval.
(** [R] says that no install plan was written: every call but a write of one
    (and the event before it) respects it. *)
Context (R : W → W → Prop) `{!PreOrder R}
  (sub_get_R : ∀ c ns n, preserves R (client_get (O := Subscription) c ns n))
  (sub_update_R : ∀ c s, preserves R (client_update (O := Subscription) c s))
  (ip_get_R : ∀ c ns n, preserves R (client_get (O := InstallPlan) c ns n))
  (cm_get_R : ∀ c ns n, preserves R (client_get (O := ConfigMap) c ns n))
  (rhmi_list_R : ∀ c o, preserves R (client_list (O := RHMI) c o))
  (pg_list_R : ∀ c o, preserves R (client_list (O := Postgres) c o))
  (pg_update_R : ∀ c p, preserves R (client_update (O := Postgres) c p))
  (rd_list_R : ∀ c o, preserves R (client_list (O := Redis) c o))
  (rd_update_R : ∀ c r, preserves R (client_update (O := Redis) c r))
  (tick_R : ∀ i w, R w (wait_tick i w)).

Lemma update_each_preserves {O} `{Client W O} `{K8sObject O} (f : O → O) l :
  (∀ o, preserves R (client_update ServerClient o)) → preserves R (update_each f l).
Proof. intros Hu. induction l as [|x l IH]; cbn [update_each]; frame. Qed.

Lemma allowDatabaseUpdates_preserves i b : preserves R (allowDatabaseUpdates i b).
Proof.
  unfold allowDatabaseUpdates.
  pose proof (λ l, update_each_preserves open_postgres l (pg_update_R ServerClient)) as Hp.
  pose proof (λ l, update_each_preserves open_redis l (rd_update_R ServerClient)) as Hr. frame.
Qed.

Lemma latest_plan_preserves s : preserves R (latest_plan s).
Proof. unfold latest_plan, GetLatestInstallPlan. frame. Qed.

(** A plan may be approved when its CSV says the upgrade does not affect the
    service, it is not approved yet, and there is an upgrade. *)
Definition may_approve (s : Subscription) (ip : InstallPlan) (csv : option ClusterServiceVersion) : Prop :=
  IsUpgradeServiceAffecting csv = false ∧ ip_Approved ip = false ∧ sub_CurrentCSV s ≠ sub_InstalledCSV s.

Lemma decide_upgrade_approves s ip i csv (w w' : W) r :
  decide_upgrade s ip i (IsUpgradeServiceAffecting csv) w = (r, w') →
  R w w' ∨ may_approve s ip csv ∧ ∃ w1 r', R w w1 ∧ ApproveUpgrade ServerClient ip w1 = (r', w').
Proof.
  unfold decide_upgrade. rewrite run_bind.
  destruct (allowDatabaseUpdates _ _ w) as [[[e|]|why] w1] eqn:Ha;
    (assert (R w w1) as Hw1 by (exact (allowDatabaseUpdates_preserves _ _ _ _ _ Ha)));
    [intros [= <- <-]; by left| |intros [= <- <-]; by left].
  destruct (IsUpgradeAvailable s) eqn:Eav; cbn [negb].
  - destruct (negb (IsUpgradeServiceAffecting csv) && negb (ip_Approved ip)) eqn:E;
      [|intros [= <- <-]; by left].
    apply andb_true_iff in E as [Es%negb_true_iff Ei%negb_true_iff].
    apply negb_true_iff, str_eqb_false in Eav. rewrite run_bind.
    destruct (ApproveUpgrade ServerClient ip w1) as [r' w2] eqn:Eap. intros Hr.
    assert (w2 = w') as -> by (destruct r' as [[e|]|why]; by injection Hr).
    right. split; [done|]. by exists w1, r'.
  - rewrite bind_reads. destruct (_ && _); intros [= <- <-]; by left.
Qed.

Lemma HandleUpgrades_approves cache s i (w w' : W) r :
  HandleUpgrades cache s i w = (r, w') →
  R w w' ∨ ∃ s' ip csv cache' w1 w2 w3 r', GetCSV cache ServerClient ip w1 = (Done (cache', inr csv), w2)
     ∧ may_approve s' ip csv ∧ R w w3 ∧ ApproveUpgrade ServerClient ip w3 = (r', w').
Proof.
  unfold HandleUpgrades. rewrite run_bind.
  destruct (PollUntilContextTimeout _ _ _ w) as [found w1] eqn:Hp.
  assert (R w w1) as HR1.
  { eapply preserves_poll; [done|apply tick_R|apply (latest_plan_preserves s)|exact Hp]. }
  destruct found as [[e|[s' ip]]|why]; [intros [= <- <-]; by left| |intros [= <- <-]; by left].
  rewrite run_bind. destruct (GetCSV cache ServerClient ip w1) as [got w2] eqn:Hg.
  assert (R w1 w2) as HR2 by (eapply GetCSV_preserves; [done|apply cm_get_R|exact Hg]).
  assert (R w w2) as HR3 by (by etransitivity).
  destruct got as [[cache' [e|csv]]|why]; [intros [= <- <-]; by left| |intros [= <- <-]; by left].
  rewrite run_bind. destruct (decide_upgrade _ _ _ _ w2) as [d w3] eqn:Hd. intros Hr.
  assert (w3 = w') as -> by (destruct d; by injection Hr).
  apply decide_upgrade_approves in Hd as [?|(Hm & w4 & r' & HR4 & Hap)]; [left; by etransitivity|].
  right. exists s', ip, csv, cache', w1, w2, w4, r'. split_and!; [done..|by etransitivity|done].
Qed.

Lemma reconcile_manual_approves cache ns s (w w' : W) r :
  reconcile_manual cache ns s w = (r, w') →
  R w w' ∨ ∃ cache0 s' ip csv cache' w1 w2 w3 r',
     GetCSV cache0 ServerClient ip w1 = (Done (cache', inr csv), w2)
     ∧ may_approve s' ip csv ∧ R w w3 ∧ ApproveUpgrade ServerClient ip w3 = (r', w').
Proof.
  unfold reconcile_manual. rewrite run_bind.
  assert (preserves R (GetRhmiCr (W := W) ServerClient ns)) as Hrh by (unfold GetRhmiCr; frame).
  destruct (GetRhmiCr ServerClient ns w) as [got w1] eqn:Hg. apply Hrh in Hg.
  destruct got as [[e|[i|]]|why]; try (intros [= <- <-]; by left).
  intros [?|(s' & ip & csv & cache' & w2 & w3 & w4 & r' & ? & ? & ? & ?)]%HandleUpgrades_approves.
  - left. by etransitivity.
  - right. exists cache, s', ip, csv, cache', w2, w3, w4, r'. split_and!; [done..|by etransitivity|done].
Qed.

Lemma set_manual_preserves cache s sp : preserves R (set_manual cache s sp).
Proof.
  unfold set_manual. apply preserves_bind; [done| |].
  { apply preserves_poll; [done|apply tick_R|]. unfold plan_of. frame. }
  intros [e|ip]; [frame|]. apply preserves_bind; [done|by apply GetCSV_preserves|].
  intros [cache' [e|[csv|]]]; frame.
Qed.
End approval.

(** *** Manual approval *)

(** When a reconcile of one of the operator's subscriptions ends without
    an error, the subscription is gone, was on manual approval, or has been
    written with manual approval, the environment it had, and the resources
    its containers ask for when the CSV has any. *)
Theorem subscription_is_manual operatorNamespace cache request (w w' : W) cache' res :
  shouldReconcileSubscription operatorNamespace request = true →
  subscription_Reconcile operatorNamespace cache request w = (Done (cache', (res, None)), w') →
  ∃ got w1, client_get (O := Subscription) ServerClient (req_Namespace request) (req_Name request) w
      = (Done got, w1)
  ∧ match got with
    | inl e => IsNotFound (Some e) = true
    | inr s => ∃ sp, sub_Spec s = Some sp
        ∧ (ss_InstallPlanApproval sp = ApprovalManual
           ∨ ∃ sp' csv o w2 w3, client_update ServerClient (set_sub_Spec sp' s) w2 = (Done (inr o), w3)
               ∧ ss_InstallPlanApproval sp' = ApprovalManual
               ∧ default [] (sc_Env <$> ss_Config sp') = default [] (sc_Env <$> ss_Config sp)
               ∧ ss_Channel sp' = ss_Channel sp ∧ ss_Package sp' = ss_Package sp
               ∧ ∀ d c ds cs, DeploymentSpecs csv = d :: ds → sd_Containers d = c :: cs →
                   (ss_Config sp' ≫= sc_Resources) = Some c)
    end.
Proof.
  intros Hs. unfold subscription_Reconcile. rewrite Hs. cbn [negb]. intros Hr.
  apply bind_done_inv in Hr as (got & w1 & Hg & Hr). exists got, w1. split; [done|].
  destruct got as [e|s]; [rewrite run_ret in Hr; by destruct (IsNotFound (Some e)); simplify_eq|].
  destruct (sub_Spec s) as [sp|]; [|done]. exists sp. split; [done|].
  destruct (ss_InstallPlanApproval sp =?s ApprovalManual) eqn:E; [left; by apply str_eqb_true|right].
  cbn [negb] in Hr. apply bind_done_inv in Hr as ([cache1 [e|s']] & w2 & Hm & Hr); [by rewrite run_ret in Hr|].
  unfold set_manual in Hm. apply bind_done_inv in Hm as ([e|ip] & w3 & _ & Hm); [by rewrite run_ret in Hm|].
  apply bind_done_inv in Hm as ([cache2 [e|[csv|]]] & w4 & _ & Hm); [by rewrite run_ret in Hm| |done].
  apply bind_done_inv in Hm as (o & w5 & Hu & Hm). rewrite run_ret in Hm. simplify_eq.
  exists (with_resources csv (manual sp)), csv, s', w4, w2. split; [done|].
  unfold with_resources, manual.
  destruct (DeploymentSpecs csv) as [|d ds]; [split_and!; done|].
  destruct (sd_Containers d) as [|c cs] eqn:Ec; cbn; (split_and!; [done..|]);
    intros ? ? ? ? [= <- <-]; congruence.
Qed.

End controller_facts.
