(* ===== verification/Stages.v ===== *)
(** * Install stages (internal/controller/rhmi/rhmi_controller.go)

    bootstrapStage, processStage, addCustomInformer and the stage loop of
    Reconcile: products of a stage are reconciled one by one, and the next
    stage starts only when every product of this one is completed. *)

From stdpp Require Import base list strings gmap.
From Stdlib Require Import ZArith Lia.
From S2P Require Import Prelude Kube Api Resources Quota Config Metrics Products Session.

(** ** Interfaces *)

(** products.Interface: Reconcile of the reconciler of a product.  It shares
    the installation and the config manager with its caller through pointers,
    and its product status; it returns them as it leaves them, with the phase
    and the error. *)
Class ProductInterface (W Q : Type) :=
  product_Reconcile : ProductName → AnyConfig → Manager → RHMI → RHMIProductStatus → KClient →
    QuotaProductConfig Q → bool →
    M W (Manager * RHMI * RHMIProductStatus * (StatusPhase * option error)).

(** The bootstrap reconciler, which also fills in the quota. *)
Class BootstrapInterface (W Q : Type) := {
  NewBootstrapReconciler : Manager → RHMI → M W (option error);
  bootstrap_Reconcile : Manager → RHMI → KClient → Quota Q →
    M W (Manager * RHMI * Quota Q * (StatusPhase * option error));
}.

(** The caches and informers of controller-runtime, the controller and the
    manager they are added to.  An informer is known by a handle. *)
Class Informers (W : Type) := {
  cache_New : string → M W (option error);
  GetInformerForKind : GVK → string → M W (error + nat);
  AddEventHandler : nat → M W (option error);
  controller_Watch : nat → M W (option error);
  mgr_Add : GVK → string → M W (option error);
  WaitForCacheSync : GVK → string → M W bool;
  HasSynced : nat → W → bool;
  (** fmt's value verb on the CRD object *)
  crd_text : GVK → string;
}.

Section stages.
Context {W Q : Type} `{Client W ConfigMap} `{Client W RHMI} `{Yaml} `{ProductsInstallationLoader W}
  `{OpenshiftClients W} `{NewClient W} `{MapRange W} `{ProductInterface W Q}
  `{BootstrapInterface W Q} `{Informers W}.

(** ** Calls through the interfaces, on a session *)

Definition new_reconciler (p : ProductName) : M (Session W Q) (Reconciler * option error) :=
  m ← reads configManager;
  i ← the_installation;
  '(m, r) ← on_world (NewReconciler p m i);
  modifies (set_configManager m) ;; mret r.

Definition reconcile_product (r : Reconciler) (ps : RHMIProductStatus) (c : KClient)
    (q : QuotaProductConfig Q) (uninstall : bool)
    : M (Session W Q) (RHMIProductStatus * (StatusPhase * option error)) :=
  match r with
  | NilReconciler => panic "nil pointer dereference"
  | NoOp => mret (ps, (PhaseNone, None))
  | ProductReconciler p cfg =>
      m ← reads configManager;
      i ← the_installation;
      '(m, i, ps, res) ← on_world (product_Reconcile p cfg m i ps c q uninstall);
      modifies (set_configManager m) ;; upd_installation (λ _, i) ;; mret (ps, res)
  end.

Definition reconcile_bootstrap (c : KClient) (q : Quota Q)
    : M (Session W Q) (Quota Q * (StatusPhase * option error)) :=
  m ← reads configManager;
  i ← the_installation;
  '(m, i, q, res) ← on_world (bootstrap_Reconcile m i c q);
  modifies (set_configManager m) ;; upd_installation (λ _, i) ;; mret (q, res).

Definition new_bootstrap_reconciler : M (Session W Q) (option error) :=
  m ← reads configManager; i ← the_installation; on_world (NewBootstrapReconciler m i).

(** ** Informers *)

Definition get_informer (gvk ns : string) (s : Session W Q) : option nat :=
  omap_lookup (customInformers (globals s) !! gvk) ns.
(** r.customInformers[gvk] = make(...), when it is nil *)
Definition make_informers (gvk : string) (s : Session W Q) : Session W Q :=
  let m := customInformers (globals s) in
  match m !! gvk with Some _ => s | None => set_informers (<[gvk := ∅]> m) s end.
(** r.customInformers[gvk][namespace] = &informer *)
Definition put_informer (gvk ns : string) (h : nat) (s : Session W Q) : Session W Q :=
  let m := customInformers (globals s) in
  set_informers (<[gvk := <[ns := h]> (make_if_nil (m !! gvk))]> m) s.

(** The timeout channel the source makes is not given to WaitForCacheSync. *)
Definition addCustomInformer (crd : GVK) (namespace : string) : M (Session W Q) (option error) :=
  let gvk := GVK_String crd in
  err ← on_world (cache_New namespace);
  match err with
  | Some e => mret (Some (errorf_v ("failed to create informer cache in " +:+ namespace +:+ " namespace: ")
                       (Some e)))
  | None =>
    got ← on_world (GetInformerForKind crd namespace);
    match got with
    | inl e => mret (Some (errorf_v ("failed to create informer for " +:+ crd_text crd +:+ ": ") (Some e)))
    | inr informer =>
      err ← on_world (AddEventHandler informer);
      match err with
      | Some e => mret (Some (errorf_v ("failed to add event handler for " +:+ crd_text crd +:+ ": ") (Some e)))
      | None =>
        err ← on_world (controller_Watch informer);
        match err with
        | Some e => mret (Some (errorf_v ("failed to create a " +:+ gvk +:+ " watch in " +:+ namespace
                             +:+ " namespace: ") (Some e)))
        | None =>
          err ← on_world (mgr_Add crd namespace);
          match err with
          | Some e => mret (Some (errorf_v ("failed to add a " +:+ gvk +:+ " cache in " +:+ namespace
                               +:+ " namespace into Manager: ") (Some e)))
          | None =>
            modifies (put_informer gvk namespace informer) ;;
            synced ← on_world (WaitForCacheSync crd namespace);
            mret (if (synced : bool) then None
                  else Some (ErrStr ("failed to sync cache for " +:+ gvk +:+ " watch in " +:+ namespace
                                     +:+ " namespace")))
          end
        end
      end
    end
  end.

(** The loop over a completed product's CRDs; [Some] is the error the stage
    returns with PhaseFailed. *)
Fixpoint ensure_informers (crds : list GVK) (namespace : string) (product : ProductName)
    : M (Session W Q) (option error) :=
  match crds with
  | [] => mret None
  | crd :: crds' =>
      let gvk := GVK_String crd in
      modifies (make_informers gvk) ;;
      known ← reads (get_informer gvk namespace);
      match known with
      | None =>
          err ← addCustomInformer crd namespace;
          match err with
          | Some e => mret (Some (errorf_v ("failed to create a " +:+ gvk +:+ " CRD watch for "
                                            +:+ product +:+ ": ") (Some e)))
          | None => ensure_informers crds' namespace product
          end
      | Some h =>
          synced ← reads (λ s, HasSynced h (world s));
          if (synced : bool) then ensure_informers crds' namespace product
          else mret (Some (ErrStr ("A " +:+ gvk +:+ " CRD Informer for " +:+ product +:+ " has not synced")))
      end
  end.

(** ** processStage *)

Definition stage_product (st : Stage) (p : ProductName) : RHMIProductStatus :=
  map_get zero_product (make_if_nil (st_Products st)) p.
Definition put_product (st : Stage) (p : ProductName) (ps : RHMIProductStatus) : Stage :=
  mkStage (Some (<[p := ps]> (make_if_nil (st_Products st)))) (st_Name st).

Definition add_error (mErr : option MultiErr) (e : error) : option MultiErr :=
  Some (MultiErr_Add (default newMultiErr mErr) e).

(** One turn of the loop over a stage's products.  [inl] leaves processStage
    with PhaseFailed and that error; [inr] is the product's status and the
    errors collected so far. *)
Definition process_product (stage : Stage) (productName : ProductName) (mErr : option MultiErr)
    : M (Session W Q) (error + RHMIProductStatus * option MultiErr) :=
  let productStatus := stage_product stage productName in
  '(reconciler, err) ← new_reconciler (p_Name productStatus);
  match err with
  | Some e => mret (inl (ErrWrap ("failed to build a reconciler for " +:+ p_Name productStatus +:+ ": ") e))
  | None =>
    i ← the_installation;
    verified ← lift (VerifyVersion reconciler i);
    (if (verified : bool) then mret tt else modifies (set_mismatch true)) ;;
    c ← k8sclient_New;
    match c with
    | inl e => mret (inl (ErrWrap "could not create server client: " e))
    | inr serverClient =>
      i ← the_installation;
      let uninstall := p_Uninstall productStatus || is_some (DeletionTimestamp (rhmi_meta i)) in
      q ← reads installationQuota;
      '(productStatus, (phase, err)) ←
        reconcile_product reconciler productStatus serverClient (GetProduct q productName) uninstall;
      let productStatus := set_p_Phase phase productStatus in
      let mErr := match err with
                  | Some e => add_error mErr
                      (ErrWrap ("failed installation of " +:+ p_Name productStatus +:+ ": ") e)
                  | None => mErr
                  end in
      m ← reads configManager;
      match ReadProduct m (p_Name productStatus) with
      | inl e => mret (inl (errorf_v ("failed to read productStatus config for "
                               +:+ p_Name productStatus +:+ ": ") (Some e)))
      | inr productConfig =>
        ierr ← (if phase =?s PhaseCompleted
                then ensure_informers (GetWatchableCRDs productConfig) (GetNamespace productConfig)
                       (p_Name productStatus)
                else mret None);
        match ierr with
        | Some e => mret (inl e)
        | None => mret (inr (productStatus, mErr))
        end
      end
    end
  end.

(** [save] is the write to the product map the stage shares with the table
    it was copied from. *)
Fixpoint process_products (save : Stage → Session W Q → Session W Q) (order : list ProductName)
    (stage : Stage) (incomplete : bool) (mErr : option MultiErr)
    : M (Session W Q) (Stage * (error + bool * option MultiErr)) :=
  match order with
  | [] => mret (stage, inr (incomplete, mErr))
  | productName :: order' =>
      r ← process_product stage productName mErr;
      match r with
      | inl e => mret (stage, inl e)
      | inr (productStatus, mErr) =>
          let incomplete := incomplete || negb (p_Phase productStatus =?s PhaseCompleted) in
          let stage := put_product stage productName productStatus in
          modifies (save stage) ;;
          process_products save order' stage incomplete mErr
      end
  end.

Definition processStage (save : Stage → Session W Q → Session W Q) (stage : Stage)
    : M (Session W Q) (Stage * (StatusPhase * option error)) :=
  modifies (set_mismatch false) ;;
  upd_status (λ st, set_Stage st (st_Name stage)) ;;
  order ← reads (λ s, range_keys s (dom (make_if_nil (st_Products stage))));
  '(stage, r) ← process_products save order stage false None;
  match r with
  | inl e => mret (stage, (PhaseFailed, Some e))
  | inr (incompleteStage, mErr) =>
      mret (stage, (if (incompleteStage : bool) then PhaseInProgress else PhaseCompleted,
                    MultiErr_error <$> mErr))
  end.

(** ** bootstrapStage *)

Definition bootstrapStage : M (Session W Q) (StatusPhase * option error) :=
  upd_status (λ st, set_Stage st BootstrapStage) ;;
  err ← new_bootstrap_reconciler;
  match err with
  | Some e => mret (PhaseFailed, Some (ErrWrap "failed to build a reconciler for Bootstrap: " e))
  | None =>
    c ← k8sclient_New;
    match c with
    | inl e => mret (PhaseFailed, Some (ErrWrap "could not create server client: " e))
    | inr serverClient =>
      q ← reads installationQuota;
      '(q, (phase, err)) ← reconcile_bootstrap serverClient q;
      modifies (set_installationQuota q) ;;
      if is_some err || (phase =?s PhaseFailed)
      then mret (PhaseFailed, Some (errorf_w "bootstrap stage reconcile failed: " err))
      else mret (phase, None)
    end
  end.

(** ** The stage loop of Reconcile *)

Definition record_stage (st : Stage) (phase : StatusPhase) (s : RHMIStatus) : RHMIStatus :=
  set_Stages s (Some (<[st_Name st := mkStageStatus (st_Name st) phase (st_Products st)]>
                        (make_if_nil (Stages s)))).

(** One turn of the loop: the phase of the [i]-th stage of the type. *)
Definition run_stage (t : TypeRef) (i : nat) (stage : Stage) : M (Session W Q) StatusPhase :=
  '(stage, (stagePhase, err)) ←
    (if st_Name stage =?s BootstrapStage
     then '(ph, e) ← bootstrapStage; mret (stage, (ph, e))
     else processStage (set_install_stage t i) stage);
  upd_status (record_stage stage stagePhase) ;;
  upd_status (λ s, set_LastError s (match err with Some e => error_msg e | None => "" end)) ;;
  mret stagePhase.

(** [k] stages are left, the next one is the [i]-th; true is
    installInProgress. *)
Fixpoint run_stages (t : TypeRef) (i k : nat) : M (Session W Q) bool :=
  match k with
  | O => mret false
  | S k' =>
      st ← reads (λ s, InstallStages (get_type t s) !! i);
      match st with
      | None => panic "index out of range"
      | Some stage =>
          stagePhase ← run_stage t i stage;
          (* don't move to next stage until current stage is complete *)
          if negb (stagePhase =?s PhaseCompleted) then mret true else run_stages t (S i) k'
      end
  end.
End stages.

(** ** What calls leave alone *)

Section frames.
Context {W Q : Type} `{Client W ConfigMap} `{Client W RHMI} `{Yaml} `{ProductsInstallationLoader W}
  `{OpenshiftClients W} `{NewClient W} `{MapRange W} `{ProductInterface W Q}
  `{BootstrapInterface W Q} `{Informers W}.

(** The stage tables, among the globals. *)
Definition tables_of (g : Globals) : InstallType * InstallType := (managedApi g, multitenant g).
Definition tables (s : Session W Q) := tables_of (globals s).

Lemma same_globals_tables {A} (m : M (Session W Q) A) :
  preserves (same globals) m → preserves (same tables) m.
Proof. apply (same_globals tables_of). Qed.
#[local] Hint Resolve same_globals_tables : go.

Lemma new_reconciler_globals p :
  preserves (same (globals (W := W) (Q := Q))) (new_reconciler p).
Proof. unfold new_reconciler. frame. Qed.
Lemma reconcile_product_globals r ps c q u :
  preserves (same (globals (W := W) (Q := Q))) (reconcile_product r ps c q u).
Proof. unfold reconcile_product. frame. Qed.
#[local] Hint Resolve new_reconciler_globals reconcile_product_globals : go.

Lemma addCustomInformer_tables crd ns : preserves (same tables) (addCustomInformer crd ns).
Proof. unfold addCustomInformer. frame. Qed.
#[local] Hint Resolve addCustomInformer_tables : go.

Lemma ensure_informers_tables crds ns p : preserves (same tables) (ensure_informers crds ns p).
Proof.
  induction crds as [|crd crds IH]; cbn [ensure_informers]; frame.
  apply same_intro. unfold make_informers. by destruct (_ !! _).
Qed.
#[local] Hint Resolve ensure_informers_tables : go.

Lemma process_product_tables st p e : preserves (same tables) (process_product st p e).
Proof. unfold process_product. frame. Qed.

Lemma reconcile_bootstrap_globals c q :
  preserves (same (globals (W := W) (Q := Q))) (reconcile_bootstrap c q).
Proof. unfold reconcile_bootstrap. frame. Qed.
Lemma new_bootstrap_reconciler_globals :
  preserves (same (globals (W := W) (Q := Q))) new_bootstrap_reconciler.
Proof. unfold new_bootstrap_reconciler. frame. Qed.
#[local] Hint Resolve reconcile_bootstrap_globals new_bootstrap_reconciler_globals : go.

Lemma bootstrapStage_globals : preserves (same (globals (W := W) (Q := Q))) bootstrapStage.
Proof. unfold bootstrapStage. frame. Qed.
End frames.

(** ** What processStage reports *)

Section process_stage.
Context {W Q : Type} `{Client W ConfigMap} `{Client W RHMI} `{Yaml} `{ProductsInstallationLoader W}
  `{OpenshiftClients W} `{NewClient W} `{MapRangeLaws W} `{ProductInterface W Q}
  `{BootstrapInterface W Q} `{Informers W}.
Implicit Types (s : Session W Q) (st : Stage).

Definition products_of (st : Stage) : gmap string RHMIProductStatus := make_if_nil (st_Products st).
Definition completed (ps : RHMIProductStatus) : Prop := p_Phase ps = PhaseCompleted.
Definition all_completed (st : Stage) : Prop := map_Forall (λ _, completed) (products_of st).

Lemma products_put st p ps : products_of (put_product st p ps) = <[p := ps]> (products_of st).
Proof. reflexivity. Qed.
Lemma name_put st p ps : st_Name (put_product st p ps) = st_Name st.
Proof. reflexivity. Qed.

(** The loop over the products: only their rows change, each row of [order]
    is written, and the loop is incomplete exactly when a row it wrote is. *)
Lemma process_products_spec save order st inc mErr s st' inc' mErr' s' :
  process_products save order st inc mErr s = (Done (st', inr (inc', mErr')), s') →
  NoDup order →
  st_Name st' = st_Name st
  ∧ (∀ p, p ∉ order → products_of st' !! p = products_of st !! p)
  ∧ (∀ p, p ∈ order → is_Some (products_of st' !! p))
  ∧ (inc' = true ↔
     inc = true ∨ ∃ p ps, p ∈ order ∧ products_of st' !! p = Some ps ∧ ¬ completed ps).
Proof.
  revert st inc mErr s. induction order as [|p order IH]; intros st inc mErr s Hp Hnd.
  { cbn in Hp. go_inv. split_and!; [done|done|set_solver|set_solver]. }
  apply NoDup_cons in Hnd as [Hpo Hnd]. cbn [process_products] in Hp.
  apply bind_done_inv in Hp as ([e|[ps e]] & s1 & _ & Hp); [go_inv|].
  apply bind_done_inv in Hp as (? & s2 & _ & Hp).
  apply IH in Hp as (Hn & Hout & Hin & Hinc); [|done]. rewrite products_put in Hout.
  assert (products_of st' !! p = Some ps) as Hps by (by rewrite Hout, lookup_insert_eq).
  split_and!.
  - by rewrite Hn.
  - intros q Hq. apply not_elem_of_cons in Hq as [Hqp Hq]. by rewrite Hout, lookup_insert_ne.
  - intros q [->|Hq]%elem_of_cons; eauto.
  - rewrite Hinc, orb_true_iff, negb_true_iff, str_eqb_false. split.
    + intros [[?|Hc]|(q & ps' & Hq & ?)]; [by left|..]; right.
      * exists p, ps. split; [by left|done].
      * exists q, ps'. split; [by right|done].
    + intros [?|(q & ps' & [->|Hq]%elem_of_cons & Hl & Hc)]; [by left; left|..].
      * left; right. congruence.
      * right. eauto.
Qed.

Lemma processStage_phase_r save st s st' phase err s' :
  processStage save st s = (Done (st', (phase, err)), s') →
  (phase = PhaseCompleted ∧ all_completed st' ∧ dom (products_of st') = dom (products_of st))
  ∨ (phase = PhaseInProgress ∧ ¬ all_completed st' ∧ dom (products_of st') = dom (products_of st))
  ∨ (phase = PhaseFailed ∧ is_Some err).
Proof.
  unfold processStage. intros Hp.
  apply bind_done_inv in Hp as (? & s1 & _ & Hp). apply bind_done_inv in Hp as (? & s2 & _ & Hp).
  apply bind_done_inv in Hp as (order & s3 & Ho & Hp). unfold reads in Ho. injection Ho as <- <-.
  apply bind_done_inv in Hp as ([stf [e|[inc mErr]]] & s4 & Hpp & Hp); cbn in Hp.
  { right; right. go_inv. eauto. }
  go_inv. pose proof (range_keys_perm s2 (dom (make_if_nil (st_Products st)))) as Hperm.
  apply process_products_spec in Hpp as (_ & Hout & Hin & Hinc);
    [|rewrite Hperm; apply NoDup_elements].
  assert (∀ p, p ∈ range_keys s2 (dom (make_if_nil (st_Products st))) ↔ p ∈ dom (products_of st))
    as Hdom by (intros p; by rewrite Hperm, elem_of_elements).
  assert (dom (products_of st') = dom (products_of st)) as Hd.
  { apply set_eq. intros p. rewrite <- Hdom. split; intros Hx.
    - destruct (decide (p ∈ range_keys s2 (dom (make_if_nil (st_Products st))))); [done|].
      apply Hdom. rewrite elem_of_dom in *. by rewrite <- Hout.
    - apply elem_of_dom. auto. }
  destruct inc; [right; left|left]; (split_and!; [done| |done]).
  - intros Hall. destruct (proj1 Hinc eq_refl) as [?|(p & ps & _ & Hl & Hc)]; [done|].
    by destruct Hc; eapply Hall.
  - intros p ps Hl. unfold completed. destruct (decide (p_Phase ps = PhaseCompleted)); [done|].
    assert (false = true); [|done]. apply Hinc. right. exists p, ps. split_and!; [|done|done].
    rewrite Hdom, <- Hd. by eapply elem_of_dom_2.
Qed.

(** C22: processStage reports a stage completed only if every one of its
    products is completed in the status it stores, in progress only if some
    product is not, and failed only with an error: there is no other phase. *)
Theorem processStage_phase save st s st' phase err s' :
  processStage save st s = (Done (st', (phase, err)), s') →
  (phase = PhaseCompleted ∧ all_completed st' ∧ dom (products_of st') = dom (products_of st))
  ∨ (phase = PhaseInProgress ∧ ¬ all_completed st' ∧ dom (products_of st') = dom (products_of st))
  ∨ (phase = PhaseFailed ∧ is_Some err).
Proof. apply processStage_phase_r. Qed.

(** ** The tables after a stage *)

Definition install_rows (t : TypeRef) (s : Session W Q) : list Stage := InstallStages (get_type t s).

Lemma install_rows_tables t s s' : same tables s s' → install_rows t s' = install_rows t s.
Proof. unfold same, tables, install_rows. intros [= Hm1 Hm2]. destruct t; cbn; congruence. Qed.
Lemma install_rows_preserved {A} t (m : M (Session W Q) A) s r s' :
  preserves (same tables) m → m s = (r, s') → install_rows t s' = install_rows t s.
Proof. intros Hm E. eapply install_rows_tables, Hm, E. Qed.
Lemma install_rows_set t i st s :
  install_rows t (set_install_stage t i st s) = <[i := st]> (install_rows t s).
Proof. by destruct t. Qed.

Lemma process_products_rows t i order st inc mErr s st' r s' :
  process_products (set_install_stage t i) order st inc mErr s = (Done (st', r), s') →
  install_rows t s !! i = Some st →
  install_rows t s' = <[i := st']> (install_rows t s).
Proof.
  revert st inc mErr s. induction order as [|p order IH]; intros st inc mErr s Hp Hrow.
  { cbn in Hp. go_inv. by rewrite list_insert_id. }
  cbn [process_products] in Hp.
  apply bind_done_inv in Hp as ([e|[ps e]] & s1 & Hpp & Hp);
    pose proof (install_rows_preserved t _ _ _ _ (process_product_tables _ _ _) Hpp) as Hr.
  { go_inv. by rewrite Hr, list_insert_id. }
  apply bind_done_inv in Hp as (? & s2 & Hm & Hp). unfold modifies in Hm. injection Hm as <- <-.
  apply IH in Hp.
  - rewrite Hp, install_rows_set, Hr. by rewrite list_insert_insert_eq.
  - rewrite install_rows_set, Hr, list_lookup_insert_eq; [done|by eapply lookup_lt_Some].
Qed.

Lemma processStage_rows t i st s st' r s' :
  processStage (set_install_stage t i) st s = (Done (st', r), s') →
  install_rows t s !! i = Some st → install_rows t s' = <[i := st']> (install_rows t s).
Proof.
  unfold processStage. intros Hp Hrow.
  apply bind_done_inv in Hp as (? & s1 & Hm & Hp). unfold modifies in Hm. injection Hm as <- <-.
  apply bind_done_inv in Hp as (? & s2 & Hu & Hp). unfold upd_status, upd_installation, modifies in Hu.
  injection Hu as <- <-.
  apply bind_done_inv in Hp as (order & s3 & Ho & Hp). unfold reads in Ho. injection Ho as <- <-.
  apply bind_done_inv in Hp as ([stf rf] & s4 & Hpp & Hp).
  apply process_products_rows in Hpp; [|by destruct t].
  assert (install_rows t s4 = <[i := stf]> (install_rows t s)) as Hr by (rewrite Hpp; by destruct t).
  destruct rf as [e|[inc mErr]]; go_inv; done.
Qed.

(** One stage: the row it leaves in the table, and that it is completed when
    the stage is. *)
Lemma run_stage_rows t i st s ph s' :
  run_stage t i st s = (Done ph, s') → install_rows t s !! i = Some st →
  ∃ st', install_rows t s' = <[i := st']> (install_rows t s)
    ∧ (ph = PhaseCompleted → st_Name st ≠ BootstrapStage → all_completed st').
Proof.
  unfold run_stage, upd_status, upd_installation. intros Hr Hrow.
  apply bind_done_inv in Hr as ([st' [phase err]] & s1 & Hp & Hr).
  assert (install_rows t s' = install_rows t s1 ∧ ph = phase) as [-> ->] by (go_inv; by destruct t).
  clear Hr. destruct (st_Name st =?s BootstrapStage) eqn:E.
  - apply bind_done_inv in Hp as ([ph' e] & s2 & Hb & Hp). go_inv. exists st'. split.
    + by rewrite (install_rows_preserved t _ _ _ _
        (same_globals_tables _ bootstrapStage_globals) Hb), list_insert_id.
    + apply str_eqb_true in E. done.
  - exists st'. split; [by eapply processStage_rows|]. intros -> _.
    apply processStage_phase_r in Hp as [(_ & Hc & _)|[(Hx & _)|(Hx & _)]]; done.
Qed.

(** ** The stage loop as a step relation *)

Inductive StagesRun (t : TypeRef) : nat → nat → Session W Q → bool → Session W Q → Prop :=
  | SR_done i s : StagesRun t i 0 s false s
  | SR_stop i k st ph s s1 :
      install_rows t s !! i = Some st → run_stage t i st s = (Done ph, s1) →
      ph ≠ PhaseCompleted → StagesRun t i (S k) s true s1
  | SR_next i k st b s s1 s2 :
      install_rows t s !! i = Some st → run_stage t i st s = (Done PhaseCompleted, s1) →
      StagesRun t (S i) k s1 b s2 → StagesRun t i (S k) s b s2.

Lemma run_stages_refines_r t i k s b s' :
  run_stages t i k s = (Done b, s') → StagesRun t i k s b s'.
Proof.
  revert i s. induction k as [|k IH]; intros i s Hr; cbn [run_stages] in Hr.
  { go_inv. constructor. }
  apply bind_done_inv in Hr as (st & s1 & Hst & Hr). unfold reads in Hst. injection Hst as <- <-.
  destruct (_ !! i) as [st|] eqn:Est; [|go_inv].
  apply bind_done_inv in Hr as (ph & s1 & Hs & Hr).
  destruct (ph =?s PhaseCompleted) eqn:E; cbn in Hr.
  - apply str_eqb_true in E as ->. econstructor 3; eauto.
  - apply str_eqb_false in E. go_inv. by econstructor 2.
Qed.


Lemma StagesRun_rows t i k s b s' :
  StagesRun t i k s b s' →
  length (install_rows t s') = length (install_rows t s)
  ∧ ∃ j, i ≤ j ≤ i + k
    ∧ (b = false → j = i + k) ∧ (b = true → j < i + k)
    ∧ (∀ x, x < i ∨ j < x → install_rows t s' !! x = install_rows t s !! x)
    ∧ (∀ x st st', i ≤ x < j → install_rows t s !! x = Some st → install_rows t s' !! x = Some st' →
        st_Name st ≠ BootstrapStage → all_completed st').
Proof.
  induction 1 as [i s|i k st ph s s1 Hst Hs Hph|i k st b s s1 s2 Hst Hs Hrun IH].
  - split; [done|]. exists i. split_and!; [lia|lia|intros _; lia|done|done|]. intros; lia.
  - apply run_stage_rows in Hs as (st' & Hr & _); [|done]. rewrite Hr, length_insert.
    split; [done|]. exists i. split_and!; [lia|lia|done|lia| |].
    + intros x Hx. rewrite list_lookup_insert_ne by lia. done.
    + intros; lia.
  - destruct IH as (Hlen & j & Hj1 & Hjf & Hjt & Hout & Hin).
    apply run_stage_rows in Hs as (st1 & Hr & Hc); [|done]. rewrite Hr in Hout, Hlen.
    rewrite length_insert in Hlen. split; [done|]. exists j.
    split_and!; [lia|lia|intros ->; specialize (Hjf eq_refl); lia|intros ->; specialize (Hjt eq_refl); lia| |].
    + intros x Hx. rewrite Hout by lia. rewrite list_lookup_insert_ne by lia. done.
    + intros x st0 st' Hx Hst0 Hst' Hn. destruct (decide (x = i)) as [->|Hne].
      * rewrite Hout in Hst' by lia. rewrite list_lookup_insert_eq in Hst' by (by eapply lookup_lt_Some).
        simplify_eq. by apply Hc.
      * eapply (Hin x); [lia| |done|done]. rewrite Hr, list_lookup_insert_ne by lia. done.
Qed.

(** C2: The stage loop over all the stages of a type stops at a stage: every
    product of every stage before it (other than the bootstrap stage, which
    has none) is completed in the stage table, every stage after it is as it
    was before the loop, and the loop reports that no installation is in
    progress only if it got past the last stage. *)
Theorem run_stages_in_order t s b s' :
  run_stages t 0 (length (install_rows t s)) s = (Done b, s') →
  ∃ j, j ≤ length (install_rows t s)
    ∧ (b = false ↔ j = length (install_rows t s))
    ∧ (∀ x, j < x → install_rows t s' !! x = install_rows t s !! x)
    ∧ (∀ x st st', x < j → install_rows t s !! x = Some st → install_rows t s' !! x = Some st' →
        st_Name st ≠ BootstrapStage → all_completed st').
Proof.
  intros Hr%run_stages_refines_r. apply StagesRun_rows in Hr as (_ & j & Hj & Hf & Ht & Hout & Hin).
  exists j. split_and!; [lia| | |].
  - destruct b; split; [done|specialize (Ht eq_refl); lia|intros _; auto|done].
  - intros x Hx. apply Hout. lia.
  - intros x st st' Hx. apply Hin. lia.
Qed.
End process_stage.
