(* ===== verification/Preflight.v ===== *)
(** * Preflight checks (internal/controller/rhmi/rhmi_controller.go)

    preflightChecks and what it calls: before anything is installed, the
    environment, the custom resource, the secrets, the add-on parameters and
    the namespaces of the cluster are checked; a failed check is recorded in
    the status and retried. *)

From stdpp Require Import base list strings gmap.
From Stdlib Require Import ZArith Lia.
From S2P Require Import Prelude Kube Api Resources Olm Quota Pods Config Cluster Addon Metrics Products.
From S2P Require Import Session Stages.

(** ** Environment variables *)


Definition EnvCheck : Type := string → bool → option error.

Definition optionalEnvVar (check : string → option error) : EnvCheck :=
  λ value ok, if negb ok then None else check value.
Definition requiredEnvVar (check : string → option error) : EnvCheck :=
  λ value ok, if negb ok then Some (ErrStr "required env var not present") else check value.

Section env.
Context {W : Type} `{OsEnv W} `{MapRange W}.

(** The range over the checks, in the order [names]. *)
Fixpoint check_env_vars (checks : gmap string EnvCheck) (names : list string) (w : W)
    : option error :=
  match names with
  | [] => None
  | env :: names' =>
      match checks !! env with
      | None => check_env_vars checks names' w
      | Some check =>
          match check (Getenv env w) (is_some (LookupEnv env w)) with
          | Some err => Some (ErrWrap ("validation failure for env var " +:+ env +:+ ": ") err)
          | None => check_env_vars checks names' w
          end
      end
  end.
Lemma check_env_vars_ext checks names w w' :
  (∀ k, LookupEnv k w' = LookupEnv k w) →
  check_env_vars checks names w' = check_env_vars checks names w.
Proof.
  intros He. induction names as [|n names IH]; [done|]. cbn [check_env_vars].
  unfold Getenv. by rewrite !He, IH.
Qed.
Definition checkEnvVars (checks : gmap string EnvCheck) : M W (option error) :=
  reads (λ w, check_env_vars checks (range_keys w (dom checks)) w).
End env.

Definition parse_bool_error (s : string) : option error :=
  match parse_bool s with
  | Some _ => None
  | None => Some (ErrStr ("strconv.ParseBool: parsing " +:+ dquote +:+ s +:+ dquote
                          +:+ ": invalid syntax"))
  end.

(** The checks preflightChecks runs. *)
Definition preflight_env_checks : gmap string EnvCheck := list_to_map [
  (AntiAffinityRequiredEnvVar, optionalEnvVar parse_bool_error);
  (EnvKeyAlertSMTPFrom, requiredEnvVar (λ s,
     if s =?s "" then Some (ErrStr (" env var " +:+ EnvKeyAlertSMTPFrom +:+ " is required ")) else None))].

(** time.Now().Add(-time.Minute).After(creation) *)
Definition isInstallationOlderThan1Minute (t : Z) (i : RHMI) : bool :=
  (CreationTimestamp (rhmi_meta i) <? t - minute_ns)%Z.

(** ** The observability cluster package *)

Definition hasMatchingCondition (conditions : list Condition) (conditionType expectedStatus : string)
    (expectedGeneration : Z) : bool :=
  existsb (λ c, (c_Type c =?s conditionType) && (c_Status c =?s expectedStatus)
                && (c_ObservedGeneration c =? expectedGeneration)%Z) conditions.

Definition isPackageReady (pkg : ClusterPackage) : bool :=
  let gen := Generation (pkg_meta pkg) in
  hasMatchingCondition (pkg_Conditions pkg) "Available" ConditionTrue gen
  && hasMatchingCondition (pkg_Conditions pkg) "Progressing" ConditionFalse gen.

(** ** The checks *)

Section preflight.
Context {W Q : Type} `{Client W ConfigMap} `{Client W RHMI} `{Client W Secret}
  `{Client W Subscription} `{Client W NamespaceObj} `{Client W DeploymentRef}
  `{Client W DeploymentConfigRef} `{Client W CloudCredential} `{Client W ClusterPackage}
  `{Yaml} `{ProductsInstallationLoader W} `{OpenshiftClients W} `{NewClient W} `{MapRange W}
  `{OsEnv W} `{Clock W} `{EventRecorder W}.
(** fmt's plus-v verb on a list of conditions *)
Context (conditions_text : list Condition → string).

Definition checkClusterPackageAvailablity (c : KClient) : M (Session W Q) (option error) :=
  got ← GetOboClusterPackage c;
  match got with
  | inl err => mret (Some (ErrWrap "failed to get ClusterPackage: " err))
  | inr pkg =>
      if isPackageReady pkg then mret None
      else mret (Some (ErrStr ("error: package is not ready (Available=True, Progressing=False required), current conditions: "
                               +:+ conditions_text (pkg_Conditions pkg))))
  end.

(** The inner loop over the products of one stage. *)
Fixpoint find_products (serverClient : KClient) (nsName : string) (ps : list RHMIProductStatus)
    (foundProducts : list string) : M (Session W Q) (list string * option error) :=
  match ps with
  | [] => mret (foundProducts, None)
  | product :: ps' =>
      '(reconciler, err) ← new_reconciler (p_Name product);
      match err with
      | Some e => mret (foundProducts, Some e)
      | None =>
          search ← lift (GetPreflightObject reconciler nsName);
          match search with
          | None => find_products serverClient nsName ps' foundProducts
          | Some search =>
              '(exists_, err) ← preflight_exists serverClient search;
              match err with
              | Some e => mret (foundProducts, Some e)
              | None =>
                  find_products serverClient nsName ps'
                    (if (exists_ : bool) then foundProducts ++ [p_Name product] else foundProducts)
              end
          end
      end
  end.

Fixpoint find_in_stages (serverClient : KClient) (nsName : string) (stages : list Stage)
    (foundProducts : list string) : M (Session W Q) (list string * option error) :=
  match stages with
  | [] => mret (foundProducts, None)
  | stage :: stages' =>
      let products := make_if_nil (st_Products stage) in
      order ← reads (λ s, range_keys s (dom products));
      '(foundProducts, err) ←
        find_products serverClient nsName (map_get zero_product products <$> order) foundProducts;
      match err with
      | Some e => mret (foundProducts, Some e)
      | None => find_in_stages serverClient nsName stages' foundProducts
      end
  end.

Definition checkNamespaceForProducts (nsName : string) (installationType : TypeRef)
    : M (Session W Q) (list string * option error) :=
  if has_prefix "openshift-" nsName then mret ([], None)
  else if has_prefix "kube-" nsName then mret ([], None)
  else
    c ← k8sclient_New;
    match c with
    | inl e => mret ([], Some e)
    | inr serverClient =>
        stages ← reads (λ s, InstallStages (get_type installationType s));
        find_in_stages serverClient nsName stages []
    end.

Definition preflight_result : Result := mkResult true (10 * second_ns).

(** installation.Status.PreflightStatus = PreflightFail, with a message, and
    the status update; the error returned is the update's. *)
Definition preflight_fail (msg : string) : M (Session W Q) (Result * option error) :=
  upd_status (λ s, set_Preflight s PreflightFail msg) ;;
  err ← update_installation_status ManagerClient;
  mret (preflight_result, err).

(** The loop over the namespaces; [Some] is where preflightChecks returns. *)
Fixpoint check_namespaces (namespaces : list NamespaceObj) (installationType : TypeRef)
    : M (Session W Q) (option (Result * option error)) :=
  match namespaces with
  | [] => mret None
  | ns :: namespaces' =>
      '(nsProducts, err) ← checkNamespaceForProducts (Name (ns_meta ns)) installationType;
      match err with
      | Some e => mret (Some (preflight_result, Some e))
      | None =>
          match nsProducts with
          | [] => check_namespaces namespaces' installationType
          | _ =>
              r ← preflight_fail ("found conflicting packages: " +:+ join ", " nsProducts
                                  +:+ ", in namespace: " +:+ Name (ns_meta ns));
              mret (Some r)
          end
      end
  end.

(** The message of the quota parameter check; empty when it passes. *)
Definition quota_parameter_message (okParam : bool) (older : bool) (quotaEnv : option string)
    : string :=
  if okParam then ""
  else if negb older then "quota parameter not found, waiting 1 minute before defaulting to env var"
  else match quotaEnv with
       | Some v => if v =?s "" then "quota parameter not found from add-on or env var" else ""
       | None => "quota parameter not found from add-on or env var"
       end.

(** *** preflightChecks, in the order of the source.  Each part returns
    [Some] where the function returns. *)

Definition check_spec : M (Session W Q) (option (Result * option error)) :=
  i ← the_installation;
  let u := to_lower (UseClusterStorage (Spec i)) in
  if negb (u =?s "true") && negb (u =?s "false") then
    r ← preflight_fail "Spec.useClusterStorage must be set to either 'true' or 'false' to continue";
    mret (Some r)
  else mret None.

Definition check_secrets : M (Session W Q) (option (Result * option error)) :=
  i ← the_installation;
  let ns := Namespace (rhmi_meta i) in
  let secretName := PagerDutySecret (Spec i) in
  '(exists_, err) ← Exists ManagerClient (mkSecret (named ns secretName) None);
  match err with
  | Some e => mret (Some (zero_Result, Some e))
  | None =>
      if negb (exists_ : bool) then
        let preflightMessage := "Could not find " +:+ secretName +:+ " secret in " +:+ ns +:+ " namespace" in
        event "Warning" EventProcessingError preflightMessage ;;
        r ← preflight_fail preflightMessage;
        mret (Some r)
      else
        event "Normal" EventPreflightCheckPassed ("found required secret: " +:+ secretName) ;; mret None
  end.

Definition check_quota_parameter : M (Session W Q) (option (Result * option error)) :=
  i ← the_installation;
  '(okParam, err) ← ExistsParameterByInstallation ManagerClient i QuotaParamName;
  match err with
  | Some e => mret (Some (preflight_result, Some e))
  | None =>
      '(okParam, err) ← (if (okParam : bool) then mret (true, None)
                         else ExistsParameterByInstallation ManagerClient i TrialQuotaParamName);
      match err with
      | Some e => mret (Some (preflight_result, Some e))
      | None =>
          msg ← reads (λ s, quota_parameter_message okParam
                              (isInstallationOlderThan1Minute (now s) (installation s))
                              (LookupEnv EnvKeyQuota s));
          if negb (msg =?s "") then
            event "Warning" EventProcessingError msg ;;
            r ← preflight_fail msg;
            mret (Some r)
          else mret None
      end
  end.

Definition check_conflicts (installationType : TypeRef)
    : M (Session W Q) (option (Result * option error)) :=
  ls ← client_list (O := NamespaceObj) ManagerClient list_all;
  match ls with
  | inl e => mret (Some (preflight_result, Some e))
  | inr namespaces => check_namespaces namespaces installationType
  end.

Definition check_cluster : M (Session W Q) (option (Result * option error)) :=
  '(_, err) ← IsClusterSTS ManagerClient;
  match err with
  | Some e => mret (Some (preflight_result, Some e))
  | None =>
      i ← the_installation;
      if negb (IsInProw i) then
        err ← checkClusterPackageAvailablity ManagerClient;
        match err with
        | Some _ =>
            r ← preflight_fail "error validating cluster package availability";
            mret (Some r)
        | None => mret None
        end
      else mret None
  end.

(** The checks in their order, up to the first that returns. *)
Definition checks (installationType : TypeRef)
    : list (M (Session W Q) (option (Result * option error))) :=
  [check_spec; check_secrets; check_quota_parameter; check_conflicts installationType; check_cluster].

Fixpoint run_checks (l : list (M (Session W Q) (option (Result * option error))))
    : M (Session W Q) (option (Result * option error)) :=
  match l with
  | [] => mret None
  | check :: l' =>
      r ← check;
      match r with
      | Some r => mret (Some r)
      | None => run_checks l'
      end
  end.

Definition preflightChecks (installationType : TypeRef) : M (Session W Q) (Result * option error) :=
  upd_status (λ s, set_Stage s "Preflight Checks") ;;
  err ← checkEnvVars preflight_env_checks;
  match err with
  | Some e => mret (preflight_result, Some e)
  | None =>
      r ← run_checks (checks installationType);
      match r with
      | Some r => mret r
      | None =>
          upd_status (λ s, set_Preflight s PreflightSuccess "preflight checks passed") ;;
          _ ← update_installation_status ManagerClient;
          mret (preflight_result, None)
      end
  end.
End preflight.

(** ** What a passed preflight means *)

Section passed.
Context {W Q : Type} `{Client W ConfigMap} `{Client W RHMI} `{Client W Secret}
  `{Client W Subscription} `{Client W NamespaceObj} `{Client W DeploymentRef}
  `{Client W DeploymentConfigRef} `{Client W CloudCredential} `{Client W ClusterPackage}
  `{Yaml} `{ProductsInstallationLoader W} `{OpenshiftClients W} `{NewClient W} `{MapRange W}
  `{OsEnv W} `{Clock W} `{EventRecorder W}.
Context (conditions_text : list Condition → string).
Implicit Types (s : Session W Q).

(** The API server stores the status it is given. *)
Hypothesis status_echo : ∀ c (i : RHMI) (w : W),
  (∃ e w', client_status_update c i w = (Done (inl e), w'))
  ∨ (∃ w', client_status_update c i w = (Done (inr i), w')).

Lemma update_status_installation c s r s' :
  update_installation_status c s = (Done r, s') → installation s' = installation s.
Proof.
  unfold update_installation_status. intros Hu.
  apply bind_done_inv in Hu as (i & s1 & Hi & Hu). unfold the_installation, reads in Hi.
  injection Hi as <- <-. apply bind_done_inv in Hu as (x & s1 & Hc & Hu).
  unfold session_client, client_status_update, on_world in Hc.
  destruct (status_echo c (installation s) (world s)) as [(e & w' & Hs)|(w' & Hs)];
    unfold client_status_update in Hs; rewrite Hs in Hc; injection Hc as <- <-; cbn in Hu;
    unfold upd_installation in Hu; go_inv; done.
Qed.

Lemma preflight_fail_spec msg s r s' :
  preflight_fail msg s = (Done r, s') →
  PreflightStatus (Status (installation s')) = PreflightFail ∧ r.1 = preflight_result.
Proof.
  unfold preflight_fail. intros Hf. apply bind_done_inv in Hf as (? & s1 & Hu & Hf).
  unfold upd_status, upd_installation, modifies in Hu. injection Hu as <- <-.
  apply bind_done_inv in Hf as (e & s2 & Hu & Hf). apply update_status_installation in Hu.
  go_inv. by rewrite Hu.
Qed.

(** A check that lets preflightChecks go on leaves the installation as it
    was; one that ends it either leaves it or records the failure. *)
Definition check_post (s : Session W Q) (r : option (Result * option error)) (s' : Session W Q) : Prop :=
  installation s' = installation s
  ∨ is_Some r ∧ PreflightStatus (Status (installation s')) = PreflightFail.

Definition same_installation : Session W Q → Session W Q → Prop := same installation.

Lemma on_world_installation {A} (m : M W A) : preserves (same (installation (Q := Q))) (on_world m).
Proof. by apply on_world_same. Qed.
Lemma event_installation t r m : preserves (same (installation (W := W) (Q := Q))) (event t r m).
Proof. unfold event. frame. Qed.
Lemma client_get_installation {O} `{Client W O} c ns n :
  preserves (same (installation (W := W) (Q := Q))) (client_get (O := O) c ns n).
Proof. apply on_world_installation. Qed.
Lemma client_list_installation {O} `{Client W O} c l :
  preserves (same (installation (W := W) (Q := Q))) (client_list (O := O) c l).
Proof. apply on_world_installation. Qed.
Lemma new_client_installation : preserves (same (installation (W := W) (Q := Q))) k8sclient_New.
Proof. apply on_world_installation. Qed.
Lemma new_reconciler_installation p : preserves (same (installation (W := W) (Q := Q))) (new_reconciler p).
Proof.
  unfold new_reconciler. frame; try apply on_world_installation.
Qed.
#[local] Hint Resolve on_world_installation event_installation client_get_installation
  client_list_installation new_client_installation new_reconciler_installation : go.

Lemma Exists_installation {O} `{Client W O} `{K8sObject O} c (o : O) :
  preserves (same (installation (W := W) (Q := Q))) (Exists c o).
Proof. unfold Exists. frame. Qed.
Lemma GetParameter_installation c ns p :
  preserves (same (installation (W := W) (Q := Q))) (GetParameter c ns p).
Proof. unfold GetParameter, GetAddonParametersSecret. frame. Qed.
Lemma ExistsParameter_installation c i p :
  preserves (same (installation (W := W) (Q := Q))) (ExistsParameterByInstallation c i p).
Proof. unfold ExistsParameterByInstallation. pose proof GetParameter_installation. frame. Qed.
Lemma preflight_exists_installation c o :
  preserves (same (installation (W := W) (Q := Q))) (preflight_exists c o).
Proof. unfold preflight_exists. destruct o; apply Exists_installation. Qed.
#[local] Hint Resolve Exists_installation ExistsParameter_installation preflight_exists_installation : go.
Lemma find_products_installation c n ps f :
  preserves (same (installation (W := W) (Q := Q))) (find_products c n ps f).
Proof. revert f. induction ps; intros f; cbn [find_products]; frame. Qed.
#[local] Hint Resolve find_products_installation : go.
Lemma find_in_stages_installation c n st f :
  preserves (same (installation (W := W) (Q := Q))) (find_in_stages c n st f).
Proof. revert f. induction st; intros f; cbn [find_in_stages]; frame. Qed.
#[local] Hint Resolve find_in_stages_installation : go.
Lemma checkNamespace_installation n t :
  preserves (same (installation (W := W) (Q := Q))) (checkNamespaceForProducts n t).
Proof. unfold checkNamespaceForProducts. frame. Qed.
#[local] Hint Resolve checkNamespace_installation : go.
Lemma IsClusterSTS_installation c :
  preserves (same (installation (W := W) (Q := Q))) (IsClusterSTS c).
Proof. unfold IsClusterSTS. frame. Qed.
Lemma package_installation c :
  preserves (same (installation (W := W) (Q := Q))) (checkClusterPackageAvailablity conditions_text c).
Proof. unfold checkClusterPackageAvailablity, GetOboClusterPackage. frame. Qed.
#[local] Hint Resolve IsClusterSTS_installation package_installation : go.

(** What a function that leaves the installation alone is known to do. *)
Lemma keep {A} (m : M (Session W Q) A) s r s' :
  preserves (same installation) m → m s = (r, s') → installation s' = installation s.
Proof. intros Hm E. exact (Hm _ _ _ E). Qed.

(** *** The facts the checks establish, of the session a check starts in and
    the one it ends in *)

Definition storage_ok (s s' : Session W Q) : Prop :=
  to_lower (UseClusterStorage (Spec (installation s))) = "true"
  ∨ to_lower (UseClusterStorage (Spec (installation s))) = "false".
Definition secret_found (s s' : Session W Q) : Prop := ∃ s1,
  let i := installation s in
  Exists ManagerClient (mkSecret (named (Namespace (rhmi_meta i)) (PagerDutySecret (Spec i))) None) s
  = (Done (true, None), s1).
(** The answer to whether the add-on has a parameter. *)
Definition parameter_answer (i : RHMI) (p : string) (b : bool) (s s' : Session W Q) : Prop :=
  ExistsParameterByInstallation ManagerClient i p s = (Done (b, None), s').
Definition quota_given (s s' : Session W Q) : Prop :=
  let i := installation s in
  parameter_answer i QuotaParamName true s s'
  ∨ ∃ s1, parameter_answer i QuotaParamName false s s1
    ∧ (parameter_answer i TrialQuotaParamName true s1 s'
       ∨ (parameter_answer i TrialQuotaParamName false s1 s'
          ∧ isInstallationOlderThan1Minute (now s') i = true
          ∧ ∃ v, LookupEnv EnvKeyQuota s' = Some v ∧ v ≠ "")).
(** No product was found in any of the namespaces, asked one after the other. *)
Fixpoint all_clear (t : TypeRef) (nss : list NamespaceObj) (s s' : Session W Q) : Prop :=
  match nss with
  | [] => s' = s
  | ns :: nss' => ∃ s1,
      checkNamespaceForProducts (Name (ns_meta ns)) t s = (Done ([], None), s1) ∧ all_clear t nss' s1 s'
  end.
Definition no_conflicts (t : TypeRef) (s s' : Session W Q) : Prop := ∃ nss s1,
  client_list (O := NamespaceObj) ManagerClient list_all s = (Done (inr nss), s1)
  ∧ all_clear t nss s1 s'.
Definition package_ready (s s' : Session W Q) : Prop :=
  IsInProw (installation s) = true ∨ ∃ s1 pkg,
    GetOboClusterPackage ManagerClient s1 = (Done (inr pkg), s') ∧ isPackageReady pkg = true.

(** A check keeps the installation and establishes [P] when it lets
    preflightChecks go on, and otherwise keeps it or records a failure. *)
Definition checks_that (P : Session W Q → Session W Q → Prop)
    (m : M (Session W Q) (option (Result * option error))) : Prop := ∀ s r s', m s = (Done r, s') →
  match r with
  | None => installation s' = installation s ∧ P s s'
  | Some _ => installation s' = installation s
              ∨ PreflightStatus (Status (installation s')) = PreflightFail
  end.

Lemma check_spec_ok : checks_that storage_ok check_spec.
Proof.
  intros s r s' Hc. unfold check_spec in Hc.
  apply bind_done_inv in Hc as (i & s1 & Hi & Hc). unfold the_installation, reads in Hi.
  injection Hi as <- <-. destruct (_ && _) eqn:E.
  - apply bind_done_inv in Hc as (x & s2 & Hf & Hc). apply preflight_fail_spec in Hf as [Hf _].
    go_inv. by right.
  - go_inv. split; [done|]. apply andb_false_iff in E. rewrite !negb_false_iff, !str_eqb_true in E.
    exact E.
Qed.

Lemma check_secrets_ok : checks_that secret_found check_secrets.
Proof.
  intros s r s' Hc. unfold check_secrets in Hc.
  apply bind_done_inv in Hc as (i & s1 & Hi & Hc). unfold the_installation, reads in Hi.
  injection Hi as <- <-. apply bind_done_inv in Hc as ([found err] & s2 & He & Hc).
  pose proof (keep _ _ _ _ (Exists_installation _ _) He) as Hk.
  destruct err as [e|]; [go_inv; by left|]. destruct found; cbn in Hc.
  - apply bind_done_inv in Hc as (u & s3 & Hv & Hc).
    apply (keep _ _ _ _ (event_installation _ _ _)) in Hv. go_inv. split; [congruence|].
    by exists s2.
  - apply bind_done_inv in Hc as (u & s3 & Hv & Hc). apply bind_done_inv in Hc as (x & s4 & Hf & Hc).
    apply preflight_fail_spec in Hf as [Hf _]. go_inv. by right.
Qed.

Lemma quota_parameter_message_empty ok older env :
  quota_parameter_message ok older env = "" →
  ok = true ∨ (ok = false ∧ older = true ∧ ∃ v, env = Some v ∧ v ≠ "").
Proof.
  unfold quota_parameter_message. destruct ok; [by left|]. destruct older; [|done].
  destruct env as [v|]; [|done]. destruct (v =?s "") eqn:E; [done|]. apply str_eqb_false in E. eauto 6.
Qed.

Lemma check_quota_parameter_ok : checks_that quota_given check_quota_parameter.
Proof.
  intros s r s' Hc. unfold check_quota_parameter in Hc.
  apply bind_done_inv in Hc as (i & s1 & Hi & Hc). unfold the_installation, reads in Hi.
  injection Hi as <- <-. apply bind_done_inv in Hc as ([ok err] & s2 & He & Hc).
  pose proof (keep _ _ _ _ (ExistsParameter_installation _ _ _) He) as Hk.
  destruct err as [e|]; [go_inv; by left|].
  apply bind_done_inv in Hc as ([ok2 err] & s3 & He2 & Hc).
  assert (installation s3 = installation s2 ∧ (err = None →
    if ok then ok2 = true ∧ s3 = s2
    else parameter_answer (installation s) TrialQuotaParamName ok2 s2 s3)) as [Hk2 Hok].
  { destruct ok; [by go_inv|]. split; [by apply (keep _ _ _ _ (ExistsParameter_installation _ _ _) He2)|].
    intros ->. exact He2. }
  destruct err as [e|]; [go_inv; left; congruence|]. specialize (Hok eq_refl). clear He2.
  apply bind_done_inv in Hc as (msg & s4 & Hm & Hc). unfold reads in Hm. injection Hm as Hm <-.
  destruct (msg =?s "") eqn:E; cbn in Hc.
  - apply str_eqb_true in E. rewrite E in Hm. apply quota_parameter_message_empty in Hm.
    go_inv. split; [congruence|]. destruct ok.
    + destruct Hok as [_ ->]. by left.
    + right. exists s2. split; [done|]. destruct Hm as [->|(-> & Ho & Hv)]; [by left|right].
      split; [done|]. by rewrite <- Hk, <- Hk2.
  - apply bind_done_inv in Hc as (u & s5 & Hv & Hc). apply bind_done_inv in Hc as (x & s6 & Hf & Hc).
    apply preflight_fail_spec in Hf as [Hf _]. go_inv. by right.
Qed.

Lemma check_namespaces_ok nss t : checks_that (all_clear t nss) (check_namespaces nss t).
Proof.
  induction nss as [|ns nss IH]; intros s r s' Hc; cbn [check_namespaces] in Hc.
  { by go_inv. }
  apply bind_done_inv in Hc as ([found err] & s2 & He & Hc).
  pose proof (keep _ _ _ _ (checkNamespace_installation _ _) He) as Hk.
  destruct err as [e|]; [go_inv; by left|]. destruct found as [|f found].
  - apply IH in Hc. destruct r as [r|]; [by rewrite <- Hk|].
    destruct Hc as [Hi Hn]. split; [congruence|]. by exists s2.
  - apply bind_done_inv in Hc as (x & s3 & Hf & Hc). apply preflight_fail_spec in Hf as [Hf _].
    go_inv. by right.
Qed.

Lemma check_conflicts_ok t : checks_that (no_conflicts t) (check_conflicts t).
Proof.
  intros s r s' Hc. unfold check_conflicts in Hc.
  apply bind_done_inv in Hc as (ls & s1 & Hl & Hc).
  pose proof (keep _ _ _ _ (client_list_installation _ _) Hl) as Hk.
  destruct ls as [e|nss]; [go_inv; by left|].
  apply check_namespaces_ok in Hc. destruct r as [r|]; [by rewrite <- Hk|].
  destruct Hc as [Hi Hn]. split; [congruence|]. by exists nss, s1.
Qed.

Lemma check_cluster_ok : checks_that package_ready (check_cluster conditions_text).
Proof.
  intros s r s' Hc. unfold check_cluster in Hc.
  apply bind_done_inv in Hc as ([sts err] & s1 & Hs & Hc).
  pose proof (keep _ _ _ _ (IsClusterSTS_installation _) Hs) as Hk.
  destruct err as [e|]; [go_inv; by left|].
  apply bind_done_inv in Hc as (i & s2 & Hi & Hc). unfold the_installation, reads in Hi.
  injection Hi as <- <-. destruct (IsInProw (installation s1)) eqn:Ep; cbn in Hc.
  { go_inv. split; [done|]. left. by rewrite <- Hk. }
  apply bind_done_inv in Hc as (err & s2 & Hp & Hc).
  pose proof (keep _ _ _ _ (package_installation _) Hp) as Hk2.
  destruct err as [e|].
  - apply bind_done_inv in Hc as (x & s3 & Hf & Hc). apply preflight_fail_spec in Hf as [Hf _].
    go_inv. by right.
  - go_inv. split; [congruence|]. right. unfold checkClusterPackageAvailablity in Hp.
    apply bind_done_inv in Hp as ([e|pkg] & s3 & Hg & Hp); [go_inv|].
    destruct (isPackageReady pkg) eqn:E; [|go_inv]. go_inv. by exists s1, pkg.
Qed.

(** The checks of a list went through one after the other, each starting in
    the session the one before left, and each established its fact. *)
Fixpoint passed (l : list (M (Session W Q) (option (Result * option error))
                           * (Session W Q → Session W Q → Prop))) (s s' : Session W Q) : Prop :=
  match l with
  | [] => s' = s
  | (check, P) :: l' => ∃ s1, check s = (Done None, s1) ∧ P s s1 ∧ passed l' s1 s'
  end.

Lemma run_checks_ok l s r s' :
  Forall (λ mp, checks_that mp.2 mp.1) l →
  run_checks l.*1 s = (Done r, s') →
  match r with
  | None => installation s' = installation s ∧ passed l s s'
  | Some _ => installation s' = installation s
              ∨ PreflightStatus (Status (installation s')) = PreflightFail
  end.
Proof.
  intros Hl. revert s. induction Hl as [|[m P] l Hm Hl IH]; intros s Hr; cbn in Hr.
  { by go_inv. }
  apply bind_done_inv in Hr as ([x|] & s1 & Hx & Hr); pose proof Hx as Hx'; apply Hm in Hx'.
  - by go_inv.
  - destruct Hx' as [Hi Hp]. apply IH in Hr. rewrite Hi in Hr.
    destruct r; [done|]. destruct Hr. split; [done|]. by exists s1.
Qed.

(** The checks and what each of them establishes. *)
Definition checks_and_facts (t : TypeRef)
    : list (M (Session W Q) (option (Result * option error)) * (Session W Q → Session W Q → Prop)) := [
  (check_spec, storage_ok); (check_secrets, secret_found); (check_quota_parameter, quota_given);
  (check_conflicts t, no_conflicts t); (check_cluster conditions_text, package_ready)].

Lemma checks_and_facts_ok t : Forall (λ mp, checks_that mp.2 mp.1) (checks_and_facts t).
Proof.
  repeat constructor; cbn; [apply check_spec_ok|apply check_secrets_ok|
    apply check_quota_parameter_ok|apply check_conflicts_ok|apply check_cluster_ok].
Qed.

Definition preflight_started (s : Session W Q) : Session W Q :=
  set_installation (on_status (λ st, set_Stage st "Preflight Checks") (installation s)) s.

End passed.
