(* ===== verification/Uninstall.v ===== *)
(** * Uninstall (internal/controller/rhmi/rhmi_controller.go)

    handleUninstall and what it calls: the products whose finalizers are on
    the custom resource are uninstalled stage by stage, then the operator's
    own config maps and its last finalizer are removed, and the operator
    uninstalls itself. *)

From stdpp Require Import base list strings gmap.
From Stdlib Require Import ZArith Lia.
From S2P Require Import Prelude Kube Api Resources Olm Quota Config Addon Alerts Metrics Products.
From S2P Require Import Session Stages.

Definition deletionFinalizer : string := "configmaps/finalizer".
Definition previousDeletionFinalizer : string := "finalizer/configmaps".
Definition DefaultInstallationConfigMapName : string := "installation-config".
Definition DefaultCloudResourceConfigName : string := "cloud-resource-config".

Section uninstall.
Context {W Q : Type} `{Client W ConfigMap} `{Client W RHMI} `{Client W PrometheusRule}
  `{Client W Subscription} `{Client W ClusterServiceVersion} `{Yaml}
  `{ProductsInstallationLoader W} `{OpenshiftClients W} `{NewClient W} `{MapRange W} `{OsEnv W}
  `{Prometheus W} `{ProductInterface W Q} `{BootstrapInterface W Q}.

Definition retryRequeue : Result := mkResult true (10 * second_ns).

Definition installation_config_map : M (Session W Q) string :=
  reads (λ s, let n := Getenv "INSTALLATION_CONFIG_MAP" s in
              if n =?s "" then NamespacePrefix (Spec (installation s)) +:+ DefaultInstallationConfigMapName
              else n).

(** k8sclient.New where a failure is noted and the nil client used. *)
Definition server_client (what : string) (merr : MultiErr) : M (Session W Q) (KClient * MultiErr) :=
  c ← k8sclient_New;
  match c with
  | inl e => mret (NilClient, MultiErr_Add merr (ErrWrap what e))
  | inr c => mret (c, merr)
  end.

(** The loop over the finalizers; the product status is shared by its turns. *)
Fixpoint uninstall_product (product : ProductName) (fs : list string) (ps : RHMIProductStatus)
    (merr : MultiErr) : M (Session W Q) (bool * MultiErr) :=
  match fs with
  | [] => mret (false, merr)
  | productFinalizer :: fs' =>
      (* if the finalizer for this product is not present, move to the next product *)
      if negb (str_contains product productFinalizer) then uninstall_product product fs' ps merr
      else
        '(reconciler, err) ← new_reconciler product;
        let merr := match err with
                    | Some e => MultiErr_Add merr
                        (ErrWrap ("failed to build reconciler for product " +:+ product +:+ ": ") e)
                    | None => merr
                    end in
        '(serverClient, merr) ← server_client ("failed to create server client for " +:+ product +:+ ": ") merr;
        i ← the_installation;
        let uninstall := p_Uninstall ps || is_some (DeletionTimestamp (rhmi_meta i)) in
        '(ps, (phase, err)) ← reconcile_product reconciler ps serverClient zero_QPC uninstall;
        let merr := match err with
                    | Some e => MultiErr_Add merr
                        (ErrWrap ("failed to reconcile product " +:+ product +:+ ": ") e)
                    | None => merr
                    end in
        if negb (phase =?s PhaseCompleted) then mret (true, merr)
        else uninstall_product product fs' ps merr
  end.

Definition handleUninstallProduct (product : ProductName) (finalizers : list string)
    (merr : MultiErr) : M (Session W Q) (bool * MultiErr) :=
  ps ← reads (λ s, GetProductStatusObject
         (range_keys s (dom (make_if_nil (Stages (Status (installation s))))))
         (installation s) product);
  uninstall_product product finalizers ps merr.

Fixpoint handleUninstallBootstrap (finalizers : list string) (merr : MultiErr)
    : M (Session W Q) (bool * MultiErr) :=
  match finalizers with
  | [] => mret (false, merr)
  | productFinalizer :: finalizers' =>
      if negb (str_contains "observability" productFinalizer)
      then handleUninstallBootstrap finalizers' merr
      else
        err ← new_bootstrap_reconciler;
        let merr := match err with
                    | Some e => MultiErr_Add merr
                        (ErrWrap "failed to build a reconciler for Bootstrap: " e)
                    | None => merr
                    end in
        '(serverClient, merr) ← server_client "could not create server client: " merr;
        (if is_some err then panic "nil pointer dereference" else mret tt) ;;
        '(_, (phase, err)) ← reconcile_bootstrap serverClient zero_Quota;
        let merr := match err with
                    | Some e => MultiErr_Add merr (ErrWrap "failed to reconcile bootstrap: " e)
                    | None => merr
                    end in
        if negb (phase =?s PhaseCompleted) then mret (true, merr)
        else handleUninstallBootstrap finalizers' merr
  end.

(** The range over a stage's products, which does not stop at a pending one. *)
Fixpoint uninstall_products (order : list ProductName) (finalizers : list string)
    (pendingUninstalls : bool) (merr : MultiErr) : M (Session W Q) (bool * MultiErr) :=
  match order with
  | [] => mret (pendingUninstalls, merr)
  | product :: order' =>
      '(productPending, merr) ← handleUninstallProduct product finalizers merr;
      uninstall_products order' finalizers (pendingUninstalls || productPending) merr
  end.

Definition uninstall_stage (stage : Stage) (finalizers : list string) (merr : MultiErr)
    : M (Session W Q) (bool * MultiErr) :=
  if st_Name stage =?s BootstrapStage then handleUninstallBootstrap finalizers merr
  else
    order ← reads (λ s, range_keys s (dom (make_if_nil (st_Products stage))));
    uninstall_products order finalizers false merr.

(** The stages in order, up to the first with a pending product. *)
Fixpoint uninstall_stages (stages : list Stage) (finalizers : list string) (merr : MultiErr)
    : M (Session W Q) (bool * MultiErr) :=
  match stages with
  | [] => mret (false, merr)
  | stage :: stages' =>
      '(pendingUninstalls, merr) ← uninstall_stage stage finalizers merr;
      if (pendingUninstalls : bool) then mret (true, merr)
      else uninstall_stages stages' finalizers merr
  end.

(** handle the deletion of CRO config map *)
Definition handleCROConfigDeletion : M (Session W Q) (option error) :=
  rhmi ← the_installation;
  got ← client_get ManagerClient (Namespace (rhmi_meta rhmi)) DefaultCloudResourceConfigName;
  match got with
  | inl err => mret (Some err)
  | inr croConf =>
      updated ←
        (if Slices.Contains (Finalizers (cm_meta croConf)) deletionFinalizer then
           fs ← lift (Slices.Remove (Finalizers (cm_meta croConf)) deletionFinalizer);
           client_update ManagerClient (set_meta (SetFinalizers fs (cm_meta croConf)) croConf)
         else mret (inr croConf));
      match updated with
      | inl err => mret (Some (ErrWrap "error occurred trying to update cro config map " err))
      | inr croConf =>
          derr ← client_delete ManagerClient croConf;
          match derr with
          | Some err => if IsNotFound (Some err) then mret None
                        else mret (Some (ErrWrap "error occurred trying to delete cro config map, " err))
          | None => mret None
          end
      end
  end.

(** for i := range alerts.Items: delete it, and return at the first error *)
Fixpoint delete_rules (rules : list PrometheusRule) : M (Session W Q) (option error) :=
  match rules with
  | [] => mret None
  | r :: rules' =>
      err ← client_delete ManagerClient r;
      match err with
      | Some e => mret (Some e)
      | None => delete_rules rules'
      end
  end.

(** merr.Add of an update's error, after the last look at merr. *)
Definition update_and_collect (merr : MultiErr) : M (Session W Q) MultiErr :=
  err ← update_installation ManagerClient;
  mret (match err with Some e => MultiErr_Add merr e | None => merr end).

(** LastError = merr.Error(), an update, and the errors as the result. *)
Definition fail_uninstall (merr : MultiErr) (e : error) : M (Session W Q) (Result * option error) :=
  let merr := MultiErr_Add merr e in
  upd_status (λ s, set_LastError s (MultiErr_Error merr)) ;;
  merr ← update_and_collect merr;
  mret (zero_Result, Some (MultiErr_error merr)).

(** all products gone and no errors, tidy up bootstrap stuff *)
Definition tidy_up (installationCfgMap : string) (merr : MultiErr)
    : M (Session W Q) (Result * option error) :=
  i ← the_installation;
  derr ← client_delete ManagerClient
           (mkConfigMap (named (Namespace (rhmi_meta i)) installationCfgMap) None);
  if is_some derr && negb (IsNotFound derr) then
    fail_uninstall merr (errorf_w "failed to remove installation ConfigMap: " derr)
  else
    cerr ← handleCROConfigDeletion;
    if is_some cerr && negb (IsNotFound cerr) then
      fail_uninstall merr (errorf_w "failed to remove Cloud Resource ConfigMap: " cerr)
    else
      i ← the_installation;
      fs ← lift (Slices.Remove (Finalizers (rhmi_meta i)) deletionFinalizer);
      upd_installation (on_meta (SetFinalizers fs)) ;;
      err ← update_installation ManagerClient;
      match err with
      | Some e => mret (zero_Result, Some (MultiErr_error (MultiErr_Add merr e)))
      | None =>
          i ← the_installation;
          err ← UninstallOperator ManagerClient i;
          match err with
          | Some e => mret (zero_Result, Some (MultiErr_error (MultiErr_Add merr e)))
          | None => mret (zero_Result, None)
          end
      end.

(** What handleUninstall does once the alerts are gone. *)
Definition uninstall_all (installationType : TypeRef) (installationCfgMap : string)
    : M (Session W Q) (Result * option error) :=
  upd_status (λ s, set_Stage s "deletion") ;;
  upd_status (λ s, set_LastError s "") ;;
  i ← the_installation;
  on_world (modifies (SetStatus i)) ;;
  let finalizers := Finalizers (rhmi_meta i) in
  stages ← reads (λ s, UninstallStages (get_type installationType s));
  '(pendingUninstalls, merr) ← uninstall_stages stages finalizers newMultiErr;
  if (pendingUninstalls : bool) then
    merr ← (match Errors merr with
            | [] => mret merr
            | _ =>
                upd_status (λ s, set_LastError s (MultiErr_Error merr)) ;;
                err ← update_installation_status ManagerClient;
                mret (match err with Some e => MultiErr_Add merr e | None => merr end)
            end);
    _ ← update_and_collect merr;
    mret (retryRequeue, None)
  else
    i ← the_installation;
    if bool_decide (Finalizers (rhmi_meta i) = [deletionFinalizer])
    then tidy_up installationCfgMap merr
    else
      err ← update_installation ManagerClient;
      match err with
      | Some e => mret (zero_Result, Some e)
      | None => mret (retryRequeue, None)
      end.

Definition alert_rules : ListOptions := mkListOptions None [("integreatly", "yes")].

Definition handleUninstall (installationType : TypeRef) : M (Session W Q) (Result * option error) :=
  installationCfgMap ← installation_config_map;
  i ← the_installation;
  m ← on_world (NewManager ManagerClient (Namespace (rhmi_meta i)) installationCfgMap);
  match m with
  | inl err => mret (zero_Result, Some err)
  | inr m =>
      modifies (set_configManager m) ;;
      ls ← client_list ManagerClient alert_rules;
      match ls with
      | inl err => mret (zero_Result, Some err)
      | inr alerts =>
          err ← delete_rules alerts;
          match err with
          | Some e => mret (zero_Result, Some e)
          | None => uninstall_all installationType installationCfgMap
          end
      end
  end.
End uninstall.

(** ** Properties *)

Section properties.
Context {W Q : Type} `{Client W ConfigMap} `{Client W RHMI} `{Client W PrometheusRule}
  `{Client W Subscription} `{Client W ClusterServiceVersion} `{Yaml}
  `{ProductsInstallationLoader W} `{OpenshiftClients W} `{NewClient W} `{MapRange W} `{OsEnv W}
  `{Prometheus W} `{ProductInterface W Q} `{BootstrapInterface W Q}.
Implicit Types (s : Session W Q).

(** For every finalizer of [fs] whose text contains the product's name, one
    after the other, the product's reconciler was built and called with what
    the call before left, and reported the product completed; for any other
    finalizer nothing was called. *)
Fixpoint settled (product : ProductName) (fs : list string) (ps : RHMIProductStatus)
    (s s' : Session W Q) : Prop :=
  match fs with
  | [] => s' = s
  | f :: fs' =>
      if str_contains product f then ∃ cfg s1 c msg merr merr' s2 ps' err s3,
        new_reconciler product s = (Done (ProductReconciler product cfg, None), s1)
        ∧ server_client msg merr s1 = (Done (c, merr'), s2)
        ∧ reconcile_product (ProductReconciler product cfg) ps c zero_QPC
            (p_Uninstall ps || is_some (DeletionTimestamp (rhmi_meta (installation s2)))) s2
          = (Done (ps', (PhaseCompleted, err)), s3)
        ∧ settled product fs' ps' s3 s'
      else settled product fs' ps s s'
  end.

Lemma new_reconciler_ok p s r err s' :
  new_reconciler p s = (Done (r, err), s') →
  (err = None ∧ ∃ cfg, r = ProductReconciler p cfg) ∨ (is_Some err ∧ (r = NilReconciler ∨ r = NoOp)).
Proof.
  unfold new_reconciler. intros Hn.
  apply bind_done_inv in Hn as (m & s1 & Hm & Hn). unfold reads in Hm. injection Hm as <- <-.
  apply bind_done_inv in Hn as (i & s1 & Hi & Hn). unfold the_installation, reads in Hi. injection Hi as <- <-.
  apply bind_done_inv in Hn as ([m' [r' e']] & s2 & Hnr & Hn).
  unfold on_world in Hnr. destruct (NewReconciler p _ _ _) as [o w] eqn:E. injection Hnr as -> <-.
  go_inv. destruct err as [e|].
  - right. split; [eauto|]. clear -E.
    unfold NewReconciler in E. apply bind_done_inv in E as ([e'|declared] & w1 & _ & E); [go_inv; by left|].
    assert (∀ new (k : M W Constructed) w r w', mbind (λ _ : unit, k) (openshift_client new) w = (Done r, w') →
      ∃ w2, k w2 = (Done r, w')) as Hos.
    { intros new k w2 r2 w' Hk. apply bind_done_inv in Hk as (? & w3 & _ & Hk). eauto. }
    repeat (destruct (p =?s _); [
      try (apply Hos in E as [? E]); try (apply Hos in E as [? E]);
      unfold rhsso_NewReconciler, rhssouser_NewReconciler, threescale_NewReconciler,
        cloudresources_NewReconciler, marin3r_NewReconciler, grafana_NewReconciler in E;
      repeat (go_inv; try case_match); by left|]).
    go_inv. by right.
  - left. split; [done|]. apply NewReconciler_ok in E as (c & -> & _). eauto.
Qed.

Lemma uninstall_product_settled product fs ps merr s merr' s' :
  uninstall_product product fs ps merr s = (Done (false, merr'), s') →
  settled product fs ps s s'.
Proof.
  revert merr s ps. induction fs as [|f fs IH]; intros merr s ps Hh; cbn [uninstall_product] in Hh.
  { by go_inv. }
  cbn [settled]. destruct (str_contains product f) eqn:Hf; cbn [negb] in Hh; [|by eapply IH].
  apply bind_done_inv in Hh as ([r err] & s1 & Hn & Hh).
  apply bind_done_inv in Hh as ([c m] & s2 & Hc & Hh). apply bind_done_inv in Hh as (i & s3 & Hi & Hh).
  unfold the_installation, reads in Hi. injection Hi as <- <-.
  apply bind_done_inv in Hh as ([ps' [phase e]] & s4 & Hr & Hh).
  pose proof (new_reconciler_ok _ _ _ _ _ Hn) as [(-> & cfg & ->)|(_ & [->| ->])]; [|by go_inv|].
  - destruct (phase =?s PhaseCompleted) eqn:E; cbn in Hh; [|go_inv].
    apply str_eqb_true in E as ->. eexists cfg, s1, c, _, _, m, s2, ps', e, s4.
    split_and!; [exact Hn|exact Hc|exact Hr|by eapply IH].
  - cbn in Hr. go_inv.
Qed.

Lemma uninstall_product_unmatched product fs ps merr s :
  existsb (str_contains product) fs = false →
  uninstall_product product fs ps merr s = (Done (false, merr), s).
Proof.
  induction fs as [|f fs IH]; cbn; [done|]. intros [-> Hfs]%orb_false_iff. cbn. auto.
Qed.

(** A product counts as uninstalled only when, for each finalizer whose
    text contains its name, its reconciler was built and reported it
    completed; and when no finalizer's text contains its name it counts as
    uninstalled at once, with nothing called. *)
Theorem handleUninstallProduct_spec product fs merr s :
  (∀ merr' s', handleUninstallProduct product fs merr s = (Done (false, merr'), s') →
     settled product fs (GetProductStatusObject
       (range_keys s (dom (make_if_nil (Stages (Status (installation s))))))
       (installation s) product) s s')
  ∧ (existsb (str_contains product) fs = false →
     handleUninstallProduct product fs merr s = (Done (false, merr), s)).
Proof.
  unfold handleUninstallProduct. split.
  - intros merr' s' Hh. rewrite bind_reads in Hh. eauto using uninstall_product_settled.
  - intros Hf. rewrite bind_reads. by apply uninstall_product_unmatched.
Qed.

(** The test is a substring test: the finalizer of the user SSO also
    has the reconciler of the cluster SSO called, although that product has
    no finalizer of its own. *)
Theorem rhssouser_finalizer_matches_rhsso s merr :
  handleUninstallProduct ProductRHSSO [product_finalizer ProductRHSSOUser] merr s
  = handleUninstallProduct ProductRHSSO [product_finalizer ProductRHSSO] merr s.
Proof. reflexivity. Qed.

(** The last uninstall stage of both installation types does nothing:
    handleUninstall looks for the name of the install stage bootstrap, which
    no uninstall stage has, and the stage has no product. *)
Theorem uninstall_bootstrap_stage_noop t fs merr s :
  MapRangeLaws W →
  t ∈ [allManagedApiStages; allMultitenantManagedApiStages] →
  Forall (λ st, st_Name st ≠ BootstrapStage) (UninstallStages t)
  ∧ (∀ st, last (UninstallStages t) = Some st → uninstall_stage st fs merr s = (Done (false, merr), s)).
Proof.
  intros HL Ht.
  assert (∀ st, st = mkStage None UninstallBootstrap →
    uninstall_stage st fs merr s = (Done (false, merr), s)) as Hnoop.
  { intros st ->.
    assert (range_keys s (dom (∅ : gmap string RHMIProductStatus)) = []) as Hk.
    { pose proof (range_keys_perm s (dom (∅ : gmap string RHMIProductStatus))) as Hp.
      by apply Permutation_nil_r in Hp. }
    unfold uninstall_stage, reads. rewrite (proj2 (str_eqb_false _ _)) by discriminate.
    rewrite run_bind. cbn [st_Name st_Products].
    change (make_if_nil None) with (∅ : gmap string RHMIProductStatus). rewrite Hk. done. }
  repeat (apply elem_of_cons in Ht as [->|Ht]; [|]); [..|by apply elem_of_nil in Ht];
    (split; [repeat constructor; discriminate|intros st [= <-]; by apply Hnoop]).
Qed.

Lemma handleCRO_installation :
  preserves (same (installation (W := W) (Q := Q))) handleCROConfigDeletion.
Proof. unfold handleCROConfigDeletion. frame; by apply on_world_same. Qed.

(** The clean-up after the last product. *)
Lemma tidy_up_finished cm merr s2 s' :
  Finalizers (rhmi_meta (installation s2)) = [deletionFinalizer] →
  tidy_up cm merr s2 = (Done (zero_Result, None), s') →
  ∃ o derr s3 cerr s4 i w,
    client_delete (O := ConfigMap) ManagerClient o s2 = (Done derr, s3)
    ∧ (derr = None ∨ IsNotFound derr = true)
    ∧ handleCROConfigDeletion s3 = (Done cerr, s4) ∧ (cerr = None ∨ IsNotFound cerr = true)
    ∧ client_update ManagerClient (on_meta (SetFinalizers []) (installation s2)) (world s4)
      = (Done (inr i), w)
    ∧ UninstallOperator ManagerClient i (set_world w (set_installation i s4)) = (Done None, s').
Proof.
  intros Hfin Hh.
  unfold tidy_up in Hh.
  apply bind_done_inv in Hh as (i3 & sl & Hi & Hh). unfold the_installation, reads in Hi. injection Hi as <- <-.
  apply bind_done_inv in Hh as (derr & s3 & Hd & Hh).
  assert (∀ merr e s s', fail_uninstall (W := W) (Q := Q) merr e s ≠ (Done (zero_Result, None), s')) as Hfail.
  { intros m0 e0 sx sy Hx. unfold fail_uninstall in Hx. apply bind_done_inv in Hx as (? & ? & _ & Hx).
    apply bind_done_inv in Hx as (? & ? & _ & Hx). go_inv. }
  destruct (is_some derr && _) eqn:Ed; [by apply Hfail in Hh|].
  apply bind_done_inv in Hh as (cerr & s4 & Hc & Hh).
  destruct (is_some cerr && _) eqn:Ec; [by apply Hfail in Hh|].
  apply bind_done_inv in Hh as (i4 & sl & Hi & Hh). unfold the_installation, reads in Hi. injection Hi as <- <-.
  assert (installation s4 = installation s2) as Hi4.
  { rewrite (handleCRO_installation _ _ _ Hc).
    eapply (on_world_same _ installation); [done|exact Hd]. }
  rewrite Hi4, Hfin in Hh. apply bind_done_inv in Hh as (fs & sl & Hf & Hh).
  unfold lift in Hf. change (Slices.Remove [deletionFinalizer] deletionFinalizer)
    with (Done (A := list string) []) in Hf.
  assert (fs = [] ∧ sl = s4) as [-> ->] by (split; congruence). clear Hf.
  apply bind_done_inv in Hh as (? & sl & Hu & Hh). unfold upd_installation, modifies in Hu.
  injection Hu as <- <-. apply bind_done_inv in Hh as (err & s5 & Hu & Hh).
  unfold update_installation in Hu. apply bind_done_inv in Hu as (i5 & sl & Hi & Hu).
  unfold the_installation, reads in Hi. injection Hi as <- <-. cbn [installation set_installation] in Hu.
  apply bind_done_inv in Hu as (resp & sy & Hcu & Hu).
  unfold client_update, session_client, on_world in Hcu.
  destruct (client_update ManagerClient _ _) as [o w] eqn:Eu. injection Hcu as -> <-.
  destruct resp as [e|i6]; [go_inv; apply bind_done_inv in Hh as (? & ? & _ & Hh); go_inv|].
  unfold upd_installation, modifies in Hu. rewrite run_bind, run_ret in Hu. injection Hu as <- <-.
  apply bind_done_inv in Hh as (i7 & sz & Hi & Hh). unfold the_installation, reads in Hi. injection Hi as <- <-.
  apply bind_done_inv in Hh as ([e|] & s6 & Huo & Hh); [go_inv|].
  rewrite run_ret in Hh. injection Hh as <-.
  exists (mkConfigMap (named (Namespace (rhmi_meta (installation s2))) cm) None), derr, s3, cerr, s4, i6, w.
  rewrite Hi4 in *. split_and!; try done.
  - destruct derr as [e|]; [right|by left]. cbn in Ed. by apply negb_false_iff in Ed.
  - destruct cerr as [e|]; [right|by left]. cbn in Ec. by apply negb_false_iff in Ec.
Qed.

(** What handleUninstall does before its stages keeps the resource's
    metadata and the stage tables. *)
Definition meta_and_tables (s : Session W Q) : ObjectMeta * Globals :=
  (rhmi_meta (installation s), globals s).

Lemma on_world_meta {A} (m : M W A) : preserves (same meta_and_tables) (on_world m).
Proof. by apply on_world_same. Qed.
#[local] Hint Resolve on_world_meta : go.

Lemma delete_rules_meta l : preserves (same meta_and_tables) (delete_rules l).
Proof. induction l; cbn [delete_rules]; frame. apply on_world_meta. Qed.

(** The part of uninstall_all before the clean-up. *)
Lemma uninstall_all_finished t cm s s' :
  uninstall_all t cm s = (Done (zero_Result, None), s') →
  ∃ merr s1 s2,
    uninstall_stages (UninstallStages (get_type t s)) (Finalizers (rhmi_meta (installation s)))
      newMultiErr s1 = (Done (false, merr), s2)
    ∧ meta_and_tables s1 = meta_and_tables s
    ∧ Finalizers (rhmi_meta (installation s2)) = [deletionFinalizer]
    ∧ tidy_up cm merr s2 = (Done (zero_Result, None), s').
Proof.
  unfold uninstall_all, upd_status, upd_installation. intros Hh.
  rewrite !bind_modifies in Hh.
  apply bind_done_inv in Hh as (i1 & sj & Hi & Hh). unfold the_installation, reads in Hi. injection Hi as <- <-.
  apply bind_done_inv in Hh as (? & s1 & Hm & Hh). apply on_world_meta in Hm. cbn in Hm.
  rewrite bind_reads in Hh.
  apply bind_done_inv in Hh as ([pend merr] & s2 & Hus & Hh).
  assert (meta_and_tables s1 = meta_and_tables s) as Hs1 by exact Hm.
  assert (get_type t s1 = get_type t s) as Ht.
  { unfold meta_and_tables in Hs1. injection Hs1 as _ Hg. unfold get_type. by rewrite Hg. }
  destruct pend.
  { apply bind_done_inv in Hh as (m1 & sl & _ & Hh). apply bind_done_inv in Hh as (m2 & sm & _ & Hh).
    go_inv. }
  rewrite Ht in Hus. cbn [installation set_installation on_status rhmi_meta] in Hus.
  apply bind_done_inv in Hh as (i2 & sl & Hi & Hh). unfold the_installation, reads in Hi. injection Hi as <- <-.
  case_bool_decide as Hfin; [|apply bind_done_inv in Hh as ([e|] & ? & _ & Hh); go_inv].
  by exists merr, s1, s2.
Qed.

End properties.
