(* ===== verification/CloudResourcesReconciler.v ===== *)
(** * The cloud resources product (pkg/products/cloudresources/reconciler.go)

    The product installs the cloud resource operator and writes the
    strategies it works by: maintenance windows, the network range, service
    updates, and, before an uninstall, what is to become of the data. *)

From stdpp Require Import base list strings gmap.
From Stdlib Require Import ZArith Lia.
From S2P Require Import Prelude Numbers Kube Api Resources Olm Quota Pods Cro Config Cluster Addon.
From S2P Require Import Alerts Backup Marketplace Reconciler ProductAlerts Marin3rReconciler Uninstall.

(** ** Data *)

(** croAWS.StrategyConfig: the raw JSON of its parts. *)
Record StrategyConfig := mkStrategy {
  str_Region : string; str_CreateStrategy : string; str_DeleteStrategy : string; str_ServiceUpdates : string }.
#[global] Instance StrategyConfig_eq_dec : EqDecision StrategyConfig.
Proof. solve_decision. Defined.

(** What is marshalled as a delete strategy: croAWS.S3DeleteStrat,
    rds.DeleteDBClusterInput and elasticache.DeleteCacheClusterInput. *)
Inductive DeleteStrategy :=
  | S3DeleteStrat (ForceBucketDeletion : bool)
  | DeleteDBCluster (SkipFinalSnapshot : bool)
  | DeleteCacheCluster (FinalSnapshotIdentifier : string).

(** encoding/json: a map from tiers to strategies (nil for a null literal, a
    nil pointer for a null tier), lists of strings, delete strategies. *)
Class StrategyJson := {
  strategies_Unmarshal : string → error + option (gmap string (option StrategyConfig));
  strategies_Marshal : option (gmap string (option StrategyConfig)) → error + string;
  strings_Unmarshal : string → error + list string;
  strings_Marshal : list string → error + string;
  delete_Marshal : DeleteStrategy → error + string;
}.

(** ReconcileStrategyMaps of the cloud resource operator's client, with the
    day and the hour of the time configuration (the backup is at 03:01). *)
Class CroStrategies (W : Type) :=
  ReconcileStrategyMaps : KClient → Z → Z → string → string → M W (option error).

Definition MaintenanceDay : string := "maintenance-day".
Definition MaintenanceHour : string := "maintenance-hour".
Definition DefaultMaintenanceDay : Z := 4.
Definition DefaultMaintenanceHour : Z := 2.
Definition cidrRangeKeyAws : string := "cidr-range".
Definition AWSPlatformType : string := "AWS".
Definition CredsSecretName : string := "sts-credentials".

Definition redisServiceUpdatesToInstall : list string :=
  ["elasticache-20250804-intel"; "elasticache-july-patch-update-202507"; "elasticache-20250603-intel";
   "elasticache-april-patch-update-202504"; "elasticache-20250507-intel"; "elasticache-20241007-intel";
   "elasticache-redis-cve-patch-update-202410"; "elasticache-patch-update-202501";
   "elasticache-20210615-002"; "elasticache-redis-6-2-6-update-20230109"; "elasticache-20230315-001";
   "elasticache-redis-6-2-update"; "elasticache-20240225-intel"; "elasticache-20240501-intel"].
Definition postgresServiceUpdateTimestamp : list string := ["1642204801"].

Definition RedisResourceType : string := "redis".
Definition PostgresResourceType : string := "postgres".

(** ** Strategies *)

Section strategies.
Context `{StrategyJson}.

(** Every tier gets the strategy; a null tier is dereferenced. *)
Definition override_tiers (json : string) (m : gmap string (option StrategyConfig))
    : outcome (gmap string (option StrategyConfig)) :=
  if bool_decide (map_Forall (λ _ v, v ≠ None) m)
  then Done ((λ v : option StrategyConfig, (λ s, mkStrategy (str_Region s) (str_CreateStrategy s) json (str_ServiceUpdates s)) <$> v)
               <$> m)
  else Panic "nil pointer dereference".

Definition overrideStrategyConfig (resourceType : string) (cm : ConfigMap) (d : DeleteStrategy)
    : outcome (ConfigMap * option error) :=
  match strategies_Unmarshal (omap_get "" (cm_Data cm) resourceType) with
  | inl e => Done (cm, Some (errorf_w ("failed to unmarshal strategy mapping for resource type "
                                       +:+ resourceType +:+ " ") (Some e)))
  | inr m =>
      let tiers := make_if_nil m in
      match (if bool_decide (tiers = ∅) then inr "" else delete_Marshal d) with
      | inl e => Done (cm, Some e)
      | inr json =>
          tiers ← override_tiers json tiers;
          match strategies_Marshal ((λ _, tiers) <$> m) with
          | inl e => Done (cm, Some e)
          | inr strategyConfigJSON =>
              match cm_Data cm with
              | None => Panic "assignment to entry in nil map"
              | Some data => Done (with_cm_Data cm (Some (<[resourceType := strategyConfigJSON]> data)), None)
              end
          end
      end
  end.

(** The delete strategies of an uninstall. *)
Definition resourcesConfig (installation : RHMI) : gmap string DeleteStrategy :=
  if IsSkipFinalDBSnapshots installation
  then list_to_map [("blobstorage", S3DeleteStrat true); ("postgres", DeleteDBCluster true);
                    ("redis", DeleteCacheCluster "")]
  else {["blobstorage" := S3DeleteStrat false]}.

Fixpoint override_each (config : gmap string DeleteStrategy) (keys : list string) (cm : ConfigMap)
    : outcome (ConfigMap * option error) :=
  match keys with
  | [] => Done (cm, None)
  | k :: keys =>
      match config !! k with
      | None => override_each config keys cm
      | Some d =>
          '(cm, err) ← overrideStrategyConfig k cm d;
          match err with
          | Some e => Done (cm, Some e)
          | None => override_each config keys cm
          end
      end
  end.

(** The mutate function of addServiceUpdates. *)
Definition put_service_updates (resourceType : string) (updates : list string) (cm : ConfigMap)
    : outcome (ConfigMap * option error) :=
  match strategies_Unmarshal (omap_get "" (cm_Data cm) resourceType) with
  | inl e => Done (cm, Some e)
  | inr rawStrategy =>
      match omap_lookup rawStrategy TierProduction with
      | Some (Some s) =>
          match strings_Unmarshal (str_ServiceUpdates s) with
          | inl e => Done (cm, Some e)
          | inr _ =>
              match strings_Marshal updates with
              | inl e => Done (cm, Some e)
              | inr updatesMarshalled =>
                  let s := mkStrategy (str_Region s) (str_CreateStrategy s) (str_DeleteStrategy s)
                             updatesMarshalled in
                  match strategies_Marshal
                          (Some (<[TierProduction := Some s]> (make_if_nil rawStrategy))) with
                  | inl e => Done (cm, Some e)
                  | inr marshalledStrategy =>
                      match cm_Data cm with
                      | None => Panic "assignment to entry in nil map"
                      | Some data =>
                          Done (with_cm_Data cm (Some (<[resourceType := marshalledStrategy]> data)), None)
                      end
                  end
              end
          end
      | _ => Panic "nil pointer dereference"
      end
  end.
End strategies.

Section cro.
Context {W Q : Type}.
Context `{Client W RHMI} `{Client W ConfigMap} `{Client W Secret} `{Client W NamespaceObj}
  `{Client W ProjectRequest} `{Client W Project} `{Client W InstallPlan} `{Client W Subscription}
  `{Client W ClusterServiceVersion} `{Client W Postgres} `{Client W Redis} `{Client W BlobStorage}
  `{Client W (Snapshot PostgresSnapshotType)} `{Client W (Snapshot RedisSnapshotType)}
  `{Client W CRD} `{Client W Infrastructure} `{Client W CloudCredential} `{Client W PrometheusRule}
  `{Client W UpstreamPrometheusRule} `{Client W (LimitRange Q)}.
Context `{MarketplaceInterface W} `{EventRecorder W} `{Clock W} `{MapRange W} `{Yaml}
  `{StrategyJson} `{NetworkJson} `{CroStrategies W} `{Quantity Q} `{SemanticDeepEqual (LimitRange Q)}.

(** What NewReconciler has put in the reconciler; the installation it holds
    is the one Reconcile is given. *)
Context (m : Manager) (declaration : ProductDeclaration).

(** *** Clean-up *)

(** Deleting the items of a list, up to the first error. *)
Fixpoint delete_each {O} `{Client W O} (c : KClient) (l : list O) : M W (option error) :=
  match l with
  | [] => mret None
  | o :: l =>
      err ← client_delete c o;
      match err with
      | Some e => mret (Some e)
      | None => delete_each c l
      end
  end.

(** Listing the objects of a kind in a namespace and deleting them. *)
Definition delete_listed {O} `{Client W O} (c : KClient) (what ns : string) : M W (error + list O) :=
  items ← client_list (O := O) c (InNamespace ns);
  match items with
  | inl e => mret (inl (errorf_w ("failed to list " +:+ what +:+ ": ") (Some e)))
  | inr items =>
      err ← delete_each c items;
      mret (match err with Some e => inl e | None => inr items end)
  end.

Definition removeSnapshots (installation : RHMI) (c : KClient) : M W (StatusPhase * option error) :=
  let ns := Namespace (rhmi_meta installation) in
  '(crdExists, err) ← Exists c (mkCRD (named "" "postgressnapshots.integreatly.org"));
  match err with
  | Some e => mret (PhaseFailed, Some e)
  | None =>
      if negb crdExists then mret (PhaseCompleted, None)
      else
        r ← delete_listed (O := Snapshot PostgresSnapshotType) c "postgres snapshots" ns;
        match r with
        | inl e => mret (PhaseFailed, Some e)
        | inr _ =>
            r ← delete_listed (O := Snapshot RedisSnapshotType) c "redis snapshots" ns;
            match r with
            | inl e => mret (PhaseFailed, Some e)
            | inr _ => mret (PhaseCompleted, None)
            end
        end
  end.

Definition createDeletionStrategy (cfg : CloudResources.t) (installation : RHMI) (c : KClient)
    : M W (StatusPhase * option error) :=
  if (to_lower (UseClusterStorage (Spec installation)) =?s "false")
     && (CloudResources.GetStrategiesConfigMapName cfg =?s DefaultConfigMapName)
  then
    '(_, (_, err)) ← CreateOrUpdate c
      (mkConfigMap (named (Namespace (rhmi_meta installation))
                      (CloudResources.GetStrategiesConfigMapName cfg)) None)
      (λ cm,
        keys ← reads (λ w, range_keys w (dom (resourcesConfig installation)));
        lift (override_each (resourcesConfig installation) keys cm));
    match err with
    | Some e => mret (PhaseFailed, Some e)
    | None => mret (PhaseCompleted, None)
    end
  else mret (PhaseCompleted, None).

Definition cleanupResources (installation : RHMI) (c : KClient) : M W (StatusPhase * option error) :=
  let ns := Namespace (rhmi_meta installation) in
  '(crdExists, err) ← Exists c (mkCRD (named "" "postgres.integreatly.org"));
  match err with
  | Some e => mret (PhaseFailed, Some e)
  | None =>
      if negb crdExists then mret (PhaseCompleted, None)
      else
        r ← delete_listed (O := Postgres) c "postgres instances" ns;
        match r with
        | inl e => mret (PhaseFailed, Some e)
        | inr postgresInstances =>
            r ← delete_listed (O := Redis) c "redis instances" ns;
            match r with
            | inl e => mret (PhaseFailed, Some e)
            | inr redisInstances =>
                r ← delete_listed (O := BlobStorage) c "blobStorage instances" ns;
                match r with
                | inl e => mret (PhaseFailed, Some e)
                | inr blobStorages =>
                    if (0 <? length postgresInstances) || (0 <? length redisInstances)
                       || (0 <? length blobStorages)
                    then mret (PhaseInProgress, None) else mret (PhaseCompleted, None)
                end
            end
        end
  end.

Definition cro_csv_name : string := "cloud-resources.v" +:+ OperatorVersionCloudResources.

(** Anything but completed is returned as it is. *)
Definition and_then (body next : M W (StatusPhase * option error)) : M W (StatusPhase * option error) :=
  '(phase, err) ← body;
  if is_some err || negb (phase =?s PhaseCompleted) then mret (phase, err) else next.

(** The clean-up of ReconcileFinalizer. *)
Definition cro_cleanup (cfg : CloudResources.t) (installation : RHMI) (c : KClient)
    : M W (StatusPhase * option error) :=
  let operatorNamespace := CloudResources.GetOperatorNamespace cfg in
  got ← GetNS operatorNamespace c;
  if IsNotFound (match got with inl e => Some e | inr _ => None end) then mret (PhaseCompleted, None)
  else
    and_then (removeSnapshots installation c) $
    and_then (createDeletionStrategy cfg installation c) $
    and_then (cleanupResources installation c) $
    and_then (EnsureObjectDeleted c
      (mkSubscription (named operatorNamespace CloudResourceSubscriptionName) None "" false None "")) $
    and_then (EnsureObjectDeleted c (zero_CSV (named operatorNamespace cro_csv_name))) $
    '(isHiveManaged, err) ← OperatorIsHiveManaged c installation;
    match err with
    | Some e => mret (PhaseFailed, Some e)
    | None =>
        if (isHiveManaged : bool) then mret (PhaseCompleted, None)
        else and_then (RemoveNamespace c operatorNamespace) (mret (PhaseCompleted, None))
    end.

(** *** Steps of an install *)

Definition cro_reconcileSubscription (installation : RHMI) (c : KClient) (operatorNamespace : string)
    : M W (StatusPhase * option error) :=
  let '(target, prepared) := PrepareTarget declaration CatalogSourceName
    (mkTarget operatorNamespace CloudResourceSubscriptionName "" "") in
  match prepared with
  | inl e => mret (PhaseFailed, Some e)
  | inr csr =>
      '(_, r) ← ReconcileSubscription target [Namespace (rhmi_meta installation)] NoopBackupExecutor c csr;
      mret r
  end.

Definition addServiceUpdates (cfg : CloudResources.t) (installation : RHMI) (c : KClient)
    (resourceType : string) (updates : list string) : M W (StatusPhase * option error) :=
  if CloudResources.GetStrategiesConfigMapName cfg =?s DefaultConfigMapName then
    '(_, (op, err)) ← CreateOrUpdate c
      (mkConfigMap (named (Namespace (rhmi_meta installation))
                      (CloudResources.GetStrategiesConfigMapName cfg)) None)
      (λ cm, lift (put_service_updates resourceType updates cm));
    match err with
    | Some e => mret (PhaseFailed, Some e)
    | None =>
        match op with
        | OperationResultUpdated => mret (PhaseInProgress, None)
        | _ => mret (PhaseCompleted, None)
        end
    end
  else mret (PhaseCompleted, None).

(** Every tier gets the range; a null tier is dereferenced. *)
Definition set_cidr (cidr : string) (network : gmap string (option string))
    : outcome (gmap string (option string)) :=
  if bool_decide (map_Forall (λ _ v, v ≠ None) network)
  then Done ((λ _, Some cidr) <$> network)
  else Panic "nil pointer dereference".

(** What there is of a network strategy: nothing to do, or the tiers with one
    for production. *)
Definition network_of (cm : ConfigMap) : error + option (gmap string (option string)) :=
  match omap_lookup (cm_Data cm) "_network" with
  | Some data =>
      match network_Unmarshal data with
      | (_, Some e) => inl e
      | (network, None) =>
          let network := make_if_nil network in
          match network !! TierProduction with
          | Some (Some cidr) => inr (if negb (cidr =?s "") then None else Some network)
          | _ => inr (Some (<[TierProduction := Some ""]> network))
          end
      end
  | None => inr (Some {[TierProduction := Some ""]})
  end.

Definition put_cidr (cfg : CloudResources.t) (installation : RHMI) (c : KClient) (cidrValue : string)
    : M W (option error) :=
  got ← client_get (O := ConfigMap) c (Namespace (rhmi_meta installation))
          (CloudResources.GetStrategiesConfigMapName cfg);
  match got with
  | inl e => mret (Some e)
  | inr cfgMap =>
      match network_of cfgMap with
      | inl e => mret (Some e)
      | inr None => mret None
      | inr (Some network) =>
          network ← lift (set_cidr cidrValue network);
          match network_Marshal network with
          | inl e => mret (Some e)
          | inr networkJSON =>
              match cm_Data cfgMap with
              | None => panic "assignment to entry in nil map"
              | Some data =>
                  r ← client_patch c (with_cm_Data cfgMap (Some (<["_network" := networkJSON]> data)));
                  mret (match r with inl e => Some e | inr _ => None end)
              end
          end
      end
  end.

Definition reconcileCIDRValue (cfg : CloudResources.t) (installation : RHMI) (c : KClient)
    : M W (option error) :=
  '(platformType, err) ← GetPlatformType c;
  match err with
  | Some e => mret (Some (errorf_v "unable to retrieve platform type " (Some e)))
  | None =>
      if platformType =?s AWSPlatformType then
        '(cidrValue, ok, err) ← GetStringParameter c (Namespace (rhmi_meta installation)) cidrRangeKeyAws;
        match err with
        | Some e => mret (Some (errorf_v "failed to retrieve cidr range value " (Some e)))
        | None =>
            t ← reads now;
            let blank := negb ok || ((cidrValue =?s "")
                           && (CreationTimestamp (rhmi_meta installation) <? t - minute_ns)%Z) in
            put_cidr cfg installation c (if blank then "" else cidrValue)
        end
      else mret (Some (ErrStr ("unsupported platform type " +:+ platformType)))
  end.

Definition checkStsCredentialsPresent (c : KClient) (operatorNamespace : string)
    : M W (StatusPhase * option error) :=
  got ← client_get (O := Secret) c operatorNamespace CredsSecretName;
  mret (match got with
        | inl _ => (PhaseFailed, Some (ErrStr ("failed to get " +:+ CredsSecretName +:+ " secret in "
                                               +:+ operatorNamespace +:+ " namespace")))
        | inr _ => (PhaseCompleted, None)
        end).

(** A maintenance parameter: its number, or the default. *)
Definition maintenance_parameter (c : KClient) (parameter what : string) (default_ : Z)
    : M W (error + Z) :=
  '(v, _, err) ← GetStringParameter c (mgr_Namespace m) parameter;
  mret (match err with
        | Some e => inl (errorf_v ("failure to get maintenance " +:+ what +:+ " parameter: ") (Some e))
        | None =>
            if negb (v =?s "") then
              match parse_int_base0 v with
              | None => inl (ErrStr ("failure to parse maintenance " +:+ what
                               +:+ " parameter: strconv.ParseInt: " +:+ v))
              | Some z => inr z
              end
            else inr default_
        end).

Definition reconcileCloudResourceStrategies (c : KClient) : M W (StatusPhase * option error) :=
  day ← maintenance_parameter c MaintenanceDay "day" DefaultMaintenanceDay;
  match day with
  | inl e => mret (PhaseFailed, Some e)
  | inr day =>
      hour ← maintenance_parameter c MaintenanceHour "hour" DefaultMaintenanceHour;
      match hour with
      | inl e => mret (PhaseFailed, Some e)
      | inr hour =>
          err ← ReconcileStrategyMaps c day hour TierProduction (mgr_Namespace m);
          match err with
          | Some e => mret (PhaseFailed, Some (errorf_v "failure to reconcile strategy map: " (Some e)))
          | None => mret (PhaseCompleted, None)
          end
      end
  end.

Definition setPlatformStrategyName (cfg : CloudResources.t) (c : KClient)
    : M W (CloudResources.t * option error) :=
  '(platformType, err) ← GetPlatformType c;
  match err with
  | Some e => mret (cfg, Some e)
  | None =>
      if platformType =?s AWSPlatformType
      then mret (CloudResources.SetStrategiesConfigMapName cfg DefaultConfigMapName, None)
      else mret (cfg, Some (ErrStr ("unsupported platform type " +:+ platformType)))
  end.

(** *** Reconcile

    It returns the config manager too, to which it writes its config. *)
Definition CroResult : Type := Manager * ProductResult.

Definition complete_cro (cfg : CloudResources.t) (installation : RHMI) (ps : RHMIProductStatus)
    : M W CroResult :=
  let ps := mkProductStatus (p_Name ps) (CloudResources.GetOperatorVersion cfg)
    (CloudResources.GetProductVersion cfg) (CloudResources.GetHost cfg) (p_Type ps) (p_Mobile ps)
    (p_Phase ps) (p_Uninstall ps) in
  '(m, err) ← WriteConfig m cfg;
  match err with
  | Some e => mret (m, (installation, ps, (PhaseFailed,
                 Some (ErrWrap "could not write cloud resources config: " e))))
  | None =>
      HandleProductComplete installation ProductsStage (CloudResources.GetProductName cfg);;
      mret (m, (installation, ps, (PhaseCompleted, None)))
  end.

(** A step of which an error fails the reconcile, and in progress ends it. *)
Definition updates_step (stop_with : StatusPhase * option error → CroResult) (installation : RHMI)
    (what : string) (body : M W (StatusPhase * option error)) (next : M W CroResult) : M W CroResult :=
  '(phase, err) ← body;
  match err with
  | Some e => HandleError installation PhaseFailed what (Some e);; mret (stop_with (PhaseFailed, Some e))
  | None => if phase =?s PhaseInProgress then mret (stop_with (phase, None)) else next
  end.

Definition cro_reconcile_operator (cfg : CloudResources.t) (installation : RHMI) (ps : RHMIProductStatus)
    (c : KClient) : M W CroResult :=
  let ns := CloudResources.GetOperatorNamespace cfg in
  let stop_with r : CroResult := (m, (installation, ps, r)) in
  step_with installation stop_with ("Failed to reconcile " +:+ CloudResourceSubscriptionName +:+ " subscription")
    (cro_reconcileSubscription installation c ns) $
  step_with installation stop_with "Failed to reconcile cloud-resources csv deployments priority class name"
    (ReconcileCsvDeploymentsPriority c cro_csv_name ns (PriorityClassName (Spec installation))) $
  updates_step stop_with installation "Failed to reconcile redis service updates"
    (addServiceUpdates cfg installation c RedisResourceType redisServiceUpdatesToInstall) $
  updates_step stop_with installation "Failed to reconcile postgres service updates"
    (addServiceUpdates cfg installation c PostgresResourceType postgresServiceUpdateTimestamp) $
  '(alertsReconciler, err) ← cro_newAlertsReconciler installation cfg c (Type_ (Spec installation))
    (GetOboNamespace (Namespace (rhmi_meta installation)));
  match err with
  | Some e =>
      HandleError installation PhaseCompleted "Failed to get new alerts reconciler" (Some e);;
      mret (stop_with (PhaseFailed, Some e))
  | None =>
      step_with installation stop_with "Failed to reconcile operator endpoint available alerts"
        (ReconcileAlerts alertsReconciler c) $
      complete_cro cfg installation ps
  end.

Definition cro_reconcile_strategies (cfg : CloudResources.t) (installation : RHMI)
    (ps : RHMIProductStatus) (c : KClient) : M W CroResult :=
  let stop_with r : CroResult := (m, (installation, ps, r)) in
  '(phase, err) ← reconcileCloudResourceStrategies c;
  match err with
  | Some e =>
      HandleError installation phase "Failed to reconcile Cloud Resource strategies" (Some e);;
      mret (stop_with (phase, Some e))
  | None =>
      checked installation stop_with PhaseFailed "Failed to reconcile CIDR value"
        (reconcileCIDRValue cfg installation c) $
      cro_reconcile_operator cfg installation ps c
  end.

Definition cro_reconcile_install (cfg : CloudResources.t) (installation : RHMI) (ps : RHMIProductStatus)
    (c : KClient) : M W CroResult :=
  let ns := CloudResources.GetOperatorNamespace cfg in
  let stop_with r : CroResult := (m, (installation, ps, r)) in
  step_with installation stop_with ("Failed to reconcile " +:+ ns +:+ " namespace")
    (ReconcileNamespace ns installation c) $
  step_with installation stop_with ("Failed to reconcile LimitRange for Namespace " +:+ ns)
    (ReconcileLimitRange (Q := Q) c ns DefaultLimitRangeParams) $
  '(isSTS, err) ← IsClusterSTS c;
  match err with
  | Some e => mret (stop_with (PhaseFailed, Some e))
  | None =>
      if (isSTS : bool) then
        step_with installation stop_with "Failed to create STS secret" (checkStsCredentialsPresent c ns) $
        cro_reconcile_strategies cfg installation ps c
      else cro_reconcile_strategies cfg installation ps c
  end.

Definition cro_Reconcile (cfg : CloudResources.t) (installation : RHMI) (ps : RHMIProductStatus)
    (c : KClient) (uninstall : bool) : M W CroResult :=
  '(installation, (phase, err)) ← ReconcileFinalizer c installation (CloudResources.GetProductName cfg)
    uninstall (λ i, r ← cro_cleanup cfg i c; mret (i, r));
  if is_some err || (phase =?s PhaseFailed) then
    HandleError installation phase "Failed to reconcile finalizer" err;;
    mret (m, (installation, ps, (phase, err)))
  else if uninstall then mret (m, (installation, ps, (phase, None)))
  else if CloudResources.GetStrategiesConfigMapName cfg =?s "" then
    '(cfg, err) ← setPlatformStrategyName cfg c;
    match err with
    | Some e =>
        HandleError installation PhaseFailed "Failed to determine strategy name from platform" (Some e);;
        mret (m, (installation, ps, (PhaseFailed, Some e)))
    | None => cro_reconcile_install cfg installation ps c
    end
  else cro_reconcile_install cfg installation ps c.
End cro.

(** ** Facts *)

Section strategy_facts.
Context `{StrategyJson}.
Context (roundtrip : ∀ m s, strategies_Marshal m = inr s → strategies_Unmarshal s = inr m).

(** Service updates replace those of the production tier, whatever they
    were, and nothing else: every other tier, every other part of the strategy
    and every other resource type is kept.  Writing them again changes nothing
    that can be read back. *)
Theorem put_service_updates_spec resourceType updates cm cm' :
  put_service_updates resourceType updates cm = Done (cm', None) →
  ∃ m s json, strategies_Unmarshal (omap_get "" (cm_Data cm) resourceType) = inr (Some m)
    ∧ m !! TierProduction = Some (Some s) ∧ strings_Marshal updates = inr json
    ∧ strategies_Unmarshal (omap_get "" (cm_Data cm') resourceType)
        = inr (Some (<[TierProduction := Some (mkStrategy (str_Region s) (str_CreateStrategy s)
                                                (str_DeleteStrategy s) json)]> m))
    ∧ (∀ k, k ≠ resourceType → omap_lookup (cm_Data cm') k = omap_lookup (cm_Data cm) k)
    ∧ cm_meta cm' = cm_meta cm ∧ cm_BinaryData cm' = cm_BinaryData cm.
Proof.
  unfold put_service_updates. destruct (strategies_Unmarshal _) as [e|[m|]] eqn:Hu; [done| |done].
  cbn. destruct (m !! TierProduction) as [[s|]|] eqn:Hm; [|done..].
  destruct (strings_Unmarshal _) as [e|old]; [done|].
  destruct (strings_Marshal updates) as [e|json] eqn:Hj; [done|].
  destruct (strategies_Marshal _) as [e|text] eqn:Ht; [done|].
  destruct (cm_Data cm) as [data|] eqn:Hd; [|done]. intros [= <-].
  exists m, s, json. split_and!; [done..| | |done|done].
  - cbn. rewrite map_get_insert. by apply roundtrip.
  - intros k Hk. cbn. by rewrite lookup_insert_ne.
Qed.

(** The delete strategy of every tier is the one that is given. *)
Lemma overrideStrategyConfig_spec resourceType cm d cm' :
  overrideStrategyConfig resourceType cm d = Done (cm', None) →
  ∃ m m', strategies_Unmarshal (omap_get "" (cm_Data cm) resourceType) = inr m
    ∧ strategies_Unmarshal (omap_get "" (cm_Data cm') resourceType) = inr m'
    ∧ dom (make_if_nil m') = dom (make_if_nil m)
    ∧ (∀ tier s, omap_lookup m' tier = Some (Some s) → delete_Marshal d = inr (str_DeleteStrategy s))
    ∧ ∀ k, k ≠ resourceType → omap_lookup (cm_Data cm') k = omap_lookup (cm_Data cm) k.
Proof.
  unfold overrideStrategyConfig. destruct (strategies_Unmarshal _) as [e|m] eqn:Hu; [done|].
  destruct (if bool_decide (make_if_nil m = ∅) then _ else _) as [e|json] eqn:Hj; [done|].
  destruct (override_tiers json (make_if_nil m)) as [tiers|] eqn:Ho; [|done]. cbn.
  destruct (strategies_Marshal _) as [e|text] eqn:Ht; [done|].
  destruct (cm_Data cm) as [data|] eqn:Hd; [|done]. intros [= <-].
  unfold override_tiers in Ho. destruct (bool_decide (map_Forall _ _)); [|done]. injection Ho as <-.
  apply roundtrip in Ht. exists m, ((λ _, (λ v : option StrategyConfig, (λ s, mkStrategy (str_Region s)
    (str_CreateStrategy s) json (str_ServiceUpdates s)) <$> v) <$> make_if_nil m) <$> m).
  split_and!; [done|by cbn; rewrite map_get_insert| | |].
  - destruct m as [m|]; [|done]. cbn. by rewrite dom_fmap_L.
  - intros tier s Hs. destruct m as [m|]; [|done]. cbn in Hs. rewrite lookup_fmap in Hs.
    destruct (m !! tier) as [[s0|]|] eqn:Hm; [|done..]. injection Hs as <-. cbn.
    destruct (bool_decide (make_if_nil (Some m) = ∅)) eqn:E; [|done].
    apply bool_decide_eq_true in E. cbn in E. by rewrite E in Hm.
  - intros k Hk. cbn. by rewrite lookup_insert_ne.
Qed.
End strategy_facts.

Section cro_facts.
Context {W Q : Type}.
Context `{Client W RHMI} `{Client W ConfigMap} `{Client W Secret} `{Client W NamespaceObj}
  `{Client W ProjectRequest} `{Client W Project} `{Client W InstallPlan} `{Client W Subscription}
  `{Client W ClusterServiceVersion} `{Client W Postgres} `{Client W Redis} `{Client W BlobStorage}
  `{Client W (Snapshot PostgresSnapshotType)} `{Client W (Snapshot RedisSnapshotType)}
  `{Client W CRD} `{Client W Infrastructure} `{Client W CloudCredential} `{Client W PrometheusRule}
  `{Client W UpstreamPrometheusRule} `{Client W (LimitRange Q)}.
Context `{MarketplaceInterface W} `{EventRecorder W} `{Clock W} `{MapRange W} `{Yaml}
  `{StrategyJson} `{NetworkJson} `{CroStrategies W} `{Quantity Q} `{SemanticDeepEqual (LimitRange Q)}.
Context (m : Manager) (declaration : ProductDeclaration).

(** *** Clean-up *)

Lemma and_then_done body next (w w' : W) :
  and_then body next w = (Done (PhaseCompleted, None), w') →
  ∃ w1, body w = (Done (PhaseCompleted, None), w1) ∧ next w1 = (Done (PhaseCompleted, None), w').
Proof.
  unfold and_then. intros Hr. apply bind_done_inv in Hr as ([ph err] & w1 & Hb & Hr).
  destruct (is_some err || _) eqn:Hs; [by rewrite run_ret in Hr; injection Hr as -> -> _|].
  apply orb_false_iff in Hs as [He Hs%negb_false_iff%str_eqb_true]. destruct err; [done|]. subst ph. eauto.
Qed.

Lemma delete_listed_ok {O} `{Client W O} c what ns (w w' : W) items :
  delete_listed (O := O) c what ns w = (Done (inr items), w') →
  ∃ w1, client_list (O := O) c (InNamespace ns) w = (Done (inr items), w1).
Proof.
  unfold delete_listed. intros Hr. apply bind_done_inv in Hr as ([e|l] & w1 & Hl & Hr); [by rewrite run_ret in Hr|].
  apply bind_done_inv in Hr as ([e|] & w2 & _ & Hr); rewrite run_ret in Hr; simplify_eq. eauto.
Qed.

(** The kinds of cloud resources there are none left of in a namespace. *)
Definition nothing_left (c : KClient) (ns : string) : Prop :=
  ∃ w1 w2 w3 w1' w2' w3' : W,
    client_list (O := Postgres) c (InNamespace ns) w1 = (Done (inr []), w1')
    ∧ client_list (O := Redis) c (InNamespace ns) w2 = (Done (inr []), w2')
    ∧ client_list (O := BlobStorage) c (InNamespace ns) w3 = (Done (inr []), w3').

Lemma cleanupResources_done i c (w w' : W) :
  cleanupResources i c w = (Done (PhaseCompleted, None), w') →
  (∃ w1, Exists c (mkCRD (named "" "postgres.integreatly.org")) w = (Done (false, None), w1))
  ∨ nothing_left c (Namespace (rhmi_meta i)).
Proof.
  unfold cleanupResources. intros Hr.
  apply bind_done_inv in Hr as ([ex [e|]] & w1 & Hex & Hr); [by rewrite run_ret in Hr|].
  destruct ex; cbn [negb] in Hr; [right|left; by exists w1].
  apply bind_done_inv in Hr as ([e|pgs] & w2 & Hpg & Hr); [by rewrite run_ret in Hr|].
  apply bind_done_inv in Hr as ([e|rds] & w3 & Hrd & Hr); [by rewrite run_ret in Hr|].
  apply bind_done_inv in Hr as ([e|bss] & w4 & Hbs & Hr); [by rewrite run_ret in Hr|].
  destruct (_ || _ || _) eqn:El; [by rewrite run_ret in Hr|].
  apply orb_false_iff in El as [[Hp Hq]%orb_false_iff Hb].
  destruct pgs; [|done]. destruct rds; [|done]. destruct bss; [|done].
  apply delete_listed_ok in Hpg as [? ?], Hrd as [? ?], Hbs as [? ?]. by do 6 eexists.
Qed.

(** The clean-up of the cloud resources is complete, and the operator
    that deletes them goes, only when its namespace is gone already, or their
    kinds are not installed, or none of them is left in the installation's
    namespace; the strategies for their deletion were in place before. *)
Theorem cro_cleanup_completed cfg i c (w w' : W) :
  cro_cleanup cfg i c w = (Done (PhaseCompleted, None), w') →
  (∃ e w1, GetNS (CloudResources.GetOperatorNamespace cfg) c w = (Done (inl e), w1)
           ∧ IsNotFound (Some e) = true)
  ∨ ∃ w1 w2 w3 w4, removeSnapshots i c w1 = (Done (PhaseCompleted, None), w2)
      ∧ createDeletionStrategy cfg i c w2 = (Done (PhaseCompleted, None), w3)
      ∧ cleanupResources i c w3 = (Done (PhaseCompleted, None), w4)
      ∧ ((∃ w5, Exists c (mkCRD (named "" "postgres.integreatly.org")) w3 = (Done (false, None), w5))
         ∨ nothing_left c (Namespace (rhmi_meta i))).
Proof.
  unfold cro_cleanup. intros Hr. apply bind_done_inv in Hr as (got & w1 & Hns & Hr).
  destruct (IsNotFound _) eqn:En.
  - left. destruct got as [e|]; [|done]. by exists e, w1.
  - right. apply and_then_done in Hr as (w2 & Hsn & Hr). apply and_then_done in Hr as (w3 & Hst & Hr).
    apply and_then_done in Hr as (w4 & Hcl & Hr). exists w1, w2, w3, w4.
    split_and!; [done..|by eapply cleanupResources_done].
Qed.

(** *** The network range *)


(** *** Reconcile *)

Lemma addServiceUpdates_phase cfg i c ty l (w w' : W) ph :
  addServiceUpdates cfg i c ty l w = (Done (ph, None), w') → ph = PhaseCompleted ∨ ph = PhaseInProgress.
Proof. unfold addServiceUpdates. intros Hr. go_inv; auto. Qed.
Lemma reconcileStrategies_phase c (w w' : W) ph :
  reconcileCloudResourceStrategies m c w = (Done (ph, None), w') → ph = PhaseCompleted.
Proof. unfold reconcileCloudResourceStrategies. intros Hr. by go_inv. Qed.

(** A step that gives an error only. *)
Definition error_step (body : M W (option error)) : M W (StatusPhase * option error) :=
  err ← body; mret (match err with Some e => (PhaseFailed, Some e) | None => (PhaseCompleted, None) end).
Lemma error_step_done body (w w' : W) :
  body w = (Done None, w') → error_step body w = (Done (PhaseCompleted, None), w').
Proof. intros Hb. unfold error_step. by rewrite (bind_done _ _ _ _ _ Hb). Qed.

Lemma updates_step_done (stop_with : _ → CroResult) i what body next (w w' : W) x :
  not_given_up stop_with x → (∀ w w' ph, body w = (Done (ph, None), w') → ph = PhaseCompleted ∨ ph = PhaseInProgress) →
  updates_step stop_with i what body next w = (Done x, w') →
  ∃ w1, body w = (Done (PhaseCompleted, None), w1) ∧ next w1 = (Done x, w').
Proof.
  intros Hx Hb Hr. unfold updates_step in Hr. apply bind_done_inv in Hr as ([ph [e|]] & w1 & Hs & Hr).
  - apply bind_done_inv in Hr as ([] & w2 & _ & Hr). rewrite run_ret in Hr. injection Hr as Hr _.
    by apply Hx in Hr as [_ ?].
  - destruct (Hb _ _ _ Hs) as [-> | ->]; [eauto|].
    rewrite str_eqb_refl, run_ret in Hr. injection Hr as Hr _. by apply Hx in Hr as [? _].
Qed.

Definition cro_steps (cfg : CloudResources.t) (i : RHMI) (c : KClient) (sts : bool)
    : list (M W (StatusPhase * option error)) :=
  let ns := CloudResources.GetOperatorNamespace cfg in
  (if sts then [checkStsCredentialsPresent c ns] else []) ++
  [reconcileCloudResourceStrategies m c;
   error_step (reconcileCIDRValue cfg i c);
   cro_reconcileSubscription declaration i c ns;
   ReconcileCsvDeploymentsPriority c cro_csv_name ns (PriorityClassName (Spec i));
   addServiceUpdates cfg i c RedisResourceType redisServiceUpdatesToInstall;
   addServiceUpdates cfg i c PostgresResourceType postgresServiceUpdateTimestamp].

Definition cro_status (cfg : CloudResources.t) (ps : RHMIProductStatus) : RHMIProductStatus :=
  mkProductStatus (p_Name ps) (CloudResources.GetOperatorVersion cfg) (CloudResources.GetProductVersion cfg)
    (CloudResources.GetHost cfg) (p_Type ps) (p_Mobile ps) (p_Phase ps) (p_Uninstall ps).

(** What holds at the end of an install that is completed. *)
Definition cro_installed (cfg : CloudResources.t) (ps : RHMIProductStatus) (c : KClient)
    (w : W) (x : Manager * (RHMI * RHMIProductStatus)) (w' : W) : Prop :=
  let '(m', (i, ps')) := x in
  ∃ alerts w1 w2 w3 w4, cro_newAlertsReconciler i cfg c (Type_ (Spec i)) (GetOboNamespace (Namespace (rhmi_meta i))) w
      = (Done (alerts, None), w1)
    ∧ ReconcileAlerts alerts c w1 = (Done (PhaseCompleted, None), w2)
    ∧ WriteConfig m cfg w2 = (Done (m', None), w3) ∧ ps' = cro_status cfg ps
    ∧ HandleProductComplete i ProductsStage ProductCloudResources w3 = (Done tt, w4) ∧ w' = w4.

Lemma cro_gives_up (i : RHMI) (ps : RHMIProductStatus) m' i' ps' :
  not_given_up (λ r, (m, (i, ps, r)) : CroResult) (m', (i', ps', (PhaseCompleted, None))).
Proof. by intros ph err [= _ _ _ -> ->]. Qed.

Lemma cro_operator_done cfg i ps c (w w' : W) m' i' ps' :
  cro_reconcile_operator m declaration cfg i ps c w = (Done (m', (i', ps', (PhaseCompleted, None))), w') →
  ∃ w1, steps_done [cro_reconcileSubscription declaration i c (CloudResources.GetOperatorNamespace cfg);
      ReconcileCsvDeploymentsPriority c cro_csv_name (CloudResources.GetOperatorNamespace cfg) (PriorityClassName (Spec i));
      addServiceUpdates cfg i c RedisResourceType redisServiceUpdatesToInstall;
      addServiceUpdates cfg i c PostgresResourceType postgresServiceUpdateTimestamp] w w1
    ∧ i' = i ∧ cro_installed cfg ps c w1 (m', (i, ps')) w'.
Proof.
  intros Hr. unfold cro_reconcile_operator in Hr.
  pose proof (cro_gives_up i ps m' i' ps') as Hx.
  apply step_with_done in Hr as (w1 & S1 & Hr); [|done]. apply step_with_done in Hr as (w2 & S2 & Hr); [|done].
  apply updates_step_done in Hr as (w3 & S3 & Hr); [|done|intros; by eapply addServiceUpdates_phase].
  apply updates_step_done in Hr as (w4 & S4 & Hr); [|done|intros; by eapply addServiceUpdates_phase].
  apply bind_done_inv in Hr as ([alerts [e|]] & w5 & S5 & Hr); [go_inv|].
  apply step_with_done in Hr as (w6 & S6 & Hr); [|done].
  unfold complete_cro in Hr. apply bind_done_inv in Hr as ([m1 [e|]] & w7 & S7 & Hr); [go_inv|].
  apply bind_done_inv in Hr as ([] & w8 & S8 & Hr). rewrite run_ret in Hr. injection Hr as <- <- <- <-.
  exists w4. split; [steps_tac|]. split; [done|]. by exists alerts, w5, w6, w7, w8.
Qed.

Lemma cro_strategies_done cfg i ps c (w w' : W) m' i' ps' :
  cro_reconcile_strategies m declaration cfg i ps c w = (Done (m', (i', ps', (PhaseCompleted, None))), w') →
  ∃ w1, steps_done (cro_steps cfg i c false) w w1 ∧ i' = i ∧ cro_installed cfg ps c w1 (m', (i, ps')) w'.
Proof.
  intros Hr. unfold cro_reconcile_strategies in Hr.
  apply bind_done_inv in Hr as ([ph [e|]] & w1 & S1 & Hr); [go_inv|].
  pose proof (reconcileStrategies_phase _ _ _ _ S1) as ->.
  apply checked_done in Hr as (w2 & S2%error_step_done & Hr); [|by apply cro_gives_up].
  apply cro_operator_done in Hr as (w3 & S3 & -> & Hin). exists w3. split; [|done].
  apply (steps_done_app [_; _] [_; _; _; _]). exists w2. split; [steps_tac|done].
Qed.

(** C12: The cloud resources product is completed only after its finalizer was
    reconciled, its strategies have a name the platform supports, namespace
    and limits are there, the credentials too on a cluster with a security
    token service, and each further step completed in order; the config that
    is written back is the one the steps used. *)
Theorem cro_completed cfg i ps c (w w' : W) m' i' ps' :
  cro_Reconcile m declaration cfg i ps c false w = (Done (m', (i', ps', (PhaseCompleted, None))), w') →
  ∃ wf cfg' w0 w1 sts w2 w3,
    ReconcileFinalizer c i ProductCloudResources false (λ i, r ← cro_cleanup cfg i c; mret (i, r)) w
      = (Done (i', (PhaseCompleted, None)), wf)
    ∧ (CloudResources.GetStrategiesConfigMapName cfg ≠ "" ∧ cfg' = cfg ∧ w0 = wf
       ∨ setPlatformStrategyName cfg c wf = (Done (cfg', None), w0))
    ∧ steps_done [ReconcileNamespace (CloudResources.GetOperatorNamespace cfg') i' c;
         ReconcileLimitRange (Q := Q) c (CloudResources.GetOperatorNamespace cfg') DefaultLimitRangeParams] w0 w1
    ∧ IsClusterSTS c w1 = (Done (sts, None), w2)
    ∧ steps_done (cro_steps cfg' i' c sts) w2 w3
    ∧ cro_installed cfg' ps c w3 (m', (i', ps')) w'.
Proof.
  unfold cro_Reconcile. intros Hr. apply bind_done_inv in Hr as ([i1 [ph err]] & wf & Hf & Hr).
  destruct (is_some err || (ph =?s PhaseFailed)) eqn:Hn; [go_inv|].
  apply orb_false_iff in Hn as [He _]. destruct err; [done|].
  pose proof (ReconcileFinalizer_phase _ _ _ _ _ _ _ _ _ Hf eq_refl) as ->.
  assert (∀ cfg' w0, cro_reconcile_install m declaration cfg' i1 ps c w0 = (Done (m', (i', ps', (PhaseCompleted, None))), w') →
    ∃ w1 sts w2 w3, steps_done [ReconcileNamespace (CloudResources.GetOperatorNamespace cfg') i' c;
         ReconcileLimitRange (Q := Q) c (CloudResources.GetOperatorNamespace cfg') DefaultLimitRangeParams] w0 w1
      ∧ IsClusterSTS c w1 = (Done (sts, None), w2) ∧ steps_done (cro_steps cfg' i' c sts) w2 w3
      ∧ cro_installed cfg' ps c w3 (m', (i', ps')) w' ∧ i' = i1) as Hinst.
  { intros cfg' w0 Hi. unfold cro_reconcile_install in Hi.
    apply step_with_done in Hi as (w1 & S1 & Hi); [|by apply cro_gives_up].
    apply step_with_done in Hi as (w2 & S2 & Hi); [|by apply cro_gives_up].
    apply bind_done_inv in Hi as ([sts [e|]] & w3 & S3 & Hi); [go_inv|].
    destruct sts.
    - apply step_with_done in Hi as (w4 & S4 & Hi); [|by apply cro_gives_up].
      apply cro_strategies_done in Hi as (w5 & S5 & -> & Hin). exists w2, true, w3, w5.
      split_and!; [steps_tac|done| |done|done]. unfold cro_steps.
      apply (steps_done_app [_]). exists w4. split; [steps_tac|exact S5].
    - apply cro_strategies_done in Hi as (w5 & S5 & -> & Hin). exists w2, false, w3, w5.
      split_and!; [steps_tac|done..]. }
  destruct (CloudResources.GetStrategiesConfigMapName cfg =?s "") eqn:En.
  - apply bind_done_inv in Hr as ([cfg' [e|]] & w0 & Hp & Hr); [go_inv|].
    apply Hinst in Hr as (w1 & sts & w2 & w3 & ? & ? & ? & ? & <-).
    exists wf, cfg', w0, w1, sts, w2, w3. split_and!; try done. by right.
  - apply str_eqb_false in En. apply Hinst in Hr as (w1 & sts & w2 & w3 & ? & ? & ? & ? & <-).
    exists wf, cfg, wf, w1, sts, w2, w3. split_and!; try done. by left.
Qed.
End cro_facts.
