(* ===== verification/Bootstrap.v ===== *)
(** * The bootstrap stage (internal/controller/rhmi/bootstrapReconciler.go)

    The reconciler that runs before any product: limits, OAuth secrets,
    cluster facts, quota, SMTP and the alerts of the operator itself.  It
    implements the interface Stages runs the stage through.

    The reconciler and its caller hold the same pointer to the installation:
    every step that assigns to it returns it. *)

From stdpp Require Import base list strings gmap.
From Stdlib Require Import ZArith Lia Ascii.
From S2P Require Import Prelude Numbers Kube Api Resources Password Users Olm Quota Pods RateLimit Cro Config Cluster Addon.
From S2P Require Import Alerts CloudAlerts UsageAlerts OboAlerts Metrics Custom AlertManager Products Session Stages Preflight Uninstall.

(** ** Objects *)

(** schedulingv1.PriorityClass *)
Record PriorityClass := mkPriorityClass {
  pc_meta : ObjectMeta; pc_Value : Z; pc_GlobalDefault : bool; pc_Description : string }.
#[global] Instance PriorityClass_eq_dec : EqDecision PriorityClass.
Proof. solve_decision. Defined.
#[global] Instance PriorityClass_object : K8sObject PriorityClass := {|
  meta := pc_meta; set_meta m p := mkPriorityClass m (pc_Value p) (pc_GlobalDefault p) (pc_Description p);
  semantic_deep_equal a b := bool_decide (a = b);
|}.

(** ownerutil.EnsureOwner: what it makes of the metadata of an object. *)
Class OwnerUtil := EnsureOwner : ObjectMeta → RHMI → ObjectMeta.
(** json.MarshalIndent of alert configurations *)
Class AlertsJsonEncode := alerts_MarshalIndent : gmap string AlertConfig → error + string.
(** json.Unmarshal of the quota config map *)
Class QuotaJson (Q : Type) := quota_Unmarshal : string → error + list (@quotaConfigReceiver Q).

Definition tenantOauthclientSecretsName : string := "tenant-oauth-client-secrets".

(** ** generateSecret *)

Definition chars : string := "ABCDEFGHIJKLMNOPQRSTUVWXYZabcdefghijklmnopqrstuvwxyz0123456789".

Section secrets.
Context {W : Type} `{Rand W}.

(** A failed rand.Int is logged, and its nil result then read; an index out
    of range panics. *)
Definition random_char : M W ascii :=
  rnd ← rand_Int (Z.of_nat (String.length chars));
  match rnd with
  | inl _ => panic "nil pointer dereference"
  | inr n => match (if (n <? 0)%Z then None else String.get (Z.to_nat n) chars) with
             | Some c => mret c
             | None => panic "index out of range"
             end
  end.
Fixpoint generateSecret (length : nat) : M W string :=
  match length with
  | O => mret EmptyString
  | S length => c ← random_char; rest ← generateSecret length; mret (String c rest)
  end.

(** ** OAuth secrets *)

Context `{Client W Secret} `{Client W OAuthClient}.

Definition set_data (d : option (gmap string string)) (s : Secret) : Secret :=
  with_sec_Data s d.
(** An assignment to a key: to a nil map it panics. *)
Definition put_secret (k v : string) (s : Secret) : M W Secret :=
  match sec_Data s with
  | None => panic "assignment to entry in nil map"
  | Some d => mret (set_data (Some (<[k := v]> d)) s)
  end.

(** The client that is read has the name of the secret, not the one made of
    the key. *)
Definition oauth_secret_data (c : KClient) (s : Secret) (key : string) : M W (Secret * option error) :=
  if is_some (omap_lookup (sec_Data s) key) then mret (s, None)
  else
    got ← client_get (O := OAuthClient) c "" (Name (sec_meta s));
    match got with
    | inl e =>
        if negb (IsNotFound (Some e)) then mret (s, Some e)
        else v ← generateSecret 32; s ← put_secret key v s; mret (s, None)
    | inr oauthClient => s ← put_secret key (oc_Secret oauthClient) s; mret (s, None)
    end.

Fixpoint oauth_secrets_loop (c : KClient) (wrap : string → error → error) (s : Secret) (keys : list string)
    : M W (Secret * option error) :=
  match keys with
  | [] => mret (s, None)
  | key :: keys =>
      '(s, err) ← oauth_secret_data c s key;
      match err with
      | Some e => mret (s, Some (wrap key e))
      | None => oauth_secrets_loop c wrap s keys
      end
  end.

Definition products_with_oauth : list ProductName := [ProductRHSSO; ProductRHSSOUser; Product3Scale].
Definition forget_version (s : Secret) : Secret := set_meta (SetResourceVersion "" (sec_meta s)) s.

(** The mutate function reads the secret again. *)
Definition mutate_oauth_secrets (c : KClient) (s : Secret) : M W (Secret * option error) :=
  got ← client_get c (Namespace (sec_meta s)) (Name (sec_meta s));
  match got with
  | inl e =>
      if negb (IsNotFound (Some e)) then mret (s, Some e)
      else
        '(s, err) ← oauth_secrets_loop c (λ _ e, e) (set_data (Some ∅) s) products_with_oauth;
        mret (if is_some err then s else forget_version s, err)
  | inr s =>
      '(s, err) ← oauth_secrets_loop c (λ _ e, e) s products_with_oauth;
      mret (if is_some err then s else forget_version s, err)
  end.

Definition reconcileOauthSecrets (m : Manager) (c : KClient) : M W (StatusPhase * option error) :=
  '(_, (_, err)) ← CreateOrUpdate c
    (mkSecret (named (GetOperatorNamespace m) (GetOauthClientsSecretName m)) None)
    (mutate_oauth_secrets c);
  match err with
  | Some e => mret (PhaseFailed, Some (ErrWrap "error reconciling oauth clients secrets: " e))
  | None => mret (PhaseCompleted, None)
  end.

Definition tenantExists (user : string) (tenants : list MultiTenantUser) : bool :=
  existsb (λ t, TenantName t =?s user) tenants.
Definition drop_redundant (tenants : list MultiTenantUser) (s : Secret) : Secret :=
  set_data (filter (λ kv, tenantExists kv.1 tenants = true) <$> sec_Data s) s.

Definition mutate_tenant_secrets (c : KClient) (tenants : list MultiTenantUser) (s : Secret)
    : M W (Secret * option error) :=
  got ← client_get c (Namespace (sec_meta s)) (Name (sec_meta s));
  let go s :=
    '(s, err) ← oauth_secrets_loop c
      (λ key e, ErrWrap ("error reconciling OAuth secret data for tenant " +:+ key +:+ ": ") e) s
      (map TenantName tenants);
    mret (if is_some err then s else forget_version (drop_redundant tenants s), err) in
  match got with
  | inl e => if negb (IsNotFound (Some e)) then mret (s, Some e) else go (set_data (Some ∅) s)
  | inr s => go (set_data (Some (make_if_nil (sec_Data s))) s)
  end.

Definition reconcileTenantOauthSecrets `{Client W User} `{Client W Identity} `{MailParser}
    (m : Manager) (c : KClient) : M W (StatusPhase * option error) :=
  allTenants ← GetMultiTenantUsers c;
  match allTenants with
  | inl e => mret (PhaseFailed, Some (ErrWrap "error getting teants for OAuth clients secrets: " e))
  | inr allTenants =>
      '(_, (_, err)) ← CreateOrUpdate c
        (mkSecret (named (GetOperatorNamespace m) tenantOauthclientSecretsName) None)
        (mutate_tenant_secrets c allTenants);
      match err with
      | Some e => mret (PhaseFailed, Some (ErrWrap "error reconciling oauth clients secrets: " e))
      | None => mret (PhaseCompleted, None)
      end
  end.

Definition reconcilerGithubOauthSecret `{Client W Role} `{Client W RoleBinding} `{OwnerUtil}
    (m : Manager) (c : KClient) (installation : RHMI) : M W (StatusPhase * option error) :=
  let n := GetGHOauthClientsSecretName m in
  let ns := GetOperatorNamespace m in
  '(_, (_, err)) ← CreateOrUpdate c (mkSecret (named ns n) None)
    (λ s, let s := set_meta (EnsureOwner (sec_meta s) installation) s in
          mret (if bool_decide (make_if_nil (sec_Data s) = ∅)
                then set_data (Some {["clientId" := "dummy"; "secret" := "dummy"]}) s else s, None));
  match err with
  | Some e => mret (PhaseFailed, Some (ErrWrap "error reconciling Github OAuth secrets: " e))
  | None =>
      '(role, (_, err)) ← CreateOrUpdate c (mkRole (named ns n) [])
        (λ r, mret (mkRole (role_meta r) [mkPolicyRule [""] ["secrets"] ["update"; "get"] [n]], None));
      match err with
      | Some e => mret (PhaseFailed, Some (ErrWrap "error creating Github OAuth secrets role: " e))
      | None =>
          '(_, (_, err)) ← CreateOrUpdate c (mkRoleBinding (named ns n) ("", "") [])
            (λ r, mret (mkRoleBinding (rb_meta r) (Name (role_meta role), "Role")
                          [("dedicated-admins", "Group")], None));
          match err with
          | Some e => mret (PhaseFailed, Some (ErrWrap "error creating Github OAuth secrets role binding: " e))
          | None => mret (PhaseCompleted, None)
          end
      end
  end.
End secrets.

(** ** Facts about the cluster, quota and SMTP *)

(** A step that assigns to the installation *)
Abbreviation Step W := (M W (RHMI * (StatusPhase * option error))) (only parsing).

Section steps.
Context {W : Type}.

Definition reconcileAddonManagedApiServiceParameters `{Client W Secret} `{Client W Subscription}
    (m : Manager) (c : KClient) : M W (StatusPhase * option error) :=
  got ← GetAddonParametersSecret c (GetOperatorNamespace m);
  mret (match got with inl e => (PhaseFailed, Some e) | inr _ => (PhaseCompleted, None) end).

Definition GetConsoleRouteCR `{Client W Route} (c : KClient) : M W (error + Route) :=
  client_get c "openshift-console" "console".

Definition zero_domain_status : CustomDomainStatus := mkCustomDomainStatus false "".

(** The custom domain of the parameters, with the error of a bad one. *)
Definition use_custom_domain (i : RHMI) (domain : string) (err : option error) : RHMI :=
  let i := if RoutingSubdomain (Spec i) =?s "" then on_spec (λ s, set_RoutingSubdomain s domain) i else i in
  let d := default zero_domain_status (CustomDomain (Status i)) in
  let d := mkCustomDomainStatus true (domain_Error d) in
  match err with
  | None => on_status (λ s, set_CustomDomain s (Some d)) i
  | Some e => on_status (λ s, set_LastError (set_CustomDomain s
                (Some (mkCustomDomainStatus true (error_msg e)))) (error_msg e)) i
  end.

(** No custom domain in the parameters: the installation, and whether the
    metric of the custom domain is reset. *)
Definition settle_domain (routerDefault : string) (i : RHMI) : RHMI * bool :=
  let i := if RoutingSubdomain (Spec i) =?s ""
           then on_spec (λ s, set_RoutingSubdomain s routerDefault) i else i in
  let i := if negb (RoutingSubdomain (Spec i) =?s routerDefault) && is_none (CustomDomain (Status i))
           then on_status (λ s, set_CustomDomain s (Some (mkCustomDomainStatus true ""))) i else i in
  if (RoutingSubdomain (Spec i) =?s routerDefault) && is_some (CustomDomain (Status i))
  then (on_status (λ s, set_CustomDomain s None) i, true)
  else (i, false).

Definition retrieveConsoleURLAndSubdomain `{Client W Route} `{Client W Secret} `{Client W Subscription}
    `{UrlParser} `{Prometheus W} (i : RHMI) (c : KClient) : Step W :=
  got ← GetConsoleRouteCR c;
  match got with
  | inl e => mret (i, (PhaseFailed, Some (ErrWrap (if IsNotFound (Some e) then "could not find CR route: "
                                                   else "could not retrieve CR route: ") e)))
  | inr route =>
      match rt_Ingress route with
      | [] => panic "index out of range"
      | ingress :: _ =>
          let i := on_spec (λ s, set_MasterURL s (ri_Host ingress)) i in
          let routerDefault := trim_prefix "router-default." (ri_RouterCanonicalHostname ingress) in
          '(ok, domain, err) ← GetDomain c (Some i);
          if is_some err && negb (ok : bool) then
            mret (i, (PhaseFailed, Some (errorf_w "customDomain.GetDomain() failure: " err)))
          else if ok && negb (domain =?s "") then
            mret (use_custom_domain i domain err, (PhaseCompleted, None))
          else
            let '(i, cleared) := settle_domain routerDefault i in
            (if cleared then modifies (SetCustomDomain false 0) else mret tt);;
            mret (i, (PhaseCompleted, None))
      end
  end.

Definition retrieveAPIServerURL `{Client W Infrastructure} (i : RHMI) (c : KClient) : Step W :=
  got ← client_get (O := Infrastructure) c "" "cluster";
  match got with
  | inl e => mret (i, (PhaseFailed, Some e))
  | inr cr =>
      let i := on_spec (λ s, set_APIServer s (inf_APIServerURL cr)) i in
      if negb (APIServer (Spec i) =?s "") then mret (i, (PhaseCompleted, None))
      else mret (i, (PhaseFailed, Some (ErrStr "no Status.apiServerURL found in infrastricture CR")))
  end.

Definition strategies (kind : string) : string :=
  "{" +:+ quoted "blobstorage" +:+ ":" +:+ quoted kind +:+ ", " +:+ quoted "smtpcredentials" +:+ ":" +:+ quoted kind
  +:+ ", " +:+ quoted "redis" +:+ ":" +:+ quoted kind +:+ ", " +:+ quoted "postgres" +:+ ":" +:+ quoted kind +:+ "}".
Definition put_strategies (kind : string) (d : gmap string string) : gmap string string :=
  <["multitenant-managed-api" := strategies kind]> (<["managed-api" := strategies kind]> d).

Definition checkCloudResourcesConfig `{Client W ConfigMap} `{Client W Infrastructure}
    (i : RHMI) (c : KClient) : M W (StatusPhase * option error) :=
  '(_, (_, err)) ← CreateOrUpdate c
    (mkConfigMap (named (Namespace (rhmi_meta i)) DefaultCloudResourceConfigName) None)
    (λ cm,
      let data := make_if_nil (cm_Data cm) in
      let md := if Slices.Contains (Finalizers (cm_meta cm)) previousDeletionFinalizer
                then SetFinalizers (Slices.Replace (Finalizers (cm_meta cm)) previousDeletionFinalizer
                                      deletionFinalizer) (cm_meta cm)
                else cm_meta cm in
      let finish data := with_cm_Data (set_meta md cm) (Some (<["workshop" := strategies "openshift"]> data)) in
      if to_lower (UseClusterStorage (Spec i)) =?s "true"
      then mret (finish (put_strategies "openshift" data), None)
      else
        '(platformType, err) ← GetPlatformType c;
        match err with
        | Some e => mret (with_cm_Data (set_meta md cm) (Some data), errors_Wrap (Some e) "failed to retrieve platform type")
        | None => mret (finish (if platformType =?s "AWS" then put_strategies "aws" data else data), None)
        end);
  match err with
  | Some e => mret (PhaseInProgress, Some e)
  | None => mret (PhaseCompleted, None)
  end.

Definition reconcilePriorityClass `{Client W PriorityClass} (i : RHMI) (c : KClient)
    : M W (StatusPhase * option error) :=
  '(_, (_, err)) ← CreateOrUpdate c
    (mkPriorityClass (named "" (PriorityClassName (Spec i))) 0 false "")
    (λ p, mret (mkPriorityClass (pc_meta p)
                  (if IsRHOAMMultitenant (Type_ (Spec i)) then 0 else 1000000000) false
                  "Priority Class for managed-api", None));
  match err with
  | Some e => mret (PhaseInProgress, Some e)
  | None => mret (PhaseCompleted, None)
  end.

Definition defaultConfig : gmap string AlertConfig := list_to_map [
  ("api-usage-alert-level1", mkAlertConfig AlertTypeThreshold "info" "RHOAMApiUsageLevel1ThresholdExceeded"
     "4h" (Some (mkThreshold "80%" (Some "90%"))));
  ("api-usage-alert-level2", mkAlertConfig AlertTypeThreshold "info" "RHOAMApiUsageLevel2ThresholdExceeded"
     "2h" (Some (mkThreshold "90%" (Some "95%"))));
  ("api-usage-alert-level3", mkAlertConfig AlertTypeThreshold "info" "RHOAMApiUsageLevel3ThresholdExceeded"
     "30m" (Some (mkThreshold "95%" None)));
  ("rate-limit-spike", mkAlertConfig AlertTypeSpike "warning" "RHOAMApiUsageOverLimit" "30m" None)].

Definition checkRateLimitAlertsConfig `{Client W ConfigMap} `{AlertsJsonEncode}
    (i : RHMI) (c : KClient) : M W (StatusPhase * option error) :=
  '(_, (_, err)) ← CreateOrUpdate c (mkConfigMap (named (Namespace (rhmi_meta i)) AlertConfigMapName) None)
    (λ cm, let cm := AddIntegreatlyOwnerAnnotations cm i in
           let data := make_if_nil (cm_Data cm) in
           mret (if is_some (data !! "alerts") then (with_cm_Data cm (Some data), None)
                 else match alerts_MarshalIndent defaultConfig with
                      | inl e => (with_cm_Data cm (Some data), Some e)
                      | inr json => (with_cm_Data cm (Some (<["alerts" := json]> data)), None)
                      end));
  match err with
  | Some e => mret (PhaseInProgress, Some e)
  | None => mret (PhaseCompleted, None)
  end.

Definition getSecretQuotaParam `{Client W Secret} `{Client W Subscription} `{Clock W} `{OsEnv W}
    (i : RHMI) (c : KClient) (namespace : string) : M W (error + string) :=
  '(quotaParam, found, err) ← GetStringParameter c namespace QuotaParamName;
  match err with
  | Some e => mret (inl (ErrWrap "error checking for quota secret " e))
  | None =>
      if (found : bool) && negb (quotaParam =?s "") then mret (inr quotaParam)
      else
        t ← reads now;
        if isInstallationOlderThan1Minute t i then
          '(quotaParam, found, err) ← GetStringParameter c namespace TrialQuotaParamName;
          match err with
          | Some e => mret (inl (ErrWrap "error checking for quota secret " e))
          | None =>
              if (found : bool) && negb (quotaParam =?s "") then mret (inr quotaParam)
              else if negb found then
                quotaValue ← reads (LookupEnv EnvKeyQuota);
                mret (match quotaValue with
                      | Some v => if v =?s "" then inl (ErrStr ("no quota value provided by add on parameter '"
                                    +:+ QuotaParamName +:+ "' or by env var '" +:+ EnvKeyQuota +:+ "'"))
                                  else inr v
                      | None => inl (ErrStr ("no quota value provided by add on parameter '"
                                    +:+ QuotaParamName +:+ "' or by env var '" +:+ EnvKeyQuota +:+ "'"))
                      end)
              else mret (inl (ErrStr "waiting for quota parameter for 1 minute after creation of cr"))
          end
        else mret (inl (ErrStr "waiting for quota parameter for 1 minute after creation of cr"))
  end.

(** After GetQuota: a first quota or another one becomes the target. *)
Definition target_quota {Q} (i : RHMI) (q : Quota Q) : RHMI * Quota Q :=
  if ((ToQuota (Status i) =?s "") && (Quota_ (Status i) =?s ""))
     || negb (GetName q =?s Quota_ (Status i))
  then (on_status (λ s, set_ToQuota s (GetName q)) i, SetIsUpdated q true)
  else (i, SetIsUpdated q false).

Definition processQuota {Q} `{QuotaJson Q} `{Client W Secret} `{Client W Subscription} `{Client W ConfigMap}
    `{Clock W} `{OsEnv W} (i : RHMI) (namespace : string) (q : Quota Q) (c : KClient)
    : M W (RHMI * Quota Q * option error) :=
  quotaParam ← getSecretQuotaParam i c namespace;
  match quotaParam with
  | inl e => mret (i, q, Some e)
  | inr quotaParam =>
      got ← client_get (O := ConfigMap) c namespace ConfigMapName;
      match got with
      | inl e => mret (i, q, Some (ErrWrap "error getting quota config map " e))
      | inr configMap =>
          let '(q, err) := GetQuota quota_Unmarshal quotaParam (cm_Data configMap) q in
          match err with
          | Some e => mret (i, q, Some e)
          | None => let '(i, q) := target_quota i q in mret (i, q, None)
          end
      end
  end.

Definition reconcileCustomSMTP `{Client W Secret} `{Client W Subscription} (i : RHMI) (c : KClient) : Step W :=
  let ns := Namespace (rhmi_meta i) in
  got ← GetCustomAddonValues c ns;
  match got with
  | inl e => mret (i, (PhaseFailed, Some e))
  | inr smtp =>
      let validation := ParameterValidation smtp in
      if validation =?s Valid then
        '(phase, err) ← CreateOrUpdateCustomSMTPSecret c (Some smtp) ns;
        match err with
        | Some e => mret (i, (phase, Some e))
        | None => mret (on_status (λ s, set_CustomSmtp s (Some (mkCustomSmtpStatus true ""))) i,
                        (PhaseCompleted, None))
        end
      else if validation =?s Partial then
        '(phase, err) ← DeleteCustomSMTP c ns;
        match err with
        | Some e => mret (i, (phase, Some e))
        | None => mret (on_status (λ s, set_CustomSmtp s (Some (mkCustomSmtpStatus false
                          ("Custom SMTP partially configured, missing fields: " +:+ ParameterErrors smtp)))) i,
                        (PhaseCompleted, None))
        end
      else if validation =?s Blank then
        '(phase, err) ← DeleteCustomSMTP c ns;
        match err with
        | Some e =>
            match Api.CustomSmtp (Status i) with
            | None => panic "nil pointer dereference"
            | Some st => mret (on_status (λ s, set_CustomSmtp s (Some (mkCustomSmtpStatus false (smtp_Error st)))) i,
                               (phase, Some e))
            end
        | None => mret (on_status (λ s, set_CustomSmtp s None) i, (PhaseCompleted, None))
        end
      else mret (i, (PhaseFailed, Some (ErrStr ("unknown validation state found: " +:+ validation))))
  end.

Definition setTenantMetrics `{Client W APIManagementTenant} `{Prometheus W} (c : KClient) : M W (option error) :=
  ls ← client_list (O := APIManagementTenant) c list_all;
  match ls with
  | inl e => mret (Some e)
  | inr tenants => modifies (SetTenantsSummary tenants);; mret None
  end.
End steps.

(** ** Reconcile *)

Section reconcile.
Context {W Q : Type} `{Quantity Q} `{SemanticDeepEqual (LimitRange Q)} `{Client W (LimitRange Q)}
  `{Rand W} `{Client W Secret} `{Client W OAuthClient} `{Client W User} `{Client W Identity} `{MailParser}
  `{Client W Role} `{Client W RoleBinding} `{OwnerUtil} `{Client W Subscription} `{Client W Route}
  `{UrlParser} `{Prometheus W} `{Client W Infrastructure} `{Client W ConfigMap} `{Client W PriorityClass}
  `{AlertsJsonEncode} `{QuotaJson Q} `{Clock W} `{OsEnv W} `{Client W APIManagementTenant}
  `{Client W Service} `{Client W ClusterVersion} `{FileSystem W} `{TextTemplate} `{MapRange W}
  `{Client W PrometheusRule} `{Client W UpstreamPrometheusRule} `{EventRecorder W}.

Definition BootstrapResult : Type := RHMI * Quota Q * (StatusPhase * option error).

(** A step: anything but completed ends the stage, with an event for a
    failure and the error wrapped where the code wraps it. *)
Definition boot_step (what : string) (wrap : option error → option error) (q : Quota Q)
    (body : M W (RHMI * (StatusPhase * option error))) (next : RHMI → M W BootstrapResult) : M W BootstrapResult :=
  '(i, (phase, err)) ← body;
  if is_some err || negb (phase =?s PhaseCompleted) then
    HandleError i phase what err;; mret (i, q, (phase, wrap err))
  else next i.
Definition keeping (i : RHMI) (body : M W (StatusPhase * option error))
    : M W (RHMI * (StatusPhase * option error)) :=
  r ← body; mret (i, r).
Definition wrapped (msg : string) (e : option error) : option error := errors_Wrap e msg.

(** The alerts and the configuration of Alertmanager, outside of Prow. *)
Definition reconcile_observability (i : RHMI) (q : Quota Q) (c : KClient)
    (next : RHMI → M W BootstrapResult) : M W BootstrapResult :=
  boot_step "Failed to reconcile alert manager config secret" id q (keeping i (ReconcileAlertManagerSecrets c i)) (λ i,
  boot_step "Failed to reconcile SendgridSmtpSecretExists alert" id q (keeping i (CreateSmtpSecretExists c i)) (λ i,
  boot_step "Failed to reconcile DeadMansSnitchSecretExists alert" id q (keeping i (CreateDeadMansSnitchSecretExists c i)) (λ i,
  boot_step "Failed to reconcile AddonManagedApiServiceParametersExists alert" id q
    (keeping i (CreateAddonManagedApiServiceParametersExists c i)) (λ i,
  boot_step "Failed to reconcile OBO alerts" id q (keeping i (ReconcileAlerts (OboAlertsReconciler i) c)) next)))).

Definition complete_bootstrap (q : Quota Q) (i : RHMI) : M W BootstrapResult :=
  HandleStageComplete i BootstrapStage;;
  modifies (SetInfo i);;
  mret (i, q, (PhaseCompleted, None)).

(** From the quota on. *)
Definition reconcile_settings (request_namespace : string) (i : RHMI) (q : Quota Q) (c : KClient)
    : M W BootstrapResult :=
  '(i, q, err) ← processQuota i request_namespace q c;
  match err with
  | Some e =>
      HandleError i PhaseFailed "Error while processing the Quota" (Some e);;
      mret (on_status (λ s, set_LastError s (error_msg e)) i, q, (PhaseFailed, Some e))
  | None =>
      modifies (SetQuota (Quota_ (Status i)) (ToQuota (Status i)));;
      boot_step "Reconciling custom SMTP has failed " (wrapped "reconciling custom SMTP has failed ") q
        (reconcileCustomSMTP i c) (λ i,
      if negb (IsInProw i) then reconcile_observability i q c (complete_bootstrap q)
      else complete_bootstrap q i)
  end.

(** What the cluster is and has. *)
Definition reconcile_cluster (request_namespace : string) (m : Manager) (i : RHMI) (q : Quota Q) (c : KClient)
    : M W BootstrapResult :=
  boot_step "Failed to reconcile github oauth secrets" (wrapped "failed to reconcile github oauth secrets") q
    (keeping i (reconcilerGithubOauthSecret m c i)) (λ i,
  boot_step "Failed to reconcile addon parameters" (wrapped "failed to reconcile addon parameters secret") q
    (keeping i (reconcileAddonManagedApiServiceParameters m c)) (λ i,
  boot_step "Failed to retrieve console url and subdomain" (wrapped "failed to retrieve console url and subdomain") q
    (retrieveConsoleURLAndSubdomain i c) (λ i,
  boot_step "Failed to retrieve API server URL" (wrapped "failed to retrieve API server URL") q
    (retrieveAPIServerURL i c) (λ i,
  boot_step "Failed to check cloud resources config settings"
    (wrapped "failed to check cloud resources config settings") q (keeping i (checkCloudResourcesConfig i c)) (λ i,
  boot_step "Failed to reconcile priority class" (wrapped "failed to reconcile priority class") q
    (keeping i (reconcilePriorityClass i c)) (λ i,
  boot_step "Failed to check rate limit alert config settings"
    (wrapped "failed to check rate limit alert config settings") q (keeping i (checkRateLimitAlertsConfig i c)) (λ i,
  reconcile_settings request_namespace i q c))))))).

(** A failure to set the metrics of the tenants comes with the phase of the
    step before, which is completed. *)
Definition reconcile_tenants (m : Manager) (i : RHMI) (q : Quota Q) (c : KClient)
    (next : RHMI → M W BootstrapResult) : M W BootstrapResult :=
  boot_step "Failed to reconcile tenant oauth secrets" (wrapped "failed to reconcile tenant oauth secrets") q
    (keeping i (reconcileTenantOauthSecrets m c)) (λ i,
  err ← setTenantMetrics c;
  match err with
  | Some e => HandleError i PhaseCompleted "Error setting tenant metrics" (Some e);;
              mret (i, q, (PhaseCompleted, wrapped "failed to set tenant metrics" (Some e)))
  | None => next i
  end).

Definition bootstrap_reconcile (request_namespace : string) (m : Manager) (i : RHMI) (c : KClient) (q : Quota Q)
    : M W BootstrapResult :=
  boot_step ("Failed to reconcile LimitRange for Namespace " +:+ Namespace (rhmi_meta i)) id q
    (keeping i (ReconcileLimitRange (Q := Q) c (Namespace (rhmi_meta i)) DefaultLimitRangeParams)) (λ i,
  boot_step "Failed to reconcile oauth secrets" (wrapped "failed to reconcile oauth secrets") q
    (keeping i (reconcileOauthSecrets m c)) (λ i,
  if IsRHOAMMultitenant (Type_ (Spec i))
  then reconcile_tenants m i q c (λ i, reconcile_cluster request_namespace m i q c)
  else reconcile_cluster request_namespace m i q c)).

(** The interface the stage is run through. *)
Definition bootstrap_interface (request_namespace : string) : BootstrapInterface W Q := {|
  NewBootstrapReconciler _ _ := mret None;
  bootstrap_Reconcile m i c q := '(i, q, r) ← bootstrap_reconcile request_namespace m i c q; mret (m, i, q, r);
|}.
End reconcile.

(** ** Facts about the OAuth secrets *)

Section secret_facts.
Context {W : Type} `{Rand W} `{Client W Secret} `{Client W OAuthClient}.

(** What is added to a secret's data: every key of [keys], nothing else, and
    no value that was there is changed. *)
Definition completes (keys : list string) (s s' : Secret) : Prop :=
  sec_meta s' = sec_meta s ∧ sec_Type s' = sec_Type s
  ∧ (∀ k v, omap_lookup (sec_Data s) k = Some v → omap_lookup (sec_Data s') k = Some v)
  ∧ (∀ k, is_some (omap_lookup (sec_Data s') k) = true ↔
          is_some (omap_lookup (sec_Data s) k) = true ∨ k ∈ keys).

Lemma completes_nil s : completes [] s s.
Proof. split_and!; try done. intros k. rewrite elem_of_nil. tauto. Qed.
Lemma completes_trans l1 l2 s1 s2 s3 :
  completes l1 s1 s2 → completes l2 s2 s3 → completes (l1 ++ l2) s1 s3.
Proof.
  intros (M1 & T1 & K1 & D1) (M2 & T2 & K2 & D2). split_and!; [congruence..|auto|].
  intros k. rewrite D2, D1, elem_of_app. tauto.
Qed.
Lemma completes_put s k v d :
  sec_Data s = Some d → d !! k = None → completes [k] s (set_data (Some (<[k := v]> d)) s).
Proof.
  intros Hd Hk. unfold completes, omap_lookup. rewrite Hd. cbn. split_and!; [done..| |].
  - intros k' v' Hv. rewrite lookup_insert_ne; [done|]. intros ->. congruence.
  - intros k'. rewrite list_elem_of_singleton. destruct (decide (k' = k)) as [->|Hne].
    + rewrite lookup_insert_eq. cbn. tauto.
    + rewrite lookup_insert_ne by done. tauto.
Qed.

Lemma put_secret_completes s k v s' (w w' : W) :
  is_some (omap_lookup (sec_Data s) k) = false → put_secret k v s w = (Done s', w') → completes [k] s s'.
Proof.
  unfold put_secret. intros Hn Hr. destruct (sec_Data s) as [d|] eqn:Ed; [|done]. go_inv.
  apply completes_put; [done|]. unfold omap_lookup in Hn. cbn in Hn. by destruct (d !! k).
Qed.

Lemma oauth_secret_data_completes c s key s' (w w' : W) :
  oauth_secret_data c s key w = (Done (s', None), w') → completes [key] s s'.
Proof.
  unfold oauth_secret_data. destruct (is_some _) eqn:E.
  - intros Hr. go_inv. split_and!; try done. intros k. rewrite list_elem_of_singleton.
    split; [tauto|]. by intros [?| ->].
  - intros Hr. go_inv; by eapply put_secret_completes.
Qed.
Lemma oauth_secrets_loop_completes c wrap keys : ∀ s s' (w w' : W),
  oauth_secrets_loop c wrap s keys w = (Done (s', None), w') → completes keys s s'.
Proof.
  induction keys as [|k keys IH]; intros s s' w w' Hr; cbn [oauth_secrets_loop] in Hr.
  - go_inv. apply completes_nil.
  - apply bind_done_inv in Hr as ([s1 [e|]] & w1 & Hd & Hr); [go_inv|].
    apply (completes_trans [k] keys s s1); [by eapply oauth_secret_data_completes|by eapply IH].
Qed.

Lemma finish_inv (s t s' : Secret) err (w w' : W) :
  (mret (if is_some err then s else t, err) : M W (Secret * option error)) w = (Done (s', None), w') →
  err = None ∧ t = s'.
Proof. rewrite run_ret. destruct err; by intros [=]. Qed.

(** C37: What the mutate function of the secret of the products makes of it:
    what the API held keeps every secret, gets one for each product that has
    none, and nothing else is added. *)
Theorem mutate_oauth_secrets_spec c s s' (w w' : W) :
  mutate_oauth_secrets c s w = (Done (s', None), w') →
  ∃ held, (client_get c (Namespace (sec_meta s)) (Name (sec_meta s)) w).1 = Done held
    ∧ (∀ k v, omap_lookup (match held with inr h => sec_Data h | inl _ => None end) k = Some v →
         omap_lookup (sec_Data s') k = Some v)
    ∧ (∀ k, is_some (omap_lookup (sec_Data s') k) = true ↔
         is_some (omap_lookup (match held with inr h => sec_Data h | inl _ => None end) k) = true
         ∨ k ∈ products_with_oauth).
Proof.
  unfold mutate_oauth_secrets. intros Hr. apply bind_done_inv in Hr as (held & w1 & Hg & Hr).
  exists held. rewrite Hg. split; [done|].
  destruct held as [e|h].
  - destruct (negb _); [by go_inv|]. apply bind_done_inv in Hr as ([s1 err] & w2 & Hl & Hr).
    apply finish_inv in Hr as (-> & <-).
    apply oauth_secrets_loop_completes in Hl as (_ & _ & Hk & Hd). cbn in *. split; auto.
  - apply bind_done_inv in Hr as ([s1 err] & w2 & Hl & Hr).
    apply finish_inv in Hr as (-> & <-).
    apply oauth_secrets_loop_completes in Hl as (_ & _ & Hk & Hd). cbn in *. split; auto.
Qed.

Lemma tenantExists_true k tenants : tenantExists k tenants = true ↔ k ∈ map TenantName tenants.
Proof.
  unfold tenantExists. rewrite existsb_exists, list_elem_of_In, in_map_iff. split.
  - intros (t & ? & Ht%str_eqb_true). eauto.
  - intros (t & <- & ?). exists t. by rewrite str_eqb_refl.
Qed.
Lemma drop_redundant_lookup tenants s k :
  omap_lookup (sec_Data (drop_redundant tenants s)) k =
  if tenantExists k tenants then omap_lookup (sec_Data s) k else None.
Proof.
  unfold drop_redundant, set_data, omap_lookup. cbn. destruct (sec_Data s) as [d|]; cbn; [|by destruct (tenantExists _ _)].
  rewrite map_lookup_filter. destruct (d !! k) as [v|]; cbn; [|by destruct (tenantExists _ _)].
  destruct (tenantExists k tenants) eqn:E; [by rewrite option_guard_True|by rewrite option_guard_False by (cbn; congruence)].
Qed.

(** The secret of the tenants ends up with a secret for each tenant and no
    other key, and a tenant that had one in the API keeps it. *)
Theorem mutate_tenant_secrets_spec c tenants s s' (w w' : W) :
  mutate_tenant_secrets c tenants s w = (Done (s', None), w') →
  (∀ k, is_some (omap_lookup (sec_Data s') k) = true ↔ k ∈ map TenantName tenants)
  ∧ ∀ h k v, (client_get c (Namespace (sec_meta s)) (Name (sec_meta s)) w).1 = Done (inr h) →
      omap_lookup (sec_Data h) k = Some v → k ∈ map TenantName tenants → omap_lookup (sec_Data s') k = Some v.
Proof.
  unfold mutate_tenant_secrets. intros Hr. apply bind_done_inv in Hr as (held & w1 & Hg & Hr).
  rewrite Hg. cbn [fst].
  assert (∃ base s1 w2, oauth_secrets_loop c
            (λ key e, ErrWrap ("error reconciling OAuth secret data for tenant " +:+ key +:+ ": ") e) base
            (map TenantName tenants) w1 = (Done (s1, None), w2)
          ∧ s' = forget_version (drop_redundant tenants s1)
          ∧ ∀ h k v, held = inr h → omap_lookup (sec_Data h) k = Some v → omap_lookup (sec_Data base) k = Some v)
    as (base & s1 & w2 & Hl & -> & Hbase).
  { destruct held as [e|h].
    - destruct (negb _); [by go_inv|]. apply bind_done_inv in Hr as ([s1 err] & w2 & Hl & Hr).
      apply finish_inv in Hr as (-> & <-). do 3 eexists. split_and!; [exact Hl|done|done].
    - apply bind_done_inv in Hr as ([s1 err] & w2 & Hl & Hr).
      apply finish_inv in Hr as (-> & <-). do 3 eexists. split_and!; [exact Hl|done|].
      intros h' k v [= <-]. unfold set_data, make_if_nil, omap_lookup. cbn. by destruct (sec_Data h). }
  apply oauth_secrets_loop_completes in Hl as (_ & _ & Hk & Hd).
  assert (∀ k, omap_lookup (sec_Data (forget_version (drop_redundant tenants s1))) k
               = if tenantExists k tenants then omap_lookup (sec_Data s1) k else None) as Hlook
    by apply drop_redundant_lookup.
  split.
  - intros k. rewrite Hlook, <- tenantExists_true. destruct (tenantExists k tenants) eqn:E; [|done].
    rewrite Hd. apply tenantExists_true in E. tauto.
  - intros h k v [= ->] Hv Hin%tenantExists_true. rewrite Hlook, Hin. eauto.
Qed.
End secret_facts.

(** ** Facts about the other steps *)

Section step_facts.
Context {W : Type}.

Lemma chars_alnum n c : String.get n chars = Some c → is_alnum c = true.
Proof.
  assert (str_forall is_alnum chars = true) as Hc by reflexivity. revert n Hc. generalize chars.
  induction s as [|a s IH]; intros [|n] Hc Hg; cbn in *; try done; apply andb_prop in Hc as [Ha Hc].
  - by injection Hg as <-.
  - eauto.
Qed.

(** A generated secret has the length asked for and is made of letters and
    digits. *)
Theorem generateSecret_spec `{Rand W} n (w w' : W) s :
  generateSecret n w = (Done s, w') → String.length s = n ∧ str_forall is_alnum s = true.
Proof.
  revert w s. induction n as [|n IH]; intros w s Hr; cbn [generateSecret] in Hr; [by go_inv|].
  apply bind_done_inv in Hr as (c & w1 & Hc & Hr). apply bind_done_inv in Hr as (r & w2 & Hs & Hr). go_inv.
  apply IH in Hs as [Hl Ha]. split; [cbn; congruence|]. cbn [str_forall]. rewrite Ha.
  unfold random_char in Hc. apply bind_done_inv in Hc as ([e|k] & w3 & _ & Hc); [done|].
  destruct (k <? 0)%Z; [done|]. destruct (String.get (Z.to_nat k) chars) eqn:E; [|done]. go_inv.
  by rewrite (chars_alnum _ _ E).
Qed.

Lemma use_custom_domain_spec i domain err :
  let i' := use_custom_domain i domain err in
  (RoutingSubdomain (Spec i) ≠ "" → RoutingSubdomain (Spec i') = RoutingSubdomain (Spec i))
  ∧ Type_ (Spec i') = Type_ (Spec i) ∧ rhmi_meta i' = rhmi_meta i ∧ MasterURL (Spec i') = MasterURL (Spec i)
  ∧ is_some (CustomDomain (Status i')) = true.
Proof.
  unfold use_custom_domain. destruct (RoutingSubdomain (Spec i) =?s "") eqn:E; destruct err; cbn;
    split_and!; try done; intros Hne%str_eqb_false; congruence.
Qed.

Lemma settle_domain_spec dflt i :
  let i' := (settle_domain dflt i).1 in
  (RoutingSubdomain (Spec i) ≠ "" → RoutingSubdomain (Spec i') = RoutingSubdomain (Spec i))
  ∧ Type_ (Spec i') = Type_ (Spec i) ∧ rhmi_meta i' = rhmi_meta i ∧ MasterURL (Spec i') = MasterURL (Spec i)
  ∧ (is_some (CustomDomain (Status i')) = true ↔ RoutingSubdomain (Spec i') ≠ dflt).
Proof.
  assert (∀ j, let j' := (settle_domain dflt j).1 in RoutingSubdomain (Spec j) ≠ "" →
    Spec j' = Spec j ∧ rhmi_meta j' = rhmi_meta j
    ∧ (is_some (CustomDomain (Status j')) = true ↔ RoutingSubdomain (Spec j) ≠ dflt)) as Hset.
  { intros j j' Hj%str_eqb_false. unfold j', settle_domain. rewrite Hj.
    destruct (RoutingSubdomain (Spec j) =?s dflt) eqn:E, (CustomDomain (Status j)) eqn:Ec;
      cbn; rewrite ?E, ?Ec; cbn; rewrite ?Ec; (apply str_eqb_true in E || apply str_eqb_false in E);
      split_and!; done. }
  destruct (RoutingSubdomain (Spec i) =?s "") eqn:Es.
  - apply str_eqb_true in Es. unfold settle_domain. rewrite Es. change ("" =?s "") with true. cbn. rewrite !str_eqb_refl. cbn.
    destruct (CustomDomain (Status i)) eqn:Ec; cbn; rewrite ?Ec; split_and!; done.
  - apply str_eqb_false in Es. destruct (Hset i Es) as (Hsp & Hm & Hc). cbn zeta. rewrite Hsp, Hm. split_and!; done.
Qed.

(** C38: The routing subdomain of an installation is chosen once: later runs keep
    it, whatever the parameters and the router say.  When the step completes
    there is one, or the default is empty, and the custom domain status is on
    exactly when a custom domain was given or the subdomain is not the
    router's. *)
Theorem routing_subdomain_kept `{Client W Route} `{Client W Secret} `{Client W Subscription}
    `{UrlParser} `{Prometheus W} i c (w w' : W) i' phase err :
  retrieveConsoleURLAndSubdomain i c w = (Done (i', (phase, err)), w') →
  (RoutingSubdomain (Spec i) ≠ "" → RoutingSubdomain (Spec i') = RoutingSubdomain (Spec i))
  ∧ Type_ (Spec i') = Type_ (Spec i) ∧ rhmi_meta i' = rhmi_meta i
  ∧ (err = None → phase = PhaseCompleted
     ∧ ∃ route ingress w1 ok domain derr w2,
         GetConsoleRouteCR c w = (Done (inr route), w1) ∧ head (rt_Ingress route) = Some ingress
         ∧ MasterURL (Spec i') = ri_Host ingress
         ∧ GetDomain c (Some (on_spec (λ s, set_MasterURL s (ri_Host ingress)) i)) w1 = (Done (ok, domain, derr), w2)
         ∧ (is_some (CustomDomain (Status i')) = true ↔
            (ok = true ∧ domain ≠ "")
            ∨ RoutingSubdomain (Spec i') ≠ trim_prefix "router-default." (ri_RouterCanonicalHostname ingress))).
Proof.
  unfold retrieveConsoleURLAndSubdomain. intros Hr. apply bind_done_inv in Hr as ([e|route] & w1 & Hg & Hr); [by go_inv|].
  destruct (rt_Ingress route) as [|ingress rest] eqn:Ei; [done|].
  apply bind_done_inv in Hr as ([[ok domain] derr] & w2 & Hd & Hr).
  set (dflt := trim_prefix _ _) in *. set (i1 := on_spec _ i) in *.
  destruct (is_some derr && negb ok) eqn:Ef; [by go_inv|].
  destruct (ok && negb (domain =?s "")) eqn:Eu.
  - apply andb_prop in Eu as [-> Hdom%negb_true_iff%str_eqb_false]. rewrite run_ret in Hr. injection Hr as <- <- <- <-.
    destruct (use_custom_domain_spec i1 domain derr) as (Hr & Ht & Hm & Hu & Hc).
    split_and!; try done. intros _. split; [done|].
    exists route, ingress, w1, true, domain, derr, w2. rewrite Ei. split_and!; try done. rewrite Hc. tauto.
  - assert (¬ (ok = true ∧ domain ≠ "")) as Hno by (intros [-> Hne%str_eqb_false]; by rewrite Hne in Eu).
    destruct (settle_domain_spec dflt i1) as (Hs & Ht & Hm & Hu & Hc).
    destruct (settle_domain dflt i1) as [i2 cleared]. apply bind_done_inv in Hr as (? & ? & _ & Hr).
    rewrite run_ret in Hr. injection Hr as <- <- <- <-. split_and!; try done. intros _. split; [done|].
    exists route, ingress, w1, ok, domain, derr, w2. rewrite Ei. split_and!; try done. rewrite Hc. tauto.
Qed.

(** The quota asked for becomes the target exactly when it is the first one
    or differs from the one in force, and only then are the products told
    that it changed; the quota in force is left alone. *)
Theorem target_quota_spec {Q} i (q : Quota Q) :
  let '(i', q') := target_quota i q in
  (isUpdated q' = true ↔ (ToQuota (Status i) = "" ∧ Quota_ (Status i) = "") ∨ GetName q ≠ Quota_ (Status i))
  ∧ ToQuota (Status i') = (if isUpdated q' then GetName q else ToQuota (Status i))
  ∧ Quota_ (Status i') = Quota_ (Status i) ∧ Spec i' = Spec i ∧ rhmi_meta i' = rhmi_meta i
  ∧ GetName q' = GetName q.
Proof.
  unfold target_quota. destruct (ToQuota (Status i) =?s "") eqn:E1, (Quota_ (Status i) =?s "") eqn:E2,
    (GetName q =?s Quota_ (Status i)) eqn:E3; cbn;
    repeat match goal with H : _ = true |- _ => apply str_eqb_true in H
                         | H : _ = false |- _ => apply str_eqb_false in H end;
    split_and!; try done; split; auto; intros [[]|]; done.
Qed.
End step_facts.

(** ** The order of the stage *)

(** Steps that each take the installation on and completed. *)
Fixpoint boot_done {W} (steps : list (RHMI → M W (RHMI * (StatusPhase * option error))))
    (i : RHMI) (w : W) (i' : RHMI) (w' : W) : Prop :=
  match steps with
  | [] => i' = i ∧ w' = w
  | s :: steps => ∃ i1 w1, s i w = (Done (i1, (PhaseCompleted, None)), w1) ∧ boot_done steps i1 w1 i' w'
  end.

Lemma boot_done_app {W} (l k : list (RHMI → M W (RHMI * (StatusPhase * option error)))) i w i' w' :
  boot_done (l ++ k) i w i' w' ↔ ∃ i1 w1, boot_done l i w i1 w1 ∧ boot_done k i1 w1 i' w'.
Proof.
  revert i w. induction l as [|s l IH]; intros i w; cbn [app boot_done].
  - split; [eauto|]. by intros (i1 & w1 & [-> ->] & ?).
  - setoid_rewrite IH. naive_solver.
Qed.

(** Closes [boot_done] from the runs of the steps. *)
Ltac boot_tac := cbn [boot_done]; repeat (eexists _, _; split; [eassumption|]); done.

Section order.
Context {W Q : Type} `{Quantity Q} `{SemanticDeepEqual (LimitRange Q)} `{Client W (LimitRange Q)}
  `{Rand W} `{Client W Secret} `{Client W OAuthClient} `{Client W User} `{Client W Identity} `{MailParser}
  `{Client W Role} `{Client W RoleBinding} `{OwnerUtil} `{Client W Subscription} `{Client W Route}
  `{UrlParser} `{Prometheus W} `{Client W Infrastructure} `{Client W ConfigMap} `{Client W PriorityClass}
  `{AlertsJsonEncode} `{QuotaJson Q} `{Clock W} `{OsEnv W} `{Client W APIManagementTenant}
  `{Client W Service} `{Client W ClusterVersion} `{FileSystem W} `{TextTemplate} `{MapRange W}
  `{Client W PrometheusRule} `{Client W UpstreamPrometheusRule} `{EventRecorder W}.
Context (ns : string) (m : Manager) (c : KClient).

#[local] Abbreviation kept f := (λ i : RHMI, keeping i (f i)).

(** A run that completes without an error *)
Definition completes_with (r : M W BootstrapResult) (w : W) (i' : RHMI) (q' : Quota Q) (w' : W) : Prop :=
  r w = (Done (i', q', (PhaseCompleted, None)), w').

Lemma boot_step_done what wrap q body next w i' q' w' :
  (∀ e, wrap (Some e) ≠ None) →
  completes_with (boot_step what wrap q body next) w i' q' w' →
  ∃ i1 w1, body w = (Done (i1, (PhaseCompleted, None)), w1) ∧ completes_with (next i1) w1 i' q' w'.
Proof.
  intros Hwrap Hr. unfold completes_with, boot_step in Hr.
  apply bind_done_inv in Hr as ([i1 [phase err]] & w1 & Hb & Hr).
  destruct err as [e|]; cbn [is_some orb] in Hr.
  - apply bind_done_inv in Hr as (? & ? & _ & Hr). rewrite run_ret in Hr. injection Hr as _ _ _ Hn.
    by destruct (Hwrap e).
  - destruct (phase =?s PhaseCompleted) eqn:E; cbn [negb] in Hr.
    + apply str_eqb_true in E as ->. eauto.
    + apply bind_done_inv in Hr as (? & ? & _ & Hr). rewrite run_ret in Hr.
      injection Hr as _ _ Hp _. by apply str_eqb_false in E.
Qed.
Lemma wrapped_some msg e : wrapped msg (Some e) ≠ None.
Proof. done. Qed.
Lemma id_some (e : error) : id (Some e) ≠ None.
Proof. done. Qed.

Lemma keeping_done i body (w : W) i1 r w1 :
  keeping i body w = (Done (i1, r), w1) → i1 = i.
Proof. unfold keeping. intros Hr. apply bind_done_inv in Hr as (? & ? & _ & Hr). by go_inv. Qed.

(** Takes the next step of a completed run apart. *)
Ltac boot_inv H i1 w1 S :=
  apply boot_step_done in H as (i1 & w1 & S & H); [|apply wrapped_some || apply id_some].

Definition observability_steps : list (RHMI → M W (RHMI * (StatusPhase * option error))) :=
  [kept (ReconcileAlertManagerSecrets c); kept (CreateSmtpSecretExists c);
   kept (CreateDeadMansSnitchSecretExists c); kept (CreateAddonManagedApiServiceParametersExists c);
   kept (λ i, ReconcileAlerts (OboAlertsReconciler i) c)].
Definition cluster_steps : list (RHMI → M W (RHMI * (StatusPhase * option error))) :=
  [kept (reconcilerGithubOauthSecret m c); kept (λ _, reconcileAddonManagedApiServiceParameters m c);
   (λ i, retrieveConsoleURLAndSubdomain i c); (λ i, retrieveAPIServerURL i c);
   kept (λ i, checkCloudResourcesConfig i c); kept (λ i, reconcilePriorityClass i c);
   kept (λ i, checkRateLimitAlertsConfig i c)].
Definition metrics_step : RHMI → M W (RHMI * (StatusPhase * option error)) :=
  kept (λ _, err ← setTenantMetrics c; mret (PhaseCompleted, err)).
Definition first_steps (multitenant : bool) : list (RHMI → M W (RHMI * (StatusPhase * option error))) :=
  [kept (λ i, ReconcileLimitRange (Q := Q) c (Namespace (rhmi_meta i)) DefaultLimitRangeParams);
   kept (λ _, reconcileOauthSecrets m c)]
  ++ if multitenant then [kept (λ _, reconcileTenantOauthSecrets m c); metrics_step] else [].

Lemma reconcile_settings_done i q w i' q' w' :
  completes_with (reconcile_settings ns i q c) w i' q' w' →
  ∃ i1 w1 i2 w2 w3, processQuota i ns q c w = (Done (i1, q', None), w1)
    ∧ reconcileCustomSMTP i1 c (SetQuota (Quota_ (Status i1)) (ToQuota (Status i1)) w1)
      = (Done (i2, (PhaseCompleted, None)), w2)
    ∧ boot_done (if IsInProw i2 then [] else observability_steps) i2 w2 i' w3
    ∧ completes_with (complete_bootstrap q' i') w3 i' q' w'.
Proof.
  intros Hr. apply bind_done_inv in Hr as ([[i1 q1] [e|]] & w1 & Hq & Hr).
  { apply bind_done_inv in Hr as (? & ? & _ & Hr). by rewrite run_ret in Hr. }
  rewrite bind_modifies in Hr. boot_inv Hr i2 w2 S1. exists i1, w1, i2, w2.
  assert (∀ j w, completes_with (complete_bootstrap q1 j) w i' q' w' → i' = j ∧ q' = q1) as Hend.
  { intros j wj Hj. unfold completes_with, complete_bootstrap in Hj. by go_inv. }
  destruct (IsInProw i2) eqn:Ep; cbn [negb] in Hr.
  - destruct (Hend _ _ Hr) as [-> ->]. by exists w2.
  - boot_inv Hr i3 w3 S2. boot_inv Hr i4 w4 S3. boot_inv Hr i5 w5 S4. boot_inv Hr i6 w6 S5.
    boot_inv Hr i7 w7 S6. destruct (Hend _ _ Hr) as [-> ->]. exists w7. split_and!; try done.
    unfold observability_steps. boot_tac.
Qed.

Lemma reconcile_cluster_done i q w i' q' w' :
  completes_with (reconcile_cluster ns m i q c) w i' q' w' →
  ∃ i1 w1, boot_done cluster_steps i w i1 w1 ∧ completes_with (reconcile_settings ns i1 q c) w1 i' q' w'.
Proof.
  intros Hr. boot_inv Hr i1 w1 S1. boot_inv Hr i2 w2 S2. boot_inv Hr i3 w3 S3. boot_inv Hr i4 w4 S4.
  boot_inv Hr i5 w5 S5. boot_inv Hr i6 w6 S6. boot_inv Hr i7 w7 S7. exists i7, w7. split; [|done].
  pose proof (keeping_done _ _ _ _ _ _ S1) as ->. unfold cluster_steps. boot_tac.
Qed.

(** C36: The bootstrap stage is completed only after every one of its steps, in
    this order, completed on the installation the step before left: limits
    and OAuth secrets, those of the tenants on a multitenant installation,
    what the cluster is and has, the quota, SMTP and, outside of Prow, the
    configuration and the alerts of Alertmanager; the installation's spec
    metric is set last. *)
Theorem bootstrap_completed i q w i' q' w' :
  bootstrap_reconcile ns m i c q w = (Done (i', q', (PhaseCompleted, None)), w') →
  ∃ i1 w1 i2 w2 i3 w3 w4 w5,
    boot_done (first_steps (IsRHOAMMultitenant (Type_ (Spec i))) ++ cluster_steps) i w i1 w1
    ∧ processQuota i1 ns q c w1 = (Done (i2, q', None), w2)
    ∧ reconcileCustomSMTP i2 c (SetQuota (Quota_ (Status i2)) (ToQuota (Status i2)) w2)
      = (Done (i3, (PhaseCompleted, None)), w3)
    ∧ boot_done (if IsInProw i3 then [] else observability_steps) i3 w3 i' w4
    ∧ HandleStageComplete i' BootstrapStage w4 = (Done tt, w5) ∧ w' = SetInfo i' w5.
Proof.
  intros Hr. change (completes_with (bootstrap_reconcile ns m i c q) w i' q' w') in Hr.
  boot_inv Hr j1 v1 S1. pose proof (keeping_done _ _ _ _ _ _ S1) as ->.
  boot_inv Hr j2 v2 S2. pose proof (keeping_done _ _ _ _ _ _ S2) as ->.
  assert (∃ v, boot_done (first_steps (IsRHOAMMultitenant (Type_ (Spec i)))) i w i v
            ∧ completes_with (reconcile_cluster ns m i q c) v i' q' w') as (v & Hfirst & Hr').
  { unfold first_steps. destruct (IsRHOAMMultitenant _).
    - unfold reconcile_tenants in Hr. boot_inv Hr j3 v3 S3. pose proof (keeping_done _ _ _ _ _ _ S3) as ->.
      apply bind_done_inv in Hr as ([e|] & v4 & S4 & Hr).
      { apply bind_done_inv in Hr as (? & ? & _ & Hr). by rewrite run_ret in Hr. }
      exists v4. split; [|done]. assert (metrics_step i v3 = (Done (i, (PhaseCompleted, None)), v4)) as S5.
      { unfold metrics_step, keeping. rewrite run_bind, (bind_done _ _ _ _ _ S4). done. }
      cbn [app]. boot_tac.
    - exists v2. split; [|done]. cbn [app]. boot_tac. }
  apply reconcile_cluster_done in Hr' as (i1 & w1 & Hcl & Hr').
  apply reconcile_settings_done in Hr' as (i2 & w2 & i3 & w3 & w4 & Hq & Hs & Hobs & Hend).
  exists i1, w1, i2, w2, i3, w3, w4. unfold completes_with, complete_bootstrap in Hend.
  apply bind_done_inv in Hend as ([] & w5 & He & Hend). rewrite bind_modifies, run_ret in Hend.
  injection Hend as <-. exists w5. split_and!; try done. apply boot_done_app. eauto.
Qed.
End order.
