(* ===== verification/Installation.v ===== *)
(** * The installation controller (internal/controller/rhmi/rhmi_controller.go)

    Reconcile, the functions it is made of, and what SetupWithManager does
    once: creating the installation resource and the quota config map. *)

From stdpp Require Import base list strings gmap.
From Stdlib Require Import ZArith Lia.
From S2P Require Import Prelude Kube Api Resources Olm Quota Config Cluster Addon Alerts Marketplace Metrics Products.
From S2P Require Import Session Stages Preflight Uninstall.

(** Parts of the operator that Reconcile calls and that are not modelled:
    the removal of the operator's alerts, the webhooks, and the spreading of
    pods over zones. *)
Class ReconcileHelpers (W : Type) := {
  removeInstallationRules : RHMI → KClient → M W (option error);
  webhooks_Reconcile : RHMI → M W (option error);
  ReconcilePodDistribution : KClient → string → InstallationType → M W (option MultiErr);
}.

Definition alertingEmailAddressEnvName : string := "ALERTING_EMAIL_ADDRESS".
Definition buAlertingEmailAddressEnvName : string := "BU_ALERTING_EMAIL_ADDRESS".
Definition priorityClassNameEnvName : string := "PRIORITY_CLASS_NAME".
Definition managedServicePriorityClassName : string := "rhoam-pod-priority".

Definition firstInstallFirstReconcile (i : RHMI) : bool :=
  (Version (Status i) =?s "") && (ToVersion (Status i) =?s "").
(** An upgrade is one in which the install plan was manually approved, in
    which case the toVersion field has not been set. *)
Definition upgradeFirstReconcile (i : RHMI) : bool :=
  negb (Version (Status i) =?s "") && (ToVersion (Status i) =?s "")
  && negb (Version (Status i) =?s GetVersionByType (Type_ (Spec i))).

(** metav1.Time.Unix *)
Definition Unix (t : Z) : Z := t / second_ns.

Section installation.
Context {W Q : Type} `{Client W ConfigMap} `{Client W RHMI} `{Client W Secret}
  `{Client W Subscription} `{Client W ClusterServiceVersion} `{Client W NamespaceObj}
  `{Client W DeploymentRef} `{Client W DeploymentConfigRef} `{Client W CloudCredential}
  `{Client W ClusterPackage} `{Client W ClusterVersion} `{Client W Infrastructure}
  `{Client W PrometheusRule} `{Yaml} `{ProductsInstallationLoader W} `{OpenshiftClients W}
  `{NewClient W} `{MapRange W} `{OsEnv W} `{Clock W} `{EventRecorder W} `{Prometheus W}
  `{ProductInterface W Q} `{BootstrapInterface W Q} `{Informers W} `{ReconcileHelpers W}.
Context (conditions_text : list Condition → string).

(** ** Pieces of Reconcile *)

Definition set_metrics (f : RHMI → W → W) : M (Session W Q) unit :=
  modifies (λ s, set_world (f (installation s) (world s)) s).

(** An alerting address copied from the environment when the resource has
    none; a failed update is logged. *)
Definition copy_email (env : string) (get : AlertingEmailAddresses → string)
    (set : string → AlertingEmailAddresses → AlertingEmailAddresses) : M (Session W Q) unit :=
  v ← reads (λ s, Getenv env s);
  i ← the_installation;
  if (get (AlertingEmailAddresses_ (Spec i)) =?s "") && negb (v =?s "") then
    upd_installation (on_spec (λ sp,
      set_AlertingEmailAddresses sp (set v (AlertingEmailAddresses_ sp)))) ;;
    _ ← update_installation ManagerClient;
    mret tt
  else mret tt.

Definition copy_customer_email : M (Session W Q) unit :=
  i ← the_installation;
  '(v, ok, err) ← GetStringParameter ManagerClient (Namespace (rhmi_meta i)) "notification-email";
  match err with
  | Some _ => mret tt
  | None =>
      if (ok : bool) && negb (AlertingEmailAddress (Spec i) =?s v) then
        upd_installation (on_spec (λ sp, set_AlertingEmailAddress sp v)) ;;
        _ ← update_installation ManagerClient;
        mret tt
      else mret tt
  end.

(** The operator's finalizer: replaced when it is in the old format, which
    is written at once, and added in memory when there is none.  [true] is
    the early return after a failed update. *)
Definition ensure_deletion_finalizer : M (Session W Q) bool :=
  i ← the_installation;
  let fs := Finalizers (rhmi_meta i) in
  if negb (Slices.Contains fs deletionFinalizer) && negb (is_some (DeletionTimestamp (rhmi_meta i)))
  then
    if Slices.Contains fs previousDeletionFinalizer then
      upd_installation (on_meta (SetFinalizers
        (Slices.Replace fs previousDeletionFinalizer deletionFinalizer))) ;;
      err ← update_installation ManagerClient;
      mret (is_some err)
    else upd_installation (on_meta (SetFinalizers (fs ++ [deletionFinalizer]))) ;; mret false
  else mret false.

Definition versions_metric (externalClusterId : string) (i : RHMI) : W → W :=
  SetVersions (Stage_ (Status i)) (Version (Status i)) (ToVersion (Status i)) externalClusterId
    (Unix (CreationTimestamp (rhmi_meta i))).
Definition quota_metric (i : RHMI) : W → W := SetQuota (Quota_ (Status i)) (ToQuota (Status i)).

(** If no current or target version is set this is the first installation.
    [true] is the early return after a failed status update. *)
Definition set_target_version (externalClusterId : string) : M (Session W Q) bool :=
  i ← the_installation;
  if upgradeFirstReconcile i || firstInstallFirstReconcile i then
    upd_status (λ s, set_ToVersion s (GetVersionByType (Type_ (Spec i)))) ;;
    err ← update_installation_status ManagerClient;
    match err with
    | Some _ => mret true
    | None =>
        set_metrics (versions_metric externalClusterId) ;;
        set_metrics (λ _, SetThreeScalePortals ∅ 0) ;;
        mret false
    end
  else mret false.

Definition setRHOAMClusterMetric : M (Session W Q) (option error) :=
  got ← GetClusterVersionCR ManagerClient;
  match got with
  | inl e => mret (Some (ErrWrap "error getting cluster version information: " e))
  | inr cr =>
    let '(externalClusterId, err) := GetExternalClusterId cr in
    match err with
    | Some e => mret (Some (ErrWrap "error getting external cluster ID: " e))
    | None =>
      let '(openshiftVersion, err) := GetClusterVersion cr in
      match err with
      | Some e => mret (Some (ErrWrap "error getting openshift version: " e))
      | None =>
        infra ← GetClusterInfrastructure ManagerClient;
        match infra with
        | inl e => mret (Some (ErrWrap "error getting cluster infrastructure information: " e))
        | inr infra =>
          '(clusterType, err) ← lift (GetClusterType infra);
          let clusterType := match err with
                             | Some _ => if clusterType =?s "" then Some "Unknown" else None
                             | None => Some clusterType
                             end in
          match clusterType with
          | Some ty => set_metrics (λ _, SetRHOAMCluster ty externalClusterId openshiftVersion 1)
          | None => mret tt
          end ;; mret None
        end
      end
    end
  end.

Definition reconcilePodDistribution : M (Session W Q) unit :=
  c ← k8sclient_New;
  match c with
  | inl e => upd_status (λ s, set_LastError s (error_msg e))
  | inr serverClient =>
      i ← the_installation;
      mErr ← on_world (ReconcilePodDistribution serverClient (NamespacePrefix (Spec i)) (Type_ (Spec i)));
      match mErr with
      | Some m => match Errors m with
                  | [] => mret tt
                  | _ => upd_status (λ s, set_LastError s (MultiErr_Error m))
                  end
      | None => mret tt
      end
  end.

(** ** After the stages *)

(** Entered on first reconcile where all stages reported complete after an
    upgrade / install *)
Definition record_version (installInProgress : bool) (externalClusterId : string)
    : M (Session W Q) unit :=
  i ← the_installation;
  mismatch ← reads (λ s, productVersionMismatchFound (globals s));
  if (ToVersion (Status i) =?s GetVersionByType (Type_ (Spec i))) && negb installInProgress
     && negb mismatch
  then
    upd_status (λ s, set_Version s (GetVersionByType (Type_ (Spec i)))) ;;
    upd_status (λ s, set_ToVersion s "") ;;
    set_metrics (versions_metric externalClusterId) ;;
    q ← reads installationQuota;
    upd_status (λ s, set_Quota s (GetName q)) ;;
    upd_status (λ s, set_ToQuota s "")
  else mret tt.

(** Entered on every reconcile where all stages reported complete; the delay
    of the next reconcile is its result. *)
Definition complete_stages (installInProgress : bool) : M (Session W Q) Z :=
  if installInProgress then mret (10 * second_ns)%Z
  else
    upd_status (λ s, set_Stage s CompleteStage) ;;
    i ← the_installation;
    let delay := if IsRHOAMMultitenant (Type_ (Spec i)) then (30 * second_ns)%Z
                 else (5 * minute_ns)%Z in
    (if RebalancePods (Spec i) then reconcilePodDistribution else mret tt) ;;
    q ← reads installationQuota;
    (if IsUpdated q then
       upd_status (λ s, set_Quota s (GetName q)) ;;
       upd_status (λ s, set_ToQuota s "") ;;
       set_metrics quota_metric
     else mret tt) ;;
    mret delay.

Definition updateStatusAndObject (original : RHMI) : M (Session W Q) (option error) :=
  i ← the_installation;
  err ← (if negb (bool_decide (Status original = Status i))
         then update_installation_status ManagerClient else mret None);
  match err with
  | Some e => mret (Some e)
  | None =>
      i ← the_installation;
      if negb (bool_decide (original = i)) then update_installation ManagerClient else mret None
  end.

(** The stages and what follows them. *)
Definition reconcile_stages (t : TypeRef) (externalClusterId : string) : M (Session W Q) Z :=
  modifies (set_installationQuota zero_Quota) ;;
  n ← reads (λ s, length (GetInstallStages (get_type t s)));
  installInProgress ← run_stages t 0 n;
  record_version installInProgress externalClusterId ;;
  complete_stages installInProgress.

(** ** Reconcile *)

(** From the cluster version on: the custom resource is not being deleted
    and its preflight checks have passed. *)
Definition reconcile_install (t : TypeRef) (original : RHMI) : M (Session W Q) (Result * option error) :=
  got ← GetClusterVersionCR ManagerClient;
  match got with
  | inl e => mret (zero_Result, Some (ErrWrap "error getting cluster version information: " e))
  | inr cr =>
    let '(externalClusterId, err) := GetExternalClusterId cr in
    match err with
    | Some e => mret (zero_Result, Some (ErrWrap "error getting external cluster ID: " e))
    | None =>
      stop ← set_target_version externalClusterId;
      if (stop : bool) then mret (retryRequeue, None)
      else
        i ← the_installation;
        (if Stage_ (Status i) =?s "complete" then
           set_metrics (versions_metric externalClusterId) ;; set_metrics quota_metric
         else mret tt) ;;
        _ ← setRHOAMClusterMetric;
        set_metrics (λ i, SetRhoamState (GetRhoamState (Some i)).1) ;;
        delay ← reconcile_stages t externalClusterId;
        set_metrics SetStatus ;;
        set_metrics SetProductStatus ;;
        err ← updateStatusAndObject original;
        mret (mkResult true delay, err)
    end
  end.

(** What Reconcile does with the resource it has read. *)
Definition reconcile_installation (requestNamespace : string) : M (Session W Q) (Result * option error) :=
  c ← k8sclient_New;
  match c with
  | inl e => mret (zero_Result, Some (errorf_v "error creating client for alerts: " (Some e)))
  | inr alertsClient =>
    i ← the_installation;
    _ ← on_world (removeInstallationRules i alertsClient);
    original ← the_installation;
    installationCfgMap ← installation_config_map;
    copy_email alertingEmailAddressEnvName CSSRE set_CSSRE ;;
    copy_email buAlertingEmailAddressEnvName BusinessUnit set_BusinessUnit ;;
    copy_customer_email ;;
    i ← the_installation;
    match TypeFactory (Type_ (Spec i)) with
    | inl e => mret (zero_Result, Some e)
    | inr installType =>
      set_metrics SetStatus ;;
      m ← on_world (NewManager ManagerClient requestNamespace installationCfgMap);
      match m with
      | inl e => mret (zero_Result, Some e)
      | inr m =>
        modifies (set_configManager m) ;;
        i ← the_installation;
        err ← on_world (webhooks_Reconcile i);
        match err with
        | Some e => mret (zero_Result, Some e)
        | None =>
          stop ← ensure_deletion_finalizer;
          if (stop : bool) then mret (retryRequeue, None)
          else
            upd_status (λ s, set_Stages s (Some (make_if_nil (Stages s)))) ;;
            i ← the_installation;
            if (PreflightStatus (Status i) =?s PreflightInProgress)
               || (PreflightStatus (Status i) =?s PreflightFail)
            then preflightChecks conditions_text installType
            else if is_some (DeletionTimestamp (rhmi_meta i)) then handleUninstall installType
            else reconcile_install installType original
        end
      end
    end
  end.

Definition Reconcile (ns name : string) : M (Session W Q) (Result * option error) :=
  modifies (gauge_Set installation_controller_reconcile_delayed [] 0) ;;
  got ← client_get (O := RHMI) ManagerClient ns name;
  match got with
  | inl err => if IsNotFound (Some err) then mret (zero_Result, None) else mret (zero_Result, Some err)
  | inr i => upd_installation (λ _, i) ;; reconcile_installation ns
  end.
End installation.

(** ** SetupWithManager: what it creates *)

Section setup.
Context {W : Type} `{Client W ConfigMap} `{Client W RHMI} `{Client W Secret}
  `{Client W Subscription} `{OsEnv W}.
(** The text of the quota config map, GetQuotaConfig of the add-on. *)
Context (GetQuotaConfig_text : InstallationType → string).

Definition getRebalancePods (w : W) : bool :=
  match LookupEnv "REBALANCE_PODS" w with
  | None => true
  | Some rebalance => rebalance =?s "true"
  end.

Definition getInstallation (w : W) : error + RHMI :=
  match GetWatchNamespace w with
  | inl err => inl err
  | inr namespace =>
      inr (mkRHMI (named namespace "")
             (mkRHMISpec (Getenv installTypeEnvName w) "" "" "" false false (mkPullSecretSpec "" "")
                "" "" "" (mkAlertingEmailAddresses "" "") "" "" false "" "" "") zero_status)
  end.

Definition reconcileQuotaConfig (c : KClient) (installation : RHMI) : M W (option error) :=
  if negb (IsRHOAM (Type_ (Spec installation))) then mret None
  else
    '(_, (_, err)) ← CreateOrUpdate c
      (mkConfigMap (named (Namespace (rhmi_meta installation)) ConfigMapName) None)
      (λ quotaConfigMap, mret (with_cm_Data quotaConfigMap
         (Some (<[ConfigMapData := GetQuotaConfig_text (Type_ (Spec installation))]>
                  (make_if_nil (cm_Data quotaConfigMap)))), None));
    mret err.

Definition new_installation (namespace installType priorityClassName prefix useClusterStorage
    customerAlertingEmailAddress bu cssre : string) (rebalancePods : bool) : RHMI :=
  mkRHMI (named namespace "rhoam")
    (mkRHMISpec installType "" "" prefix rebalancePods false (mkPullSecretSpec "" "")
       useClusterStorage customerAlertingEmailAddress priorityClassName
       (mkAlertingEmailAddresses bu cssre) "" "" false (prefix +:+ "smtp")
       (prefix +:+ "pagerduty") (prefix +:+ "deadmanssnitch"))
    zero_status.

Definition createInstallationCR (c : KClient) : M W (error + RHMI) :=
  ns ← reads GetWatchNamespace;
  match ns with
  | inl err => mret (inl err)
  | inr namespace =>
    ls ← client_list c (InNamespace namespace);
    match ls with
    | inl e => mret (inl (ErrWrap "could not get a list of rhmi CR: " e))
    | inr [] =>
      useClusterStorage ← reads (Getenv "USE_CLUSTER_STORAGE");
      rebalancePods ← reads getRebalancePods;
      cssre ← reads (Getenv alertingEmailAddressEnvName);
      bu ← reads (Getenv buAlertingEmailAddressEnvName);
      installType ← reads (Getenv installTypeEnvName);
      priorityClassName ← reads (Getenv priorityClassNameEnvName);
      let installType := if installType =?s "" then InstallationTypeManagedApi else installType in
      let priorityClassName :=
        if priorityClassName =?s "" then managedServicePriorityClassName else priorityClassName in
      '(email, _, err) ← GetStringParameter c namespace "notification-email";
      match err with
      | Some e => mret (inl (ErrWrap "failed while retrieving addon parameter: " e))
      | None =>
        prefix ← lift (first_two_segments namespace);
        r ← client_create c (new_installation namespace installType priorityClassName prefix
                               useClusterStorage email bu cssre rebalancePods);
        match r with
        | inl e => mret (inl (ErrWrap ("could not create rhmi CR in " +:+ namespace +:+ " namespace: ") e))
        | inr i => mret (inr i)
        end
      end
    | inr [i] => mret (inr i)
    | inr items =>
      mret (inl (ErrStr ("too many rhmi resources found. Expecting 1, found "
        +:+ itoa (Z.of_nat (length items)) +:+ " rhmi resources in " +:+ namespace +:+ " namespace")))
    end
  end.
End setup.

(** ** Properties of Reconcile *)

Section reconcile_properties.
Context {W Q : Type} `{Client W ConfigMap} `{Client W RHMI} `{Yaml} `{ProductsInstallationLoader W}
  `{OpenshiftClients W} `{NewClient W} `{MapRangeLaws W} `{Prometheus W}
  `{ProductInterface W Q} `{BootstrapInterface W Q} `{Informers W} `{ReconcileHelpers W}.
Implicit Types (s : Session W Q).

(** All of a status but the four fields that record a finished install. *)
Definition version_fields (s : RHMIStatus) : string * string * string * string :=
  (Version s, ToVersion s, Quota_ s, ToQuota s).
Definition with_version_fields (v : string * string * string * string) (s : RHMIStatus) : RHMIStatus :=
  let '(ver, to, q, toq) := v in set_ToQuota (set_Quota (set_ToVersion (set_Version s ver) to) q) toq.

Lemma record_version_spec_r b ext s u s' :
  record_version b ext s = (Done u, s') →
  let i := installation s in
  let target := GetVersionByType (Type_ (Spec i)) in
  installation s' =
    if bool_decide (ToVersion (Status i) = target ∧ b = false
                    ∧ productVersionMismatchFound (globals s) = false)
    then on_status (with_version_fields (target, "", GetName (installationQuota s), "")) i
    else i.
Proof.
  unfold record_version. intros Hr.
  apply bind_done_inv in Hr as (i & s1 & Hi & Hr). unfold the_installation, reads in Hi. injection Hi as <- <-.
  apply bind_done_inv in Hr as (mm & s1 & Hm & Hr). unfold reads in Hm. injection Hm as <- <-. cbn zeta.
  destruct (_ && _) eqn:E.
  - rewrite !andb_true_iff, str_eqb_true, !negb_true_iff in E.
    rewrite bool_decide_eq_true_2 by tauto. cbn in Hr.
    unfold upd_status, upd_installation, set_metrics in Hr. go_inv. done.
  - rewrite bool_decide_eq_false_2; [by go_inv|]. intros (Ht & -> & Hm).
    rewrite Hm, Ht, str_eqb_refl in E. done.
Qed.

(** The version being installed becomes the installed version exactly
    when no stage is in progress, no product's version differs from the
    operator's, and the target recorded earlier is this operator's version;
    then the quota in use is recorded too and both targets are cleared.
    Otherwise the resource is left as it was. *)
Theorem record_version_spec b ext s u s' :
  record_version b ext s = (Done u, s') →
  let i := installation s in
  let target := GetVersionByType (Type_ (Spec i)) in
  installation s' =
    if bool_decide (ToVersion (Status i) = target ∧ b = false
                    ∧ productVersionMismatchFound (globals s) = false)
    then on_status (with_version_fields (target, "", GetName (installationQuota s), "")) i
    else i.
Proof. apply record_version_spec_r. Qed.

(** The documented part of the products' contract this rests on: a product
    reconciler, and the bootstrap reconciler, set their own product's status,
    not the installation's version. *)
Definition keeps_version (i i' : RHMI) : Prop := Version (Status i') = Version (Status i).
Hypothesis product_keeps_version : ∀ p cfg m i ps c q u w m' i' ps' r w',
  product_Reconcile p cfg m i ps c q u w = (Done (m', i', ps', r), w') → keeps_version i i'.
Hypothesis bootstrap_keeps_version : ∀ m i c q w m' i' q' r w',
  bootstrap_Reconcile m i c q w = (Done (m', i', q', r), w') → keeps_version i i'.

Definition version_of (s : Session W Q) : string := Version (Status (installation s)).

(** [m] leaves the version alone when it returns. *)
Definition version_kept {A} (m : M (Session W Q) A) : Prop :=
  ∀ s a s', m s = (Done a, s') → version_of s' = version_of s.

Lemma kept_bind {A B} (m : M (Session W Q) A) (f : A → M (Session W Q) B) :
  version_kept m → (∀ a, version_kept (f a)) → version_kept (mbind f m).
Proof.
  intros Hm Hf s b s' Hb. apply bind_done_inv in Hb as (a & s1 & Hb1 & Hb2).
  apply Hm in Hb1. apply Hf in Hb2. congruence.
Qed.
Lemma kept_preserves {A} (m : M (Session W Q) A) : preserves (same version_of) m → version_kept m.
Proof. intros Hm s a s' E. exact (Hm _ _ _ E). Qed.
Lemma kept_on_world {A} (m : M W A) : version_kept (on_world m).
Proof. apply kept_preserves. by apply on_world_same. Qed.
Lemma kept_status f : (∀ x, Version (f x) = Version x) → version_kept (upd_status f).
Proof. intros Hf s a s' [= <- <-]. unfold version_of. cbn. apply Hf. Qed.
Lemma kept_modifies f : (∀ s, version_of (f s) = version_of s) → version_kept (modifies f).
Proof. intros Hf s a s' [= <- <-]. apply Hf. Qed.
Lemma kept_ret {A} (a : A) : version_kept (mret a).
Proof. intros s x s' E. rewrite run_ret in E. by simplify_eq. Qed.
Lemma kept_reads {A} (f : Session W Q → A) : version_kept (reads f).
Proof. intros s x s' E. unfold reads in E. by simplify_eq. Qed.
Lemma kept_lift {A} (o : outcome A) : version_kept (lift o).
Proof. intros s x s' E. unfold lift in E. by simplify_eq. Qed.
Lemma kept_panic {A} why : version_kept (panic (A := A) why).
Proof. intros s x s' E. discriminate E. Qed.

(** Works through the body of a function whose calls keep the version. *)
Ltac kept := repeat first
  [ match goal with IH : context [version_kept _] |- version_kept _ => apply IH end
  | apply kept_ret | apply kept_reads | apply kept_lift | apply kept_panic
  | apply kept_on_world | apply kept_status; intros; reflexivity
  | apply kept_modifies; intros; reflexivity
  | match goal with |- version_kept (match ?x with _ => _ end) => destruct x end
  | apply kept_bind; [|intros] ].

Lemma new_reconciler_kept p : version_kept (new_reconciler p).
Proof. unfold new_reconciler, the_installation. kept. Qed.

Lemma reconcile_product_kept r ps c q u : version_kept (reconcile_product r ps c q u).
Proof.
  unfold reconcile_product, the_installation. destruct r as [| |p cfg]; [kept|kept|].
  intros s a s' Hr. apply bind_done_inv in Hr as (m & s1 & Hm & Hr). unfold reads in Hm. injection Hm as <- <-.
  apply bind_done_inv in Hr as (i & s1 & Hi & Hr). unfold reads in Hi. injection Hi as <- <-.
  apply bind_done_inv in Hr as ([[[m' i'] ps'] res] & s1 & Hp & Hr). unfold on_world in Hp.
  destruct (product_Reconcile _ _ _ _ _ _ _ _ _) as [o w] eqn:E. injection Hp as -> <-.
  apply product_keeps_version in E. unfold upd_installation in Hr. go_inv. exact E.
Qed.

Lemma reconcile_bootstrap_kept c q : version_kept (reconcile_bootstrap c q).
Proof.
  unfold reconcile_bootstrap, the_installation. intros s a s' Hr.
  apply bind_done_inv in Hr as (m & s1 & Hm & Hr). unfold reads in Hm. injection Hm as <- <-.
  apply bind_done_inv in Hr as (i & s1 & Hi & Hr). unfold reads in Hi. injection Hi as <- <-.
  apply bind_done_inv in Hr as ([[[m' i'] q'] res] & s1 & Hp & Hr). unfold on_world in Hp.
  destruct (bootstrap_Reconcile _ _ _ _ _) as [o w] eqn:E. injection Hp as -> <-.
  apply bootstrap_keeps_version in E. unfold upd_installation in Hr. go_inv. exact E.
Qed.

Lemma ensure_informers_kept crds ns p : version_kept (ensure_informers crds ns p).
Proof.
  induction crds as [|crd crds IH]; cbn [ensure_informers]; unfold addCustomInformer; kept.
  apply kept_modifies. intros s. unfold make_informers. by destruct (_ !! _).
Qed.

Lemma process_product_kept st p e : version_kept (process_product st p e).
Proof.
  pose proof new_reconciler_kept. pose proof reconcile_product_kept. pose proof ensure_informers_kept.
  unfold process_product, the_installation, k8sclient_New, session_new_client. kept.
Qed.

Lemma set_install_stage_version t i st s : version_of (set_install_stage t i st s) = version_of s.
Proof. by destruct t. Qed.

Lemma process_products_kept t i order st b e :
  version_kept (process_products (set_install_stage t i) order st b e).
Proof.
  revert st b e. induction order as [|p order IH]; intros st b e; cbn [process_products]; [kept|].
  apply kept_bind; [apply process_product_kept|]. intros [?|[ps e']]; [kept|].
  apply kept_bind; [apply kept_modifies, set_install_stage_version|]. intros _. apply IH.
Qed.

Lemma run_stage_kept t i st : version_kept (run_stage t i st).
Proof.
  pose proof process_products_kept. pose proof reconcile_bootstrap_kept.
  unfold run_stage, processStage, bootstrapStage, new_bootstrap_reconciler, the_installation,
    k8sclient_New, session_new_client. kept.
Qed.

Lemma run_stages_kept t i k : version_kept (run_stages t i k).
Proof. pose proof run_stage_kept. revert i. induction k; intros i; cbn [run_stages]; kept. Qed.

Lemma complete_stages_kept b : version_kept (complete_stages b).
Proof.
  unfold complete_stages, reconcilePodDistribution, set_metrics, the_installation,
    k8sclient_New, session_new_client. kept.
Qed.

(** C1: While the stages are reconciled the installed version changes only
    when all of them have been gone through with every product completed, no
    product's version is a mismatch, and the recorded target is this
    operator's version, which the installed version then is. *)
Theorem version_set_only_when_installed t ext s d s' :
  reconcile_stages t ext s = (Done d, s') → version_of s' ≠ version_of s →
  ∃ s1, run_stages t 0 (length (install_rows t s)) (set_installationQuota zero_Quota s)
        = (Done false, s1)
  ∧ (∀ x st st', install_rows t s !! x = Some st → install_rows t s1 !! x = Some st' →
       st_Name st ≠ BootstrapStage → all_completed st')
  ∧ productVersionMismatchFound (globals s1) = false
  ∧ ToVersion (Status (installation s1)) = version_of s'
  ∧ version_of s' = GetVersionByType (Type_ (Spec (installation s1)))
  ∧ d ≠ (10 * second_ns)%Z.
Proof.
  unfold reconcile_stages. intros Hr Hne.
  apply bind_done_inv in Hr as (? & s0 & Hq & Hr). unfold modifies in Hq. injection Hq as <- <-.
  apply bind_done_inv in Hr as (n & s0 & Hn & Hr). unfold reads in Hn. injection Hn as <- <-.
  apply bind_done_inv in Hr as (b & s1 & Hrun & Hr).
  apply bind_done_inv in Hr as (? & s2 & Hrec & Hc).
  pose proof (run_stages_kept _ _ _ _ _ _ Hrun) as Hk1.
  pose proof (complete_stages_kept _ _ _ _ Hc) as Hk2.
  apply record_version_spec_r in Hrec. cbn zeta in Hrec. case_bool_decide as Hd.
  2: { destruct Hne. rewrite Hk2. unfold version_of in *. by rewrite Hrec, Hk1. }
  destruct Hd as (Ht & -> & Hm).
  assert (version_of s' = GetVersionByType (Type_ (Spec (installation s1)))) as Hv
    by (rewrite Hk2; unfold version_of; by rewrite Hrec).
  exists s1. split_and!; [exact Hrun| |done|by rewrite Hv|done|].
  - intros y st st' Hst Hst' Hb.
    apply run_stages_refines_r, StagesRun_rows in Hrun as (_ & j & Hj & Hf & _ & _ & Hin).
    specialize (Hf eq_refl).
    change (j = 0 + length (install_rows t s)) in Hf. assert (y < length (install_rows t s))%nat by (by eapply lookup_lt_Some).
    eapply (Hin y); [|exact Hst|exact Hst'|exact Hb]. rewrite Hf. lia.
  - clear -Hc. unfold complete_stages in Hc. intros ->.
    apply bind_done_inv in Hc as (? & ? & _ & Hc). apply bind_done_inv in Hc as (i & ? & _ & Hc).
    apply bind_done_inv in Hc as (? & ? & _ & Hc). apply bind_done_inv in Hc as (q & ? & _ & Hc).
    apply bind_done_inv in Hc as (? & ? & _ & Hc).
    destruct (IsRHOAMMultitenant _); rewrite run_ret in Hc; discriminate Hc.
Qed.
End reconcile_properties.

(** ** Properties of the set-up *)

Section setup_properties.
Context {W : Type} `{Client W ConfigMap} `{Client W RHMI} `{Client W Secret}
  `{Client W Subscription} `{OsEnv W}.

End setup_properties.
