(* ===== verification/Controllers.v ===== *)
(** * The smaller controllers and the watches

    - internal/controller/namespacelabel: labels of the operator's namespace,
      or of a config map in it, that ask for the removal of the installation
      or give the network range.
    - internal/controller/status: what the add-on operator is told.
    - internal/controller/user: the group of developers.
    - the watches of internal/controller/rhmi, and the removal of its alerts. *)

From stdpp Require Import base list strings gmap.
From Stdlib Require Import ZArith Lia Ascii.
From S2P Require Import Prelude Kube Api Resources Users Olm Cro Quota Pods Config Cluster Alerts.
From S2P Require Import Marketplace Products Session Tenants PodDistribution Stages Installation.

(** client-go's clientset: loading its configuration, and a JSON patch of a
    config map (namespace, name, patch). *)
Class Clientset (W : Type) := {
  clientset_New : M W (option error);
  configmaps_Patch : string → string → string → M W (option error);
}.

(** strings.Replace of one character by another, everywhere. *)
Fixpoint replace_ascii (a b : ascii) (s : string) : string :=
  match s with
  | EmptyString => EmptyString
  | String c s => String (if Ascii.eqb c a then b else c) (replace_ascii a b s)
  end.

Module NamespaceLabel.

Definition deletionRHOAM : string := "managed-api-service".
Definition deleteRHMILabel : string := "api.openshift.com/addon-rhmi-operator-delete".
Definition deleteMAOLabel : string := "api.openshift.com/addon-managed-api-service-delete".

Section controller.
Context {W : Type} `{NetworkJson} `{Clientset W} `{Client W RHMI} `{Client W ConfigMap}
  `{Client W NamespaceObj} `{MapRange W}.

(** The reads go through the manager's cache. *)
Definition Uninstall (v : string) (request : Request) : M W (option error) :=
  if negb (v =?s "true") then mret None
  else
    got ← GetRhmiCr ManagerClient (req_Namespace request);
    match got with
    | inl e => mret (Some e)
    | inr None => mret None
    | inr (Some rhmiCr) =>
        if is_none (DeletionTimestamp (rhmi_meta rhmiCr))
        then _ ← client_delete ManagerClient rhmiCr; mret None
        else mret None
    end.

Definition CheckCidrValueAndUpdate (value : string) (request : Request) : M W (option error) :=
  let ns := req_Name request in
  got ← client_get (O := ConfigMap) ManagerClient ns DefaultConfigMapName;
  match got with
  | inl e => mret (Some e)
  | inr cfgMap =>
      match (network_Unmarshal (omap_get "" (cm_Data cfgMap) "_network")).1 with
      | None => mret None
      | Some cfgMapData =>
          match cfgMapData !! TierProduction with
          | None | Some None => mret None
          | Some (Some cidr) =>
              if negb (cidr =?s "") then mret None
              else
                let newCidr := replace_ascii "-"%char "/"%char value in
                err ← clientset_New;
                match err with
                | Some e => mret (Some e)
                | None =>
                    match network_Marshal (<[TierProduction := Some newCidr]> cfgMapData) with
                    | inl e => mret (Some e)
                    | inr dataValue =>
                        match patch_Marshal "add" "/data/_network" dataValue with
                        | inl e => mret (Some e)
                        | inr payload => configmaps_Patch ns DefaultConfigMapName payload
                        end
                    end
                end
          end
      end
  end.

(** The two tables of actions. *)
Definition namespaceLabelBasedActions (k : string) : option (string → Request → M W (option error)) :=
  if (k =?s deleteRHMILabel) || (k =?s deleteMAOLabel) then Some Uninstall
  else if k =?s "cidr" then Some CheckCidrValueAndUpdate
  else None.
Definition configMapLabelBasedActions (k : string) : option (string → Request → M W (option error)) :=
  if (k =?s deleteRHMILabel) || (k =?s deleteMAOLabel) then Some Uninstall else None.

(** The range over the labels with the actions of a table. *)
Fixpoint run_actions (table : string → option (string → Request → M W (option error)))
    (labels : gmap string string) (keys : list string) (request : Request) : M W (option error) :=
  match keys with
  | [] => mret None
  | k :: keys =>
      match table k with
      | None => run_actions table labels keys request
      | Some action =>
          err ← action (map_get "" labels k) request;
          match err with
          | Some e => mret (Some e)
          | None => run_actions table labels keys request
          end
      end
  end.

Definition CheckLabel (o : ObjectMeta) (request : Request) : M W (option error) :=
  let labels := make_if_nil (Labels o) in
  keys ← reads (λ w, range_keys w (dom labels));
  run_actions namespaceLabelBasedActions labels keys request.

Definition CheckConfigMap (request : Request) (deletionConfigMapName : string) : M W (option error) :=
  got ← client_get (O := ConfigMap) ManagerClient (req_Name request) deletionConfigMapName;
  match got with
  | inl e => mret (Some e)
  | inr configMap =>
      let labels := make_if_nil (Labels (cm_meta configMap)) in
      keys ← reads (λ w, range_keys w (dom labels));
      run_actions configMapLabelBasedActions labels keys request
  end.

Definition requeue_minute : Result := mkResult true minute_ns.

(** The namespace is used as it is when it cannot be read; the labels of the
    namespace are looked at only after those of the config map. *)
Definition Reconcile (operatorNamespace : string) (request : Request) : M W (Result * option error) :=
  if req_Name request =?s operatorNamespace then
    got ← client_get (O := NamespaceObj) ManagerClient "" operatorNamespace;
    let ns := match got with inr ns => ns_meta ns | inl _ => named "" operatorNamespace end in
    cr ← GetRhmiCr ManagerClient (req_Namespace request);
    match cr with
    | inl _ | inr None => mret (requeue_minute, None)
    | inr (Some _) =>
        err ← CheckConfigMap request deletionRHOAM;
        match err with
        | Some _ => mret (requeue_minute, None)
        | None =>
            err ← CheckLabel ns request;
            match err with
            | Some e => mret (zero_Result, Some e)
            | None => mret (requeue_minute, None)
            end
        end
    end
  else mret (requeue_minute, None).
End controller.

(** *** Facts *)

Section facts.
Context {W : Type} `{NetworkJson} `{Clientset W} `{Client W RHMI} `{Client W ConfigMap}
  `{Client W NamespaceObj} `{MapRangeLaws W}.

(** Labels that do not ask for a removal. *)
Definition no_removal (m : ObjectMeta) : Prop :=
  ∀ k, k = deleteRHMILabel ∨ k = deleteMAOLabel → omap_lookup (Labels m) k ≠ Some "true".

Section untouched.
(** [R] is respected by everything but the deletion of an installation. *)
Context (R : W → W → Prop) `{!PreOrder R}
  (rhmi_list_R : ∀ c o, preserves R (client_list (O := RHMI) c o))
  (cm_get_R : ∀ c ns n, preserves R (client_get (O := ConfigMap) c ns n))
  (ns_get_R : ∀ c ns n, preserves R (client_get (O := NamespaceObj) c ns n))
  (clientset_R : preserves R clientset_New)
  (patch_R : ∀ ns n p, preserves R (configmaps_Patch ns n p)).

Lemma CheckCidr_preserves v q : preserves R (CheckCidrValueAndUpdate (W := W) v q).
Proof. unfold CheckCidrValueAndUpdate. frame. Qed.

Lemma Uninstall_preserves v q : v ≠ "true" → preserves R (Uninstall (W := W) v q).
Proof. intros Hv%str_eqb_false. unfold Uninstall. rewrite Hv. apply preserves_ret. done. Qed.

(** The labels of an object with a table of actions, in any order. *)
Lemma run_actions_preserves (table : string → option (string → Request → M W (option error))) (m : ObjectMeta) q :
  (∀ k action, k ∈ dom (make_if_nil (Labels m)) → table k = Some action →
     preserves R (action (map_get "" (make_if_nil (Labels m)) k) q)) →
  preserves R (keys ← reads (λ w, range_keys w (dom (make_if_nil (Labels m))));
               run_actions table (make_if_nil (Labels m)) keys q).
Proof.
  intros Ht w r w'. rewrite bind_reads.
  assert (∀ keys, (∀ k, k ∈ keys → k ∈ dom (make_if_nil (Labels m))) →
    preserves R (run_actions table (make_if_nil (Labels m)) keys q)) as Hrun.
  { induction keys as [|k keys IH]; intros Hk; cbn [run_actions]; [by apply preserves_ret|].
    assert (preserves R (run_actions table (make_if_nil (Labels m)) keys q)) as Hrest.
    { apply IH. intros k' Hk'. apply Hk. by right. }
    destruct (table k) as [action|] eqn:E; [|done].
    apply preserves_bind; [done|apply Ht; [apply Hk; left|done]|].
    intros [e|]; [by apply preserves_ret|done]. }
  apply Hrun. intros k Hk. rewrite (range_keys_perm w) in Hk. by apply elem_of_elements.
Qed.

Lemma removal_label (m : ObjectMeta) k :
  no_removal m → k ∈ dom (make_if_nil (Labels m)) → (k =?s deleteRHMILabel) || (k =?s deleteMAOLabel) = true →
  map_get "" (make_if_nil (Labels m)) k ≠ "true".
Proof.
  intros Hn Hk Hor Heq. apply elem_of_dom in Hk as [v Hv]. unfold map_get in Heq. rewrite Hv in Heq.
  cbn in Heq. subst v. apply orb_true_iff in Hor. rewrite !str_eqb_true in Hor.
  apply (Hn k Hor). by destruct (Labels m).
Qed.

End untouched.

(** The network range of a tier that has one is kept. *)
Lemma CheckCidr_keeps v q cfgMap m cidr (w w1 : W) :
  client_get (O := ConfigMap) ManagerClient (req_Name q) DefaultConfigMapName w = (Done (inr cfgMap), w1) →
  (network_Unmarshal (omap_get "" (cm_Data cfgMap) "_network")).1 = Some m →
  m !! TierProduction = Some (Some cidr) → cidr ≠ "" →
  CheckCidrValueAndUpdate v q w = (Done None, w1).
Proof.
  intros Hg Hu Hp Hc%str_eqb_false. unfold CheckCidrValueAndUpdate.
  rewrite (bind_done _ _ _ _ _ Hg), Hu, Hp, Hc. done.
Qed.

(** Without the config map of the add-on the labels of the namespace are not
    looked at, whatever they ask for. *)
Lemma no_config_map_no_labels operatorNamespace request ns i e (w w1 w2 w3 : W) :
  req_Name request = operatorNamespace →
  client_get (O := NamespaceObj) ManagerClient "" operatorNamespace w = (Done ns, w1) →
  GetRhmiCr ManagerClient (req_Namespace request) w1 = (Done (inr (Some i)), w2) →
  client_get (O := ConfigMap) ManagerClient operatorNamespace deletionRHOAM w2 = (Done (inl e), w3) →
  Reconcile operatorNamespace request w = (Done (requeue_minute, None), w3).
Proof.
  intros Hq Hns Hi Hcm. unfold Reconcile. rewrite Hq, str_eqb_refl, (bind_done _ _ _ _ _ Hns).
  cbv zeta. rewrite (bind_done _ _ _ _ _ Hi). cbn. unfold CheckConfigMap. rewrite Hq, run_bind, run_bind, Hcm.
  done.
Qed.
End facts.
End NamespaceLabel.

(** ** The status controller *)

Module AddonStatus.

Definition addonInstanceCRDName : string := "addoninstances.addons.managed.openshift.io".
Definition defaultRequeueTime : Z := 10 * second_ns.

(** options.go *)
Record ControllerOptions := mkOptions {
  AddonInstanceNamespace : string; AddonInstanceName : string; HeartBeatInterval : Z }.
Inductive ControllerConfig :=
  | WithAddonInstanceNamespace (w : string)
  | WithAddonInstanceName (w : string)
  | WithHeartbeatInterval (w : Z).
Definition ConfigureStatusController (o : ControllerConfig) (c : ControllerOptions) : ControllerOptions :=
  match o with
  | WithAddonInstanceNamespace w => mkOptions w (AddonInstanceName c) (HeartBeatInterval c)
  | WithAddonInstanceName w => mkOptions (AddonInstanceNamespace c) w (HeartBeatInterval c)
  | WithHeartbeatInterval w => mkOptions (AddonInstanceNamespace c) (AddonInstanceName c) w
  end.
Definition Option_ (opts : list ControllerConfig) (c : ControllerOptions) : ControllerOptions :=
  foldl (λ c o, ConfigureStatusController o c) c opts.
Definition Default (c : ControllerOptions) : ControllerOptions :=
  if (HeartBeatInterval c =? 0)%Z
  then mkOptions (AddonInstanceNamespace c) (AddonInstanceName c) defaultRequeueTime else c.
(** The options New keeps. *)
Definition New_cfg (opts : list ControllerConfig) : ControllerOptions :=
  Default (Option_ opts (mkOptions "" "" 0)).

(** addonv1alpha1.AddonInstance, and the conditions of a MonitoringStack. *)
Record AddonInstance := mkAddonInstance {
  ai_meta : ObjectMeta; ai_HeartbeatUpdatePeriod : Z; ai_MarkedForDeletion : bool }.
Record MonitoringStack := mkMonitoringStack { ms_meta : ObjectMeta; ms_Conditions : list Condition }.

(** The vendored add-on client's SendPulse: the conditions it is given are
    set on the status of the instance. *)
Class AddonInstanceClient (W : Type) := SendPulse : AddonInstance → list Condition → M W (option error).

Section conditions.
(** [t] is the value of time.Now, [order] the order of the range over the
    products of the install stage. *)
Context (t : Z) (order : list ProductName).

Definition appendInstalledConditions (i : RHMI) : list Condition :=
  (if IsInstalled i then [InstalledCondition] else [])
  ++ (if IsInstallBlocked t i then [InstallBlockedCondition] else [])
  ++ (if IsUninstallBlocked t i then [UninstallBlockedCondition] else []).
Definition appendHealthConditions (i : RHMI) : list Condition :=
  [if IsCoreComponentsHealthy i then HealthyCondition else UnHealthyCondition].
Definition appendDegradedConditions (i : RHMI) : list Condition :=
  [if IsDegraded i then DegradedCondition order i else NonDegradedCondition].
Definition appendMonitoringStackConditions (ms : list Condition) : list Condition :=
  omap (λ c, if c_Type c =?s "Available"
             then Some (mkCondition "MonitoringStackAvailable" (c_Status c) (c_ObservedGeneration c)
                          (c_LastTransitionTime c) (c_Reason c) (c_Message c))
             else None) ms.

Definition buildAddonInstanceConditions (installation : option RHMI) (ms : list Condition)
    : list Condition :=
  match installation with
  | None => [UninstalledCondition; ReadyToBeDeletedCondition]
  | Some i => appendInstalledConditions i ++ appendHealthConditions i
                ++ appendDegradedConditions i ++ appendMonitoringStackConditions ms
  end.
End conditions.

Section controller.
Context {W : Type} `{Client W AddonInstance} `{Client W MonitoringStack} `{Client W RHMI}
  `{Client W CRD} `{AddonInstanceClient W} `{Clock W} `{MapRange W}.

Definition OboMonitoringStackName : string := "rhoam".

Definition GetOboMonitoringStack (c : KClient) (OboNamespace : string) : M W (error + MonitoringStack) :=
  client_get c OboNamespace OboMonitoringStackName.

Definition IsAddonOperatorInstalled (c : KClient) : M W (bool * option error) :=
  Exists c (mkCRD (named "" addonInstanceCRDName)).

(** The products of the install stage are ranged over only when degraded. *)
Definition degraded_order (i : RHMI) (w : W) : list ProductName :=
  range_keys w (dom (make_if_nil (s_Products (GetInstallStage i)))).

(** What follows once the instance has the right heartbeat. *)
Definition report (cfg : ControllerOptions) (addonInstance : AddonInstance) (installation : option RHMI)
    : M W (Result * option error) :=
  ms ← match installation with
       | None => mret (inr [])
       | Some i =>
           got ← GetOboMonitoringStack ServerClient (GetOboNamespace (Namespace (rhmi_meta i)));
           mret (match got with inl e => inl e | inr ms => inr (ms_Conditions ms) end)
       end;
  match ms with
  | inl e => mret (zero_Result, Some e)
  | inr ms =>
      t ← reads now;
      order ← reads (λ w, match installation with Some i => degraded_order i w | None => [] end);
      err ← SendPulse addonInstance (buildAddonInstanceConditions t order installation ms);
      match err with
      | Some e => mret (zero_Result, Some e)
      | None => mret (mkResult false (HeartBeatInterval cfg), None)
      end
  end.

Definition set_heartbeat (d : Z) (a : AddonInstance) : AddonInstance :=
  mkAddonInstance (ai_meta a) d (ai_MarkedForDeletion a).

Definition Reconcile (cfg : ControllerOptions) (request : Request) : M W (Result * option error) :=
  got ← client_get (O := AddonInstance) ServerClient (req_Namespace request) (AddonInstanceName cfg);
  match got with
  | inl e => mret (zero_Result, Some e)
  | inr a =>
      patched ← if negb (ai_HeartbeatUpdatePeriod a =? HeartBeatInterval cfg)%Z
                then client_patch ServerClient (set_heartbeat (HeartBeatInterval cfg) a)
                else mret (inr a);
      match patched with
      | inl e => mret (zero_Result, Some e)
      | inr a =>
          cr ← GetRhmiCr ServerClient (req_Namespace request);
          match cr with
          | inl e => mret (zero_Result, Some e)
          | inr installation =>
              derr ← match installation with
                     | Some i => if ai_MarkedForDeletion a then client_delete ServerClient i else mret None
                     | None => mret None
                     end;
              match derr with
              | Some e => mret (zero_Result, Some e)
              | None => report cfg a installation
              end
          end
      end
  end.
End controller.

(** *** Facts *)

Lemma ready_to_be_deleted_iff t order i ms :
  (∃ c, c ∈ buildAddonInstanceConditions t order i ms
        ∧ c_Type c = c_Type ReadyToBeDeletedCondition) ↔ i = None.
Proof.
  split; [|intros ->; exists ReadyToBeDeletedCondition; by split; [right; left|]].
  intros (c & Hin & Hc). destruct i as [i|]; [exfalso|done]. revert Hin.
  unfold buildAddonInstanceConditions, appendInstalledConditions, appendHealthConditions, appendDegradedConditions.
  assert (∀ (b : bool) x, c_Type x ≠ c_Type ReadyToBeDeletedCondition →
    c ∉ (if b then [x] else [])) as Hif.
  { intros [] x Hx Hin; [|by apply elem_of_nil in Hin]. apply list_elem_of_singleton in Hin as ->. done. }
  rewrite !elem_of_app. intros [[Hin|[Hin|Hin]]|[Hin|[Hin|Hin]]].
  - by apply Hif in Hin.
  - by apply Hif in Hin.
  - by apply Hif in Hin.
  - apply list_elem_of_singleton in Hin as ->. by destruct (IsCoreComponentsHealthy i).
  - apply list_elem_of_singleton in Hin as ->. by destruct (IsDegraded i).
  - apply list_elem_of_omap in Hin as (c' & _ & Hc'). destruct (_ =?s _); [|done]. by injection Hc' as <-.
Qed.
End AddonStatus.

(** ** The user controller *)

#[global] Instance Group_eq_dec : EqDecision Group.
Proof. solve_decision. Defined.
#[global] Instance Group_object : K8sObject Group := {|
  meta := grp_meta; set_meta m g := mkGroup m (grp_Users g);
  semantic_deep_equal a b := bool_decide (a = b);
|}.

Module UserController.

Definition mapUserNames (users : list User) (groups : list Group) : list string :=
  omap (λ u, if IsInExclusionGroup u groups then None else Some (Name (user_meta u))) users.

Definition Reconcile {W} `{Client W User} `{Client W Group} : M W (Result * option error) :=
  users ← client_list (O := User) ServerClient list_all;
  match users with
  | inl e => mret (zero_Result, Some e)
  | inr users =>
      groups ← client_list (O := Group) ServerClient list_all;
      match groups with
      | inl e => mret (zero_Result, Some e)
      | inr groups =>
          '(_, (_, err)) ← CreateOrUpdate ServerClient (mkGroup (named "" "rhmi-developers") [])
            (λ g, mret (mkGroup (grp_meta g) (mapUserNames users groups), None));
          mret (zero_Result, err)
      end
  end.

(** After a reconcile without an error the group of developers is on the
    server with exactly the users that are in no excluded group: it was
    written so, or it was already so. *)
Theorem developers_are_the_users {W} `{Client W User} `{Client W Group} (w w' : W) res :
  Reconcile w = (Done (res, None), w') →
  ∃ users groups w1 w2 g, client_list (O := User) ServerClient list_all w = (Done (inr users), w1)
    ∧ client_list (O := Group) ServerClient list_all w1 = (Done (inr groups), w2)
    ∧ ((∃ w3 g', client_create ServerClient g w3 = (Done (inr g'), w')
                 ∨ client_update ServerClient g w3 = (Done (inr g'), w'))
       ∨ client_get (O := Group) ServerClient "" "rhmi-developers" w2 = (Done (inr g), w'))
    ∧ ∀ n, n ∈ grp_Users g ↔ ∃ u, u ∈ users ∧ Name (user_meta u) = n ∧ IsInExclusionGroup u groups = false.
Proof.
  intros Hr. unfold Reconcile in Hr.
  apply bind_done_inv in Hr as ([e|users] & w1 & Hu & Hr); [by rewrite run_ret in Hr|].
  apply bind_done_inv in Hr as ([e|groups] & w2 & Hg & Hr); [by rewrite run_ret in Hr|].
  apply bind_done_inv in Hr as ([o [op err]] & w3 & Hc & Hr). rewrite run_ret in Hr. injection Hr as <- -> <-.
  assert (∀ n, n ∈ mapUserNames users groups ↔
    ∃ u, u ∈ users ∧ Name (user_meta u) = n ∧ IsInExclusionGroup u groups = false) as Hmap.
  { intros n. unfold mapUserNames. rewrite list_elem_of_omap. split.
    - intros (u & Hin & Hn). exists u. destruct (IsInExclusionGroup u groups); by simplify_eq.
    - intros (u & Hin & <- & E). exists u. by rewrite E. }
  apply CreateOrUpdate_ok in Hc as (from & w4 & sent & w5 & Hf & Hw). rewrite run_ret in Hf.
  injection Hf as <- <-.
  exists users, groups, w1, w2, (mkGroup (grp_meta from) (mapUserNames users groups)).
  split_and!; [done..| |done]. destruct Hw as [[-> Hcr]|[Hget [(Heq & -> & ->)|Hup]]].
  - left. exists w4, o. by left.
  - right. apply bool_decide_eq_true in Heq. rewrite <- Heq. exact Hget.
  - left. exists w4, o. by right.
Qed.
End UserController.

(** ** Watches (enqueueIntegreatlyOwner.go, watch.go, namespacelabel/enqueue.go) *)

Module Watches.

(** The events of controller-runtime; the old object of an update. *)
Inductive event :=
  | Create (o : ObjectMeta)
  | Update (old : option ObjectMeta) (new : ObjectMeta)
  | Delete (o : ObjectMeta)
  | Generic (o : ObjectMeta).
Definition object_of (e : event) : ObjectMeta :=
  match e with Create o | Update _ o | Delete o | Generic o => o end.

(** A work queue is the list of the requests that were added. *)
Definition addNamespaceRequest (o : ObjectMeta) (q : list Request) : list Request :=
  q ++ [mkRequest "" (Namespace o)].
Definition EnqueueNamespaceFromObject (e : event) (q : list Request) : list Request :=
  match e with
  | Create o | Delete o | Generic o => addNamespaceRequest o q
  | Update old new =>
      addNamespaceRequest new (match old with Some o => addNamespaceRequest o q | None => q end)
  end.

Definition getIntegreatlyOwner (o : ObjectMeta) : error + Request :=
  match omap_lookup (Annotations o) IntegreatlyOwnerNamespace, omap_lookup (Annotations o) IntegreatlyOwnerName with
  | Some ns, Some name => inr (mkRequest ns name)
  | _, _ => inl (ErrStr "object does not have an integreatly owner")
  end.
Definition EnqueueIntegreatlyOwner (e : event) (q : list Request) : list Request :=
  match getIntegreatlyOwner (object_of e) with inr req => q ++ [req] | inl _ => q end.

(** installationMapper.Map *)
Definition installation_requests {W} `{Client W RHMI} (c : KClient) : M W (list Request) :=
  ls ← client_list (O := RHMI) c list_all;
  mret (match ls with
        | inl _ => []
        | inr items => map (λ i, mkRequest (Namespace (rhmi_meta i)) (Name (rhmi_meta i))) items
        end).

Definition objectPredicate (p : ObjectMeta → bool) (e : event) : bool := p (object_of e).
Definition isName (n : string) (o : ObjectMeta) : bool := Name o =?s n.
Definition NamespacePredicate (ns : string) (o : ObjectMeta) : bool := Namespace o =?s ns.

(** An object that carries the annotations of owner/integreatlyOwner.go is
    mapped back to the installation they were written for. *)
Lemma owner_of_annotated {O} `{K8sObject O} (obj : O) (i : RHMI) :
  (∀ m o, meta (set_meta m o) = m) →
  getIntegreatlyOwner (meta (AddIntegreatlyOwnerAnnotations obj i))
    = inr (mkRequest (Namespace (rhmi_meta i)) (Name (rhmi_meta i))).
Proof.
  intros Hm. unfold AddIntegreatlyOwnerAnnotations, getIntegreatlyOwner. rewrite Hm.
  cbn. rewrite lookup_insert_eq, lookup_insert_ne by done. by rewrite lookup_insert_eq.
Qed.
End Watches.

(** ** prometheusRules.go of the installation controller *)

Definition OpenshiftMonitoringNamespace : string := "openshift-monitoring".

Section rules.
Context {W : Type} `{Client W UpstreamPrometheusRule}.

Definition delete_alert (c : KClient) (name : string) : M W (option error) :=
  err ← client_delete (O := UpstreamPrometheusRule) c
          (mkUpstreamRule (named OpenshiftMonitoringNamespace name) []);
  mret (if is_some err && negb (IsNotFound err) then err else None).

Definition removeInstallationRules (i : RHMI) (c : KClient) : M W (option error) :=
  let installationName := map_get "" InstallationNames (Type_ (Spec i)) in
  err ← delete_alert c (installationName +:+ "-installation-alerts");
  match err with
  | Some e => mret (Some e)
  | None =>
      err ← delete_alert c (installationName +:+ "-upgrade-alerts");
      match err with
      | Some e => mret (Some e)
      | None => delete_alert c (installationName +:+ "-missing-metrics")
      end
  end.
End rules.

(** The helpers of the installation controller, but for the webhooks. *)
Definition installation_helpers {W} `{Client W UpstreamPrometheusRule} `{Client W Node} `{Client W Pod}
    `{∀ k, Client W (PodController k)} `{MapRange W} `{Clock W} `{Ticker W}
    (webhooks : RHMI → M W (option error)) : ReconcileHelpers W := {|
  Installation.removeInstallationRules := removeInstallationRules;
  webhooks_Reconcile := webhooks;
  Installation.ReconcilePodDistribution c prefix _ :=
    m ← PodDistribution.ReconcilePodDistribution c prefix; mret (Some m);
|}.
