(* ===== verification/FakeCluster.v ===== *)
(** * A concrete cluster

    One world in which the interfaces of the development are all
    implemented: stores of objects behind fake clients, an environment, a
    clock, a Prometheus registry, and product reconcilers that report the
    phases they are told to.  The theorems hold of every world; here they are
    applied to this one, on concrete resources. *)

From stdpp Require Import base list strings gmap countable.
From Stdlib Require Import ZArith Lia Ascii.
From S2P Require Import Prelude Numbers Kube Api Resources Olm Quota Pods Keycloak RateLimit Cro Envoy Config Cluster Addon.
From S2P Require Import Alerts Backup Marketplace Reconciler Marin3rReconciler Metrics Products.
From S2P Require Import Session Tenants PodDistribution Stages Preflight Uninstall Bootstrap Installation Users Controllers CloudResourcesReconciler.

(** ** YAML of string maps: the digits of the number that codes the map *)

Fixpoint bits (p : positive) : string :=
  match p with
  | xH => "."
  | xO p => String "0"%char (bits p)
  | xI p => String "1"%char (bits p)
  end.
Fixpoint of_bits (s : string) : option positive :=
  match s with
  | String "."%char EmptyString => Some xH
  | String "0"%char s' => xO <$> of_bits s'
  | String "1"%char s' => xI <$> of_bits s'
  | _ => None
  end.
Lemma of_bits_bits p : of_bits (bits p) = Some p.
Proof. induction p as [p IH|p IH|]; cbn; [by rewrite IH..|done]. Qed.

#[export] Instance coded_yaml : Yaml := {|
  yaml_Marshal m := inr (bits (encode m));
  yaml_Decode s := match p ← of_bits s; decode p with
                   | Some m => inr m
                   | None => inl (ErrStr "yaml: not a map")
                   end;
|}.
#[export] Instance coded_yaml_laws : YamlLaws.
Proof.
  split. intros m. exists (bits (encode m)). split_and!; [done|by destruct (encode m)|].
  unfold yaml_Decode, coded_yaml. rewrite of_bits_bits. simpl. by rewrite decode_encode.
Qed.

(** ** The world *)

(** One store per kind, side by side; a kind finds its own. *)
Definition Stores : Type :=
  Store ConfigMap * (Store RHMI * (Store Secret * (Store Subscription * (Store ClusterServiceVersion
  * (Store NamespaceObj * (Store DeploymentRef * (Store DeploymentConfigRef * (Store CloudCredential
  * (Store ClusterPackage * (Store PrometheusRule * (Store UpstreamPrometheusRule
  * (Store ClusterVersion * (Store Infrastructure * (Store CatalogSource * (Store InstallPlan
  * (Store OperatorGroup * (Store ProjectRequest * (Store Project * (Store OAuthClient * (Store Route
  * (Store Postgres * (Store Redis * (Store EnvoyConfigCR * (Store DiscoveryService
  * (Store ServiceMonitor * (Store Service * (Store (Deployment Z) * (Store (LimitRange Z)
  * (Store Node * (Store (Snapshot PostgresSnapshotType) * (Store (Snapshot RedisSnapshotType)
  * (Store User * (Store Identity * (Store Role * (Store RoleBinding * (Store PriorityClass
  * (Store APIManagementTenant * (Store Group * (Store Pod * (Store (PodController DC)
  * (Store (PodController SS) * (Store (PodController RS)
  * (Store BlobStorage * (Store CRD * (Store OAuth * (Store KeycloakUser * (Store KeycloakClient
  * (Store KeycloakRealm * (Store (Keycloak Z) * (Store (StatefulSet Z) * (Store PodMonitor
  * (Store PodDisruptionBudget * (Store ConsoleLink
  * unit))))))))))))))))))))))))))))))))))))))))))))))))))))).

Record FakeWorld := mkFakeWorld {
  fw_stores : Stores;
  fw_env : gmap string string;
  fw_now : Z;
  fw_gauges : Registry;
  fw_events : list (string * string * string);
  fw_phases : gmap string StatusPhase;
}.

#[export] Hint Mode HasStore + + : typeclass_instances.
#[export] Instance store_here {O R} : HasStore (Store O * R) O | 0 := {|
  store := fst; set_store x w := (x, snd w) |}.
#[export] Instance store_there {A R O} `{HasStore R O} : HasStore (A * R) O | 1 := {|
  store w := store (snd w); set_store x w := (fst w, set_store x (snd w)) |}.
#[export] Instance fw_store {O} `{HasStore Stores O} : HasStore FakeWorld O := {|
  store w := store (fw_stores w);
  set_store x w := mkFakeWorld (set_store x (fw_stores w)) (fw_env w) (fw_now w) (fw_gauges w)
                     (fw_events w) (fw_phases w) |}.
#[export] Instance fw_client {O} `{HasStore FakeWorld O} `{K8sObject O} : Client FakeWorld O :=
  fake_client.

(** Each kind once more by a name of its own, which keeps the terms small. *)
#[export] Instance store_ConfigMap : HasStore FakeWorld ConfigMap := fw_store.
#[export] Instance client_ConfigMap : Client FakeWorld ConfigMap := fw_client.
#[export] Instance store_RHMI : HasStore FakeWorld RHMI := fw_store.
#[export] Instance client_RHMI : Client FakeWorld RHMI := fw_client.
#[export] Instance store_Secret : HasStore FakeWorld Secret := fw_store.
#[export] Instance client_Secret : Client FakeWorld Secret := fw_client.
#[export] Instance store_Subscription : HasStore FakeWorld Subscription := fw_store.
#[export] Instance client_Subscription : Client FakeWorld Subscription := fw_client.
#[export] Instance store_ClusterServiceVersion : HasStore FakeWorld ClusterServiceVersion := fw_store.
#[export] Instance client_ClusterServiceVersion : Client FakeWorld ClusterServiceVersion := fw_client.
#[export] Instance store_NamespaceObj : HasStore FakeWorld NamespaceObj := fw_store.
#[export] Instance client_NamespaceObj : Client FakeWorld NamespaceObj := fw_client.
#[export] Instance store_DeploymentRef : HasStore FakeWorld DeploymentRef := fw_store.
#[export] Instance client_DeploymentRef : Client FakeWorld DeploymentRef := fw_client.
#[export] Instance store_DeploymentConfigRef : HasStore FakeWorld DeploymentConfigRef := fw_store.
#[export] Instance client_DeploymentConfigRef : Client FakeWorld DeploymentConfigRef := fw_client.
#[export] Instance store_CloudCredential : HasStore FakeWorld CloudCredential := fw_store.
#[export] Instance client_CloudCredential : Client FakeWorld CloudCredential := fw_client.
#[export] Instance store_ClusterPackage : HasStore FakeWorld ClusterPackage := fw_store.
#[export] Instance client_ClusterPackage : Client FakeWorld ClusterPackage := fw_client.
#[export] Instance store_PrometheusRule : HasStore FakeWorld PrometheusRule := fw_store.
#[export] Instance client_PrometheusRule : Client FakeWorld PrometheusRule := fw_client.
#[export] Instance store_UpstreamPrometheusRule : HasStore FakeWorld UpstreamPrometheusRule := fw_store.
#[export] Instance client_UpstreamPrometheusRule : Client FakeWorld UpstreamPrometheusRule := fw_client.
#[export] Instance store_ClusterVersion : HasStore FakeWorld ClusterVersion := fw_store.
#[export] Instance client_ClusterVersion : Client FakeWorld ClusterVersion := fw_client.
#[export] Instance store_Infrastructure : HasStore FakeWorld Infrastructure := fw_store.
#[export] Instance client_Infrastructure : Client FakeWorld Infrastructure := fw_client.
#[export] Instance store_CatalogSource : HasStore FakeWorld CatalogSource := fw_store.
#[export] Instance client_CatalogSource : Client FakeWorld CatalogSource := fw_client.
#[export] Instance store_InstallPlan : HasStore FakeWorld InstallPlan := fw_store.
#[export] Instance client_InstallPlan : Client FakeWorld InstallPlan := fw_client.
#[export] Instance store_OperatorGroup : HasStore FakeWorld OperatorGroup := fw_store.
#[export] Instance client_OperatorGroup : Client FakeWorld OperatorGroup := fw_client.
#[export] Instance store_ProjectRequest : HasStore FakeWorld ProjectRequest := fw_store.
#[export] Instance client_ProjectRequest : Client FakeWorld ProjectRequest := fw_client.
#[export] Instance store_Project : HasStore FakeWorld Project := fw_store.
#[export] Instance client_Project : Client FakeWorld Project := fw_client.
#[export] Instance store_OAuthClient : HasStore FakeWorld OAuthClient := fw_store.
#[export] Instance client_OAuthClient : Client FakeWorld OAuthClient := fw_client.
#[export] Instance store_Route : HasStore FakeWorld Route := fw_store.
#[export] Instance client_Route : Client FakeWorld Route := fw_client.
#[export] Instance store_Postgres : HasStore FakeWorld Postgres := fw_store.
#[export] Instance client_Postgres : Client FakeWorld Postgres := fw_client.
#[export] Instance store_Redis : HasStore FakeWorld Redis := fw_store.
#[export] Instance client_Redis : Client FakeWorld Redis := fw_client.
#[export] Instance store_EnvoyConfigCR : HasStore FakeWorld EnvoyConfigCR := fw_store.
#[export] Instance client_EnvoyConfigCR : Client FakeWorld EnvoyConfigCR := fw_client.
#[export] Instance store_DiscoveryService : HasStore FakeWorld DiscoveryService := fw_store.
#[export] Instance client_DiscoveryService : Client FakeWorld DiscoveryService := fw_client.
#[export] Instance store_ServiceMonitor : HasStore FakeWorld ServiceMonitor := fw_store.
#[export] Instance client_ServiceMonitor : Client FakeWorld ServiceMonitor := fw_client.
#[export] Instance store_Service : HasStore FakeWorld Service := fw_store.
#[export] Instance client_Service : Client FakeWorld Service := fw_client.
#[export] Instance store_Deployment_Z : HasStore FakeWorld (Deployment Z) := fw_store.
#[export] Instance store_LimitRange_Z : HasStore FakeWorld (LimitRange Z) := fw_store.
#[export] Instance store_Node : HasStore FakeWorld Node := fw_store.
#[export] Instance client_Node : Client FakeWorld Node := fw_client.
#[export] Instance store_Snapshot_Postgres : HasStore FakeWorld (Snapshot PostgresSnapshotType) := fw_store.
#[export] Instance client_Snapshot_Postgres : Client FakeWorld (Snapshot PostgresSnapshotType) := fw_client.
#[export] Instance store_Snapshot_Redis : HasStore FakeWorld (Snapshot RedisSnapshotType) := fw_store.
#[export] Instance client_Snapshot_Redis : Client FakeWorld (Snapshot RedisSnapshotType) := fw_client.
#[export] Instance store_User : HasStore FakeWorld User := fw_store.
#[export] Instance client_User : Client FakeWorld User := fw_client.
#[export] Instance store_Identity : HasStore FakeWorld Identity := fw_store.
#[export] Instance client_Identity : Client FakeWorld Identity := fw_client.
#[export] Instance store_Role : HasStore FakeWorld Role := fw_store.
#[export] Instance client_Role : Client FakeWorld Role := fw_client.
#[export] Instance store_RoleBinding : HasStore FakeWorld RoleBinding := fw_store.
#[export] Instance client_RoleBinding : Client FakeWorld RoleBinding := fw_client.
#[export] Instance store_PriorityClass : HasStore FakeWorld PriorityClass := fw_store.
#[export] Instance client_PriorityClass : Client FakeWorld PriorityClass := fw_client.
#[export] Instance store_APIManagementTenant : HasStore FakeWorld APIManagementTenant := fw_store.
#[export] Instance client_APIManagementTenant : Client FakeWorld APIManagementTenant := fw_client.
#[export] Instance store_Group : HasStore FakeWorld Group := fw_store.
#[export] Instance store_Pod : HasStore FakeWorld Pod := fw_store.
#[export] Instance client_Pod : Client FakeWorld Pod := fw_client.
#[export] Instance store_PodController_DC : HasStore FakeWorld (PodController DC) := fw_store.
#[export] Instance store_PodController_SS : HasStore FakeWorld (PodController SS) := fw_store.
#[export] Instance store_PodController_RS : HasStore FakeWorld (PodController RS) := fw_store.
#[export] Instance store_BlobStorage : HasStore FakeWorld BlobStorage := fw_store.
#[export] Instance client_BlobStorage : Client FakeWorld BlobStorage := fw_client.
#[export] Instance store_CRD : HasStore FakeWorld CRD := fw_store.
#[export] Instance client_CRD : Client FakeWorld CRD := fw_client.
#[export] Instance store_OAuth : HasStore FakeWorld OAuth := fw_store.
#[export] Instance store_KeycloakUser : HasStore FakeWorld KeycloakUser := fw_store.
#[export] Instance client_KeycloakUser : Client FakeWorld KeycloakUser := fw_client.
#[export] Instance store_KeycloakClient : HasStore FakeWorld KeycloakClient := fw_store.
#[export] Instance client_KeycloakClient : Client FakeWorld KeycloakClient := fw_client.
#[export] Instance store_KeycloakRealm : HasStore FakeWorld KeycloakRealm := fw_store.
#[export] Instance client_KeycloakRealm : Client FakeWorld KeycloakRealm := fw_client.
#[export] Instance store_Keycloak_Z : HasStore FakeWorld (Keycloak Z) := fw_store.
#[export] Instance store_StatefulSet_Z : HasStore FakeWorld (StatefulSet Z) := fw_store.
#[export] Instance store_PodMonitor : HasStore FakeWorld PodMonitor := fw_store.
#[export] Instance client_PodMonitor : Client FakeWorld PodMonitor := fw_client.
#[export] Instance store_PodDisruptionBudget : HasStore FakeWorld PodDisruptionBudget := fw_store.
#[export] Instance client_PodDisruptionBudget : Client FakeWorld PodDisruptionBudget := fw_client.
#[export] Instance store_ConsoleLink : HasStore FakeWorld ConsoleLink := fw_store.
#[export] Instance client_ConsoleLink : Client FakeWorld ConsoleLink := fw_client.

#[export] Instance fw_controllers k : Client FakeWorld (PodController k) :=
  match k with DC => fw_client | SS => fw_client | RS => fw_client end.

#[export] Instance fw_osenv : OsEnv FakeWorld := λ k w, fw_env w !! k.
#[export] Instance fw_clock : Clock FakeWorld := fw_now.
Definition pass_time (d : Z) (w : FakeWorld) : FakeWorld :=
  mkFakeWorld (fw_stores w) (fw_env w) (fw_now w + d)%Z (fw_gauges w) (fw_events w) (fw_phases w).
#[export] Instance fw_ticker : Ticker FakeWorld := pass_time.
#[export] Instance fw_recorder : EventRecorder FakeWorld := λ ty r m w,
  mkFakeWorld (fw_stores w) (fw_env w) (fw_now w) (fw_gauges w) (fw_events w ++ [(ty, r, m)])
    (fw_phases w).
Definition set_gauges (x : Registry) (w : FakeWorld) : FakeWorld :=
  mkFakeWorld (fw_stores w) (fw_env w) (fw_now w) x (fw_events w) (fw_phases w).
#[export] Instance fw_prometheus : Prometheus FakeWorld := {|
  gauge_Reset g w := set_gauges (gauge_Reset g (fw_gauges w)) w;
  gauge_Set g l v w := set_gauges (gauge_Set g l v (fw_gauges w)) w;
|}.
#[export] Instance fw_range : MapRange FakeWorld := λ _ X, elements X.
#[export] Instance fw_range_laws : MapRangeLaws FakeWorld.
Proof. intros w X. reflexivity. Qed.
#[export] Instance fw_new_client : NewClient FakeWorld := mret (inr ServerClient).
#[export] Instance fw_loader : ProductsInstallationLoader FakeWorld :=
  mret (inr (gset_to_gmap (mkProductDeclaration "index" None "" "" "")
    (list_to_set [ProductRHSSO; ProductRHSSOUser; Product3Scale; ProductCloudResources;
       ProductMarin3r]))).
#[export] Instance fw_openshift : OpenshiftClients FakeWorld := {|
  oauth_NewForConfig := mret None; apps_NewForConfig := mret None |}.
#[export] Instance fw_informers : Informers FakeWorld := {|
  cache_New _ := mret None; GetInformerForKind _ _ := mret (inr 0); AddEventHandler _ := mret None;
  controller_Watch _ := mret None; mgr_Add _ _ := mret None; WaitForCacheSync _ _ := mret true;
  HasSynced _ _ := true; crd_text := GVK_String |}.
#[export] Instance fw_helpers : ReconcileHelpers FakeWorld := installation_helpers (λ _, mret None).

(** A product reports the phase the world says, completed by default; the
    bootstrap stage is completed. *)
#[export] Instance fw_products : ProductInterface FakeWorld Z :=
  λ p _ m i ps _ _ _ w, (Done (m, i, ps, (default PhaseCompleted (fw_phases w !! p), None)), w).
#[export] Instance fw_bootstrap : BootstrapInterface FakeWorld Z := {|
  NewBootstrapReconciler _ _ := mret None;
  bootstrap_Reconcile m i _ q := mret (m, i, q, (PhaseCompleted, None)) |}.

Definition empty_stores : Stores :=
  (∅, (∅, (∅, (∅, (∅, (∅, (∅, (∅, (∅, (∅, (∅, (∅, (∅, (∅, (∅, (∅, (∅, (∅, (∅, (∅, (∅, (∅, (∅, (∅, (∅, (∅, (∅, (∅, (∅, (∅, (∅, (∅, (∅, (∅, (∅, (∅, (∅, (∅, (∅, (∅, (∅, (∅, (∅, (∅, (∅, (∅, (∅, (∅, (∅, (∅, (∅, (∅, (∅, (∅, tt)))))))))))))))))))))))))))))))))))))))))))))))))))))).
Definition empty_world : FakeWorld := mkFakeWorld empty_stores ∅ 0 ∅ [] ∅.
Definition with_phases (x : gmap string StatusPhase) (w : FakeWorld) : FakeWorld :=
  mkFakeWorld (fw_stores w) (fw_env w) (fw_now w) (fw_gauges w) (fw_events w) x.
Definition with_env (x : gmap string string) (w : FakeWorld) : FakeWorld :=
  mkFakeWorld (fw_stores w) x (fw_now w) (fw_gauges w) (fw_events w) (fw_phases w).
Definition put {O} `{HasStore FakeWorld O} `{K8sObject O} (o : O) (w : FakeWorld) : FakeWorld :=
  set_store (<[obj_key o := o]> (store w)) w.

(** ** Sessions *)

Definition ns0 : string := "redhat-rhoam-operator".
Definition spec0 : RHMISpec :=
  mkRHMISpec InstallationTypeManagedApi "" "" "redhat-rhoam-" false false (mkPullSecretSpec "" "")
    "true" "" "" (mkAlertingEmailAddresses "" "") "" "" false "redhat-rhoam-smtp"
    "redhat-rhoam-pagerduty" "redhat-rhoam-deadmanssnitch".
Definition rhmi0 : RHMI := mkRHMI (named ns0 "rhoam") spec0 zero_status.
Definition manager0 : Manager :=
  mkManager ManagerClient ns0 (mkConfigMap (named ns0 "redhat-rhoam-installation-config") None).
Definition globals0 : Globals := mkGlobals allManagedApiStages allMultitenantManagedApiStages false ∅.
Definition session0 (i : RHMI) (w : FakeWorld) : Session FakeWorld Z :=
  mkSession w i manager0 zero_Quota globals0.

(** What a concrete run returns, the state after it, and whether it returns
    at all.  A run is never printed as a whole: only these are evaluated. *)
Definition value_of {A S} (r : outcome A * S) (d : A) : A :=
  match r.1 with Done a => a | Panic _ => d end.
Definition session_of {A S} (r : outcome A * S) : S := r.2.
Definition finished {A S} (r : outcome A * S) : bool :=
  match r.1 with Done _ => true | Panic _ => false end.
Lemma run_done {A S} (r : outcome A * S) d a :
  finished r = true → value_of r d = a → r = (Done a, session_of r).
Proof. destruct r as [[b|why] s]; [by intros _ <-|done]. Qed.

Lemma run_done_fst {A B S} (r : outcome (A * B) * S) d b :
  finished r = true → (value_of r d).2 = b → r = (Done ((value_of r d).1, b), session_of r).
Proof. destruct r as [[[x y]|why] s]; [by intros _ <-|done]. Qed.

(** The run returns: proved by running it. *)
Ltac run_it r d := apply (run_done r d); [vm_compute; reflexivity|try (vm_compute; reflexivity)].
