(* ===== verification/Examples.v ===== *)
(** * Examples

    The theorems of the development at concrete inputs, run on the cluster of
    FakeCluster.v. *)

From stdpp Require Import base list strings gmap countable.
From Stdlib Require Import ZArith Lia.
From S2P Require Import Prelude Kube Api Resources Quota Config Cluster Addon Metrics Products.
From S2P Require Import Session Stages Preflight Uninstall Installation FakeCluster.

(** ** The stages *)

(** The products of the install stage all report that they are completed. *)
Definition s_install : Session FakeWorld Z := session0 rhmi0 empty_world.
(** Only one does not. *)
Definition s_failing : Session FakeWorld Z :=
  session0 rhmi0 (with_phases {[Product3Scale := PhaseInProgress]} empty_world).
Definition install_stage : Stage := default (mkStage None "") (InstallStages allManagedApiStages !! 1).
Definition stage_result (s : Session FakeWorld Z) :=
  processStage (set_install_stage ManagedApi 1) install_stage s.
Definition stage_default : Stage * (StatusPhase * option error) := (mkStage None "", ("", None)).

Definition stage_after (s : Session FakeWorld Z) : Stage := (value_of (stage_result s) stage_default).1.

Lemma processStage_phase_witness :
  all_completed (stage_after s_install) ∧ ¬ all_completed (stage_after s_failing).
Proof.
  split.
  - destruct (processStage_phase (set_install_stage ManagedApi 1) install_stage s_install
      (stage_after s_install) PhaseCompleted None (session_of (stage_result s_install)))
      as [(_ & Hc & _)|[(Hp & _)|(Hp & _)]]; [|exact Hc|discriminate Hp|discriminate Hp].
    apply (run_done_fst (stage_result s_install) stage_default); vm_compute; reflexivity.
  - destruct (processStage_phase (set_install_stage ManagedApi 1) install_stage s_failing
      (stage_after s_failing) PhaseInProgress None (session_of (stage_result s_failing)))
      as [(Hp & _)|[(_ & Hc & _)|(Hp & _)]]; [|discriminate Hp|exact Hc|discriminate Hp].
    apply (run_done_fst (stage_result s_failing) stage_default); vm_compute; reflexivity.
Defined.

Definition stages_result (s : Session FakeWorld Z) := run_stages ManagedApi 0 2 s.

Lemma run_stages_in_order_witness : ∃ j, j ≤ 2 ∧ (false = false ↔ j = 2).
Proof.
  destruct (run_stages_in_order ManagedApi s_install false (session_of (stages_result s_install)))
    as (j & Hj & Hb & _).
  - run_it (stages_result s_install) true.
  - exists j. split; [exact Hj|exact Hb].
Defined.

(** ** Preflight *)

Definition env0 : gmap string string := list_to_map
  [(EnvKeyAlertSMTPFrom, "noreply@example.com"); (EnvKeyQuota, "100"); (WatchNamespaceEnvVar, ns0)].
Definition ready_package : ClusterPackage :=
  mkClusterPackage (named "" RHOAMOboClusterPackageName)
    [mkCondition "Available" ConditionTrue 0 0 "" ""; mkCondition "Progressing" ConditionFalse 0 0 "" ""].
Definition preflight_world : FakeWorld :=
  put (mkSecret (named ns0 "redhat-rhoam-pagerduty") None)
    (put (mkSecret (named ns0 DefaultSecretName) (Some {[QuotaParamName := "100"]}))
    (put (mkNamespace (named "" ns0) "Active")
    (put ready_package
    (put (mkCloudCredential (named "" ClusterCloudCredentialName) "")
    (put rhmi0 (with_env env0 empty_world)))))).
Definition s_preflight : Session FakeWorld Z := session0 rhmi0 preflight_world.
Definition preflight_run := preflightChecks (λ _, "") ManagedApi s_preflight.

Lemma fw_status_echo c (i : RHMI) (w : FakeWorld) :
  (∃ e w', client_status_update c i w = (Done (inl e), w'))
  ∨ (∃ w', client_status_update c i w = (Done (inr i), w')).
Proof.
  unfold client_status_update. cbn. unfold fake_update, fake_put. destruct (_ !! _); eauto.
Qed.


(** ** Uninstall *)

(** A resource being deleted, with no finalizer but the operator's: every
    product is gone, and what is left is the clean-up. *)
Definition rhmi_deleted : RHMI :=
  on_meta (λ _, mkMeta "rhoam" ns0 "" "" 0 0 (Some 1%Z) None None [deletionFinalizer]) rhmi0.
Definition uninstall_world : FakeWorld :=
  put (mkConfigMap (named ns0 "redhat-rhoam-installation-config") (Some {["rhsso" := "x"]}))
    (put rhmi_deleted empty_world).
Definition s_uninstall : Session FakeWorld Z :=
  mkSession uninstall_world rhmi_deleted manager0 zero_Quota globals0.
Definition uninstall_run := handleUninstall ManagedApi s_uninstall.


Lemma uninstall_bootstrap_stage_noop_witness :
  uninstall_stage (mkStage None UninstallBootstrap) ["finalizer.observability"] newMultiErr s_uninstall
  = (Done (false, newMultiErr), s_uninstall).
Proof.
  apply (uninstall_bootstrap_stage_noop allManagedApiStages ["finalizer.observability"] newMultiErr
           s_uninstall).
  - exact fw_range_laws.
  - left.
  - reflexivity.
Defined.

(** ** Reconcile *)

Definition rhmi_installing : RHMI :=
  on_status (λ st, set_ToVersion st (GetVersionByType InstallationTypeManagedApi)) rhmi0.
(** A table whose install stage has no versioned product. *)
Definition grafana_stages : InstallType :=
  mkType [mkStage None BootstrapStage; stage_of InstallStage [ProductGrafana]]
    [mkStage None UninstallBootstrap].
Definition s_reconcile : Session FakeWorld Z :=
  mkSession empty_world rhmi_installing manager0 zero_Quota
    (mkGlobals grafana_stages allMultitenantManagedApiStages false ∅).

Definition record_run := record_version false "cluster" s_reconcile.
Lemma record_version_spec_witness :
  Version (Status (installation (session_of record_run))) = GetVersionByType InstallationTypeManagedApi.
Proof.
  rewrite (record_version_spec false "cluster" s_reconcile tt (session_of record_run));
    [vm_compute; reflexivity|run_it record_run tt].
Defined.

Definition reconcile_run := reconcile_stages ManagedApi "cluster" s_reconcile.
Lemma version_set_only_when_installed_witness :
  ∃ s1, run_stages ManagedApi 0 2 (set_installationQuota zero_Quota s_reconcile) = (Done false, s1)
    ∧ productVersionMismatchFound (globals s1) = false.
Proof.
  destruct (version_set_only_when_installed (W := FakeWorld) (Q := Z))
    with (t := ManagedApi) (ext := "cluster") (s := s_reconcile) (d := (5 * minute_ns)%Z)
      (s' := session_of reconcile_run) as (s1 & Hr & _ & Hm & _).
  - intros p cfg m i ps c q u w m' i' ps' r w' E. vm_compute in E. by injection E as <- <- <- <- <-.
  - intros m i c q w m' i' q' r w' E. vm_compute in E. by injection E as <- <- <- <- <-.
  - run_it reconcile_run 0%Z.
  - vm_compute. discriminate.
  - exists s1. split; [exact Hr|exact Hm].
Defined.

(** ** Creating the resource *)

Definition setup_world : FakeWorld :=
  put (mkSecret (named ns0 DefaultSecretName) (Some {["notification-email" := "ops@example.com"]}))
    (with_env env0 empty_world).

(** ** Finalizers, configs, health *)

Lemma fw_update_echo c (i i' : RHMI) (w w' : FakeWorld) :
  client_update c i w = (Done (inr i'), w') → i' = i.
Proof.
  unfold client_update. cbn. unfold fake_update, fake_put. destruct (_ !! _); [|done].
  intros E. by injection E as <- _.
Qed.
(** A clean-up that reports a phase and changes nothing. *)
Definition cleaned (ph : StatusPhase) (i : RHMI)
    : M FakeWorld (RHMI * (StatusPhase * option error)) := mret (i, (ph, None)).
Definition finalizer_run :=
  ReconcileFinalizer ManagerClient (on_meta (SetFinalizers ["finalizer.rhsso.integreatly.org"; "x"]) rhmi0)
    "rhsso" false (cleaned PhaseFailed) (put rhmi0 empty_world).
Lemma ReconcileFinalizer_installs_witness :
  product_finalizer "rhsso" ∈ finalizers_of (on_meta (SetFinalizers ["rhsso.integreatly.org/finalizer"; "x"]) rhmi0).
Proof.
  destruct (ReconcileFinalizer_installs (W := FakeWorld)) with (c := ManagerClient)
    (inst := on_meta (SetFinalizers ["finalizer.rhsso.integreatly.org"; "x"]) rhmi0)
    (p := "rhsso") (w := put rhmi0 empty_world) (w' := finalizer_run.2)
    (fin := cleaned PhaseFailed)
    (inst' := on_meta (SetFinalizers ["rhsso.integreatly.org/finalizer"; "x"]) rhmi0) as (Hf & _).
  - intros c i i' w w' E. apply fw_update_echo in E as ->. by split.
  - reflexivity.
  - vm_compute. discriminate.
  - vm_compute. reflexivity.
  - exact Hf.
Defined.

Lemma ReconcileFinalizer_uninstalls_witness :
  ∃ i1 ph1 err1 w1, cleaned PhaseCompleted
    (on_meta (SetFinalizers [product_finalizer "rhsso"; "x"]) rhmi0) empty_world = (Done (i1, (ph1, err1)), w1) ∧ ph1 = PhaseCompleted.
Proof.
  destruct (ReconcileFinalizer_uninstalls (W := FakeWorld)) with (c := ManagerClient)
    (inst := on_meta (SetFinalizers [product_finalizer "rhsso"; "x"]) rhmi0)
    (p := "rhsso") (w := empty_world) (w' := empty_world) (ph := PhaseCompleted) (err := @None error)
    (fin := cleaned PhaseCompleted)
    (inst' := on_meta (SetFinalizers ["x"]) rhmi0)
    as (i1 & ph1 & err1 & w1 & Hr & [(Hp & _)|(_ & Hp & _)]).
  - intros i i' r w w' E. unfold cleaned in E. rewrite run_ret in E. by injection E as <- _ _.
  - apply (bool_decide_unpack _). vm_compute. exact I.
  - left.
  - vm_compute. reflexivity.
  - exists i1, ph1, err1, w1. split; [exact Hr|exact Hp].
  - exists i1, ph1, err1, w1. split; [exact Hr|symmetry; exact Hp].
Defined.

Definition grafana_config : Grafana.t := Grafana.New {["HOST" := "grafana.example.com"]}.
Definition write_run := WriteConfig manager0 grafana_config empty_world.
Definition written_manager : Manager := (value_of write_run (manager0, None)).1.
Lemma WriteConfig_roundtrip_witness :
  readConfigForProduct written_manager ProductGrafana = inr (Grafana.Read grafana_config).
Proof.
  refine (proj1 (WriteConfig_roundtrip (W := FakeWorld) _ _ manager0 written_manager grafana_config
    empty_world (session_of write_run) _)).
  - intros c o o' w w' E. unfold client_create in E. cbn in E. unfold fake_create, fake_put in E.
    destruct (_ !! _); [discriminate|]. by injection E as <- _.
  - intros c o o' w w' E. unfold client_update in E. cbn in E. unfold fake_update, fake_put in E.
    destruct (_ !! _); [|discriminate]. by injection E as <- _.
  - apply (run_done_fst write_run (manager0, None)); vm_compute; reflexivity.
Defined.

Definition multitenant_rhmi : RHMI :=
  on_status (λ s, set_Stages s (Some {[InstallStage := mkStageStatus InstallStage PhaseCompleted
    (Some (list_to_map ((λ p, (p, mkProductStatus p "" "" "" "" false PhaseCompleted false)) <$>
       [ProductCloudResources; ProductRHSSO; Product3Scale; ProductMarin3r; ProductGrafana])))]})) rhmi0.
Lemma multitenant_never_healthy_witness : IsCoreComponentsHealthy multitenant_rhmi = false.
Proof.
  apply multitenant_never_healthy. apply (bool_decide_unpack _). vm_compute. exact I.
Defined.
