(* ===== verification/ProductExamples.v ===== *)
(** * Examples of the products and of what they share

    The theorems on the shared reconciler, on the pods, the alerts, the rate
    limits and the marin3r product at concrete inputs, on the cluster of
    FakeCluster.v. *)

From stdpp Require Import base list strings gmap countable.
From Stdlib Require Import ZArith Lia.
From S2P Require Import Prelude Numbers Kube Api Resources Olm Quota Pods RateLimit Cro Envoy.
From S2P Require Import Config Cluster Addon Alerts CloudAlerts UsageAlerts Backup Marketplace Reconciler.
From S2P Require Import Marin3rReconciler FakeCluster.

(** ** Interfaces that are functions only *)

#[export] Instance fake_manifests : Manifests FakeWorld := λ _, mret (inr ∅).
#[export] Instance fake_alerts_json : AlertsJson := λ _, inr ∅.
#[export] Instance fake_sha256 : Sha256 := λ s, s.
#[export] Instance fake_title_case : TitleCase := λ s, s.
#[export] Instance fake_deployment_equality : SemanticDeepEqual (Deployment Z) := λ _ _, false.
#[export] Instance fake_limit_range_equality : SemanticDeepEqual (LimitRange Z) := λ _ _, false.
(** Limits whose text is the number that codes them. *)
Definition limit_fields (l : limitadorLimit) : string * Z * Z * list string * list string :=
  (l_Namespace l, l_MaxValue l, l_Seconds l, l_Conditions l, l_Variables l).
Definition limit_of_fields (f : string * Z * Z * list string * list string) : limitadorLimit :=
  let '(n, m, s, c, v) := f in mkLimit n m s c v.
#[export] Instance coded_limits : LimitsYaml := {|
  limits_Marshal l := inr (bits (encode (map limit_fields l)));
  limits_Unmarshal s := match p ← of_bits s; decode p with
                        | Some l => inr (map limit_of_fields l)
                        | None => inl (ErrStr "yaml: not a list of limits")
                        end;
|}.
#[export] Instance coded_limits_laws : LimitsYamlLaws.
Proof.
  intros l s [= <-]. unfold limits_Unmarshal, coded_limits. rewrite of_bits_bits. simpl.
  rewrite decode_encode. f_equal. rewrite map_map. induction l as [|[] l IH]; simpl; by f_equal.
Qed.

(** Quantities as thousandths, written with the suffixes the shipped defaults use. *)
Definition fake_parse_quantity (s : string) : option Z :=
  let '(digits, suffix) := span_digits s in
  n ← parse_digits digits;
  if suffix =?s "m" then Some n
  else if suffix =?s "Mi" then Some (n * 1048576000)%Z
  else if suffix =?s "G" then Some (n * 1000000000000)%Z
  else if suffix =?s "" then Some (n * 1000)%Z else None.
#[export] Instance fake_quantity : Quantity Z := {|
  q_zero := 0%Z; q_Cmp := Z.compare; q_IsZero := Z.eqb 0; q_String z := itoa z +:+ "m";
  q_MustParse := fake_parse_quantity;
|}.

(** ** A cluster on which marin3r is installed *)

Definition m3_ns : string := "redhat-rhoam-marin3r".
Definition m3_config : Marin3r.t :=
  Marin3r.SetOperatorNamespace (Marin3r.SetNamespace (Marin3r.New ∅) m3_ns) (m3_ns +:+ "-operator").
Definition m3_subscription : Subscription :=
  mkSubscription (named (m3_ns +:+ "-operator") Marin3rSubscriptionName) None "marin3r.v0.13.4" true
    (Some ("install-1", m3_ns +:+ "-operator")) "marin3r.v0.13.4".
Definition m3_world : FakeWorld :=
  put rhmi0
  (put (mkNamespace (named "" m3_ns) "Active")
  (put (mkNamespace (named "" (m3_ns +:+ "-operator")) "Active")
  (put m3_subscription
  (put (mkInstallPlan (named (m3_ns +:+ "-operator") "install-1") true ["marin3r.v0.13.4"] "Complete" [])
  (put (mkCSV (named (m3_ns +:+ "-operator") "marin3r.v0.13.4") "deployment"
          [mkStrategyDeployment "marin3r" "" []])
  (put (mkPostgres (named ns0 "rhsso-postgres-rhoam") zero_CroSpec "complete" "" None)
  (put (mkRedis (named ns0 "ratelimit-service-redis-rhoam") zero_CroSpec "complete" "" (Some ("redis", ns0)))
  (put (mkSecret (named ns0 "redis") (Some (list_to_map [("uri", "redis.example"); ("port", "6379")])))
  (put (mkConfigMap (named ns0 AlertConfigMapName) (Some {["alerts" := "{}"]}))
  (put (mkRoute (named "redhat-rhoam-customer-monitoring" "grafana-route") "grafana.example" [])
  empty_world)))))))))).
Definition m3_declaration : ProductDeclaration := mkProductDeclaration "index" None "" "" "".
Definition m3_status0 : RHMIProductStatus := zero_product.
Definition m3_quota : QuotaProductConfig Z :=
  mkQPC ProductMarin3r None (Some (mkQuota "1" None false (mkRateLimitConfig "minute" 69))).
Abbreviation m3_run :=
  (marin3r_Reconcile manager0 m3_config m3_declaration 0 rhmi0 zero_product ServerClient
    m3_quota false m3_world).
Definition m3_default : RHMI * RHMIProductStatus * (StatusPhase * option error) :=
  (rhmi0, zero_product, ("", None)).

Definition m3_installation : RHMI := (value_of m3_run m3_default).1.1.


(** ** Pods *)

Definition node_in (n zone : string) : Node :=
  mkNode (SetLabels (Some {[ZoneLabel := zone]}) (named "" n)) [].
Definition two_zones : FakeWorld := put (node_in "a" "eu-1") (put (node_in "b" "eu-2") empty_world).
Lemma IsMultiAZCluster_spec_witness :
  ∃ b, IsMultiAZCluster ServerClient two_zones = (Done (inr b), two_zones) ∧ b = true.
Proof.
  destruct (IsMultiAZCluster_spec ServerClient two_zones two_zones
    [node_in "a" "eu-1"; node_in "b" "eu-2"]) as (b & Hr & Hb); [vm_compute; reflexivity|].
  exists b. split; [exact Hr|]. apply Hb.
  exists (node_in "a" "eu-1"), (node_in "b" "eu-2"). split; [left|]. split; [right; left|].
  vm_compute. discriminate.
Defined.

(** ** The rate limit service *)

Definition rls0 : RateLimitServiceReconciler :=
  NewRateLimitServiceReconciler (mkRateLimitConfig "minute" 69) rhmi0 m3_ns externalRedisSecretName.

Abbreviation limits_run :=
  (reconcileConfigMap rls0 ServerClient empty_world).

(** ** Alerts *)

Definition rhmi_gone : RHMI :=
  on_meta (λ _, mkMeta "rhoam" ns0 "" "" 0 0 (Some 1%Z) None None []) rhmi0.
Definition an_alert : AlertConfiguration :=
  mkAlertConfiguration "an-alert" "group" m3_ns "" (OboRules [mkRule "a" "up == 0" None ∅ ∅]).
Definition rules_world : FakeWorld :=
  put (mkPrometheusRule (named m3_ns "an-alert") []) empty_world.
Abbreviation delete_alerts_run :=
  (ReconcileAlerts (mkAlertReconciler "Marin3r" rhmi_gone [an_alert] []) ServerClient rules_world).
Lemma ReconcileAlerts_never_deletes_obo_rules_witness :
  store (O := PrometheusRule) (session_of delete_alerts_run) = store rules_world.
Proof.
  apply (ReconcileAlerts_never_deletes_obo_rules store (mkAlertReconciler "Marin3r" rhmi_gone [an_alert] [])
    ServerClient rules_world delete_alerts_run.1).
  - intros ns n w r w' Hc. by injection Hc as _ <-.
  - intros o w r w'. unfold client_delete. cbn. unfold fake_delete.
    destruct (_ !! _); intros Hc; injection Hc as _ <-; reflexivity.
  - vm_compute. discriminate.
  - apply surjective_pairing.
Defined.

Definition a_redis : Redis := mkRedis (named ns0 "redis") zero_CroSpec "complete" "" None.
Definition rhmi_on_aws : RHMI :=
  mkRHMI (rhmi_meta rhmi0)
    (mkRHMISpec InstallationTypeManagedApi "" "" "redhat-rhoam-" false false (mkPullSecretSpec "" "")
      "false" "" "" (mkAlertingEmailAddresses "" "") "" "" false "" "" "") zero_status.
Abbreviation redis_alerts_run :=
  (ReconcileRedisAlerts ServerClient rhmi_on_aws a_redis empty_world).
Lemma cro_alerts_complete_witness :
  rules_written ServerClient (ns0 +:+ "-observability")
    ([redis_failed a_redis; redis_deletion_failed a_redis; redis_pending a_redis;
      redis_availability a_redis; redis_connectivity a_redis] ++ redis_memory_usage a_redis
     ++ [redis_cpu_usage a_redis; redis_service_maintenance a_redis])
    empty_world (session_of redis_alerts_run).
Proof.
  destruct (cro_alerts_complete ServerClient rhmi_on_aws (inl a_redis) empty_world
    (session_of redis_alerts_run) PhaseCompleted) as [_ Hw]; [|exact Hw].
  apply (run_done redis_alerts_run ("", None)); vm_compute; reflexivity.
Defined.

(** ** Backups

    A world whose clock advances at every read of a snapshot, and whose
    snapshots are complete from the third tick on. *)

Definition BackupWorld : Type := Z * Store (Snapshot RedisSnapshotType).
Definition snapshot_at (t : Z) (s : Snapshot RedisSnapshotType) : Snapshot RedisSnapshotType :=
  if (3 <=? t)%Z then mkSnapshot (sn_meta s) (sn_ResourceName s) SnapshotComplete "" else s.
#[export] Instance backup_clock : Clock BackupWorld := fst.
#[export] Instance backup_client : Client BackupWorld (Snapshot RedisSnapshotType) := {|
  client_get _ ns n w := (Done (match w.2 !! (ns, n) with
                                | Some s => inr (snapshot_at w.1 s)
                                | None => inl (not_found n)
                                end), ((w.1 + 1)%Z, w.2));
  client_list _ _ := mret (inr []);
  client_create _ s w := (Done (inr s), (w.1, <[obj_key s := s]> w.2));
  client_update _ s := mret (inr s); client_status_update _ s := mret (inr s);
  client_delete _ _ := mret None; client_patch _ s := mret (inr s);
|}.
Definition redis_backup : AWSBackupExecutor := mkAWSBackup ns0 "redis" RedisSnapshotType.
Abbreviation backup_run fuel :=
  (aws_backup RedisSnapshotType fuel redis_backup "preupgrade" ServerClient 10 ((0%Z, ∅) : BackupWorld)).
Lemma aws_backup_ends_witness :
  (∀ m, 12 ≤ m → backup_run m = backup_run 12)
  ∧ ∃ cr (w1 w' : BackupWorld), client_get ServerClient ns0 "preupgrade" w1 = (Done (inr cr), w')
      ∧ sn_Phase (kind := RedisSnapshotType) cr = SnapshotComplete.
Proof.
  destruct (aws_backup_ends (k := RedisSnapshotType) redis_backup "preupgrade" ServerClient 10
    ((0%Z, ∅) : BackupWorld) 12) as (_ & Hfuel & Hok).
  - intros c ns x w w' got [= _ <-]. unfold now, backup_clock. simpl. lia.
  - intros c ns x w w' [=].
  - intros c o w w' [=].
  - vm_compute. lia.
  - split; [exact Hfuel|].
    destruct (Hok (session_of (backup_run 12))) as (w1 & cr & Hg & Hp).
    + apply (run_done (backup_run 12) None); vm_compute; reflexivity.
    + exists cr, w1, (session_of (backup_run 12)). split; [exact Hg|exact Hp].
Defined.

(** ** Installing an operator *)

Definition m3_target : Target :=
  mkTarget (m3_ns +:+ "-operator") Marin3rSubscriptionName "rhmi-marin3r" IntegreatlyChannel.
Definition m3_catalog : CatalogSourceReconciler := GRPCImage "image" (m3_ns +:+ "-operator") CatalogSourceName.
Abbreviation install_run :=
  (InstallOperator ServerClient m3_target [] ApprovalManual m3_catalog m3_world).
Definition install_default : CatalogSourceReconciler * option error := (m3_catalog, None).

Abbreviation subscription_run :=
  (ReconcileSubscription m3_target [] NoopBackupExecutor ServerClient m3_catalog m3_world).

Abbreviation namespace_run :=
  (ReconcileNamespace m3_ns rhmi0 ServerClient m3_world).
Lemma ReconcileNamespace_completed_witness :
  ∃ sent answer w1, IsOwnedBy sent rhmi0 = true
    ∧ client_update (O := NamespaceObj) ServerClient sent w1
      = (Done (inr answer), session_of namespace_run).
Proof.
  destruct (ReconcileNamespace_completed m3_ns rhmi0 ServerClient m3_world (session_of namespace_run) None)
    as (_ & sent & answer & w1 & Ho & Hu & _).
  - apply (run_done namespace_run ("", None)); vm_compute; reflexivity.
  - exists sent, answer, w1. split; [exact Ho|exact Hu].
Defined.

Lemma PrepareObjectLabels_spec_witness :
  IsOwnedBy (PrepareObjectLabels (mkNamespace (named "" m3_ns) "Active") rhmi0 true false true) rhmi0 = true.
Proof.
  destruct (PrepareObjectLabels_spec (mkNamespace (named "" m3_ns) "Active") rhmi0 true false true)
    as (Ho & _). apply Ho. reflexivity.
Defined.

(** ** The deployment of the rate limit service *)

Definition rl_secret : Secret := mkSecret (named m3_ns "redis") (Some {["URL" := "redis.example:6379"]}).
Definition rl_quota : QuotaProductConfig Z :=
  mkQPC ProductMarin3r (Some {[RateLimitName := example_rc]}) (Some (mkQuota "1" None false (mkRateLimitConfig "minute" 69))).
Abbreviation deployment_run :=
  (mutate_deployment (H3 := milli_quantity) rls0 rl_secret "" rl_quota
     (zero_Deployment (named m3_ns RateLimitName)) empty_world).
Definition deployment_default : Deployment Z * option error :=
  (zero_Deployment (named m3_ns RateLimitName), None).
Lemma mutate_deployment_spec_witness :
  let d := (value_of deployment_run deployment_default).1 in
  ∃ n, dp_Replicas d = Some n ∧ (3 ≤ n)%Z.
Proof.
  intros d. destruct (mutate_deployment_spec (H0 := milli_quantity) rls0 rl_secret "" rl_quota
    (zero_Deployment (named m3_ns RateLimitName)) d empty_world (session_of deployment_run))
    as (_ & _ & _ & _ & (n & Hn & Hle) & _).
  - reflexivity.
  - apply run_done_fst; vm_compute; reflexivity.
  - exists n. split; [exact Hn|exact Hle].
Defined.
