(* ===== verification/TenantExamples.v ===== *)
(** * The tenant controller on a concrete API server

    A server that stores the statuses of tenants, the annotations of users
    and a list of routes; it satisfies the laws of TenantStore. *)

From stdpp Require Import base list strings gmap.
From Stdlib Require Import ZArith Lia.
From S2P Require Import Prelude Kube Api Resources Users Olm Quota Config Metrics Products Session Tenants.

Record TenantWorld := mkTenantWorld {
  tw_tenants : gmap (string * string) APIManagementTenantStatus;
  tw_users : gmap string (option (gmap string string));
  tw_routes : list Route;
}.

Definition tenant_at (k : string * string) (s : APIManagementTenantStatus) : APIManagementTenant :=
  mkTenant (named k.1 k.2) s.
Definition user_at (n : string) (a : option (gmap string string)) : User :=
  mkUser (SetAnnotations a (named "" n)) [].
Definition put_tenant (t : APIManagementTenant) (w : TenantWorld) : TenantWorld :=
  mkTenantWorld (<[tenant_key t := tenant_Status t]> (tw_tenants w)) (tw_users w) (tw_routes w).
Definition put_user (u : User) (w : TenantWorld) : TenantWorld :=
  mkTenantWorld (tw_tenants w) (<[Name (user_meta u) := Annotations (user_meta u)]> (tw_users w)) (tw_routes w).

Definition refused {A} : M TenantWorld (error + A) := mret (inl (ErrKube OtherReason "not served")).
Definition write_tenant (t : APIManagementTenant) : M TenantWorld (error + APIManagementTenant) :=
  λ w, (Done (inr (tenant_at (tenant_key t) (tenant_Status t))), put_tenant t w).
Definition write_user (u : User) : M TenantWorld (error + User) := λ w, (Done (inr u), put_user u w).

#[export] Instance tw_tenant_client : Client TenantWorld APIManagementTenant := {|
  client_get _ ns n := λ w, (Done (match tw_tenants w !! (ns, n) with
                                   | Some s => inr (tenant_at (ns, n) s)
                                   | None => inl (not_found n) end), w);
  client_list _ o := λ w, (Done (inr (List.filter (matches o)
                       (map (λ kv, tenant_at kv.1 kv.2) (map_to_list (tw_tenants w))))), w);
  client_create _ _ := refused; client_update _ _ := refused;
  client_status_update _ := write_tenant;
  client_delete _ _ := mret None; client_patch _ _ := refused |}.
#[export] Instance tw_user_client : Client TenantWorld User := {|
  client_get _ _ n := λ w, (Done (match tw_users w !! n with
                                  | Some a => inr (user_at n a)
                                  | None => inl (not_found n) end), w);
  client_list _ _ := refused; client_create _ := write_user; client_update _ := write_user;
  client_status_update _ _ := refused; client_delete _ _ := mret None; client_patch _ _ := refused |}.
#[export] Instance tw_route_client : Client TenantWorld Route := {|
  client_get _ _ _ := refused; client_list _ o := λ w, (Done (inr (List.filter (matches o) (tw_routes w))), w);
  client_create _ _ := refused; client_update _ _ := refused; client_status_update _ _ := refused;
  client_delete _ _ := mret None; client_patch _ _ := refused |}.

Definition tw_table (w : TenantWorld) : gmap (string * string) APIManagementTenant :=
  map_imap (λ k s, Some (tenant_at k s)) (tw_tenants w).
Lemma tw_table_lookup w k : tw_table w !! k = tenant_at k <$> tw_tenants w !! k.
Proof. unfold tw_table. rewrite map_lookup_imap. by destruct (_ !! _). Qed.

#[export] Instance tw_store : TenantStore TenantWorld.
Proof.
  refine {| tenants := tw_table |}.
  - intros c ns n w r w' [= <- <-]. split; [done|]. intros t. rewrite tw_table_lookup.
    destruct (tw_tenants w !! (ns, n)); intros [= <-]. done.
  - intros c ns w r w' [= <- <-]. split; [done|]. intros l n t [= <-]. rewrite tw_table_lookup.
    intros (s & Hs & ->)%fmap_Some. apply list_elem_of_In, List.filter_In. split.
    + apply in_map_iff. exists ((ns, n), s). split; [done|].
      by apply list_elem_of_In, elem_of_map_to_list.
    + unfold matches. cbn. by rewrite str_eqb_refl, orb_true_r.
  - intros c t w r w' [= <- <-]. exists (tenant_at (tenant_key t) (tenant_Status t)). split_and!; try done.
    + right. apply map_eq. intros k. rewrite tw_table_lookup. cbn.
      destruct (decide (k = tenant_key t)) as [->|Hne].
      * by rewrite !lookup_insert_eq.
      * rewrite !lookup_insert_ne by done. by rewrite tw_table_lookup.
    + by intros t'' [= <-].
  - intros c ns n w r w' [= <- <-]. split; [done|]. intros u.
    destruct (tw_users w !! n); by intros [= <-].
  - by intros c u w r w' [= <- <-].
  - by intros c u w r w' [= <- <-].
  - by intros c o w r w' [= <- <-].
Defined.

(** Bob's account: a tenant in bob-dev, the user with single sign-on ready,
    and the route of the account. *)
Definition status_new : APIManagementTenantStatus := mkTenantStatus "" "" "".
Definition bob_route : Route :=
  mkRoute (SetLabels (Some {["zync.3scale.net/route-to" := "system-provider"]})
             (named "sandbox-rhoam-3scale" "zync-1")) "bob.example.com" [].
Definition bob_world : TenantWorld :=
  mkTenantWorld {[("bob-dev", "t") := status_new]} {["bob" := Some {["ssoReady" := "yes"]}]} [bob_route].
Definition bob_request : Request := mkRequest "bob-dev" "t".
Definition bob_ready : APIManagementTenantStatus :=
  mkTenantStatus "" ThreeScaleAccountReady "bob.example.com".

(** One run makes the account ready and marks the user as a tenant. *)
Example bob_becomes_ready :
  tenant_Reconcile bob_request bob_world =
  (Done (zero_Result, None),
   mkTenantWorld {[("bob-dev", "t") := bob_ready]}
     {["bob" := Some {["tenant" := "yes"; "ssoReady" := "yes"]}]} [bob_route]).
Proof. vm_compute. reflexivity. Qed.

(** A second tenant of the same user is refused. *)
Definition two_tenants : TenantWorld :=
  mkTenantWorld {[("bob-dev", "t") := bob_ready; ("bob-stage", "u") := status_new]}
    {["bob" := Some {["ssoReady" := "yes"]}]} [bob_route].
Definition status_at (k : string * string) (w : TenantWorld) : string :=
  match tw_tenants w !! k with Some s => ProvisioningStatus s | None => "gone" end.
Example second_tenant_refused :
  status_at ("bob-stage", "u") (tenant_Reconcile (mkRequest "bob-stage" "u") two_tenants).2
  = WontProvisionTenant.
Proof. vm_compute. reflexivity. Qed.


Abbreviation bob_run := (reconcile_tenant (tenant_at ("bob-dev", "t") status_new) bob_world).
Lemma tenant_ready_only_if_witness :
  account_found (W := TenantWorld) "bob-dev" bob_ready.
Proof.
  apply (tenant_ready_only_if ("bob-dev", "t") (tenant_at ("bob-dev", "t") status_new) bob_world
           bob_run.1 bob_run.2 (tenant_at ("bob-dev", "t") bob_ready)).
  - vm_compute. reflexivity.
  - reflexivity.
  - discriminate.
  - apply surjective_pairing.
  - vm_compute. reflexivity.
  - reflexivity.
Defined.

(** Worlds with bob, his single sign-on ready, and the route of his account. *)
Definition bob_healthy (w : TenantWorld) : Prop :=
  tw_routes w = [bob_route] ∧ ∃ a, tw_users w !! "bob" = Some a ∧ omap_get "" a "ssoReady" = "yes".
Lemma tenant_becomes_ready_witness :
  ∃ t' w', reconcile_tenant (tenant_at ("bob-dev", "t") status_new) bob_world = (Done (t', (zero_Result, None)), w')
    ∧ ProvisioningStatus (tenant_Status t') = ThreeScaleAccountReady.
Proof.
  destruct (tenant_becomes_ready (W := TenantWorld) "bob-dev" bob_healthy) with
    (t := tenant_at ("bob-dev", "t") status_new) (w := bob_world) (reason := "") (w1 := bob_world)
    as (t' & w' & Hr & Hs & _).
  - intros t w Hw. do 2 eexists. split; [reflexivity|]. done.
  - intros w (Hr & a & Ha & Hs). exists (user_at "bob" a), w. split.
    + unfold getUserByTenantNamespace, client_get. cbn. by rewrite Ha.
    + split_and!; [done|done|exact Hs|by split; [|exists a]].
  - intros user w (Hr & a & Ha & Hs) Hn Hnn. unfold CreateOrUpdate, mutate. rewrite run_bind. cbn.
    change (Name (user_meta user) = "bob") in Hn. rewrite Hn, Hnn, Ha. go_run. case_match; go_run.
    + do 3 eexists. split; [reflexivity|]. split; [exact Hr|by exists a].
    + do 3 eexists. split; [reflexivity|]. split; [exact Hr|]. eexists. split; [apply lookup_insert_eq|].
      unfold omap_get, make_if_nil, map_get. cbn. destruct a as [a|]; [|discriminate Hs]. cbn.
      rewrite lookup_insert_ne by done. exact Hs.
  - intros w (Hr & a & Ha & Hs). exists [bob_route], w. split; [|split; [reflexivity|split; [done|by exists a]]].
    unfold client_list. cbn. rewrite Hr. reflexivity.
  - split; [reflexivity|]. eexists. split; reflexivity.
  - reflexivity.
  - vm_compute. reflexivity.
  - eauto.
Defined.

(** A user whose name ends in -stage: the tenants of bob-stage-dev count
    as those of bob, whose own namespaces are the ones that are checked, and
    both are accepted. *)
Definition stage_world : TenantWorld :=
  mkTenantWorld {[("bob-stage-dev", "t") := status_new; ("bob-stage-dev", "u") := status_new]}
    {["bob" := Some {["ssoReady" := "yes"]}]} [bob_route].
Definition stage_world_after : TenantWorld :=
  (tenant_Reconcile (mkRequest "bob-stage-dev" "u")
     (tenant_Reconcile (mkRequest "bob-stage-dev" "t") stage_world).2).2.
Theorem two_accepted_tenants_in_a_stage_namespace :
  status_at ("bob-stage-dev", "t") stage_world_after = ThreeScaleAccountReady
  ∧ status_at ("bob-stage-dev", "u") stage_world_after = ThreeScaleAccountReady.
Proof. vm_compute. auto. Qed.

(** A tenant that was refused once and is accepted later gets its account,
    but its user is never marked as a tenant. *)
Definition refused_world : TenantWorld :=
  mkTenantWorld {[("bob-dev", "t") := mkTenantStatus "" WontProvisionTenant ""]}
    {["bob" := Some {["ssoReady" := "yes"]}]} [bob_route].
Theorem accepted_later_is_not_annotated :
  let w := (tenant_Reconcile bob_request refused_world).2 in
  status_at ("bob-dev", "t") w = ThreeScaleAccountReady
  ∧ tw_users w !! "bob" = Some (Some {["ssoReady" := "yes"]}).
Proof. vm_compute. auto. Qed.

(** A tenant that is gone is an error of every run, not an end. *)
Theorem deleted_tenant_is_an_error :
  (tenant_Reconcile (mkRequest "bob-dev" "gone") bob_world).1
  = Done (zero_Result, Some (ErrStr "error getting tenant gone: gone not found")).
Proof. vm_compute. reflexivity. Qed.
