(* ===== verification/SubscriptionExamples.v ===== *)
(** * The subscription controller on the concrete cluster

    A subscription with an upgrade that does not affect the service, and one
    that has no install plan yet. *)

From stdpp Require Import base list strings gmap.
From Stdlib Require Import ZArith Lia.
From S2P Require Import Prelude Kube Api Olm Cro Config Cluster Marketplace Reconciler Session.
From S2P Require Import Tenants Subscriptions FakeCluster.

(** Manifests are "safe" and "unsafe", the CSV of an upgrade that does not
    and of one that does affect the service. *)
Definition csv_named (affecting : string) (resources : list CsvResources) : ClusterServiceVersion :=
  mkCSV (SetAnnotations (Some {["serviceAffecting" := affecting]}) (named "operators" "rhoam.v2")) "deployment"
    [mkStrategyDeployment "rhoam" "" resources].
Definition half_cpu : CsvResources := mkCsvResources None (Some {["cpu" := "500m"]}).
#[export] Instance example_decoding : CsvDecoding := {|
  unmarshal_csv m _ := if m =?s "safe" then inr (Some (csv_named "false" [half_cpu]))
                       else if m =?s "unsafe" then inr (Some (csv_named "true" []))
                       else inl (ErrStr "invalid character");
  unmarshal_reference _ := inl (ErrStr "cannot unmarshal");
  base64_DecodeString s := inr s; gzip_ReadAll s := inr s; gzip_Close _ := None;
  DecodeUnstructured _ := inl (ErrStr "no kind");
|}.

Definition own_sub (approval : string) (ref : option (string * string)) : Subscription :=
  mkSubscription (named ns0 ManagedAPIolmSubscription)
    (Some (mkSubSpec "" "" "" "stable" approval None)) "rhoam.v1" true ref "rhoam.v2".
Definition own_plan (manifest : string) : InstallPlan :=
  mkInstallPlan (named ns0 "install-2") false ["rhoam.v2"] "RequiresApproval"
    [(ClusterServiceVersionKind, manifest)].
Definition sub_world (approval : string) (ref : option (string * string)) (manifest : string) : FakeWorld :=
  put rhmi0 (put (own_sub approval ref) (put (own_plan manifest) empty_world)).
Definition request0 : Request := mkRequest ns0 ManagedAPIolmSubscription.
Definition plan_ref : option (string * string) := Some ("install-2", ns0).

Abbreviation sub_run w := (subscription_Reconcile (W := FakeWorld) ns0 ∅ request0 w).

(** Manual approval and a harmless upgrade: the plan is approved. *)
Example safe_upgrade_is_approved :
  let w := (sub_run (sub_world ApprovalManual plan_ref "safe")).2 in
  (ip_Approved <$> (store w !! (ns0, "install-2") : option InstallPlan)) = Some true
  ∧ fw_events w = [("Normal", EventUpgradeApproved, "Approving install-2 install plan: rhoam.v2")].
Proof. vm_compute. done. Qed.

Definition plans_kept : FakeWorld → FakeWorld → Prop := same (store (O := InstallPlan)).


Lemma subscription_is_manual_witness :
  let run := sub_run (sub_world "Automatic" plan_ref "safe") in
  ∃ got w1, client_get (W := FakeWorld) (O := Subscription) ServerClient ns0 ManagedAPIolmSubscription
              (sub_world "Automatic" plan_ref "safe") = (Done got, w1)
  ∧ match got with
    | inl e => IsNotFound (Some e) = true
    | inr s => ∃ sp, sub_Spec s = Some sp
        ∧ (ss_InstallPlanApproval sp = ApprovalManual
           ∨ ∃ sp' csv o w2 w3, client_update (W := FakeWorld) ServerClient (set_sub_Spec sp' s) w2 = (Done (inr o), w3)
               ∧ ss_InstallPlanApproval sp' = ApprovalManual
               ∧ default [] (sc_Env <$> ss_Config sp') = default [] (sc_Env <$> ss_Config sp)
               ∧ ss_Channel sp' = ss_Channel sp ∧ ss_Package sp' = ss_Package sp
               ∧ ∀ d c ds cs, DeploymentSpecs csv = d :: ds → sd_Containers d = c :: cs →
                   (ss_Config sp' ≫= sc_Resources) = Some c)
    end.
Proof.
  cbv zeta.
  apply (subscription_is_manual (W := FakeWorld) ns0 ∅ request0 (sub_world "Automatic" plan_ref "safe")
    (sub_run (sub_world "Automatic" plan_ref "safe")).2
    {["redhat-rhoam-operator/install-2" := csv_named "false" [half_cpu]]} (requeue_after (10 * second_ns))).
  - vm_compute. reflexivity.
  - vm_compute. reflexivity.
Defined.

