(* ===== verification/ControllerExamples.v ===== *)
(** * The smaller controllers on the concrete cluster *)

From stdpp Require Import base list strings gmap.
From Stdlib Require Import ZArith Lia.
From S2P Require Import Prelude Kube Api Resources Users Olm Cro Pods Config Marketplace Session Tenants.
From S2P Require Import PodDistribution Stages Installation Controllers FakeCluster.

(** ** Developers *)

Definition a_user (n : string) : User := mkUser (named "" n) [].
Definition users_world : FakeWorld :=
  put (a_user "alice") (put (a_user "sre") (put (mkGroup (named "" "layered-cs-sre-admins") ["sre"]) empty_world)).

Example only_alice_is_a_developer :
  (grp_Users <$> store (O := Group) (UserController.Reconcile (W := FakeWorld) users_world).2 !! ("", "rhmi-developers"))
    = Some ["alice"].
Proof. vm_compute. done. Qed.

(** ** Pods *)

Definition zone_node (n zone ip : string) : Node :=
  mkNode (SetLabels (Some {[ZoneLabel := zone]}) (named "" n)) [("InternalIP", ip)].
Definition a_pod (n ip : string) : Pod :=
  mkPod (named "redhat-rhoam-rhsso" n) [mkOwnerReference "apps/v1" "StatefulSet" "keycloak" "" (Some true) (Some true)] "Running" ip.
Definition pods_world : FakeWorld :=
  put (zone_node "n1" "a" "10.0.0.1") (put (zone_node "n2" "b" "10.0.0.2")
  (put (a_pod "keycloak-0" "10.0.0.1") (put (a_pod "keycloak-1" "10.0.0.1")
  (put (mkPodController (k := SS) (named "redhat-rhoam-rhsso" "keycloak")) empty_world)))).

Abbreviation distribute w :=
  (PodDistribution.ReconcilePodDistribution (W := FakeWorld) ServerClient "redhat-rhoam-" w).

(** Both pods are in one zone: one is deleted, and no attempt is recorded. *)
Example one_pod_is_deleted :
  size (store (O := Pod) (distribute pods_world).2) = 1
  ∧ store (O := PodController SS) (distribute pods_world).2 = store pods_world.
Proof. split; vm_compute; reflexivity. Qed.

#[export] Instance fw_ticker_law : TickerLaw (W := FakeWorld).
Proof. intros i w. reflexivity. Qed.

Definition sets_kept : FakeWorld → FakeWorld → Prop := same (store (O := PodController SS)).


(** ** Labels of the namespace *)

#[export] Instance no_network_json : NetworkJson := {|
  network_Unmarshal _ := (None, None); network_Marshal _ := inl (ErrStr "unsupported");
  patch_Marshal _ _ _ := inl (ErrStr "unsupported") |}.
#[export] Instance fw_clientset : Clientset FakeWorld := {|
  clientset_New := mret None; configmaps_Patch _ _ _ := mret None |}.

Definition labelled (v : string) : option (gmap string string) :=
  Some {[NamespaceLabel.deleteMAOLabel := v]}.
Definition label_world (v : string) : FakeWorld :=
  put rhmi0 (put (mkNamespace (SetLabels (labelled v) (named "" ns0)) "Active")
    (put (mkConfigMap (named ns0 NamespaceLabel.deletionRHOAM) None) empty_world)).

Abbreviation label_run w := (NamespaceLabel.Reconcile (W := FakeWorld) ns0 (mkRequest "" ns0) w).

Example label_removes : store (O := RHMI) (label_run (label_world "true")).2 = ∅.
Proof. vm_compute. reflexivity. Qed.

Definition installation_kept : FakeWorld → FakeWorld → Prop := same (store (O := RHMI)).

(** The labels of a namespace and a config map as they are on a server that
    answers every read with them. *)
Definition fixed_get {O} `{HasStore FakeWorld O} `{K8sObject O} (o : O) : Client FakeWorld O := {|
  client_get _ _ _ := mret (inr o); client_list := fake_list; client_create := fake_create;
  client_update := fake_update; client_status_update := fake_update; client_delete := fake_delete;
  client_patch := fake_update |}.


Lemma developers_are_the_users_witness :
  ∃ users groups w1 w2 g, client_list (W := FakeWorld) (O := User) ServerClient list_all users_world = (Done (inr users), w1)
    ∧ client_list (W := FakeWorld) (O := Group) ServerClient list_all w1 = (Done (inr groups), w2)
    ∧ ((∃ w3 g', client_create (W := FakeWorld) ServerClient g w3
                   = (Done (inr g'), (UserController.Reconcile (W := FakeWorld) users_world).2)
                 ∨ client_update (W := FakeWorld) ServerClient g w3
                   = (Done (inr g'), (UserController.Reconcile (W := FakeWorld) users_world).2))
       ∨ client_get (W := FakeWorld) (O := Group) ServerClient "" "rhmi-developers" w2
           = (Done (inr g), (UserController.Reconcile (W := FakeWorld) users_world).2))
    ∧ ∀ n, n ∈ grp_Users g ↔ ∃ u, u ∈ users ∧ Name (user_meta u) = n ∧ IsInExclusionGroup u groups = false.
Proof.
  apply (UserController.developers_are_the_users (W := FakeWorld) users_world _ zero_Result).
  vm_compute. reflexivity.
Defined.
