(* ===== verification/CroExamples.v ===== *)
(** * The cloud resources product on the concrete cluster

    A cluster on which the product is installed already, and one on which it
    is being removed. *)

From stdpp Require Import base list strings gmap countable.
From Stdlib Require Import ZArith Lia Ascii.
From S2P Require Import Prelude Numbers Kube Api Resources Olm Quota Pods Cro Config Cluster Addon.
From S2P Require Import Alerts Backup Marketplace Reconciler ProductAlerts Marin3rReconciler Uninstall.
From S2P Require Import CloudResourcesReconciler FakeCluster ProductExamples.

(** JSON as the digits of a code. *)
#[export] Instance StrategyConfig_countable : Countable StrategyConfig.
Proof.
  apply (inj_countable' (λ s, (str_Region s, str_CreateStrategy s, str_DeleteStrategy s, str_ServiceUpdates s))
    (λ '(a, b, c, d), mkStrategy a b c d)). by intros [].
Defined.
Definition coded {A} `{Countable A} (a : A) : string := bits (encode a).
Definition decoded {A} `{Countable A} (s : string) : error + A :=
  match p ← of_bits s; decode p with Some a => inr a | None => inl (ErrStr "invalid character") end.
Lemma decoded_coded {A} `{Countable A} (a : A) : decoded (coded a) = inr a.
Proof. unfold decoded, coded. rewrite of_bits_bits. cbn. by rewrite decode_encode. Qed.

#[export] Instance coded_strategies : StrategyJson := {|
  strategies_Unmarshal := decoded; strategies_Marshal m := inr (coded m);
  strings_Unmarshal _ := inr []; strings_Marshal l := inr (itoa (Z.of_nat (length l)));
  delete_Marshal d := inr (match d with S3DeleteStrat b | DeleteDBCluster b => format_bool b | DeleteCacheCluster s => s end);
|}.
Lemma coded_strategies_roundtrip m s : strategies_Marshal m = inr s → strategies_Unmarshal s = inr m.
Proof. intros [= <-]. apply decoded_coded. Qed.
#[export] Instance coded_network : NetworkJson := {|
  network_Unmarshal s := match decoded s with inr m => (Some m, None) | inl e => (None, Some e) end;
  network_Marshal m := inr (coded m); patch_Marshal _ _ v := inr v |}.
#[export] Instance coded_network_laws : NetworkJsonLaws.
Proof. intros m s [= <-]. cbn. by rewrite decoded_coded. Qed.
#[export] Instance fake_cro_strategies : CroStrategies FakeWorld := λ _ _ _ _ _, mret None.

(** ** An installed product *)

Definition cro_ns : string := "redhat-rhoam-cloud-resources-operator".
Definition cro_config : CloudResources.t := CloudResources.SetOperatorNamespace (CloudResources.New ∅) cro_ns.
Definition tiers_with (updates : string) : option (gmap string (option StrategyConfig)) :=
  Some {[TierProduction := Some (mkStrategy "eu" "{}" "{}" updates)]}.
Definition strategies_map (redis postgres : string) : ConfigMap :=
  mkConfigMap (named ns0 DefaultConfigMapName)
    (Some (list_to_map [("redis", coded (tiers_with redis)); ("postgres", coded (tiers_with postgres))])).

Definition cro_world (redis : string) : FakeWorld :=
  put rhmi0
  (put (mkNamespace (named "" cro_ns) "Active")
  (put (mkInfrastructure (named "" "cluster") (Some (mkPlatform "AWS" None)) "infra" "https://api.example")
  (put (mkCloudCredential (named "" "cluster") "Default")
  (put (mkSecret (named ns0 DefaultSecretName) (Some {["cidr-range" := "10.1.0.0/26"]}))
  (put (strategies_map redis "1")
  (put (mkSubscription (named cro_ns CloudResourceSubscriptionName) None "cloud-resources.v1" true
          (Some ("install-1", cro_ns)) "cloud-resources.v1")
  (put (mkInstallPlan (named cro_ns "install-1") true ["cloud-resources.v1"] "Complete" [])
  (put (mkCSV (named cro_ns "cloud-resources.v1") "deployment" [mkStrategyDeployment "cro" "" []])
  (put (mkCSV (named cro_ns cro_csv_name) "deployment" [mkStrategyDeployment "cro" "" []])
  empty_world))))))))).

Abbreviation cro_run w := (cro_Reconcile (W := FakeWorld) (Q := Z) manager0 m3_declaration cro_config rhmi0 zero_product ServerClient false w).
Definition cro_default : CroResult := (manager0, (rhmi0, zero_product, ("", None))).

(** The first run writes the updates and waits; when they are there already
    it is completed. *)
Example updates_first : (value_of (cro_run (cro_world "[]")) cro_default).2.2 = (PhaseInProgress, None).
Proof. vm_compute. reflexivity. Qed.
Definition cro_after : Manager * (RHMI * RHMIProductStatus) :=
  let '(m, (i, ps, _)) := value_of (cro_run (cro_world "14")) cro_default in (m, (i, ps)).
Example then_completed : (value_of (cro_run (cro_world "14")) cro_default).2.2 = (PhaseCompleted, None).
Proof. vm_compute. reflexivity. Qed.

Lemma cro_completed_witness :
  ∃ cfg' sts w2 w3, steps_done (cro_steps (W := FakeWorld) manager0 m3_declaration cfg' cro_after.2.1 ServerClient sts) w2 w3
    ∧ cro_installed (W := FakeWorld) manager0 cfg' zero_product ServerClient w3 cro_after (session_of (cro_run (cro_world "14"))).
Proof.
  destruct (cro_completed (W := FakeWorld) (Q := Z) manager0 m3_declaration cro_config rhmi0 zero_product ServerClient (cro_world "14")
    (session_of (cro_run (cro_world "14"))) cro_after.1 cro_after.2.1 cro_after.2.2)
    as (wf & cfg' & w0 & w1 & sts & w2 & w3 & _ & _ & _ & _ & Hs & Hi).
  - apply (run_done (cro_run (cro_world "14")) cro_default); vm_compute; reflexivity.
  - exists cfg', sts, w2, w3. split; [exact Hs|exact Hi].
Defined.

(** ** Its strategies *)

Lemma put_service_updates_spec_witness :
  ∃ cm m s, put_service_updates "redis" ["a"] (strategies_map "[]" "1") = Done (cm, None)
    ∧ strategies_Unmarshal (omap_get "" (cm_Data cm) "redis")
      = inr (Some (<[TierProduction := Some (mkStrategy (str_Region s) (str_CreateStrategy s) (str_DeleteStrategy s) "1")]> m)).
Proof.
  destruct (put_service_updates "redis" ["a"] (strategies_map "[]" "1")) as [[cm err]|why] eqn:E;
    [|exfalso; vm_compute in E; discriminate].
  assert (err = None) as -> by (vm_compute in E; by injection E as _ <-).
  destruct (put_service_updates_spec coded_strategies_roundtrip "redis" ["a"] _ cm E)
    as (m & s & json & _ & _ & Hj & Hu & _).
  exists cm, m, s. split; [reflexivity|]. rewrite Hu. by injection Hj as <-.
Defined.

Definition strategies_config : CloudResources.t :=
  CloudResources.SetStrategiesConfigMapName cro_config DefaultConfigMapName.
Abbreviation cidr_run :=
  (put_cidr (W := FakeWorld) strategies_config rhmi0 ServerClient "10.1.0.0/26" (cro_world "14")).


(** ** Its removal *)

Definition removal_world : FakeWorld :=
  put rhmi0 (put (mkNamespace (named "" ns0) "Active") (put (mkNamespace (named "" cro_ns) "Terminating")
  (put (mkCRD (named "" "postgres.integreatly.org")) empty_world))).
Abbreviation cro_removal := (cro_cleanup (W := FakeWorld) cro_config rhmi0 ServerClient removal_world).

Lemma cro_cleanup_completed_witness :
  ∃ w, nothing_left (W := FakeWorld) ServerClient ns0 ∧ cleanupResources (W := FakeWorld) rhmi0 ServerClient w.1 = (Done (PhaseCompleted, None), w.2).
Proof.
  destruct (cro_cleanup_completed (W := FakeWorld) cro_config rhmi0 ServerClient removal_world (session_of cro_removal))
    as [(e & w1 & Hg & _)|(w1 & w2 & w3 & w4 & Hs & Hd & Hc & [(w5 & Hno)|Hl])].
  - apply (run_done cro_removal ("", None)); vm_compute; reflexivity.
  - exfalso. pose proof (f_equal (λ x, match x.1 with Done (inr _) => true | _ => false end) Hg) as Hf.
    vm_compute in Hf. discriminate.
  - exists (w3, w4). split; [|exact Hc]. exists removal_world, removal_world, removal_world, removal_world, removal_world, removal_world.
    split_and!; vm_compute; reflexivity.
  - exists (w3, w4). split; [exact Hl|exact Hc].
Defined.
