(* ===== verification/BootstrapExamples.v ===== *)
(** * The bootstrap stage on a concrete cluster

    The stage is run on the cluster of FakeCluster.v with interfaces that are
    functions only: no randomness, templates that are their own text. *)

From stdpp Require Import base list strings gmap.
From Stdlib Require Import ZArith Lia Ascii.
From S2P Require Import Password Prelude Numbers Kube Api Resources Users Olm Quota Pods RateLimit Cro Config Cluster Addon.
From S2P Require Import Alerts CloudAlerts UsageAlerts OboAlerts Metrics Custom ProductAlerts AlertManager Products Session.
From S2P Require Import Stages Preflight Uninstall Bootstrap FakeCluster ProductExamples.

#[export] Instance fake_rand : Rand FakeWorld := λ _, mret (inr 0%Z).
#[export] Instance fake_mail : MailParser := λ s, str_contains "@" s.
#[export] Instance fake_owner : OwnerUtil := λ m _, m.
#[export] Instance fake_url : UrlParser := λ s, Some (trim_suffix "/" (trim_prefix "https://" s)).
#[export] Instance fake_encode : AlertsJsonEncode := λ _, inr "{}".
#[export] Instance fake_quota_json : QuotaJson Z := λ _, inr [mkReceiver "10 Million" "100" (mkRateLimitConfig "minute" 694) None].
#[export] Instance fake_files : FileSystem FakeWorld := {|
  os_NotExist _ := mret false; os_ReadFile p := mret (inr p) |}.
#[export] Instance fake_template : TextTemplate := λ t _, inr t.

Definition console : Route :=
  mkRoute (named "openshift-console" "console") "console.example"
    [mkRouteIngress "console.example" "router-default.apps.example"].
Definition boot_world : FakeWorld :=
  put rhmi0
  (put (mkSecret (named ns0 DefaultSecretName) (Some {[QuotaParamName := "100"]}))
  (put (mkSecret (named ns0 "redhat-rhoam-pagerduty") (Some {["serviceKey" := "key"]}))
  (put (mkConfigMap (named ns0 ConfigMapName) (Some {[ConfigMapData := "[]"]}))
  (put (mkInfrastructure (named "" "cluster") (Some (mkPlatform "AWS" None)) "infra" "https://api.example")
  (put (mkClusterVersion (named "" "version") "id" "4.16.3" [])
  (put console
  (put (mkService (named (GetOboNamespace ns0) alertManagerServiceName) [] None)
  empty_world))))))).
Abbreviation boot_run :=
  (bootstrap_reconcile (W := FakeWorld) ns0 manager0 rhmi0 ServerClient (zero_Quota (Q := Z)) boot_world).
Definition boot_default : RHMI * Quota Z * (StatusPhase * option error) := (rhmi0, zero_Quota, ("", None)).
Definition boot_installation : RHMI := (value_of boot_run boot_default).1.1.

(** The run completes: the cluster's facts are in the spec, the quota is the
    target. *)
Example bootstrap_of_a_new_installation :
  (value_of boot_run boot_default).2 = (PhaseCompleted, None)
  ∧ RoutingSubdomain (Spec boot_installation) = "apps.example"
  ∧ APIServer (Spec boot_installation) = "https://api.example"
  ∧ ToQuota (Status boot_installation) = "10 Million"
  ∧ CustomDomain (Status boot_installation) = None.
Proof. vm_compute. auto 10. Qed.

Lemma bootstrap_completed_witness :
  ∃ i1 w1 i3 w3 w4, boot_done (first_steps (W := FakeWorld) (Q := Z) manager0 ServerClient false ++ cluster_steps (W := FakeWorld) manager0 ServerClient)
      rhmi0 boot_world i1 w1
    ∧ boot_done (if IsInProw i3 then [] else observability_steps (W := FakeWorld) ServerClient) i3 w3 boot_installation w4.
Proof.
  destruct (bootstrap_completed (W := FakeWorld) ns0 manager0 ServerClient rhmi0 (zero_Quota (Q := Z)) boot_world
              boot_installation (value_of boot_run boot_default).1.2 (session_of boot_run))
    as (i1 & w1 & i2 & w2 & i3 & w3 & w4 & w5 & Hf & _ & _ & Ho & _).
  - change (_, _, (PhaseCompleted, @None error))
      with ((value_of boot_run boot_default).1.1, (value_of boot_run boot_default).1.2, (PhaseCompleted, @None error)).
    rewrite <- surjective_pairing. apply run_done_fst; vm_compute; reflexivity.
  - exists i1, w1, i3, w3, w4. split; [exact Hf|exact Ho].
Defined.

(** A new secret of the products gets one secret each; one that was there is kept. *)
Definition held_secret : Secret :=
  mkSecret (named ns0 "oauth-client-secrets") (Some {[ProductRHSSO := "kept"]}).
Abbreviation oauth_run :=
  (mutate_oauth_secrets (W := FakeWorld) ServerClient held_secret (put held_secret empty_world)).
Definition oauth_after : Secret := (value_of oauth_run (held_secret, None)).1.
Lemma mutate_oauth_secrets_spec_witness :
  omap_lookup (sec_Data oauth_after) ProductRHSSO = Some "kept"
  ∧ is_some (omap_lookup (sec_Data oauth_after) Product3Scale) = true.
Proof.
  destruct (mutate_oauth_secrets_spec (W := FakeWorld) ServerClient held_secret oauth_after (put held_secret empty_world)
              (session_of oauth_run)) as (held & Hg & Hk & Ha).
  - change (Done (oauth_after, @None error)) with (Done ((value_of oauth_run (held_secret, None)).1, @None error)).
    apply run_done_fst; vm_compute; reflexivity.
  - vm_compute in Hg. injection Hg as <-. split.
    + apply Hk. vm_compute. reflexivity.
    + apply Ha. right. right. right. left.
Defined.

Definition bob : MultiTenantUser := mkTenantUser "bob" "bob" "bob@example.com" "1".
Definition tenant_secret : Secret :=
  mkSecret (named ns0 tenantOauthclientSecretsName) (Some {["alice" := "old"]}).
Abbreviation tenant_run :=
  (mutate_tenant_secrets (W := FakeWorld) ServerClient [bob] tenant_secret (put tenant_secret empty_world)).
Definition tenant_after : Secret := (value_of tenant_run (tenant_secret, None)).1.
Lemma mutate_tenant_secrets_spec_witness :
  (is_some (omap_lookup (sec_Data tenant_after) "bob") = true ↔ "bob" ∈ ["bob"])
  ∧ (is_some (omap_lookup (sec_Data tenant_after) "alice") = true ↔ "alice" ∈ ["bob"]).
Proof.
  cut (∀ k, is_some (omap_lookup (sec_Data tenant_after) k) = true ↔ k ∈ ["bob"]); [auto|].
  apply (mutate_tenant_secrets_spec (W := FakeWorld) ServerClient [bob] tenant_secret tenant_after (put tenant_secret empty_world)
           (session_of tenant_run)).
  change (Done (tenant_after, @None error)) with (Done ((value_of tenant_run (tenant_secret, None)).1, @None error)).
  apply run_done_fst; vm_compute; reflexivity.
Defined.

Abbreviation console_run := (retrieveConsoleURLAndSubdomain (W := FakeWorld) rhmi0 ServerClient boot_world).
Definition console_after : RHMI := (value_of console_run (rhmi0, ("", None))).1.
Lemma routing_subdomain_kept_witness :
  is_some (CustomDomain (Status console_after)) = false.
Proof.
  destruct (routing_subdomain_kept (W := FakeWorld) rhmi0 ServerClient boot_world (session_of console_run) console_after
              PhaseCompleted None) as (_ & _ & _ & Hd).
  - change (Done (console_after, (PhaseCompleted, @None error)))
      with (Done ((value_of console_run (rhmi0, ("", None))).1, (PhaseCompleted, @None error))).
    apply run_done_fst; vm_compute; reflexivity.
  - destruct (Hd eq_refl) as (_ & route & ingress & w1 & ok & domain & derr & w2 & Hr & Hh & _ & Hg & Hc).
    assert (boot_world = w1) as <- by exact (f_equal snd Hr). clear Hd.
    assert (Some (ok, domain) = Some (false, "")) as [= -> ->].
    { transitivity (match fst (GetDomain ServerClient (Some (on_spec (λ s, set_MasterURL s (ri_Host ingress)) rhmi0)) boot_world)
                    with Done (ok, d, _) => Some (ok, d) | Panic _ => None end); [by rewrite Hg|].
      vm_compute. reflexivity. }
    assert (Some (ri_RouterCanonicalHostname ingress) = Some "router-default.apps.example") as [= Hi].
    { pose proof (f_equal (λ x, match x.1 with Done (inr r) => Some r | _ => None end) Hr) as Hroute. cbn [fst] in Hroute.
      pose proof (f_equal (λ r, r ≫= λ r, ri_RouterCanonicalHostname <$> head (rt_Ingress r)) Hroute) as Hi.
      cbn [mbind option_bind] in Hi. rewrite Hh in Hi. cbn [fmap option_fmap option_map] in Hi.
      rewrite <- Hi. vm_compute. reflexivity. }
    rewrite Hi in Hc.
    apply not_true_is_false. intros [[Hok _]|Hne]%Hc; [discriminate Hok|]. apply Hne. vm_compute. reflexivity.
Defined.

Lemma generateSecret_spec_witness : str_forall is_alnum "AA" = true.
Proof. apply (generateSecret_spec (W := FakeWorld) 2 empty_world empty_world). reflexivity. Defined.

(** ** Alerts of every product *)

