(* ===== verification/RhssoExamples.v ===== *)
(** * Examples of the single sign-ons

    Their theorems at concrete inputs: whole reconciles on the cluster of
    FakeCluster.v with a Keycloak that answers the same to every call, and the
    roles of groups on a Keycloak that stores them. *)

From stdpp Require Import base list strings gmap countable.
From Stdlib Require Import ZArith Lia.
From S2P Require Import Prelude Numbers Kube Api Resources Users Olm Quota Pods Keycloak RateLimit Cro Config Cluster.
From S2P Require Import Alerts CloudAlerts Backup Marketplace Reconciler RhssoCommon PodDistribution Rhsso RhssoUser.
From S2P Require Import Controllers FakeCluster ProductExamples BootstrapExamples.

#[export] Instance OAuth_object : K8sObject OAuth := {|
  meta := oa_meta; set_meta m o := mkOAuth m (oa_IdentityProviders o);
  semantic_deep_equal _ _ := false |}.
#[export] Instance fake_keycloak_equality : SemanticDeepEqual (Keycloak Z) := λ _ _, false.
#[export] Instance fake_statefulset_equality : SemanticDeepEqual (StatefulSet Z) := λ _ _, false.

Definition an_idp (alias : string) : KeycloakIdentityProvider :=
  mkIdp alias alias true true true true "first broker login" false (Some ∅).
#[export] Instance fake_keycloak : KeycloakInterface FakeWorld unit := {|
  api_FindUserByUsername _ _ _ := mret (inl (ErrStr "not found"));
  api_DeleteUser _ _ _ := mret None;
  api_GetIdentityProvider _ alias _ := mret (inr (Some (an_idp alias)));
  api_CreateIdentityProvider _ _ _ := mret None;
  api_UpdateIdentityProvider _ _ _ := mret None;
  api_CreateAuthenticatorConfig _ _ _ _ _ := mret None;
  api_ListRealms _ := mret (inr ["master"; "openshift"]);
  api_ListClients _ _ := mret (inr [("master-realm", "c1"); ("openshift-realm", "c2")]);
  api_AddUserToGroup _ _ _ _ := mret None;
  api_FindAuthenticationFlowByAlias _ _ _ := mret (inr false);
  api_CreateAuthenticationFlow _ _ _ _ _ _ := mret None;
  api_AddExecutionToAuthenticatonFlow _ _ _ _ _ := mret None;
  api_ListAuthenticationExecutionsForFlow _ _ _ :=
    mret (inr [mkExecution "e1" "" "identity-provider-redirector" "" ""]);
  api_FindAuthenticationExecutionForFlow _ _ _ _ := mret (inr None);
  api_UpdateAuthenticationExecutionForFlow _ _ _ _ := mret None;
  api_FindGroupByName _ _ _ := mret (inr None);
  api_FindGroupByPath _ p _ := mret (inr (Some (mkKeycloakGroup p p)));
  api_CreateGroup _ n _ := mret (inr n);
  api_MakeGroupDefault _ _ _ := mret None;
  api_SetGroupChild _ _ _ _ := mret None;
  api_CreateGroupClientRole _ _ _ _ _ := mret None;
  api_ListAvailableGroupClientRoles _ _ _ _ := mret (inr (map (mkKeycloakRole "") realmManagersClientRoles));
  api_ListGroupClientRoles _ _ _ _ := mret (inr []);
  api_CreateGroupRealmRole _ _ _ _ := mret None;
  api_ListGroupRealmRoles _ _ _ := mret (inr []);
  api_ListAvailableGroupRealmRoles _ _ _ := mret (inr [mkKeycloakRole "" "create-realm"]);
|}.
#[export] Instance fake_factory : KeycloakClientFactory FakeWorld Z unit := {|
  AuthenticatedClient _ := mret (inr tt); LocalAuthenticatedClient _ := mret (inr tt) |}.

(** ** A cluster on which both are installed *)

Definition sso_csv : string := "rhsso-operator.7.6.12-opr-005".
Definition sso_world (ns realm keycloak route product : string) : FakeWorld :=
  let ons := ns +:+ "-operator" in
  put rhmi0
  (put (mkNamespace (named "" ns) "Active")
  (put (mkNamespace (named "" ons) "Active")
  (put (mkSubscription (named ons RHSSOSubscriptionName) None sso_csv true (Some ("install-1", ons)) sso_csv)
  (put (mkInstallPlan (named ons "install-1") true [sso_csv] "Complete" [])
  (put (mkCSV (named ons sso_csv) "deployment" [mkStrategyDeployment "rhsso" "" []])
  (put (mkPostgres (named ns0 "rhsso-postgres-rhoam") zero_CroSpec "complete" "" (Some ("postgres", ns0)))
  (put (mkPostgres (named ns0 "rhssouser-postgres-rhoam") zero_CroSpec "complete" "" (Some ("postgres", ns0)))
  (put (mkSecret (named ns0 "postgres") (Some ∅))
  (put (mkSecret (named ns0 "oauth-client-secrets") (Some {[product := "s"]}))
  (put (mkSecret (named ns0 "github-oauth-secret") (Some (list_to_map [("clientId", "dummy"); ("secret", "dummy")])))
  (put (mkSecret (named ns ("credential-" +:+ keycloak)) (Some ∅))
  (put (mkRoute (named ns route) "sso.example" [])
  (put (mkRealm (named ns realm) [] None None "reconciling")
  (put (mkStatefulSet (SetLabels (Some {["app" := "keycloak"]}) (named ns "keycloak")) (Some 2%Z)
          zero_PodTemplate 2)
  (put (mkUpstreamRule (named ns "keycloak") [mkRuleGroup "general.rules" [] None])
  empty_world))))))))))))))).

Definition rhsso_ns : string := "redhat-rhoam-rhsso".
Definition sso_common0 (ns : string) : RHSSOCommon.t :=
  RHSSOCommon.SetOperatorNamespace (RHSSOCommon.SetNamespace (RHSSOCommon.New ∅) ns) (ns +:+ "-operator").
Definition rhsso_state0 : RhssoState := mkRhsso (mkSso (RHSSO.mk (sso_common0 rhsso_ns)) manager0 rhmi0) 0.
Definition rhsso_world : FakeWorld := sso_world rhsso_ns "openshift" "rhsso" Rhsso.routeName ProductRHSSO.
Definition no_oauth : string → M FakeWorld (option error) := λ _, mret None.
Definition hot_metrics : list PodMetrics := [mkPodMetrics "keycloak-1" [Some "1900m"]].
#[export] Instance fake_metrics : MetricsClient FakeWorld := {|
  metrics_NewForConfig := mret None; list_PodMetricses _ := mret (inr (Some hot_metrics)) |}.

Abbreviation rhsso_run :=
  (rhsso_Reconcile (Q := Z) (K := unit) m3_declaration no_oauth 0 rhsso_state0 zero_product ServerClient false rhsso_world).
Definition rhsso_default := (rhsso_state0, zero_product, ("", @None error)).
Definition rhsso_after : RhssoState * RHMIProductStatus := (value_of rhsso_run rhsso_default).1.

Lemma rhsso_completed_witness :
  p_Version rhsso_after.2 = "7.6" ∧ p_Host rhsso_after.2 ≠ ""
  ∧ ∃ wf w1, steps_ran (rhsso_steps (Q := Z) (K := unit) m3_declaration 0 ServerClient rhsso_ns (rhsso_ns +:+ "-operator"))
      (mkRhsso (mkSso (rs_cfg rhsso_state0) manager0 (rs_inst rhsso_after.1)) 0) wf rhsso_after.1 w1.
Proof.
  destruct (rhsso_completed (Q := Z) (K := unit) m3_declaration no_oauth 0 rhsso_state0 zero_product ServerClient
    rhsso_world (session_of rhsso_run) rhsso_after.1 rhsso_after.2) as (i & wf & w1 & Hf & Hs & _ & _ & Hh & _).
  - rewrite <- surjective_pairing. apply run_done_fst; vm_compute; reflexivity.
  - split; [vm_compute; reflexivity|]. split; [exact Hh|]. exists wf, w1.
    assert (i = rs_inst rhsso_after.1) as ->; [|exact Hs].
    pose proof (f_equal (λ x, match x.1 with Done (i, _) => i | Panic _ => rhmi0 end) Hf) as Hi. cbn [fst] in Hi.
    rewrite <- Hi. vm_compute. reflexivity.
Defined.

(** ** The users' single sign-on *)

Definition user_ns : string := "redhat-rhoam-user-sso".
Definition rhssouser_state0 : SsoState RHSSOUser.t := mkSso (RHSSOUser.mk (sso_common0 user_ns)) manager0 rhmi0.
Definition rhssouser_world : FakeWorld := sso_world user_ns "master" "rhssouser" RhssoUser.routeName ProductRHSSOUser.
Definition user_quota : QuotaProductConfig Z :=
  mkQPC ProductRHSSOUser (Some {["rhssouser" := mkResourceConfig 3 zero_RR]})
    (Some (mkQuota "1" None true (mkRateLimitConfig "minute" 69))).
Abbreviation rhssouser_run :=
  (rhssouser_Reconcile (Q := Z) (K := unit) m3_declaration no_oauth 0 rhssouser_state0 zero_product ServerClient
     user_quota false rhssouser_world).
Definition rhssouser_default := (rhssouser_state0, zero_product, ("", @None error)).
Definition rhssouser_after : SsoState RHSSOUser.t * RHMIProductStatus := (value_of rhssouser_run rhssouser_default).1.

Lemma rhssouser_completed_witness :
  p_Version rhssouser_after.2 = "7.6" ∧ p_Host rhssouser_after.2 ≠ ""
  ∧ RHSSOUser.GetDevelopersGroupConfigured (so_cfg rhssouser_after.1) = (true, None).
Proof.
  destruct (rhssouser_completed (Q := Z) (K := unit) m3_declaration no_oauth 0 rhssouser_state0 zero_product ServerClient
    user_quota rhssouser_world (session_of rhssouser_run) rhssouser_after.1 rhssouser_after.2)
    as (i & wf & w1 & _ & _ & _ & _ & Hh & _).
  - rewrite <- surjective_pairing. apply run_done_fst; vm_compute; reflexivity.
  - split; [vm_compute; reflexivity|]. split; [exact Hh|vm_compute; reflexivity].
Defined.

(** ** Clean-up *)

Definition rhmi_deleted : RHMI :=
  on_meta (λ _, mkMeta "rhoam" ns0 "" "" 0 0 (Some 1%Z) None None []) rhmi0.
(** A realm keeps its finalizers here, and the deletion takes it away at once. *)
Definition cleanup_world : FakeWorld :=
  put (mkCRD (named "" "keycloaks.keycloak.org"))
  (put (mkRealm (SetFinalizers ["realm.cleanup"] (named rhsso_ns "openshift")) [] None None "")
  empty_world).
Abbreviation cleanup_run := (CleanupKeycloakResources rhmi_deleted ServerClient rhsso_ns cleanup_world).
Lemma realms_go_last_witness :
  is_none (DeletionTimestamp (rhmi_meta rhmi_deleted)) = false
  ∧ ∃ w1, client_list (O := KeycloakRealm) ServerClient (InNamespace rhsso_ns) w1
          = (Done (inr []), session_of cleanup_run).
Proof.
  split; [reflexivity|].
  destruct (realms_go_last (W := FakeWorld) (same (store (O := KeycloakRealm)))) with (inst := rhmi_deleted)
    (c := ServerClient) (ns := rhsso_ns) (w := cleanup_world) (w' := session_of cleanup_run)
    (r := Done (PhaseCompleted, @None error)) as [_ Hd]; try fake_keeps.
  - apply (run_done cleanup_run ("", None)); vm_compute; reflexivity.
  - destruct (Hd eq_refl) as [Ht|[(w1 & He)|Hl]]; [discriminate Ht| |exact Hl].
    pose proof (f_equal (λ x, match x.1 with Done (b, _) => b | Panic _ => true end) He) as Hb.
    vm_compute in Hb. discriminate Hb.
Defined.


(** ** Users of the cluster: one stays, one goes, one is new *)

Definition os_user (n uid : string) : User :=
  mkUser (mkMeta n "" uid "" 0 0 None None None []) ["idp:" +:+ n].
Definition os_identity (n : string) : Identity :=
  mkIdentity (named "" ("idp:" +:+ n)) "idp" n (Some {["email" := n +:+ "@example.com"]}).
Definition kc_user (n uid : string) : KeycloakAPIUser := new_admin (os_user n uid).
Definition kc_user_cr (n uid : string) : KeycloakUser :=
  mkKeycloakUserCR (named rhsso_ns (GetValidGeneratedUserName (kc_user n uid))) None (kc_user n uid) "" "".
Definition users_world : FakeWorld :=
  put (os_user "ann" "1") (put (os_user "bob" "2")
  (put (os_identity "ann") (put (os_identity "bob")
  (put (mkOAuth (named "" "cluster") ["idp"])
  (put (mkGroup (named "" "dedicated-admins") ["bob"])
  (put (kc_user_cr "ann" "1") (put (kc_user_cr "eve" "3") empty_world))))))).
Definition in_keycloak : list KeycloakAPIUser := [kc_user "ann" "1"; kc_user "eve" "3"].
Abbreviation users_run := (syncronizeWithOpenshiftUsers in_keycloak ServerClient rhsso_ns rhmi0 users_world).
Definition users_after : list KeycloakAPIUser :=
  match value_of users_run (inr []) with inr l => l | inl _ => [] end.

Lemma syncronizeWithOpenshiftUsers_spec_witness :
  ∃ active w1, GetUsersInActiveIDPs ServerClient users_world = (Done (inr active), w1)
    ∧ (NoDup ((λ o, Name (user_meta o)) <$> active) → NoDup (kc_UserName <$> users_after))
    ∧ kc_UserName <$> users_after = ["ann"; "bob"].
Proof.
  destruct (syncronizeWithOpenshiftUsers_spec in_keycloak ServerClient rhsso_ns rhmi0 users_world
    (session_of users_run) users_after) as (active & w1 & groups & w2 & w3 & ids & Ha & _ & _ & _ & Hnd).
  - apply (bool_decide_unpack _). vm_compute. exact I.
  - apply (bool_decide_unpack _). vm_compute. exact I.
  - apply (run_done users_run (inr [])); [vm_compute; reflexivity|vm_compute; reflexivity].
  - exists active, w1. split; [exact Ha|]. split; [exact Hnd|vm_compute; reflexivity].
Defined.

(** ** CPU *)

Definition cpu_world : FakeWorld :=
  pass_time (hour_ns) (put (mkStatefulSet (named rhsso_ns "keycloak") (Some 2%Z) zero_PodTemplate 2)
  (put (mkPod (named rhsso_ns "keycloak-1") [] "Running" "") empty_world)).
Abbreviation cpu_run := (CheckCPUUsage (Q := Z) ServerClient rhsso_ns 0 cpu_world).
Lemma CheckCPUUsage_spec_witness :
  store (O := Pod) (session_of cpu_run) = ∅ ∧ (30 * minute_ns ≤ hour_ns)%Z.
Proof.
  destruct (CheckCPUUsage_spec (W := FakeWorld) (Q := Z) (same (store (O := Pod)))) with (c := ServerClient)
    (ns := rhsso_ns) (last := 0%Z) (w := cpu_world) (w' := session_of cpu_run) (last' := hour_ns)
    as [[_ He]|(ss & w1 & wc & pods & pod & u & n & w2 & err & Hg & _ & Ht & _)].
  - fake_keeps.
  - apply preserves_ret. apply _.
  - intros ns. apply preserves_ret. apply _.
  - apply (run_done cpu_run 0%Z); vm_compute; reflexivity.
  - discriminate He.
  - split; [vm_compute; reflexivity|].
    assert (cpu_world = w1) as <- by exact (f_equal snd Hg). exact Ht.
Defined.

(** ** Administrators: ann is demoted, bob is added, eve is gone *)

Abbreviation admins_run := (syncAdminUsersInMasterRealm in_keycloak ServerClient rhsso_ns users_world).
Definition admins_after : list KeycloakAPIUser :=
  match value_of admins_run (inr []) with inr l => l | inl _ => [] end.
Lemma syncAdminUsers_spec_witness :
  (∃ os groups, (∀ a, a ∈ getDedicatedAdmins os groups → ∃ u, u ∈ admins_after ∧ first_uid u = Some (UID (user_meta a))))
  ∧ (λ u, (kc_UserName u, hasAdminPrivileges u)) <$> admins_after = [("ann", false); ("bob", true)].
Proof.
  destruct (syncAdminUsers_spec in_keycloak ServerClient rhsso_ns users_world (session_of admins_run) admins_after)
    as (os & w1 & groups & w2 & _ & _ & _ & Ha & _).
  - apply (bool_decide_unpack _). vm_compute. exact I.
  - apply (bool_decide_unpack _). vm_compute. exact I.
  - unfold in_keycloak. intros u v Hu Hv _ Hl. rewrite !elem_of_cons, elem_of_nil in Hu, Hv.
    destruct Hu as [->|[->|[]]], Hv as [->|[->|[]]]; try reflexivity; discriminate Hl.
  - apply (run_done admins_run (inr [])); vm_compute; reflexivity.
  - split; [exists os, groups; exact Ha|vm_compute; reflexivity].
Defined.

(** ** Roles of groups, on a Keycloak that stores them

    Realm roles by group, client roles by group and client, and the groups
    below a group, as triples of texts. *)

Definition KcWorld : Type := list (string * string * string).
Definition kc_add (x : string * string * string) : M KcWorld (option error) := λ w, (Done None, x :: w).
Definition kc_roles (g cl : string) (w : KcWorld) : list KeycloakRole :=
  omap (λ x, if decide (x.1 = (g, cl)) then Some (mkKeycloakRole "" x.2) else None) w.
Definition refuse {A} : M KcWorld (error + A) := mret (inl (ErrStr "not served")).

#[export] Instance kc_api : KeycloakInterface KcWorld unit := {|
  api_FindUserByUsername _ _ _ := refuse;
  api_DeleteUser _ _ _ := mret None;
  api_GetIdentityProvider _ _ _ := refuse;
  api_CreateIdentityProvider _ _ _ := mret None;
  api_UpdateIdentityProvider _ _ _ := mret None;
  api_CreateAuthenticatorConfig _ _ _ _ _ := mret None;
  api_ListRealms _ := refuse;
  api_ListClients _ _ := mret (inr [("master-realm", "c1")]);
  api_AddUserToGroup _ _ _ _ := mret None;
  api_FindAuthenticationFlowByAlias _ _ _ := refuse;
  api_CreateAuthenticationFlow _ _ _ _ _ _ := mret None;
  api_AddExecutionToAuthenticatonFlow _ _ _ _ _ := mret None;
  api_ListAuthenticationExecutionsForFlow _ _ _ := refuse;
  api_FindAuthenticationExecutionForFlow _ _ _ _ := refuse;
  api_UpdateAuthenticationExecutionForFlow _ _ _ _ := mret None;
  api_FindGroupByName _ _ _ := mret (inr None);
  api_FindGroupByPath _ _ _ := refuse;
  api_CreateGroup _ n _ := mret (inr ("id of " +:+ n));
  api_MakeGroupDefault _ _ _ := mret None;
  api_SetGroupChild _ p _ g := kc_add (p, "child", kg_ID g);
  api_CreateGroupClientRole _ r _ cl g := kc_add (g, "client " +:+ cl, role_Name r);
  api_ListAvailableGroupClientRoles _ _ _ _ := mret (inr (map (mkKeycloakRole "") realmManagersClientRoles));
  api_ListGroupClientRoles _ _ cl g := reads (λ w, inr (kc_roles g ("client " +:+ cl) w));
  api_CreateGroupRealmRole _ r _ g := kc_add (g, "realm", role_Name r);
  api_ListGroupRealmRoles _ _ g := reads (λ w, inr (kc_roles g "realm" w));
  api_ListAvailableGroupRealmRoles _ _ _ := mret (inr [mkKeycloakRole "" "create-realm"]);
|}.
Definition holds_realm_role (w : KcWorld) (g r : string) : Prop := (g, "realm", r) ∈ w.
Definition holds_client_role (w : KcWorld) (g cl r : string) : Prop := (g, "client " +:+ cl, r) ∈ w.
Definition holds_child (w : KcWorld) (p g : string) : Prop := (p, "child", g) ∈ w.
Definition is_client (realm n cl : string) : Prop := n = "master-realm" ∧ cl = "c1".

Abbreviation kc_grows := (grows holds_realm_role holds_client_role holds_child).
Lemma kc_add_grows x : preserves kc_grows (kc_add x).
Proof. intros w r w' [= <- <-]. split_and!; intros; by right. Qed.
Lemma kc_roles_in g cl w x : x ∈ kc_roles g cl w → (g, cl, role_Name x) ∈ w.
Proof.
  intros ([[a b] r] & Hin & Hx)%list_elem_of_omap. cbn [fst snd] in Hx.
  destruct (decide ((a, b) = (g, cl))) as [[= -> ->]|]; [|done]. by injection Hx as <-.
Qed.
#[export] Instance kc_roles_api : RolesApi tt holds_realm_role holds_client_role holds_child is_client.
Proof.
  split; try (intros; first [apply kc_add_grows | apply preserves_ret, grows_preorder | apply preserves_reads, grows_preorder]).
  - intros r w l w' Hl kv. injection Hl as <- <-. intros ->%list_elem_of_singleton. done.
  - intros r cl g w l w' Hl x Hx. injection Hl as <- <-. by apply kc_roles_in.
  - intros x r cl g w w' Ha. injection Ha as <-. left.
  - intros r g w l w' Hl x Hx. injection Hl as <- <-. by apply kc_roles_in.
  - intros x r g w w' Ha. injection Ha as <-. left.
  - intros g r x w w' Ha. injection Ha as <-. left.
Qed.

Abbreviation group_run := (reconcileGroup tt dedicated_admins_group ([] : KcWorld)).
